(* ===== verification/_CoqProject ===== *)
-Q . S2P
Prelude.v
Hoare.v
Layout.v
OnDisk.v
Device.v
BlockPc.v
Md5.v
Md5Spec.v
Md5Sine.v
Md5Correct.v
Md5Digest.v
PcHost.v
Md5Witnesses.v
BlockSd.v
SdProtocol.v
SdCsd.v
SdDisk.v
SdFaults.v
SdSample.v
Partition.v
Context.v
Bitmap.v
Super.v
Copies.v
FileBuf.v
Inode.v
BlockMap.v
Alloc.v
Truncate.v
FileIo.v
FileSpec.v
Files.v
Grow.v
Directory.v
Walk.v
Lookup.v
DeviceInv.v
FileSystem.v
Volume.v
Append.v
Create.v
Reopen.v
Persist.v
Debug.v
Typing.v
TypingFile.v
System.v
Sample.v
Witnesses.v
FileWitnesses.v
SystemWitnesses.v
ReleaseWitnesses.v
CreateWitnesses.v
DeepWitnesses.v
TwinWitnesses.v
SessionWitnesses.v
