(* ===== verification/Prelude.v ===== *)
(** * Embext: a verification development for the EXT2 driver

    [embext] is an EXT2 driver in C for small targets: it mounts a volume through
    a block device, finds files by path, and reads, writes, creates and
    truncates them. This development translates the driver into executable
    definitions and proves what they do. This file is its root: the guide to the
    development, then the definitions and lemmas every other file uses.

    ** How the program is modelled

    A C function is a definition of the same name. A C integer is a [Z] and every
    conversion or operation that can leave its type goes through a wrap function
    ([u8], [u16], [u32], [u64], [s32]); a byte array is a [list Z] of bytes. A
    function that changes state is a computation [M S A]: from a state of type
    [S] to [res (A * S)], where [Fault] stands for what C leaves undefined, an
    access outside an array, a division by zero, an overflowing shift, the use of
    an uninitialised variable or of a freed pointer. An error the code handles is
    not a fault: it is the return code, with [*rerrno] in the state. A loop is
    [for_loop] or [scan_loop] (a [for] with a [return] or a [break] in its body) or
    a [Fixpoint] with fuel. [wp] is the total-correctness reading of a
    computation: it does not fault, and its result satisfies the postcondition.

    There are three layers of state. A driver has its own type [D] and implements
    the class [BlockDevice]; [cst D] is a mounted file system, the [struct
    ext2context] with the device under it and the caller's [*rerrno]; [file_state
    D] is one open file, the [struct file_ent], with the mounted file system it
    points to. [zoom] runs a computation of one layer inside the next, as a C
    function calls another with a pointer to a part of its state. [system D] is a
    mounted file system with all its open files, and [step] one call on it.

    [wp] states that a function returns and what then holds; [hoare] only the
    second, for everything no path of the code may break, errors included.

    ** The files

    - [Prelude]: integers, faults, the monad, loops, memory accesses, lists of
      bytes and bits, with the hint databases [embext] (ranges of wrapped values)
      and [bytes] (well-formed byte lists).
    - [Hoare]: partial-correctness triples, invariants ([keeps]) and the tactics
      that follow the structure of the code; hint database [hoare]. Refinement: a
      specification is a computation on abstract states ([matches]), [simulates]
      relates one step of it to one of the code, [simulates_run] sequences of them.
    - [Layout]: packed structures as lists of little-endian fields; [CStruct] is
      the interface, [CStructLaws] what every structure proves.
    - [OnDisk]: the structures of [src/src/embext.h] and [embext_directory.h]:
      [superblock], [block_group_descriptor], [inode], [ext2_dir_header].
    - [Device]: the interface of [src/src/block.h] ([BlockDevice]) and its contract
      ([BlockView], [BlockDeviceLaws]): a device is an array of 512-byte sectors.
    - [BlockPc]: [src/src/block_drivers/block_pc.c], the driver that keeps an image
      in memory; it is an instance of the contract.
    - [Md5]: [src/test/hash.c], the hash of the host tests. [Md5Spec]: MD5 as RFC
      1321 defines it, over any table; [Md5Sine]: the table of the RFC over the
      reals, and that the constants of the code are it. [Md5Correct]: words, rounds
      and the streaming invariant; [Md5Digest]: the digest of streams, memory and
      files. [PcHost]: the image name and the hashes of the host driver.
      [Md5Witnesses]: the test vector of the RFC.
    - [BlockSd]: [src/src/block_drivers/block_sd.c], the driver of SD cards, over
      [Board], the SPI and GPIO operations it calls. [SdProtocol]: what a card
      answers to the bytes of an exchange, and the driver's functions along it.
      [SdCsd]: the card-specific data. [SdDisk]: [SdCard], the contract of a card,
      and the driver as an array of sectors. [SdFaults]: cards that break the
      contract. [SdSample]: a simulated card, and the theorems applied to it.
    - [Partition]: [src/src/partition.c], the MBR partition table.
    - [Context]: [struct ext2context], the system buffer, [ext2_block_size],
      [ext2_get_bg_descriptor], [ext2_write_bg_descriptor].
    - [Bitmap]: [ext2_change_allocated].
    - [Super]: [is_power], [ext2_flush_superblock], [ext2_mount], [ext2_umount], and
      the pointer they leave to the caller ([p_mount], [p_umount]). [Copies]: the
      superblock copies of the EXT2 format, and which of them the two keep.
    - [FileBuf]: [struct file_ent], its write-back sector buffer, and [view].
    - [Inode]: [ext2_open_inode], [ext2_flush_inode], the time updates.
    - [BlockMap]: [ext2_block_from_offset] and the reference walk [map_block].
    - [Alloc]: [ext2_allocate_inode], [ext2_allocate_block], [ext2_truncate_file].
      [Truncate]: the tree of the blocks of a file ([tree_blocks]), what of it the
      code frees ([truncated_blocks]), and the truncation against both.
    - [FileIo]: [ext2_select_buffer], [ext2_read], [ext2_write], [ext2_lseek],
      [ext2_fstat], [ext2_isatty], [ext2_close]. The [h_] definitions are the same
      functions on the [void] pointer of the caller, which can be null or dangle.
      [Grow]: writes where the file has no block yet.
    - [FileSpec]: what an open file promises, an array of bytes with a size and a
      cursor ([byte_file]), and that the operations of [FileIo] implement it.
      [Files]: several open files on one device, which leave each other alone.
    - [Directory]: [ext2_readdir], [ext2_lookup_path], [ext2_open], and
      [ext2_append_to_directory] of [src/src/embext_directory.c].
    - [Walk]: the reference walk of a path through directories, and the geometry of
      a mounted volume it depends on ([same_geometry]). [Lookup]: [ext2_lookup_path]
      and [ext2_open] against it. [Append]: the records of a directory, an
      array of bytes over one or several blocks, as a [chain], and
      [ext2_append_to_directory] on it. [Create]: the creation of
      a file in a directory with room for its entry, through all of the above. [Reopen]: opening with
      [O_TRUNC], then closing. [Persist]: writing, closing, opening and reading.
    - [FileSystem]: what the driver promises for a set of files, a table of byte
      arrays ([fs_spec]), and that [ext2_open], the operations of [FileIo] and
      [ext2_close] implement it. [DeviceInv]: a predicate that every write of a device
      keeps is kept by every call. [Volume]: sessions of mounting, calls and unmounting.
    - [Debug]: [ext2_print_inode] and [ext2_print_bg1_bitmap].
    - [Typing], [TypingFile]: what no function breaks, for the mounted file system
      and for open files. [System]: histories of calls on many open files.
    - [Sample], [Witnesses], [FileWitnesses], [SystemWitnesses], [ReleaseWitnesses],
      [CreateWitnesses], [DeepWitnesses], [TwinWitnesses], [SessionWitnesses]: a 16
      KiB volume held by the host driver, variants of it with a subdirectory of
      two blocks and with two files, and every property with hypotheses applied to them.

    From [Context] on, every file is parametrised by a device with its contract,
    so its theorems hold for every driver; [Sample] instantiates them with the
    host driver. The SD driver does not implement [BlockDevice], in which a read
    leaves the device as it is: reading changes the state of a card. Its contract
    is a refinement of its own, [sd_driver_refines_disk].

    ** The abstract view

    The reader of an open file sees its sector buffer before the device. [view s]
    is the device with a dirty buffer stored. Loading and storing the buffer leave
    the view alone, and a write to the buffer is a write to one sector of the view:
    the theorems on files are about the view, and [ext2_close] makes the device
    equal to it. Well-formedness is [fs_ok] (a context whose fields fit their types,
    on a usable device) and [file_ok] (and a buffer that belongs to a sector of the
    volume). The theorems on operations that change the device say which sectors
    differ afterwards; the others say that none does.

    Above the view is the array: [abstract bl s] reads the bytes of the file with
    the blocks [bl] off its view. [represents] relates a table of such arrays,
    stored or open, to a mounted volume with a buffer for each open file;
    [volume_holds] relates the stored ones to a volume that is not mounted.

    ** What the theorems show

    - The file system as a whole: a mounted volume on which a set of files lie
      apart from each other implements a table of byte arrays: any interleaving of
      opening, reading, writing, seeking, asking for the status and closing gives
      the answers of the table, and no sector but those of the files and their
      inodes changes ([file_system_refines]). One open file is one array, errors
      and [errno] included ([file_refines_bytes]). The table outlives the mount: in
      any sequence of sessions of mounting, calls and unmounting, what one session
      stored the next one finds ([volume_keeps_files]).
    - Layout: both round trips of every structure, and the byte offsets of the
      members the driver decides on.
    - Device: the host driver is an array of sectors, from [block_init] on. The SD
      driver brings up every card that follows the protocol and serves every
      sequence of requests as an array of sectors; the geometry it computes is that
      of the register by the formulas of the SD specification on cards of up to 512
      GiB, and too small on larger ones; what an
      initialisation can end in, on any hardware; when a read returns, and what a
      write returns.
    - Hashes: [md5_start], [md5_update] and [md5_finish] compute the MD5 of RFC 1321
      however the message is cut ([md5_streams_rfc1321]); the hash of the image the
      host driver holds is the hash of its file ([image_hash_matches_file]).
      The table of the RFC is defined by sines of real numbers, so these theorems
      rest on the axioms of the Standard Library's reals; nothing else rests on any.
    - Types and histories: every call preserves the types of context, buffers,
      inodes and device, on any volume ([call_preserves_types]); in every history
      they hold, the geometry is fixed and closed files stay closed
      ([reachable_invariant]); a file opened for reading only never changes the
      device before it is closed ([read_only_session_never_writes]).
    - Mounting: a valid volume is mounted, and the copies of the superblock that the
      driver keeps ([kept_copy]) say so where the EXT2 format puts them; unmounting
      marks them clean. These are all copies on volumes with blocks of 1 KiB and, with
      the sparse feature, up to nine groups; on others some are missed, and with
      larger blocks the first sector is overwritten. Nothing else changes. A wrong
      magic number, or a size of more than twice the device's, is refused without a
      write, and nothing else is ([mount_refuses]). The partition table is read
      against the bytes of the boot sector ([read_partition_table_spec]).
    - Allocation: [ext2_change_allocated] changes one bit and the counters, is
      undone by its opposite ([change_allocated_roundtrip]), and refuses to allocate
      twice; [ext2_allocate_inode]
      takes the first free inode of the group with the most of them;
      [ext2_allocate_block] finds the first free block and claims the one after it;
      [ext2_truncate_file] releases the blocks of a file without holes in its index
      blocks and without a triply indirect block, and nothing else
      ([truncate_releases_tree]); below a triply indirect block it releases nothing
      of the file ([triple_tree_leaked]).
    - Files: [ext2_block_from_offset] implements the tree walk; a read returns the
      bytes of the view, a write replaces them; flushing an inode and opening it again
      agree; closing stores everything. A write where the file has no block allocates
      one and writes to it ([write_into_hole], [first_write_read_back]), and what it
      wrote is read again after the file was closed and opened by its path
      ([first_write_persists]).
    - Directories: [ext2_readdir] returns the record under the cursor; the path
      parser splits a path into its elements; [ext2_lookup_path] implements the
      reference walk ([walk]), and [ext2_open] of an existing path returns a file on
      the inode it leads to, or the error its flags demand; a missing path is
      refused. [ext2_append_to_directory] adds one entry to what a reading of the
      directory lists ([append_adds_entry]), when its last record has room for the
      entry, and a file created in such a directory is found by the next lookup, its
      inode on the device ([create_file_found]).
    - Termination: the mutual recursion of [ext2_open] and
      [ext2_append_to_directory] is two deep; enough fuel for every loop is part of
      the theorems on it.
    - Defects: lemmas and theorems whose name says what goes wrong
      ([transfers_overrun_buffer], [truncation_not_written_back], [triple_tree_leaked],
      [sparse_groups_missed], [entry_valid_overflow], [flush_misses_primary],
      [change_allocated_misses_bitmap], [write_bg_descriptor_writes_nothing],
      [block_read_alias], [full_directory_loses_block] and others) state the
      behaviour the code has where a comment or the format says otherwise. The
      hypotheses of the functional theorems exclude these cases: transfers stay in
      one 512-byte sector, because the buffer functions take the block size for
      the size of the buffer.

    ** Fuel and bounds

    [is_power_loop] has 32 rounds: the quotient at least halves a 32-bit integer,
    and [is_power_correct] proves it returns. [read_loop] and [write_loop] have as
    many rounds as bytes, since a round moves one byte at least. A [for] loop has
    the number of rounds its C bound gives. [ext2_open_rec] has depth 1, and
    [open_depth_enough] proves more depth changes nothing. [find_entry] and
    [last_record] walk records of a directory on disk, and a zero record length
    makes the C loops run forever: their fuel is an argument, and exhausting it
    is the fault [OutOfFuel], never a result. The loops of the SD driver that wait
    for the card have no bound in the code either: [sc_patience] of the contract
    is how long a card keeps the driver waiting, and as much fuel is enough;
    [sd_read_returns_iff_token] says when some fuel is. The bitmap printer needs
    as many rounds as a block has sectors. The loops of MD5 get as many rounds as
    there are whole blocks, or whole buffers, and the properties prove they return.

    ** The target

    [size_t] has 64 bits, so [cursor % sizeof(buffer)] is an unsigned remainder of
    64 bits, and [char] buffers hold bytes; the [O_] and [errno] values are those
    of Linux, where the host tests run. [malloc], [time], [getuid] and [getgid] are
    the class [Env]; a counter in the state says how often they were called.

    ** Not modelled

    The host test program [src/test/test_embext.c], a script of calls on a fixed
    image. The registers behind the SPI and GPIO calls belong to a
    library that is not in the repository. The [printf] calls outside the debug
    printers change nothing. The files [block_pc.c] reads and writes are arguments
    and results of its operations. [ext2_delete_from_directory] has an empty body.

    Every function of the driver is a definition, but not every case of it is in a
    theorem of full strength. The branch of [append_entry] for a directory whose
    last block is full has the theorems on types and an instance on a concrete
    volume, [full_directory_loses_block]: the block it allocates is lost, so there
    is no contract to state. The walk of a path reads directories of any number of
    blocks; appending and creation are about directories of direct blocks, twelve at
    most. The table of byte arrays has no creations, no truncations and no writes
    that need a block: the theorems on these are about one file at a time
    ([create_file_found], [truncation_not_written_back], [write_into_hole]), because
    the allocator claims the block after the free one it found, which may belong to
    another file. *)
From Stdlib Require Export ZArith Lia.
From stdpp Require Export base tactics list numbers.
#[global] Open Scope Z_scope.
#[global] Set Default Goal Selector "!".


Create HintDb embext.
Create Rewrite HintDb embext.
Create HintDb bytes.

(** ** Machine integers

    A C integer is a [Z]; every conversion and every operation that can leave
    the range of its type goes through one of these wrap functions. *)
Definition u8 (z : Z) : Z := z mod 256.
Definition u16 (z : Z) : Z := z mod 65536.
Definition u32 (z : Z) : Z := z mod 4294967296.
Definition u64 (z : Z) : Z := z mod 18446744073709551616.
Definition s32 (z : Z) : Z := (z + 2147483648) mod 4294967296 - 2147483648.

Lemma u8_id z : 0 <= z < 256 -> u8 z = z.
Proof. apply Z.mod_small. Qed.
Lemma u16_id z : 0 <= z < 65536 -> u16 z = z.
Proof. apply Z.mod_small. Qed.
Lemma u32_id z : 0 <= z < 4294967296 -> u32 z = z.
Proof. apply Z.mod_small. Qed.
Lemma u64_id z : 0 <= z < 18446744073709551616 -> u64 z = z.
Proof. apply Z.mod_small. Qed.
Lemma s32_id z : -2147483648 <= z < 2147483648 -> s32 z = z.
Proof. intros ?. unfold s32. rewrite Z.mod_small; lia. Qed.
Lemma u8_range z : 0 <= u8 z < 256.
Proof. apply Z.mod_pos_bound; lia. Qed.
Lemma u16_range z : 0 <= u16 z < 65536.
Proof. apply Z.mod_pos_bound; lia. Qed.
Lemma u32_range z : 0 <= u32 z < 4294967296.
Proof. apply Z.mod_pos_bound; lia. Qed.
Lemma u32_add_u32_l a b : u32 (u32 a + b) = u32 (a + b).
Proof. apply Zplus_mod_idemp_l. Qed.
Lemma u32_add_u32_r a b : u32 (a + u32 b) = u32 (a + b).
Proof. apply Zplus_mod_idemp_r. Qed.
Lemma u32_mul_u32_l a b : u32 (u32 a * b) = u32 (a * b).
Proof. apply Zmult_mod_idemp_l. Qed.
Lemma u32_mul_u32_r a b : u32 (a * u32 b) = u32 (a * b).
Proof. apply Zmult_mod_idemp_r. Qed.
Lemma u32_idem a : u32 (u32 a) = u32 a.
Proof. apply Zmod_mod. Qed.
Lemma u32_add_u32_ll a b c : u32 (u32 a + b + c) = u32 (a + b + c).
Proof. by rewrite <- !Z.add_assoc, u32_add_u32_l. Qed.
#[export] Hint Rewrite u32_add_u32_ll u32_add_u32_l u32_add_u32_r u32_mul_u32_l u32_mul_u32_r u32_idem : embext.
#[export] Hint Resolve u8_range u16_range u32_range : embext.

(** ** Faults and results

    A run of C code either returns or does something the C standard gives no
    meaning to; a loop that is still running when its fuel is used up is
    reported as [OutOfFuel] and never as a result. *)
Inductive fault : Type :=
| OutOfBounds     (** an access outside an array or an allocation *)
| DivByZero       (** an integer division or remainder by zero *)
| BadShift        (** a shift by the width or more, or a signed overflow *)
| Uninit          (** the value of an uninitialised variable is used *)
| NullDeref       (** a null pointer is dereferenced *)
| BadPointer      (** a pointer to freed memory is dereferenced *)
| OutOfFuel.      (** the loop bound of the model is used up *)

#[export] Instance fault_eq_dec : EqDecision fault.
Proof. solve_decision. Defined.

Inductive res (A : Type) : Type :=
| Ok (a : A)
| Fault (f : fault).
Arguments Ok {A} _.
Arguments Fault {A} _.

#[export] Instance res_ret : MRet res := @Ok.
#[export] Instance res_bind : MBind res := fun A B k r =>
  match r with Ok a => k a | Fault f => Fault f end.

(** [uint32_t] shifted left. *)
Definition shl32 (x n : Z) : res Z := if n <? 32 then Ok (u32 (Z.shiftl x n)) else Fault BadShift.

Definition is_ok {A} (r : res A) : bool := if r is Ok _ then true else false.

(** ** The state monad of the model: explicit state passing over [res]. *)
Definition M (S A : Type) : Type := S -> res (A * S).

#[export] Instance M_ret S : MRet (M S) := fun A a s => Ok (a, s).
#[export] Instance M_bind S : MBind (M S) := fun A B k m s =>
  match m s with Ok (a, s') => k a s' | Fault f => Fault f end.

Definition gets {S A} (f : S -> A) : M S A := fun s => Ok (f s, s).
Definition modify {S} (f : S -> S) : M S unit := fun s => Ok (tt, f s).
Definition lift {S A} (r : res A) : M S A := fun s =>
  match r with Ok a => Ok (a, s) | Fault f => Fault f end.
Definition throw {S A} (f : fault) : M S A := fun _ => Fault f.

(** Run a computation over a part of the state, as C does through a pointer. *)
Definition zoom {S T A} (get : S -> T) (put : T -> S -> S) (m : M T A) : M S A := fun s =>
  match m (get s) with Ok (a, t) => Ok (a, put t s) | Fault f => Fault f end.

Section monad_laws.
Context {S A B : Type}.
Implicit Types (m : M S A) (k : A -> M S B) (s : S).

Lemma bind_ok m k s a s' : m s = Ok (a, s') -> (m ≫= k) s = k a s'.
Proof. intros H. unfold mbind, M_bind. by rewrite H. Qed.

Lemma bind_fault m k s f : m s = Fault f -> (m ≫= k) s = Fault f.
Proof. intros H. unfold mbind, M_bind. by rewrite H. Qed.

Lemma bind_gets (f : S -> A) k s : (gets f ≫= k) s = k (f s) s.
Proof. done. Qed.

Lemma bind_modify (f : S -> S) (k : unit -> M S B) s : (modify f ≫= k) s = k tt (f s).
Proof. done. Qed.

Lemma bind_ret (a : A) k s : (mret a ≫= k) s = k a s.
Proof. done. Qed.

Lemma bind_lift (r : res A) k s a : r = Ok a -> (lift r ≫= k) s = k a s.
Proof. by intros ->. Qed.

Lemma bind_ret_r (m : M S A) s : (m ≫= mret) s = m s.
Proof. unfold mbind, M_bind. by destruct (m s) as [[]|]. Qed.

Lemma bind_ext m k k' s : (forall a t, k a t = k' a t) -> (m ≫= k) s = (m ≫= k') s.
Proof. intros Hk. unfold mbind, M_bind. destruct (m s) as [[a t]|]; [apply Hk | done]. Qed.

Lemma zoom_ok {T} (get : S -> T) (put : T -> S -> S) (m : M T A) s a t :
  m (get s) = Ok (a, t) -> zoom get put m s = Ok (a, put t s).
Proof. intros H. unfold zoom. by rewrite H. Qed.
End monad_laws.

(** ** Total-correctness postconditions

    [wp m Q s]: from [s] the computation returns (no fault, fuel enough) and
    [Q] holds of its result and final state. *)
Definition wp {S A} (m : M S A) (Q : A -> S -> Prop) (s : S) : Prop :=
  match m s with Ok (a, s') => Q a s' | Fault _ => False end.

Section wp_rules.
Context {S : Type}.

Lemma wp_run {A} (m : M S A) Q s a s' : m s = Ok (a, s') -> Q a s' -> wp m Q s.
Proof. intros H HQ. unfold wp. by rewrite H. Qed.

Lemma wp_elim {A} (m : M S A) Q s : wp m Q s -> exists a s', m s = Ok (a, s') /\ Q a s'.
Proof. unfold wp. destruct (m s) as [[a s']|f]; [eauto | done]. Qed.

Lemma wp_mono {A} (m : M S A) (P Q : A -> S -> Prop) s :
  wp m P s -> (forall a s', P a s' -> Q a s') -> wp m Q s.
Proof. unfold wp. destruct (m s) as [[a s']|f]; auto. Qed.

Lemma wp_ret {A} (a : A) (Q : A -> S -> Prop) s : Q a s -> wp (mret a) Q s.
Proof. done. Qed.

Lemma wp_bind {A B} (m : M S A) (k : A -> M S B) Q s :
  wp m (fun a s' => wp (k a) Q s') s -> wp (m ≫= k) Q s.
Proof. unfold wp, mbind, M_bind. by destruct (m s) as [[a s']|f]. Qed.

Lemma wp_gets {A} (f : S -> A) (Q : A -> S -> Prop) s : Q (f s) s -> wp (gets f) Q s.
Proof. done. Qed.

Lemma wp_modify (f : S -> S) (Q : unit -> S -> Prop) s : Q tt (f s) -> wp (modify f) Q s.
Proof. done. Qed.

Lemma wp_lift {A} (r : res A) a (Q : A -> S -> Prop) s : r = Ok a -> Q a s -> wp (lift r) Q s.
Proof. by intros ->. Qed.

Lemma wp_zoom {T A} (get : S -> T) (put : T -> S -> S) (m : M T A) (Q : A -> S -> Prop) s :
  wp m (fun a t => Q a (put t s)) (get s) -> wp (zoom get put m) Q s.
Proof. unfold wp, zoom. by destruct (m (get s)) as [[a t]|f]. Qed.
End wp_rules.

(** ** Loops

    [for_loop n i body]: the C loop [for(; count n times; i++)]. The body ends
    with [Some b] at a [break] or a [return] (carrying [b]) and with [None]
    otherwise; the result is the final [i] with what the loop broke with. *)
Fixpoint for_loop {S B} (n : nat) (i : Z) (body : Z -> M S (option B)) : M S (Z * option B) :=
  match n with
  | O => mret (i, None)
  | Datatypes.S n' =>
      r ← body i;
      match r with
      | Some b => mret (i, Some b)
      | None => for_loop n' (i + 1) body
      end
  end.

Lemma wp_for {S B} (body : Z -> M S (option B)) (I : Z -> S -> Prop)
    (Q : Z * option B -> S -> Prop) n i s :
  I i s ->
  (forall j t, i <= j < i + Z.of_nat n -> I j t ->
     wp (body j) (fun r t' => match r with Some b => Q (j, Some b) t' | None => I (j + 1) t' end) t) ->
  (forall t, I (i + Z.of_nat n) t -> Q (i + Z.of_nat n, None) t) ->
  wp (for_loop n i body) Q s.
Proof.
  revert i s. induction n as [|n IH]; intros i s HI Hbody Hend; cbn [for_loop].
  - apply wp_ret. rewrite <- (Z.add_0_r i). apply Hend. by rewrite Z.add_0_r.
  - apply wp_bind. eapply wp_mono; [apply Hbody; [lia | done]|].
    intros [b|] t Ht; cbn beta iota in *.
    + by apply wp_ret.
    + replace (i + Z.of_nat (Datatypes.S n)) with (i + 1 + Z.of_nat n) in Hend by lia.
      apply IH; [done | | done].
      intros j u Hj HIj. apply Hbody; [lia | done].
Qed.

(** [scan_loop n i a body]: the same loop with local variables [a]; the body says whether it
    breaks. The result is the final [i] and the final variables. *)
Fixpoint scan_loop {S A} (n : nat) (i : Z) (a : A) (body : Z -> A -> M S (A * bool)) : M S (Z * A) :=
  match n with
  | O => mret (i, a)
  | Datatypes.S n' =>
      '(a', brk) ← body i a;
      if (brk : bool) then mret (i, a') else scan_loop n' (i + 1) a' body
  end.

Lemma wp_scan {S A} (body : Z -> A -> M S (A * bool)) (I : Z -> A -> S -> Prop)
    (Q : Z * A -> S -> Prop) n i a s :
  I i a s ->
  (forall j b t, i <= j < i + Z.of_nat n -> I j b t ->
     wp (body j b) (fun r t' => if snd r : bool then Q (j, fst r) t' else I (j + 1) (fst r) t') t) ->
  (forall b t, I (i + Z.of_nat n) b t -> Q (i + Z.of_nat n, b) t) ->
  wp (scan_loop n i a body) Q s.
Proof.
  revert i a s. induction n as [|n IH]; intros i a s HI Hbody Hend; cbn [scan_loop].
  - apply wp_ret. rewrite <- (Z.add_0_r i). apply Hend. by rewrite Z.add_0_r.
  - apply wp_bind. eapply wp_mono; [apply Hbody; [lia | done]|].
    intros [a' brk] t Ht; cbn [fst snd] in Ht; cbn beta iota. destruct brk; [by apply wp_ret|].
    replace (i + Z.of_nat (Datatypes.S n)) with (i + 1 + Z.of_nat n) in Hend by lia.
    apply IH; [done | | done].
    intros j b u Hj HIj. apply Hbody; [lia | done].
Qed.

(** What every iteration relates, the loop relates. *)
Lemma for_loop_rel {S B} (R : relation S) `{!PreOrder R} (body : Z -> M S (option B)) n i s r s' :
  (forall j t b t', body j t = Ok (b, t') -> R t t') ->
  for_loop n i body s = Ok (r, s') -> R s s'.
Proof.
  intros Hbody. revert i s. induction n as [|n IH]; intros i s; cbn [for_loop].
  - intros [= _ ->]. reflexivity.
  - unfold mbind, M_bind. destruct (body i s) as [[b t]|f] eqn:Hb; [|done].
    apply Hbody in Hb. destruct b as [b|].
    + by intros [= _ ->].
    + intros Hrun. etransitivity; [exact Hb | by eapply IH].
Qed.

(** Decomposes a successful run into the successful runs of its parts. *)
Lemma bind_inv {S A B} (m : M S A) (k : A -> M S B) s r :
  (m ≫= k) s = Ok r -> exists a t, m s = Ok (a, t) /\ k a t = Ok r.
Proof. unfold mbind, M_bind. destruct (m s) as [[a t]|f]; [eauto | done]. Qed.

Lemma lift_inv {S A} (r : res A) (s : S) a t : lift r s = Ok (a, t) -> r = Ok a /\ t = s.
Proof. unfold lift. destruct r; [by intros [= -> ->] | done]. Qed.

Ltac run_inv H :=
  lazymatch type of H with
  | (_ ≫= _) _ = Ok _ =>
      let a := fresh "a" in let t := fresh "t" in let H1 := fresh "Hrun" in
      apply bind_inv in H as (a & t & H1 & H); run_inv H1; cbn beta iota in H; run_inv H
  | lift _ _ = Ok _ =>
      let H1 := fresh "Hres" in apply lift_inv in H as [H1 ?]; subst
  | gets _ _ = Ok _ => injection H as ? ?; subst
  | modify _ _ = Ok _ => injection H as ? ?; subst
  | mret _ _ = Ok _ => injection H as ? ?; subst
  | _ => idtac
  end.

(** ** Bytes and byte arrays

    An array of [uint8_t] is a list of integers in [0, 256); offsets are [Z]
    as in the code, and every access is checked against the array's length. *)
Definition is_byte (b : Z) : Prop := 0 <= b < 256.
Definition bytes_ok (l : list Z) : Prop := Forall is_byte l.

#[export] Instance is_byte_dec b : Decision (is_byte b).
Proof. unfold is_byte. apply _. Defined.

(** [n] bytes of [l] from [off] on; what [memcpy] copies. *)
Definition slice (off n : Z) (l : list Z) : list Z := take (Z.to_nat n) (drop (Z.to_nat off) l).

(** [l] with the bytes from [off] on overwritten by [new]. *)
Definition splice (off : Z) (new l : list Z) : list Z :=
  take (Z.to_nat off) l ++ new ++ drop (Z.to_nat off + length new) l.

(** Checked reads and writes of an array of [length l] bytes. *)
Definition mem_read (l : list Z) (off n : Z) : res (list Z) :=
  if decide (0 <= off /\ 0 <= n /\ off + n <= Z.of_nat (length l))
  then Ok (slice off n l) else Fault OutOfBounds.
Definition mem_write (l : list Z) (off : Z) (new : list Z) : res (list Z) :=
  if decide (0 <= off /\ off + Z.of_nat (length new) <= Z.of_nat (length l))
  then Ok (splice off new l) else Fault OutOfBounds.

(** An indexed read of an array of integers. *)
Definition arr_get (l : list Z) (i : Z) : res Z :=
  if decide (0 <= i) then
    match l !! Z.to_nat i with Some v => Ok v | None => Fault OutOfBounds end
  else Fault OutOfBounds.

Section byte_arrays.
Implicit Types (l new : list Z) (off n : Z).

Lemma length_slice off n l :
  0 <= off -> 0 <= n -> off + n <= Z.of_nat (length l) -> length (slice off n l) = Z.to_nat n.
Proof. intros. unfold slice. rewrite length_take, length_drop. lia. Qed.

Lemma length_splice off new l :
  0 <= off -> off + Z.of_nat (length new) <= Z.of_nat (length l) ->
  length (splice off new l) = length l.
Proof. intros. unfold splice. rewrite !length_app, length_take, length_drop. lia. Qed.

Lemma slice_splice_same off new l :
  0 <= off -> off + Z.of_nat (length new) <= Z.of_nat (length l) ->
  slice off (Z.of_nat (length new)) (splice off new l) = new.
Proof.
  intros. unfold slice, splice. rewrite Nat2Z.id, drop_app_length' by (rewrite length_take; lia).
  by rewrite take_app_length.
Qed.

Lemma lookup_slice off n l i :
  0 <= off -> (i < Z.to_nat n)%nat -> slice off n l !! i = l !! (Z.to_nat off + i)%nat.
Proof. intros. unfold slice. by rewrite lookup_take_lt, lookup_drop by lia. Qed.

Lemma lookup_splice_out off new l i :
  0 <= off -> off + Z.of_nat (length new) <= Z.of_nat (length l) ->
  (i < Z.to_nat off \/ Z.to_nat off + length new <= i)%nat -> splice off new l !! i = l !! i.
Proof.
  intros ? ? [Hi|Hi]; unfold splice.
  - rewrite lookup_app_l by (rewrite length_take; lia). by rewrite lookup_take_lt by lia.
  - rewrite lookup_app_r by (rewrite length_take; lia).
    rewrite lookup_app_r by (rewrite length_take; lia).
    rewrite lookup_drop, length_take. f_equal. lia.
Qed.

Lemma lookup_splice_in off new l i :
  0 <= off -> off + Z.of_nat (length new) <= Z.of_nat (length l) ->
  (Z.to_nat off <= i < Z.to_nat off + length new)%nat -> splice off new l !! i = new !! (i - Z.to_nat off)%nat.
Proof.
  intros ? ? Hi. unfold splice. rewrite lookup_app_r by (rewrite length_take; lia).
  rewrite length_take, Nat.min_l by lia. apply lookup_app_l. lia.
Qed.

Lemma slice_splice_disjoint off new l off' n :
  0 <= off -> off + Z.of_nat (length new) <= Z.of_nat (length l) ->
  0 <= off' -> 0 <= n -> off' + n <= off \/ off + Z.of_nat (length new) <= off' ->
  slice off' n (splice off new l) = slice off' n l.
Proof.
  intros ? ? ? ? Hd. apply list_eq. intros i.
  destruct (decide (i < Z.to_nat n)%nat).
  - rewrite !lookup_slice by lia. apply lookup_splice_out; lia.
  - rewrite !lookup_ge_None_2; [done | |]; unfold slice; rewrite length_take; lia.
Qed.

Lemma slice_whole l : slice 0 (Z.of_nat (length l)) l = l.
Proof. unfold slice. rewrite Nat2Z.id. by apply take_ge. Qed.

(** A part of a part. *)
Lemma slice_slice off m a n l :
  0 <= off -> 0 <= a -> 0 <= n -> a + n <= m -> slice a n (slice off m l) = slice (off + a) n l.
Proof.
  intros. unfold slice. rewrite take_drop_commute, take_take, Nat.min_l by lia.
  rewrite <- take_drop_commute, drop_drop. do 2 f_equal. lia.
Qed.

Lemma splice_all new l : length new = length l -> splice 0 new l = new.
Proof. intros. unfold splice. cbn. rewrite drop_ge by lia. by rewrite app_nil_r. Qed.

Lemma mem_read_ok l off n :
  0 <= off -> 0 <= n -> off + n <= Z.of_nat (length l) -> mem_read l off n = Ok (slice off n l).
Proof. intros. unfold mem_read. by rewrite decide_True. Qed.

Lemma mem_read_fault l off n :
  Z.of_nat (length l) < off + n -> mem_read l off n = Fault OutOfBounds.
Proof. intros. unfold mem_read. rewrite decide_False; [done | lia]. Qed.

Lemma mem_write_ok l off new :
  0 <= off -> off + Z.of_nat (length new) <= Z.of_nat (length l) ->
  mem_write l off new = Ok (splice off new l).
Proof. intros. unfold mem_write. by rewrite decide_True. Qed.

Lemma mem_write_fault l off new :
  Z.of_nat (length l) < off + Z.of_nat (length new) -> mem_write l off new = Fault OutOfBounds.
Proof. intros. unfold mem_write. rewrite decide_False; [done | lia]. Qed.

Lemma arr_get_ok l i v : 0 <= i -> l !! Z.to_nat i = Some v -> arr_get l i = Ok v.
Proof. intros ? H. unfold arr_get. by rewrite decide_True, H. Qed.

Lemma bytes_ok_app l1 l2 : bytes_ok (l1 ++ l2) <-> bytes_ok l1 /\ bytes_ok l2.
Proof. apply Forall_app. Qed.

Lemma bytes_ok_take k l : bytes_ok l -> bytes_ok (take k l).
Proof. apply Forall_take. Qed.

Lemma bytes_ok_drop k l : bytes_ok l -> bytes_ok (drop k l).
Proof. apply Forall_drop. Qed.

Lemma bytes_ok_slice off n l : bytes_ok l -> bytes_ok (slice off n l).
Proof. intros. by apply bytes_ok_take, bytes_ok_drop. Qed.

Lemma bytes_ok_splice off new l : bytes_ok new -> bytes_ok l -> bytes_ok (splice off new l).
Proof.
  intros. unfold splice. rewrite !bytes_ok_app.
  auto using bytes_ok_take, bytes_ok_drop.
Qed.

Lemma bytes_ok_replicate k b : is_byte b -> bytes_ok (replicate k b).
Proof. apply Forall_replicate. Qed.
End byte_arrays.

#[export] Hint Resolve bytes_ok_slice bytes_ok_splice bytes_ok_take bytes_ok_drop
  bytes_ok_replicate : bytes.

(** ** Little-endian integers in byte arrays *)
Fixpoint le_to_Z (l : list Z) : Z :=
  match l with
  | [] => 0
  | b :: l' => b + 256 * le_to_Z l'
  end.
Fixpoint Z_to_le (n : nat) (z : Z) : list Z :=
  match n with
  | O => []
  | S n' => z mod 256 :: Z_to_le n' (z / 256)
  end.

Lemma length_Z_to_le n z : length (Z_to_le n z) = n.
Proof. revert z. induction n; intros; cbn; auto. Qed.

Lemma bytes_ok_Z_to_le n z : bytes_ok (Z_to_le n z).
Proof.
  revert z. induction n as [|n IH]; intros z; cbn; constructor; [|apply IH].
  apply (Z.mod_pos_bound z 256). lia.
Qed.

Lemma le_to_Z_range l : bytes_ok l -> 0 <= le_to_Z l < 256 ^ Z.of_nat (length l).
Proof.
  induction 1 as [|b l Hb _ IH]; [cbn; lia|].
  cbn [le_to_Z length]. rewrite Nat2Z.inj_succ, Z.pow_succ_r by lia. unfold is_byte in Hb. lia.
Qed.

Lemma le_to_Z_to_le n z : 0 <= z < 256 ^ Z.of_nat n -> le_to_Z (Z_to_le n z) = z.
Proof.
  revert z. induction n as [|n IH]; intros z Hz; cbn [le_to_Z Z_to_le].
  - cbn in Hz. lia.
  - rewrite Nat2Z.inj_succ, Z.pow_succ_r in Hz by lia.
    pose proof (Z.div_mod z 256 ltac:(lia)). rewrite IH; [lia|].
    split; [apply Z.div_pos; lia|]. apply Z.div_lt_upper_bound; lia.
Qed.

Lemma Z_to_le_to_Z l : bytes_ok l -> Z_to_le (length l) (le_to_Z l) = l.
Proof.
  induction 1 as [|b l Hb _ IH]; [done|]. unfold is_byte in Hb.
  cbn [le_to_Z length Z_to_le].
  rewrite (Z.mul_comm 256), Z_mod_plus_full, Z.mod_small by lia.
  by rewrite Z_div_plus_full, (Z.div_small b), Z.add_0_l, IH by lia.
Qed.

#[export] Hint Resolve bytes_ok_Z_to_le : bytes.

(** ** Bitmaps

    Bit [k] of a byte array is bit [k mod 8] of byte [k / 8]. *)
Definition bit_get (l : list Z) (k : Z) : bool := Z.testbit (l !!! Z.to_nat (k / 8)) (k mod 8).
Definition byte_put (b j : Z) (v : bool) : Z :=
  if v then Z.lor b (Z.shiftl 1 j) else Z.land b (Z.lnot (Z.shiftl 1 j)).
Definition bit_put (k : Z) (v : bool) (l : list Z) : list Z :=
  <[Z.to_nat (k / 8) := byte_put (l !!! Z.to_nat (k / 8)) (k mod 8) v]> l.

Section bitmaps.
Implicit Types (b j k : Z) (v w : bool) (l : list Z).

Lemma testbit_mask j i : 0 <= j -> 0 <= i -> Z.testbit (Z.shiftl 1 j) i = (i =? j).
Proof.
  intros. rewrite Z.shiftl_mul_pow2, Z.mul_1_l by lia. rewrite Z.pow2_bits_eqb by lia.
  apply Z.eqb_sym.
Qed.

Lemma land_mask b j : 0 <= j -> (Z.land b (Z.shiftl 1 j) =? 0) = negb (Z.testbit b j).
Proof.
  intros Hj. destruct (Z.testbit b j) eqn:Hb; cbn.
  - apply Z.eqb_neq. intros H0. apply (f_equal (fun z => Z.testbit z j)) in H0.
    rewrite Z.land_spec, Hb, testbit_mask, Z.eqb_refl, Z.bits_0 in H0 by lia. done.
  - apply Z.eqb_eq, Z.bits_inj'. intros i Hi.
    rewrite Z.land_spec, testbit_mask, Z.bits_0 by lia.
    destruct (Z.eqb_spec i j) as [->|]; [by rewrite Hb | by rewrite andb_false_r].
Qed.

Lemma testbit_byte_put b j v i :
  0 <= j -> 0 <= i -> Z.testbit (byte_put b j v) i = if i =? j then v else Z.testbit b i.
Proof.
  intros. destruct v; cbn [byte_put].
  - rewrite Z.lor_spec, testbit_mask by lia. destruct (i =? j); [apply orb_true_r | apply orb_false_r].
  - rewrite Z.land_spec, Z.lnot_spec, testbit_mask by lia.
    destruct (i =? j); [apply andb_false_r | apply andb_true_r].
Qed.

(** A byte has no bit above the eighth, and a value without such bits is a byte. *)
Lemma is_byte_bits b : is_byte b <-> forall i, i < 0 \/ 8 <= i -> Z.testbit b i = false.
Proof.
  unfold is_byte. split.
  - intros Hb i [Hi|Hi]; [by apply Z.testbit_neg_r|].
    destruct (decide (b = 0)) as [->|]; [apply Z.bits_0|].
    apply Z.bits_above_log2; [lia|]. apply Z.log2_lt_pow2; [lia|].
    pose proof (Z.pow_le_mono_r 2 8 i). lia.
  - intros Hbits. assert (b = b mod 2 ^ 8) as ->.
    { apply Z.bits_inj'. intros i Hi. destruct (decide (i < 8)).
      - by rewrite Z.mod_pow2_bits_low by lia.
      - rewrite Z.mod_pow2_bits_high by lia. apply Hbits. lia. }
    apply (Z.mod_pos_bound b (2 ^ 8)). lia.
Qed.

Lemma is_byte_put b j v : is_byte b -> 0 <= j < 8 -> is_byte (byte_put b j v).
Proof.
  rewrite !is_byte_bits. intros Hb Hj i Hi.
  destruct (decide (i < 0)); [by apply Z.testbit_neg_r|].
  rewrite testbit_byte_put by lia. destruct (Z.eqb_spec i j); [lia | by apply Hb].
Qed.

Lemma bit_index k l : 0 <= k < 8 * Z.of_nat (length l) -> (Z.to_nat (k / 8) < length l)%nat.
Proof. intros. assert (k / 8 < Z.of_nat (length l)) by (apply Z.div_lt_upper_bound; lia). lia. Qed.

Lemma length_bit_put k v l : length (bit_put k v l) = length l.
Proof. apply length_insert. Qed.

Lemma bytes_ok_lookup_total l i : bytes_ok l -> (i < length l)%nat -> is_byte (l !!! i).
Proof. intros Hl Hi. apply (Forall_lookup_total_1 _ _ _ Hl Hi). Qed.

Lemma bytes_ok_bit_put k v l :
  bytes_ok l -> 0 <= k < 8 * Z.of_nat (length l) -> bytes_ok (bit_put k v l).
Proof.
  intros Hl Hk. apply Forall_insert; [done|]. apply is_byte_put.
  - by apply bytes_ok_lookup_total, bit_index.
  - apply Z.mod_pos_bound. lia.
Qed.

(** Writing one bit changes that bit and no other. *)
Lemma bit_get_put k v k' l :
  0 <= k < 8 * Z.of_nat (length l) -> 0 <= k' ->
  bit_get (bit_put k v l) k' = if k' =? k then v else bit_get l k'.
Proof.
  intros Hk Hk'. unfold bit_get, bit_put.
  pose proof (Z.mod_pos_bound k 8). pose proof (Z.mod_pos_bound k' 8).
  pose proof (Z.div_mod k 8). pose proof (Z.div_mod k' 8).
  pose proof (Z.div_pos k 8 ltac:(lia) ltac:(lia)). pose proof (Z.div_pos k' 8 Hk' ltac:(lia)).
  destruct (decide (k' / 8 = k / 8)) as [Hq|Hq].
  - rewrite Hq, list_lookup_total_insert_eq by (by apply bit_index).
    rewrite testbit_byte_put by lia.
    destruct (Z.eqb_spec (k' mod 8) (k mod 8)), (Z.eqb_spec k' k); try done; lia.
  - rewrite list_lookup_total_insert_ne by lia.
    destruct (Z.eqb_spec k' k); [subst; lia | done].
Qed.

Lemma byte_put_put b j v w : 0 <= j -> byte_put (byte_put b j w) j v = byte_put b j v.
Proof.
  intros. apply Z.bits_inj'. intros i Hi. rewrite !testbit_byte_put by lia. by destruct (i =? j).
Qed.

Lemma byte_put_id b j : 0 <= j -> byte_put b j (Z.testbit b j) = b.
Proof.
  intros. apply Z.bits_inj'. intros i Hi. rewrite testbit_byte_put by lia.
  by destruct (Z.eqb_spec i j); subst.
Qed.

Lemma bit_put_put k v w l :
  0 <= k < 8 * Z.of_nat (length l) -> bit_put k v (bit_put k w l) = bit_put k v l.
Proof.
  intros Hk. unfold bit_put. rewrite list_lookup_total_insert_eq by (by apply bit_index).
  rewrite byte_put_put by (apply Z.mod_pos_bound; lia). by rewrite list_insert_insert_eq.
Qed.

Lemma bit_put_id k l :
  0 <= k < 8 * Z.of_nat (length l) -> bit_put k (bit_get l k) l = l.
Proof.
  intros Hk. unfold bit_put, bit_get. rewrite byte_put_id by (apply Z.mod_pos_bound; lia).
  apply list_insert_id. by apply list_lookup_lookup_total_lt, bit_index.
Qed.

(** A one-byte [memcpy] is an indexed access. *)
Lemma slice_one off l :
  0 <= off < Z.of_nat (length l) -> slice off 1 l = [l !!! Z.to_nat off].
Proof.
  intros. unfold slice. change (Z.to_nat 1) with 1%nat.
  erewrite drop_S by (by apply list_lookup_lookup_total_lt; lia). done.
Qed.

Lemma splice_one off b l :
  0 <= off < Z.of_nat (length l) -> splice off [b] l = <[Z.to_nat off := b]> l.
Proof.
  intros. unfold splice. rewrite insert_take_drop by lia. cbn [length app].
  by rewrite Nat.add_1_r.
Qed.
End bitmaps.
