(* ===== verification/Hoare.v ===== *)
(** * Partial-correctness triples

    [hoare P m Q]: a run of [m] from a state of [P] that returns, ends in [Q]. A
    run that faults or does not return satisfies every triple, so the triples
    state what no error path of the code can break. [keeps I m] is the triple of
    an invariant; the hint database [hoare] holds the triples of the program's
    functions. The last section is about refinement: a specification that is a
    computation on abstract states, and a simulation between it and the code. *)
From S2P Require Import Prelude.

Create HintDb hoare.

Definition hoare {S A} (P : S -> Prop) (m : M S A) (Q : A -> S -> Prop) : Prop :=
  forall s a s', P s -> m s = Ok (a, s') -> Q a s'.

(** [I] holds after [m] when it held before. *)
Definition keeps {S A} (I : S -> Prop) (m : M S A) : Prop := hoare I m (fun _ => I).

Section rules.
Context {S : Type}.
Implicit Types (P I : S -> Prop).

Lemma hoare_conseq {A} P P' (m : M S A) (Q Q' : A -> S -> Prop) :
  hoare P' m Q' -> (forall s, P s -> P' s) -> (forall a s, Q' a s -> Q a s) -> hoare P m Q.
Proof. intros Hm HP HQ s a s' Hs Hrun. eapply HQ, Hm, Hrun. by apply HP. Qed.

Lemma hoare_post {A} P (m : M S A) (Q Q' : A -> S -> Prop) :
  hoare P m Q' -> (forall a s, Q' a s -> Q a s) -> hoare P m Q.
Proof. intros Hm HQ. by eapply hoare_conseq. Qed.

Lemma hoare_ret {A} P (a : A) (Q : A -> S -> Prop) : (forall s, P s -> Q a s) -> hoare P (mret a) Q.
Proof. intros HQ s a' s' Hs [= <- <-]. by apply HQ. Qed.

Lemma hoare_bind {A B} P (m : M S A) (k : A -> M S B) R Q :
  hoare P m R -> (forall a, hoare (R a) (k a) Q) -> hoare P (m ≫= k) Q.
Proof. intros Hm Hk s b s' Hs Hrun. apply bind_inv in Hrun as (a & t & H1 & H2). eapply Hk, H2. by eapply Hm. Qed.

Lemma hoare_gets {A} P (f : S -> A) (Q : A -> S -> Prop) : (forall s, P s -> Q (f s) s) -> hoare P (gets f) Q.
Proof. intros HQ s a s' Hs [= <- <-]. by apply HQ. Qed.

Lemma hoare_modify P (f : S -> S) (Q : unit -> S -> Prop) : (forall s, P s -> Q tt (f s)) -> hoare P (modify f) Q.
Proof. intros HQ s a s' Hs [= <- <-]. by apply HQ. Qed.

Lemma hoare_lift {A} P (r : res A) (Q : A -> S -> Prop) :
  (forall s a, P s -> r = Ok a -> Q a s) -> hoare P (lift r) Q.
Proof. intros HQ s a s' Hs (Hr & ->)%lift_inv. by apply HQ. Qed.

Lemma hoare_throw {A} P f (Q : A -> S -> Prop) : hoare P (throw f) Q.
Proof. done. Qed.

Lemma hoare_for {B} P (Q : Z * option B -> S -> Prop) n i (body : Z -> M S (option B)) :
  (forall j, hoare P (body j) (fun r s => match r with Some b => Q (j, Some b) s | None => P s end)) ->
  (forall s, P s -> Q (i + Z.of_nat n, None) s) -> hoare P (for_loop n i body) Q.
Proof.
  revert i. induction n as [|n IH]; intros i Hb Hend; cbn [for_loop].
  - apply hoare_ret. intros s Hs. rewrite <- (Z.add_0_r i). by apply Hend.
  - eapply hoare_bind; [apply Hb|]. intros [b|]; [by apply hoare_ret|].
    apply IH; [done|]. replace (i + 1 + Z.of_nat n) with (i + Z.of_nat (Datatypes.S n)) by lia. done.
Qed.

Lemma hoare_scan {A} (P : A -> S -> Prop) (Q : Z * A -> S -> Prop) n i a body :
  (forall j b, hoare (P b) (body j b) (fun r s => P (fst r) s)) ->
  (forall j b s, P b s -> Q (j, b) s) -> hoare (P a) (scan_loop n i a body) Q.
Proof.
  intros Hb HQ. revert i a. induction n as [|n IH]; intros i a; cbn [scan_loop].
  - apply hoare_ret. apply HQ.
  - eapply hoare_bind; [apply Hb|]. intros [b brk]. cbn [fst].
    destruct brk; [apply hoare_ret, HQ | apply IH].
Qed.

(** A computation on a part of the state. *)
Lemma hoare_zoom {T A} P (get : S -> T) (put : T -> S -> S) (m : M T A) (R : T -> Prop) R' (Q : A -> S -> Prop) :
  hoare R m R' -> (forall s, P s -> R (get s)) -> (forall s a t, P s -> R' a t -> Q a (put t s)) ->
  hoare P (zoom get put m) Q.
Proof.
  intros Hm HP HQ s a s' Hs. unfold zoom. destruct (m (get s)) as [[a' t]|] eqn:Hrun; [|done].
  intros [= <- <-]. apply HQ; [done|]. eapply Hm, Hrun. by apply HP.
Qed.

(** Decomposes the conjunction of two triples with the same code. *)
Lemma hoare_and {A} P P' (m : M S A) Q Q' :
  hoare P m Q -> hoare P' m Q' -> hoare (fun s => P s /\ P' s) m (fun a s => Q a s /\ Q' a s).
Proof. intros H1 H2 s a s' [? ?] Hrun. split; [by eapply H1 | by eapply H2]. Qed.
End rules.

(** An invariant is kept step by step. *)
Section invariants.
Context {S : Type} (I : S -> Prop).

Lemma keeps_ret {A} (a : A) : keeps I (mret a).
Proof. by apply hoare_ret. Qed.
Lemma keeps_bind {A B} (m : M S A) (k : A -> M S B) : keeps I m -> (forall a, keeps I (k a)) -> keeps I (m ≫= k).
Proof. intros Hm Hk. by eapply hoare_bind. Qed.
Lemma keeps_gets {A} (f : S -> A) : keeps I (gets f).
Proof. by apply hoare_gets. Qed.
Lemma keeps_modify (f : S -> S) : (forall s, I s -> I (f s)) -> keeps I (modify f).
Proof. intros Hf. by apply hoare_modify. Qed.
Lemma keeps_lift {A} (r : res A) : keeps I (lift r).
Proof. by apply hoare_lift. Qed.
Lemma keeps_throw {A} f : keeps I (throw (A := A) f).
Proof. done. Qed.
Lemma keeps_if {A} (b : bool) (m1 m2 : M S A) : keeps I m1 -> keeps I m2 -> keeps I (if b then m1 else m2).
Proof. by destruct b. Qed.
Lemma keeps_for {B} n i (body : Z -> M S (option B)) : (forall j, keeps I (body j)) -> keeps I (for_loop n i body).
Proof. intros Hb. apply hoare_for; [|done]. intros j. eapply hoare_post; [apply Hb|]. by intros [b|]. Qed.
Lemma keeps_scan {A} n i (a : A) body : (forall j b, keeps I (body j b)) -> keeps I (scan_loop n i a body).
Proof. intros Hb. apply (hoare_scan (fun _ => I)); done. Qed.
(** A step that establishes the invariant, then steps that keep it. *)
Lemma hoare_then {A B} P (m : M S A) (k : A -> M S B) :
  hoare P m (fun _ => I) -> (forall a, keeps I (k a)) -> hoare P (m ≫= k) (fun _ => I).
Proof. apply hoare_bind. Qed.

(** [I] is kept and the result satisfies [Q]. *)
Definition yields {A} (Q : A -> Prop) (m : M S A) : Prop := hoare I m (fun a s => I s /\ Q a).
Lemma yields_ret {A} (Q : A -> Prop) a : Q a -> yields Q (mret a).
Proof. intros Ha. by apply hoare_ret. Qed.
Lemma yields_bind {A B} (Q : B -> Prop) (m : M S A) (k : A -> M S B) :
  keeps I m -> (forall a, yields Q (k a)) -> yields Q (m ≫= k).
Proof. apply hoare_bind. Qed.
Lemma yields_use {A B} (Q : A -> Prop) (m : M S A) (k : A -> M S B) :
  yields Q m -> (forall a, Q a -> keeps I (k a)) -> keeps I (m ≫= k).
Proof. intros Hm Hk. eapply hoare_bind; [apply Hm|]. intros a s b s' [Hs Ha]. by apply Hk. Qed.
Lemma yields_use2 {A B} (Q : A -> Prop) (R : B -> Prop) (m : M S A) (k : A -> M S B) :
  yields Q m -> (forall a, Q a -> yields R (k a)) -> yields R (m ≫= k).
Proof. intros Hm Hk. eapply hoare_bind; [apply Hm|]. intros a s b s' [Hs Ha]. by apply Hk. Qed.
Lemma yields_keeps {A} (Q : A -> Prop) (m : M S A) : yields Q m -> keeps I m.
Proof. intros Hm. eapply hoare_post; [apply Hm | by intros a s [? _]]. Qed.
End invariants.

#[export] Hint Resolve keeps_ret keeps_gets keeps_lift keeps_throw : hoare.

(** One step of a proof that a computation keeps an invariant: the structure of the code, then the
    functions it calls. *)
Ltac keeps_step :=
  lazymatch goal with
  | |- forall _, _ => intros ?
  | |- keeps _ (let _ := _ in _) => cbv zeta
  | |- keeps _ (match ?x with _ => _ end) => destruct x
  | |- keeps _ (_ ≫= _) => apply keeps_bind
  | |- keeps _ (for_loop _ _ _) => apply keeps_for
  | |- keeps _ (scan_loop _ _ _ _) => apply keeps_scan
  | |- keeps _ _ => solve [auto with hoare nocore]
  end.

(** The same for a computation whose last step is a [mret]; leaves the property of the result. *)
Ltac yields_step :=
  lazymatch goal with
  | |- forall _, _ => intros ?
  | |- yields _ _ (let _ := _ in _) => cbv zeta
  | |- yields _ _ (match ?x with _ => _ end) => destruct x
  | |- yields _ _ (_ ≫= _) => apply yields_bind
  | |- yields _ _ (mret _) => apply yields_ret
  | |- keeps _ _ => keeps_step
  end.

(** * Simulation of a specification

    The specification and the code are computations with the same answers, over
    states that [Rel] relates. [simulates] says that the code answers what the
    specification answers and faults where it faults, for every operation that
    [pre] allows. *)
Section simulation.
Context {A S Op R : Type} (Rel : A -> S -> Prop) (pre : A -> Op -> Prop) (spec : Op -> M A R) (impl : Op -> M S R).

(** The outcome of the code, given the outcome of the specification. *)
Definition matches {B} (out : res (B * A)) (run : res (B * S)) : Prop :=
  match out with
  | Ok (r, a') => exists s', run = Ok (r, s') /\ Rel a' s'
  | Fault f => run = Fault f
  end.

Definition simulates : Prop := forall op a s, Rel a s -> pre a op -> matches (spec op a) (impl op s).

(** Every operation of a sequence is allowed where the specification reaches it. *)
Fixpoint all_allowed (ops : list Op) (a : A) : Prop :=
  match ops with
  | [] => True
  | op :: ops' => pre a op /\ match spec op a with Ok (_, a') => all_allowed ops' a' | Fault _ => True end
  end.
End simulation.

(** The answers of a sequence of operations. *)
Fixpoint run_ops {S Op R} (f : Op -> M S R) (ops : list Op) : M S (list R) :=
  match ops with
  | [] => mret []
  | op :: ops' => r ← f op; rs ← run_ops f ops'; mret (r :: rs)
  end.

Section simulation_facts.
Context {A S Op R : Type} {Rel : A -> S -> Prop} {pre : A -> Op -> Prop} {spec : Op -> M A R} {impl : Op -> M S R}.

Lemma matches_bind {B C} (m : M A B) (n : M S B) (k : B -> M A C) (h : B -> M S C) a s :
  matches Rel (m a) (n s) ->
  (forall b a' s', m a = Ok (b, a') -> Rel a' s' -> matches Rel (k b a') (h b s')) ->
  matches Rel ((m ≫= k) a) ((n ≫= h) s).
Proof.
  unfold matches at 1. intros Hm Hk. destruct (m a) as [[b a']|f] eqn:Ha.
  - destruct Hm as (s' & Hs & HR). erewrite !bind_ok by eauto. by apply Hk.
  - erewrite !bind_fault by eauto. done.
Qed.

Lemma matches_ret {B} (b : B) a s : Rel a s -> matches Rel (mret (M := M A) b a) (mret (M := M S) b s).
Proof. intros HR. by exists s. Qed.

Lemma simulates_run ops a s :
  simulates Rel pre spec impl -> Rel a s -> all_allowed pre spec ops a ->
  matches Rel (run_ops spec ops a) (run_ops impl ops s).
Proof.
  intros Hsim. revert a s. induction ops as [|op ops IH]; intros a s HR Hall; cbn [run_ops].
  - by apply matches_ret.
  - destruct Hall as [Hop Hrest]. apply matches_bind; [by apply Hsim|]. intros r a' s' Ha HR'.
    rewrite Ha in Hrest. apply matches_bind; [by apply IH|]. intros rs a2 s2 _ HR2. by apply matches_ret.
Qed.
End simulation_facts.

(** What every operation keeps, a sequence keeps. *)
Lemma keeps_run_ops {S Op R} (I : S -> Prop) (f : Op -> M S R) ops :
  (forall op, keeps I (f op)) -> keeps I (run_ops f ops).
Proof.
  intros Hf. induction ops as [|op ops IH]; cbn [run_ops]; [apply keeps_ret|].
  apply keeps_bind; [apply Hf|]. intros r. apply keeps_bind; [exact IH | intros rs; apply keeps_ret].
Qed.

#[export] Instance all_allowed_dec {A Op R} (pre : A -> Op -> Prop) (spec : Op -> M A R)
    `{forall a op, Decision (pre a op)} ops a : Decision (all_allowed pre spec ops a).
Proof.
  revert a. induction ops as [|op ops IH]; intros a; cbn [all_allowed]; [apply _|].
  apply and_dec; [apply _|]. destruct (spec op a) as [[_ a']|]; [apply IH | apply _].
Defined.
