(* ===== verification/Layout.v ===== *)
(** * Layout of packed C structures

    A packed structure is a list of field widths; its fields are read and
    written little-endian, one after the other, as the [memcpy] of the
    structure to and from a sector buffer does on the targets of the driver.
    [CStruct] is the interface through which the other files use the on-disk
    records; [CStructLaws] is what an instance has to prove, and the round trips
    below hold for every instance. *)
From S2P Require Import Prelude.

(** The value [v] fits an unsigned field of [w] bytes. *)
Definition fits (w : nat) (v : Z) : Prop := 0 <= v < 256 ^ Z.of_nat w.

#[export] Instance fits_dec w v : Decision (fits w v).
Proof. unfold fits. apply _. Defined.

Fixpoint split_fields (ws : list nat) (bs : list Z) : list Z :=
  match ws with
  | [] => []
  | w :: ws' => le_to_Z (take w bs) :: split_fields ws' (drop w bs)
  end.

Fixpoint join_fields (ws : list nat) (vs : list Z) : list Z :=
  match ws, vs with
  | w :: ws', v :: vs' => Z_to_le w v ++ join_fields ws' vs'
  | _, _ => []
  end.

Lemma length_split_fields ws bs : length (split_fields ws bs) = length ws.
Proof. revert bs. induction ws; intros; cbn; auto. Qed.

Lemma length_join_fields ws vs :
  length vs = length ws -> length (join_fields ws vs) = sum_list ws.
Proof.
  revert vs. induction ws as [|w ws IH]; intros [|v vs] H; cbn in *; try done.
  rewrite length_app, length_Z_to_le, IH; lia.
Qed.

Lemma bytes_ok_join_fields ws vs : bytes_ok (join_fields ws vs).
Proof.
  revert vs. induction ws as [|w ws IH]; intros [|v vs]; cbn; try constructor.
  apply bytes_ok_app. split; [apply bytes_ok_Z_to_le | apply IH].
Qed.

Lemma split_join_fields ws vs rest :
  Forall2 fits ws vs -> split_fields ws (join_fields ws vs ++ rest) = vs.
Proof.
  induction 1 as [|w v ws vs Hwv _ IH]; cbn; [done|].
  rewrite <- app_assoc.
  rewrite take_app_length' by (by rewrite length_Z_to_le).
  rewrite drop_app_length' by (by rewrite length_Z_to_le).
  by rewrite le_to_Z_to_le, IH.
Qed.

Lemma join_split_fields ws bs :
  bytes_ok bs -> length bs = sum_list ws -> join_fields ws (split_fields ws bs) = bs.
Proof.
  revert bs. induction ws as [|w ws IH]; intros bs Hbs Hlen; cbn in *.
  - by destruct bs.
  - rewrite IH; [|by apply bytes_ok_drop | rewrite length_drop; lia].
    assert (length (take w bs) = w) as Hw by (rewrite length_take; lia).
    rewrite <- Hw at 1. rewrite Z_to_le_to_Z by (by apply bytes_ok_take).
    apply take_drop.
Qed.

Lemma split_fields_fits ws bs :
  bytes_ok bs -> (sum_list ws <= length bs)%nat -> Forall2 fits ws (split_fields ws bs).
Proof.
  revert bs. induction ws as [|w ws IH]; intros bs Hbs Hlen; cbn in *; constructor.
  - assert (length (take w bs) = w) as Hw by (rewrite length_take; lia).
    unfold fits. rewrite <- Hw at 3. by apply le_to_Z_range, bytes_ok_take.
  - apply IH; [by apply bytes_ok_drop | rewrite length_drop; lia].
Qed.

(** Where a field is. *)
Lemma split_fields_lookup ws bs i w :
  ws !! i = Some w ->
  split_fields ws bs !! i = Some (le_to_Z (slice (Z.of_nat (sum_list (take i ws))) (Z.of_nat w) bs)).
Proof.
  revert bs i. induction ws as [|w' ws IH]; intros bs [|i] Hw; cbn in *; try done.
  - injection Hw as ->. unfold slice. by rewrite Nat2Z.id.
  - rewrite (IH _ _ Hw). unfold slice. rewrite !Nat2Z.id, drop_drop. done.
Qed.

(** ** Structures *)
Class CStruct (T : Type) := {
  cs_widths : list nat;          (** the fields' widths in bytes, in order *)
  cs_vals : T -> list Z;         (** the fields of a value, in order *)
  cs_of_vals : list Z -> T;
  cs_shape : T -> Prop           (** the array members have their declared lengths *)
}.
Arguments cs_widths T {_}.

Class CStructLaws (T : Type) `{CStruct T} : Prop := {
  cs_of_vals_vals (r : T) : cs_shape r -> cs_of_vals (cs_vals r) = r;
  cs_vals_of_vals (vs : list Z) :
    length vs = length (cs_widths T) -> cs_vals (T := T) (cs_of_vals vs) = vs;
  cs_shape_of_vals (vs : list Z) :
    length vs = length (cs_widths T) -> cs_shape (T := T) (cs_of_vals vs)
}.

Definition sizeof (T : Type) `{CStruct T} : Z := Z.of_nat (sum_list (cs_widths T)).
Definition encode {T : Type} `{CStruct T} (r : T) : list Z := join_fields (cs_widths T) (cs_vals r).
Definition decode {T : Type} `{CStruct T} (bs : list Z) : T :=
  cs_of_vals (split_fields (cs_widths T) bs).

(** Every field of [r] is a value of its C type. *)
Definition cs_wf {T : Type} `{CStruct T} (r : T) : Prop :=
  cs_shape r /\ Forall2 fits (cs_widths T) (cs_vals r).

Section struct_codec.
Context {T : Type} `{CStructLaws T}.
Implicit Types (r : T) (bs : list Z).

Lemma decode_encode_app r rest : cs_wf r -> decode (encode r ++ rest) = r.
Proof.
  intros [Hs Hf]. unfold decode, encode. rewrite split_join_fields by done.
  by apply cs_of_vals_vals.
Qed.

Lemma decode_encode r : cs_wf r -> decode (encode r) = r.
Proof. intros. rewrite <- (app_nil_r (encode r)). by apply decode_encode_app. Qed.

Lemma encode_decode bs :
  bytes_ok bs -> Z.of_nat (length bs) = sizeof T -> encode (decode (T := T) bs) = bs.
Proof.
  unfold sizeof. intros Hbs Hlen. unfold encode, decode.
  rewrite cs_vals_of_vals by apply length_split_fields.
  apply join_split_fields; [done | lia].
Qed.

Lemma length_encode r : cs_wf r -> Z.of_nat (length (encode r)) = sizeof T.
Proof.
  intros [_ Hf]. unfold encode, sizeof. rewrite length_join_fields; [done|].
  symmetry. by eapply Forall2_length.
Qed.

Lemma bytes_ok_encode r : bytes_ok (encode r).
Proof. apply bytes_ok_join_fields. Qed.

Lemma decode_wf bs :
  bytes_ok bs -> sizeof T <= Z.of_nat (length bs) -> cs_wf (decode (T := T) bs).
Proof.
  unfold sizeof. intros Hbs Hlen. split.
  - apply cs_shape_of_vals, length_split_fields.
  - unfold decode. rewrite cs_vals_of_vals by apply length_split_fields.
    apply split_fields_fits; [done | lia].
Qed.

(** Field [i] of a decoded structure is read from the sum of the widths before it. *)
Lemma decode_field i w off bs :
  cs_widths T !! i = Some w -> Z.of_nat (sum_list (take i (cs_widths T))) = off ->
  split_fields (cs_widths T) bs !!! i = le_to_Z (slice off (Z.of_nat w) bs).
Proof. intros Hw <-. by apply list_lookup_total_correct, split_fields_lookup. Qed.

Lemma cs_wf_lookup r i w v :
  cs_wf r -> cs_widths T !! i = Some w -> cs_vals r !! i = Some v -> fits w v.
Proof. intros [_ Hf] Hw Hv. by eapply Forall2_lookup_lr. Qed.

(** A structure of which one integer field was replaced by a value of its type. *)
Lemma cs_wf_insert r r' i w v :
  cs_wf r -> cs_shape r' -> cs_widths T !! i = Some w -> fits w v ->
  cs_vals r' = <[i := v]> (cs_vals r) -> cs_wf r'.
Proof.
  intros [_ Hf] Hs Hw Hv Heq. split; [done|]. rewrite Heq.
  rewrite <- (list_insert_id (cs_widths T) i w Hw). by apply Forall2_insert.
Qed.

(** A structure read back from where it was copied to. *)
Lemma decode_slice_splice r off (l : list Z) :
  cs_wf r -> 0 <= off -> off + sizeof T <= Z.of_nat (length l) ->
  decode (slice off (sizeof T) (splice off (encode r) l)) = r.
Proof.
  intros Hr ? ?. rewrite <- (length_encode r Hr).
  rewrite slice_splice_same by (rewrite ?(length_encode r Hr); done).
  by apply decode_encode.
Qed.
End struct_codec.
#[export] Hint Resolve bytes_ok_encode : bytes.

(** Splits a list of known length into its elements. *)
Ltac destruct_length H :=
  repeat match type of H with
  | length ?l = _ =>
      is_var l;
      let x := fresh "x" in
      destruct l as [|x l]; cbn in H; [try discriminate H | try discriminate H];
      first [injection H as H | idtac]
  end.
