(* ===== verification/OnDisk.v ===== *)
(** * On-disk structures of the file system

    The packed structures of [src/src/embext.h] and the directory entry header of
    [src/src/embext_directory.h], with the field order and widths of the C
    declarations, as instances of [CStruct]; the constants of [embext.h]; and
    the field updates the driver makes. An [int]-sized field is a [Z], an array
    member the list of its elements. *)
From S2P Require Import Prelude Layout.

(** ** Constants of [embext.h] *)
Definition EXT2_SUPER_MAGIC : Z := 0xEF53.
Definition EXT2_VALID_FS : Z := 1.
Definition EXT2_ERROR_FS : Z := 2.
Definition EXT2_ROOT_INO : Z := 2.
Definition EXT2_FLAG_READ : Z := 2.
Definition EXT2_FLAG_WRITE : Z := 4.
Definition EXT2_FLAG_APPEND : Z := 8.
Definition EXT2_FLAG_FS_DIRTY : Z := 32.
Definition EXT2_S_IFREG : Z := 0x8000.
Definition EXT2_S_IFDIR : Z := 0x4000.
Definition EXT2_FEATURE_RO_COMPAT_SPARSE_SUPER : Z := 0x0001.
Definition EXT2_ALLOCATED : Z := 1.
Definition EXT2_DEALLOCATED : Z := 0.

(** Proves the three laws of a structure whose accessors are positional. *)
Ltac solve_struct_laws :=
  split;
  [ intros r Hr; hnf in Hr; destruct r; cbn in Hr; destruct_and?;
    repeat match goal with H : length ?l = _ |- _ => progress destruct_length H end;
    reflexivity
  | intros vs Hvs; cbn in Hvs; destruct_length Hvs; reflexivity
  | intros vs Hvs; cbn in Hvs; destruct_length Hvs; repeat split ].

(** ** [struct superblock] *)
Record superblock : Type := mk_superblock {
  s_inodes_count : Z;  (** uint32_t *)
  s_blocks_count : Z;  (** uint32_t *)
  s_r_blocks_count : Z;  (** uint32_t *)
  s_free_blocks_count : Z;  (** uint32_t *)
  s_free_inodes_count : Z;  (** uint32_t *)
  s_first_data_block : Z;  (** uint32_t *)
  s_log_block_size : Z;  (** uint32_t *)
  s_log_frag_size : Z;  (** uint32_t *)
  s_blocks_per_group : Z;  (** uint32_t *)
  s_frags_per_group : Z;  (** uint32_t *)
  s_inodes_per_group : Z;  (** uint32_t *)
  s_mtime : Z;  (** uint32_t *)
  s_wtime : Z;  (** uint32_t *)
  s_mnt_count : Z;  (** uint16_t *)
  s_max_mnt_count : Z;  (** uint16_t *)
  s_magic : Z;  (** uint16_t *)
  s_state : Z;  (** uint16_t *)
  s_errors : Z;  (** uint16_t *)
  s_minor_rev_level : Z;  (** uint16_t *)
  s_lastcheck : Z;  (** uint32_t *)
  s_checkinterval : Z;  (** uint32_t *)
  s_creator_os : Z;  (** uint32_t *)
  s_rev_level : Z;  (** uint32_t *)
  s_def_resuid : Z;  (** uint16_t *)
  s_def_resgid : Z;  (** uint16_t *)
  s_first_ino : Z;  (** uint32_t *)
  s_inode_size : Z;  (** uint16_t *)
  s_block_group_nr : Z;  (** uint16_t *)
  s_feature_compat : Z;  (** uint32_t *)
  s_feature_incompat : Z;  (** uint32_t *)
  s_feature_ro_compat : Z;  (** uint32_t *)
  s_uuid : list Z;  (** uint8_t[16] *)
  s_volume_name : list Z;  (** uint8_t[16] *)
  s_last_mounted : list Z;  (** uint8_t[64] *)
  s_algo_bitmap : Z;  (** uint32_t *)
  s_prealloc_blocks : Z;  (** uint8_t *)
  s_prealloc_dir_blocks : Z;  (** uint8_t *)
  alignment1 : list Z;  (** uint8_t[2] *)
  s_journal_uuid : list Z;  (** uint8_t[16] *)
  s_journal_inum : Z;  (** uint32_t *)
  s_journal_dev : Z;  (** uint32_t *)
  s_last_orphan : Z;  (** uint32_t *)
  s_hash_seed : list Z;  (** uint32_t[4] *)
  s_def_hash_version : Z;  (** uint8_t *)
  alignment2 : list Z;  (** uint8_t[3] *)
  s_default_mount_options : Z;  (** uint32_t *)
  s_first_meta_bg : Z  (** uint32_t *)
}.

#[export] Instance superblock_eq_dec : EqDecision superblock.
Proof. solve_decision. Defined.

Definition superblock_widths : list nat :=
  ([4; 4; 4; 4; 4; 4; 4; 4; 4; 4; 4; 4; 4; 2; 2; 2; 2; 2; 2; 4; 4; 4; 4; 2; 2; 4; 2; 2; 4; 4; 4]
  ++ replicate 16 1 ++ replicate 16 1 ++ replicate 64 1 ++ [4; 1; 1] ++ replicate 2 1 ++
  replicate 16 1 ++ [4; 4; 4] ++ replicate 4 4 ++ [1] ++ replicate 3 1 ++ [4; 4])%nat.

Definition superblock_vals (r : superblock) : list Z :=
  [s_inodes_count r; s_blocks_count r; s_r_blocks_count r; s_free_blocks_count r;
  s_free_inodes_count r; s_first_data_block r; s_log_block_size r; s_log_frag_size r;
  s_blocks_per_group r; s_frags_per_group r; s_inodes_per_group r; s_mtime r; s_wtime r;
  s_mnt_count r; s_max_mnt_count r; s_magic r; s_state r; s_errors r; s_minor_rev_level r;
  s_lastcheck r; s_checkinterval r; s_creator_os r; s_rev_level r; s_def_resuid r; s_def_resgid r;
  s_first_ino r; s_inode_size r; s_block_group_nr r; s_feature_compat r; s_feature_incompat r;
  s_feature_ro_compat r] ++ s_uuid r ++ s_volume_name r ++ s_last_mounted r ++ [s_algo_bitmap r;
  s_prealloc_blocks r; s_prealloc_dir_blocks r] ++ alignment1 r ++ s_journal_uuid r ++
  [s_journal_inum r; s_journal_dev r; s_last_orphan r] ++ s_hash_seed r ++ [s_def_hash_version r]
  ++ alignment2 r ++ [s_default_mount_options r; s_first_meta_bg r].

Definition superblock_of_vals (vs : list Z) : superblock :=
  {|
    s_inodes_count := vs !!! 0%nat; s_blocks_count := vs !!! 1%nat;
    s_r_blocks_count := vs !!! 2%nat; s_free_blocks_count := vs !!! 3%nat;
    s_free_inodes_count := vs !!! 4%nat; s_first_data_block := vs !!! 5%nat;
    s_log_block_size := vs !!! 6%nat; s_log_frag_size := vs !!! 7%nat;
    s_blocks_per_group := vs !!! 8%nat; s_frags_per_group := vs !!! 9%nat;
    s_inodes_per_group := vs !!! 10%nat; s_mtime := vs !!! 11%nat; s_wtime := vs !!! 12%nat;
    s_mnt_count := vs !!! 13%nat; s_max_mnt_count := vs !!! 14%nat; s_magic := vs !!! 15%nat;
    s_state := vs !!! 16%nat; s_errors := vs !!! 17%nat; s_minor_rev_level := vs !!! 18%nat;
    s_lastcheck := vs !!! 19%nat; s_checkinterval := vs !!! 20%nat; s_creator_os := vs !!! 21%nat;
    s_rev_level := vs !!! 22%nat; s_def_resuid := vs !!! 23%nat; s_def_resgid := vs !!! 24%nat;
    s_first_ino := vs !!! 25%nat; s_inode_size := vs !!! 26%nat; s_block_group_nr := vs !!! 27%nat;
    s_feature_compat := vs !!! 28%nat; s_feature_incompat := vs !!! 29%nat;
    s_feature_ro_compat := vs !!! 30%nat; s_uuid := take 16 (drop 31 vs);
    s_volume_name := take 16 (drop 47 vs); s_last_mounted := take 64 (drop 63 vs);
    s_algo_bitmap := vs !!! 127%nat; s_prealloc_blocks := vs !!! 128%nat;
    s_prealloc_dir_blocks := vs !!! 129%nat; alignment1 := take 2 (drop 130 vs);
    s_journal_uuid := take 16 (drop 132 vs); s_journal_inum := vs !!! 148%nat;
    s_journal_dev := vs !!! 149%nat; s_last_orphan := vs !!! 150%nat;
    s_hash_seed := take 4 (drop 151 vs); s_def_hash_version := vs !!! 155%nat;
    alignment2 := take 3 (drop 156 vs); s_default_mount_options := vs !!! 159%nat;
    s_first_meta_bg := vs !!! 160%nat
  |}.

Definition superblock_shape (r : superblock) : Prop :=
  length (s_uuid r) = 16%nat /\ length (s_volume_name r) = 16%nat /\
  length (s_last_mounted r) = 64%nat /\ length (alignment1 r) = 2%nat /\
  length (s_journal_uuid r) = 16%nat /\ length (s_hash_seed r) = 4%nat /\
  length (alignment2 r) = 3%nat.

#[export] Instance superblock_struct : CStruct superblock := {|
  cs_widths := superblock_widths; cs_vals := superblock_vals;
  cs_of_vals := superblock_of_vals; cs_shape := superblock_shape |}.

#[export] Instance superblock_laws : CStructLaws superblock.
Proof. solve_struct_laws. Qed.

Definition set_s_free_blocks_count (v : Z) (r : superblock) : superblock :=
  match r with mk_superblock
      f1 f2 f3 _ f5 f6 f7 f8 f9 f10 f11 f12 f13 f14 f15 f16 f17 f18 f19 f20 f21 f22 f23 f24 f25
      f26 f27 f28 f29 f30 f31 f32 f33 f34 f35 f36 f37 f38 f39 f40 f41 f42 f43 f44 f45 f46 f47 =>
    mk_superblock
      f1 f2 f3 v f5 f6 f7 f8 f9 f10 f11 f12 f13 f14 f15 f16 f17 f18 f19 f20 f21 f22 f23 f24 f25
      f26 f27 f28 f29 f30 f31 f32 f33 f34 f35 f36 f37 f38 f39 f40 f41 f42 f43 f44 f45 f46 f47
  end.

Definition set_s_free_inodes_count (v : Z) (r : superblock) : superblock :=
  match r with mk_superblock
      f1 f2 f3 f4 _ f6 f7 f8 f9 f10 f11 f12 f13 f14 f15 f16 f17 f18 f19 f20 f21 f22 f23 f24 f25
      f26 f27 f28 f29 f30 f31 f32 f33 f34 f35 f36 f37 f38 f39 f40 f41 f42 f43 f44 f45 f46 f47 =>
    mk_superblock
      f1 f2 f3 f4 v f6 f7 f8 f9 f10 f11 f12 f13 f14 f15 f16 f17 f18 f19 f20 f21 f22 f23 f24 f25
      f26 f27 f28 f29 f30 f31 f32 f33 f34 f35 f36 f37 f38 f39 f40 f41 f42 f43 f44 f45 f46 f47
  end.

Definition set_s_mtime (v : Z) (r : superblock) : superblock :=
  match r with mk_superblock
      f1 f2 f3 f4 f5 f6 f7 f8 f9 f10 f11 _ f13 f14 f15 f16 f17 f18 f19 f20 f21 f22 f23 f24 f25
      f26 f27 f28 f29 f30 f31 f32 f33 f34 f35 f36 f37 f38 f39 f40 f41 f42 f43 f44 f45 f46 f47 =>
    mk_superblock
      f1 f2 f3 f4 f5 f6 f7 f8 f9 f10 f11 v f13 f14 f15 f16 f17 f18 f19 f20 f21 f22 f23 f24 f25
      f26 f27 f28 f29 f30 f31 f32 f33 f34 f35 f36 f37 f38 f39 f40 f41 f42 f43 f44 f45 f46 f47
  end.

Definition set_s_mnt_count (v : Z) (r : superblock) : superblock :=
  match r with mk_superblock
      f1 f2 f3 f4 f5 f6 f7 f8 f9 f10 f11 f12 f13 _ f15 f16 f17 f18 f19 f20 f21 f22 f23 f24 f25
      f26 f27 f28 f29 f30 f31 f32 f33 f34 f35 f36 f37 f38 f39 f40 f41 f42 f43 f44 f45 f46 f47 =>
    mk_superblock
      f1 f2 f3 f4 f5 f6 f7 f8 f9 f10 f11 f12 f13 v f15 f16 f17 f18 f19 f20 f21 f22 f23 f24 f25
      f26 f27 f28 f29 f30 f31 f32 f33 f34 f35 f36 f37 f38 f39 f40 f41 f42 f43 f44 f45 f46 f47
  end.

Definition set_s_state (v : Z) (r : superblock) : superblock :=
  match r with mk_superblock
      f1 f2 f3 f4 f5 f6 f7 f8 f9 f10 f11 f12 f13 f14 f15 f16 _ f18 f19 f20 f21 f22 f23 f24 f25
      f26 f27 f28 f29 f30 f31 f32 f33 f34 f35 f36 f37 f38 f39 f40 f41 f42 f43 f44 f45 f46 f47 =>
    mk_superblock
      f1 f2 f3 f4 f5 f6 f7 f8 f9 f10 f11 f12 f13 f14 f15 f16 v f18 f19 f20 f21 f22 f23 f24 f25
      f26 f27 f28 f29 f30 f31 f32 f33 f34 f35 f36 f37 f38 f39 f40 f41 f42 f43 f44 f45 f46 f47
  end.

Definition set_s_block_group_nr (v : Z) (r : superblock) : superblock :=
  match r with mk_superblock
      f1 f2 f3 f4 f5 f6 f7 f8 f9 f10 f11 f12 f13 f14 f15 f16 f17 f18 f19 f20 f21 f22 f23 f24 f25
      f26 f27 _ f29 f30 f31 f32 f33 f34 f35 f36 f37 f38 f39 f40 f41 f42 f43 f44 f45 f46 f47 =>
    mk_superblock
      f1 f2 f3 f4 f5 f6 f7 f8 f9 f10 f11 f12 f13 f14 f15 f16 f17 f18 f19 f20 f21 f22 f23 f24 f25
      f26 f27 v f29 f30 f31 f32 f33 f34 f35 f36 f37 f38 f39 f40 f41 f42 f43 f44 f45 f46 f47
  end.

(** ** [struct block_group_descriptor] *)
Record block_group_descriptor : Type := mk_bg {
  bg_block_bitmap : Z;  (** uint32_t *)
  bg_inode_bitmap : Z;  (** uint32_t *)
  bg_inode_table : Z;  (** uint32_t *)
  bg_free_blocks_count : Z;  (** uint16_t *)
  bg_free_inodes_count : Z;  (** uint16_t *)
  bg_used_dirs_count : Z;  (** uint16_t *)
  bg_pad : Z;  (** uint16_t *)
  bg_reserved : list Z  (** uint8_t[12] *)
}.

#[export] Instance block_group_descriptor_eq_dec : EqDecision block_group_descriptor.
Proof. solve_decision. Defined.

Definition block_group_descriptor_widths : list nat :=
  ([4; 4; 4; 2; 2; 2; 2] ++ replicate 12 1)%nat.

Definition block_group_descriptor_vals (r : block_group_descriptor) : list Z :=
  [bg_block_bitmap r; bg_inode_bitmap r; bg_inode_table r; bg_free_blocks_count r;
  bg_free_inodes_count r; bg_used_dirs_count r; bg_pad r] ++ bg_reserved r.

Definition block_group_descriptor_of_vals (vs : list Z) : block_group_descriptor :=
  {|
    bg_block_bitmap := vs !!! 0%nat; bg_inode_bitmap := vs !!! 1%nat;
    bg_inode_table := vs !!! 2%nat; bg_free_blocks_count := vs !!! 3%nat;
    bg_free_inodes_count := vs !!! 4%nat; bg_used_dirs_count := vs !!! 5%nat;
    bg_pad := vs !!! 6%nat; bg_reserved := take 12 (drop 7 vs)
  |}.

Definition block_group_descriptor_shape (r : block_group_descriptor) : Prop :=
  length (bg_reserved r) = 12%nat.

#[export] Instance block_group_descriptor_struct : CStruct block_group_descriptor := {|
  cs_widths := block_group_descriptor_widths; cs_vals := block_group_descriptor_vals;
  cs_of_vals := block_group_descriptor_of_vals; cs_shape := block_group_descriptor_shape |}.

#[export] Instance block_group_descriptor_laws : CStructLaws block_group_descriptor.
Proof. solve_struct_laws. Qed.

Definition set_bg_free_blocks_count (v : Z) (r : block_group_descriptor) : block_group_descriptor :=
  match r with mk_bg
      f1 f2 f3 _ f5 f6 f7 f8 =>
    mk_bg
      f1 f2 f3 v f5 f6 f7 f8
  end.

Definition set_bg_free_inodes_count (v : Z) (r : block_group_descriptor) : block_group_descriptor :=
  match r with mk_bg
      f1 f2 f3 f4 _ f6 f7 f8 =>
    mk_bg
      f1 f2 f3 f4 v f6 f7 f8
  end.

Definition set_bg_used_dirs_count (v : Z) (r : block_group_descriptor) : block_group_descriptor :=
  match r with mk_bg
      f1 f2 f3 f4 f5 _ f7 f8 =>
    mk_bg
      f1 f2 f3 f4 f5 v f7 f8
  end.

(** ** [struct inode] *)
Record inode : Type := mk_inode {
  i_mode : Z;  (** uint16_t *)
  i_uid : Z;  (** uint16_t *)
  i_size : Z;  (** uint32_t *)
  i_atime : Z;  (** uint32_t *)
  i_ctime : Z;  (** uint32_t *)
  i_mtime : Z;  (** uint32_t *)
  i_dtime : Z;  (** uint32_t *)
  i_gid : Z;  (** uint16_t *)
  i_links_count : Z;  (** uint16_t *)
  i_blocks : Z;  (** uint32_t *)
  i_flags : Z;  (** uint32_t *)
  i_osd1 : Z;  (** uint32_t *)
  i_block : list Z;  (** uint32_t[15] *)
  i_generation : Z;  (** uint32_t *)
  i_file_acl : Z;  (** uint32_t *)
  i_dir_acl : Z;  (** uint32_t *)
  i_faddr : Z;  (** uint32_t *)
  i_osd2 : list Z  (** uint8_t[12] *)
}.

#[export] Instance inode_eq_dec : EqDecision inode.
Proof. solve_decision. Defined.

Definition inode_widths : list nat :=
  ([2; 2; 4; 4; 4; 4; 4; 2; 2; 4; 4; 4] ++ replicate 15 4 ++ [4; 4; 4; 4] ++ replicate 12
  1)%nat.

Definition inode_vals (r : inode) : list Z :=
  [i_mode r; i_uid r; i_size r; i_atime r; i_ctime r; i_mtime r; i_dtime r; i_gid r;
  i_links_count r; i_blocks r; i_flags r; i_osd1 r] ++ i_block r ++ [i_generation r; i_file_acl r;
  i_dir_acl r; i_faddr r] ++ i_osd2 r.

Definition inode_of_vals (vs : list Z) : inode :=
  {|
    i_mode := vs !!! 0%nat; i_uid := vs !!! 1%nat; i_size := vs !!! 2%nat; i_atime := vs !!! 3%nat;
    i_ctime := vs !!! 4%nat; i_mtime := vs !!! 5%nat; i_dtime := vs !!! 6%nat;
    i_gid := vs !!! 7%nat; i_links_count := vs !!! 8%nat; i_blocks := vs !!! 9%nat;
    i_flags := vs !!! 10%nat; i_osd1 := vs !!! 11%nat; i_block := take 15 (drop 12 vs);
    i_generation := vs !!! 27%nat; i_file_acl := vs !!! 28%nat; i_dir_acl := vs !!! 29%nat;
    i_faddr := vs !!! 30%nat; i_osd2 := take 12 (drop 31 vs)
  |}.

Definition inode_shape (r : inode) : Prop :=
  length (i_block r) = 15%nat /\ length (i_osd2 r) = 12%nat.

#[export] Instance inode_struct : CStruct inode := {|
  cs_widths := inode_widths; cs_vals := inode_vals;
  cs_of_vals := inode_of_vals; cs_shape := inode_shape |}.

#[export] Instance inode_laws : CStructLaws inode.
Proof. solve_struct_laws. Qed.

Definition set_i_size (v : Z) (r : inode) : inode :=
  match r with mk_inode
      f1 f2 _ f4 f5 f6 f7 f8 f9 f10 f11 f12 f13 f14 f15 f16 f17 f18 =>
    mk_inode
      f1 f2 v f4 f5 f6 f7 f8 f9 f10 f11 f12 f13 f14 f15 f16 f17 f18
  end.

Definition set_i_atime (v : Z) (r : inode) : inode :=
  match r with mk_inode
      f1 f2 f3 _ f5 f6 f7 f8 f9 f10 f11 f12 f13 f14 f15 f16 f17 f18 =>
    mk_inode
      f1 f2 f3 v f5 f6 f7 f8 f9 f10 f11 f12 f13 f14 f15 f16 f17 f18
  end.

Definition set_i_mtime (v : Z) (r : inode) : inode :=
  match r with mk_inode
      f1 f2 f3 f4 f5 _ f7 f8 f9 f10 f11 f12 f13 f14 f15 f16 f17 f18 =>
    mk_inode
      f1 f2 f3 f4 f5 v f7 f8 f9 f10 f11 f12 f13 f14 f15 f16 f17 f18
  end.

Definition set_i_blocks (v : Z) (r : inode) : inode :=
  match r with mk_inode
      f1 f2 f3 f4 f5 f6 f7 f8 f9 _ f11 f12 f13 f14 f15 f16 f17 f18 =>
    mk_inode
      f1 f2 f3 f4 f5 f6 f7 f8 f9 v f11 f12 f13 f14 f15 f16 f17 f18
  end.

Definition set_i_block (v : list Z) (r : inode) : inode :=
  match r with mk_inode
      f1 f2 f3 f4 f5 f6 f7 f8 f9 f10 f11 f12 _ f14 f15 f16 f17 f18 =>
    mk_inode
      f1 f2 f3 f4 f5 f6 f7 f8 f9 f10 f11 f12 v f14 f15 f16 f17 f18
  end.

(** ** [struct ext2_dir_header]: its natural alignment leaves no padding *)
Record ext2_dir_header : Type := mk_dir_header {
  dh_inode : Z;  (** uint32_t *)
  dh_rec_len : Z;  (** uint16_t *)
  dh_name_len : Z;  (** uint8_t *)
  dh_file_type : Z  (** uint8_t *)
}.

#[export] Instance ext2_dir_header_eq_dec : EqDecision ext2_dir_header.
Proof. solve_decision. Defined.

Definition ext2_dir_header_widths : list nat :=
  ([4; 2; 1; 1])%nat.

Definition ext2_dir_header_vals (r : ext2_dir_header) : list Z :=
  [dh_inode r; dh_rec_len r; dh_name_len r; dh_file_type r].

Definition ext2_dir_header_of_vals (vs : list Z) : ext2_dir_header :=
  {|
    dh_inode := vs !!! 0%nat; dh_rec_len := vs !!! 1%nat; dh_name_len := vs !!! 2%nat;
    dh_file_type := vs !!! 3%nat
  |}.

Definition ext2_dir_header_shape (r : ext2_dir_header) : Prop :=
  True.

#[export] Instance ext2_dir_header_struct : CStruct ext2_dir_header := {|
  cs_widths := ext2_dir_header_widths; cs_vals := ext2_dir_header_vals;
  cs_of_vals := ext2_dir_header_of_vals; cs_shape := ext2_dir_header_shape |}.

#[export] Instance ext2_dir_header_laws : CStructLaws ext2_dir_header.
Proof. solve_struct_laws. Qed.

(** ** Well-formedness of the updated structures *)

(** [solve_set_wf i]: the setter of the integer field at position [i] keeps [cs_wf]. *)
Ltac solve_set_wf i :=
  let Hr := fresh "Hr" in let Hv := fresh "Hv" in
  intros Hr Hv;
  match type of Hr with cs_wf ?r =>
    eapply (cs_wf_insert r _ i);
    [exact Hr | destruct Hr as [Hr _]; destruct r; exact Hr | reflexivity | exact Hv
    | destruct r; reflexivity]
  end.

Lemma wf_set_s_free_blocks_count v (r : superblock) :
  cs_wf r -> fits 4 v -> cs_wf (set_s_free_blocks_count v r).
Proof. solve_set_wf 3%nat. Qed.
Lemma wf_set_s_free_inodes_count v (r : superblock) :
  cs_wf r -> fits 4 v -> cs_wf (set_s_free_inodes_count v r).
Proof. solve_set_wf 4%nat. Qed.
Lemma wf_set_s_mtime v (r : superblock) : cs_wf r -> fits 4 v -> cs_wf (set_s_mtime v r).
Proof. solve_set_wf 11%nat. Qed.
Lemma wf_set_s_mnt_count v (r : superblock) : cs_wf r -> fits 2 v -> cs_wf (set_s_mnt_count v r).
Proof. solve_set_wf 13%nat. Qed.
Lemma wf_set_s_state v (r : superblock) : cs_wf r -> fits 2 v -> cs_wf (set_s_state v r).
Proof. solve_set_wf 16%nat. Qed.
Lemma wf_set_s_block_group_nr v (r : superblock) :
  cs_wf r -> fits 2 v -> cs_wf (set_s_block_group_nr v r).
Proof. solve_set_wf 27%nat. Qed.
Lemma wf_set_bg_free_blocks_count v (r : block_group_descriptor) :
  cs_wf r -> fits 2 v -> cs_wf (set_bg_free_blocks_count v r).
Proof. solve_set_wf 3%nat. Qed.
Lemma wf_set_bg_free_inodes_count v (r : block_group_descriptor) :
  cs_wf r -> fits 2 v -> cs_wf (set_bg_free_inodes_count v r).
Proof. solve_set_wf 4%nat. Qed.
Lemma wf_set_bg_used_dirs_count v (r : block_group_descriptor) :
  cs_wf r -> fits 2 v -> cs_wf (set_bg_used_dirs_count v r).
Proof. solve_set_wf 5%nat. Qed.
Lemma wf_set_i_size v (r : inode) : cs_wf r -> fits 4 v -> cs_wf (set_i_size v r).
Proof. solve_set_wf 2%nat. Qed.
Lemma wf_set_i_atime v (r : inode) : cs_wf r -> fits 4 v -> cs_wf (set_i_atime v r).
Proof. solve_set_wf 3%nat. Qed.
Lemma wf_set_i_mtime v (r : inode) : cs_wf r -> fits 4 v -> cs_wf (set_i_mtime v r).
Proof. solve_set_wf 5%nat. Qed.
Lemma wf_set_i_blocks v (r : inode) : cs_wf r -> fits 4 v -> cs_wf (set_i_blocks v r).
Proof. solve_set_wf 9%nat. Qed.
#[export] Hint Resolve wf_set_s_free_blocks_count wf_set_s_free_inodes_count wf_set_s_mtime
  wf_set_s_mnt_count wf_set_s_state wf_set_s_block_group_nr wf_set_bg_free_blocks_count
  wf_set_bg_free_inodes_count wf_set_bg_used_dirs_count wf_set_i_size wf_set_i_atime
  wf_set_i_mtime wf_set_i_blocks : embext.

Lemma fits_u16 v : fits 2 (u16 v).
Proof. apply u16_range. Qed.
Lemma fits_u32 v : fits 4 (u32 v).
Proof. apply u32_range. Qed.
#[export] Hint Resolve fits_u16 fits_u32 : embext.

Lemma set_s_block_group_nr_id (r : superblock) : set_s_block_group_nr (s_block_group_nr r) r = r.
Proof. by destruct r. Qed.
Lemma set_s_block_group_nr_twice v w (r : superblock) :
  set_s_block_group_nr v (set_s_block_group_nr w r) = set_s_block_group_nr v r.
Proof. by destruct r. Qed.
Lemma s_log_block_size_set_nr v (r : superblock) :
  s_log_block_size (set_s_block_group_nr v r) = s_log_block_size r.
Proof. by destruct r. Qed.

(** The fifteen block numbers of an inode. *)
Lemma inode_block_lookup (r : inode) k :
  cs_wf r -> 0 <= k < 15 -> exists b, i_block r !! Z.to_nat k = Some b /\ 0 <= b < 4294967296.
Proof.
  intros Hr Hk. pose proof Hr as [[Hlen _] _].
  destruct (lookup_lt_is_Some_2 (i_block r) (Z.to_nat k)) as [b Hb]; [lia|].
  exists b. split; [done|]. apply (cs_wf_lookup r (12 + Z.to_nat k) 4 b Hr).
  - change (cs_widths inode) with inode_widths. unfold inode_widths.
    rewrite lookup_app_r by (cbn; lia). rewrite lookup_app_l by (cbn; lia).
    apply lookup_replicate. split; [done | cbn; lia].
  - change (cs_vals r) with (inode_vals r). unfold inode_vals.
    rewrite lookup_app_r by (cbn; lia). cbn [length].
    replace (12 + Z.to_nat k - 12)%nat with (Z.to_nat k) by lia. by rewrite lookup_app_l by lia.
Qed.

(** Replacing one of them. *)
Lemma wf_upd_i_block k b (r : inode) :
  cs_wf r -> fits 4 b -> cs_wf (set_i_block (<[k := b]> (i_block r)) r).
Proof.
  intros [[Hb Ho] Hf] Hu. destruct (decide (k < 15)%nat) as [Hk|Hk].
  - eapply (cs_wf_insert r _ (12 + k) 4); [by split | | | exact Hu |].
    + destruct r; cbn in *. split; cbn; [by rewrite length_insert | done].
    + cbn. do 15 (destruct k as [|k]; [done|]). lia.
    + destruct r; cbn in *. do 12 f_equal. symmetry. apply insert_app_l. lia.
  - rewrite list_insert_ge by lia. by destruct r; split.
Qed.

(** * Properties *)

(** The superblock structure is the 264 bytes of the ext2 format: it survives being copied to a
    sector and back, every 264 bytes are some superblock, and the members the driver decides on are
    at the offsets the format gives them. *)
Lemma superblock_layout (r : superblock) (bs : list Z) :
  cs_wf r -> bytes_ok bs -> Z.of_nat (length bs) = 264 ->
  Z.of_nat (length (encode r)) = 264 /\ decode (encode r) = r /\
  encode (decode bs : superblock) = bs /\ cs_wf (decode bs : superblock) /\
  s_log_block_size (decode bs) = le_to_Z (slice 24 4 bs) /\
  s_blocks_per_group (decode bs) = le_to_Z (slice 32 4 bs) /\
  s_magic (decode bs) = le_to_Z (slice 56 2 bs) /\ s_state (decode bs) = le_to_Z (slice 58 2 bs) /\
  s_inode_size (decode bs) = le_to_Z (slice 88 2 bs) /\
  s_feature_ro_compat (decode bs) = le_to_Z (slice 100 4 bs).
Proof.
  intros Hr Hb Hl. split; [by rewrite length_encode|]. split; [by apply decode_encode|].
  split; [by apply encode_decode|]. split; [apply decode_wf; [done | by rewrite Hl]|].
  split; [by apply (decode_field (T := superblock) 6 4 24 bs)|].
  split; [by apply (decode_field (T := superblock) 8 4 32 bs)|].
  split; [by apply (decode_field (T := superblock) 15 2 56 bs)|].
  split; [by apply (decode_field (T := superblock) 16 2 58 bs)|].
  split; [by apply (decode_field (T := superblock) 26 2 88 bs)|].
  by apply (decode_field (T := superblock) 30 4 100 bs).
Qed.

(** The inode structure is the 128 bytes of the ext2 format: it survives being copied to a sector
    and back, every 128 bytes are some inode, and its fifteen block numbers start at offset 40. *)
Lemma inode_layout (r : inode) (bs : list Z) :
  cs_wf r -> bytes_ok bs -> Z.of_nat (length bs) = 128 ->
  Z.of_nat (length (encode r)) = 128 /\ decode (encode r) = r /\
  encode (decode bs : inode) = bs /\ cs_wf (decode bs : inode) /\
  i_size (decode bs) = le_to_Z (slice 4 4 bs) /\
  forall k, 0 <= k < 15 -> i_block (decode bs) !! Z.to_nat k = Some (le_to_Z (slice (40 + 4 * k) 4 bs)).
Proof.
  intros Hr Hb Hl. split; [by rewrite length_encode|]. split; [by apply decode_encode|].
  split; [by apply encode_decode|]. split; [apply decode_wf; [done | by rewrite Hl]|].
  split; [by apply (decode_field (T := inode) 2 4 4 bs)|].
  intros k Hk. change (i_block (decode bs)) with (take 15 (drop 12 (split_fields inode_widths bs))).
  rewrite lookup_take_lt, lookup_drop by lia.
  assert (Hw : inode_widths !! (12 + Z.to_nat k)%nat = Some 4%nat).
  { unfold inode_widths. rewrite lookup_app_r, lookup_app_l by (cbn; lia).
    apply lookup_replicate. cbn. lia. }
  rewrite (split_fields_lookup _ _ _ _ Hw). do 3 f_equal. unfold inode_widths.
  rewrite take_app_ge, sum_list_with_app by (cbn; lia). cbn [length].
  rewrite take_app_le by (cbn; lia).
  replace (12 + Z.to_nat k - 12)%nat with (Z.to_nat k) by lia.
  rewrite take_replicate, sum_list_replicate. cbn. lia.
Qed.
