(* ===== verification/Device.v ===== *)
(** * The block device interface

    [src/src/block.h] declares the functions the file system calls and says what
    they do. [BlockDevice] is that interface: a C function with a buffer
    argument takes the buffer's contents and returns the return code with the
    buffer's new contents. [BlockView] and [BlockDeviceLaws] are its contract: a
    usable device is an array of sectors, a read of a sector inside the volume
    returns 0 and its bytes, a write replaces that sector and no other. The file
    system's theorems are proved against the contract; [BlockPc] proves it for
    the host driver. *)
From S2P Require Import Prelude.

Definition BLOCK_SIZE : Z := 512.
Definition block_get_block_size : Z := BLOCK_SIZE.

Class BlockDevice (D : Type) := {
  block_read : Z -> list Z -> D -> res (Z * list Z);
  block_write : Z -> list Z -> D -> res (Z * D);
  block_get_volume_size : D -> Z;
  block_get_device_read_only : D -> Z
}.

(** The abstract view of a device: when it is usable, its sectors, and the device with
    one sector replaced. *)
Class BlockView (D : Type) := {
  dev_ok : D -> Prop;
  dev_sector : D -> Z -> list Z;
  dev_put : D -> Z -> list Z -> D
}.

(** [n] is a sector of the volume. *)
Definition in_volume {D} `{BlockDevice D} (d : D) (n : Z) : Prop :=
  0 <= n < block_get_volume_size d.

(** A sector's worth of bytes. *)
Definition sector_ok (s : list Z) : Prop := Z.of_nat (length s) = BLOCK_SIZE /\ bytes_ok s.

Class BlockDeviceLaws (D : Type) `{BlockDevice D, BlockView D} : Prop := {
  dev_volume_range (d : D) : dev_ok d -> 0 <= block_get_volume_size d < 4294967296;
  dev_sector_ok (d : D) n : dev_ok d -> in_volume d n -> sector_ok (dev_sector d n);
  dev_read (d : D) n buf :
    dev_ok d -> in_volume d n -> Z.of_nat (length buf) = BLOCK_SIZE ->
    block_read n buf d = Ok (0, dev_sector d n);
  dev_write (d : D) n buf :
    dev_ok d -> in_volume d n -> sector_ok buf -> block_write n buf d = Ok (0, dev_put d n buf);
  dev_put_ok (d : D) n buf : dev_ok d -> in_volume d n -> sector_ok buf -> dev_ok (dev_put d n buf);
  dev_put_volume (d : D) n buf :
    dev_ok d -> in_volume d n -> sector_ok buf ->
    block_get_volume_size (dev_put d n buf) = block_get_volume_size d;
  dev_put_same (d : D) n buf :
    dev_ok d -> in_volume d n -> sector_ok buf -> dev_sector (dev_put d n buf) n = buf;
  dev_put_other (d : D) n m buf :
    dev_ok d -> in_volume d n -> in_volume d m -> sector_ok buf -> m <> n ->
    dev_sector (dev_put d n buf) m = dev_sector d m
}.

Section device_facts.
Context {D : Type} `{BlockDeviceLaws D}.
Implicit Types (d : D).

Lemma dev_put_in_volume d n buf m :
  dev_ok d -> in_volume d n -> sector_ok buf ->
  in_volume (dev_put d n buf) m <-> in_volume d m.
Proof. intros. unfold in_volume. by rewrite dev_put_volume. Qed.

Lemma dev_put_sector d n m buf :
  dev_ok d -> in_volume d n -> in_volume d m -> sector_ok buf ->
  dev_sector (dev_put d n buf) m = if decide (m = n) then buf else dev_sector d m.
Proof. intros. case_decide; subst; [by apply dev_put_same | by apply dev_put_other]. Qed.

Lemma in_volume_u32 d n : dev_ok d -> in_volume d n -> 0 <= n < 4294967296.
Proof. intros Hd [? ?]. pose proof (dev_volume_range d Hd). lia. Qed.

Lemma sector_length d n : dev_ok d -> in_volume d n -> Z.of_nat (length (dev_sector d n)) = 512.
Proof. intros. by apply (dev_sector_ok d n). Qed.

Lemma sector_bytes d n : dev_ok d -> in_volume d n -> bytes_ok (dev_sector d n).
Proof. intros. by apply (dev_sector_ok d n). Qed.
End device_facts.

Lemma sector_ok_splice off new s :
  sector_ok s -> bytes_ok new -> 0 <= off -> off + Z.of_nat (length new) <= BLOCK_SIZE ->
  sector_ok (splice off new s).
Proof.
  intros [Hl Hb] Hn ? ?. split.
  - rewrite length_splice; lia.
  - auto with bytes.
Qed.
