(* ===== verification/BlockPc.v ===== *)
(** * The host block driver, [src/src/block_drivers/block_pc.c]

    The driver keeps a whole image in memory. Its globals are a [pc_state];
    [blocks] is a pointer that is null before [block_init], points to the image
    after it and dangles after [block_halt]. The host's files and allocator are
    arguments of the operations that use them. *)
From S2P Require Import Prelude Device.

Inductive image : Type :=
| NullImage                      (** [blocks == NULL] *)
| FreedImage                     (** [blocks] points to freed memory *)
| Image (bytes : list Z).        (** [blocks] points to an allocation *)

Record pc_state : Type := mk_pc {
  block_fs_size : Z;             (** uint64_t *)
  blocks : image;
  block_ro : Z
}.

Definition pc_initial : pc_state := mk_pc 0 NullImage 0.

(** What the host answers to [block_init]: the contents of the image file ([None]: [fopen]
    fails), whether [malloc] succeeds, and how many bytes [fread] delivers. *)
Record host : Type := mk_host {
  host_file : option (list Z);
  host_malloc : bool;
  host_fread : Z
}.

Module Pc.
Definition deref (i : image) : res (list Z) :=
  match i with
  | NullImage => Fault NullDeref
  | FreedImage => Fault BadPointer
  | Image bs => Ok bs
  end.

Definition block_init (h : host) (s : pc_state) : Z * pc_state :=
  match host_file h with
  | None => (-1, s)
  | Some file =>
      let size := Z.of_nat (length file) in
      let s := mk_pc size (blocks s) (block_ro s) in
      if negb (size <? 2048 * 1024 * 1024) then (-1, s)
      else if negb (host_malloc h) then (-1, mk_pc size NullImage (block_ro s))
      else if host_fread h <? size then (-1, mk_pc size FreedImage (block_ro s))
      else (0, mk_pc size (Image file) (block_ro s))
  end.

(** [free] of the image; a second [block_halt] would free it again. *)
Definition block_halt (s : pc_state) : res (Z * pc_state) :=
  match blocks s with
  | NullImage => Ok (0, s)
  | FreedImage => Fault BadPointer
  | Image _ => Ok (0, mk_pc (block_fs_size s) FreedImage (block_ro s))
  end.

(** The guard of both transfers, in [uint32_t] arithmetic until the comparison. *)
Definition past_end (block : Z) (s : pc_state) : bool :=
  block_fs_size s <? u32 (u32 (u32 (block + 1) * BLOCK_SIZE) - 1).

Definition block_read (block : Z) (buffer : list Z) (s : pc_state) : res (Z * list Z) :=
  if past_end block s then Ok (-1, buffer)
  else
    mem ← deref (blocks s);
    src ← mem_read mem (u32 (block * BLOCK_SIZE)) BLOCK_SIZE;
    buffer' ← mem_write buffer 0 src;
    Ok (0, buffer').

Definition block_write (block : Z) (buffer : list Z) (s : pc_state) : res (Z * pc_state) :=
  if past_end block s then Ok (-1, s)
  else
    mem ← deref (blocks s);
    src ← mem_read buffer 0 BLOCK_SIZE;
    mem' ← mem_write mem (u32 (block * BLOCK_SIZE)) src;
    Ok (0, mk_pc (block_fs_size s) (Image mem') (block_ro s)).

Definition block_get_volume_size (s : pc_state) : Z := u32 (block_fs_size s / BLOCK_SIZE).
Definition block_get_device_read_only (s : pc_state) : Z := block_ro s.
Definition block_pc_set_ro (s : pc_state) : pc_state := mk_pc (block_fs_size s) (blocks s) (-1).
Definition block_pc_set_rw (s : pc_state) : pc_state := mk_pc (block_fs_size s) (blocks s) 0.

(** The bytes [block_pc_snapshot] hands to [fwrite]. *)
Definition block_pc_snapshot (start len : Z) (s : pc_state) : res (list Z) :=
  mem ← deref (blocks s);
  mem_read mem start len.
Definition block_pc_snapshot_all (s : pc_state) : res (list Z) :=
  block_pc_snapshot 0 (block_fs_size s) s.

(** A usable device: an image of whole sectors, as large as [block_init] accepts. *)
Definition ok (s : pc_state) : Prop :=
  match blocks s with
  | Image mem =>
      Z.of_nat (length mem) = block_fs_size s /\ bytes_ok mem /\
      block_fs_size s mod BLOCK_SIZE = 0 /\ block_fs_size s < 2147483648
  | _ => False
  end.
Definition memory (s : pc_state) : list Z :=
  match blocks s with Image mem => mem | _ => [] end.
Definition sector (s : pc_state) (n : Z) : list Z := slice (n * BLOCK_SIZE) BLOCK_SIZE (memory s).
Definition put (s : pc_state) (n : Z) (buf : list Z) : pc_state :=
  mk_pc (block_fs_size s) (Image (splice (n * BLOCK_SIZE) buf (memory s))) (block_ro s).
End Pc.

#[export] Instance pc_device : BlockDevice pc_state := {|
  block_read := Pc.block_read;
  block_write := Pc.block_write;
  block_get_volume_size := Pc.block_get_volume_size;
  block_get_device_read_only := Pc.block_get_device_read_only
|}.

#[export] Instance pc_view : BlockView pc_state := {|
  dev_ok := Pc.ok; dev_sector := Pc.sector; dev_put := Pc.put
|}.

(** ** The contract holds *)
Section contract.
Implicit Types (s : pc_state) (n : Z) (buf : list Z).

(** Inside the volume the guard passes and the byte range is inside the image. *)
Lemma pc_in_volume s n :
  Pc.ok s -> in_volume s n ->
  exists mem, blocks s = Image mem /\ Z.of_nat (length mem) = block_fs_size s /\ bytes_ok mem /\
    block_fs_size s < 2147483648 /\
    0 <= n * 512 /\ n * 512 + 512 <= block_fs_size s /\
    Pc.past_end n s = false /\ u32 (n * BLOCK_SIZE) = n * 512.
Proof.
  unfold Pc.ok, in_volume. cbn. unfold Pc.block_get_volume_size, Pc.past_end, BLOCK_SIZE.
  destruct (blocks s) as [| |mem]; try done. intros (Hlen & Hb & Hmod & Hmax) [Hn0 Hn].
  exists mem.
  pose proof (Z.div_mod (block_fs_size s) 512 ltac:(lia)) as Hdm.
  rewrite Hmod in Hdm. rewrite u32_id in Hn by lia.
  rewrite (u32_id (n + 1)), (u32_id ((n + 1) * 512)), (u32_id ((n + 1) * 512 - 1)), (u32_id (n * 512)) by lia.
  repeat split; try done; lia.
Qed.

Lemma pc_read s n buf :
  Pc.ok s -> in_volume s n -> Z.of_nat (length buf) = BLOCK_SIZE ->
  Pc.block_read n buf s = Ok (0, Pc.sector s n).
Proof.
  intros Hs Hn Hbuf. destruct (pc_in_volume s n Hs Hn) as (mem & Hm & Hlen & _ & _ & ? & ? & Hp & Ho).
  unfold Pc.block_read, Pc.sector, Pc.memory, BLOCK_SIZE in *. rewrite Hp, Hm. cbn.
  rewrite Ho, mem_read_ok by lia. cbn.
  rewrite mem_write_ok by (rewrite ?length_slice; lia). cbn.
  by rewrite splice_all by (rewrite length_slice; lia).
Qed.

Lemma pc_write s n buf :
  Pc.ok s -> in_volume s n -> sector_ok buf -> Pc.block_write n buf s = Ok (0, Pc.put s n buf).
Proof.
  intros Hs Hn [Hbuf _]. destruct (pc_in_volume s n Hs Hn) as (mem & Hm & Hlen & _ & _ & ? & ? & Hp & Ho).
  unfold Pc.block_write, Pc.put, Pc.memory, BLOCK_SIZE in *. rewrite Hp, Hm. cbn.
  rewrite mem_read_ok by lia. cbn. rewrite <- Hbuf.
  assert (slice 0 (Z.of_nat (length buf)) buf = buf) as ->.
  { unfold slice. cbn. apply take_ge. lia. }
  rewrite Hbuf, Ho, mem_write_ok by lia. done.
Qed.

#[export] Instance pc_device_laws : BlockDeviceLaws pc_state.
Proof.
  split; cbn.
  - intros s _. apply u32_range.
  - intros s n Hs Hn. destruct (pc_in_volume s n Hs Hn) as (mem & Hm & Hlen & Hb & _ & ? & ? & _ & _).
    unfold sector_ok, Pc.sector, Pc.memory, BLOCK_SIZE. rewrite Hm. split; [|auto with bytes].
    rewrite length_slice; lia.
  - apply pc_read.
  - apply pc_write.
  - intros s n buf Hs Hn [Hbuf Hbb].
    destruct (pc_in_volume s n Hs Hn) as (mem & Hm & Hlen & Hb & ? & ? & ? & _ & _).
    unfold Pc.ok, Pc.put, Pc.memory, BLOCK_SIZE in *. rewrite Hm in *. cbn.
    destruct Hs as (_ & _ & ? & ?).
    rewrite length_splice by lia. auto with bytes.
  - done.
  - intros s n buf Hs Hn [Hbuf Hbb].
    destruct (pc_in_volume s n Hs Hn) as (mem & Hm & Hlen & Hb & ? & ? & ? & _ & _).
    unfold Pc.sector, Pc.put, Pc.memory, BLOCK_SIZE in *. rewrite Hm. cbn. rewrite <- Hbuf at 2.
    apply slice_splice_same; lia.
  - intros s n m buf Hs Hn Hm [Hbuf Hbb] Hne.
    destruct (pc_in_volume s n Hs Hn) as (mem & Hmem & Hlen & Hb & ? & ? & ? & _ & _).
    destruct (pc_in_volume s m Hs Hm) as (mem' & Hmem' & _ & _ & _ & ? & ? & _ & _).
    unfold Pc.sector, Pc.put, Pc.memory, BLOCK_SIZE in *. rewrite Hmem. cbn.
    apply slice_splice_disjoint; lia.
Qed.
End contract.

(** * Properties *)
Section pc_properties.
Implicit Types (s : pc_state) (n m : Z) (buf : list Z).

(** C36: the host driver is an array of sectors: a write to a sector of the volume succeeds, is read
    back into any buffer, leaves every other sector alone, and keeps the device usable. *)
Theorem pc_write_read s n buf dst :
  Pc.ok s -> in_volume s n -> sector_ok buf -> Z.of_nat (length dst) = BLOCK_SIZE ->
  exists s', Pc.block_write n buf s = Ok (0, s') /\ Pc.block_read n dst s' = Ok (0, buf) /\ Pc.ok s' /\
    (forall m, in_volume s m -> m <> n -> Pc.block_read m dst s' = Pc.block_read m dst s).
Proof.
  intros Hs Hn Hbuf Hdst. exists (Pc.put s n buf). split; [by apply pc_write|].
  pose proof (dev_put_ok (BlockDeviceLaws := pc_device_laws) s n buf Hs Hn Hbuf) as Hok.
  assert (Hvol : forall m, in_volume (Pc.put s n buf) m <-> in_volume s m)
    by (intros m; by apply (dev_put_in_volume (H1 := pc_device_laws) s n buf m)).
  split; [|split; [exact Hok|]].
  - rewrite pc_read by (try done; by apply Hvol). f_equal. f_equal.
    by apply (dev_put_same (BlockDeviceLaws := pc_device_laws) s n buf).
  - intros m Hm Hne. rewrite pc_read, pc_read by (try done; by apply Hvol). f_equal. f_equal.
    by apply (dev_put_other (BlockDeviceLaws := pc_device_laws) s n m buf).
Qed.

(** [block_init] of a readable image below 2 GiB returns 0 and every sector of the volume reads
    as the corresponding 512 bytes of the file; an image of 2 GiB or more, a failed allocation, a
    short read and a missing file return -1. *)
Lemma block_init_spec (h : host) s :
  (host_file h = None -> Pc.block_init h s = (-1, s)) /\
  (forall file, host_file h = Some file ->
     (2147483648 <= Z.of_nat (length file) \/ host_malloc h = false \/
      host_fread h < Z.of_nat (length file) -> fst (Pc.block_init h s) = -1) /\
     (Z.of_nat (length file) < 2147483648 -> host_malloc h = true ->
      Z.of_nat (length file) <= host_fread h -> bytes_ok file -> Z.of_nat (length file) mod 512 = 0 ->
      exists s', Pc.block_init h s = (0, s') /\ Pc.ok s' /\ block_ro s' = block_ro s /\
        forall n dst, in_volume s' n -> Z.of_nat (length dst) = BLOCK_SIZE ->
          Pc.block_read n dst s' = Ok (0, slice (n * 512) 512 file))).
Proof.
  unfold Pc.block_init. split; [by intros ->|]. intros file ->. change (2048 * 1024 * 1024) with 2147483648.
  split.
  - intros Hbad. destruct (Z.ltb_spec (Z.of_nat (length file)) 2147483648); cbn [negb]; [|done].
    destruct (host_malloc h) eqn:Hm; cbn [negb]; [|done].
    destruct (Z.ltb_spec (host_fread h) (Z.of_nat (length file))); [done|].
    destruct Hbad as [|[|]]; [lia | done | lia].
  - intros Hsz -> Hfr Hb Hmod. destruct (Z.ltb_spec (Z.of_nat (length file)) 2147483648); [|lia]. cbn [negb].
    destruct (Z.ltb_spec (host_fread h) (Z.of_nat (length file))); [lia|].
    eexists. split; [reflexivity|].
    assert (Hok : Pc.ok (mk_pc (Z.of_nat (length file)) (Image file) (block_ro s))).
    { unfold Pc.ok, BLOCK_SIZE. by cbn. }
    split; [done|]. split; [done|]. intros n dst Hn Hdst. by rewrite pc_read.
Qed.

(** The guard of [block_read] and [block_write] is off by one: for an image whose size is one
    byte short of a multiple of 512, the last, incomplete sector passes the guard, and the transfer
    runs one byte past the allocation. *)
Lemma block_read_past_end mem ro n dst :
  Z.of_nat (length mem) = n * 512 + 511 -> 0 <= n < 4194304 ->
  let s := mk_pc (Z.of_nat (length mem)) (Image mem) ro in
  Pc.past_end n s = false /\ Pc.block_read n dst s = Fault OutOfBounds /\
  (forall buf, Z.of_nat (length buf) = 512 -> Pc.block_write n buf s = Fault OutOfBounds).
Proof.
  intros Hlen Hn s. assert (Hguard : Pc.past_end n s = false).
  { unfold Pc.past_end, BLOCK_SIZE. cbn. rewrite (u32_id (n + 1)), (u32_id ((n + 1) * 512)), u32_id by lia.
    destruct (Z.ltb_spec (Z.of_nat (length mem)) ((n + 1) * 512 - 1)); [lia | done]. }
  split; [done|]. unfold Pc.block_read, Pc.block_write. rewrite Hguard. cbn. unfold BLOCK_SIZE.
  rewrite (u32_id (n * 512)) by lia. split.
  - by rewrite mem_read_fault by lia.
  - intros buf Hbuf. rewrite mem_read_ok by lia. cbn. rewrite mem_write_fault; [done|].
    rewrite length_slice; lia.
Qed.

(** The byte address of a sector is computed in 32 bits, so a block number 2^23 above a sector
    of the volume, 4 GiB further, is accepted and reads the sector itself. *)
Lemma block_read_alias s n dst :
  0 <= n -> n + 8388608 < 4294967296 ->
  Pc.block_read (n + 8388608) dst s = Pc.block_read n dst s.
Proof.
  intros Hn Hmax.
  assert (Hwrap : forall k, 0 <= k -> u32 (u32 (k + 8388608) * BLOCK_SIZE) = u32 (u32 k * BLOCK_SIZE)).
  { intros k _. rewrite !u32_mul_u32_l. unfold u32, BLOCK_SIZE.
    replace ((k + 8388608) * 512) with (k * 512 + 1 * 4294967296) by lia. apply Z_mod_plus_full. }
  unfold Pc.block_read. assert (Pc.past_end (n + 8388608) s = Pc.past_end n s) as ->.
  { unfold Pc.past_end. replace (n + 8388608 + 1) with (n + 1 + 8388608) by lia. by rewrite Hwrap by lia. }
  pose proof (Hwrap n Hn) as Hw. rewrite (u32_id n), (u32_id (n + 8388608)) in Hw by lia. by rewrite Hw.
Qed.
End pc_properties.
