(* ===== verification/Md5.v ===== *)
(** * MD5, [src/test/hash.c]

    The hash the host tests and the host block driver compute. The context is
    a record, a function on it a computation over it; arrays are byte lists
    with checked accesses, and the words of [h] are stored little-endian, as on
    the hosts the tests run on. The contents of memory C leaves uninitialised
    are arguments: [scratch] is what [malloc] returns ([None]: the null pointer,
    which the code does not check), [stack] the local context. *)
From S2P Require Import Prelude.

Definition BUFSIZE : Z := 1024 * 1024.

(** Four 32-bit words: [h], or the local variables [a], [b], [c], [d]. *)
Record words : Type := mk_words { w_a : Z; w_b : Z; w_c : Z; w_d : Z }.

Record md_context : Type := mk_md {
  h : words;
  digest : list Z;               (** uint8_t[16] *)
  count : Z;                     (** uint64_t *)
  buffer : list Z                (** uint8_t[64] *)
}.
Definition set_h (v : words) (x : md_context) : md_context := mk_md v (digest x) (count x) (buffer x).
Definition set_digest (v : list Z) (x : md_context) : md_context := mk_md (h x) v (count x) (buffer x).
Definition set_count (v : Z) (x : md_context) : md_context := mk_md (h x) (digest x) v (buffer x).
Definition set_buffer (v : list Z) (x : md_context) : md_context := mk_md (h x) (digest x) (count x) v.

(** The per-round shift amounts. *)
Definition r : list Z :=
  [7; 12; 17; 22; 7; 12; 17; 22; 7; 12; 17; 22; 7; 12; 17; 22;
   5;  9; 14; 20; 5;  9; 14; 20; 5;  9; 14; 20; 5;  9; 14; 20;
   4; 11; 16; 23; 4; 11; 16; 23; 4; 11; 16; 23; 4; 11; 16; 23;
   6; 10; 15; 21; 6; 10; 15; 21; 6; 10; 15; 21; 6; 10; 15; 21].

Definition k : list Z :=
  [0xd76aa478; 0xe8c7b756; 0x242070db; 0xc1bdceee;
   0xf57c0faf; 0x4787c62a; 0xa8304613; 0xfd469501;
   0x698098d8; 0x8b44f7af; 0xffff5bb1; 0x895cd7be;
   0x6b901122; 0xfd987193; 0xa679438e; 0x49b40821;
   0xf61e2562; 0xc040b340; 0x265e5a51; 0xe9b6c7aa;
   0xd62f105d; 0x02441453; 0xd8a1e681; 0xe7d3fbc8;
   0x21e1cde6; 0xc33707d6; 0xf4d50d87; 0x455a14ed;
   0xa9e3e905; 0xfcefa3f8; 0x676f02d9; 0x8d2a4c8a;
   0xfffa3942; 0x8771f681; 0x6d9d6122; 0xfde5380c;
   0xa4beea44; 0x4bdecfa9; 0xf6bb4b60; 0xbebfbc70;
   0x289b7ec6; 0xeaa127fa; 0xd4ef3085; 0x04881d05;
   0xd9d4d039; 0xe6db99e5; 0x1fa27cf8; 0xc4ac5665;
   0xf4292244; 0x432aff97; 0xab9423a7; 0xfc93a039;
   0x655b59c3; 0x8f0ccc92; 0xffeff47d; 0x85845dd1;
   0x6fa87e4f; 0xfe2ce6e0; 0xa3014314; 0x4e0811a1;
   0xf7537e82; 0xbd3af235; 0x2ad7d2bb; 0xeb86d391].

(** The macro, on [uint32_t]; [c] is an entry of [r], between 1 and 31. *)
Definition leftrotate (x c : Z) : Z := Z.lor (u32 (Z.shiftl x c)) (Z.shiftr x (32 - c)).

(** The four functions of the words and the four word orders, one per loop. *)
Definition f0 (b c d : Z) : Z := Z.lxor (Z.land (Z.lxor c d) b) d.
Definition f1 (b c d : Z) : Z := Z.lxor (Z.land (Z.lxor b c) d) c.
Definition f2 (b c d : Z) : Z := Z.lxor (Z.lxor b c) d.
Definition f3 (b c d : Z) : Z := Z.lxor c (Z.lor b (u32 (Z.lnot d))).
Definition g0 (j : Z) : Z := j.
Definition g1 (j : Z) : Z := u32 (5 * j + 1) mod 16.
Definition g2 (j : Z) : Z := u32 (3 * j + 5) mod 16.
Definition g3 (j : Z) : Z := u32 (7 * j) mod 16.

(** The body of the four loops of [md5_transform]. *)
Definition md5_step (f : Z -> Z -> Z -> Z) (g : Z -> Z) (buffer : list Z) (j : Z) : M words (option unit) :=
  '(mk_words a b c d) ← gets id;
  buf ← lift (mem_read buffer (g j * 4) 4);
  kj ← lift (arr_get k j);
  rj ← lift (arr_get r j);
  let x := u32 (a + f b c d + kj + le_to_Z buf) in
  modify (fun _ => mk_words d (u32 (b + leftrotate x rj)) b c) ;;
  mret None.

Definition md5_rounds (buffer : list Z) : M words unit :=
  for_loop 16 0 (md5_step f0 g0 buffer) ;;
  for_loop 16 16 (md5_step f1 g1 buffer) ;;
  for_loop 16 32 (md5_step f2 g2 buffer) ;;
  for_loop 16 48 (md5_step f3 g3 buffer) ;;
  mret tt.

(** [context->h[0] += a] and so on. *)
Definition add_words (x y : words) : words :=
  mk_words (u32 (w_a x + w_a y)) (u32 (w_b x + w_b y)) (u32 (w_c x + w_c y)) (u32 (w_d x + w_d y)).

Definition md5_transform : M md_context unit :=
  x ← gets id;
  '(_, v) ← lift (md5_rounds (buffer x) (h x));
  modify (set_h (add_words (h x) v)).

Definition md5_init : words := mk_words 0x67452301 0xefcdab89 0x98badcfe 0x10325476.

Definition md5_start : M md_context unit :=
  modify (fun x => mk_md md5_init (digest x) 0 (replicate 64 0)).

(** [memcpy] into the buffer of the context. *)
Definition buffer_write (off : Z) (bytes : list Z) : M md_context unit :=
  x ← gets id;
  buffer' ← lift (mem_write (buffer x) off bytes);
  modify (set_buffer buffer').

(** The loop over whole blocks; [off] is how far [chunk] has moved. The result is the offset and
    the size left. *)
Fixpoint update_blocks (fuel : nat) (chunk : list Z) (off chunk_size : Z) : M md_context (Z * Z) :=
  if 64 <=? chunk_size then
    match fuel with
    | O => throw OutOfFuel
    | S fuel' =>
        block ← lift (mem_read chunk off 64);
        buffer_write 0 block ;;
        md5_transform ;;
        update_blocks fuel' chunk (off + 64) (chunk_size - 64)
    end
  else mret (off, chunk_size).

Definition md5_update (chunk : list Z) (chunk_size : Z) : M md_context unit :=
  buflen ← gets (fun x => Z.land (count x) 63);
  modify (fun x => set_count (u64 (count x + chunk_size)) x) ;;
  if u64 (buflen + chunk_size) <? 64 then
    bytes ← lift (mem_read chunk 0 chunk_size);
    buffer_write buflen bytes
  else
    bytes ← lift (mem_read chunk 0 (64 - buflen));
    buffer_write buflen bytes ;;
    md5_transform ;;
    let chunk_size := u64 (chunk_size - (64 - buflen)) in
    '(off, chunk_size) ← update_blocks (Z.to_nat (chunk_size / 64)) chunk (64 - buflen) chunk_size;
    bytes ← lift (mem_read chunk off chunk_size);
    buffer_write 0 bytes.

(** The bytes of [h] in memory. *)
Definition words_bytes (x : words) : list Z :=
  Z_to_le 4 (w_a x) ++ Z_to_le 4 (w_b x) ++ Z_to_le 4 (w_c x) ++ Z_to_le 4 (w_d x).

Definition md5_finish : M md_context unit :=
  buflen ← gets (fun x => Z.land (count x) 63);
  buffer_write buflen [0x80] ;;
  let buflen := buflen + 1 in
  buffer_write buflen (replicate (Z.to_nat (64 - buflen)) 0) ;;
  (if 56 <? buflen then md5_transform ;; buffer_write 0 (replicate 64 0) else mret tt) ;;
  bitcount ← gets (fun x => u64 (count x * 8));
  buffer_write 56 (Z_to_le 8 bitcount) ;;
  md5_transform ;;
  modify (fun x => set_digest (words_bytes (h x)) x).

(** A file as the calls of [fread] deliver it: the bytes up to its end or the first error. *)
Definition fread (n : Z) (fp : list Z) : list Z * list Z := (take (Z.to_nat n) fp, drop (Z.to_nat n) fp).

(** [memcpy] into the allocated buffer, then [md5_update] of the bytes copied. *)
Definition update_copied (scratch bytes : list Z) : M md_context (list Z) :=
  scratch' ← lift (mem_write scratch 0 bytes);
  md5_update scratch' (Z.of_nat (length bytes)) ;;
  mret scratch'.

Fixpoint file_loop (fuel : nat) (scratch bytes fp : list Z) : M md_context (list Z * list Z) :=
  if Z.of_nat (length bytes) =? BUFSIZE then
    match fuel with
    | O => throw OutOfFuel
    | S fuel' =>
        scratch ← update_copied scratch bytes;
        let '(bytes, fp) := fread BUFSIZE fp in
        file_loop fuel' scratch bytes fp
    end
  else mret (scratch, bytes).

(** The buffer [malloc] returns, used unchecked. *)
Definition deref_scratch (scratch : option (list Z)) : res (list Z) :=
  match scratch with Some l => Ok l | None => Fault NullDeref end.

(** [file]: [None] when [fopen] fails. *)
Definition md5_file (scratch : option (list Z)) (stack : md_context) (file : option (list Z))
    (hash : list Z) : res (Z * list Z) :=
  match file with
  | None => Ok (-1, hash)
  | Some fp =>
      scratch ← deref_scratch scratch;
      '(_, x) ← (md5_start ;;
        let '(bytes, fp) := fread BUFSIZE fp in
        '(scratch, bytes) ← file_loop (Z.to_nat (Z.of_nat (length fp) / BUFSIZE + 1)) scratch bytes fp;
        update_copied scratch bytes ;;
        md5_finish) stack;
      hash ← mem_write hash 0 (digest x);
      Ok (0, hash)
  end.

(** [mem] points at [start] inside an allocation; the result is the offset and the length left. *)
Fixpoint memory_loop (fuel : nat) (scratch mem : list Z) (start offs len : Z) :
    M md_context (list Z * Z * Z) :=
  if BUFSIZE <? len then
    match fuel with
    | O => throw OutOfFuel
    | S fuel' =>
        bytes ← lift (mem_read mem (start + offs) BUFSIZE);
        scratch ← update_copied scratch bytes;
        memory_loop fuel' scratch mem start (offs + BUFSIZE) (len - BUFSIZE)
    end
  else mret (scratch, offs, len).

Definition md5_memory (scratch : option (list Z)) (stack : md_context) (mem : list Z) (start len : Z)
    (hash : list Z) : res (Z * list Z) :=
  scratch ← deref_scratch scratch;
  '(_, x) ← (md5_start ;;
    '(scratch, offs, len) ← memory_loop (Z.to_nat (len / BUFSIZE)) scratch mem start 0 len;
    bytes ← lift (mem_read mem (start + offs) len);
    update_copied scratch bytes ;;
    md5_finish) stack;
  hash ← mem_write hash 0 (digest x);
  Ok (0, hash).
