(* ===== verification/Md5Spec.v ===== *)
(** * MD5 as RFC 1321 defines it

    The reference the code of [Md5] is compared with, in the terms of the RFC:
    the message is padded, cut into blocks of sixteen words, and every block
    goes through four rounds of sixteen operations [[abcd k s i]] on the
    registers A, B, C, D. The sine table [T] is an argument; [Md5Sine] gives it. *)
From S2P Require Import Prelude.

Section rfc.
Context (T : Z -> Z).

(** Section 3.4: the auxiliary functions of words. *)
Definition aux_F (x y z : Z) : Z := Z.lor (Z.land x y) (Z.ldiff z x).
Definition aux_G (x y z : Z) : Z := Z.lor (Z.land x z) (Z.ldiff y z).
Definition aux_H (x y z : Z) : Z := Z.lxor (Z.lxor x y) z.
Definition aux_I (x y z : Z) : Z := Z.lxor y (Z.lor x (4294967295 - z)).

(** Circular shift of a 32-bit word to the left. *)
Definition rotl (x s : Z) : Z := (x * 2 ^ s) mod 2 ^ 32 + x / 2 ^ (32 - s).

(** [[abcd k s i]] with [a] the register [p] (A is 0) and [b], [c], [d] the ones after it in
    cyclic order: a = b + ((a + fn(b,c,d) + X[k] + T[i]) <<< s). *)
Definition op (fn : Z -> Z -> Z -> Z) (X : list Z) (regs : list Z) (o : nat * nat * Z * Z) : list Z :=
  let '(p, k, s, i) := o in
  let reg n := regs !!! ((p + n) mod 4)%nat in
  <[p := (reg 1%nat + rotl ((reg 0%nat + fn (reg 1%nat) (reg 2%nat) (reg 3%nat) + X !!! k + T i) mod 2 ^ 32) s)
         mod 2 ^ 32]> regs.

(** The sixteen operations of a round: ABCD, DABC, CDAB, BCDA and again, the word numbers, the
    four shifts repeated, and the table from [i0] on. *)
Definition schedule (ks : list nat) (ss : list Z) (i0 : Z) : list (nat * nat * Z * Z) :=
  imap (fun n k => (((4 - n mod 4) mod 4)%nat, k, ss !!! (n mod 4)%nat, i0 + Z.of_nat n)) ks.

Definition round1 := schedule [0; 1; 2; 3; 4; 5; 6; 7; 8; 9; 10; 11; 12; 13; 14; 15]%nat [7; 12; 17; 22] 1.
Definition round2 := schedule [1; 6; 11; 0; 5; 10; 15; 4; 9; 14; 3; 8; 13; 2; 7; 12]%nat [5; 9; 14; 20] 17.
Definition round3 := schedule [5; 8; 11; 14; 1; 4; 7; 10; 13; 0; 3; 6; 9; 12; 15; 2]%nat [4; 11; 16; 23] 33.
Definition round4 := schedule [0; 7; 14; 5; 12; 3; 10; 1; 8; 15; 6; 13; 4; 11; 2; 9]%nat [6; 10; 15; 21] 49.

(** The words of a block, low-order byte first. *)
Definition block_words (block : list Z) : list Z :=
  (fun n => le_to_Z (slice (4 * n) 4 block)) <$> seqZ 0 16.

Definition compress (regs : list Z) (block : list Z) : list Z :=
  let X := block_words block in
  let regs' := foldl (op aux_I X) (foldl (op aux_H X) (foldl (op aux_G X) (foldl (op aux_F X) regs round1) round2) round3) round4 in
  zip_with (fun x y => (x + y) mod 2 ^ 32) regs regs'.

Fixpoint blocks (n : nat) (msg : list Z) : list (list Z) :=
  match n with
  | O => []
  | S n' => take 64 msg :: blocks n' (drop 64 msg)
  end.
Definition absorb (regs msg : list Z) : list Z := foldl compress regs (blocks (length msg / 64) msg).

(** Sections 3.1 and 3.2: a one bit, zeros up to 56 bytes modulo 64, the number of bits. *)
Definition md5_pad (msg : list Z) : list Z :=
  msg ++ [0x80] ++ replicate (Z.to_nat ((55 - Z.of_nat (length msg)) mod 64)) 0 ++
  Z_to_le 8 (8 * Z.of_nat (length msg)).

(** Section 3.3: the registers, bytes given low-order first. *)
Definition iv : list Z :=
  le_to_Z <$> [[0x01; 0x23; 0x45; 0x67]; [0x89; 0xab; 0xcd; 0xef]; [0xfe; 0xdc; 0xba; 0x98]; [0x76; 0x54; 0x32; 0x10]].

Definition rfc_md5 (msg : list Z) : list Z := absorb iv (md5_pad msg) ≫= Z_to_le 4.
End rfc.

(** ** Facts about the reference *)
Definition word_ok (x : Z) : Prop := 0 <= x < 4294967296.
#[export] Instance word_ok_dec x : Decision (word_ok x).
Proof. unfold word_ok. apply _. Defined.
Definition regs_ok (regs : list Z) : Prop := length regs = 4%nat /\ Forall word_ok regs.

Lemma op_ok T fn X regs o : regs_ok regs -> regs_ok (op T fn X regs o).
Proof.
  destruct o as [[[p k] s] i]. intros [Hl Hw]. unfold op. split; [by rewrite length_insert|].
  apply Forall_insert; [done|]. apply (Z.mod_pos_bound _ (2 ^ 32)). lia.
Qed.

Lemma round_ok T fn X ops regs : regs_ok regs -> regs_ok (foldl (op T fn X) regs ops).
Proof. revert regs. induction ops as [|o ops IH]; intros regs Hr; [done|]. by apply IH, op_ok. Qed.

Lemma compress_ok T regs block : regs_ok regs -> regs_ok (compress T regs block).
Proof.
  intros Hr. unfold compress. set (rs := foldl _ _ round4).
  assert (regs_ok rs) as [Hl _] by (by repeat apply round_ok). destruct Hr as [Hl' _]. split.
  - by rewrite length_zip_with, Hl, Hl'.
  - apply Forall_lookup. intros i v. rewrite lookup_zip_with.
    destruct (regs !! i), (rs !! i); cbn; intros [= <-]. apply (Z.mod_pos_bound _ (2 ^ 32)). lia.
Qed.

(** Padding fills whole blocks. *)
Lemma length_md5_pad msg : (length (md5_pad msg) mod 64 = 0)%nat.
Proof.
  unfold md5_pad. rewrite !length_app, length_replicate, length_Z_to_le. cbn [length].
  apply Nat2Z.inj. rewrite Nat2Z.inj_mod. rewrite !Nat2Z.inj_add, Z2Nat.id by (apply Z.mod_pos_bound; lia).
  change (Z.of_nat 64) with 64. Z.to_euclidean_division_equations. lia.
Qed.

Lemma blocks_app n m l1 l2 :
  length l1 = (64 * n)%nat -> blocks (n + m) (l1 ++ l2) = blocks n l1 ++ blocks m l2.
Proof.
  revert l1. induction n as [|n IH]; intros l1 Hl.
  - destruct l1; [done | cbn in Hl; lia].
  - cbn [blocks Nat.add app]. rewrite take_app_le, drop_app_le by lia. f_equal.
    apply IH. rewrite length_drop. lia.
Qed.

Lemma absorb_app T regs l1 l2 :
  (length l1 mod 64 = 0)%nat -> absorb T regs (l1 ++ l2) = absorb T (absorb T regs l1) l2.
Proof.
  intros Hmod. unfold absorb. pose proof (Nat.div_mod (length l1) 64 ltac:(lia)) as Hd.
  rewrite length_app, (Nat.add_comm (length l1)), Hd, Hmod, Nat.add_0_r, (Nat.mul_comm 64), Nat.div_add by lia.
  rewrite (Nat.add_comm _ (length l1 / 64)), blocks_app by lia. rewrite Nat.div_mul by lia.
  by rewrite foldl_app.
Qed.

Lemma absorb_block T regs block :
  length block = 64%nat -> absorb T regs block = compress T regs block.
Proof. intros Hl. unfold absorb. rewrite Hl. cbn. by rewrite take_ge by lia. Qed.

Lemma absorb_ok T regs l : regs_ok regs -> regs_ok (absorb T regs l).
Proof.
  unfold absorb. generalize (blocks (length l / 64) l). intros bs. revert regs.
  induction bs as [|b bs IH]; intros regs Hr; [done|]. by apply IH, compress_ok.
Qed.

(** Only the sixty-four entries of the table count. *)
Section table.
Context (T T' : Z -> Z) (HT : forall i, 1 <= i <= 64 -> T i = T' i).

Lemma round_ext fn X ops regs :
  Forall (fun o => 1 <= snd o <= 64) ops -> foldl (op T fn X) regs ops = foldl (op T' fn X) regs ops.
Proof.
  intros Ho. revert regs. induction Ho as [|[[[p k] s] i] ops Hi Ho IH]; intros regs; [done|].
  cbn [foldl]. rewrite IH. unfold op at 2 4. by rewrite HT.
Qed.

Lemma compress_ext regs block : compress T regs block = compress T' regs block.
Proof.
  unfold compress. rewrite (round_ext _ _ round1), (round_ext _ _ round2), (round_ext _ _ round3), (round_ext _ _ round4)
    by (apply (bool_decide_unpack _); by vm_compute). done.
Qed.

Lemma absorb_ext regs msg : absorb T regs msg = absorb T' regs msg.
Proof.
  unfold absorb. generalize (blocks (length msg / 64) msg). intros bs. revert regs.
  induction bs as [|b bs IH]; intros regs; [done|]. cbn [foldl]. by rewrite compress_ext.
Qed.

Lemma rfc_md5_ext msg : rfc_md5 T msg = rfc_md5 T' msg.
Proof. unfold rfc_md5. by rewrite absorb_ext. Qed.
End table.
