(* ===== verification/Md5Sine.v ===== *)
(** * The constants of MD5 are sines

    RFC 1321 defines the table of MD5 by [T[i]], the integer part of 2^32 times
    the absolute value of the sine of [i] radians. This file computes sine and
    cosine of 1 by their series and of every integer up to 64 by the addition
    theorem, in integers scaled by 2^200 with a bound of the error, and so shows
    that [k] of [src/test/hash.c] is that table. *)
From Stdlib Require Import Reals Lra.
From S2P Require Import Prelude Md5.
Local Open Scope R_scope.

(** The table of the RFC. *)
Definition sine_table (i : Z) : Z := Int_part (Rabs (sin (IZR i)) * IZR (2 ^ 32)).

(** ** Scaled integers with an error *)
Definition scale : Z := (2 ^ 200)%Z.

(** [n] is [x] times the scale up to an error of [e]. *)
Definition approx (e n : Z) (x : R) : Prop := Rabs (x * IZR scale - IZR n) <= IZR e.

Lemma scale_pos : 0 < IZR scale.
Proof. apply (IZR_lt 0). reflexivity. Qed.

Lemma Rabs_le_inv x a : Rabs x <= a -> - a <= x <= a.
Proof. unfold Rabs. destruct (Rcase_abs x); lra. Qed.

Lemma approx_bounds e n x : approx e n x <-> IZR (n - e) <= x * IZR scale <= IZR (n + e).
Proof.
  unfold approx. rewrite minus_IZR, plus_IZR. split.
  - intros Hle%Rabs_le_inv. lra.
  - intros. apply Rabs_le. lra.
Qed.

(** An integer division is off by less than one. *)
Lemma div_bounds a b : (0 < b)%Z -> IZR (a / b) <= IZR a / IZR b < IZR (a / b) + 1.
Proof.
  intros Hb. assert (0 < IZR b) by (by apply (IZR_lt 0)).
  pose proof (Z.div_mod a b ltac:(lia)) as Hd. pose proof (Z.mod_pos_bound a b Hb) as [Hl Hr].
  apply IZR_le in Hl. apply IZR_lt in Hr. apply (f_equal IZR) in Hd. rewrite plus_IZR, mult_IZR in Hd.
  assert (IZR a / IZR b = IZR (a / b) + IZR (a mod b) / IZR b) as -> by (rewrite Hd at 1; field; lra).
  assert (0 <= IZR (a mod b) / IZR b) by (apply Rmult_le_pos; [lra | left; by apply Rinv_0_lt_compat]).
  assert (IZR (a mod b) / IZR b < 1) by (apply Rmult_lt_reg_r with (IZR b); [done|]; field_simplify; lra).
  lra.
Qed.

(** ** Sine and cosine of 1 *)
Fixpoint zfact (n : nat) : Z := match n with O => 1 | S n' => Z.of_nat n * zfact n' end%Z.

Lemma zfact_pos n : (0 < zfact n)%Z.
Proof. induction n as [|n IH]; [done|]. cbn [zfact]. lia. Qed.

Lemma INR_fact n : INR (fact n) = IZR (zfact n).
Proof.
  induction n as [|n IH]; [done|]. cbn [zfact]. rewrite mult_IZR, <- IH, <- INR_IZR_INZ, <- mult_INR. done.
Qed.

(** The partial sums of the series with odd or even powers ([par] is 1 or 0). *)
Fixpoint zsum (par n : nat) : Z :=
  let t := (scale / zfact (2 * n + par))%Z in
  let t := if Nat.even n then t else (- t)%Z in
  match n with O => t | S n' => (zsum par n' + t)%Z end.

Definition rterm (par i : nat) : R := (-1) ^ i * (1 ^ (2 * i + par) / INR (fact (2 * i + par))).

Lemma pow_m1 n : (-1) ^ n = if Nat.even n then 1 else -1.
Proof.
  induction n as [|n IH]; [done|]. rewrite Nat.even_succ, <- Nat.negb_even. cbn [pow]. rewrite IH.
  destruct (Nat.even n); cbn; lra.
Qed.

Lemma zsum_approx par n : approx (Z.of_nat n + 1) (zsum par n) (sum_f_R0 (rterm par) n).
Proof.
  assert (Hterm : forall i, Rabs (rterm par i * IZR scale -
    IZR (if Nat.even i then (scale / zfact (2 * i + par))%Z else (- (scale / zfact (2 * i + par)))%Z)) <= 1).
  { intros i. unfold rterm. rewrite pow1, INR_fact, pow_m1.
    pose proof (div_bounds scale _ (zfact_pos (2 * i + par))) as Hd.
    assert (forall x y, 1 / x * y = y / x) as Hc by (intros; unfold Rdiv; ring).
    apply Rabs_le. destruct (Nat.even i); rewrite ?opp_IZR, Rmult_assoc, Hc; lra. }
  unfold approx. induction n as [|n IH]; cbn [zsum sum_f_R0].
  - exact (Hterm 0%nat).
  - rewrite plus_IZR. specialize (Hterm (S n)). rewrite Nat2Z.inj_succ, !plus_IZR, succ_IZR.
    rewrite plus_IZR in IH. apply Rabs_le_inv in IH. apply Rabs_le_inv in Hterm. apply Rabs_le. lra.
Qed.

Definition sin1 : Z := Eval vm_compute in zsum 1 25.
Definition cos1 : Z := Eval vm_compute in zsum 0 25.
Definition err1 : Z := 100.

Lemma sin1_approx : approx err1 sin1 (sin 1).
Proof.
  destruct (pre_sin_bound 1 12) as [Hl Hu]; [lra..|].
  pose proof (proj1 (approx_bounds _ _ _) (zsum_approx 1 25)) as [Hl' _].
  pose proof (proj1 (approx_bounds _ _ _) (zsum_approx 1 26)) as [_ Hu'].
  apply approx_bounds. pose proof scale_pos. split.
  - eapply Rle_trans; [|apply Rmult_le_compat_r; [lra | exact Hl]].
    eapply Rle_trans; [|exact Hl']. apply IZR_le. by vm_compute.
  - eapply Rle_trans; [apply Rmult_le_compat_r; [lra | exact Hu]|].
    eapply Rle_trans; [exact Hu'|]. apply IZR_le. by vm_compute.
Qed.

Lemma cos1_approx : approx err1 cos1 (cos 1).
Proof.
  destruct (pre_cos_bound 1 12) as [Hl Hu]; [lra..|].
  pose proof (proj1 (approx_bounds _ _ _) (zsum_approx 0 25)) as [Hl' _].
  pose proof (proj1 (approx_bounds _ _ _) (zsum_approx 0 26)) as [_ Hu'].
  assert (Hsum : forall n, cos_approx 1 n = sum_f_R0 (rterm 0) n).
  { intros n. apply sum_eq. intros i _. unfold cos_term, rterm. by rewrite Nat.add_0_r. }
  rewrite !Hsum in *. apply approx_bounds. pose proof scale_pos. split.
  - eapply Rle_trans; [|apply Rmult_le_compat_r; [lra | exact Hl]].
    eapply Rle_trans; [|exact Hl']. apply IZR_le. by vm_compute.
  - eapply Rle_trans; [apply Rmult_le_compat_r; [lra | exact Hu]|].
    eapply Rle_trans; [exact Hu'|]. apply IZR_le. by vm_compute.
Qed.

(** ** The addition theorem *)
Lemma product_error (x y m n e e' s : R) :
  Rabs (x - m) <= e -> Rabs (y - n) <= e' -> Rabs y <= s -> Rabs m <= 2 * s ->
  Rabs (x * y - m * n) <= e * s + 2 * s * e'.
Proof.
  intros Hx Hy Hs Hm. replace (x * y - m * n) with ((x - m) * y + m * (y - n)) by ring.
  eapply Rle_trans; [apply Rabs_triang|]. rewrite !Rabs_mult.
  apply Rplus_le_compat; apply Rmult_le_compat; auto using Rabs_pos.
Qed.

Lemma approx_magnitude e n x :
  approx e n x -> IZR e <= IZR scale -> Rabs x <= 1 -> Rabs (IZR n) <= 2 * IZR scale.
Proof.
  unfold approx. intros Ha%Rabs_le_inv He Hx%Rabs_le_inv. pose proof scale_pos.
  assert (- IZR scale <= x * IZR scale <= IZR scale) by (split; nra). apply Rabs_le. lra.
Qed.

Lemma scaled_magnitude x : Rabs x <= 1 -> Rabs (x * IZR scale) <= IZR scale.
Proof. intros Hx%Rabs_le_inv. pose proof scale_pos. apply Rabs_le. split; nra. Qed.

(** Two products added or subtracted, scaled back. *)
Lemma approx_products (sgn : Z) e m n x y :
  sgn = 1%Z \/ sgn = (-1)%Z -> approx e m x -> approx e n y -> (e <= scale)%Z -> Rabs x <= 1 -> Rabs y <= 1 ->
  forall e' m' n' x' y', approx e' m' x' -> approx e' n' y' -> Rabs x' <= 1 -> Rabs y' <= 1 ->
  approx (2 * e + 4 * e' + 1) (Z.shiftr (m * m' + sgn * (n * n')) 200) (x * x' + IZR sgn * (y * y')).
Proof.
  intros Hs Hm Hn He%IZR_le Hx Hy e' m' n' x' y' Hm' Hn' Hx' Hy'. rewrite Z.shiftr_div_pow2 by lia. fold scale.
  pose proof scale_pos as Hp.
  pose proof (product_error _ _ _ _ _ _ _ Hm Hm' (scaled_magnitude _ Hx') (approx_magnitude _ _ _ Hm He Hx)) as H1.
  pose proof (product_error _ _ _ _ _ _ _ Hn Hn' (scaled_magnitude _ Hy') (approx_magnitude _ _ _ Hn He Hy)) as H2.
  pose proof (div_bounds (m * m' + sgn * (n * n')) scale ltac:(reflexivity)) as Hd.
  unfold approx. rewrite !plus_IZR, !mult_IZR in *. apply Rabs_le_inv in H1. apply Rabs_le_inv in H2.
  set (v := IZR (_ / scale)) in *. set (S := IZR scale) in *.
  assert (Hq : forall a b, a * S <= b -> a <= b / S).
  { intros a b Hab. apply Rmult_le_reg_r with S; [done|]. unfold Rdiv. rewrite Rmult_assoc, Rinv_l, Rmult_1_r by lra. done. }
  assert (Heq : (x * x' + IZR sgn * (y * y')) * S = (x * S * (x' * S) + IZR sgn * (y * S * (y' * S))) / S) by (field; lra).
  set (p := IZR m * IZR m' + IZR sgn * (IZR n * IZR n')) in *.
  set (q := x * S * (x' * S) + IZR sgn * (y * S * (y' * S))) in *. rewrite Heq.
  assert (Hpq : - ((2 * IZR e + 4 * IZR e') * S) <= q - p <= (2 * IZR e + 4 * IZR e') * S).
  { unfold p, q. destruct Hs as [-> | ->]; lra. }
  assert (Hdiff : q / S = p / S + (q - p) / S) by (field; lra).
  assert (Hlo : - (2 * IZR e + 4 * IZR e') <= (q - p) / S) by (apply Hq; lra).
  assert (Hhi : - (2 * IZR e + 4 * IZR e') <= (p - q) / S) by (apply Hq; lra).
  assert (Hneg : (p - q) / S = - ((q - p) / S)) by (field; lra).
  apply Rabs_le. lra.
Qed.

Lemma sin_abs x : Rabs (sin x) <= 1.
Proof. apply Rabs_le. pose proof (SIN_bound x). lra. Qed.
Lemma cos_abs x : Rabs (cos x) <= 1.
Proof. apply Rabs_le. pose proof (COS_bound x). lra. Qed.

(** Sine and cosine of the next integer, with the error. *)
Definition next (x : Z * Z * Z) : Z * Z * Z :=
  let '(s, c, e) := x in
  (Z.shiftr (s * cos1 + 1 * (c * sin1)) 200, Z.shiftr (c * cos1 + -1 * (s * sin1)) 200, 2 * e + 4 * err1 + 1)%Z.

Definition approx_at (x : Z * Z * Z) (a : R) : Prop :=
  let '(s, c, e) := x in approx e s (sin a) /\ approx e c (cos a).

Lemma next_approx x a : approx_at x a -> (snd x <= scale)%Z -> approx_at (next x) (a + 1).
Proof.
  destruct x as [[s c] e]. intros [Hs Hc] He. cbn in *. rewrite sin_plus, cos_plus. split.
  - rewrite <- (Rmult_1_l (cos a * sin 1)).
    apply (approx_products 1); auto using sin_abs, cos_abs, sin1_approx, cos1_approx.
  - replace (cos a * cos 1 - sin a * sin 1) with (cos a * cos 1 + -1 * (sin a * sin 1)) by ring.
    apply (approx_products (-1)); auto using sin_abs, cos_abs, sin1_approx, cos1_approx.
Qed.

(** ** The table *)
Definition entry_ok (t : Z) (x : Z * Z * Z) : bool :=
  let '(s, _, e) := x in
  (Z.leb (t * 2 ^ 168 + e) (Z.abs s) && Z.ltb (Z.abs s + e) ((t + 1) * 2 ^ 168))%Z.

(** The entries [ts] are those after the integer [x] stands for. *)
Fixpoint entries_ok (x : Z * Z * Z) (ts : list Z) : bool :=
  match ts with
  | [] => true
  | t :: ts =>
      let y := next x in
      if Z.leb (snd x) scale then if entry_ok t y then entries_ok y ts else false else false
  end.

Lemma k_entries_ok : entries_ok (0, scale, 0)%Z k = true.
Proof. by vm_compute. Qed.

Lemma Int_part_scaled e s x t :
  approx e s x -> (t * 2 ^ 168 + e <= Z.abs s)%Z -> (Z.abs s + e < (t + 1) * 2 ^ 168)%Z ->
  Int_part (Rabs x * IZR (2 ^ 32)) = t.
Proof.
  intros Ha Hl%IZR_le Hu%IZR_lt. symmetry. apply Int_part_spec. pose proof scale_pos as Hp.
  assert (Hs : IZR scale = IZR (2 ^ 168) * IZR (2 ^ 32)) by (rewrite <- mult_IZR; done).
  rewrite plus_IZR, mult_IZR, abs_IZR in *. rewrite plus_IZR in Hu.
  assert (Hd : Rabs (Rabs x * IZR scale - Rabs (IZR s)) <= IZR e).
  { eapply Rle_trans; [|exact Ha]. rewrite <- (Rabs_right (IZR scale)) at 1 by lra.
    rewrite <- Rabs_mult. apply Rabs_triang_inv2. }
  apply Rabs_le_inv in Hd. rewrite Hs in Hd. set (v := Rabs x * IZR (2 ^ 32)).
  replace (Rabs x * (IZR (2 ^ 168) * IZR (2 ^ 32))) with (v * IZR (2 ^ 168)) in Hd by (unfold v; ring).
  assert (Hw : 0 < IZR (2 ^ 168)) by (apply (IZR_lt 0); reflexivity).
  split.
  - assert (v < IZR t + 1) by (apply Rmult_lt_reg_r with (IZR (2 ^ 168)); lra). lra.
  - apply Rmult_le_reg_r with (IZR (2 ^ 168)); lra.
Qed.

Lemma entries_sound x z ts i t :
  approx_at x (IZR z) -> entries_ok x ts = true -> ts !! i = Some t -> sine_table (z + 1 + Z.of_nat i) = t.
Proof.
  revert x z i. induction ts as [|t' ts IH]; intros x z i Hx; [done|]. cbn [entries_ok].
  destruct (Z.leb_spec (snd x) scale) as [He|]; [|done]. destruct (entry_ok t' (next x)) eqn:Ht; [|done]. intros Hok.
  apply next_approx in Hx; [|done]. rewrite <- (plus_IZR z 1) in Hx. destruct i as [|i]; cbn [lookup list_lookup].
  - intros [= <-]. rewrite Z.add_0_r. destruct (next x) as [[s c] e]. apply andb_prop in Ht as [Hl%Z.leb_le Hu%Z.ltb_lt].
    destruct Hx as [Hs _]. by apply (Int_part_scaled e s).
  - intros Hi. rewrite <- (IH _ _ _ Hx Hok Hi). f_equal. lia.
Qed.

(** The table of the code is the table of the RFC. *)
Lemma sine_table_entry i : (0 <= i < 64)%Z -> arr_get k i = Ok (sine_table (i + 1)).
Proof.
  intros Hi. destruct (k !! Z.to_nat i) as [t|] eqn:Hk.
  2:{ apply lookup_ge_None_1 in Hk. cbn in Hk. lia. }
  apply arr_get_ok; [lia|]. rewrite Hk. f_equal. symmetry.
  replace (i + 1)%Z with (0 + 1 + Z.of_nat (Z.to_nat i))%Z by lia.
  apply (entries_sound (0, scale, 0)%Z 0 k); [|apply k_entries_ok | done].
  unfold approx_at, approx. rewrite sin_0, cos_0, Rmult_0_l, Rmult_1_l, !Rminus_diag, Rabs_R0. lra.
Qed.
