(* ===== verification/Md5Correct.v ===== *)
(** * The code of MD5 computes the MD5 of RFC 1321

    [md5_transform] is the compression of the reference, and the context after
    any updates holds the blocks absorbed so far and the bytes of the last,
    incomplete block ([md5_inv]); [md5_finish] pads. *)
From S2P Require Import Prelude Md5 Md5Spec.

(** ** Words *)
Lemma f0_aux b c d : f0 b c d = aux_F b c d.
Proof.
  apply Z.bits_inj'. intros i _. unfold f0, aux_F. rewrite Z.lxor_spec, Z.land_spec, Z.lxor_spec, Z.lor_spec,
    Z.land_spec, Z.ldiff_spec. by destruct (Z.testbit b i), (Z.testbit c i), (Z.testbit d i).
Qed.

Lemma f1_aux b c d : f1 b c d = aux_G b c d.
Proof.
  apply Z.bits_inj'. intros i _. unfold f1, aux_G. rewrite Z.lxor_spec, Z.land_spec, Z.lxor_spec, Z.lor_spec,
    Z.land_spec, Z.ldiff_spec. by destruct (Z.testbit b i), (Z.testbit c i), (Z.testbit d i).
Qed.

Lemma f3_aux b c d : word_ok d -> f3 b c d = aux_I b c d.
Proof.
  intros Hd. unfold f3, aux_I, u32, word_ok in *. do 2 f_equal.
  replace (Z.lnot d) with (4294967295 - d + (-1) * 4294967296) by (unfold Z.lnot; lia).
  rewrite Z_mod_plus_full. apply Z.mod_small. lia.
Qed.

Lemma leftrotate_rotl x s : word_ok x -> 0 < s < 32 -> leftrotate x s = rotl x s.
Proof.
  intros Hx Hs. unfold leftrotate, rotl, u32, word_ok in *. change 4294967296 with (2 ^ 32) in *.
  rewrite Z.shiftl_mul_pow2, Z.shiftr_div_pow2 by lia.
  assert (Hdis : Z.land ((x * 2 ^ s) mod 2 ^ 32) (x / 2 ^ (32 - s)) = 0).
  { apply Z.bits_inj'. intros i Hi. rewrite Z.land_spec, Z.bits_0, Z.div_pow2_bits by lia.
    destruct (decide (i < s)).
    - rewrite Z.mod_pow2_bits_low, Z.mul_pow2_bits_low by lia. done.
    - assert (Z.testbit x (i + (32 - s)) = false) as ->; [|apply andb_false_r].
      rewrite <- (Z.mod_small x (2 ^ 32)) by lia. apply Z.mod_pow2_bits_high. lia. }
  rewrite Z.add_nocarry_lxor by done. symmetry. by apply Z.lxor_lor.
Qed.

(** ** The rounds *)

(** The registers as the code's variables before an operation on register [p]. *)
Definition rview (p : nat) (regs : list Z) : words :=
  mk_words (regs !!! (p mod 4)%nat) (regs !!! ((p + 1) mod 4)%nat) (regs !!! ((p + 2) mod 4)%nat) (regs !!! ((p + 3) mod 4)%nat).

Section rounds.
Context (T : Z -> Z) (HT : forall i, 0 <= i < 64 -> arr_get k i = Ok (T (i + 1))).
Implicit Types (regs buf : list Z).

(** An operation of the reference is the body of the code's loop at [j]. *)
Definition fits (g : Z -> Z) (j : Z) (p : nat) (o : nat * nat * Z * Z) : Prop :=
  let '(p', w, s, i) := o in
  p' = p /\ (w < 16)%nat /\ g j = Z.of_nat w /\ arr_get r j = Ok s /\ 0 < s < 32 /\ i = j + 1 /\ 0 <= j < 64.

Definition same_fn (f fn : Z -> Z -> Z -> Z) : Prop := forall b c d, word_ok d -> f b c d = fn b c d.

Lemma block_word buf w : length buf = 64%nat -> (w < 16)%nat ->
  block_words buf !!! w = le_to_Z (slice (Z.of_nat w * 4) 4 buf).
Proof.
  intros Hl Hw. apply list_lookup_total_correct. unfold block_words.
  rewrite list_lookup_fmap, lookup_seqZ_lt by lia. cbn. do 2 f_equal. f_equal. lia.
Qed.

Lemma regs_word regs p : regs_ok regs -> (p < 4)%nat -> word_ok (regs !!! p).
Proof. intros [Hl Hw] Hp. apply (Forall_lookup_total_1 _ _ _ Hw). lia. Qed.

Lemma step_run f fn g buf j p o regs :
  same_fn f fn -> length buf = 64%nat -> regs_ok regs -> (p < 4)%nat -> fits g j p o ->
  md5_step f g buf j (rview p regs) =
    Ok (None, rview ((p + 3) mod 4) (op T fn (block_words buf) regs o)).
Proof.
  intros Hf Hbuf Hr Hp. destruct o as [[[p' w] s] i]. intros (-> & Hw & Hg & Hs & Hs32 & -> & Hj).
  unfold md5_step. rewrite bind_gets. cbn [id]. unfold rview at 1.
  rewrite Hg. erewrite bind_lift by (apply mem_read_ok; lia). erewrite bind_lift by (by apply HT).
  erewrite bind_lift by done. rewrite bind_modify. unfold mret, M_ret. do 2 f_equal.
  rewrite <- block_word by done. rewrite (Hf _ _ _) by (apply regs_word; [done | apply Nat.mod_upper_bound; lia]).
  rewrite leftrotate_rotl by (try done; apply u32_range). unfold op, u32.
  rewrite (Nat.add_0_r p). set (v := (_ + rotl _ _) mod 2 ^ 32).
  replace (_ mod 4294967296) with v.
  2:{ unfold v. change (2 ^ 32) with 4294967296. do 4 f_equal. lia. }
  clearbody v. destruct Hr as [Hl _]. destruct regs as [|r0 [|r1 [|r2 [|r3 [|]]]]]; try done.
  by destruct p as [|[|[|[|p]]]]; [.. | lia].
Qed.

Fixpoint fits_all (g : Z -> Z) (j : Z) (p : nat) (ops : list (nat * nat * Z * Z)) : Prop :=
  match ops with
  | [] => True
  | o :: ops => fits g j p o /\ fits_all g (j + 1) ((p + 3) mod 4) ops
  end.

Lemma round_run f fn g buf j p ops regs :
  same_fn f fn -> length buf = 64%nat -> regs_ok regs -> (p < 4)%nat -> fits_all g j p ops ->
  exists n, for_loop (length ops) j (md5_step f g buf) (rview p regs) =
    Ok (n, rview ((p + 3 * length ops) mod 4) (foldl (op T fn (block_words buf)) regs ops)).
Proof.
  intros Hf Hbuf. revert j p regs. induction ops as [|o ops IH]; intros j p regs Hr Hp; cbn [length for_loop fits_all foldl].
  - intros _. eexists. rewrite Nat.mul_0_r, Nat.add_0_r, Nat.mod_small by done. reflexivity.
  - intros [Ho Hops]. erewrite bind_ok by (by eapply step_run). cbn beta iota.
    destruct (IH (j + 1) ((p + 3) mod 4)%nat (op T fn (block_words buf) regs o)) as (n & Hn).
    + by apply op_ok.
    + apply Nat.mod_upper_bound. lia.
    + done.
    + exists n. rewrite Hn. do 3 f_equal. rewrite Nat.Div0.add_mod_idemp_l. f_equal. lia.
Qed.

(** The four loops are the four rounds. *)
Lemma same_fns : same_fn f0 aux_F /\ same_fn f1 aux_G /\ same_fn f2 aux_H /\ same_fn f3 aux_I.
Proof. split; [|split; [|split]]; intros b c d Hd; [apply f0_aux | apply f1_aux | done | by apply f3_aux]. Qed.

Lemma fits_rounds : fits_all g0 0 0 round1 /\ fits_all g1 16 0 round2 /\ fits_all g2 32 0 round3 /\ fits_all g3 48 0 round4.
Proof. cbn -[arr_get Nat.lt Z.of_nat]. repeat split; (done || lia). Qed.

Lemma rounds_run buf regs :
  length buf = 64%nat -> regs_ok regs ->
  md5_rounds buf (rview 0 regs) =
    Ok (tt, rview 0 (foldl (op T aux_I (block_words buf)) (foldl (op T aux_H (block_words buf))
      (foldl (op T aux_G (block_words buf)) (foldl (op T aux_F (block_words buf)) regs round1) round2) round3) round4)).
Proof.
  intros Hbuf Hr. destruct same_fns as (H0 & H1 & H2 & H3). destruct fits_rounds as (F0 & F1 & F2 & F3).
  assert (Hgo : forall f fn g j ops rs, same_fn f fn -> regs_ok rs -> fits_all g j 0 ops -> length ops = 16%nat ->
    exists n, for_loop 16 j (md5_step f g buf) (rview 0 rs) = Ok (n, rview 0 (foldl (op T fn (block_words buf)) rs ops))).
  { intros f fn g j ops rs Hf Hrs Hfit Hlen.
    destruct (round_run f fn g buf j 0 ops rs Hf Hbuf Hrs ltac:(lia) Hfit) as (n & Hn). rewrite Hlen in Hn. by exists n. }
  set (R1 := foldl (op T aux_F _) regs round1). set (R2 := foldl (op T aux_G _) R1 round2).
  set (R3 := foldl (op T aux_H _) R2 round3).
  assert (Hr1 : regs_ok R1) by (by apply round_ok). assert (Hr2 : regs_ok R2) by (by apply round_ok).
  assert (Hr3 : regs_ok R3) by (by apply round_ok).
  destruct (Hgo f0 aux_F g0 0 round1 regs H0 Hr F0 eq_refl) as (n0 & E0).
  destruct (Hgo f1 aux_G g1 16 round2 R1 H1 Hr1 F1 eq_refl) as (n1 & E1).
  destruct (Hgo f2 aux_H g2 32 round3 R2 H2 Hr2 F2 eq_refl) as (n2 & E2).
  destruct (Hgo f3 aux_I g3 48 round4 R3 H3 Hr3 F3 eq_refl) as (n3 & E3).
  unfold md5_rounds. rewrite (bind_ok _ _ _ _ _ E0), (bind_ok _ _ _ _ _ E1), (bind_ok _ _ _ _ _ E2).
  by rewrite (bind_ok _ _ _ _ _ E3).
Qed.

Lemma transform_run x regs :
  length (buffer x) = 64%nat -> regs_ok regs -> h x = rview 0 regs ->
  md5_transform x = Ok (tt, set_h (rview 0 (compress T regs (buffer x))) x).
Proof.
  intros Hbuf Hr Hh. unfold md5_transform. rewrite bind_gets. cbn [id]. rewrite Hh.
  erewrite bind_lift by (by apply rounds_run). unfold compress, modify.
  set (rs := foldl _ _ round4). assert (regs_ok rs) as [Hl _] by (by repeat apply round_ok).
  destruct Hr as [Hl' _]. clearbody rs. do 3 f_equal.
  destruct regs as [|r0 [|r1 [|r2 [|r3 [|]]]]]; try done. by destruct rs as [|s0 [|s1 [|s2 [|s3 [|]]]]].
Qed.
End rounds.

(** ** Streams *)
Section stream.
Context (T : Z -> Z) (HT : forall i, 0 <= i < 64 -> arr_get k i = Ok (T (i + 1))).
Implicit Types (x : md_context) (msg chunk : list Z).

(** The context after the message [msg]. *)
Record md5_inv (msg : list Z) (x : md_context) : Prop := {
  inv_count : count x = u64 (Z.of_nat (length msg));
  inv_length : length (buffer x) = 64%nat;
  inv_parts : exists full tail, msg = full ++ tail /\ (length full mod 64 = 0)%nat /\ (length tail < 64)%nat /\
    take (length tail) (buffer x) = tail /\ h x = rview 0 (absorb T iv full)
}.

Lemma iv_ok : regs_ok iv.
Proof. split; [done|]. apply (bool_decide_unpack _). by vm_compute. Qed.

Lemma start_inv x : exists x', md5_start x = Ok (tt, x') /\ md5_inv [] x'.
Proof.
  eexists. split; [reflexivity|]. split; [done | done|]. exists [], []. repeat split. cbn. lia.
Qed.

(** [memcpy] to the buffer. *)
Lemma buffer_write_run off bytes x :
  0 <= off -> off + Z.of_nat (length bytes) <= Z.of_nat (length (buffer x)) ->
  buffer_write off bytes x = Ok (tt, set_buffer (splice off bytes (buffer x)) x).
Proof. intros. unfold buffer_write. rewrite bind_gets. cbn [id]. by erewrite bind_lift by (by apply mem_write_ok). Qed.

(** A block that is whole in the buffer is absorbed. *)
Lemma absorb_run full block x :
  (length full mod 64 = 0)%nat -> length block = 64%nat -> h x = rview 0 (absorb T iv full) -> buffer x = block ->
  md5_transform x = Ok (tt, set_h (rview 0 (absorb T iv (full ++ block))) x).
Proof.
  intros Hf Hb Hh Hx. subst block. rewrite absorb_app, (absorb_block _ _ (buffer x)) by done.
  apply transform_run; [done | done | apply absorb_ok, iv_ok | done].
Qed.

Lemma count_buflen msg full tail :
  msg = full ++ tail -> (length full mod 64 = 0)%nat -> (length tail < 64)%nat ->
  Z.land (u64 (Z.of_nat (length msg))) 63 = Z.of_nat (length tail).
Proof.
  intros -> Hf Ht. change 63 with (Z.ones 6). rewrite Z.land_ones by lia. unfold u64. change (2 ^ 6) with 64.
  rewrite Z.mod_mod_divide by (by exists 288230376151711744).
  apply (f_equal Z.of_nat) in Hf. rewrite Nat2Z.inj_mod in Hf. change (Z.of_nat 64) with 64 in Hf.
  rewrite length_app, Nat2Z.inj_add. Z.to_euclidean_division_equations. lia.
Qed.

Lemma mod_add64 (full block : list Z) :
  (length full mod 64 = 0)%nat -> length block = 64%nat -> (length (full ++ block) mod 64 = 0)%nat.
Proof. intros Hf Hb. rewrite length_app, Hb. rewrite <- Nat.Div0.add_mod_idemp_l, Hf. done. Qed.

(** The parts of a readable range. *)
Lemma read_app chunk off l1 l2 :
  0 <= off -> mem_read chunk off (Z.of_nat (length (l1 ++ l2))) = Ok (l1 ++ l2) ->
  mem_read chunk off (Z.of_nat (length l1)) = Ok l1 /\
  mem_read chunk (off + Z.of_nat (length l1)) (Z.of_nat (length l2)) = Ok l2.
Proof.
  intros Hoff. unfold mem_read at 1. destruct (decide _) as [(_ & _ & Hd)|]; [|done]. intros [= Hs].
  rewrite length_app in Hd, Hs. rewrite !mem_read_ok by lia. split; f_equal.
  - rewrite <- (Z.add_0_r off), <- (slice_slice off (Z.of_nat (length l1 + length l2))), Hs by lia.
    unfold slice. by rewrite Nat2Z.id, drop_0, take_app_length.
  - rewrite <- (slice_slice off (Z.of_nat (length l1 + length l2))), Hs by lia.
    unfold slice. by rewrite !Nat2Z.id, drop_app_length, take_ge by done.
Qed.

(** The loop over whole blocks absorbs them and leaves less than a block. *)
Lemma blocks_run fuel chunk off rest full x :
  (length rest / 64 <= fuel)%nat -> 0 <= off -> mem_read chunk off (Z.of_nat (length rest)) = Ok rest ->
  length (buffer x) = 64%nat -> (length full mod 64 = 0)%nat -> h x = rview 0 (absorb T iv full) ->
  exists mid tail x', rest = mid ++ tail /\ (length tail < 64)%nat /\
    update_blocks fuel chunk off (Z.of_nat (length rest)) x =
      Ok ((off + Z.of_nat (length mid), Z.of_nat (length tail)), x') /\
    (length (full ++ mid) mod 64 = 0)%nat /\ h x' = rview 0 (absorb T iv (full ++ mid)) /\
    length (buffer x') = 64%nat /\ count x' = count x.
Proof.
  revert off rest full x. induction fuel as [|fuel IH]; intros off rest full x Hfuel Hoff Hread Hbuf Hfull Hh;
    cbn [update_blocks]; destruct (Z.leb_spec 64 (Z.of_nat (length rest))) as [Hge|Hlt].
  1: { pose proof (Nat.Div0.div_le_mono 64 (length rest) 64 ltac:(lia)). cbn in *. lia. }
  1,3: exists [], rest, x; rewrite !app_nil_r, Z.add_0_r; repeat split; try done; lia.
  pose proof (take_drop 64 rest) as Hsplit. set (block := take 64 rest) in *. set (rest' := drop 64 rest) in *.
  assert (Hlb : length block = 64%nat) by (unfold block; rewrite length_take; lia).
  rewrite <- Hsplit in Hread. apply read_app in Hread as [Hr1 Hr2]; [|done]. rewrite Hlb in Hr1, Hr2.
  change (Z.of_nat 64) with 64 in *. erewrite bind_lift by exact Hr1.
  erewrite bind_ok by (apply buffer_write_run; lia). rewrite splice_all by lia.
  erewrite bind_ok by (by apply (absorb_run full block)).
  assert (Hlen : Z.of_nat (length rest) - 64 = Z.of_nat (length rest')) by (unfold rest'; rewrite length_drop; lia).
  set (y := set_h (rview 0 (absorb T iv (full ++ block))) (set_buffer block x)).
  rewrite Hlen. destruct (IH (off + 64) rest' (full ++ block) y) as (mid & tail & x' & -> & Ht & Hrun & Hm & Hh' & Hb' & Hc').
  - assert (Hl : length rest = (length rest' + 1 * 64)%nat) by lia. rewrite Hl, Nat.div_add in Hfuel by lia. lia.
  - lia.
  - done.
  - done.
  - by apply mod_add64.
  - done.
  - exists (block ++ mid), tail, x'. rewrite <- Hsplit. rewrite <- app_assoc in Hm, Hh'.
    rewrite Hrun, length_app, Hlb. repeat split; try done; [by rewrite app_assoc | do 3 f_equal; lia].
Qed.

Lemma u64_add_u64 a b : u64 (u64 a + b) = u64 (a + b).
Proof. apply Zplus_mod_idemp_l. Qed.

(** Bytes appended in the buffer. *)
Lemma splice_tail tail new (buf : list Z) :
  take (length tail) buf = tail ->
  splice (Z.of_nat (length tail)) new buf = tail ++ new ++ drop (length tail + length new) buf.
Proof. intros Ht. unfold splice. by rewrite Nat2Z.id, Ht. Qed.

(** Fewer bytes than the block lacks. *)
Lemma update_short full tail data y :
  (length full mod 64 = 0)%nat -> length (buffer y) = 64%nat -> take (length tail) (buffer y) = tail ->
  h y = rview 0 (absorb T iv full) -> count y = u64 (Z.of_nat (length (full ++ tail ++ data))) ->
  (length tail + length data < 64)%nat ->
  exists x', buffer_write (Z.of_nat (length tail)) data y = Ok (tt, x') /\ md5_inv (full ++ tail ++ data) x'.
Proof.
  intros Hf Hb Htake Hh Hc Hlt. rewrite buffer_write_run by lia. eexists. split; [reflexivity|]. split; cbn [count buffer set_buffer].
  - done.
  - rewrite length_splice; lia.
  - exists full, (tail ++ data). repeat split; try done; [rewrite length_app; lia|].
    by rewrite splice_tail, app_assoc, take_app_length.
Qed.

(** The bytes [d1] complete the block, [d2] follow. *)
Lemma update_long full tail d1 d2 chunk y :
  (length full mod 64 = 0)%nat -> length (buffer y) = 64%nat -> take (length tail) (buffer y) = tail ->
  h y = rview 0 (absorb T iv full) -> count y = u64 (Z.of_nat (length (full ++ tail ++ d1 ++ d2))) ->
  length (tail ++ d1) = 64%nat ->
  mem_read chunk (Z.of_nat (length d1)) (Z.of_nat (length d2)) = Ok d2 ->
  exists x', (buffer_write (Z.of_nat (length tail)) d1 ;; md5_transform ;;
      '(off, chunk_size) ← update_blocks (Z.to_nat (Z.of_nat (length d2) / 64)) chunk (Z.of_nat (length d1)) (Z.of_nat (length d2));
      bytes ← lift (mem_read chunk off chunk_size); buffer_write 0 bytes) y = Ok (tt, x') /\
    md5_inv (full ++ tail ++ d1 ++ d2) x'.
Proof.
  intros Hf Hb Htake Hh Hc Hl Hread. pose proof Hl as Hl'. rewrite length_app in Hl'.
  erewrite bind_ok by (apply buffer_write_run; lia).
  assert (Hblock : splice (Z.of_nat (length tail)) d1 (buffer y) = tail ++ d1).
  { rewrite splice_tail by done. by rewrite drop_ge, app_nil_r by lia. }
  rewrite Hblock. erewrite bind_ok by (by apply (absorb_run full (tail ++ d1))). set (z := set_h _ _).
  destruct (blocks_run (Z.to_nat (Z.of_nat (length d2) / 64)) chunk (Z.of_nat (length d1)) d2 (full ++ tail ++ d1) z)
    as (mid & tail' & x' & -> & Ht' & Hrun & Hm & Hh' & Hb' & Hc').
  - apply Nat2Z.inj_le. rewrite Nat2Z.inj_div, Z2Nat.id by (apply Z.div_pos; lia). done.
  - lia.
  - exact Hread.
  - done.
  - by apply mod_add64.
  - done.
  - erewrite bind_ok by exact Hrun. cbn beta iota. apply read_app in Hread as [_ Hread]; [|lia].
    erewrite bind_lift by exact Hread. rewrite buffer_write_run by lia. eexists. split; [reflexivity|].
    split; cbn [count buffer set_buffer].
    + by rewrite Hc'.
    + rewrite length_splice; lia.
    + exists (full ++ tail ++ d1 ++ mid), tail'. rewrite <- !app_assoc in *. repeat split; try done.
      unfold splice. by rewrite take_0, app_nil_l, take_app_length.
Qed.

(** [md5_update] appends the bytes to the message. *)
Lemma update_run msg data chunk x :
  md5_inv msg x -> mem_read chunk 0 (Z.of_nat (length data)) = Ok data ->
  Z.of_nat (length data) + 63 < 18446744073709551616 ->
  exists x', md5_update chunk (Z.of_nat (length data)) x = Ok (tt, x') /\ md5_inv (msg ++ data) x'.
Proof.
  intros [Hc Hb (full & tail & -> & Hf & Ht & Htake & Hh)] Hread Hmax. rewrite <- app_assoc.
  assert (Hcount : u64 (count x + Z.of_nat (length data)) = u64 (Z.of_nat (length (full ++ tail ++ data)))).
  { rewrite Hc, u64_add_u64, !length_app. f_equal. lia. }
  unfold md5_update. rewrite bind_gets, bind_modify, Hcount, Hc, (count_buflen _ full tail) by done.
  rewrite u64_id by lia. set (y := set_count _ x).
  destruct (Z.ltb_spec (Z.of_nat (length tail) + Z.of_nat (length data)) 64) as [Hlt|Hge].
  - erewrite bind_lift by exact Hread. apply update_short; try done. lia.
  - set (n := (64 - length tail)%nat). pose proof (take_drop n data) as Hsplit.
    set (d1 := take n data) in *. set (d2 := drop n data) in *.
    assert (Hl1 : length d1 = n) by (unfold d1; rewrite length_take; lia).
    assert (Hlen : Z.of_nat (length data) - (64 - Z.of_nat (length tail)) = Z.of_nat (length d2))
      by (unfold d2; rewrite length_drop; lia).
    assert (Hn : 64 - Z.of_nat (length tail) = Z.of_nat (length d1)) by lia.
    rewrite <- Hsplit in Hread. apply read_app in Hread as [Hr1 Hr2]; [|done].
    rewrite Hlen, u64_id, Hn by lia. erewrite bind_lift by exact Hr1. unfold y. rewrite <- Hsplit.
    apply update_long; try done. rewrite length_app. lia.
Qed.

Lemma Z_to_le_mod n z : Z_to_le n (z mod 256 ^ Z.of_nat n) = Z_to_le n z.
Proof.
  revert z. induction n as [|n IH]; intros z; [done|]. cbn [Z_to_le].
  rewrite Nat2Z.inj_succ, Z.pow_succ_r, Z.rem_mul_r by lia.
  rewrite (Z.mul_comm 256), Z_mod_plus_full, Z.mod_mod, Z_div_plus_full by lia.
  by rewrite Z.div_small, Z.add_0_l, IH by (apply Z.mod_pos_bound; lia).
Qed.

(** The bit count, wrapped as the code computes it. *)
Lemma bitcount_bytes n : Z_to_le 8 (u64 (u64 n * 8)) = Z_to_le 8 (8 * n).
Proof.
  unfold u64. rewrite Zmult_mod_idemp_l, (Z.mul_comm n).
  change 18446744073709551616 with (256 ^ Z.of_nat 8). apply Z_to_le_mod.
Qed.

Lemma words_bytes_rview regs : length regs = 4%nat -> words_bytes (rview 0 regs) = regs ≫= Z_to_le 4.
Proof. intros Hl. by destruct regs as [|r0 [|r1 [|r2 [|r3 [|]]]]]. Qed.

(** The last block: the bit count goes behind 56 bytes, and the digest is the words of [h]. *)
Lemma last_block full bytes n x :
  (length full mod 64 = 0)%nat -> length bytes = 56%nat -> length (buffer x) = 64%nat -> take 56 (buffer x) = bytes ->
  h x = rview 0 (absorb T iv full) -> count x = u64 n ->
  exists x', (bitcount ← gets (fun x => u64 (count x * 8)); buffer_write 56 (Z_to_le 8 bitcount) ;;
      md5_transform ;; modify (fun x => set_digest (words_bytes (h x)) x)) x = Ok (tt, x') /\
    digest x' = absorb T iv (full ++ bytes ++ Z_to_le 8 (8 * n)) ≫= Z_to_le 4.
Proof.
  intros Hf Hl Hb Ht Hh Hc. rewrite bind_gets, Hc, bitcount_bytes.
  assert (Hlen : length (Z_to_le 8 (8 * n)) = 8%nat) by apply length_Z_to_le. revert Hlen. generalize (Z_to_le 8 (8 * n)).
  intros le Hlen. erewrite bind_ok by (apply buffer_write_run; lia).
  erewrite bind_ok.
  2:{ apply (absorb_run full (bytes ++ le)); [done | rewrite length_app; lia | done|]. cbn.
      unfold splice. change (Z.to_nat 56) with 56%nat. rewrite Ht, Hlen, drop_ge, app_nil_r by (rewrite Hb; lia). done. }
  eexists. split; [reflexivity|]. cbn [digest set_digest h set_h]. apply words_bytes_rview, absorb_ok, iv_ok.
Qed.

(** The zeros of the padding, from the number of bytes in the last block. *)
Lemma md5_pad_tail full tail :
  (length full mod 64 = 0)%nat -> (length tail < 64)%nat ->
  md5_pad (full ++ tail) = full ++ tail ++ [0x80] ++
    replicate (if decide (length tail <= 55)%nat then 55 - length tail else 119 - length tail) 0 ++
    Z_to_le 8 (8 * Z.of_nat (length (full ++ tail))).
Proof.
  intros Hf Ht. unfold md5_pad. rewrite <- !app_assoc. do 5 f_equal.
  apply (f_equal Z.of_nat) in Hf. rewrite Nat2Z.inj_mod in Hf. change (Z.of_nat 64) with 64 in Hf.
  rewrite length_app, Nat2Z.inj_add. destruct (decide _); Z.to_euclidean_division_equations; lia.
Qed.

(** [md5_finish] leaves the digest of the message. *)
Lemma finish_run msg x :
  md5_inv msg x -> exists x', md5_finish x = Ok (tt, x') /\ digest x' = rfc_md5 T msg.
Proof.
  intros [Hc Hb (full & tail & -> & Hf & Ht & Htake & Hh)]. unfold rfc_md5. rewrite md5_pad_tail by done.
  unfold md5_finish. rewrite bind_gets, Hc, (count_buflen _ full tail) by done.
  erewrite bind_ok by (apply buffer_write_run; cbn; lia).
  set (b1 := splice _ [128] _). assert (Hb1 : b1 = tail ++ [128] ++ drop (length tail + 1) (buffer x)) by (by apply splice_tail).
  assert (Hl1 : length b1 = 64%nat) by (unfold b1; rewrite length_splice; cbn; lia).
  set (zeros := replicate (Z.to_nat (64 - (Z.of_nat (length tail) + 1))) 0). assert (Hlz : length zeros = (63 - length tail)%nat) by (unfold zeros; rewrite length_replicate; lia).
  erewrite bind_ok by (apply buffer_write_run; cbn; lia).
  set (b2 := splice _ zeros _). assert (Hb2 : b2 = tail ++ [128] ++ replicate (63 - length tail) 0).
  { unfold b2. cbn [buffer set_buffer]. replace (Z.of_nat (length tail) + 1) with (Z.of_nat (length (tail ++ [128])))
      by (rewrite length_app; cbn; lia).
    rewrite splice_tail by (by rewrite Hb1, app_assoc, take_app_length).
    rewrite drop_ge, app_nil_r, <- app_assoc by (rewrite Hl1, length_app, Hlz; cbn; lia).
    do 3 f_equal. unfold zeros. f_equal. lia. }
  assert (Hl2 : length b2 = 64%nat) by (rewrite Hb2, !length_app, length_replicate; cbn; lia).
  clearbody b2.
  destruct (decide (length tail <= 55)%nat); destruct (Z.ltb_spec 56 (Z.of_nat (length tail) + 1)); try lia.
  - rewrite bind_ret, (app_assoc [128]), (app_assoc tail). apply last_block; try done.
    + rewrite !length_app, length_replicate. cbn. lia.
    + cbn [buffer set_buffer]. rewrite Hb2. replace (63 - length tail)%nat with (55 - length tail + 8)%nat by lia.
      rewrite replicate_add, !app_assoc. apply take_app_length'. rewrite !length_app, length_replicate. cbn. lia.
  - erewrite bind_ok.
    2:{ erewrite bind_ok by (by apply (absorb_run full b2)). apply buffer_write_run; cbn; lia. }
    replace (119 - length tail)%nat with (63 - length tail + 56)%nat by lia.
    rewrite replicate_add, <- app_assoc. rewrite (app_assoc [128]), (app_assoc tail), <- Hb2, (app_assoc full).
    apply last_block; try done; [by apply mod_add64|].
    cbn [buffer set_buffer]. by rewrite splice_all by (cbn; lia).
Qed.
End stream.
