(* ===== verification/Md5Digest.v ===== *)
(** * MD5 of streams, memory and files

    The entry points of [src/test/hash.c] against RFC 1321: however the message
    is cut into updates, read from memory or from a file, the digest is the
    MD5 of the message. *)
From S2P Require Import Prelude Md5 Md5Spec Md5Sine Md5Correct.

(** The MD5 of RFC 1321, with its table of sines. *)
Definition md5_reference : list Z -> list Z := rfc_md5 sine_table.

(** The reference with the table of the code, which evaluates. *)
Lemma md5_reference_exec msg : md5_reference msg = rfc_md5 (fun i => k !!! Z.to_nat (i - 1)) msg.
Proof.
  apply rfc_md5_ext. intros i Hi. pose proof (sine_table_entry (i - 1) ltac:(lia)) as Hk. unfold arr_get in Hk.
  destruct (decide (0 <= i - 1)); [|done]. destruct (k !! Z.to_nat (i - 1)) as [t|] eqn:Ht; [|done].
  rewrite (list_lookup_total_correct _ _ _ Ht). replace (i - 1 + 1) with i in Hk by lia. congruence.
Qed.

(** A caller that passes its chunks one after the other. *)
Fixpoint updates (chunks : list (list Z)) : M md_context unit :=
  match chunks with
  | [] => mret tt
  | c :: chunks' => md5_update c (Z.of_nat (length c)) ;; updates chunks'
  end.

(** [chunk_size + buflen] does not wrap. *)
Definition chunk_ok (c : list Z) : Prop := Z.of_nat (length c) + 63 < 18446744073709551616.

Lemma BUFSIZE_bounds : 0 < BUFSIZE < 4294967296.
Proof. by vm_compute. Qed.
#[local] Opaque BUFSIZE.

#[local] Abbreviation inv := (md5_inv sine_table).

Lemma update_inv msg data chunk x :
  inv msg x -> mem_read chunk 0 (Z.of_nat (length data)) = Ok data -> chunk_ok data ->
  exists x', md5_update chunk (Z.of_nat (length data)) x = Ok (tt, x') /\ inv (msg ++ data) x'.
Proof. apply update_run, sine_table_entry. Qed.

Lemma finish_inv msg x :
  inv msg x -> exists x', md5_finish x = Ok (tt, x') /\ digest x' = md5_reference msg.
Proof. apply finish_run, sine_table_entry. Qed.

Lemma mem_read_all l : mem_read l 0 (Z.of_nat (length l)) = Ok l.
Proof. by rewrite mem_read_ok, slice_whole by lia. Qed.

Lemma updates_inv chunks msg x :
  inv msg x -> Forall chunk_ok chunks ->
  exists x', updates chunks x = Ok (tt, x') /\ inv (msg ++ concat chunks) x'.
Proof.
  intros Hx Hc. revert msg x Hx. induction Hc as [|c chunks Hc _ IH]; intros msg x Hx; cbn [updates concat].
  - exists x. by rewrite app_nil_r.
  - destruct (update_inv msg c c x) as (y & Hy & Hy'); [done | apply mem_read_all | done|].
    destruct (IH _ _ Hy') as (z & Hz & Hz'). exists z. rewrite app_assoc. split; [|done]. by erewrite bind_ok by exact Hy.
Qed.

(** C34: a message given to [md5_start], [md5_update] and [md5_finish] in any chunks has the digest RFC 1321
    gives the whole message; no step leaves the arrays of the context. *)
Theorem md5_streams_rfc1321 stack chunks :
  Forall chunk_ok chunks ->
  exists x, (md5_start ;; updates chunks ;; md5_finish) stack = Ok (tt, x) /\
    digest x = md5_reference (concat chunks).
Proof.
  intros Hc. destruct (start_inv sine_table stack) as (x & Hx & Hx'). erewrite bind_ok by exact Hx.
  destruct (updates_inv chunks [] x Hx' Hc) as (y & Hy & Hy'). erewrite bind_ok by exact Hy. by apply finish_inv.
Qed.

(** ** Through the buffer of 1 MiB *)
Lemma update_copied_run msg scratch bytes x :
  inv msg x -> length scratch = Z.to_nat BUFSIZE -> Z.of_nat (length bytes) <= BUFSIZE ->
  exists scratch' x', update_copied scratch bytes x = Ok (scratch', x') /\
    length scratch' = Z.to_nat BUFSIZE /\ inv (msg ++ bytes) x'.
Proof.
  intros Hx Hs Hb. pose proof BUFSIZE_bounds. unfold update_copied. erewrite bind_lift by (apply mem_write_ok; lia).
  destruct (update_inv msg bytes (splice 0 bytes scratch) x) as (y & Hy & Hy'); [done | | unfold chunk_ok; lia |].
  - rewrite mem_read_ok by (rewrite ?length_splice; lia). by rewrite slice_splice_same by lia.
  - erewrite bind_ok by exact Hy. eexists _, y. split; [reflexivity|]. rewrite length_splice by lia. done.
Qed.

(** The loop of [md5_memory] leaves at most a buffer. *)
Lemma memory_loop_run fuel msg scratch mem start offs rest x :
  inv msg x -> length scratch = Z.to_nat BUFSIZE -> 0 <= start + offs ->
  mem_read mem (start + offs) (Z.of_nat (length rest)) = Ok rest ->
  Z.of_nat (length rest) / BUFSIZE <= Z.of_nat fuel ->
  exists mid tail scratch' x', rest = mid ++ tail /\ Z.of_nat (length tail) <= BUFSIZE /\
    memory_loop fuel scratch mem start offs (Z.of_nat (length rest)) x =
      Ok ((scratch', offs + Z.of_nat (length mid), Z.of_nat (length tail)), x') /\
    length scratch' = Z.to_nat BUFSIZE /\ inv (msg ++ mid) x'.
Proof.
  pose proof BUFSIZE_bounds as HB. revert msg scratch offs rest x.
  induction fuel as [|fuel IH]; intros msg scratch offs rest x Hx Hs Hoff Hread Hfuel;
    cbn [memory_loop]; destruct (Z.ltb_spec BUFSIZE (Z.of_nat (length rest))) as [Hlt|Hge].
  1: { pose proof (Z.div_le_mono BUFSIZE (Z.of_nat (length rest)) BUFSIZE ltac:(lia) ltac:(lia)) as Hdm.
       rewrite Z.div_same in Hdm by lia. lia. }
  1,3: exists [], rest, scratch, x; rewrite !app_nil_r, Z.add_0_r; done.
  pose proof (take_drop (Z.to_nat BUFSIZE) rest) as Hsplit.
  set (d := take (Z.to_nat BUFSIZE) rest) in *. set (rest' := drop (Z.to_nat BUFSIZE) rest) in *.
  assert (Hd : Z.of_nat (length d) = BUFSIZE) by (unfold d; rewrite length_take; lia).
  assert (Hr : Z.of_nat (length rest) - BUFSIZE = Z.of_nat (length rest')) by (unfold rest'; rewrite length_drop; lia).
  rewrite <- Hsplit in Hread. apply read_app in Hread as [Hr1 Hr2]; [|done]. rewrite Hd in Hr1, Hr2.
  erewrite bind_lift by exact Hr1.
  destruct (update_copied_run msg scratch d x) as (scratch' & y & Hy & Hs' & Hy'); [done | done | lia |].
  erewrite bind_ok by exact Hy. rewrite Hr.
  destruct (IH (msg ++ d) scratch' (offs + BUFSIZE) rest' y) as (mid & tail & s2 & z & Hrest & Ht & Hz & Hs2 & Hz').
  - done.
  - done.
  - lia.
  - by rewrite Z.add_assoc.
  - replace (Z.of_nat (length rest)) with (Z.of_nat (length rest') + 1 * BUFSIZE) in Hfuel by lia.
    rewrite Z.div_add in Hfuel by lia. lia.
  - exists (d ++ mid), tail, s2, z. rewrite <- Hsplit, Hrest, length_app, <- !app_assoc in *.
    split; [reflexivity|]. split; [exact Ht|]. split; [|by split].
    rewrite Hz, (length_app d), Nat2Z.inj_add, Hd, Z.add_assoc. reflexivity.
Qed.

Lemma length_md5 msg : length (md5_reference msg) = 16%nat.
Proof.
  unfold md5_reference, rfc_md5. pose proof (absorb_ok sine_table iv (md5_pad msg) iv_ok) as [Hl4 _].
  by destruct (absorb sine_table iv (md5_pad msg)) as [|r0 [|r1 [|r2 [|r3 [|]]]]].
Qed.

(** [md5_memory] over a range of an allocation. *)
Lemma md5_memory_run scratch stack mem start len hash :
  length scratch = Z.to_nat BUFSIZE -> 0 <= start -> 0 <= len -> start + len <= Z.of_nat (length mem) ->
  16 <= Z.of_nat (length hash) ->
  md5_memory (Some scratch) stack mem start len hash = Ok (0, splice 0 (md5_reference (slice start len mem)) hash).
Proof.
  intros Hs Hst Hlen Hin Hhash. set (rest := slice start len mem).
  assert (Hl : len = Z.of_nat (length rest)) by (unfold rest; rewrite length_slice; lia).
  assert (Hread : mem_read mem (start + 0) (Z.of_nat (length rest)) = Ok rest).
  { rewrite Z.add_0_r, <- Hl. apply mem_read_ok; lia. }
  destruct (start_inv sine_table stack) as (x & Hx & Hx').
  destruct (memory_loop_run (Z.to_nat (len / BUFSIZE)) [] scratch mem start 0 rest x Hx' Hs)
    as (mid & tail & s' & y & Hsplit & Ht & Hy & Hs' & Hy'); [lia | done | |].
  { pose proof BUFSIZE_bounds. rewrite Z2Nat.id by (apply Z.div_pos; lia). by rewrite Hl. }
  destruct (update_copied_run mid s' tail y Hy' Hs' Ht) as (s2 & z & Hz & _ & Hz').
  destruct (finish_inv _ _ Hz') as (w & Hw & Hdig). rewrite <- Hl in Hy. rewrite Hsplit in Hread.
  apply read_app in Hread as [_ Hread]; [|lia].
  unfold md5_memory. cbn [deref_scratch mbind res_bind]. rewrite (bind_ok _ _ _ _ _ Hx), (bind_ok _ _ _ _ _ Hy).
  rewrite Z.add_0_l, Z.add_0_r in *. rewrite (bind_lift _ _ _ _ Hread), (bind_ok _ _ _ _ _ Hz), Hw.
  transitivity (hash' ← mem_write hash 0 (digest w); Ok (0, hash')); [reflexivity|].
  rewrite Hdig, <- Hsplit.
  by rewrite mem_write_ok by (rewrite ?length_md5; lia).
Qed.

(** A range that passes the end of the allocation: some copy leaves it. *)
Lemma memory_loop_short fuel msg scratch mem start offs len x :
  inv msg x -> length scratch = Z.to_nat BUFSIZE -> 0 <= start + offs -> 0 <= len ->
  len / BUFSIZE <= Z.of_nat fuel -> Z.of_nat (length mem) < start + offs + len ->
  memory_loop fuel scratch mem start offs len x = Fault OutOfBounds \/
  exists s' offs' len' x', memory_loop fuel scratch mem start offs len x = Ok ((s', offs', len'), x') /\
    Z.of_nat (length mem) < start + offs' + len'.
Proof.
  pose proof BUFSIZE_bounds as HB. revert msg scratch offs len x.
  induction fuel as [|fuel IH]; intros msg scratch offs len x Hx Hs Hoff Hlen Hfuel Hout;
    cbn [memory_loop]; destruct (Z.ltb_spec BUFSIZE len) as [Hlt|Hge].
  1: { pose proof (Z.div_le_mono BUFSIZE len BUFSIZE ltac:(lia) ltac:(lia)) as Hdm.
       rewrite Z.div_same in Hdm by lia. lia. }
  1,3: right; by eexists _, _, _, _.
  destruct (mem_read mem (start + offs) BUFSIZE) as [bytes|f] eqn:Hread.
  - erewrite bind_lift by done. assert (Hb : Z.of_nat (length bytes) <= BUFSIZE).
    { unfold mem_read in Hread. destruct (decide _); [|done]. apply (f_equal (fun r => if r is Ok l then length l else 0%nat)) in Hread. cbn [id] in Hread.
      rewrite <- Hread, length_slice; lia. }
    destruct (update_copied_run msg scratch bytes x Hx Hs Hb) as (s' & y & Hy & Hs' & Hy').
    erewrite bind_ok by exact Hy. apply (IH _ _ _ _ _ Hy' Hs'); [lia | lia | | lia].
    replace len with (len - BUFSIZE + 1 * BUFSIZE) in Hfuel by lia. rewrite Z.div_add in Hfuel by lia. lia.
  - left. apply bind_fault. unfold lift. unfold mem_read in Hread. destruct (decide _); congruence.
Qed.

Lemma md5_memory_fault scratch stack mem start len hash :
  length scratch = Z.to_nat BUFSIZE -> 0 <= start -> 0 <= len -> Z.of_nat (length mem) < start + len ->
  md5_memory (Some scratch) stack mem start len hash = Fault OutOfBounds.
Proof.
  intros Hs Hst Hlen Hout. destruct (start_inv sine_table stack) as (x & Hx & Hx').
  unfold md5_memory. cbn [deref_scratch mbind res_bind]. rewrite (bind_ok _ _ _ _ _ Hx).
  destruct (memory_loop_short (Z.to_nat (len / BUFSIZE)) [] scratch mem start 0 len x Hx' Hs)
    as [Hf | (s' & offs' & len' & y & Hy & Hout')]; [lia | lia | | lia | |].
  1: { rewrite Z2Nat.id; [done | apply Z.div_pos; [lia | apply BUFSIZE_bounds]]. }
  - by rewrite (bind_fault _ _ _ _ Hf).
  - rewrite (bind_ok _ _ _ _ _ Hy). cbn beta iota. rewrite bind_fault with (f := OutOfBounds); [done|].
    unfold lift. by rewrite mem_read_fault by lia.
Qed.

(** ** Files *)

(** The loop of [md5_file] leaves a last buffer that is not full. *)
Lemma file_loop_run fuel msg scratch bytes fp x :
  inv msg x -> length scratch = Z.to_nat BUFSIZE -> Z.of_nat (length bytes) <= BUFSIZE ->
  (Z.of_nat (length bytes) < BUFSIZE -> fp = []) ->
  (Z.of_nat (length bytes) = BUFSIZE -> Z.of_nat (length fp) / BUFSIZE + 1 <= Z.of_nat fuel) ->
  exists bulk s' last x', bytes ++ fp = bulk ++ last /\ Z.of_nat (length last) <= BUFSIZE /\
    file_loop fuel scratch bytes fp x = Ok ((s', last), x') /\
    length s' = Z.to_nat BUFSIZE /\ inv (msg ++ bulk) x'.
Proof.
  pose proof BUFSIZE_bounds as HB. revert msg scratch bytes fp x.
  induction fuel as [|fuel IH]; intros msg scratch bytes fp x Hx Hs Hb Hlast Hfuel;
    cbn [file_loop]; destruct (Z.eqb_spec (Z.of_nat (length bytes)) BUFSIZE) as [Heq|Hne].
  1: { pose proof (Z.div_pos (Z.of_nat (length fp)) BUFSIZE). lia. }
  1,3: exists [], scratch, bytes, x; rewrite Hlast, !app_nil_r by lia; done.
  destruct (update_copied_run msg scratch bytes x Hx Hs Hb) as (s1 & y & Hy & Hs1 & Hy').
  erewrite bind_ok by exact Hy. cbn [fread]. unfold fread.
  destruct (IH (msg ++ bytes) s1 (take (Z.to_nat BUFSIZE) fp) (drop (Z.to_nat BUFSIZE) fp) y Hy' Hs1)
    as (bulk & s' & last & z & Hsplit & Hl & Hz & Hs' & Hz').
  - rewrite length_take. lia.
  - rewrite length_take. intros Hlt. apply drop_ge. lia.
  - rewrite length_take, length_drop. intros Hfull. specialize (Hfuel Heq).
    replace (Z.of_nat (length fp)) with (Z.of_nat (length fp - Z.to_nat BUFSIZE) + 1 * BUFSIZE) in Hfuel by lia.
    rewrite Z.div_add in Hfuel by lia. lia.
  - rewrite take_drop in Hsplit. exists (bytes ++ bulk), s', last, z. rewrite Hsplit, <- !app_assoc in *.
    split; [reflexivity|]. split; [exact Hl|]. split; [exact Hz|]. by split.
Qed.

Lemma fread_spec file bytes fp :
  fread BUFSIZE file = (bytes, fp) ->
  bytes ++ fp = file /\ Z.of_nat (length bytes) <= BUFSIZE /\ (Z.of_nat (length bytes) < BUFSIZE -> fp = []).
Proof.
  pose proof BUFSIZE_bounds as HB. unfold fread. intros Hf. apply pair_equal_spec in Hf as [<- <-]. rewrite take_drop, length_take.
  split; [reflexivity|]. split; [lia|]. intros Hlt. apply drop_ge. lia.
Qed.

(** Everything [md5_file] hashes after its first [fread]. *)
Lemma file_digest_run fuel scratch bytes fp x :
  inv [] x -> length scratch = Z.to_nat BUFSIZE -> Z.of_nat (length bytes) <= BUFSIZE ->
  (Z.of_nat (length bytes) < BUFSIZE -> fp = []) -> Z.of_nat (length fp) / BUFSIZE + 1 <= Z.of_nat fuel ->
  exists x', ('(scratch, bytes) ← file_loop fuel scratch bytes fp; update_copied scratch bytes ;; md5_finish) x = Ok (tt, x') /\
    digest x' = md5_reference (bytes ++ fp).
Proof.
  intros Hx Hs Hb Hlast Hfuel.
  destruct (file_loop_run fuel [] scratch bytes fp x Hx Hs Hb Hlast (fun _ => Hfuel))
    as (bulk & s' & last & y & Hsplit & Hl & Hy & Hs' & Hy').
  rewrite (bind_ok _ _ _ _ _ Hy), Hsplit. destruct (update_copied_run bulk s' last y Hy' Hs' Hl) as (s2 & z & Hz & _ & Hz').
  rewrite (bind_ok _ _ _ _ _ Hz). by apply finish_inv.
Qed.

(** [md5_file] of a readable file. *)
Lemma md5_file_run scratch stack file hash :
  length scratch = Z.to_nat BUFSIZE -> 16 <= Z.of_nat (length hash) ->
  md5_file (Some scratch) stack (Some file) hash = Ok (0, splice 0 (md5_reference file) hash).
Proof.
  intros Hs Hhash. destruct (start_inv sine_table stack) as (x & Hx & Hx').
  unfold md5_file. destruct (fread BUFSIZE file) as [bytes fp] eqn:Hf. apply fread_spec in Hf as (<- & Hb & Hlast).
  cbn [deref_scratch mbind res_bind]. rewrite (bind_ok _ _ _ _ _ Hx).
  assert (Hfuel : Z.of_nat (length fp) / BUFSIZE + 1 <= Z.of_nat (Z.to_nat (Z.of_nat (length fp) / BUFSIZE + 1))) by lia.
  revert Hfuel. generalize (Z.to_nat (Z.of_nat (length fp) / BUFSIZE + 1)). intros fuel Hfuel.
  destruct (file_digest_run fuel scratch bytes fp x Hx' Hs Hb Hlast Hfuel) as (w & Hw & Hdig). rewrite Hw.
  transitivity (hash' ← mem_write hash 0 (digest w); Ok (0, hash')); [reflexivity|].
  by rewrite Hdig, mem_write_ok by (rewrite ?length_md5; lia).
Qed.
