(* ===== verification/PcHost.v ===== *)
(** * The image file and the hashes of the host driver

    [src/src/block_drivers/block_pc.c]: the name of the image file, the driver
    started from the host's files, and the hashes the host tests take of a part
    of the image or of all of it. *)
From stdpp Require Import strings.
From S2P Require Import Prelude Device BlockPc Md5 Md5Sine Md5Digest.

(** The driver with its last global. *)
Record pc_driver : Type := mk_driver {
  image_name : option string;    (** const char *, null at first *)
  driver_state : pc_state
}.
Definition driver_initial : pc_driver := mk_driver None pc_initial.

Definition block_pc_set_image_name (filename : option string) (d : pc_driver) : pc_driver :=
  mk_driver filename (driver_state d).

(** [fopen(image_name)] over the files of the host. *)
Definition init_from_files (files : string -> option (list Z)) (malloc : bool) (fread : Z)
    (d : pc_driver) : res (Z * pc_driver) :=
  match image_name d with
  | None => Fault NullDeref
  | Some name =>
      let '(r, s) := Pc.block_init (mk_host (files name) malloc fread) (driver_state d) in
      Ok (r, mk_driver (image_name d) s)
  end.

Definition block_pc_hash (scratch : option (list Z)) (stack : md_context) (start len : Z) (hash : list Z)
    (s : pc_state) : res (Z * list Z) :=
  mem ← Pc.deref (blocks s);
  md5_memory scratch stack mem start len hash.

Definition block_pc_hash_all (scratch : option (list Z)) (stack : md_context) (hash : list Z)
    (s : pc_state) : res (Z * list Z) :=
  block_pc_hash scratch stack 0 (block_fs_size s) hash s.

(** What the callers provide: the megabyte of [malloc] and room for the digest. *)
Definition hash_memory (scratch : list Z) (hash : list Z) : Prop :=
  length scratch = Z.to_nat BUFSIZE /\ 16 <= Z.of_nat (length hash).

Section pc_host.
Implicit Types (scratch mem hash : list Z) (stack : md_context).

(** [block_pc_hash] of a range inside the image writes the MD5 of its bytes and returns 0; a range
    that passes the end of the image reads outside the allocation, since nothing checks it. *)
Lemma block_pc_hash_range scratch stack start len hash mem s :
  blocks s = Image mem -> 0 <= start -> 0 <= len -> hash_memory scratch hash ->
  (start + len <= Z.of_nat (length mem) ->
     block_pc_hash (Some scratch) stack start len hash s = Ok (0, splice 0 (md5_reference (slice start len mem)) hash)) /\
  (Z.of_nat (length mem) < start + len ->
     block_pc_hash (Some scratch) stack start len hash s = Fault OutOfBounds).
Proof.
  intros Hs Hst Hlen [Hsc Hh]. unfold block_pc_hash. rewrite Hs. cbn [Pc.deref mbind res_bind]. split; intros Hin.
  - by apply md5_memory_run.
  - by apply md5_memory_fault.
Qed.

(** [block_init] of a readable image below 2 GiB keeps the bytes of the file. *)
Lemma init_from_files_ok files name file d :
  files name = Some file -> Z.of_nat (length file) < 2147483648 ->
  init_from_files files true (Z.of_nat (length file)) (block_pc_set_image_name (Some name) d) =
    Ok (0, mk_driver (Some name) (mk_pc (Z.of_nat (length file)) (Image file) (block_ro (driver_state d)))).
Proof.
  intros Hf Hsize. unfold init_from_files, Pc.block_init. cbn. rewrite Hf. cbn.
  change (2048 * 1024 * 1024) with 2147483648. destruct (Z.ltb_spec (Z.of_nat (length file)) 2147483648); [|lia].
  by rewrite Z.ltb_irrefl.
Qed.

(** C35: after the driver was started on an image file, [block_pc_hash_all] gives what [md5_file] gives for
    the file: the MD5 of its contents, whatever the size, one buffer or many. *)
Theorem image_hash_matches_file files name file scratch scratch' stack stack' hash d :
  files name = Some file -> Z.of_nat (length file) < 2147483648 ->
  hash_memory scratch hash -> hash_memory scratch' hash ->
  exists d', init_from_files files true (Z.of_nat (length file)) (block_pc_set_image_name (Some name) d) = Ok (0, d') /\
    block_pc_hash_all (Some scratch) stack hash (driver_state d') = Ok (0, splice 0 (md5_reference file) hash) /\
    md5_file (Some scratch') stack' (files name) hash = Ok (0, splice 0 (md5_reference file) hash).
Proof.
  intros Hf Hsize [Hs Hh] [Hs' _]. eexists. split; [by apply init_from_files_ok|]. rewrite Hf.
  split; [|exact (md5_file_run scratch' stack' file hash Hs' Hh)].
  unfold block_pc_hash_all, block_pc_hash. cbn [driver_state blocks block_fs_size Pc.deref mbind res_bind].
  rewrite (md5_memory_run scratch stack file 0 (Z.of_nat (length file)) hash Hs) by lia. by rewrite slice_whole.
Qed.
End pc_host.
