(* ===== verification/Md5Witnesses.v ===== *)
(** * The theorems on MD5 and the hashes of the host driver at concrete inputs

    The test vector is ["abc"] of RFC 1321, appendix A.5. *)
From stdpp Require Import strings.
From S2P Require Import Prelude Device BlockPc Md5 Md5Spec Md5Sine Md5Correct Md5Digest PcHost.

Definition abc : list Z := [97; 98; 99].
Definition abc_digest : list Z :=
  [0x90; 0x01; 0x50; 0x98; 0x3c; 0xd2; 0x4f; 0xb0; 0xd6; 0x96; 0x3f; 0x7d; 0x28; 0xe1; 0x7f; 0x72].

Lemma abc_reference : md5_reference abc = abc_digest.
Proof. rewrite md5_reference_exec. by vm_compute. Qed.

Definition sample_stack : md_context := mk_md (mk_words 1 2 3 4) (replicate 16 5) 6 (replicate 64 7).
Definition sample_scratch : list Z := replicate (Z.to_nat BUFSIZE) 0xAA.
Definition sample_hash : list Z := replicate 16 0.

Lemma sample_hash_memory : hash_memory sample_scratch sample_hash.
Proof. split; [apply length_replicate | by vm_compute]. Qed.

Lemma md5_streams_rfc1321_witness :
  exists x, (md5_start ;; updates [[97; 98]; []; [99]] ;; md5_finish) sample_stack = Ok (tt, x) /\ digest x = abc_digest.
Proof.
  destruct (md5_streams_rfc1321 sample_stack [[97; 98]; []; [99]]) as (x & Hx & Hd).
  - by repeat constructor.
  - exists x. split; [exact Hx|]. rewrite Hd. exact abc_reference.
Defined.

Definition abc_files (name : string) : option (list Z) := if decide (name = "abc.img"%string) then Some abc else None.

Lemma image_hash_matches_file_witness :
  exists d', init_from_files abc_files true 3 (block_pc_set_image_name (Some "abc.img"%string) driver_initial) = Ok (0, d') /\
    block_pc_hash_all (Some sample_scratch) sample_stack sample_hash (driver_state d') = Ok (0, abc_digest) /\
    md5_file (Some sample_scratch) sample_stack (abc_files "abc.img") sample_hash = Ok (0, abc_digest).
Proof.
  destruct (image_hash_matches_file abc_files "abc.img" abc sample_scratch sample_scratch sample_stack sample_stack
    sample_hash driver_initial eq_refl ltac:(cbn; lia) sample_hash_memory sample_hash_memory) as (d' & H1 & H2 & H3).
  rewrite abc_reference in H2, H3. exists d'. split; [exact H1|]. split; [exact H2 | exact H3].
Defined.
