(* ===== verification/BlockSd.v ===== *)
(** * The SD card driver, [src/src/block_drivers/block_sd.c]

    The driver speaks the SPI protocol of SD cards over the SPI peripheral of a
    microcontroller. Peripheral and pins belong to a hardware library: [Board]
    is what the driver uses of it, [Config] the switches of [config.h]. The
    loops that wait for the card have no bound in the code; each has fuel here.
    What the card answers is in [SdProtocol]. *)
From S2P Require Import Prelude Device.

(** ** The hardware *)

(** The configuration calls of [block_init], in the order of the code. *)
Inductive setup_call : Type :=
| rcc_enable_spi | rcc_enable_io
| mode_cs_output | mode_mosi_output | mode_sck_output | mode_miso_input | mode_wp_input | mode_cp_input
| spi_unidirectional | spi_no_crc | spi_dff_8bit | spi_full_duplex | spi_software_slave | spi_nss_high
| spi_baudrate_div_4 | spi_master | spi_polarity_0 | spi_phase_0 | spi_no_ss_output | spi_on.

Class Board (B : Type) := {
  spi_xfer : Z -> B -> Z * B;        (** sends a byte and returns the one received *)
  gpio_set_cs : B -> B;
  gpio_clear_cs : B -> B;
  gpio_get_cp : B -> Z;
  gpio_get_wp : B -> Z;
  board_setup : setup_call -> B -> B
}.

(** Which macros [config.h] defines. *)
Class Config := {
  SD_CP : bool;
  SD_WP : bool;
  SD_CP_PIN : bool;
  SD_WP_PIN : bool
}.

(** ** The card structure and the state of the driver *)
Definition SD_CARD_SC : Z := 2.
Definition SD_CARD_HC : Z := 3.
Definition SD_CARD_ERROR : Z := 99.
Definition CMD0 : Z := 0.
Definition CMD8 : Z := 8.
Definition CMD9 : Z := 9.
Definition CMD12 : Z := 12.
Definition CMD17 : Z := 17.
Definition CMD24 : Z := 24.
Definition ACMD41 : Z := 0x80 + 41.
Definition SD_ERR_NOT_PRESENT : Z := 2.
Definition SD_RETRIES : Z := 1000.

Record SDCard : Type := mk_card {
  card_type : Z;     (** uint16_t *)
  card_ro : Z;       (** uint8_t, [read_only] *)
  card_size : Z;     (** uint32_t *)
  card_error : Z     (** uint8_t *)
}.
Definition card_initial : SDCard := mk_card 0 0 0 0.

Definition set_card_type (v : Z) (c : SDCard) : SDCard := mk_card v (card_ro c) (card_size c) (card_error c).
Definition set_card_ro (v : Z) (c : SDCard) : SDCard := mk_card (card_type c) v (card_size c) (card_error c).
Definition set_card_size (v : Z) (c : SDCard) : SDCard := mk_card (card_type c) (card_ro c) v (card_error c).
Definition set_card_error (v : Z) (c : SDCard) : SDCard := mk_card (card_type c) (card_ro c) (card_size c) v.

Record sd_state (B : Type) : Type := mk_sd {
  sd_card : SDCard;
  sd_board : B
}.
Arguments mk_sd {B} _ _.
Arguments sd_card {B} _.
Arguments sd_board {B} _.

Definition upd_card {B} (f : SDCard -> SDCard) (s : sd_state B) : sd_state B :=
  mk_sd (f (sd_card s)) (sd_board s).
Definition upd_board {B} (f : B -> B) (s : sd_state B) : sd_state B :=
  mk_sd (sd_card s) (f (sd_board s)).

Module Sd.
Section sd_ops.
Context {B : Type} `{Config, Board B}.

Definition xfer (tx : Z) : M (sd_state B) Z := fun s =>
  let '(rx, b) := spi_xfer tx (sd_board s) in Ok (rx, mk_sd (sd_card s) b).

(** A transfer whose result is not used. *)
Definition send (tx : Z) : M (sd_state B) unit := xfer tx ;; mret tt.
Definition set_card (f : SDCard -> SDCard) : M (sd_state B) unit := modify (upd_card f).

(** [do { c = spi_xfer(SD_SPI, 0xFF); } while(cond(c));] *)
Fixpoint wait_while (fuel : nat) (cond : Z -> bool) : M (sd_state B) Z :=
  c ← xfer 0xFF;
  if cond c then
    match fuel with
    | O => throw OutOfFuel
    | S fuel' => wait_while fuel' cond
    end
  else mret c.

Definition sd_command (fuel : nat) (code data chksm : Z) : M (sd_state B) Z :=
  (if negb (Z.land code 0x80 =? 0) then
     send 0xFF ;;
     send (0x40 + 55) ;; send 0 ;; send 0 ;; send 0 ;; send 0 ;; send 1 ;;
     wait_while fuel (fun c => c =? 0xFF) ;;
     mret tt
   else mret tt) ;;
  send 0xFF ;;
  send (0x40 + Z.land code 0x7F) ;;
  send (Z.land (Z.shiftr data 24) 0xFF) ;;
  send (Z.land (Z.shiftr data 16) 0xFF) ;;
  send (Z.land (Z.shiftr data 8) 0xFF) ;;
  send (Z.land data 0xFF) ;;
  send chksm ;;
  (if code =? CMD12 then send 0xFF else mret tt) ;;
  '(_, r) ← for_loop (Z.to_nat SD_RETRIES) 0 (fun _ =>
    c ← xfer 0xFF;
    mret (if negb (c =? 0xFF) then Some c else None));
  mret (match r with Some c => c | None => 0xFF end).

(** [while(c == 1) c = sd_command(ACMD41, 1 << 30, 1);], at most [rounds] times. *)
Fixpoint acmd41_loop (fuel rounds : nat) (c : Z) : M (sd_state B) Z :=
  if c =? 1 then
    match rounds with
    | O => throw OutOfFuel
    | S rounds' =>
        c ← sd_command fuel ACMD41 (Z.shiftl 1 30) 1;
        acmd41_loop fuel rounds' c
    end
  else mret c.

(** The checks after the response to CMD8: [true] unless one of the four bytes is wrong. *)
Fixpoint check_bytes (expected : list Z) : M (sd_state B) bool :=
  match expected with
  | [] => mret true
  | e :: expected' =>
      c ← xfer 0xFF;
      if negb (c =? e) then mret false else check_bytes expected'
  end.

Definition write_protect (c : Z) : M (sd_state B) unit :=
  if negb (Z.land c 0x30 =? 0) then set_card (set_card_ro 1) else mret tt.

(** The two structures of the card-specific data, after its first byte. *)
Definition read_csd_v2 : M (sd_state B) unit :=
  set_card (set_card_type SD_CARD_HC) ;;
  send 0xFF ;; send 0xFF ;; send 0xFF ;; send 0xFF ;; send 0xFF ;; send 0xFF ;;
  c ← xfer 0xFF;
  set_card (set_card_size (u32 (Z.shiftl (Z.land c 0xF) 16))) ;;
  c ← xfer 0xFF;
  set_card (fun r => set_card_size (u32 (card_size r + Z.shiftl c 8)) r) ;;
  c ← xfer 0xFF;
  set_card (fun r => set_card_size (u32 (card_size r + c)) r) ;;
  set_card (fun r => set_card_size (u32 (card_size r + 1)) r) ;;
  set_card (fun r => set_card_size (u32 (Z.shiftl (card_size r) 10)) r) ;;
  send 0xFF ;; send 0xFF ;; send 0xFF ;; send 0xFF ;;
  c ← xfer 0xFF;
  write_protect c ;;
  send 0xFF.

Definition read_csd_v1 : M (sd_state B) unit :=
  set_card (set_card_type SD_CARD_SC) ;;
  send 0xFF ;; send 0xFF ;; send 0xFF ;; send 0xFF ;;
  c ← xfer 0xFF;
  let i := Z.land c 0xF in
  c ← xfer 0xFF;
  set_card (set_card_size (Z.shiftl (Z.land c 0x03) 10)) ;;
  c ← xfer 0xFF;
  set_card (fun r => set_card_size (u32 (card_size r + Z.shiftl c 2)) r) ;;
  c ← xfer 0xFF;
  set_card (fun r => set_card_size (u32 (card_size r + Z.shiftr (Z.land c 0xC0) 6)) r) ;;
  c ← xfer 0xFF;
  c' ← xfer 0xFF;
  let c := u16 (Z.shiftl c 1 + Z.shiftr c' 7) in
  let c := u16 (Z.shiftl 1 (Z.land c 0x7 + 2)) in
  set_card (fun r => set_card_size (u32 (card_size r + 1)) r) ;;
  set_card (fun r => set_card_size (u32 (card_size r * c)) r) ;;
  size ← gets (fun s => card_size (sd_card s));
  size ← lift (if i <? 9 then Fault BadShift else shl32 size (i - 9));
  set_card (set_card_size size) ;;
  send 0xFF ;; send 0xFF ;; send 0xFF ;;
  c ← xfer 0xFF;
  write_protect c ;;
  send 0xFF.

Definition read_csd : M (sd_state B) unit :=
  c ← xfer 0xFF;
  if negb (Z.land c 0x40 =? 0) then read_csd_v2 else read_csd_v1.

(** From CMD9 on: the size of the card, its type, its write protection. *)
Definition read_geometry (fuel : nat) : M (sd_state B) Z :=
  c ← sd_command fuel CMD9 0 1;
  if negb (c =? 0) then set_card (set_card_type SD_CARD_ERROR) ;; mret (-1)
  else
    wait_while fuel (fun c => c =? 0xFF) ;;
    read_csd ;;
    mret 0.

(** CMD8: the version of the card; [false] when the reset fails. *)
Definition check_version (fuel : nat) : M (sd_state B) bool :=
  let fail := set_card (set_card_type SD_CARD_ERROR) ;; mret false in
  c ← sd_command fuel CMD8 0x1AA 0x87;
  if c =? 5 then set_card (set_card_type SD_CARD_SC) ;; mret true
  else if c =? 1 then
    ok ← check_bytes [0; 0; 1; 0xAA];
    if (ok : bool) then set_card (set_card_type SD_CARD_HC) ;; mret true else fail
  else fail.

Definition sd_card_reset (fuel : nat) : M (sd_state B) Z :=
  b ← gets sd_board;
  if SD_CP && negb (gpio_get_cp b =? 0) then
    set_card (set_card_error SD_ERR_NOT_PRESENT) ;; mret (-1)
  else
    modify (upd_board gpio_set_cs) ;;
    for_loop (B := unit) 20 0 (fun _ => send 0xFF ;; mret None) ;;
    modify (upd_board gpio_clear_cs) ;;
    c ← sd_command fuel CMD0 0 0x95;
    if c =? 0xFF then
      set_card (set_card_type SD_CARD_ERROR) ;;
      set_card (set_card_error SD_ERR_NOT_PRESENT) ;;
      mret (-1)
    else
      ok ← check_version fuel;
      if negb ok then mret (-1)
      else
        acmd41_loop fuel fuel 1 ;;
        read_geometry fuel.

(** The calls of [block_init]; two depend on [config.h]. *)
Definition setup_calls : list setup_call :=
  [rcc_enable_spi; rcc_enable_io; mode_cs_output; mode_mosi_output; mode_sck_output; mode_miso_input] ++
  (if SD_WP_PIN then [mode_wp_input] else []) ++ (if SD_CP_PIN then [mode_cp_input] else []) ++
  [spi_unidirectional; spi_no_crc; spi_dff_8bit; spi_full_duplex; spi_software_slave; spi_nss_high;
   spi_baudrate_div_4; spi_master; spi_polarity_0; spi_phase_0; spi_no_ss_output; spi_on].

Definition block_init (fuel : nat) : M (sd_state B) Z :=
  modify (upd_board (fun b => fold_left (fun b call => board_setup call b) setup_calls b)) ;;
  sd_card_reset fuel.

(** The address of a block: bytes on a standard capacity card. *)
Definition block_address (block : Z) : M (sd_state B) Z :=
  c ← gets sd_card;
  mret (if card_type c =? SD_CARD_SC then u32 (Z.shiftl block 9) else block).

Fixpoint receive (n : nat) : M (sd_state B) (list Z) :=
  match n with
  | O => mret []
  | S n' => c ← xfer 0xFF; l ← receive n'; mret (u8 c :: l)
  end.
Fixpoint transmit (l : list Z) : M (sd_state B) unit :=
  match l with
  | [] => mret tt
  | b :: l' => send b ;; transmit l'
  end.

(** The return code and the buffer. *)
Definition block_read (fuel : nat) (block : Z) (buf : list Z) : M (sd_state B) (Z * list Z) :=
  block ← block_address block;
  c ← sd_command fuel CMD17 block 1;
  if negb (c =? 0) then mret (c, buf)
  else
    wait_while fuel (fun c => negb (c =? 0xFE)) ;;
    l ← receive 512;
    buf ← lift (mem_write buf 0 l);
    send 0xFF ;; send 0xFF ;;
    mret (0, buf).

Definition block_write (fuel : nat) (block : Z) (buf : list Z) : M (sd_state B) Z :=
  block ← block_address block;
  c ← sd_command fuel CMD24 block 1;
  if negb (c =? 0) then mret c
  else
    send 0xFF ;; send 0xFF ;;
    send 0xFE ;;
    l ← lift (mem_read buf 0 512);
    transmit l ;;
    send 0xFF ;; send 0xFF ;;
    xfer 0xFF ;;
    wait_while fuel (fun c => negb (c =? 0xFF)) ;;
    mret 0.

Definition block_get_volume_size : M (sd_state B) Z := gets (fun s => card_size (sd_card s)).
Definition block_get_block_size : M (sd_state B) Z := mret BLOCK_SIZE.
Definition block_get_device_read_only : M (sd_state B) Z :=
  s ← gets id;
  mret (if SD_WP && negb (gpio_get_wp (sd_board s) =? 0) then 1
        else if negb (card_ro (sd_card s) =? 0) then 1 else 0).
Definition block_sync : M (sd_state B) Z := mret 0.
Definition block_halt : M (sd_state B) Z := mret 0.
Definition block_get_error : M (sd_state B) Z := gets (fun s => card_error (sd_card s)).
End sd_ops.
End Sd.
