(* ===== verification/SdProtocol.v ===== *)
(** * The SPI protocol of SD cards

    What a card answers, byte by byte, while the driver sends: the exchanges of
    [src/src/block_drivers/block_sd.c] as relations between the hardware before
    and after, and the runs of the driver's functions along them. *)
From S2P Require Import Prelude Device BlockSd.

(** ** Exchanges *)
Section exchange.
Context {B : Type} `{Board B}.

(** The bytes received while [txs] is sent, and the board after it. *)
Fixpoint xfers (txs : list Z) (b : B) : list Z * B :=
  match txs with
  | [] => ([], b)
  | tx :: txs' =>
      let '(rx, b1) := spi_xfer tx b in
      let '(rxs, b2) := xfers txs' b1 in (rx :: rxs, b2)
  end.

(** While the driver clocks out [0xFF]s, the card answers [rxs]. *)
Definition answers (b : B) (rxs : list Z) (b' : B) : Prop :=
  xfers (replicate (length rxs) 0xFF) b = (rxs, b').

(** The card hears [txs], whatever it answers. *)
Definition hears (b : B) (txs : list Z) (b' : B) : Prop := exists rxs, xfers txs b = (rxs, b').

Lemma xfers_app txs1 txs2 b :
  xfers (txs1 ++ txs2) b =
    let '(r1, b1) := xfers txs1 b in let '(r2, b2) := xfers txs2 b1 in (r1 ++ r2, b2).
Proof.
  revert b. induction txs1 as [|tx txs1 IH]; intros b; cbn.
  - by destruct (xfers txs2 b).
  - destruct (spi_xfer tx b) as [rx b1]. rewrite IH.
    destruct (xfers txs1 b1) as [r1 b2]. by destruct (xfers txs2 b2).
Qed.

Lemma xfers_length txs b : length (fst (xfers txs b)) = length txs.
Proof.
  revert b. induction txs as [|tx txs IH]; intros b; cbn; [done|].
  destruct (spi_xfer tx b) as [rx b1]. specialize (IH b1). destruct (xfers txs b1). cbn in *. lia.
Qed.

Lemma answers_app r1 r2 b b' :
  answers b (r1 ++ r2) b' <-> exists b1, answers b r1 b1 /\ answers b1 r2 b'.
Proof.
  unfold answers. rewrite length_app, replicate_add, xfers_app.
  pose proof (xfers_length (replicate (length r1) 0xFF) b) as Hl1. rewrite length_replicate in Hl1.
  destruct (xfers (replicate (length r1) 0xFF) b) as [q1 b1]. cbn in Hl1. split.
  - destruct (xfers (replicate (length r2) 0xFF) b1) as [q2 b2] eqn:H2. intros [= Happ ->].
    apply app_inj_1 in Happ as [-> ->]; [|done]. by exists b1.
  - intros (b2 & [= -> ->] & H2). by rewrite H2.
Qed.

Lemma answers_cons r rs b b' :
  answers b (r :: rs) b' <-> exists b1, spi_xfer 0xFF b = (r, b1) /\ answers b1 rs b'.
Proof.
  unfold answers. cbn. destruct (spi_xfer 0xFF b) as [rx b1]. split.
  - destruct (xfers _ b1) as [q b2] eqn:H2. intros [= -> -> ->]. by exists b1.
  - intros (b2 & [= -> ->] & H2). by rewrite H2.
Qed.

Lemma hears_app t1 t2 b b' : hears b (t1 ++ t2) b' <-> exists b1, hears b t1 b1 /\ hears b1 t2 b'.
Proof.
  unfold hears. setoid_rewrite xfers_app. destruct (xfers t1 b) as [r1 b1] eqn:H1. split.
  - destruct (xfers t2 b1) as [r2 b2] eqn:H2. intros (? & [= <- ->]). exists b1. eauto.
  - intros (b2 & (? & [= -> ->]) & ? & H2). rewrite H2. eauto.
Qed.

Lemma hears_cons t ts b b' : hears b (t :: ts) b' <-> exists r b1, spi_xfer t b = (r, b1) /\ hears b1 ts b'.
Proof.
  unfold hears. cbn. destruct (spi_xfer t b) as [rx b1]. split.
  - destruct (xfers ts b1) as [q b2] eqn:H2. intros (? & [= <- ->]). exists rx, b1. eauto.
  - intros (? & b2 & [= -> ->] & ? & H2). rewrite H2. eauto.
Qed.

(** The bytes of a command without the application prefix. *)
Definition frame (code data chksm : Z) : list Z :=
  [0xFF; 0x40 + Z.land code 0x7F; Z.land (Z.shiftr data 24) 0xFF; Z.land (Z.shiftr data 16) 0xFF;
   Z.land (Z.shiftr data 8) 0xFF; Z.land data 0xFF; chksm].
End exchange.

(** ** The commands *)
Section commands.
Context {B : Type} `{Board B}.

(** The response to a command: at most 999 idle bytes, then the status. *)
Definition responds (b : B) (code data chksm status : Z) (b' : B) : Prop :=
  status <> 0xFF /\ exists k b1, (k < Z.to_nat SD_RETRIES)%nat /\
    hears b (frame code data chksm) b1 /\ answers b1 (replicate k 0xFF ++ [status]) b'.

(** The card lets every retry of a command pass. *)
Definition ignores (b : B) (code data chksm : Z) (b' : B) : Prop :=
  exists b1, hears b (frame code data chksm) b1 /\ answers b1 (replicate (Z.to_nat SD_RETRIES) 0xFF) b'.

(** ACMD41 after CMD55, whose response comes after at most [fuel] idle bytes. *)
Definition responds_app (fuel : nat) (b : B) (status : Z) (b' : B) : Prop :=
  exists b1 b2 k r, hears b (frame 55 0 1) b1 /\ (k <= fuel)%nat /\ r <> 0xFF /\
    answers b1 (replicate k 0xFF ++ [r]) b2 /\ responds b2 41 (Z.shiftl 1 30) 1 status b'.

(** The card answers some rounds of ACMD41 with 1, then one with something else. *)
Inductive gets_ready (fuel : nat) : nat -> B -> B -> Prop :=
| ready_now b status b' :
    responds_app fuel b status b' -> status <> 1 -> gets_ready fuel 1 b b'
| ready_later n b b1 b' :
    responds_app fuel b 1 b1 -> gets_ready fuel n b1 b' -> gets_ready fuel (S n) b b'.

(** The response to CMD8: an old card does not know it, a new one echoes the pattern. *)
Definition tells_version (b b' : B) : Prop :=
  responds b CMD8 0x1AA 0x87 5 b' \/
  exists b1, responds b CMD8 0x1AA 0x87 1 b1 /\ answers b1 [0; 0; 1; 0xAA] b'.

(** The initialisation of a card with the card-specific data [csd], from the clocks at power-up on. *)
Inductive comes_up (fuel : nat) (b : B) (csd : list Z) (b' : B) : Prop :=
| came_up b0 status b1 b2 n b3 b4 k token :
    hears (gpio_set_cs b) (replicate 20 0xFF) b0 ->
    responds (gpio_clear_cs b0) CMD0 0 0x95 status b1 ->
    tells_version b1 b2 ->
    (n <= fuel)%nat -> gets_ready fuel n b2 b3 ->
    responds b3 CMD9 0 1 0 b4 ->
    (k <= fuel)%nat -> token <> 0xFF -> answers b4 (replicate k 0xFF ++ token :: csd) b' ->
    comes_up fuel b csd b'.
End commands.

(** ** Runs of the driver *)
Section runs.
Context {B : Type} `{Config, Board B}.
Implicit Types (b : B) (c : SDCard).

Lemma xfer_run tx b r b' c : spi_xfer tx b = (r, b') -> Sd.xfer tx (mk_sd c b) = Ok (r, mk_sd c b').
Proof. intros Hx. unfold Sd.xfer. cbn. by rewrite Hx. Qed.

Lemma send_run tx b r b' c : spi_xfer tx b = (r, b') -> Sd.send tx (mk_sd c b) = Ok (tt, mk_sd c b').
Proof. intros Hx. unfold Sd.send. by erewrite bind_ok by (by apply xfer_run). Qed.

Lemma transmit_run l b b' c : hears b l b' -> Sd.transmit l (mk_sd c b) = Ok (tt, mk_sd c b').
Proof.
  revert b. induction l as [|x l IH]; intros b; cbn [Sd.transmit].
  - by intros (? & [= _ ->]).
  - intros (r & b1 & Hx & Hl)%hears_cons. erewrite bind_ok by (by eapply send_run). by apply IH.
Qed.

Lemma receive_run l b b' c :
  answers b l b' -> bytes_ok l -> Sd.receive (length l) (mk_sd c b) = Ok (l, mk_sd c b').
Proof.
  revert b. induction l as [|x l IH]; intros b; cbn [Sd.receive length].
  - by intros [= ->].
  - intros (b1 & Hx & Hl)%answers_cons [? ?]%Forall_cons_1. erewrite bind_ok by (by apply xfer_run).
    erewrite bind_ok by (by apply IH). by rewrite u8_id.
Qed.

(** A wait ends with the first byte that does not satisfy the condition. *)
Lemma wait_while_run fuel cond wait x b b' c :
  (length wait <= fuel)%nat -> Forall (fun y => cond y = true) wait -> cond x = false ->
  answers b (wait ++ [x]) b' -> Sd.wait_while fuel cond (mk_sd c b) = Ok (x, mk_sd c b').
Proof.
  revert fuel b. induction wait as [|y wait IH]; intros fuel b Hf Hw Hx; cbn [app].
  - intros (b1 & Hb & [= ->])%answers_cons. destruct fuel; cbn [Sd.wait_while];
      erewrite bind_ok by (by apply xfer_run); by rewrite Hx.
  - intros (b1 & Hb & Hr)%answers_cons. apply Forall_cons_1 in Hw as [Hy Hw].
    destruct fuel as [|fuel]; cbn [length] in Hf; [lia|]. cbn [Sd.wait_while].
    erewrite bind_ok by (by apply xfer_run). rewrite Hy. apply IH; [lia | done..].
Qed.

Lemma wait_idle_run fuel k x b b' c :
  (k <= fuel)%nat -> x <> 0xFF -> answers b (replicate k 0xFF ++ [x]) b' ->
  Sd.wait_while fuel (fun y => y =? 0xFF) (mk_sd c b) = Ok (x, mk_sd c b').
Proof.
  intros Hk Hx Ha. eapply wait_while_run; [..|exact Ha].
  - by rewrite length_replicate.
  - by apply Forall_replicate.
  - by apply Z.eqb_neq.
Qed.

(** The retries of a command end with the first byte that is not [0xFF]. *)
Lemma retry_run n i k x b b' c :
  (k < n)%nat -> x <> 0xFF -> answers b (replicate k 0xFF ++ [x]) b' ->
  for_loop n i (fun _ => c ← Sd.xfer 0xFF; mret (if negb (c =? 0xFF) then Some c else None)) (mk_sd c b)
    = Ok ((i + Z.of_nat k, Some x), mk_sd c b').
Proof.
  revert n i b. induction k as [|k IH]; intros n i b Hn Hx; (destruct n as [|n]; [lia|]);
    cbn [replicate app for_loop]; intros (b1 & Hb & Hr)%answers_cons.
  - injection Hr as ->. erewrite bind_ok by (by erewrite bind_ok by (by eapply xfer_run)).
    apply Z.eqb_neq in Hx. rewrite Hx. cbn. by rewrite Z.add_0_r.
  - erewrite bind_ok by (by erewrite bind_ok by (by eapply xfer_run)). rewrite Z.eqb_refl. cbn [negb].
    replace (i + Z.of_nat (S k)) with (i + 1 + Z.of_nat k) by lia. apply IH; [lia | done..].
Qed.

Lemma set_card_run f b c : Sd.set_card f (mk_sd c b) = Ok (tt, mk_sd (f c) b).
Proof. done. Qed.

End runs.

(** The bytes of a command are heard one by one. *)
Ltac send_frame H :=
  unfold frame in H; cbn [app] in H;
  repeat (apply hears_cons in H as (? & ? & ? & H); erewrite bind_ok by (by eapply send_run)).

(** One step of a run: a byte, or a change of the card structure. *)
Ltac sd_step :=
  erewrite bind_ok by (first [eapply xfer_run; eassumption | eapply send_run; eassumption
    | apply set_card_run]); cbv beta zeta.

Section command_runs.
Context {B : Type} `{Config, Board B}.
Implicit Types (b : B) (c : SDCard).

Lemma plain_code code : 0 <= code < 0x80 -> negb (Z.land code 0x80 =? 0) = false.
Proof.
  intros. change 0x80 with (Z.shiftl 1 7). rewrite land_mask, negb_involutive by lia.
  rewrite Z.testbit_eqb, Z.div_small by (change (2 ^ 7) with 128; lia). done.
Qed.

Lemma sd_command_run fuel code data chksm status b b' c :
  0 <= code < 0x80 -> code <> CMD12 -> responds b code data chksm status b' ->
  Sd.sd_command fuel code data chksm (mk_sd c b) = Ok (status, mk_sd c b').
Proof.
  intros Hc H12 (Hs & k & b1 & Hk & Hh & Ha). unfold Sd.sd_command. rewrite plain_code by done.
  apply Z.eqb_neq in H12. rewrite H12. erewrite bind_ok by done. send_frame Hh.
  destruct Hh as (? & [= _ ->]). erewrite bind_ok by done.
  by erewrite bind_ok by (by eapply retry_run).
Qed.

Lemma acmd41_run fuel status b b' c :
  responds_app fuel b status b' ->
  Sd.sd_command fuel ACMD41 (Z.shiftl 1 30) 1 (mk_sd c b) = Ok (status, mk_sd c b').
Proof.
  intros (b1 & b2 & k & r & Hf & Hk & Hr & Hw & Hs & k' & b3 & Hk' & Hh & Ha). unfold Sd.sd_command.
  change (negb (Z.land ACMD41 0x80 =? 0)) with true. cbn match.
  erewrite bind_ok.
  2:{ send_frame Hf. destruct Hf as (? & [= _ ->]).
      erewrite bind_ok; [done|]. by apply (wait_idle_run fuel k r). }
  send_frame Hh. destruct Hh as (? & [= _ ->]). erewrite bind_ok by done.
  by erewrite bind_ok by (by eapply retry_run).
Qed.
End command_runs.
