(* ===== verification/SdCsd.v ===== *)
(** * The card-specific data

    The 128-bit register the driver of [src/src/block_drivers/block_sd.c] reads the
    size, the type and the write protection of a card from: its fields as the SD
    specification numbers them, and the bytes the driver takes them from. *)
From S2P Require Import Prelude Device BlockSd SdProtocol.

(** ** The card-specific data *)

(** The register has 128 bits and is sent from the highest byte on. *)
Fixpoint be_to_Z (l : list Z) : Z :=
  match l with
  | [] => 0
  | b :: l' => b * 256 ^ Z.of_nat (length l') + be_to_Z l'
  end.

(** Bits [hi] to [lo] of the register. *)
Definition csd_field (csd : list Z) (hi lo : Z) : Z := be_to_Z csd / 2 ^ lo mod 2 ^ (hi - lo + 1).

Definition CSD_STRUCTURE (csd : list Z) : Z := csd_field csd 127 126.
Definition READ_BL_LEN (csd : list Z) : Z := csd_field csd 83 80.
Definition C_SIZE_1 (csd : list Z) : Z := csd_field csd 73 62.
Definition C_SIZE_MULT (csd : list Z) : Z := csd_field csd 49 47.
Definition C_SIZE_2 (csd : list Z) : Z := csd_field csd 69 48.
Definition WRITE_PROTECT (csd : list Z) : Z := csd_field csd 13 12.

(** The capacity in sectors of 512 bytes, by the formulas of the SD specification. *)
Definition csd_capacity (csd : list Z) : Z :=
  if CSD_STRUCTURE csd =? 0 then
    (C_SIZE_1 csd + 1) * 2 ^ (C_SIZE_MULT csd + 2) * 2 ^ READ_BL_LEN csd / 512
  else (C_SIZE_2 csd + 1) * 1024.

(** The registers that the specification defines: structure 0, in which blocks have 512 to 2048 bytes, and
    structure 1. *)
Definition csd_defined (csd : list Z) : Prop :=
  length csd = 16%nat /\ bytes_ok csd /\
  (CSD_STRUCTURE csd = 0 /\ 9 <= READ_BL_LEN csd <= 11 \/ CSD_STRUCTURE csd = 1).

(** The size the driver computes: the capacity up to 2^30 sectors (512 GiB), and the capacity less a
    multiple of 2^30 sectors above, because the driver drops the two highest bits of the 22 of [C_SIZE]. *)
Definition driver_size (csd : list Z) : Z :=
  if csd_capacity csd <=? 2 ^ 30 then csd_capacity csd else (csd_capacity csd - 1) mod 2 ^ 30 + 1.

(** ** The register and the bytes of the driver *)
Section register.
Implicit Types (l : list Z).

Lemma be_to_Z_app l1 l2 : be_to_Z (l1 ++ l2) = be_to_Z l1 * 256 ^ Z.of_nat (length l2) + be_to_Z l2.
Proof.
  induction l1 as [|b l1 IH]; cbn [be_to_Z app]; [lia|].
  rewrite IH, length_app, Nat2Z.inj_add, Z.pow_add_r by lia. lia.
Qed.

Lemma be_to_Z_range l : bytes_ok l -> 0 <= be_to_Z l < 256 ^ Z.of_nat (length l).
Proof.
  induction 1 as [|b l Hb _ IH]; [cbn; lia|]. unfold is_byte in Hb. cbn [be_to_Z length].
  rewrite Nat2Z.inj_succ, Z.pow_succ_r by lia. nia.
Qed.

(** A field lies in a window of the register. *)
Lemma csd_field_window pre mid post hi r w :
  bytes_ok (mid ++ post) -> 0 <= r -> 0 <= w -> r + w <= 8 * Z.of_nat (length mid) ->
  hi = 8 * Z.of_nat (length post) + r + w - 1 ->
  csd_field (pre ++ mid ++ post) hi (8 * Z.of_nat (length post) + r) = be_to_Z mid / 2 ^ r mod 2 ^ w.
Proof.
  intros [Hm Hp]%bytes_ok_app Hr Hw Hfit ->. unfold csd_field.
  replace (_ + r + w - 1 - _ + 1) with w by lia.
  rewrite !be_to_Z_app, length_app, Nat2Z.inj_add.
  pose proof (be_to_Z_range _ Hp) as Hpr.
  set (m := Z.of_nat (length mid)) in *. set (p := Z.of_nat (length post)) in *.
  change 256 with (2 ^ 8) in *. rewrite <- !Z.pow_mul_r in * by lia.
  rewrite (Z.pow_add_r 2 (8 * p)), <- Z.div_div by (try apply Z.pow_nonzero; try apply Z.pow_pos_nonneg; lia).
  replace (8 * (m + p)) with (8 * m + 8 * p) by lia. rewrite (Z.pow_add_r 2 (8 * m)) by lia.
  rewrite Z.mul_assoc, Z.add_assoc, <- Z.mul_add_distr_r, Z.add_comm.
  rewrite Z.div_add, (Z.div_small (be_to_Z post)), Z.add_0_l by (try apply Z.pow_nonzero; lia).
  replace (8 * m) with ((8 * m - r - w) + w + r) by lia. rewrite !Z.pow_add_r by lia.
  rewrite Z.mul_assoc, Z.add_comm, Z.div_add by (apply Z.pow_nonzero; lia).
  by rewrite Z.mul_assoc, Z.mod_add by (apply Z.pow_nonzero; lia).
Qed.

(** The fields the driver uses, by the bytes they are in. *)
Lemma csd_fields b0 b1 b2 b3 b4 b5 b6 b7 b8 b9 b10 b11 b12 b13 b14 b15 :
  let csd := [b0; b1; b2; b3; b4; b5; b6; b7; b8; b9; b10; b11; b12; b13; b14; b15] in
  bytes_ok csd ->
  CSD_STRUCTURE csd = b0 / 64 /\ READ_BL_LEN csd = b5 mod 16 /\
  C_SIZE_1 csd = (b6 * 65536 + b7 * 256 + b8) / 64 mod 4096 /\
  C_SIZE_MULT csd = (b9 * 256 + b10) / 128 mod 8 /\
  C_SIZE_2 csd = (b7 * 65536 + b8 * 256 + b9) mod 4194304 /\
  WRITE_PROTECT csd = b14 / 16 mod 4.
Proof.
  intros csd Hcsd.
  assert (Hw : forall i m r w hi lo, (i + m <= 16)%nat -> 0 <= r -> 0 <= w -> r + w <= 8 * Z.of_nat m ->
    lo = 8 * Z.of_nat (16 - i - m) + r -> hi = lo + w - 1 ->
    csd_field csd hi lo = be_to_Z (take m (drop i csd)) / 2 ^ r mod 2 ^ w).
  { intros i m r w hi lo Him Hr Hwi Hfit -> ->.
    assert (Hl : length csd = 16%nat) by done.
    rewrite <- (take_drop i csd) at 1. rewrite <- (take_drop m (drop i csd)) at 1.
    assert (length (drop m (drop i csd)) = (16 - i - m)%nat) as <- by (rewrite !length_drop; lia).
    apply csd_field_window; [|lia..| |lia].
    - rewrite take_drop. by apply Forall_drop.
    - rewrite length_take, length_drop. lia. }
  unfold CSD_STRUCTURE, READ_BL_LEN, C_SIZE_1, C_SIZE_MULT, C_SIZE_2, WRITE_PROTECT.
  rewrite (Hw 0%nat 1%nat 6 2), (Hw 5%nat 1%nat 0 4), (Hw 6%nat 3%nat 6 12), (Hw 9%nat 2%nat 7 3),
    (Hw 7%nat 3%nat 0 22), (Hw 14%nat 1%nat 4 2) by (cbn; lia).
  assert (Hb : forall i b, csd !! i = Some b -> 0 <= b < 256) by (apply Forall_lookup, Hcsd).
  pose proof (Hb 0%nat b0 eq_refl). pose proof (Hb 8%nat b8 eq_refl). pose proof (Hb 14%nat b14 eq_refl).
  pose proof (Hb 5%nat b5 eq_refl). clear Hw Hb Hcsd. subst csd. cbn.
  change (256 ^ Z.of_nat 0) with 1. change (256 ^ Z.of_nat 1) with 256.
  change (256 ^ Z.of_nat 2) with 65536. change (2 ^ 0) with 1. change (2 ^ 2) with 4.
  change (2 ^ 6) with 64. change (2 ^ 7) with 128. change (2 ^ 4) with 16.
  repeat split; [Z.to_euclidean_division_equations; lia | rewrite ?Z.div_1_r; repeat (f_equal; try lia)..].
Qed.
End register.

(** The card structure after the register has been read. *)
Definition csd_card (csd : list Z) (c : SDCard) : SDCard :=
  mk_card (if CSD_STRUCTURE csd =? 0 then SD_CARD_SC else SD_CARD_HC)
    (if WRITE_PROTECT csd =? 0 then card_ro c else 1) (driver_size csd) (card_error c).

(** On a card addressed by bytes, the address of a sector fits 32 bits. *)
Lemma byte_capacity csd : csd_defined csd -> CSD_STRUCTURE csd = 0 -> csd_capacity csd <= 8388608.
Proof.
  intros (_ & _ & Hu) Hs. unfold csd_capacity. rewrite Hs. cbn [Z.eqb].
  destruct Hu as [[_ Hr]|Hs1]; [|lia].
  assert (Hp : forall e k, 0 <= e <= k -> 0 < 2 ^ e <= 2 ^ k)
    by (intros; split; [apply Z.pow_pos_nonneg | apply Z.pow_le_mono_r]; lia).
  pose proof (Z.mod_pos_bound (be_to_Z csd / 2 ^ 62) 4096 eq_refl : 0 <= C_SIZE_1 csd < 4096).
  pose proof (Z.mod_pos_bound (be_to_Z csd / 2 ^ 47) 8 eq_refl : 0 <= C_SIZE_MULT csd < 8).
  pose proof (Hp (C_SIZE_MULT csd + 2) 9 ltac:(lia)) as Hp1.
  pose proof (Hp (READ_BL_LEN csd) 11 ltac:(lia)) as Hp2.
  change (2 ^ 9) with 512 in Hp1. change (2 ^ 11) with 2048 in Hp2.
  assert (0 <= (C_SIZE_1 csd + 1) * 2 ^ (C_SIZE_MULT csd + 2) <= 4096 * 512) by nia.
  apply Z.div_le_upper_bound; nia.
Qed.

(** The sizes of the two structures. *)
Lemma driver_size_v1 csd : csd_defined csd -> CSD_STRUCTURE csd = 0 ->
  driver_size csd = (C_SIZE_1 csd + 1) * 2 ^ (C_SIZE_MULT csd + 2) * 2 ^ READ_BL_LEN csd / 512.
Proof.
  intros Hd Hs. pose proof (byte_capacity csd Hd Hs). unfold driver_size. destruct (Z.leb_spec (csd_capacity csd) (2 ^ 30)); [|lia].
  unfold csd_capacity. by rewrite Hs.
Qed.
Lemma driver_size_v2 csd : CSD_STRUCTURE csd = 1 -> driver_size csd = (C_SIZE_2 csd mod 2 ^ 20 + 1) * 1024.
Proof.
  intros Hs. pose proof (Z.mod_pos_bound (be_to_Z csd / 2 ^ 48) (2 ^ 22) eq_refl : 0 <= C_SIZE_2 csd < 2 ^ 22).
  unfold driver_size, csd_capacity. rewrite Hs. cbn [Z.eqb]. set (n := C_SIZE_2 csd) in *.
  pose proof (Z.div_mod n (2 ^ 20) ltac:(done)). pose proof (Z.mod_pos_bound n (2 ^ 20) eq_refl).
  destruct (Z.leb_spec ((n + 1) * 1024) (2 ^ 30)).
  - rewrite Z.mod_small by lia. done.
  - rewrite <- (Z.mod_unique ((n + 1) * 1024 - 1) (2 ^ 30) (n / 2 ^ 20) (n mod 2 ^ 20 * 1024 + 1023)) by lia. lia.
Qed.

Section csd_run.
Context {B : Type} `{Config, Board B}.
Implicit Types (b : B) (c : SDCard).

(** The bits the driver masks, as remainders and quotients of the byte. *)
Lemma byte_masks x : 0 <= x < 256 ->
  (Z.land x 0x40 =? 0) = (x / 64 mod 2 =? 0) /\ (Z.land x 0x30 =? 0) = (x / 16 mod 4 =? 0) /\
  Z.land x 0xF = x mod 16 /\ Z.land x 0x03 = x mod 4 /\ Z.shiftr (Z.land x 0xC0) 6 = x / 64.
Proof.
  intros Hx. assert (Hall : forallb (fun n => let x := Z.of_nat n in
    eqb (Z.land x 0x40 =? 0) (x / 64 mod 2 =? 0) && eqb (Z.land x 0x30 =? 0) (x / 16 mod 4 =? 0) &&
    (Z.land x 0xF =? x mod 16) && (Z.land x 0x03 =? x mod 4) && (Z.shiftr (Z.land x 0xC0) 6 =? x / 64))
    (seq 0 256) = true) by (by vm_compute).
  rewrite forallb_forall in Hall. specialize (Hall (Z.to_nat x)). rewrite in_seq, Z2Nat.id in Hall by lia.
  specialize (Hall ltac:(lia)). cbv zeta in Hall.
  rewrite !andb_true_iff, !eqb_true_iff, !Z.eqb_eq in Hall. destruct Hall as [[[[? ?] ?] ?] ?]. by repeat split.
Qed.

Lemma write_protect_run x b c : 0 <= x < 256 ->
  Sd.write_protect x (mk_sd c b) =
    Ok (tt, mk_sd (set_card_ro (if x / 16 mod 4 =? 0 then card_ro c else 1) c) b).
Proof.
  intros Hx. destruct (byte_masks x Hx) as (_ & Hm & _). unfold Sd.write_protect. rewrite Hm.
  destruct (x / 16 mod 4 =? 0); by destruct c.
Qed.

Ltac csd_step := first [sd_step | erewrite bind_ok by (by apply write_protect_run)].

Ltac csd_bytes Ha Hb :=
  repeat (apply answers_cons in Ha as (? & ? & Ha)); injection Ha as ->;
  unfold bytes_ok in Hb; repeat (apply Forall_cons_1 in Hb as [? Hb]); unfold is_byte in *.

(** The size of a standard capacity card, as it is accumulated. *)
Lemma csd_v1_size x y z : 0 <= x < 256 -> 0 <= y < 256 -> 0 <= z < 256 ->
  u32 (u32 (u32 (Z.shiftl (Z.land x 3) 10 + Z.shiftl y 2) + Z.shiftr (Z.land z 0xC0) 6) + 1) =
    (x * 65536 + y * 256 + z) / 64 mod 4096 + 1.
Proof.
  intros Hx Hy Hz. destruct (byte_masks x Hx) as (_ & _ & _ & -> & _).
  destruct (byte_masks z Hz) as (_ & _ & _ & _ & ->). rewrite !Z.shiftl_mul_pow2 by lia.
  change (2 ^ 10) with 1024. change (2 ^ 2) with 4.
  pose proof (Z.mod_pos_bound x 4 eq_refl). assert (0 <= z / 64 < 4) by (Z.to_euclidean_division_equations; lia).
  rewrite (u32_id (x mod 4 * 1024 + y * 4)), (u32_id (_ + z / 64)), u32_id by lia.
  replace ((x * 65536 + y * 256 + z) / 64) with (x * 1024 + y * 4 + z / 64)
    by (Z.to_euclidean_division_equations; lia).
  pose proof (Z.div_mod x 4). f_equal. apply Z.mod_unique with (x / 4); lia.
Qed.

Lemma csd_v1_mult y z : 0 <= y < 256 -> 0 <= z < 256 ->
  let m := (y * 256 + z) / 128 mod 8 in
  u16 (Z.shiftl 1 (Z.land (u16 (Z.shiftl y 1 + Z.shiftr z 7)) 7 + 2)) = 2 ^ (m + 2) /\ 0 <= m < 8.
Proof.
  intros Hy Hz. assert (0 <= z / 128 < 2) by (Z.to_euclidean_division_equations; lia).
  assert (Hd : (y * 256 + z) / 128 = y * 2 + z / 128) by (Z.to_euclidean_division_equations; lia).
  rewrite Hd. intros m. assert (Hm : 0 <= m < 8) by (apply Z.mod_pos_bound; lia). split; [|done].
  rewrite (Z.shiftl_mul_pow2 y), Z.shiftr_div_pow2 by lia. change (2 ^ 1) with 2. change (2 ^ 7) with 128.
  rewrite (u16_id (y * 2 + z / 128)) by lia.
  replace 7 with (Z.ones 3) by done. rewrite Z.land_ones by lia. change (2 ^ 3) with 8.
  fold m.
  rewrite Z.shiftl_mul_pow2, Z.mul_1_l by lia. apply u16_id.
  pose proof (Z.pow_le_mono_r 2 (m + 2) 9). pose proof (Z.pow_pos_nonneg 2 (m + 2)).
  change (2 ^ 9) with 512 in *. lia.
Qed.

Lemma csd_v1_shift n m r : 0 < n <= 4096 -> 0 <= m < 8 -> 9 <= r < 16 ->
  shl32 (u32 (n * 2 ^ (m + 2))) (r - 9) = Ok (n * 2 ^ (m + 2) * 2 ^ r / 512).
Proof.
  intros Hn Hm Hr. unfold shl32. replace (r - 9 <? 32) with true by (symmetry; apply Z.ltb_lt; lia).
  assert (Hp : forall e k, 0 <= e <= k -> 0 < 2 ^ e <= 2 ^ k)
    by (intros; split; [apply Z.pow_pos_nonneg | apply Z.pow_le_mono_r]; lia).
  pose proof (Hp (m + 2) 9 ltac:(lia)) as H1. pose proof (Hp (r - 9) 6 ltac:(lia)) as H2.
  change (2 ^ 9) with 512 in H1. change (2 ^ 6) with 64 in H2.
  rewrite (u32_id (n * _)) by nia. rewrite Z.shiftl_mul_pow2 by lia.
  assert (0 <= n * 2 ^ (m + 2) <= 4096 * 512) by nia. rewrite u32_id by nia.
  do 2 f_equal. replace (2 ^ r) with (2 ^ (r - 9) * 2 ^ 9) by (rewrite <- Z.pow_add_r by lia; f_equal; lia).
  change (2 ^ 9) with 512. by rewrite Z.mul_assoc, Z.div_mul.
Qed.

Lemma read_csd_v1_run z0 z1 z2 z3 z4 z5 z6 z7 z8 z9 z10 z11 z12 z13 z14 b b' c :
  let l := [z0; z1; z2; z3; z4; z5; z6; z7; z8; z9; z10; z11; z12; z13; z14] in
  bytes_ok l -> 9 <= z4 mod 16 -> answers b l b' ->
  Sd.read_csd_v1 (mk_sd c b) = Ok (tt, mk_sd (mk_card SD_CARD_SC
    (if z13 / 16 mod 4 =? 0 then card_ro c else 1)
    (((z5 * 65536 + z6 * 256 + z7) / 64 mod 4096 + 1) * 2 ^ ((z8 * 256 + z9) / 128 mod 8 + 2)
      * 2 ^ (z4 mod 16) / 512) (card_error c)) b').
Proof.
  intros l Hb Hr Ha. subst l. csd_bytes Ha Hb. unfold Sd.read_csd_v1. repeat csd_step.
  destruct c as [ty ro sz er]. rewrite bind_gets.
  cbn [sd_card card_size set_card_size set_card_type card_type card_ro card_error].
  rewrite csd_v1_size by done. destruct (csd_v1_mult z8 z9) as [-> Hm]; [done..|].
  assert (Hi : Z.land z4 15 = z4 mod 16) by by apply byte_masks. rewrite Hi.
  replace (z4 mod 16 <? 9) with false by (symmetry; apply Z.ltb_ge; lia).
  erewrite bind_lift by (apply csd_v1_shift; [| done |];
    [pose proof (Z.mod_pos_bound ((z5 * 65536 + z6 * 256 + z7) / 64) 4096)
    |pose proof (Z.mod_pos_bound z4 16)]; lia).
  repeat csd_step. by erewrite send_run.
Qed.

Lemma csd_v2_size x y z : 0 <= x < 256 -> 0 <= y < 256 -> 0 <= z < 256 ->
  u32 (Z.shiftl (u32 (u32 (u32 (u32 (Z.shiftl (Z.land x 0xF) 16) + Z.shiftl y 8) + z) + 1)) 10) =
    ((x * 65536 + y * 256 + z) mod 1048576 + 1) * 1024.
Proof.
  intros Hx Hy Hz. destruct (byte_masks x Hx) as (_ & _ & -> & _). rewrite !Z.shiftl_mul_pow2 by lia.
  change (2 ^ 16) with 65536. change (2 ^ 8) with 256. change (2 ^ 10) with 1024.
  pose proof (Z.mod_pos_bound x 16 eq_refl). pose proof (Z.div_mod x 16).
  rewrite (u32_id (x mod 16 * 65536)), (u32_id (_ + y * 256)), (u32_id (_ + z)), (u32_id (_ + 1)),
    u32_id by lia.
  do 2 f_equal. apply Z.mod_unique with (x / 16); lia.
Qed.

Lemma read_csd_v2_run z0 z1 z2 z3 z4 z5 z6 z7 z8 z9 z10 z11 z12 z13 z14 b b' c :
  let l := [z0; z1; z2; z3; z4; z5; z6; z7; z8; z9; z10; z11; z12; z13; z14] in
  bytes_ok l -> answers b l b' ->
  Sd.read_csd_v2 (mk_sd c b) = Ok (tt, mk_sd (mk_card SD_CARD_HC
    (if z13 / 16 mod 4 =? 0 then card_ro c else 1)
    (((z6 * 65536 + z7 * 256 + z8) mod 1048576 + 1) * 1024) (card_error c)) b').
Proof.
  intros l Hb Ha. subst l. csd_bytes Ha Hb. unfold Sd.read_csd_v2. repeat csd_step.
  erewrite send_run by done. destruct c as [ty ro sz er].
  cbn [sd_card card_size set_card_size set_card_type set_card_ro card_type card_ro card_error].
  by rewrite csd_v2_size.
Qed.

(** [read_csd] computes the capacity, the type and the write protection from the register. *)
Lemma read_csd_run csd b b' c :
  csd_defined csd -> answers b csd b' -> Sd.read_csd (mk_sd c b) = Ok (tt, mk_sd (csd_card csd c) b').
Proof.
  intros Hd Ha. pose proof Hd as (Hl & Hb & Hu). unfold csd_card.
  pose proof (driver_size_v1 csd Hd) as Hv1. pose proof (driver_size_v2 csd) as Hv2. clear Hd.
  do 16 (destruct csd as [|? csd]; [done|]). destruct csd as [|? csd]; [|done].
  destruct (csd_fields _ _ _ _ _ _ _ _ _ _ _ _ _ _ _ _ Hb) as (E1 & E2 & E3 & E4 & E5 & E6).
  rewrite E1, E2, E3, E4, E5, E6 in *. clear E1 E2 E3 E4 E5 E6.
  apply answers_cons in Ha as (? & ? & Ha). apply Forall_cons_1 in Hb as [Hz Hb].
  unfold Sd.read_csd. sd_step. rewrite (proj1 (byte_masks z Hz)).
  destruct Hu as [[Hs Hr]|Hs]; rewrite Hs; cbn [negb Z.eqb].
  - rewrite Hv1 by done. eapply read_csd_v1_run; [done | lia | done].
  - rewrite Hv2 by done. erewrite read_csd_v2_run by done. change (2 ^ 20) with 1048576.
    do 6 f_equal. Z.to_euclidean_division_equations. lia.
Qed.
Lemma read_geometry_run fuel csd k token b b1 b' c :
  csd_defined csd -> responds b CMD9 0 1 0 b1 ->
  (k <= fuel)%nat -> token <> 0xFF -> answers b1 (replicate k 0xFF ++ token :: csd) b' ->
  Sd.read_geometry fuel (mk_sd c b) = Ok (0, mk_sd (csd_card csd c) b').
Proof.
  intros Hu Hr Hk Ht Ha. unfold Sd.read_geometry.
  erewrite bind_ok by (by eapply sd_command_run). cbn [negb Z.eqb].
  rewrite cons_middle, app_assoc in Ha. apply answers_app in Ha as (b2 & Hw & Ha).
  erewrite bind_ok by (by apply (wait_idle_run fuel k token)). by erewrite bind_ok by (by apply read_csd_run).
Qed.

(** C30: after CMD9 the driver computes the geometry of every card with a register that the SD
    specification defines. For a capacity of up to 2^30 sectors (512 GiB), by the formula of the
    specification for the structure of the register, the size is the capacity; for a larger one it is the
    capacity less a multiple of 2^30, so never the capacity. The type is high capacity exactly for
    structure 1, and a write-protect bit makes the card read-only. *)
Theorem sd_geometry_correct fuel csd k token b b1 b' c :
  csd_defined csd -> responds b CMD9 0 1 0 b1 ->
  (k <= fuel)%nat -> token <> 0xFF -> answers b1 (replicate k 0xFF ++ token :: csd) b' ->
  exists c', Sd.read_geometry fuel (mk_sd c b) = Ok (0, mk_sd c' b') /\
    (csd_capacity csd <= 2 ^ 30 -> card_size c' = csd_capacity csd) /\
    (2 ^ 30 < csd_capacity csd -> 0 < card_size c' <= 2 ^ 30 /\ exists n, 0 < n /\ card_size c' = csd_capacity csd - n * 2 ^ 30) /\
    card_type c' = (if CSD_STRUCTURE csd =? 1 then SD_CARD_HC else SD_CARD_SC) /\
    card_ro c' = (if WRITE_PROTECT csd =? 0 then card_ro c else 1) /\ card_error c' = card_error c.
Proof.
  intros Hd Hr Hk Ht Ha. exists (csd_card csd c). split; [by eapply read_geometry_run|].
  unfold csd_card, driver_size. cbn [card_size card_type card_ro card_error].
  split; [intros Hle; by destruct (Z.leb_spec (csd_capacity csd) (2 ^ 30)); [|lia]|]. split.
  - intros Hgt. destruct (Z.leb_spec (csd_capacity csd) (2 ^ 30)); [lia|]. set (n := csd_capacity csd) in *.
    pose proof (Z.div_mod (n - 1) (2 ^ 30) ltac:(done)). pose proof (Z.mod_pos_bound (n - 1) (2 ^ 30) eq_refl).
    split; [lia|]. exists ((n - 1) / 2 ^ 30). split; [|lia]. assert (1 <= (n - 1) / 2 ^ 30); [|lia].
    apply Z.div_le_lower_bound; lia.
  - split; [|done]. destruct Hd as (_ & _ & [[-> _]| ->]); done.
Qed.
End csd_run.
