(* ===== verification/SdDisk.v ===== *)
(** * SD cards as arrays of sectors

    [SdCard] is the contract of a card. Against it the driver of
    [src/src/block_drivers/block_sd.c] brings the card up and then serves every
    sequence of requests as an array of sectors does ([serve]). *)
From S2P Require Import Prelude Device BlockSd SdProtocol SdCsd.

(** ** The contract of a card *)

(** What the driver relies on: a card that is off comes up; then it holds sectors, addressed by bytes
    on a standard capacity card. How long it keeps the driver waiting is bounded. *)
Class SdCard (B : Type) := {
  sc_off : B -> Prop;
  sc_ready : B -> Prop;
  sc_csd : B -> list Z;
  sc_sector : B -> Z -> list Z;
  sc_patience : nat
}.

Section contract.
Context {B : Type} `{SdCard B}.
Definition sc_capacity (b : B) : Z := csd_capacity (sc_csd b).
Definition sc_by_bytes (b : B) : bool := CSD_STRUCTURE (sc_csd b) =? 0.
Definition sc_address (b : B) (n : Z) : Z := if sc_by_bytes b then n * 512 else n.

(** The card after an exchange: ready, the same card, with the sectors of [f]. *)
Definition card_holds (b : B) (f : Z -> list Z) (b' : B) : Prop :=
  sc_ready b' /\ sc_csd b' = sc_csd b /\ forall n, 0 <= n < sc_capacity b -> sc_sector b' n = f n.
End contract.

Class SdCardLaws (B : Type) `{Config, Board B, SdCard B} : Prop := {
  sc_csd_defined (b : B) : sc_off b \/ sc_ready b -> csd_defined (sc_csd b);
  sc_sector_bytes (b : B) n : sc_ready b -> 0 <= n < sc_capacity b -> sector_ok (sc_sector b n);
  (** A card that is off is present, and comes up. *)
  sc_up (b : B) : sc_off b -> let b0 := fold_left (fun b call => board_setup call b) Sd.setup_calls b in
    (SD_CP = true -> gpio_get_cp b0 = 0) /\
    exists b', comes_up sc_patience b0 (sc_csd b) b' /\ card_holds b (sc_sector b) b';
  (** CMD17: status 0, a wait, the start token, the sector, a checksum. *)
  sc_read (b : B) n : sc_ready b -> 0 <= n < sc_capacity b ->
    exists b1 wait crc1 crc2 b', responds b CMD17 (sc_address b n) 1 0 b1 /\
      (length wait <= sc_patience)%nat /\ Forall (fun c => c <> 0xFE) wait /\
      answers b1 (wait ++ 0xFE :: sc_sector b n ++ [crc1; crc2]) b' /\ card_holds b (sc_sector b) b';
  (** CMD24: status 0; two bytes, the start token, the sector and a checksum are heard; then the
      data response and a busy time. *)
  sc_write (b : B) n buf : sc_ready b -> 0 <= n < sc_capacity b -> sector_ok buf ->
    exists b1 b2 response busy b', responds b CMD24 (sc_address b n) 1 0 b1 /\
      hears b1 (0xFF :: 0xFF :: 0xFE :: buf ++ [0xFF; 0xFF]) b2 /\
      (length busy <= sc_patience)%nat /\ Forall (fun c => c <> 0xFF) busy /\
      answers b2 (response :: busy ++ [0xFF]) b' /\
      card_holds b (fun m => if m =? n then buf else sc_sector b m) b'
}.

(** ** Requests *)
Inductive request : Type :=
| ReadBlock (n : Z)
| WriteBlock (n : Z) (buf : list Z).

(** What an array of sectors replies: a return code and a buffer. *)
Definition serve (r : request) (f : Z -> list Z) : (Z * list Z) * (Z -> list Z) :=
  match r with
  | ReadBlock n => ((0, f n), f)
  | WriteBlock n buf => ((0, buf), fun m => if m =? n then buf else f m)
  end.
Fixpoint serve_all (rs : list request) (f : Z -> list Z) : list (Z * list Z) * (Z -> list Z) :=
  match rs with
  | [] => ([], f)
  | r :: rs' => let '(a, f1) := serve r f in let '(l, f2) := serve_all rs' f1 in (a :: l, f2)
  end.

Definition request_ok (capacity : Z) (r : request) : Prop :=
  match r with
  | ReadBlock n => 0 <= n < capacity
  | WriteBlock n buf => 0 <= n < capacity /\ sector_ok buf
  end.

Section driver.
Context {B : Type} `{Config, Board B}.

(** What the driver replies. *)
Definition drive (fuel : nat) (r : request) : M (sd_state B) (Z * list Z) :=
  match r with
  | ReadBlock n => Sd.block_read fuel n (replicate 512 0)
  | WriteBlock n buf => c ← Sd.block_write fuel n buf; mret (c, buf)
  end.
Fixpoint drive_all (fuel : nat) (rs : list request) : M (sd_state B) (list (Z * list Z)) :=
  match rs with
  | [] => mret []
  | r :: rs' => a ← drive fuel r; l ← drive_all fuel rs'; mret (a :: l)
  end.

(** From power-up on: the code of [block_init], the volume size, the replies. *)
Definition session (fuel : nat) (rs : list request) : M (sd_state B) (Z * Z * list (Z * list Z)) :=
  code ← Sd.block_init fuel;
  size ← Sd.block_get_volume_size;
  l ← drive_all fuel rs;
  mret (code, size, l).
End driver.

(** ** The initialisation *)
Section patience.
Context {B : Type} `{Board B}.
Implicit Types (b : B).

Lemma gets_ready_mono fuel fuel' n b b' :
  (fuel <= fuel')%nat -> gets_ready fuel n b b' -> gets_ready fuel' n b b'.
Proof.
  intros Hf. assert (Hm : forall st b0 b1, responds_app fuel b0 st b1 -> responds_app fuel' b0 st b1)
    by (intros st b0 b1 (b2 & b3 & k & r & ? & ? & ?); exists b2, b3, k, r; intuition lia).
  induction 1; [eapply ready_now | eapply ready_later]; eauto.
Qed.

Lemma comes_up_mono fuel fuel' b csd b' :
  (fuel <= fuel')%nat -> comes_up fuel b csd b' -> comes_up fuel' b csd b'.
Proof.
  intros Hf [b0 status b1 b2 n b3 b4 k token ? ? ? ? Hr%(gets_ready_mono _ fuel') ? ? ? ?]; [|done].
  apply (came_up _ _ _ _ b0 status b1 b2 n b3 b4 k token); auto; lia.
Qed.
End patience.

Section bring_up.
Context {B : Type} `{Config, Board B}.
Implicit Types (b : B) (c : SDCard).

Lemma clocks_run n i b b' c :
  hears b (replicate n 0xFF) b' ->
  for_loop (B := unit) n i (fun _ => Sd.send 0xFF ;; mret None) (mk_sd c b)
    = Ok ((i + Z.of_nat n, None), mk_sd c b').
Proof.
  revert i b. induction n as [|n IH]; intros i b; cbn [replicate for_loop].
  - intros (? & [= _ ->]). by rewrite Z.add_0_r.
  - intros (r & b1 & Hx & Hh)%hears_cons.
    erewrite bind_ok by (by erewrite bind_ok by (by eapply send_run)). cbn match.
    replace (i + Z.of_nat (S n)) with (i + 1 + Z.of_nat n) by lia. by apply IH.
Qed.

Lemma acmd41_loop_run fuel n rounds b b' c :
  gets_ready fuel n b b' -> (n <= rounds)%nat ->
  exists status, Sd.acmd41_loop fuel rounds 1 (mk_sd c b) = Ok (status, mk_sd c b').
Proof.
  intros Hr. revert rounds. induction Hr as [b status b' Ha Hs|n b b1 b' Ha _ IH]; intros rounds Hn;
    (destruct rounds as [|rounds]; [lia|]); cbn [Sd.acmd41_loop Z.eqb Pos.eqb];
    erewrite bind_ok by (by apply acmd41_run).
  - exists status. apply Z.eqb_neq in Hs. destruct rounds; cbn [Sd.acmd41_loop]; by rewrite Hs.
  - apply IH. lia.
Qed.

Lemma check_version_run fuel b b' c :
  tells_version b b' -> exists ty, Sd.check_version fuel (mk_sd c b) = Ok (true, mk_sd (set_card_type ty c) b').
Proof.
  intros [Hr|(b1 & Hr & Ha)]; unfold Sd.check_version; erewrite bind_ok by (by eapply sd_command_run);
    cbn [Z.eqb Pos.eqb].
  - by exists SD_CARD_SC.
  - exists SD_CARD_HC. repeat (apply answers_cons in Ha as (? & ? & Ha)). injection Ha as ->.
    rewrite (bind_ok _ _ _ true (mk_sd c b')); [done|]. cbn [Sd.check_bytes]. by repeat (sd_step; cbn [negb Z.eqb Pos.eqb]).
Qed.

Lemma sd_card_reset_run fuel csd b b' c :
  csd_defined csd -> (SD_CP = true -> gpio_get_cp b = 0) -> comes_up fuel b csd b' ->
  Sd.sd_card_reset fuel (mk_sd c b) = Ok (0, mk_sd (csd_card csd c) b').
Proof.
  intros Hu Hcp [b0 status b1 b2 n b3 b4 k token Hclk Hgo H8 Hn H41 H9 Hk Ht Ha].
  unfold Sd.sd_card_reset. rewrite bind_gets. cbn [sd_board].
  replace (SD_CP && negb (gpio_get_cp b =? 0)) with false by (destruct SD_CP; [by rewrite Hcp | done]).
  rewrite bind_modify. cbn [upd_board sd_card sd_board].
  erewrite bind_ok by (by apply clocks_run). rewrite bind_modify. cbn [upd_board sd_card sd_board].
  erewrite bind_ok by (by eapply sd_command_run).
  destruct Hgo as (Hs%Z.eqb_neq & _). rewrite Hs.
  destruct (check_version_run fuel _ _ c H8) as (ty & Hv). erewrite bind_ok by done. cbn [negb].
  destruct (acmd41_loop_run fuel n fuel _ _ (set_card_type ty c) H41 Hn) as (? & Hl).
  erewrite bind_ok by done. by erewrite read_geometry_run.
Qed.
End bring_up.

(** ** Transfers *)
Lemma Forall_neqb x l : Forall (fun y => y <> x) l -> Forall (fun y => negb (y =? x) = true) l.
Proof. apply Forall_impl. intros y Hy%Z.eqb_neq. by apply negb_true_iff. Qed.

Section transfers.
Context {B : Type} `{Config, Board B}.
Implicit Types (b : B) (c : SDCard).

(** The address the driver computes for a block. *)
Definition block_addr (c : SDCard) (n : Z) : Z :=
  if card_type c =? SD_CARD_SC then u32 (Z.shiftl n 9) else n.

Lemma block_address_run n b c : Sd.block_address n (mk_sd c b) = Ok (block_addr c n, mk_sd c b).
Proof. done. Qed.

Lemma block_read_run fuel n buf wait l crc1 crc2 b b1 b' c :
  responds b CMD17 (block_addr c n) 1 0 b1 -> (length wait <= fuel)%nat ->
  Forall (fun y => y <> 0xFE) wait -> answers b1 (wait ++ 0xFE :: l ++ [crc1; crc2]) b' ->
  sector_ok l -> length buf = 512%nat ->
  Sd.block_read fuel n buf (mk_sd c b) = Ok ((0, l), mk_sd c b').
Proof.
  intros Hr Hf Hw Ha [Hl Hb] Hbuf. unfold BLOCK_SIZE in Hl. unfold Sd.block_read.
  erewrite bind_ok by (by apply block_address_run). erewrite bind_ok by (by eapply sd_command_run).
  cbn [negb Z.eqb]. rewrite cons_middle, app_assoc in Ha. apply answers_app in Ha as (b2 & Hwait & Ha).
  erewrite bind_ok by (eapply (wait_while_run _ _ wait 0xFE);
    [done | by apply Forall_neqb | done..]).
  apply answers_app in Ha as (b3 & Hrec & Hcrc). replace 512%nat with (length l) by lia.
  erewrite bind_ok by (by apply receive_run). erewrite bind_lift by (apply mem_write_ok; lia).
  repeat (apply answers_cons in Hcrc as (? & ? & Hcrc)). injection Hcrc as ->.
  repeat sd_step. rewrite splice_all by lia. done.
Qed.

(** The response of the card to the data changes nothing. *)
Lemma block_write_run fuel n buf response busy b b1 b2 b' c :
  responds b CMD24 (block_addr c n) 1 0 b1 -> sector_ok buf ->
  hears b1 (0xFF :: 0xFF :: 0xFE :: buf ++ [0xFF; 0xFF]) b2 -> (length busy <= fuel)%nat ->
  Forall (fun y => y <> 0xFF) busy -> answers b2 (response :: busy ++ [0xFF]) b' ->
  Sd.block_write fuel n buf (mk_sd c b) = Ok (0, mk_sd c b').
Proof.
  intros Hr [Hl Hb] Hh Hf Hw Ha. unfold BLOCK_SIZE in Hl. unfold Sd.block_write.
  erewrite bind_ok by (by apply block_address_run). erewrite bind_ok by (by eapply sd_command_run).
  cbn [negb Z.eqb]. do 3 (apply hears_cons in Hh as (? & ? & ? & Hh)). repeat sd_step.
  erewrite bind_lift by (apply mem_read_ok; lia).
  replace (slice 0 512 buf) with buf by (unfold slice; by rewrite drop_0, take_ge by lia).
  apply hears_app in Hh as (b3 & Hbuf & Hh). erewrite bind_ok by (by apply transmit_run).
  repeat (apply hears_cons in Hh as (? & ? & ? & Hh)). destruct Hh as (? & [= _ ->]).
  apply answers_cons in Ha as (b4 & ? & Ha). repeat sd_step.
  by erewrite bind_ok by (eapply (wait_while_run _ _ busy 0xFF);
    [done | by apply Forall_neqb | done..]).
Qed.
End transfers.

(** ** The refinement *)
Section refinement.
Context {B : Type} `{SdCardLaws B}.
Implicit Types (b : B) (c : SDCard) (f : Z -> list Z).

(** The driver and the card agree: the card holds [f], and the driver addresses it its way. *)
Definition serves (b0 : B) f (s : sd_state B) : Prop :=
  card_holds b0 f (sd_board s) /\ (card_type (sd_card s) =? SD_CARD_SC) = sc_by_bytes b0 /\
  csd_defined (sc_csd b0).

Lemma serves_addr b0 f s n :
  serves b0 f s -> 0 <= n < sc_capacity b0 -> block_addr (sd_card s) n = sc_address (sd_board s) n.
Proof.
  intros ((_ & Hcsd & _) & Ht & Hu) Hn. unfold block_addr, sc_address, sc_by_bytes in *.
  rewrite Ht, Hcsd. destruct (Z.eqb_spec (CSD_STRUCTURE (sc_csd b0)) 0) as [Hs|]; [|done].
  pose proof (byte_capacity _ Hu Hs). unfold sc_capacity in Hn.
  rewrite Z.shiftl_mul_pow2 by lia. apply u32_id. change (2 ^ 9) with 512. lia.
Qed.

(** One request. *)
Lemma drive_run fuel r b0 f s :
  (sc_patience <= fuel)%nat -> serves b0 f s -> request_ok (sc_capacity b0) r ->
  exists s', drive fuel r s = Ok (fst (serve r f), s') /\ serves b0 (snd (serve r f)) s' /\
    sd_card s' = sd_card s.
Proof.
  intros Hfuel Hs Hr. pose proof Hs as ((Hrdy & Hcsd & Hf) & Ht & Hu). destruct s as [c b]. cbn [sd_board sd_card] in *.
  assert (Hcap : sc_capacity b = sc_capacity b0) by (unfold sc_capacity; by rewrite Hcsd).
  destruct r as [n|n buf]; cbn [request_ok drive serve fst snd] in *.
  - destruct (sc_read b n Hrdy ltac:(lia)) as (b1 & wait & crc1 & crc2 & b' & H17 & Hl & Hw & Ha & Hr' & Hcsd' & Hf').
    pose proof (sc_sector_bytes b n Hrdy ltac:(lia)) as Hsec.
    exists (mk_sd c b'). rewrite <- (Hf n Hr). split; [|split; [|done]].
    + apply (block_read_run fuel n _ wait _ crc1 crc2 b b1); [|lia|done..].
      by rewrite (serves_addr b0 f (mk_sd c b)).
    + split; [|done]. split; [done|]. split; [cbn; congruence|]. cbn. intros m Hm. rewrite Hf' by lia. by apply Hf.
  - destruct Hr as [Hn Hbuf].
    destruct (sc_write b n buf Hrdy ltac:(lia) Hbuf) as (b1 & b2 & resp & busy & b' & H24 & Hh & Hl & Hw & Ha & Hr' & Hcsd' & Hf').
    exists (mk_sd c b'). split; [|split; [|done]].
    + erewrite bind_ok by (apply (block_write_run fuel n buf resp busy b b1 b2);
        [by rewrite (serves_addr b0 f (mk_sd c b)) | done.. | lia | done | done]). done.
    + split; [|done]. split; [done|]. split; [cbn; congruence|]. cbn. intros m Hm. rewrite Hf' by lia.
      case_match; [done|]. by apply Hf.
Qed.

Lemma drive_all_run fuel rs b0 f s :
  (sc_patience <= fuel)%nat -> serves b0 f s -> Forall (request_ok (sc_capacity b0)) rs ->
  exists s', drive_all fuel rs s = Ok (fst (serve_all rs f), s') /\ serves b0 (snd (serve_all rs f)) s'.
Proof.
  intros Hfuel Hs Hrs. revert f s Hs. induction Hrs as [|r rs Hr _ IH]; intros f s Hs; cbn [drive_all serve_all].
  - by exists s.
  - destruct (drive_run fuel r b0 f s) as (s1 & Hrun & Hs1 & _); [done..|].
    destruct (serve r f) as [a f1]. cbn [fst snd] in *. destruct (IH f1 s1 Hs1) as (s2 & Hrun2 & Hs2).
    destruct (serve_all rs f1) as [l f2]. exists s2. split; [|done].
    erewrite bind_ok by done. by erewrite bind_ok by done.
Qed.

Lemma block_init_run fuel c b :
  (sc_patience <= fuel)%nat -> sc_off b ->
  exists b', Sd.block_init fuel (mk_sd c b) = Ok (0, mk_sd (csd_card (sc_csd b) c) b') /\
    serves b (sc_sector b) (mk_sd (csd_card (sc_csd b) c) b').
Proof.
  intros Hfuel Hoff. destruct (sc_up b Hoff) as (Hcp & b' & Hup & Hh).
  pose proof (sc_csd_defined b (or_introl Hoff)) as Hu. exists b'. split.
  - unfold Sd.block_init. rewrite bind_modify. apply sd_card_reset_run; [done..|].
    by eapply comes_up_mono.
  - split; [done|]. split; [|done]. unfold sc_by_bytes. cbn. by destruct (_ =? 0).
Qed.

(** C5: the driver over a card is an array of sectors: from power-up, [block_init] succeeds, every sequence
    of requests within the capacity of the card gets the replies of the array that holds the card's
    sectors, and leaves the card with the sectors of that array. The volume size is the capacity on cards
    of up to 2^30 sectors (512 GiB), and at most 2^30 on larger ones. *)
Theorem sd_driver_refines_disk fuel rs c b :
  (sc_patience <= fuel)%nat -> sc_off b -> Forall (request_ok (sc_capacity b)) rs ->
  exists s' size, session fuel rs (mk_sd c b) = Ok (0, size, fst (serve_all rs (sc_sector b)), s') /\
    (sc_capacity b <= 2 ^ 30 -> size = sc_capacity b) /\ (2 ^ 30 < sc_capacity b -> size <= 2 ^ 30) /\
    forall n, 0 <= n < sc_capacity b -> sc_sector (sd_board s') n = snd (serve_all rs (sc_sector b)) n.
Proof.
  intros Hfuel Hoff Hrs. destruct (block_init_run fuel c b Hfuel Hoff) as (b' & Hinit & Hs).
  destruct (drive_all_run fuel rs b _ _ Hfuel Hs Hrs) as (s' & Hrun & ((_ & _ & Hf) & _)).
  exists s', (driver_size (sc_csd b)). split; [|unfold driver_size, sc_capacity; split; [|split; [|exact Hf]]].
  - unfold session. erewrite bind_ok by done.
    unfold Sd.block_get_volume_size. rewrite bind_gets. by erewrite bind_ok by done.
  - intros Hle. by destruct (Z.leb_spec (csd_capacity (sc_csd b)) (2 ^ 30)); [|lia].
  - intros Hgt. destruct (Z.leb_spec (csd_capacity (sc_csd b)) (2 ^ 30)); [lia|].
    pose proof (Z.mod_pos_bound (csd_capacity (sc_csd b) - 1) (2 ^ 30) eq_refl). lia.
Qed.
End refinement.
