(* ===== verification/SdFaults.v ===== *)
(** * SD hardware that breaks the contract

    What the driver of [src/src/block_drivers/block_sd.c] does when the card is
    missing, refuses a command, rejects data, or never answers. *)
From S2P Require Import Prelude Hoare Device BlockSd SdProtocol SdCsd SdDisk.

(** ** The outcome of the initialisation *)
Section outcomes.
Context {B : Type} `{Config, Board B}.
Implicit Types (P : SDCard -> Prop) (c : SDCard).

(** A property of the card structure; the transfers do not touch it. *)
Definition on_card (P : SDCard -> Prop) (s : sd_state B) : Prop := P (sd_card s).

Lemma xfer_keeps P tx : keeps (on_card P) (Sd.xfer tx).
Proof. intros s r s' Hs. unfold Sd.xfer. destruct (spi_xfer tx (sd_board s)) as [rx b]. by intros [= _ <-]. Qed.
Lemma send_keeps P tx : keeps (on_card P) (Sd.send tx).
Proof. apply keeps_bind; [apply xfer_keeps | intros; apply keeps_ret]. Qed.
Lemma upd_board_keeps P f : keeps (on_card P) (modify (upd_board f)).
Proof. by apply keeps_modify. Qed.
Hint Resolve xfer_keeps send_keeps upd_board_keeps : hoare.

Lemma wait_while_keeps P fuel cond : keeps (on_card P) (Sd.wait_while fuel cond).
Proof. induction fuel; cbn [Sd.wait_while]; repeat keeps_step. Qed.
Hint Resolve wait_while_keeps : hoare.
Lemma sd_command_keeps P fuel code data chksm : keeps (on_card P) (Sd.sd_command fuel code data chksm).
Proof. unfold Sd.sd_command. repeat keeps_step. Qed.
Hint Resolve sd_command_keeps : hoare.
Lemma acmd41_loop_keeps P fuel rounds r : keeps (on_card P) (Sd.acmd41_loop fuel rounds r).
Proof. revert r. induction rounds; intros r; cbn [Sd.acmd41_loop]; repeat keeps_step. Qed.
Lemma check_bytes_keeps P l : keeps (on_card P) (Sd.check_bytes l).
Proof. induction l; cbn [Sd.check_bytes]; repeat keeps_step. Qed.
Hint Resolve acmd41_loop_keeps check_bytes_keeps : hoare.

Lemma set_card_keeps P f : (forall c, P c -> P (f c)) -> keeps (on_card P) (Sd.set_card f).
Proof. intros Hf. by apply keeps_modify; intros s ?; apply Hf. Qed.

(** A known type; no later step of the reset changes it. *)
Definition typed (c : SDCard) : Prop := card_type c = SD_CARD_SC \/ card_type c = SD_CARD_HC.
Definition failed (c : SDCard) : Prop := card_type c = SD_CARD_ERROR \/ card_error c = SD_ERR_NOT_PRESENT.

Lemma set_size_typed g : keeps (on_card typed) (Sd.set_card (fun c => set_card_size (g c) c)).
Proof. by apply set_card_keeps. Qed.
Lemma set_ro_typed v : keeps (on_card typed) (Sd.set_card (set_card_ro v)).
Proof. by apply set_card_keeps. Qed.
Hint Resolve set_size_typed set_ro_typed : hoare.

(** Setting the type establishes its property whatever held before. *)
Lemma set_type_hoare P Q v : (forall c, P c -> Q (set_card_type v c)) ->
  hoare (on_card P) (Sd.set_card (set_card_type v)) (fun _ => on_card Q).
Proof. intros HQ. by apply hoare_modify; intros s Hs; apply HQ. Qed.

Lemma read_csd_typed : keeps (on_card typed) Sd.read_csd.
Proof.
  unfold Sd.read_csd, Sd.read_csd_v1, Sd.read_csd_v2, Sd.write_protect.
  apply keeps_bind; [apply xfer_keeps|]. intros c. apply keeps_if.
  - eapply hoare_then; [by apply set_type_hoare with (Q := typed); right|]. intros ?. repeat keeps_step.
  - eapply hoare_then; [by apply set_type_hoare with (Q := typed); left|]. intros ?. repeat keeps_step.
Qed.

(** What a run of the reset can end in. *)
Definition outcome (r : Z) (s : sd_state B) : Prop :=
  r = 0 /\ typed (sd_card s) \/ r = -1 /\ failed (sd_card s).

Lemma fail_type_hoare {A} P (a : A) (Q : A -> sd_state B -> Prop) :
  (forall s, failed (sd_card s) -> Q a s) ->
  hoare (on_card P) (Sd.set_card (set_card_type SD_CARD_ERROR) ;; mret a) Q.
Proof. intros HQ s r s' _ [= <- <-]. apply HQ. by left. Qed.

Lemma read_geometry_outcome fuel : hoare (on_card typed) (Sd.read_geometry fuel) outcome.
Proof.
  eapply hoare_bind; [apply sd_command_keeps|]. intros c. cbv beta. destruct (negb (c =? 0)).
  - apply fail_type_hoare. by right.
  - eapply hoare_bind; [apply wait_while_keeps|]. intros ?.
    eapply hoare_bind; [apply read_csd_typed|]. intros ?. apply hoare_ret. by left.
Qed.

Lemma check_version_outcome P fuel :
  hoare (on_card P) (Sd.check_version fuel)
    (fun ok s => if ok then typed (sd_card s) else failed (sd_card s)).
Proof.
  eapply hoare_bind; [apply sd_command_keeps|]. intros c. cbv beta.
  assert (Hset : forall v, typed (set_card_type v card_initial) -> hoare (on_card P)
    (Sd.set_card (set_card_type v) ;; mret true) (fun ok s => if ok then typed (sd_card s) else failed (sd_card s))).
  { intros v Hv s r s' _ [= <- <-]. exact Hv. }
  destruct (c =? 5); [apply Hset; by left|].
  destruct (c =? 1); [|by apply fail_type_hoare].
  eapply hoare_bind; [apply check_bytes_keeps|]. intros [|]; [apply Hset; by right | by apply fail_type_hoare].
Qed.

Lemma sd_card_reset_outcome P fuel : hoare (on_card P) (Sd.sd_card_reset fuel) outcome.
Proof.
  eapply hoare_bind; [apply keeps_gets|]. intros b. cbv beta. destruct (_ && _).
  { intros s r s' _ [= <- <-]. right. split; [done|]. by right. }
  eapply hoare_bind; [apply upd_board_keeps|]. intros ?.
  eapply hoare_bind; [apply keeps_for; intros; repeat keeps_step|]. intros ?.
  eapply hoare_bind; [apply upd_board_keeps|]. intros ?.
  eapply hoare_bind; [apply sd_command_keeps|]. intros c. cbv beta. destruct (c =? 0xFF).
  { intros s r s' _ [= <- <-]. right. split; [done|]. by left. }
  eapply hoare_bind; [apply check_version_outcome|]. intros [|]; cbn [negb].
  - eapply hoare_bind; [apply (acmd41_loop_keeps typed)|]. intros ?. apply read_geometry_outcome.
  - apply hoare_ret. by right.
Qed.

(** C31: whatever the hardware does, an initialisation that returns has returned 0 with the card of a
    type the driver can address, or -1 with the type set to error or the error to not present. *)
Theorem sd_init_outcomes fuel s r s' :
  Sd.block_init fuel s = Ok (r, s') -> outcome r s'.
Proof.
  intros Hrun. unfold Sd.block_init in Hrun. run_inv Hrun.
  by apply (sd_card_reset_outcome (fun _ => True)) in Hrun.
Qed.
End outcomes.

(** ** Waiting *)
Section waiting.
Context {B : Type} `{Config, Board B}.
Implicit Types (b : B) (c : SDCard).

(** A wait that returns has seen a byte that ends it. *)
Lemma wait_while_inv fuel cond b c x s' :
  Sd.wait_while fuel cond (mk_sd c b) = Ok (x, s') ->
  exists rxs b', answers b (rxs ++ [x]) b' /\ cond x = false.
Proof.
  revert b. induction fuel as [|fuel IH]; intros b; cbn [Sd.wait_while];
    destruct (spi_xfer 0xFF b) as [r b1] eqn:Hx; erewrite bind_ok by (by apply xfer_run);
    destruct (cond r) eqn:Hr; try done.
  1,3: intros [= -> _]; exists [], b1; split; [|done]; apply answers_cons; by exists b1.
  intros (rxs & b' & Ha & Hc)%IH. exists (r :: rxs), b'. split; [|done]. apply answers_cons. by exists b1.
Qed.

(** A byte that ends the wait, however late, makes some wait return. *)
Lemma wait_while_live cond x rxs b b' c :
  cond x = false -> answers b (rxs ++ [x]) b' ->
  exists fuel y b1, Sd.wait_while fuel cond (mk_sd c b) = Ok (y, mk_sd c b1).
Proof.
  intros Hx. revert b. induction rxs as [|r rxs IH]; intros b; cbn [app]; intros (b1 & Hb & Ha)%answers_cons.
  - exists 0%nat, x, b1. cbn [Sd.wait_while]. erewrite bind_ok by (by apply xfer_run). by rewrite Hx.
  - destruct (IH b1 Ha) as (fuel & y & b2 & Hrun). destruct (cond r) eqn:Hr.
    + exists (S fuel), y, b2. cbn [Sd.wait_while]. erewrite bind_ok by (by apply xfer_run). by rewrite Hr.
    + exists 0%nat, r, b1. cbn [Sd.wait_while]. erewrite bind_ok by (by apply xfer_run). by rewrite Hr.
Qed.

Lemma receive_total n b c :
  exists l b', Sd.receive n (mk_sd c b) = Ok (l, mk_sd c b') /\ length l = n.
Proof.
  revert b. induction n as [|n IH]; intros b; cbn [Sd.receive]; [by exists [], b|].
  destruct (spi_xfer 0xFF b) as [r b1] eqn:Hx. destruct (IH b1) as (l & b' & Hrun & Hl).
  exists (u8 r :: l), b'. erewrite bind_ok by (by apply xfer_run). erewrite bind_ok by done. cbn. auto.
Qed.

Lemma send_total tx b c : exists b', Sd.send tx (mk_sd c b) = Ok (tt, mk_sd c b').
Proof. destruct (spi_xfer tx b) as [r b'] eqn:Hx. exists b'. by eapply send_run. Qed.

(** After some other bytes the card sends the start token of a data block. *)
Definition token_arrives (b : B) : Prop := exists rxs b', answers b (rxs ++ [0xFE]) b'.

(** C32: once the card has accepted CMD17, [block_read] returns if and only if the start token arrives:
    however late it comes, some number of rounds is enough, and on a card that never sends it (after a
    read error it sends an error token instead) the driver waits for ever. *)
Theorem sd_read_returns_iff_token n buf b b1 c :
  responds b CMD17 (block_addr c n) 1 0 b1 -> length buf = 512%nat ->
  (exists fuel, is_ok (Sd.block_read fuel n buf (mk_sd c b)) = true) <->
  token_arrives b1.
Proof.
  intros Hr Hbuf. unfold token_arrives.
  assert (Hrun : forall fuel, Sd.block_read fuel n buf (mk_sd c b) =
    (Sd.wait_while fuel (fun y => negb (y =? 0xFE)) ;; l ← Sd.receive 512; buf ← lift (mem_write buf 0 l);
     Sd.send 0xFF ;; Sd.send 0xFF ;; mret (0, buf)) (mk_sd c b1)).
  { intros fuel. unfold Sd.block_read. erewrite bind_ok by (by apply block_address_run).
    by erewrite bind_ok by (by eapply sd_command_run). }
  setoid_rewrite Hrun. split.
  - intros (fuel & Hok). destruct (Sd.wait_while fuel (fun y => negb (y =? 0xFE)) (mk_sd c b1)) as [[x s']|] eqn:Hw.
    2:{ by rewrite (bind_fault _ _ _ _ Hw) in Hok. }
    apply wait_while_inv in Hw as (rxs & b' & Ha & ->%negb_false_iff%Z.eqb_eq). eauto.
  - intros (rxs & b' & Ha). apply (wait_while_live (fun y => negb (y =? 0xFE)) _ _ _ _ c) in Ha as (fuel & y & b2 & Hw); [|done].
    exists fuel. erewrite bind_ok by done. destruct (receive_total 512 b2 c) as (l & b3 & Hl & Hlen).
    erewrite bind_ok by done. erewrite bind_lift by (apply mem_write_ok; lia).
    destruct (send_total 0xFF b3 c) as (b4 & H4). destruct (send_total 0xFF b4 c) as (b5 & H5).
    erewrite bind_ok by done. by erewrite bind_ok by done.
Qed.

(** The retries run out. *)
Lemma retry_out n i b b' c :
  answers b (replicate n 0xFF) b' ->
  for_loop n i (fun _ => y ← Sd.xfer 0xFF; mret (if negb (y =? 0xFF) then Some y else None)) (mk_sd c b)
    = Ok ((i + Z.of_nat n, None), mk_sd c b').
Proof.
  revert i b. induction n as [|n IH]; intros i b; cbn [replicate for_loop].
  - intros [= ->]. by rewrite Z.add_0_r.
  - intros (b1 & Hb & Hr)%answers_cons.
    erewrite bind_ok by (by erewrite bind_ok by (by eapply xfer_run)). rewrite Z.eqb_refl. cbn [negb].
    replace (i + Z.of_nat (S n)) with (i + 1 + Z.of_nat n) by lia. by apply IH.
Qed.

Lemma sd_command_timeout fuel code data b b' c :
  0 <= code < 0x80 -> code <> CMD12 -> ignores b code data 1 b' ->
  Sd.sd_command fuel code data 1 (mk_sd c b) = Ok (0xFF, mk_sd c b').
Proof.
  intros Hc H12 (b1 & Hh & Ha). unfold Sd.sd_command. rewrite plain_code by done.
  apply Z.eqb_neq in H12. rewrite H12. erewrite bind_ok by done. send_frame Hh.
  destruct Hh as (? & [= _ ->]). erewrite bind_ok by done.
  by erewrite bind_ok by (by eapply retry_out).
Qed.

(** How the exchange of a write goes: refused, ignored, or carried out with a data response. *)
Inductive write_exchange (c : SDCard) (n : Z) (buf : list Z) (b : B) : Z -> B -> Prop :=
| write_refused status b' :
    responds b CMD24 (block_addr c n) 1 status b' -> status <> 0 -> write_exchange c n buf b status b'
| write_ignored b' :
    ignores b CMD24 (block_addr c n) 1 b' -> write_exchange c n buf b 0xFF b'
| write_responded b1 b2 response busy b' :
    responds b CMD24 (block_addr c n) 1 0 b1 ->
    hears b1 (0xFF :: 0xFF :: 0xFE :: buf ++ [0xFF; 0xFF]) b2 ->
    Forall (fun y => y <> 0xFF) busy -> answers b2 (response :: busy ++ [0xFF]) b' ->
    write_exchange c n buf b 0 b'.

(** C33: [block_write] returns the status of a refused command, [0xFF] when the card answers none of the
    retries, and 0 after every data response of the card, also one that rejects the data. *)
Theorem sd_write_result n buf b code b' c :
  sector_ok buf -> write_exchange c n buf b code b' ->
  exists fuel, Sd.block_write fuel n buf (mk_sd c b) = Ok (code, mk_sd c b').
Proof.
  intros Hbuf [status b'' Hr Hs|b'' Hi|b1 b2 response busy b'' Hr Hh Hw Ha].
  - exists 0%nat. unfold Sd.block_write. erewrite bind_ok by (by apply block_address_run).
    erewrite bind_ok by (by eapply sd_command_run). apply Z.eqb_neq in Hs. by rewrite Hs.
  - exists 0%nat. unfold Sd.block_write. erewrite bind_ok by (by apply block_address_run).
    by erewrite bind_ok by (by eapply sd_command_timeout).
  - exists (length busy). by eapply block_write_run.
Qed.
End waiting.
