(* ===== verification/SdSample.v ===== *)
(** * A simulated card

    An old standard capacity card of four sectors, as a machine that eats and
    produces a byte per transfer. It satisfies the contract [SdCardLaws], and the
    theorems on the driver are applied to it. *)
From S2P Require Import Prelude Device BlockSd SdProtocol SdCsd SdDisk SdFaults.

#[export] Instance sample_config : Config := { SD_CP := true; SD_WP := true; SD_CP_PIN := true; SD_WP_PIN := true }.

Record sim : Type := mk_sim {
  sim_out : list Z;             (** bytes the card has yet to send *)
  sim_in : list Z;              (** bytes of a command or a data block received so far *)
  sim_write : option Z;         (** the address of the block it waits for *)
  sim_disk : Z -> list Z;       (** its sectors *)
  sim_busy : nat                (** the rounds of ACMD41 before it is ready *)
}.

(** Structure 0, blocks of 512 bytes, C_SIZE and C_SIZE_MULT 0: four sectors. *)
Definition sim_csd : list Z := [0; 0x26; 0; 0x32; 0x5F; 0x59; 0; 0; 0; 0; 0; 0; 0; 0; 0; 1].

Definition sim_command (code arg : Z) (s : sim) : sim :=
  let '(mk_sim _ _ w d n) := s in
  if code =? 0 then mk_sim [0xFF; 1] [] w d n
  else if code =? 55 then mk_sim [1] [] w d n
  else if code =? 41 then
    match n with
    | O => mk_sim [0] [] w d O
    | S n' => mk_sim [1] [] w d n'
    end
  else if code =? 9 then mk_sim ([0; 0xFF; 0xFE] ++ sim_csd) [] w d n
  else if code =? 17 then mk_sim ([0; 0xFF; 0xFE] ++ d (arg / 512) ++ [0; 0]) [] w d n
  else if code =? 24 then mk_sim [0xFF; 0] [] (Some (arg / 512)) d n
  else mk_sim [5] [] w d n.

Definition sim_xfer (tx : Z) (s : sim) : Z * sim :=
  let '(mk_sim out inp w d n) := s in
  (hd 0xFF out,
   match w with
   | None =>
       let inp' := inp ++ [tx] in
       if bool_decide (inp = []) && negb ((0x40 <=? tx) && (tx <? 0x80)) then mk_sim (tl out) [] w d n
       else if (length inp' <? 6)%nat then mk_sim (tl out) inp' w d n
       else sim_command (hd 0 inp' - 0x40) (be_to_Z (take 4 (tl inp'))) (mk_sim (tl out) [] w d n)
   | Some a =>
       let inp' := inp ++ [tx] in
       if bool_decide (inp = []) && negb (tx =? 0xFE) then mk_sim (tl out) [] w d n
       else if (length inp' <? 515)%nat then mk_sim (tl out) inp' w d n
       else mk_sim [5; 0] [] None (fun m => if m =? a then take 512 (tl inp') else d m) n
   end).

#[export] Instance sim_board : Board sim := {
  spi_xfer := sim_xfer;
  gpio_set_cs := id;
  gpio_clear_cs := id;
  gpio_get_cp := fun _ => 0;
  gpio_get_wp := fun _ => 0;
  board_setup := fun _ => id
}.

Definition sim_idle (s : sim) : Prop :=
  sim_out s = [] /\ sim_in s = [] /\ sim_write s = None /\ (sim_busy s < 3)%nat /\
  forall n, 0 <= n < 4 -> sector_ok (sim_disk s n).

#[export] Instance sim_card : SdCard sim := {
  sc_off := sim_idle;
  sc_ready := sim_idle;
  sc_csd := fun _ => sim_csd;
  sc_sector := sim_disk;
  sc_patience := 3
}.

Lemma sim_capacity s : sc_capacity s = 4.
Proof. by vm_compute. Qed.

(** The card sends what it has while the driver waits. *)
Lemma sim_answers l r w d n : answers (mk_sim (l ++ r) [] w d n) l (mk_sim r [] w d n).
Proof.
  induction l as [|x l IH]; [done|]. apply answers_cons. exists (mk_sim (l ++ r) [] w d n).
  split; [|done]. by destruct w.
Qed.

(** It collects the bytes of a data block. *)
Lemma sim_collects l inp a d n :
  inp <> [] -> (length inp + length l < 515)%nat ->
  hears (mk_sim [] inp (Some a) d n) l (mk_sim [] (inp ++ l) (Some a) d n).
Proof.
  revert inp. induction l as [|x l IH]; intros inp Hi Hl; cbn [length] in Hl.
  - rewrite app_nil_r. by exists [].
  - apply hears_cons. exists 0xFF, (mk_sim [] (inp ++ [x]) (Some a) d n). split.
    + cbn [spi_xfer sim_board sim_xfer]. rewrite bool_decide_false by done. cbn [andb hd tl].
      destruct (Nat.ltb_spec (length (inp ++ [x])) 515); [done|]. rewrite length_app in *. cbn in *. lia.
    + replace (inp ++ x :: l) with ((inp ++ [x]) ++ l) by (by rewrite <- app_assoc). apply IH; [by destruct inp | rewrite length_app; cbn; lia].
Qed.

Lemma word_bytes v : 0 <= v < 4294967296 ->
  be_to_Z [Z.land (Z.shiftr v 24) 0xFF; Z.land (Z.shiftr v 16) 0xFF; Z.land (Z.shiftr v 8) 0xFF; Z.land v 0xFF] = v.
Proof.
  intros Hv. replace 0xFF with (Z.ones 8) by done. rewrite !Z.land_ones, !Z.shiftr_div_pow2 by lia.
  change (2 ^ 24) with 16777216. change (2 ^ 16) with 65536. change (2 ^ 8) with 256. cbn.
  Z.to_euclidean_division_equations. lia.
Qed.

(** The commands of a transfer. *)
Lemma sim_hears code v d n :
  In code [CMD17; CMD24] -> 0 <= v < 4294967296 ->
  hears (mk_sim [] [] None d n) (frame code v 1) (sim_command code v (mk_sim [] [] None d n)).
Proof.
  intros Hc Hv. rewrite <- (word_bytes v Hv) at 2. destruct Hc as [<-|[<-|[]]]; eexists; reflexivity.
Qed.

Lemma sim_reads s n : sim_idle s -> 0 <= n < 4 ->
  exists b1 wait crc1 crc2 b', responds s CMD17 (n * 512) 1 0 b1 /\
    (length wait <= 3)%nat /\ Forall (fun c => c <> 0xFE) wait /\
    answers b1 (wait ++ 0xFE :: sim_disk s n ++ [crc1; crc2]) b' /\ card_holds s (sim_disk s) b'.
Proof.
  destruct s as [out inp w d k]. intros (Ho & Hi & Hw & Hk & Hd) Hn. cbn in *. subst.
  exists (mk_sim ([0xFF; 0xFE] ++ d n ++ [0; 0]) [] None d k), [0xFF], 0, 0, (mk_sim [] [] None d k).
  split; [|split; [|split; [|split]]].
  - split; [done|]. exists 0%nat, (sim_command CMD17 (n * 512) (mk_sim [] [] None d k)).
    split; [by vm_compute; lia|]. split; [apply sim_hears; [by left | lia]|].
    cbn [sim_command CMD17 CMD24 Z.eqb Pos.eqb]. rewrite Z.div_mul by done. apply (sim_answers [0]).
  - cbn. lia.
  - by repeat constructor.
  - rewrite <- (app_nil_r ([0xFF; 0xFE] ++ _)). apply sim_answers.
  - done.
Qed.

Lemma sim_writes s n buf : sim_idle s -> 0 <= n < 4 -> sector_ok buf ->
  exists b1 b2 response busy b', responds s CMD24 (n * 512) 1 0 b1 /\
    hears b1 (0xFF :: 0xFF :: 0xFE :: buf ++ [0xFF; 0xFF]) b2 /\
    (length busy <= 3)%nat /\ Forall (fun c => c <> 0xFF) busy /\
    answers b2 (response :: busy ++ [0xFF]) b' /\
    card_holds s (fun m => if m =? n then buf else sim_disk s m) b'.
Proof.
  destruct s as [out inp w d k]. intros (Ho & Hi & Hw & Hk & Hd) Hn Hbuf. cbn in *. subst.
  pose proof Hbuf as [Hl _]. unfold BLOCK_SIZE in Hl.
  pose (d' := fun m => if m =? n then buf else d m).
  exists (mk_sim [] [] (Some n) d k), (mk_sim [5; 0] [] None d' k), 5, [0], (mk_sim [] [] None d' k).
  split; [|split; [|split; [|split; [|split]]]].
  - split; [done|]. exists 1%nat, (sim_command CMD24 (n * 512) (mk_sim [] [] None d k)).
    split; [by vm_compute; lia|]. split; [apply sim_hears; [by right; left | lia]|].
    cbn [sim_command CMD17 CMD24 Z.eqb Pos.eqb]. rewrite Z.div_mul by done. apply (sim_answers [0xFF; 0] []).
  - do 2 (apply hears_cons; eexists 0xFF, (mk_sim [] [] (Some n) d k); split; [done|]).
    apply hears_cons. eexists 0xFF, (mk_sim [] [0xFE] (Some n) d k). split; [done|].
    replace (buf ++ [0xFF; 0xFF]) with ((buf ++ [0xFF]) ++ [0xFF]) by (by rewrite <- app_assoc).
    apply hears_app. exists (mk_sim [] (0xFE :: buf ++ [0xFF]) (Some n) d k). split.
    + apply (sim_collects (buf ++ [0xFF]) [0xFE]); [done|]. rewrite length_app. cbn. lia.
    + exists [0xFF]. cbn [xfers spi_xfer sim_board sim_xfer hd tl app]. 
      rewrite bool_decide_false by done. cbn [andb].
      replace (length _ <? 515)%nat with false.
      2:{ symmetry. apply Nat.ltb_ge. cbn [length]. rewrite !length_app. cbn. lia. }
      by rewrite <- app_assoc, take_app_length' by lia.
  - cbn. lia.
  - by repeat constructor.
  - done.
  - split; [|done]. repeat split; cbn; [done|..]; unfold d'; case_match; first [by apply Hbuf | by apply Hd].
Qed.

(** ACMD41 answers 1 until the rounds are over. *)
Lemma sim_gets_ready d k : gets_ready 3 (S k) (mk_sim [] [] None d k) (mk_sim [] [] None d 0).
Proof.
  induction k as [|k IH].
  - apply ready_now with 0; [|done].
    exists (mk_sim [1] [] None d 0), (mk_sim [] [] None d 0), 0%nat, 1.
    split; [by eexists|]. split; [lia|]. split; [done|]. split; [done|]. split; [done|].
    exists 0%nat, (mk_sim [0] [] None d 0). split; [by vm_compute; lia|]. split; [by eexists | done].
  - eapply ready_later; [|exact IH].
    exists (mk_sim [1] [] None d (S k)), (mk_sim [] [] None d (S k)), 0%nat, 1.
    split; [by eexists|]. split; [lia|]. split; [done|]. split; [done|]. split; [done|].
    exists 0%nat, (mk_sim [1] [] None d k). split; [by vm_compute; lia|]. split; [by eexists | done].
Qed.

Lemma sim_up s : sim_idle s -> exists b', comes_up 3 s sim_csd b' /\ card_holds s (sim_disk s) b'.
Proof.
  destruct s as [out inp w d k]. intros (Ho & Hi & Hw & Hk & Hd). cbn in *. subst.
  exists (mk_sim [] [] None d 0). split.
  2:{ split; [|done]. repeat split; cbn; first [lia | by apply Hd]. }
  apply (came_up _ _ _ _ (mk_sim [] [] None d k) 1 (mk_sim [] [] None d k) (mk_sim [] [] None d k) (S k)
    (mk_sim [] [] None d 0) (mk_sim ([0xFF; 0xFE] ++ sim_csd) [] None d 0) 1 0xFE); try done; try lia.
  - by eexists.
  - split; [done|]. exists 1%nat, (mk_sim [0xFF; 1] [] None d k).
    split; [by vm_compute; lia|]. split; [by eexists | done].
  - left. split; [done|]. exists 0%nat, (mk_sim [5] [] None d k).
    split; [by vm_compute; lia|]. split; [by eexists | done].
  - apply sim_gets_ready.
  - split; [done|]. exists 0%nat, (mk_sim ([0; 0xFF; 0xFE] ++ sim_csd) [] None d 0).
    split; [by vm_compute; lia|]. split; [by eexists | done].
Qed.

#[export] Instance sim_laws : SdCardLaws sim.
Proof.
  split.
  - intros s _. split; [done|]. split; [by repeat constructor|]. left. by vm_compute.
  - intros s n (_ & _ & _ & _ & Hd) Hn. rewrite sim_capacity in Hn. by apply Hd.
  - intros s Hs b0. split; [done|]. by apply sim_up.
  - intros s n Hs Hn. rewrite sim_capacity in Hn. by apply sim_reads.
  - intros s n buf Hs Hn Hbuf. rewrite sim_capacity in Hn. by apply sim_writes.
Qed.

(** ** The theorems on the driver, applied *)
Definition sim0 : sim := mk_sim [] [] None (fun _ => replicate 512 7) 2.
Definition sim_requests : list request :=
  [ReadBlock 2; WriteBlock 2 (replicate 512 9); ReadBlock 2; ReadBlock 3].

Lemma sector_replicate b : is_byte b -> sector_ok (replicate 512 b).
Proof. intros. split; [by rewrite length_replicate | by apply bytes_ok_replicate]. Qed.

Lemma sim0_idle : sim_idle sim0.
Proof. repeat split; cbn; [lia|..]; by apply sector_replicate. Qed.

Lemma sim_patience : (sc_patience (B := sim) <= 3)%nat.
Proof. apply le_n. Qed.

Lemma sd_driver_refines_disk_witness :
  exists s', session 3 sim_requests (mk_sd card_initial sim0) =
      Ok (0, 4, [(0, replicate 512 7); (0, replicate 512 9); (0, replicate 512 9); (0, replicate 512 7)], s') /\
    forall n, 0 <= n < 4 -> sim_disk (sd_board s') n = if n =? 2 then replicate 512 9 else replicate 512 7.
Proof.
  destruct (sd_driver_refines_disk 3 sim_requests card_initial sim0 sim_patience sim0_idle) as (s' & size & Hrun & Hsize & _ & Hdisk).
  - rewrite sim_capacity. repeat constructor; cbn; try lia; by apply sector_replicate.
  - exists s'. rewrite sim_capacity in *. rewrite Hsize in Hrun by lia. split; [exact Hrun | exact Hdisk].
Defined.

Lemma sd_geometry_correct_witness :
  exists c', Sd.read_geometry 3 (mk_sd card_initial sim0) = Ok (0, mk_sd c' sim0) /\
    card_size c' = 4 /\ card_type c' = SD_CARD_SC /\ card_ro c' = card_ro card_initial.
Proof.
  destruct (sd_geometry_correct 3 sim_csd 1 0xFE sim0 (mk_sim ([0xFF; 0xFE] ++ sim_csd) [] None (sim_disk sim0) 2) sim0 card_initial)
    as (c' & Hrun & Hsize & _ & Hty & Hro & _).
  - exact (sc_csd_defined sim0 (or_introl sim0_idle)).
  - split; [done|]. exists 0%nat, (mk_sim ([0; 0xFF; 0xFE] ++ sim_csd) [] None (sim_disk sim0) 2).
    split; [by vm_compute; lia|]. split; [by eexists | done].
  - lia.
  - done.
  - reflexivity.
  - assert (Hcap : csd_capacity sim_csd = 4 /\ CSD_STRUCTURE sim_csd = 0 /\ WRITE_PROTECT sim_csd = 0) by (vm_compute; repeat split).
    destruct Hcap as (Hc & Hs & Hw). rewrite Hc in Hsize. rewrite Hs in Hty. rewrite Hw in Hro.
    exists c'. split; [exact Hrun|]. split; [apply Hsize; lia|]. split; [exact Hty | exact Hro].
Defined.

Lemma sd_init_outcomes_witness :
  exists s', Sd.block_init 3 (mk_sd card_initial sim0) = Ok (0, s') /\
    outcome 0 s'.
Proof.
  destruct (block_init_run 3 card_initial sim0 sim_patience sim0_idle) as (b' & Hrun & _).
  exists (mk_sd (csd_card sim_csd card_initial) b'). split; [exact Hrun|].
  exact (sd_init_outcomes 3 _ 0 _ Hrun).
Defined.

Lemma sd_read_returns_iff_token_witness :
  (exists fuel, is_ok (Sd.block_read fuel 1 (replicate 512 0) (mk_sd (set_card_type 2 card_initial) sim0)) = true) <->
  token_arrives (mk_sim ([0xFF; 0xFE] ++ replicate 512 7 ++ [0; 0]) [] None (sim_disk sim0) 2).
Proof.
  apply (sd_read_returns_iff_token 1 (replicate 512 0) sim0).
  - split; [done|]. exists 0%nat, (sim_command CMD17 512 (mk_sim [] [] None (sim_disk sim0) 2)).
    split; [by vm_compute; lia|]. split; [apply sim_hears; [by left | lia]|]. apply (sim_answers [0]).
  - apply length_replicate.
Defined.

Lemma sd_write_result_witness :
  exists fuel b', Sd.block_write fuel 1 (replicate 512 9) (mk_sd (set_card_type 2 card_initial) sim0) =
    Ok (0, mk_sd (set_card_type 2 card_initial) b').
Proof.
  destruct (sim_writes sim0 1 (replicate 512 9) sim0_idle) as (b1 & b2 & resp & busy & b' & H1 & H2 & _ & H4 & H5 & _);
    [lia | by apply sector_replicate |].
  destruct (sd_write_result 1 (replicate 512 9) sim0 0 b' (set_card_type 2 card_initial)) as (fuel & Hrun).
  - by apply sector_replicate.
  - exact (write_responded (set_card_type 2 card_initial) 1 (replicate 512 9) sim0 b1 b2 resp busy b' H1 H2 H4 H5).
  - by exists fuel, b'.
Defined.
