(* ===== verification/Partition.v ===== *)
(** * The MBR partition table, [src/src/partition.c]

    [read_partition_table] walks the four primary entries of a boot sector and
    copies the valid ones to the front of a static array, which keeps what
    earlier calls left behind the last valid entry. *)
From S2P Require Import Prelude Layout OnDisk.

Definition PARTITION0START : Z := 0x1BE.

Record mbr_entry : Type := mk_mbr_entry {
  mbr_bootable : Z;           (** uint8_t *)
  mbr_chs : list Z;           (** uint8_t[3] *)
  mbr_type : Z;               (** uint8_t *)
  mbr_chs_end : list Z;       (** uint8_t[3] *)
  mbr_lba_start : Z;          (** uint32_t *)
  mbr_length : Z              (** uint32_t *)
}.

Definition mbr_entry_widths : list nat := [1; 1; 1; 1; 1; 1; 1; 1; 4; 4]%nat.
Definition mbr_entry_vals (r : mbr_entry) : list Z :=
  [mbr_bootable r] ++ mbr_chs r ++ [mbr_type r] ++ mbr_chs_end r ++ [mbr_lba_start r; mbr_length r].
Definition mbr_entry_of_vals (vs : list Z) : mbr_entry :=
  {| mbr_bootable := vs !!! 0%nat; mbr_chs := take 3 (drop 1 vs); mbr_type := vs !!! 4%nat;
     mbr_chs_end := take 3 (drop 5 vs); mbr_lba_start := vs !!! 8%nat; mbr_length := vs !!! 9%nat |}.
Definition mbr_entry_shape (r : mbr_entry) : Prop :=
  length (mbr_chs r) = 3%nat /\ length (mbr_chs_end r) = 3%nat.

#[export] Instance mbr_entry_struct : CStruct mbr_entry := {|
  cs_widths := mbr_entry_widths; cs_vals := mbr_entry_vals;
  cs_of_vals := mbr_entry_of_vals; cs_shape := mbr_entry_shape |}.
#[export] Instance mbr_entry_laws : CStructLaws mbr_entry.
Proof. solve_struct_laws. Qed.

Record partition : Type := mk_partition {
  p_start : Z;
  p_length : Z;
  p_type : Z
}.

#[export] Instance partition_eq_dec : EqDecision partition.
Proof. solve_decision. Defined.

(** The test of one entry: all operands are [uint32_t], the sum included. *)
Definition entry_valid (volume_size : Z) (e : mbr_entry) : bool :=
  (mbr_lba_start e <? volume_size) &&
  (u32 (mbr_lba_start e + mbr_length e) <=? volume_size) &&
  (0 <? mbr_lba_start e) && (0 <? mbr_length e).

Definition entry_partition (e : mbr_entry) : partition :=
  mk_partition (mbr_lba_start e) (mbr_length e) (mbr_type e).

(** The state of the function: the static array [retval] and the local [j]. *)
Definition read_partition_table (mbr : list Z) (volume_size : Z) :
    M (list partition) Z := fun retval =>
  let body (i : Z) : M (list partition * Z) (option unit) :=
    bs ← lift (mem_read mbr (PARTITION0START + 16 * i) (sizeof mbr_entry));
    let e := decode bs in
    (if entry_valid volume_size e
     then modify (fun '(rv, j) => (<[Z.to_nat j := entry_partition e]> rv, j + 1))
     else mret tt) ;;
    mret None in
  match for_loop 4 0 body (retval, 0) with
  | Ok (_, (rv, j)) => Ok (j, rv)
  | Fault f => Fault f
  end.

(** * Specification *)

(** Field [n] bytes wide at byte [o] of entry [i] of the boot sector, lowest byte first. *)
Definition entry_field (mbr : list Z) (i o n : Z) : Z := le_to_Z (slice (0x1BE + 16 * i + o) n mbr).

(** The partition that the boot sector describes in its entry [i]: the first sector is at byte 8 of the
    entry, the number of sectors at byte 12, the type at byte 4. *)
Definition described (mbr : list Z) (i : Z) : partition :=
  mk_partition (entry_field mbr i 8 4) (entry_field mbr i 12 4) (entry_field mbr i 4 1).
Definition all_described (mbr : list Z) : list partition := described mbr <$> [0; 1; 2; 3].

(** A partition that is not empty, begins behind the boot sector and ends within the volume; and one
    that begins within the volume and whose end, 2^32 or more, is within it modulo 2^32. *)
Definition lies_in (volume_size : Z) (p : partition) : Prop :=
  0 < p_start p /\ 0 < p_length p /\ p_start p + p_length p <= volume_size.
Definition wraps_into (volume_size : Z) (p : partition) : Prop :=
  0 < p_start p < volume_size /\ 2 ^ 32 <= p_start p + p_length p <= 2 ^ 32 + volume_size.

#[export] Instance lies_in_dec vs p : Decision (lies_in vs p).
Proof. unfold lies_in. apply _. Defined.
#[export] Instance wraps_into_dec vs p : Decision (wraps_into vs p).
Proof. unfold wraps_into. apply _. Defined.

(** * Facts *)
Section facts.
Implicit Types (mbr : list Z) (i vs : Z) (e : mbr_entry) (p : partition).

(** The entry the code reads. *)
Definition entry_of mbr i : mbr_entry := decode (slice (PARTITION0START + 16 * i) 16 mbr).

Lemma entry_of_described mbr i :
  length mbr = 512%nat -> 0 <= i < 4 -> entry_partition (entry_of mbr i) = described mbr i.
Proof.
  intros Hl Hi. unfold described, entry_field, entry_of. change 0x1BE with PARTITION0START.
  set (o := PARTITION0START + 16 * i).
  assert (Ho : 0 <= o /\ o + 16 <= 512) by (unfold o, PARTITION0START; lia).
  assert (Hsl : forall k n, 0 <= k -> 0 <= n -> k + n <= 16 -> slice (o + k) n mbr = slice k n (slice o 16 mbr))
    by (intros; rewrite slice_slice by lia; f_equal; lia).
  rewrite !Hsl by lia. assert (Hb : length (slice o 16 mbr) = 16%nat) by (by rewrite length_slice by lia).
  clearbody o. revert Hb. generalize (slice o 16 mbr). intros bs Hb. do 16 (destruct bs as [|? bs]; [done|]).
  by destruct bs.
Qed.

Lemma described_range mbr i :
  length mbr = 512%nat -> bytes_ok mbr -> 0 <= i < 4 ->
  0 <= p_start (described mbr i) < 2 ^ 32 /\ 0 <= p_length (described mbr i) < 2 ^ 32.
Proof.
  intros Hl Hb Hi. assert (Hf : forall o, 0 <= o <= 12 -> 0 <= entry_field mbr i o 4 < 2 ^ 32); [|split; apply Hf; lia].
  intros o Ho. pose proof (le_to_Z_range _ (bytes_ok_slice (0x1BE + 16 * i + o) 4 mbr Hb)) as Hr.
  unfold entry_field. by rewrite length_slice in Hr by lia.
Qed.

(** What the test accepts. *)
Lemma entry_valid_iff vs e p :
  entry_partition e = p -> 0 <= vs < 2 ^ 32 -> 0 <= p_start p < 2 ^ 32 -> 0 <= p_length p < 2 ^ 32 ->
  entry_valid vs e = true <-> lies_in vs p \/ wraps_into vs p.
Proof.
  intros <- Hvs. cbn. intros Hs Hl. unfold entry_valid, lies_in, wraps_into. cbn [entry_partition p_start p_length].
  rewrite !andb_true_iff, !Z.ltb_lt, Z.leb_le.
  destruct (Z.lt_ge_cases (mbr_lba_start e + mbr_length e) (2 ^ 32)) as [Hlt|Hge].
  - rewrite u32_id by lia. lia.
  - assert (Hu : u32 (mbr_lba_start e + mbr_length e) = mbr_lba_start e + mbr_length e - 2 ^ 32)
      by (symmetry; apply Z.mod_unique with 1; lia).
    rewrite Hu. lia.
Qed.

Lemma filter_entries vs (es : list mbr_entry) (P : partition -> Prop) `{!forall p, Decision (P p)} :
  (forall e, e ∈ es -> entry_valid vs e = true <-> P (entry_partition e)) ->
  entry_partition <$> filter (fun e => entry_valid vs e = true) es = filter P (entry_partition <$> es).
Proof.
  induction es as [|e es IH]; intros Hes; [done|]. cbn [fmap list_fmap]. rewrite !filter_cons.
  rewrite <- IH by (intros e' He'; apply Hes; by right). pose proof (Hes e ltac:(by left)).
  by do 2 case_decide; [|tauto|tauto|].
Qed.

Lemma filter_agree (P Q : partition -> Prop) `{!forall p, Decision (P p), !forall p, Decision (Q p)} (l : list partition) :
  (forall p, p ∈ l -> P p <-> Q p) -> filter P l = filter Q l.
Proof.
  induction l as [|p l IH]; intros Hl; [done|]. rewrite !filter_cons, IH by (intros q Hq; apply Hl; by right).
  pose proof (Hl p ltac:(by left)). by do 2 case_decide; [|tauto|tauto|].
Qed.

(** The valid entries, in table order, become the first elements of the static array, and the rest of
    the array keeps its old contents. *)
Lemma read_partition_table_run mbr vs retval :
  length mbr = 512%nat -> length retval = 4%nat ->
  read_partition_table mbr vs retval =
    let ps := entry_partition <$> filter (fun e => entry_valid vs e = true) (entry_of mbr <$> [0; 1; 2; 3]) in
    Ok (Z.of_nat (length ps), ps ++ drop (length ps) retval).
Proof.
  intros Hmbr Hret. destruct_length Hret. unfold read_partition_table, entry_of, for_loop, mbind, M_bind, lift.
  change (sizeof mbr_entry) with 16. rewrite !mem_read_ok by (unfold PARTITION0START; lia).
  cbn [fmap list_fmap]. change (0 + 1) with 1. change (1 + 1) with 2. change (2 + 1) with 3.
  fold (entry_of mbr 0) (entry_of mbr 1) (entry_of mbr 2) (entry_of mbr 3).
  generalize (entry_of mbr 0), (entry_of mbr 1), (entry_of mbr 2), (entry_of mbr 3). intros e0 e1 e2 e3.
  rewrite !filter_cons, filter_nil.
  destruct (entry_valid vs e0), (entry_valid vs e1), (entry_valid vs e2), (entry_valid vs e3); reflexivity.
Qed.
End facts.

(** ** Properties *)

(** C38: for a 512-byte boot sector, [read_partition_table] finds, in table order, the partitions among
    the four described that are not empty and lie within the volume behind the boot sector, and besides
    only those whose end is 2^32 or more and, modulo 2^32, within the volume; so, when no end exceeds 32
    bits, exactly those that lie within the volume. It leaves them at the front of the static array,
    keeps the array's old contents behind them, and returns their number. *)
Theorem read_partition_table_spec (mbr : list Z) (volume_size : Z) (retval : list partition) :
  length mbr = 512%nat -> bytes_ok mbr -> 0 <= volume_size < 2 ^ 32 -> length retval = 4%nat ->
  exists ps,
    read_partition_table mbr volume_size retval = Ok (Z.of_nat (length ps), ps ++ drop (length ps) retval) /\
    (length ps <= 4)%nat /\
    ps = filter (fun p => lies_in volume_size p \/ wraps_into volume_size p) (all_described mbr) /\
    (Forall (fun p => p_start p + p_length p < 2 ^ 32) (all_described mbr) ->
     ps = filter (lies_in volume_size) (all_described mbr)).
Proof.
  intros Hmbr Hb Hvs Hret. eexists. split; [by apply read_partition_table_run|].
  assert (Hall : entry_partition <$> (entry_of mbr <$> [0; 1; 2; 3]) = all_described mbr)
    by (unfold all_described; cbn [fmap list_fmap]; by rewrite !entry_of_described by (done || lia)).
  assert (Hps : forall e, e ∈ entry_of mbr <$> [0; 1; 2; 3] -> entry_valid volume_size e = true <->
    lies_in volume_size (entry_partition e) \/ wraps_into volume_size (entry_partition e)).
  { intros e (i & -> & Hi)%list_elem_of_fmap. assert (0 <= i < 4) by (rewrite !elem_of_cons, elem_of_nil in Hi; lia).
    destruct (described_range mbr i Hmbr Hb ltac:(done)). apply entry_valid_iff; rewrite ?entry_of_described by done; done. }
  rewrite (filter_entries _ _ (fun p => lies_in volume_size p \/ wraps_into volume_size p)), Hall by exact Hps.
  split; [etransitivity; [apply length_filter | done]|]. split; [done|]. intros Hend.
  rewrite list.Forall_forall in Hend. apply filter_agree. intros p Hp%Hend. unfold wraps_into. intuition lia.
Qed.

(** A boot sector with two Linux partitions: at sector 2048 in the second entry, and past the end of a
    volume of 4096 sectors in the third. *)
Definition sample_entry : mbr_entry := mk_mbr_entry 0x80 [0; 1; 2] 0x83 [9; 9; 9] 2048 100.
Definition sample_long_entry : mbr_entry := mk_mbr_entry 0 [0; 1; 2] 0x83 [9; 9; 9] 2148 2000.
Definition sample_mbr : list Z :=
  splice (PARTITION0START + 16) (encode sample_entry ++ encode sample_long_entry) (replicate 512 0).

Lemma read_partition_table_spec_witness :
  exists rest, read_partition_table sample_mbr 4096 (replicate 4 (mk_partition 7 7 7)) =
    Ok (1, mk_partition 2048 100 0x83 :: rest) /\ rest = replicate 3 (mk_partition 7 7 7).
Proof.
  destruct (read_partition_table_spec sample_mbr 4096 (replicate 4 (mk_partition 7 7 7))) as (ps & Hrun & _ & _ & Hps).
  - vm_compute. reflexivity.
  - apply (bool_decide_unpack _). vm_compute. exact I.
  - split; [discriminate | reflexivity].
  - reflexivity.
  - assert (Hf : filter (lies_in 4096) (all_described sample_mbr) = [mk_partition 2048 100 0x83]) by (vm_compute; reflexivity).
    rewrite Hf in Hps. rewrite Hps in Hrun; [|apply (bool_decide_unpack _); vm_compute; exact I].
    exists (replicate 3 (mk_partition 7 7 7)). split; [exact Hrun | reflexivity].
Defined.

(** On every volume there is an entry that is accepted although its partition ends beyond the volume. *)
Lemma entry_valid_overflow (volume_size : Z) :
  1 < volume_size < 4294967296 ->
  exists e, cs_wf e /\ entry_valid volume_size e = true /\ ~ lies_in volume_size (entry_partition e).
Proof.
  intros ?. exists (mk_mbr_entry 0 [0; 0; 0] 0x83 [0; 0; 0] 1 4294967295).
  split; [split; [done|repeat constructor; by vm_compute]|].
  unfold entry_valid, lies_in. cbn [mbr_lba_start mbr_length entry_partition p_start p_length].
  change (u32 (1 + 4294967295)) with 0. lia.
Qed.
