(* ===== verification/Context.v ===== *)
(** * The mounted file system: context and block group descriptors

    [struct ext2context], the accesses through its system buffer, and the two
    descriptor functions of [src/src/embext.c]. A computation runs over [cst]:
    the context, the device under it, the caller's [*rerrno] and the number of
    calls made to the host's clock and allocator. *)
From S2P Require Import Prelude Layout OnDisk Device.

(** The host's C library as the driver sees it: successive answers of [time] and [malloc], the
    contents of freshly allocated memory, and the user's ids. *)
Class Env := {
  env_time : nat -> Z;
  env_malloc : nat -> bool;
  env_junk : list Z;
  env_uid : Z;
  env_gid : Z
}.

(** The error numbers the driver stores through [rerrno]. *)
Inductive errno : Type :=
| ENONE | ENOENT | EIO | EBADF | ENOMEM | EEXIST | EISDIR | EINVAL | ENOSPC | EROFS | ENOTTY
| EOVERFLOW.

#[export] Instance errno_eq_dec : EqDecision errno.
Proof. solve_decision. Defined.

Record ext2context : Type := mk_context {
  part_start : Z;
  ctx_superblock : superblock;
  sparse : Z;
  sysbuf : list Z;
  superblock_block : Z;
  read_only : Z;
  num_blockgroups : Z;
  num_superblocks : Z;
  superblock_blocks : list Z
}.

Definition set_sysbuf (b : list Z) (c : ext2context) : ext2context :=
  mk_context (part_start c) (ctx_superblock c) (sparse c) b (superblock_block c) (read_only c)
    (num_blockgroups c) (num_superblocks c) (superblock_blocks c).
Definition upd_superblock (f : superblock -> superblock) (c : ext2context) : ext2context :=
  mk_context (part_start c) (f (ctx_superblock c)) (sparse c) (sysbuf c) (superblock_block c)
    (read_only c) (num_blockgroups c) (num_superblocks c) (superblock_blocks c).

Record cst (D : Type) : Type := mk_cst {
  c_ctx : ext2context;
  c_dev : D;
  c_errno : errno;
  c_tick : nat
}.
Arguments mk_cst {D} _ _ _ _.
Arguments c_ctx {D} _.
Arguments c_dev {D} _.
Arguments c_errno {D} _.
Arguments c_tick {D} _.

Definition upd_ctx {D} (f : ext2context -> ext2context) (s : cst D) : cst D :=
  mk_cst (f (c_ctx s)) (c_dev s) (c_errno s) (c_tick s).
Definition set_dev {D} (d : D) (s : cst D) : cst D := mk_cst (c_ctx s) d (c_errno s) (c_tick s).
Definition set_errno {D} (e : errno) (s : cst D) : cst D :=
  mk_cst (c_ctx s) (c_dev s) e (c_tick s).

(** ** Arithmetic of C expressions *)

(** Unsigned division and remainder. *)
Definition udiv (a b : Z) : res Z := if b =? 0 then Fault DivByZero else Ok (a / b).
Definition umod (a b : Z) : res Z := if b =? 0 then Fault DivByZero else Ok (a mod b).

(** The macro [ext2_block_size]: an [int] shift, defined while the result is an [int]. *)
Definition ext2_block_size (c : ext2context) : res Z :=
  let n := s_log_block_size (ctx_superblock c) in
  if n <=? 20 then Ok (Z.shiftl 1024 n) else Fault BadShift.

Section context_ops.
Context {D : Type} `{BlockDevice D}.

Definition sb : M (cst D) superblock := gets (fun s => ctx_superblock (c_ctx s)).
Definition ctx : M (cst D) ext2context := gets c_ctx.

(** [block_read(n, context->sysbuf)] and [block_write(n, context->sysbuf)]; the driver
    ignores the return code of the first everywhere, and of the second in this file. *)
Definition read_sysbuf (n : Z) : M (cst D) Z := fun s =>
  '(rc, b) ← block_read n (sysbuf (c_ctx s)) (c_dev s);
  Ok (rc, upd_ctx (set_sysbuf b) s).
Definition write_sysbuf (n : Z) : M (cst D) Z := fun s =>
  '(rc, d) ← block_write n (sysbuf (c_ctx s)) (c_dev s);
  Ok (rc, set_dev d s).

(** [memcpy] from and to the system buffer. *)
Definition get_sysbuf (off n : Z) : M (cst D) (list Z) := fun s =>
  bs ← mem_read (sysbuf (c_ctx s)) off n; Ok (bs, s).
Definition put_sysbuf (off : Z) (bs : list Z) : M (cst D) unit := fun s =>
  b ← mem_write (sysbuf (c_ctx s)) off bs; Ok (tt, upd_ctx (set_sysbuf b) s).

Definition time `{Env} : M (cst D) Z := fun s =>
  Ok (u32 (env_time (c_tick s)), mk_cst (c_ctx s) (c_dev s) (c_errno s) (S (c_tick s))).
Definition malloc `{Env} : M (cst D) bool := fun s =>
  Ok (env_malloc (c_tick s), mk_cst (c_ctx s) (c_dev s) (c_errno s) (S (c_tick s))).

(** ** Block group descriptors

    The descriptor is the caller's variable: [None] while it is uninitialised. *)
Definition bg_val (bg : option block_group_descriptor) : M (cst D) block_group_descriptor :=
  match bg with Some b => mret b | None => throw Uninit end.

Definition ext2_get_bg_descriptor (bg : option block_group_descriptor) (block_group : Z) :
    M (cst D) (Z * option block_group_descriptor) :=
  c ← ctx;
  if num_blockgroups c <=? block_group then mret (-1, bg)
  else
    bs ← lift (ext2_block_size c);
    let lba_block := u32 (superblock_block c + 1) in
    let lba_block := u32 (lba_block * u32 (bs / block_get_block_size)) in
    let lba_block :=
      u32 (lba_block + block_group / (block_get_block_size / sizeof block_group_descriptor)) in
    read_sysbuf (u32 (lba_block + part_start c)) ;;
    b ← get_sysbuf (sizeof block_group_descriptor *
                    (block_group mod (block_get_block_size / sizeof block_group_descriptor)))
                   (sizeof block_group_descriptor);
    mret (0, Some (decode b)).

(** One iteration of the loop of [ext2_write_bg_descriptor]: the sector is read and the
    descriptor copied into the buffer; there is no write. *)
Definition write_bg_step (bg : block_group_descriptor) (block_group i : Z) :
    M (cst D) (option unit) :=
  c ← ctx;
  b0 ← lift (arr_get (superblock_blocks c) i);
  bs ← lift (ext2_block_size c);
  let lba_block := u32 (b0 + 1) in
  let lba_block := u32 (lba_block * u32 (bs / block_get_block_size)) in
  let lba_block :=
    u32 (lba_block + block_group / (block_get_block_size / sizeof block_group_descriptor)) in
  read_sysbuf (u32 (lba_block + part_start c)) ;;
  put_sysbuf (sizeof block_group_descriptor *
              (block_group mod (block_get_block_size / sizeof block_group_descriptor)))
             (encode bg) ;;
  mret None.

Definition ext2_write_bg_descriptor (bg : block_group_descriptor) (block_group : Z) :
    M (cst D) Z :=
  c ← ctx;
  if num_blockgroups c <=? block_group then mret (-1)
  else
    for_loop (Z.to_nat (num_superblocks c)) 0 (write_bg_step bg block_group) ;;
    mret 0.
End context_ops.

(** * Facts *)

Lemma udiv_ok a b : b <> 0 -> udiv a b = Ok (a / b).
Proof. intros Hb. unfold udiv. by destruct (Z.eqb_spec b 0). Qed.

Lemma umod_ok a b : b <> 0 -> umod a b = Ok (a mod b).
Proof. intros Hb. unfold umod. by destruct (Z.eqb_spec b 0). Qed.

(** ** Geometry: sizes and addresses without wrap-around *)

(** The block size in bytes and in sectors. *)
Definition bsz (c : ext2context) : Z := Z.shiftl 1024 (s_log_block_size (ctx_superblock c)).
Definition spb (c : ext2context) : Z := bsz c / 512.

(** The sector that holds descriptor [g] of the table behind the superblock in block [b]. *)
Definition bg_lba (c : ext2context) (b g : Z) : Z := part_start c + (b + 1) * spb c + g / 16.

(** A context whose fields are values of their C types and whose block size is an [int]. *)
Record ctx_ok (c : ext2context) : Prop := {
  ok_log : 0 <= s_log_block_size (ctx_superblock c) <= 20;
  ok_sb : cs_wf (ctx_superblock c);
  ok_sysbuf : sector_ok (sysbuf c);
  ok_part : 0 <= part_start c;
  ok_bpg : 0 < s_blocks_per_group (ctx_superblock c)
}.

Lemma block_size_ok c : ctx_ok c -> ext2_block_size c = Ok (bsz c).
Proof.
  intros [Hlog _ _ _ _]. unfold ext2_block_size, bsz.
  destruct (Z.leb_spec (s_log_block_size (ctx_superblock c)) 20); [done | lia].
Qed.

Lemma bsz_spb c : ctx_ok c -> bsz c = 512 * spb c.
Proof.
  intros [Hlog _ _ _ _]. unfold spb, bsz. rewrite Z.shiftl_mul_pow2 by lia.
  rewrite <- (Z.div_unique (1024 * _) 512 (2 * 2 ^ s_log_block_size (ctx_superblock c)) 0); lia.
Qed.

Lemma spb_pow c : ctx_ok c -> spb c = 2 ^ (s_log_block_size (ctx_superblock c) + 1).
Proof.
  intros Hc. pose proof (bsz_spb c Hc) as Hb. destruct Hc as [Hlog _ _ _ _].
  unfold bsz in Hb. rewrite Z.shiftl_mul_pow2 in Hb by lia. rewrite Z.pow_add_r by lia. lia.
Qed.

Lemma spb_ge c : ctx_ok c -> 2 <= spb c.
Proof.
  intros Hc. rewrite spb_pow by done. destruct Hc as [Hlog _ _ _ _].
  change 2 with (2 ^ 1) at 1. apply Z.pow_le_mono_r; lia.
Qed.

(** The shift by [s_log_block_size + 1] converts a block number to a sector number. *)
Lemma shl32_block c b :
  ctx_ok c -> shl32 b (u32 (s_log_block_size (ctx_superblock c) + 1)) = Ok (u32 (b * spb c)).
Proof.
  intros Hc. rewrite spb_pow by done. destruct Hc as [Hlog _ _ _ _].
  rewrite u32_id by lia. unfold shl32.
  destruct (Z.ltb_spec (s_log_block_size (ctx_superblock c) + 1) 32); [|lia].
  by rewrite Z.shiftl_mul_pow2 by lia.
Qed.

(** The address computed with [uint32_t] steps, when the sector exists. *)
Lemma bg_lba_u32 c b g :
  0 <= bg_lba c b g < 4294967296 ->
  u32 (u32 (u32 (u32 (b + 1) * u32 (bsz c / 512)) + g / 16) + part_start c) = bg_lba c b g.
Proof.
  intros Hr. autorewrite with embext. rewrite u32_id; unfold bg_lba, spb in *; lia.
Qed.

(** Descriptor [g] as stored in the table behind the superblock of block [b]. *)
Definition bg_on_disk {D} `{BlockView D} (c : ext2context) (d : D) (b g : Z) :
    block_group_descriptor :=
  decode (slice (32 * (g mod 16)) 32 (dev_sector d (bg_lba c b g))).

(** ** Frames: what a run can change *)

(** Only the system buffer differs. *)
Definition same_but_sysbuf {D} : relation (cst D) := fun s s' =>
  exists b, s' = upd_ctx (set_sysbuf b) s.

#[export] Instance same_but_sysbuf_preorder {D} : PreOrder (@same_but_sysbuf D).
Proof.
  split.
  - intros [[] ? ? ?]. by eexists.
  - intros s1 s2 s3 [b ->] [b' ->]. by exists b'.
Qed.

Section frames.
Context {D : Type} `{BlockDevice D}.

Lemma read_sysbuf_frame n (s : cst D) r s' :
  read_sysbuf n s = Ok (r, s') -> same_but_sysbuf s s'.
Proof.
  unfold read_sysbuf, mbind, res_bind. destruct (block_read _ _ _) as [[rc b]|f]; [|done].
  intros [= _ <-]. by exists b.
Qed.

Lemma put_sysbuf_frame off bs (s : cst D) r s' :
  put_sysbuf off bs s = Ok (r, s') -> same_but_sysbuf s s'.
Proof.
  unfold put_sysbuf, mbind, res_bind. destruct (mem_write _ _ _) as [b|f]; [|done].
  intros [= _ <-]. by exists b.
Qed.

Lemma write_bg_frame bg g (s : cst D) r s' :
  ext2_write_bg_descriptor bg g s = Ok (r, s') -> same_but_sysbuf s s'.
Proof.
  unfold ext2_write_bg_descriptor, ctx. rewrite bind_gets.
  case_match; [by intros [= _ <-]|].
  intros Hrun. run_inv Hrun. refine (for_loop_rel _ _ _ _ _ _ _ _ Hrun0).
  intros j t b t' Hstep. unfold write_bg_step, ctx in Hstep. run_inv Hstep.
  etransitivity; [by eapply read_sysbuf_frame | by eapply put_sysbuf_frame].
Qed.
End frames.

(** ** What each operation computes

    [fs_ok s]: the context is well-formed and the device usable. *)
Definition fs_ok {D} `{BlockView D} (s : cst D) : Prop := ctx_ok (c_ctx s) /\ dev_ok (c_dev s).

Section specs.
Context {D : Type} `{BlockDeviceLaws D}.
Implicit Types (s : cst D) (n : Z).

Lemma ctx_ok_set_sysbuf c b : ctx_ok c -> sector_ok b -> ctx_ok (set_sysbuf b c).
Proof. intros [] ?. by split. Qed.

(** The state after the system buffer was loaded with sector [n]. *)
Definition loaded n s : cst D := upd_ctx (set_sysbuf (dev_sector (c_dev s) n)) s.

Lemma read_sysbuf_ok n s :
  fs_ok s -> in_volume (c_dev s) n -> read_sysbuf n s = Ok (0, loaded n s).
Proof.
  intros [[_ _ [Hl _] _ _] Hd] Hn. unfold read_sysbuf.
  by rewrite dev_read.
Qed.

Lemma loaded_ok n s : fs_ok s -> in_volume (c_dev s) n -> fs_ok (loaded n s).
Proof. intros [Hc Hd] Hn. split; [|done]. apply ctx_ok_set_sysbuf; [done|]. by apply dev_sector_ok. Qed.

Lemma get_sysbuf_ok off k s :
  fs_ok s -> 0 <= off -> 0 <= k -> off + k <= 512 ->
  get_sysbuf off k s = Ok (slice off k (sysbuf (c_ctx s)), s).
Proof.
  intros [[_ _ [Hl _] _ _] _] ? ? ?. unfold get_sysbuf, BLOCK_SIZE in *.
  by rewrite mem_read_ok by lia.
Qed.

Lemma put_sysbuf_ok off bs s :
  fs_ok s -> 0 <= off -> off + Z.of_nat (length bs) <= 512 ->
  put_sysbuf off bs s = Ok (tt, upd_ctx (set_sysbuf (splice off bs (sysbuf (c_ctx s)))) s).
Proof.
  intros [[_ _ [Hl _] _ _] _] ? ?. unfold put_sysbuf, BLOCK_SIZE in *.
  by rewrite mem_write_ok by lia.
Qed.

Lemma put_sysbuf_fs_ok off bs s :
  fs_ok s -> bytes_ok bs -> 0 <= off -> off + Z.of_nat (length bs) <= 512 ->
  fs_ok (upd_ctx (set_sysbuf (splice off bs (sysbuf (c_ctx s)))) s).
Proof.
  intros [Hc Hd] ? ? ?. split; [|done]. apply ctx_ok_set_sysbuf; [done|].
  destruct Hc. by apply sector_ok_splice.
Qed.

Lemma write_sysbuf_ok n s :
  fs_ok s -> in_volume (c_dev s) n ->
  write_sysbuf n s = Ok (0, set_dev (dev_put (c_dev s) n (sysbuf (c_ctx s))) s).
Proof.
  intros [[_ _ Hb _ _] Hd] Hn. unfold write_sysbuf. by rewrite dev_write.
Qed.

Lemma bg_slot_bounds g : 0 <= g -> 0 <= 32 * (g mod 16) /\ 32 * (g mod 16) + 32 <= 512.
Proof. intros. pose proof (Z.mod_pos_bound g 16). lia. Qed.

(** [ext2_get_bg_descriptor] returns the descriptor of the primary table. *)
Lemma get_bg_run bg g s :
  fs_ok s -> 0 <= g < num_blockgroups (c_ctx s) ->
  let n := bg_lba (c_ctx s) (superblock_block (c_ctx s)) g in
  in_volume (c_dev s) n ->
  ext2_get_bg_descriptor bg g s =
    Ok ((0, Some (bg_on_disk (c_ctx s) (c_dev s) (superblock_block (c_ctx s)) g)), loaded n s).
Proof.
  intros Hs Hg n Hn. unfold ext2_get_bg_descriptor, ctx. rewrite bind_gets.
  destruct (Z.leb_spec (num_blockgroups (c_ctx s)) g); [lia|].
  rewrite (bind_lift _ _ _ (bsz (c_ctx s))) by (by apply block_size_ok, Hs).
  change (block_get_block_size / sizeof block_group_descriptor) with 16.
  change (sizeof block_group_descriptor) with 32.
  change block_get_block_size with 512.
  rewrite bg_lba_u32 by (eapply in_volume_u32; [apply Hs | exact Hn]).
  erewrite bind_ok by (by apply read_sysbuf_ok). cbn beta iota.
  destruct (bg_slot_bounds g) as [? ?]; [lia|].
  erewrite bind_ok by (apply get_sysbuf_ok; [by apply loaded_ok | lia..]).
  done.
Qed.

Lemma get_bg_error bg g s :
  num_blockgroups (c_ctx s) <= g -> ext2_get_bg_descriptor bg g s = Ok ((-1, bg), s).
Proof.
  intros Hg. unfold ext2_get_bg_descriptor, ctx. rewrite bind_gets.
  destruct (Z.leb_spec (num_blockgroups (c_ctx s)) g); [done | lia].
Qed.

Lemma bg_on_disk_wf c (d : D) b g :
  dev_ok d -> 0 <= g -> in_volume d (bg_lba c b g) -> cs_wf (bg_on_disk c d b g).
Proof.
  intros Hd Hg Hn. destruct (bg_slot_bounds g Hg). apply decode_wf.
  - by apply bytes_ok_slice, sector_bytes.
  - rewrite length_slice; [done | lia | lia |]. rewrite (sector_length d) by done. lia.
Qed.

(** Every copy of the descriptor table is inside the volume. *)
Definition tables_in_volume (c : ext2context) (d : D) (g : Z) : Prop :=
  forall i, 0 <= i < num_superblocks c ->
    exists b, arr_get (superblock_blocks c) i = Ok b /\ in_volume d (bg_lba c b g).

Lemma write_bg_runs bg g s :
  fs_ok s -> cs_wf bg -> 0 <= g < num_blockgroups (c_ctx s) ->
  tables_in_volume (c_ctx s) (c_dev s) g ->
  exists s', ext2_write_bg_descriptor bg g s = Ok (0, s') /\ same_but_sysbuf s s' /\ fs_ok s'.
Proof.
  intros Hs Hbg Hg Ht.
  enough (wp (ext2_write_bg_descriptor bg g) (fun r s' => r = 0 /\ fs_ok s') s) as Hwp.
  { apply wp_elim in Hwp as (r & s' & Hrun & -> & Hok).
    eauto using write_bg_frame. }
  unfold ext2_write_bg_descriptor, ctx. apply wp_bind, wp_gets.
  destruct (Z.leb_spec (num_blockgroups (c_ctx s)) g); [lia|].
  apply wp_bind, (wp_for _ (fun _ t => same_but_sysbuf s t /\ fs_ok t)).
  - split; [reflexivity | done].
  - intros j t Hj [Hst Ht']. rewrite Z2Nat.id in Hj by lia.
    destruct Hst as [b Hst].
    destruct (Ht j) as (b0 & Hb0 & Hvol); [lia|].
    assert (superblock_blocks (c_ctx t) = superblock_blocks (c_ctx s)) as Hsb by (by subst).
    assert (bg_lba (c_ctx t) b0 g = bg_lba (c_ctx s) b0 g) as Hlba by (by subst).
    assert (c_dev t = c_dev s) as Hdev by (by subst).
    unfold write_bg_step, ctx. apply wp_bind, wp_gets, wp_bind.
    eapply wp_lift; [by rewrite Hsb|]. apply wp_bind.
    eapply wp_lift; [by apply block_size_ok, Ht'|].
    change (block_get_block_size / sizeof block_group_descriptor) with 16.
    change (sizeof block_group_descriptor) with 32.
    change block_get_block_size with 512.
    rewrite <- Hlba, <- Hdev in Hvol.
    rewrite bg_lba_u32 by (eapply in_volume_u32; [apply Ht' | exact Hvol]).
    apply wp_bind. eapply wp_run; [by apply read_sysbuf_ok|].
    destruct (bg_slot_bounds g) as [? ?]; [lia|].
    assert (Z.of_nat (length (encode bg)) = 32) as Hlen by (by rewrite length_encode).
    apply wp_bind. eapply wp_run; [apply put_sysbuf_ok; [by apply loaded_ok | lia | lia]|].
    apply wp_ret. split.
    + eexists. by rewrite Hst.
    + apply put_sysbuf_fs_ok; [by apply loaded_ok | auto with bytes | lia | lia].
  - intros t [_ Ht']. by apply wp_ret.
Qed.
End specs.

(** * Properties *)
Section context_properties.
Context {D : Type} `{BlockDeviceLaws D}.
Implicit Types (s : cst D).

(** [ext2_get_bg_descriptor] returns 0 and the descriptor as stored in the primary table, all of
    its fields in range, for a group of the volume; otherwise -1 with the caller's variable
    untouched. Neither writes to the device. *)
Lemma get_bg_descriptor_spec bg g s :
  fs_ok s -> 0 <= g ->
  let c := c_ctx s in
  (num_blockgroups c <= g -> ext2_get_bg_descriptor bg g s = Ok ((-1, bg), s)) /\
  (g < num_blockgroups c -> in_volume (c_dev s) (bg_lba c (superblock_block c) g) ->
   exists s', ext2_get_bg_descriptor bg g s =
       Ok ((0, Some (bg_on_disk c (c_dev s) (superblock_block c) g)), s') /\
     cs_wf (bg_on_disk c (c_dev s) (superblock_block c) g) /\ same_but_sysbuf s s' /\ fs_ok s').
Proof.
  intros Hs Hg c. split; [apply get_bg_error|]. intros Hlt Hv. eexists. split; [by apply get_bg_run|].
  split; [apply bg_on_disk_wf; try done; apply Hs|]. split; [by eexists | by apply loaded_ok].
Qed.

(** [ext2_write_bg_descriptor] returns 0 but writes nothing: whatever descriptor it is given, the
    device afterwards is the device before, so every later [ext2_get_bg_descriptor] returns the old
    one. *)
Lemma write_bg_descriptor_writes_nothing bg g s :
  fs_ok s -> cs_wf bg -> 0 <= g < num_blockgroups (c_ctx s) ->
  tables_in_volume (c_ctx s) (c_dev s) g ->
  in_volume (c_dev s) (bg_lba (c_ctx s) (superblock_block (c_ctx s)) g) ->
  exists s', ext2_write_bg_descriptor bg g s = Ok (0, s') /\ c_dev s' = c_dev s /\
    exists s'', ext2_get_bg_descriptor None g s' =
      Ok ((0, Some (bg_on_disk (c_ctx s) (c_dev s) (superblock_block (c_ctx s)) g)), s'').
Proof.
  intros Hs Hbg Hg Ht Hv. destruct (write_bg_runs bg g s Hs Hbg Hg Ht) as (s' & Hrun & [b ->] & Hok).
  eexists. split; [exact Hrun|]. split; [done|]. eexists.
  by apply (get_bg_run None g (upd_ctx (set_sysbuf b) s)).
Qed.
End context_properties.
