(* ===== verification/Bitmap.v ===== *)
(** * Block allocation bitmaps

    [ext2_change_allocated] of [src/src/embext.c]: one bit of a bitmap sector, the
    counters of the block group and of the superblock. *)
From S2P Require Import Prelude Layout OnDisk Device Context.

Section bitmap_ops.
Context {D : Type} `{BlockDevice D}.

(** ** Block allocation bitmaps *)
Definition ext2_change_allocated (block allocated for_directory : Z) : M (cst D) Z :=
  c ← ctx;
  let bpg := s_blocks_per_group (ctx_superblock c) in
  group ← lift (udiv block bpg);
  '(_, obg) ← ext2_get_bg_descriptor None group;
  bg ← bg_val obg;
  let lba_block := bg_block_bitmap bg in
  bitmap_offset ← lift (umod block bpg);
  let lba_block := u32 (lba_block + bitmap_offset / 8 / block_get_block_size) in
  read_sysbuf (u32 (lba_block + part_start c)) ;;
  let pos := (bitmap_offset / 8) mod block_get_block_size in
  let mask := Z.shiftl 1 (bitmap_offset mod 8) in
  bytes ← get_sysbuf pos 1;
  let byte := le_to_Z bytes in
  let used := negb (Z.land byte mask =? 0) in
  if used && (allocated =? EXT2_ALLOCATED) then mret (-1)
  else if negb used && (allocated =? EXT2_DEALLOCATED) then mret (-1)
  else
    put_sysbuf pos [u8 (if used then Z.land byte (Z.lnot mask) else Z.lor byte mask)] ;;
    write_sysbuf (u32 (lba_block + part_start c)) ;;
    let bg :=
      if allocated =? EXT2_ALLOCATED then
        let bg := set_bg_free_blocks_count (u16 (bg_free_blocks_count bg - 1)) bg in
        if for_directory =? 0 then bg
        else set_bg_used_dirs_count (u16 (bg_used_dirs_count bg + 1)) bg
      else
        let bg := set_bg_free_blocks_count (u16 (bg_free_blocks_count bg + 1)) bg in
        if for_directory =? 0 then bg
        else set_bg_used_dirs_count (u16 (bg_used_dirs_count bg - 1)) bg in
    ext2_write_bg_descriptor bg group ;;
    modify (upd_ctx (upd_superblock (fun r =>
      if allocated =? EXT2_ALLOCATED
      then set_s_free_blocks_count (u32 (s_free_blocks_count r - 1)) r
      else set_s_free_blocks_count (u32 (s_free_blocks_count r + 1)) r))) ;;
    mret 0.
End bitmap_ops.

(** * Facts *)

(** The bitmap sector and the bit in it that the code computes for a block. The descriptor's
    block number is used as a sector number. *)
Definition bitmap_lba {D} `{BlockView D} (c : ext2context) (d : D) (block : Z) : Z :=
  let bpg := s_blocks_per_group (ctx_superblock c) in
  part_start c + bg_block_bitmap (bg_on_disk c d (superblock_block c) (block / bpg)) +
  (block mod bpg) / 8 / 512.
Definition bitmap_bit (c : ext2context) (block : Z) : Z :=
  (block mod s_blocks_per_group (ctx_superblock c)) mod 4096.

(** Everything [ext2_change_allocated] touches for [block] is inside the volume. *)
Record change_ok {D} `{BlockDevice D, BlockView D} (s : cst D) (block : Z) : Prop := {
  ch_fs : fs_ok s;
  ch_block : 0 <= block;
  ch_group : block / s_blocks_per_group (ctx_superblock (c_ctx s)) < num_blockgroups (c_ctx s);
  ch_table : in_volume (c_dev s)
    (bg_lba (c_ctx s) (superblock_block (c_ctx s)) (block / s_blocks_per_group (ctx_superblock (c_ctx s))));
  ch_copies : tables_in_volume (c_ctx s) (c_dev s) (block / s_blocks_per_group (ctx_superblock (c_ctx s)));
  ch_bitmap : in_volume (c_dev s) (bitmap_lba (c_ctx s) (c_dev s) block)
}.

Section bitmap_facts.
Context {D : Type} `{BlockDeviceLaws D}.
Implicit Types (s : cst D) (block : Z).

Lemma bitmap_bit_range c block : 0 <= bitmap_bit c block < 4096.
Proof. apply Z.mod_pos_bound. lia. Qed.

(** The byte and bit position of the code, and the bit index. *)
Lemma bitmap_pos c block :
  0 <= block -> 0 < s_blocks_per_group (ctx_superblock c) ->
  let off := block mod s_blocks_per_group (ctx_superblock c) in
  (off / 8) mod 512 = bitmap_bit c block / 8 /\ off mod 8 = bitmap_bit c block mod 8 /\
  0 <= bitmap_bit c block / 8 < 512.
Proof.
  intros ? ? off. assert (0 <= off) by (by apply Z.mod_pos_bound). unfold bitmap_bit. fold off.
  change 4096 with (8 * 512).
  pose proof (Z.mod_pos_bound (off / 8) 512). pose proof (Z.mod_pos_bound off 8).
  rewrite (Z.rem_mul_r off 8 512) by lia.
  rewrite (Z.mul_comm 8 (_ mod 512)), Z.div_add, Z.mod_add by lia.
  rewrite (Z.div_small (off mod 8)), Z.mod_mod by lia. lia.
Qed.

(** The new value of the byte is the one with the bit written. *)
Lemma changed_byte b j :
  is_byte b -> 0 <= j < 8 ->
  u8 (if Z.testbit b j then Z.land b (Z.lnot (Z.shiftl 1 j)) else Z.lor b (Z.shiftl 1 j)) =
  byte_put b j (negb (Z.testbit b j)).
Proof.
  intros Hb Hj. rewrite <- (u8_id (byte_put b j _)); [by destruct (Z.testbit b j)|].
  by apply is_byte_put.
Qed.

(** The state after the descriptor of [block]'s group and then its bitmap sector were read. *)
Definition bitmap_loaded s block : cst D := loaded (bitmap_lba (c_ctx s) (c_dev s) block) s.

Lemma bitmap_lba_u32 s block :
  change_ok s block ->
  let c := c_ctx s in
  let bpg := s_blocks_per_group (ctx_superblock c) in
  u32 (u32 (bg_block_bitmap (bg_on_disk c (c_dev s) (superblock_block c) (block / bpg)) +
            (block mod bpg) / 8 / 512) + part_start c) = bitmap_lba c (c_dev s) block.
Proof.
  intros [Hs _ _ _ _ Hb]. cbv zeta. autorewrite with embext.
  apply in_volume_u32 in Hb; [|apply Hs]. unfold bitmap_lba in *. rewrite u32_id; lia.
Qed.

(** The counters of the descriptor that [ext2_change_allocated] writes. *)
Definition changed_bg (allocated for_directory : Z) (bg : block_group_descriptor) :
    block_group_descriptor :=
  if allocated =? EXT2_ALLOCATED then
    let bg := set_bg_free_blocks_count (u16 (bg_free_blocks_count bg - 1)) bg in
    if for_directory =? 0 then bg
    else set_bg_used_dirs_count (u16 (bg_used_dirs_count bg + 1)) bg
  else
    let bg := set_bg_free_blocks_count (u16 (bg_free_blocks_count bg + 1)) bg in
    if for_directory =? 0 then bg
    else set_bg_used_dirs_count (u16 (bg_used_dirs_count bg - 1)) bg.
Definition changed_sb (allocated : Z) (r : superblock) : superblock :=
  if allocated =? EXT2_ALLOCATED
  then set_s_free_blocks_count (u32 (s_free_blocks_count r - 1)) r
  else set_s_free_blocks_count (u32 (s_free_blocks_count r + 1)) r.

Lemma changed_bg_wf a fd bg : cs_wf bg -> cs_wf (changed_bg a fd bg).
Proof. intros. unfold changed_bg. repeat case_match; auto with embext. Qed.

Lemma changed_sb_ok a c : ctx_ok c -> ctx_ok (upd_superblock (changed_sb a) c).
Proof.
  intros [? ? ? ? ?]. unfold changed_sb. split; try done; cbn; repeat case_match; auto with embext;
    by destruct (ctx_superblock c).
Qed.

(** The common prefix of all runs: the descriptor and the bitmap sector are read, and the
    tested byte holds bit [bitmap_bit]. *)
Lemma change_allocated_prefix allocated for_directory s block :
  change_ok s block ->
  let c := c_ctx s in
  let lba := bitmap_lba c (c_dev s) block in
  let k := bitmap_bit c block in
  let sector := dev_sector (c_dev s) lba in
  let bpg := s_blocks_per_group (ctx_superblock c) in
  ext2_change_allocated block allocated for_directory s =
    if bit_get sector k && (allocated =? EXT2_ALLOCATED) then Ok (-1, loaded lba s)
    else if negb (bit_get sector k) && (allocated =? EXT2_DEALLOCATED)
    then Ok (-1, loaded lba s)
    else
      (put_sysbuf (k / 8) [byte_put (sector !!! Z.to_nat (k / 8)) (k mod 8) (negb (bit_get sector k))] ;;
       write_sysbuf lba ;;
       ext2_write_bg_descriptor (changed_bg allocated for_directory
         (bg_on_disk c (c_dev s) (superblock_block c) (block / bpg))) (block / bpg) ;;
       modify (upd_ctx (upd_superblock (changed_sb allocated))) ;;
       mret 0) (loaded lba s).
Proof.
  intros Hch c lba k sector bpg. pose proof Hch as [Hs Hblk Hg Ht _ Hb].
  assert (0 < bpg) as Hbpg by apply Hs.
  assert (0 <= block / bpg) by (by apply Z.div_pos).
  unfold ext2_change_allocated, ctx. rewrite bind_gets. fold c. fold bpg.
  rewrite (bind_lift _ _ _ (block / bpg)) by (unfold udiv; destruct (Z.eqb_spec bpg 0); [lia | done]).
  erewrite bind_ok by (apply get_bg_run; [done | done | exact Ht]). cbn beta iota.
  unfold bg_val. rewrite bind_ret.
  rewrite (bind_lift _ _ _ (block mod bpg)) by (unfold umod; destruct (Z.eqb_spec bpg 0); [lia | done]).
  change block_get_block_size with 512. pose proof (bitmap_lba_u32 s block Hch) as Hlba.
  cbv zeta in Hlba |- *. fold c bpg in Hlba. fold c. rewrite Hlba. fold lba.
  erewrite bind_ok by (apply read_sysbuf_ok; [by apply loaded_ok | exact Hb]).
  fold lba. change (loaded lba (loaded _ s)) with (loaded lba s).
  destruct (bitmap_pos c block Hblk Hbpg) as (Hpos & Hbit & Hrange). fold bpg k in Hpos, Hbit, Hrange.
  rewrite Hpos, Hbit.
  erewrite bind_ok by (apply get_sysbuf_ok; [by apply loaded_ok | lia..]).
  change (sysbuf (c_ctx (loaded lba s))) with sector.
  assert (Z.of_nat (length sector) = 512) as Hlen by (apply sector_length; [apply Hs | exact Hb]).
  rewrite slice_one by lia. cbn [le_to_Z].
  rewrite Z.mul_0_r, Z.add_0_r, land_mask, negb_involutive by (apply Z.mod_pos_bound; lia).
  change (Z.testbit (sector !!! Z.to_nat (k / 8)) (k mod 8)) with (bit_get sector k).
  rewrite <- changed_byte; [| | apply Z.mod_pos_bound; lia].
  { change (Z.testbit (sector !!! Z.to_nat (k / 8)) (k mod 8)) with (bit_get sector k).
    destruct (bit_get sector k && (allocated =? EXT2_ALLOCATED)); [done|].
    by destruct (negb (bit_get sector k) && (allocated =? EXT2_DEALLOCATED)). }
  apply bytes_ok_lookup_total; [by apply sector_bytes; [apply Hs|] | lia].
Qed.

(** Allocating a used block or freeing a free one fails and writes nothing. *)
Lemma change_allocated_refused allocated for_directory s block :
  change_ok s block -> allocated = EXT2_ALLOCATED \/ allocated = EXT2_DEALLOCATED ->
  bit_get (dev_sector (c_dev s) (bitmap_lba (c_ctx s) (c_dev s) block)) (bitmap_bit (c_ctx s) block)
    = (allocated =? EXT2_ALLOCATED) ->
  ext2_change_allocated block allocated for_directory s =
    Ok (-1, loaded (bitmap_lba (c_ctx s) (c_dev s) block) s).
Proof.
  intros Hch Ha Hbit. rewrite change_allocated_prefix by done. cbv zeta. rewrite Hbit.
  by destruct Ha; subst.
Qed.

(** Otherwise the bit is flipped, and the free counter of the superblock follows. *)
Lemma change_allocated_changes allocated for_directory s block :
  change_ok s block -> allocated = EXT2_ALLOCATED \/ allocated = EXT2_DEALLOCATED ->
  let lba := bitmap_lba (c_ctx s) (c_dev s) block in
  let k := bitmap_bit (c_ctx s) block in
  let sector := dev_sector (c_dev s) lba in
  bit_get sector k = negb (allocated =? EXT2_ALLOCATED) ->
  exists b, sector_ok b /\
    ext2_change_allocated block allocated for_directory s =
      Ok (0, mk_cst (upd_superblock (changed_sb allocated) (set_sysbuf b (c_ctx s)))
               (dev_put (c_dev s) lba (bit_put k (allocated =? EXT2_ALLOCATED) sector))
               (c_errno s) (c_tick s)).
Proof.
  intros Hch Ha lba k sector Hbit. pose proof Hch as [Hs Hblk Hg Ht Hc Hb].
  rewrite change_allocated_prefix by done. cbv zeta. fold lba k sector.
  assert (Z.of_nat (length sector) = 512) as Hlen by (apply sector_length; [apply Hs | exact Hb]).
  pose proof (bitmap_bit_range (c_ctx s) block) as Hk. fold k in Hk.
  assert (0 <= k / 8 < 512) by (split; [apply Z.div_pos; lia | apply Z.div_lt_upper_bound; lia]).
  assert (Hl : fs_ok (loaded lba s)) by (by apply loaded_ok).
  replace (bit_get sector k && (allocated =? EXT2_ALLOCATED)) with false
    by (rewrite Hbit; by destruct Ha; subst).
  replace (negb (bit_get sector k) && (allocated =? EXT2_DEALLOCATED)) with false
    by (rewrite Hbit; by destruct Ha; subst).
  rewrite Hbit, negb_involutive.
  erewrite bind_ok by (apply put_sysbuf_ok; [done | lia | cbn; lia]).
  change (sysbuf (c_ctx (loaded lba s))) with sector.
  rewrite splice_one by lia. fold (bit_put k (allocated =? EXT2_ALLOCATED) sector).
  set (sector' := bit_put _ _ _).
  assert (Hsec : sector_ok sector').
  { split; [unfold BLOCK_SIZE, sector'; by rewrite length_bit_put |].
    apply bytes_ok_bit_put; [apply sector_bytes; [apply Hs | exact Hb] | lia]. }
  set (s1 := upd_ctx (set_sysbuf sector') (loaded lba s)).
  assert (Hs1 : fs_ok s1) by (split; [apply ctx_ok_set_sysbuf; [apply Hl | done] | apply Hl]).
  erewrite bind_ok by (apply write_sysbuf_ok; [exact Hs1 | exact Hb]).
  set (s2 := set_dev _ s1). change (sysbuf (c_ctx s1)) with sector' in s2.
  change (c_dev s1) with (c_dev s) in s2.
  assert (Hs2 : fs_ok s2) by (split; [apply Hs1 | apply dev_put_ok; [apply Hs | exact Hb | done]]).
  destruct (write_bg_runs (changed_bg allocated for_directory
      (bg_on_disk (c_ctx s) (c_dev s) (superblock_block (c_ctx s))
         (block / s_blocks_per_group (ctx_superblock (c_ctx s)))))
      (block / s_blocks_per_group (ctx_superblock (c_ctx s))) s2) as (s3 & Hrun & [b ->] & Hs3).
  - done.
  - apply changed_bg_wf, bg_on_disk_wf; [apply Hs | | exact Ht].
    apply Z.div_pos; [done | apply Hs].
  - split; [|exact Hg]. apply Z.div_pos; [done | apply Hs].
  - intros i Hi. destruct (Hc i Hi) as (b0 & Hb0 & Hv). exists b0. split; [done|].
    apply dev_put_in_volume; [apply Hs | exact Hb | done | exact Hv].
  - erewrite bind_ok by exact Hrun. exists b. split; [apply Hs3 | done].
Qed.
End bitmap_facts.

(** * Properties *)

(** The group of a block as the code computes it, and the sector of its descriptor. *)
Definition group_of {D} (s : cst D) (block : Z) : Z :=
  block / s_blocks_per_group (ctx_superblock (c_ctx s)).
Definition group_lba {D} (s : cst D) (block : Z) : Z :=
  bg_lba (c_ctx s) (superblock_block (c_ctx s)) (group_of s block).

Section bitmap_properties.
Context {D : Type} `{BlockDeviceLaws D}.
Implicit Types (s : cst D) (block : Z).

Lemma changed_sector_ok allocated s block :
  change_ok s block ->
  sector_ok (bit_put (bitmap_bit (c_ctx s) block) (allocated =? EXT2_ALLOCATED)
    (dev_sector (c_dev s) (bitmap_lba (c_ctx s) (c_dev s) block))).
Proof.
  intros [[_ Hd] _ _ _ _ Hbm]. destruct (dev_sector_ok _ _ Hd Hbm) as [Hl Hbs].
  pose proof (bitmap_bit_range (c_ctx s) block).
  split; [by rewrite length_bit_put|].
  apply bytes_ok_bit_put; [done | unfold BLOCK_SIZE in *; lia].
Qed.

Lemma changed_sb_fields a (r : superblock) :
  s_blocks_per_group (changed_sb a r) = s_blocks_per_group r /\
  s_log_block_size (changed_sb a r) = s_log_block_size r.
Proof. unfold changed_sb. destruct r. by case_match. Qed.

Lemma bitmap_bit_changed a b c block :
  bitmap_bit (upd_superblock (changed_sb a) (set_sysbuf b c)) block = bitmap_bit c block.
Proof. unfold bitmap_bit. cbn. by rewrite (proj1 (changed_sb_fields a _)). Qed.

Lemma bg_lba_changed a b c x g :
  bg_lba (upd_superblock (changed_sb a) (set_sysbuf b c)) x g = bg_lba c x g.
Proof. unfold bg_lba, spb, bsz. cbn. by rewrite (proj2 (changed_sb_fields a _)). Qed.

(** The same block can be changed again when the descriptor table was not hit. *)
Lemma change_ok_after a b s block :
  change_ok s block -> sector_ok b ->
  let lba := bitmap_lba (c_ctx s) (c_dev s) block in
  lba <> group_lba s block ->
  let s' := mk_cst (upd_superblock (changed_sb a) (set_sysbuf b (c_ctx s)))
    (dev_put (c_dev s) lba (bit_put (bitmap_bit (c_ctx s) block) (a =? EXT2_ALLOCATED)
       (dev_sector (c_dev s) lba))) (c_errno s) (c_tick s) in
  change_ok s' block /\ bitmap_lba (c_ctx s') (c_dev s') block = lba.
Proof.
  intros Hch Hb lba Hne s'. pose proof Hch as [[Hc Hd] Hblk Hg Ht Hcp Hbm].
  pose proof (changed_sector_ok a s block Hch) as Hsec.
  assert (Hvol : forall n, in_volume (c_dev s') n <-> in_volume (c_dev s) n)
    by (intros n; by apply dev_put_in_volume).
  assert (Hbpg : s_blocks_per_group (ctx_superblock (c_ctx s')) =
    s_blocks_per_group (ctx_superblock (c_ctx s))) by apply changed_sb_fields.
  assert (Hbg : forall x g, bg_lba (c_ctx s') x g = bg_lba (c_ctx s) x g)
    by (intros; apply bg_lba_changed).
  assert (Hlba : bitmap_lba (c_ctx s') (c_dev s') block = lba).
  { unfold bitmap_lba. rewrite Hbpg. unfold bg_on_disk. rewrite Hbg.
    change (superblock_block (c_ctx s')) with (superblock_block (c_ctx s)).
    change (dev_sector (c_dev s')) with (dev_sector (dev_put (c_dev s) lba
      (bit_put (bitmap_bit (c_ctx s) block) (a =? EXT2_ALLOCATED) (dev_sector (c_dev s) lba)))).
    rewrite dev_put_other by (try done; unfold group_lba, group_of in Hne; congruence). done. }
  split; [|done]. split.
  - split; [|by apply dev_put_ok]. apply changed_sb_ok. by apply ctx_ok_set_sysbuf.
  - done.
  - by rewrite Hbpg.
  - by rewrite Hbpg, Hvol, Hbg.
  - rewrite Hbpg. intros i Hi. destruct (Hcp i Hi) as (b0 & Hb0 & Hv). exists b0. split; [done|].
    by rewrite Hvol, Hbg.
  - rewrite Hlba. by apply Hvol.
Qed.

(** Allocating a block whose bit is set, or freeing one whose bit is clear, returns -1 and
    changes neither the device nor any counter. *)
Lemma change_allocated_error allocated for_directory s block :
  change_ok s block -> allocated = EXT2_ALLOCATED \/ allocated = EXT2_DEALLOCATED ->
  bit_get (dev_sector (c_dev s) (bitmap_lba (c_ctx s) (c_dev s) block)) (bitmap_bit (c_ctx s) block)
    = (allocated =? EXT2_ALLOCATED) ->
  exists s', ext2_change_allocated block allocated for_directory s = Ok (-1, s') /\
    c_dev s' = c_dev s /\ ctx_superblock (c_ctx s') = ctx_superblock (c_ctx s).
Proof.
  intros Hch Ha Hbit. eexists. split; [by apply change_allocated_refused|]. by destruct s.
Qed.

(** A successful call writes exactly one bit of one sector, to 1 on allocation and 0 on
    deallocation, leaves every other sector alone, and moves the free-block counter of the
    superblock by one in [uint32_t] arithmetic. *)
Lemma change_allocated_one_bit allocated for_directory s block :
  change_ok s block -> allocated = EXT2_ALLOCATED \/ allocated = EXT2_DEALLOCATED ->
  let lba := bitmap_lba (c_ctx s) (c_dev s) block in
  let k := bitmap_bit (c_ctx s) block in
  bit_get (dev_sector (c_dev s) lba) k = negb (allocated =? EXT2_ALLOCATED) ->
  exists s', ext2_change_allocated block allocated for_directory s = Ok (0, s') /\
    (forall k', 0 <= k' -> bit_get (dev_sector (c_dev s') lba) k' =
       if k' =? k then allocated =? EXT2_ALLOCATED else bit_get (dev_sector (c_dev s) lba) k') /\
    (forall n, in_volume (c_dev s) n -> n <> lba ->
       dev_sector (c_dev s') n = dev_sector (c_dev s) n) /\
    s_free_blocks_count (ctx_superblock (c_ctx s')) =
      u32 (s_free_blocks_count (ctx_superblock (c_ctx s)) +
           if allocated =? EXT2_ALLOCATED then -1 else 1).
Proof.
  intros Hch Ha lba k Hbit.
  destruct (change_allocated_changes allocated for_directory s block Hch Ha Hbit) as (b & Hb & Hrun).
  fold lba k in Hrun. eexists. split; [exact Hrun|]. cbn [c_dev c_ctx].
  destruct Hch as [[_ Hd] _ _ _ _ Hbm]. fold lba in Hbm.
  assert (Hsec : sector_ok (dev_sector (c_dev s) lba)) by (by apply dev_sector_ok).
  pose proof (bitmap_bit_range (c_ctx s) block) as Hk. fold k in Hk.
  assert (Hsec' : sector_ok (bit_put k (allocated =? EXT2_ALLOCATED) (dev_sector (c_dev s) lba))).
  { destruct Hsec as [Hl Hbs]. split; [by rewrite length_bit_put|].
    apply bytes_ok_bit_put; [done | unfold BLOCK_SIZE in *; lia]. }
  destruct Hsec as [Hl Hbs]. unfold BLOCK_SIZE in Hl. split; [|split].
  - intros k' Hk'. rewrite dev_put_same by done. apply bit_get_put; lia.
  - intros n Hn Hne. by apply dev_put_other.
  - unfold upd_superblock, changed_sb. cbn [ctx_superblock set_sysbuf].
    destruct (ctx_superblock (c_ctx s)). by destruct Ha; subst.
Qed.

(** C22: [ext2_change_allocated] returns 0 when the bit of the block is the opposite of what is asked for:
    then exactly that bit of one sector changes, no other sector does, and the free-block counter of the
    superblock moves by one in [uint32_t] arithmetic. Otherwise, allocating a used block or freeing a free
    one, it returns -1 with the device and the counters unchanged. *)
Theorem change_allocated_spec allocated for_directory s block :
  change_ok s block -> allocated = EXT2_ALLOCATED \/ allocated = EXT2_DEALLOCATED ->
  let lba := bitmap_lba (c_ctx s) (c_dev s) block in
  let k := bitmap_bit (c_ctx s) block in
  let free := s_free_blocks_count (ctx_superblock (c_ctx s)) in
  exists rc s', ext2_change_allocated block allocated for_directory s = Ok (rc, s') /\
    if eqb (bit_get (dev_sector (c_dev s) lba) k) (allocated =? EXT2_ALLOCATED) then
      rc = -1 /\ c_dev s' = c_dev s /\ ctx_superblock (c_ctx s') = ctx_superblock (c_ctx s)
    else
      rc = 0 /\
      (forall k', 0 <= k' -> bit_get (dev_sector (c_dev s') lba) k' =
         if k' =? k then allocated =? EXT2_ALLOCATED else bit_get (dev_sector (c_dev s) lba) k') /\
      (forall n, in_volume (c_dev s) n -> n <> lba -> dev_sector (c_dev s') n = dev_sector (c_dev s) n) /\
      s_free_blocks_count (ctx_superblock (c_ctx s')) =
        u32 (free + if allocated =? EXT2_ALLOCATED then -1 else 1).
Proof.
  intros Hch Ha lba k free. destruct (eqb _ _) eqn:Hbit.
  - apply eqb_prop in Hbit.
    destruct (change_allocated_error allocated for_directory s block Hch Ha Hbit) as (s' & Hrun & Hs'). eauto.
  - apply eqb_false_iff, not_eq_sym in Hbit.
    destruct (change_allocated_one_bit allocated for_directory s block Hch Ha) as (s' & Hrun & Hs').
    + fold lba k. by destruct (bit_get _ k), (allocated =? EXT2_ALLOCATED).
    + exists 0, s'. split; [exact Hrun|]. by split.
Qed.

(** Allocating a free block and deallocating it again restores every sector of the device
    and the free-block counter, when the bitmap sector is not part of the descriptor table. *)
Lemma change_allocated_roundtrip for_directory for_directory' s block :
  change_ok s block ->
  let lba := bitmap_lba (c_ctx s) (c_dev s) block in
  lba <> group_lba s block ->
  bit_get (dev_sector (c_dev s) lba) (bitmap_bit (c_ctx s) block) = false ->
  exists s' s'', ext2_change_allocated block EXT2_ALLOCATED for_directory s = Ok (0, s') /\
    ext2_change_allocated block EXT2_DEALLOCATED for_directory' s' = Ok (0, s'') /\
    (forall n, in_volume (c_dev s) n -> dev_sector (c_dev s'') n = dev_sector (c_dev s) n) /\
    s_free_blocks_count (ctx_superblock (c_ctx s'')) =
      s_free_blocks_count (ctx_superblock (c_ctx s)).
Proof.
  intros Hch lba Hne Hbit.
  destruct (change_allocated_changes EXT2_ALLOCATED for_directory s block Hch (or_introl eq_refl) Hbit)
    as (b & Hb & Hrun). fold lba in Hrun.
  pose proof (changed_sector_ok EXT2_ALLOCATED s block Hch) as Hsec. fold lba in Hsec.
  set (d1 := dev_put _ _ _) in Hrun. set (s' := mk_cst _ _ _ _) in Hrun.
  destruct (change_ok_after EXT2_ALLOCATED b s block Hch Hb Hne) as [Hch' Hlba].
  fold lba d1 s' in Hch', Hlba.
  assert (Hk : bitmap_bit (c_ctx s') block = bitmap_bit (c_ctx s) block) by apply bitmap_bit_changed.
  pose proof Hch as [[Hc Hd] _ _ _ _ Hbm]. fold lba in Hbm.
  assert (Hsame : dev_sector (c_dev s') lba =
    bit_put (bitmap_bit (c_ctx s) block) true (dev_sector (c_dev s) lba)) by (by apply dev_put_same).
  pose proof (bitmap_bit_range (c_ctx s) block) as Hr.
  pose proof (sector_length (c_dev s) lba Hd Hbm) as Hl.
  destruct (change_allocated_changes EXT2_DEALLOCATED for_directory' s' block Hch' (or_intror eq_refl))
    as (b' & Hb' & Hrun').
  { rewrite Hlba, Hk, Hsame, bit_get_put, Z.eqb_refl by lia. done. }
  rewrite Hlba, Hk, Hsame, bit_put_put in Hrun' by lia.
  change (EXT2_DEALLOCATED =? EXT2_ALLOCATED) with false in Hrun'.
  rewrite <- Hbit, bit_put_id in Hrun' by lia.
  exists s'. eexists. split; [exact Hrun|]. split; [exact Hrun'|]. cbn [c_dev c_ctx]. split.
  - intros n Hn. assert (Hok1 : dev_ok d1) by apply Hch'.
    assert (in_volume d1 n) by (by apply dev_put_in_volume).
    assert (in_volume d1 lba) by (by apply dev_put_in_volume).
    rewrite dev_put_sector by (try done; by apply dev_sector_ok).
    case_decide; [by subst | by apply dev_put_other].
  - unfold s', upd_superblock, changed_sb. cbn [c_ctx ctx_superblock set_sysbuf].
    pose proof (ok_sb _ Hc) as Hwf. eapply (cs_wf_lookup _ 3) in Hwf; [|done|done].
    destruct (ctx_superblock (c_ctx s)). cbn in *. unfold u32. rewrite Zplus_mod_idemp_l.
    rewrite Z.sub_add. by apply u32_id.
Qed.

(** The sector that [ext2_change_allocated] writes is never a sector of the block bitmap
    that the group descriptor names, because the block number is not converted to sectors: a
    successful call leaves the whole bitmap block unchanged. *)
Lemma change_allocated_misses_bitmap allocated for_directory s block :
  change_ok s block -> allocated = EXT2_ALLOCATED \/ allocated = EXT2_DEALLOCATED ->
  let lba := bitmap_lba (c_ctx s) (c_dev s) block in
  let bg := bg_on_disk (c_ctx s) (c_dev s) (superblock_block (c_ctx s)) (group_of s block) in
  bit_get (dev_sector (c_dev s) lba) (bitmap_bit (c_ctx s) block) = negb (allocated =? EXT2_ALLOCATED) ->
  s_blocks_per_group (ctx_superblock (c_ctx s)) <= 8 * bsz (c_ctx s) ->
  2 <= bg_block_bitmap bg ->
  exists s', ext2_change_allocated block allocated for_directory s = Ok (0, s') /\
    forall i, 0 <= i < spb (c_ctx s) ->
      let n := part_start (c_ctx s) + bg_block_bitmap bg * spb (c_ctx s) + i in
      in_volume (c_dev s) n -> dev_sector (c_dev s') n = dev_sector (c_dev s) n.
Proof.
  intros Hch Ha lba bg Hbit Hbpg Hbm.
  destruct (change_allocated_changes allocated for_directory s block Hch Ha Hbit) as (b & Hb & Hrun).
  fold lba in Hrun. eexists. split; [exact Hrun|]. cbn [c_dev]. intros i Hi Hn.
  pose proof (changed_sector_ok allocated s block Hch) as Hsec. fold lba in Hsec.
  apply dev_put_other; try done; try apply Hch.
  match type of Hn with in_volume _ ?n => enough (lba < n) by lia end. unfold lba, bitmap_lba. fold (group_of s block) bg.
  pose proof Hch as [[Hc _] Hblk _ _ _ _]. pose proof (spb_ge _ Hc). rewrite bsz_spb in Hbpg by done.
  pose proof (Z.mod_pos_bound block _ (ok_bpg _ Hc)).
  assert ((block mod s_blocks_per_group (ctx_superblock (c_ctx s))) / 8 / 512 < spb (c_ctx s)).
  { rewrite Z.div_div by lia. apply Z.div_lt_upper_bound; lia. }
  nia.
Qed.
End bitmap_properties.
