(* ===== verification/Super.v ===== *)
(** * The superblock

    Writing the superblock and its copies, and mounting: the parts of
    [src/src/embext.c] that decide which sectors hold a superblock. *)
From S2P Require Import Prelude Layout OnDisk Device Context.

(** ** Which groups hold a copy *)

(** The loop of [is_power]; the quotient at least halves [x] when [2 <= |ofy|], so 32 rounds
    are enough for an [int]. *)
Fixpoint is_power_loop (fuel : nat) (x ofy : Z) : res Z :=
  if ofy =? 0 then Fault DivByZero
  else if (x =? -2147483648) && (ofy =? -1) then Fault BadShift
  else if Z.rem x ofy =? 0 then
    match fuel with
    | O => Fault OutOfFuel
    | S fuel' => is_power_loop fuel' (Z.quot x ofy) ofy
    end
  else Ok x.

Definition is_power (x ofy : Z) : res Z :=
  x' ← is_power_loop 32 x ofy;
  Ok (if x' =? 1 then 1 else 0).

(** The test of [ext2_mount], with its short-circuit evaluation and its argument order. *)
Definition sparse_test (i : Z) : res bool :=
  if (i =? 0) || (i =? 1) then Ok true
  else
    p3 ← is_power 3 (s32 i);
    if negb (p3 =? 0) then Ok true
    else
      p5 ← is_power 5 (s32 i);
      if negb (p5 =? 0) then Ok true
      else
        p7 ← is_power 7 (s32 i);
        Ok (negb (p7 =? 0)).

(** First loop: count the groups. *)
Definition count_superblocks (num_blockgroups : Z) : res Z :=
  '(_, n) ← for_loop (S := Z) (B := unit) (Z.to_nat num_blockgroups) 0 (fun i =>
    t ← lift (sparse_test i);
    (if (t : bool) then modify (fun n => u32 (n + 1)) else mret tt) ;;
    mret None) 0;
  Ok n.

(** [array[n++] = v] for an array of [size] elements of which the first ones were written. *)
Definition push (size v : Z) : M (list Z) unit := fun l =>
  if Z.of_nat (length l) <? size then Ok (tt, l ++ [v]) else Fault OutOfBounds.

(** Second loop: store the block of each copy; and the loop of a volume with a copy per group. *)
Definition sparse_blocks (num_blockgroups num_superblocks bpg superblock_block : Z) : res (list Z) :=
  '(_, l) ← for_loop (S := list Z) (B := unit) (Z.to_nat num_blockgroups) 0 (fun i =>
    t ← lift (sparse_test i);
    (if (t : bool) then push num_superblocks (u32 (i * bpg + superblock_block)) else mret tt) ;;
    mret None) [];
  Ok l.
Definition all_blocks (num_superblocks bpg superblock_block : Z) : res (list Z) :=
  '(_, l) ← for_loop (S := list Z) (B := unit) (Z.to_nat num_superblocks) 0 (fun i =>
    push num_superblocks (u32 (i * bpg + superblock_block)) ;;
    mret None) [];
  Ok l.

(** What a [struct ext2context *] points to; the structure is in the state. *)
Inductive context_ptr : Type :=
| NullContext
| FreedContext
| LiveContext.

Section super_ops.
Context {D : Type} `{BlockDevice D}.

(** ** The superblock *)
Definition flush_superblock_step (i : Z) : M (cst D) (option unit) :=
  c ← ctx;
  b ← lift (arr_get (superblock_blocks c) i);
  modify (upd_ctx (upd_superblock (set_s_block_group_nr (u16 b)))) ;;
  r ← sb;
  put_sysbuf 0 (encode r) ;;
  lba ← lift (shl32 b (u32 (s_log_block_size r + 1)));
  write_sysbuf (u32 (lba + part_start c)) ;;
  mret None.

Definition ext2_flush_superblock : M (cst D) Z :=
  put_sysbuf 0 (replicate (Z.to_nat block_get_block_size) 0) ;;
  c ← ctx;
  for_loop (Z.to_nat (num_superblocks c)) 0 flush_superblock_step ;;
  mret 0.


(** ** Mounting *)

(** The context in freshly allocated memory: every member but [part_start] and the system
    buffer is assigned before it is read. *)
Definition fresh_context `{Env} (part_start : Z) : ext2context :=
  mk_context part_start (decode env_junk) 0 env_junk 0 0 0 0 [].

Definition set_geometry (sbb sp ro nbg nsb : Z) (blocks : list Z) (c : ext2context) : ext2context :=
  mk_context (part_start c) (ctx_superblock c) sp (sysbuf c) sbb ro nbg nsb blocks.

(** The first half of [ext2_mount]: allocate the context and read the superblock into it. *)
Definition mount_probe `{Env} (part_start : Z) : M (cst D) superblock :=
  m ← malloc;
  if negb m then throw NullDeref
  else
    modify (upd_ctx (fun _ => fresh_context part_start)) ;;
    read_sysbuf (u32 (part_start + 2)) ;;
    bs ← get_sysbuf 0 (sizeof superblock);
    modify (upd_ctx (upd_superblock (fun _ => decode bs))) ;;
    sb.

(** The second half, for a superblock that passed the two checks. *)
Definition mount_complete `{Env} (r : superblock) : M (cst D) Z :=
  let sbb := if s_log_block_size r =? 0 then 1 else 0 in
  let sp := if (s_rev_level r =? 1) &&
               negb (Z.land (s_feature_ro_compat r) EXT2_FEATURE_RO_COMPAT_SPARSE_SUPER =? 0)
            then 1 else 0 in
  d ← gets c_dev;
  let ro := u32 (block_get_device_read_only d) in
  q ← lift (udiv (s_blocks_count r) (s_blocks_per_group r));
  rem ← lift (umod (s_blocks_count r) (s_blocks_per_group r));
  let nbg := if rem =? 0 then q else u32 (q + 1) in
  nsb ← lift (if sp =? 1 then count_superblocks nbg else Ok nbg);
  m ← malloc;
  if negb m && (0 <? nsb) then throw NullDeref
  else
    blocks ← lift (if sp =? 1 then sparse_blocks nbg nsb (s_blocks_per_group r) sbb
                   else all_blocks nsb (s_blocks_per_group r) sbb);
    modify (upd_ctx (set_geometry sbb sp ro nbg nsb blocks)) ;;
    t ← time;
    modify (upd_ctx (upd_superblock (set_s_mtime t))) ;;
    modify (upd_ctx (upd_superblock (fun r => set_s_mnt_count (u16 (s_mnt_count r + 1)) r))) ;;
    modify (upd_ctx (upd_superblock (set_s_state EXT2_ERROR_FS))) ;;
    ext2_flush_superblock ;;
    mret 0.

Definition ext2_mount `{Env} (part_start volume_size filesystem_hint : Z) : M (cst D) Z :=
  r ← mount_probe part_start;
  if negb (s_magic r =? EXT2_SUPER_MAGIC) then mret (-1)
  else
    size ← lift (shl32 (s_blocks_count r) (s_log_block_size r));
    if volume_size <? size then mret (-1)
    else mount_complete r.

Definition ext2_umount : M (cst D) Z :=
  modify (upd_ctx (upd_superblock (set_s_state EXT2_VALID_FS))) ;;
  ext2_flush_superblock ;;
  mret 0.

(** The same functions on the pointer of the caller: a mount that is refused frees the context it stored
    there, and so does unmounting. A call through the pointer needs the context. *)
Definition through {A} (p : context_ptr) (m : M (cst D) A) : M (cst D) A :=
  match p with
  | NullContext => throw NullDeref
  | FreedContext => throw BadPointer
  | LiveContext => m
  end.
Definition p_mount `{Env} (part_start volume_size filesystem_hint : Z) : M (cst D) (Z * context_ptr) :=
  rc ← ext2_mount part_start volume_size filesystem_hint;
  mret (rc, if rc =? 0 then LiveContext else FreedContext).
Definition p_umount (p : context_ptr) : M (cst D) (Z * context_ptr) :=
  rc ← through p ext2_umount;
  mret (rc, FreedContext).
End super_ops.

(** * Facts *)

(** ** [is_power] *)
Lemma is_power_loop_spec fuel x ofy :
  1 <= x < 2 ^ Z.of_nat fuel -> 2 <= ofy ->
  exists r k, is_power_loop fuel x ofy = Ok r /\ 0 <= k /\ x = r * ofy ^ k /\ r mod ofy <> 0 /\ 1 <= r.
Proof.
  revert x. induction fuel as [|fuel IH]; intros x Hx Hofy; [cbn in Hx; lia|].
  cbn [is_power_loop].
  destruct (Z.eqb_spec ofy 0); [lia|]. destruct (Z.eqb_spec x (-2147483648)); [lia|]. cbn [andb].
  rewrite Z.rem_mod_nonneg by lia. destruct (Z.eqb_spec (x mod ofy) 0) as [Hm|Hm].
  - rewrite Z.quot_div_nonneg by lia. pose proof (Z.div_mod x ofy ltac:(lia)) as Hd.
    rewrite Nat2Z.inj_succ, Z.pow_succ_r in Hx by lia.
    destruct (IH (x / ofy)) as (r & k & Hrun & Hk & Hrk & Hr & Hr1); [nia | done |].
    exists r, (k + 1). rewrite Z.pow_add_r, Z.pow_1_r by lia. repeat split; try done; nia.
  - exists x, 0. rewrite Z.pow_0_r. repeat split; try done; lia.
Qed.

(** Only one base-free part: a power of [ofy] is [1] times a power of [ofy]. *)
Lemma power_part_unique r ofy j k :
  2 <= ofy -> 0 <= j -> 0 <= k -> r mod ofy <> 0 -> 1 <= r -> r * ofy ^ j = ofy ^ k -> r = 1.
Proof.
  intros Ho Hj Hk Hr Hr1 Heq.
  destruct (Z.lt_trichotomy j k) as [Hlt|[->|Hgt]].
  - exfalso. apply Hr. replace k with (1 + (k - j - 1) + j) in Heq by lia.
    rewrite !Z.pow_add_r, Z.pow_1_r in Heq by lia.
    apply Z.mul_reg_r in Heq; [|apply Z.pow_nonzero; lia].
    rewrite Heq, Z.mul_comm. apply Z_mod_mult.
  - pose proof (Z.pow_pos_nonneg ofy k). nia.
  - exfalso. replace j with (1 + (j - k - 1) + k) in Heq by lia.
    rewrite !Z.pow_add_r, Z.pow_1_r in Heq by lia.
    pose proof (Z.pow_pos_nonneg ofy k). pose proof (Z.pow_pos_nonneg ofy (j - k - 1)).
    assert (r * (ofy * ofy ^ (j - k - 1)) = 1) by (apply (Z.mul_reg_r _ _ (ofy ^ k)); lia). nia.
Qed.

Lemma is_power_run (x ofy : Z) :
  1 <= x < 2147483648 -> 2 <= ofy ->
  exists b, is_power x ofy = Ok b /\ (b = 0 \/ b = 1) /\ (b = 1 <-> exists k, 0 <= k /\ x = ofy ^ k).
Proof.
  intros Hx Ho. unfold is_power.
  destruct (is_power_loop_spec 32 x ofy) as (r & k & Hrun & Hk & Heq & Hr & Hr1); [cbn; lia | lia |].
  rewrite Hrun. eexists. split; [reflexivity|].
  destruct (Z.eqb_spec r 1) as [->|Hne].
  - split; [by right|]. split; [|done]. intros _. exists k. by rewrite Z.mul_1_l in Heq.
  - split; [by left|]. split; [done|]. intros (j & Hj & Hxj). exfalso. apply Hne.
    eapply (power_part_unique r ofy k j); try done; congruence.
Qed.

(** Whether [i] is one of the groups for which the test of [ext2_mount] succeeds. *)
Definition sparse_group (i : Z) : bool := bool_decide (i ∈ [0; 1; 3; 5; 7]).

Lemma is_power_small p i :
  1 < p < 2147483648 -> 2 <= i -> (forall k, 2 <= k < p -> p mod k <> 0) ->
  is_power p i = Ok (if i =? p then 1 else 0).
Proof.
  intros Hp Hi Hprime. unfold is_power.
  destruct (is_power_loop_spec 32 p i) as (r & k & Hrun & Hk & Heq & Hr & Hr1); [cbn; lia | done |].
  rewrite Hrun. cbn. f_equal.
  destruct (Z.eqb_spec i p) as [->|Hne].
  - destruct (Z.eqb_spec r 1) as [|Hr']; [done|]. exfalso. apply Hr'.
    eapply (power_part_unique r p k 1); [lia | lia | lia | done | done |].
    by rewrite <- Heq, Z.pow_1_r.
  - destruct (Z.eqb_spec r 1) as [->|]; [|done]. exfalso. rewrite Z.mul_1_l in Heq.
    destruct (decide (k = 0)) as [->|]; [rewrite Z.pow_0_r in Heq; lia|].
    destruct (decide (k = 1)) as [->|]; [rewrite Z.pow_1_r in Heq; congruence|].
    replace k with (1 + (k - 1)) in Heq by lia. rewrite Z.pow_add_r, Z.pow_1_r in Heq by lia.
    pose proof (Z.pow_le_mono_r i 1 (k - 1)). rewrite Z.pow_1_r in *.
    apply (Hprime i); [nia|]. rewrite Heq, Z.mul_comm. apply Z_mod_mult.
Qed.

Lemma prime_3_5_7 p k : p = 3 \/ p = 5 \/ p = 7 -> 2 <= k < p -> p mod k <> 0.
Proof.
  intros Hp Hk Hm. assert (k = 2 \/ k = 3 \/ k = 4 \/ k = 5 \/ k = 6) as Hc by lia.
  destruct Hp as [->|[->| ->]]; destruct Hc as [->|[->|[->|[->| ->]]]]; first [lia | by vm_compute in Hm].
Qed.

Lemma sparse_test_run i : 0 <= i < 2147483648 -> sparse_test i = Ok (sparse_group i).
Proof.
  intros Hi. unfold sparse_test. destruct (Z.eqb_spec i 0) as [->|]; [done|].
  destruct (Z.eqb_spec i 1) as [->|]; [done|]. cbn [orb]. rewrite s32_id by lia.
  unfold sparse_group.
  rewrite (is_power_small 3) by (try lia; intros ?; apply prime_3_5_7; lia).
  rewrite (is_power_small 5) by (try lia; intros ?; apply prime_3_5_7; lia).
  rewrite (is_power_small 7) by (try lia; intros ?; apply prime_3_5_7; lia).
  destruct (Z.eqb_spec i 3) as [->|]; [done|]. destruct (Z.eqb_spec i 5) as [->|]; [done|].
  destruct (Z.eqb_spec i 7) as [->|]; [done|]. cbn.
  rewrite bool_decide_eq_false_2; [done|]. rewrite !elem_of_cons, elem_of_nil. lia.
Qed.

(** ** Writing the copies *)

(** The sector a copy in block [b] is written to, and the bytes written there: the structure and
    zeros up to the end of the sector. *)
Definition sb_lba (c : ext2context) (b : Z) : Z := b * spb c + part_start c.
Definition sb_image (r : superblock) (b : Z) : list Z :=
  encode (set_s_block_group_nr (u16 b) r) ++ replicate 248 0.

(** Every copy lies in the volume. *)
Record copies_ok {D} `{BlockDevice D} (c : ext2context) (d : D) : Prop := {
  co_count : num_superblocks c = Z.of_nat (length (superblock_blocks c));
  co_volume : forall b, b ∈ superblock_blocks c -> in_volume d (sb_lba c b)
}.

(** What [ext2_flush_superblock] does to a state: [done] holds the blocks written so far. *)
Record flushed {D} `{BlockDevice D, BlockView D} (done : list Z) (s t : cst D) : Prop := {
  fl_ok : fs_ok t;
  fl_ctx : exists k b, c_ctx t = upd_superblock (set_s_block_group_nr k) (set_sysbuf b (c_ctx s));
  fl_volume : block_get_volume_size (c_dev t) = block_get_volume_size (c_dev s);
  fl_rest : c_errno t = c_errno s /\ c_tick t = c_tick s;
  fl_copies : forall b, b ∈ done ->
    dev_sector (c_dev t) (sb_lba (c_ctx s) b) = sb_image (ctx_superblock (c_ctx s)) b;
  fl_others : forall n, in_volume (c_dev s) n -> (forall b, b ∈ done -> n <> sb_lba (c_ctx s) b) ->
    dev_sector (c_dev t) n = dev_sector (c_dev s) n
}.

Section super_facts.
Context {D : Type} `{BlockDeviceLaws D}.
Implicit Types (s t : cst D).

Lemma length_encode_sb (r : superblock) : cs_wf r -> length (encode r) = 264%nat.
Proof. intros Hr. apply length_encode in Hr. unfold sizeof in Hr. apply Nat2Z.inj in Hr. done. Qed.

Lemma decode_sb_image r b : cs_wf r -> decode (sb_image r b) = set_s_block_group_nr (u16 b) r.
Proof. intros Hr. apply decode_encode_app. auto with embext. Qed.

Lemma sb_lba_inj c b b' : ctx_ok c -> sb_lba c b = sb_lba c b' -> b = b'.
Proof. intros Hc Heq. pose proof (spb_ge c Hc). unfold sb_lba in Heq. nia. Qed.

Lemma upd_superblock_ok f c :
  ctx_ok c -> cs_wf (f (ctx_superblock c)) ->
  s_log_block_size (f (ctx_superblock c)) = s_log_block_size (ctx_superblock c) ->
  s_blocks_per_group (f (ctx_superblock c)) = s_blocks_per_group (ctx_superblock c) ->
  ctx_ok (upd_superblock f c).
Proof. intros [? ? ? ? ?] ? Hl Hb. by split; cbn; rewrite ?Hl, ?Hb. Qed.

Lemma set_nr_ok k c : ctx_ok c -> fits 2 k -> ctx_ok (upd_superblock (set_s_block_group_nr k) c).
Proof.
  intros Hc Hk. apply upd_superblock_ok; [done | | |].
  - apply wf_set_s_block_group_nr; [apply Hc | done].
  - by destruct (ctx_superblock c).
  - by destruct (ctx_superblock c).
Qed.

(** The bytes behind the structure stay zero throughout the loop. *)
Definition zero_tail (t : cst D) : Prop := drop 264 (sysbuf (c_ctx t)) = replicate 248 0.

(** One iteration writes one more copy. *)
Lemma flush_step_run s t (bs : list Z) i b :
  fs_ok s -> flushed bs s t -> zero_tail t -> 0 <= i ->
  (forall b', b' ∈ bs -> in_volume (c_dev s) (sb_lba (c_ctx s) b')) ->
  superblock_blocks (c_ctx s) !! Z.to_nat i = Some b -> in_volume (c_dev s) (sb_lba (c_ctx s) b) ->
  exists t', flush_superblock_step i t = Ok (None, t') /\ flushed (bs ++ [b]) s t' /\ zero_tail t'.
Proof.
  intros Hs [Hok (k & sb0 & Hctx) Hvol Hrest Hcp Hoth] Hz Hi Hbs Hb Hin.
  set (t1 := upd_ctx (upd_superblock (set_s_block_group_nr (u16 b))) t).
  assert (Ht1 : fs_ok t1) by (split; [apply set_nr_ok; [apply Hok | apply fits_u16] | apply Hok]).
  set (r := ctx_superblock (c_ctx t1)).
  assert (Hr : encode r ++ replicate 248 0 = sb_image (ctx_superblock (c_ctx s)) b).
  { unfold r, t1, sb_image. cbn. rewrite Hctx. cbn. by rewrite set_s_block_group_nr_twice. }
  assert (Hlen : length (encode r) = 264%nat) by apply length_encode_sb, Ht1.
  assert (Hbuf : splice 0 (encode r) (sysbuf (c_ctx t1)) = sb_image (ctx_superblock (c_ctx s)) b).
  { rewrite <- Hr, <- Hz. unfold splice. rewrite Hlen. done. }
  set (t2 := upd_ctx (set_sysbuf (sb_image (ctx_superblock (c_ctx s)) b)) t1).
  assert (Ht2 : fs_ok t2).
  { unfold t2. rewrite <- Hbuf. apply put_sysbuf_fs_ok; [done | apply bytes_ok_encode | lia | lia]. }
  assert (Hlba : b * spb (c_ctx t1) + part_start (c_ctx t) = sb_lba (c_ctx s) b).
  { unfold sb_lba, spb, bsz, t1. cbn. rewrite Hctx. cbn. by rewrite !s_log_block_size_set_nr. }
  assert (Hin' : in_volume (c_dev t2) (sb_lba (c_ctx s) b)) by (unfold in_volume; cbn; by rewrite Hvol).
  assert (Hblocks : superblock_blocks (c_ctx t) = superblock_blocks (c_ctx s)) by (by rewrite Hctx).
  assert (Hsec : sector_ok (sysbuf (c_ctx t2))) by apply Ht2.
  eexists. split; [|split].
  - unfold flush_superblock_step, ctx, sb. rewrite bind_gets.
    rewrite (bind_lift _ _ _ b) by (apply arr_get_ok; [done | by rewrite Hblocks]).
    rewrite bind_modify, bind_gets. fold t1. fold r.
    erewrite bind_ok by (apply put_sysbuf_ok; [done | lia | lia]). rewrite Hbuf. fold t2.
    rewrite (bind_lift _ _ _ (u32 (b * spb (c_ctx t1)))) by (apply shl32_block, Ht1).
    rewrite u32_add_u32_l, Hlba, u32_id by (eapply in_volume_u32; [apply Ht2 | done]).
    erewrite bind_ok by (by apply write_sysbuf_ok). reflexivity.
  - split; cbn [c_dev c_ctx c_errno c_tick set_dev].
    + split; [apply Ht2 | by apply dev_put_ok; [apply Ht2 | |]].
    + exists (u16 b), (sb_image (ctx_superblock (c_ctx s)) b). unfold t2, t1. cbn. rewrite Hctx.
      unfold upd_superblock. cbn. by rewrite set_s_block_group_nr_twice.
    + by rewrite dev_put_volume by (done || apply Ht2).
    + done.
    + intros b' Hb'. destruct (decide (b' = b)) as [->|Hne].
      * by rewrite dev_put_same by (done || apply Ht2).
      * apply elem_of_app in Hb' as [Hb'|Hb'%list_elem_of_singleton]; [|done].
        rewrite dev_put_other; try done; try apply Ht2.
        -- by apply Hcp.
        -- unfold in_volume. cbn. rewrite Hvol. by apply Hbs.
        -- intros Heq. by apply Hne, (sb_lba_inj (c_ctx s)); [apply Hs|].
    + intros n Hn Hnb. rewrite dev_put_other; try done; try apply Ht2.
      * apply Hoth; [done|]. intros b' Hb'. apply Hnb, elem_of_app. by left.
      * unfold in_volume in *. cbn. by rewrite Hvol.
      * apply Hnb, elem_of_app. right. by left.
  - unfold zero_tail. change (sysbuf _) with (sb_image (ctx_superblock (c_ctx s)) b).
    unfold sb_image. rewrite drop_app_length'; [done|].
    rewrite length_encode_sb; [done|]. apply wf_set_s_block_group_nr; [apply Hs | apply fits_u16].
Qed.

(** The whole loop: every copy is written, nothing else is. *)
Lemma flush_superblock_runs s :
  fs_ok s -> copies_ok (c_ctx s) (c_dev s) ->
  exists s', ext2_flush_superblock s = Ok (0, s') /\ flushed (superblock_blocks (c_ctx s)) s s'.
Proof.
  intros Hs [Hn Hv]. set (blocks := superblock_blocks (c_ctx s)) in *.
  enough (wp ext2_flush_superblock (fun r t => r = 0 /\ flushed blocks s t) s) as Hwp.
  { apply wp_elim in Hwp as (r & s' & Hrun & -> & Hfl). eauto. }
  unfold ext2_flush_superblock, ctx. change (Z.to_nat block_get_block_size) with 512%nat.
  apply wp_bind. eapply wp_run; [apply put_sysbuf_ok; [done | lia | by rewrite length_replicate]|].
  rewrite splice_all by (destruct Hs as [[_ _ [Hl _] _ _] _]; rewrite length_replicate; unfold BLOCK_SIZE in Hl; lia).
  set (s0 := upd_ctx (set_sysbuf (replicate 512 0)) s).
  apply wp_bind, wp_gets.
  change (num_superblocks (c_ctx s0)) with (num_superblocks (c_ctx s)). rewrite Hn, Nat2Z.id.
  apply wp_bind, (wp_for _ (fun i t => 0 <= i /\ flushed (take (Z.to_nat i) blocks) s t /\ zero_tail t)).
  - split; [lia|]. split; [|done]. split; try done.
    + split; [|apply Hs]. apply ctx_ok_set_sysbuf; [apply Hs|].
      split; [done | by apply bytes_ok_replicate].
    + exists (s_block_group_nr (ctx_superblock (c_ctx s))), (replicate 512 0).
      unfold s0, upd_superblock. cbn. by rewrite set_s_block_group_nr_id.
    + cbn. intros b Hb. by apply elem_of_nil in Hb.
  - intros j t Hj (Hj0 & Hfl & Hz).
    destruct (lookup_lt_is_Some_2 blocks (Z.to_nat j)) as [b Hb]; [lia|].
    destruct (flush_step_run s t (take (Z.to_nat j) blocks) j b) as (t' & Hrun & Hfl' & Hz');
      [done | done | done | lia | | done | |].
    + intros b' Hb'. apply Hv. by eapply elem_of_take in Hb' as (? & Hl & _);
        eapply list_elem_of_lookup_2.
    + by apply Hv, (list_elem_of_lookup_2 _ _ _ Hb).
    + eapply wp_run; [exact Hrun|]. split; [lia|]. split; [|done].
      rewrite Z2Nat.inj_add, Nat.add_1_r by lia. by rewrite (take_S_r _ _ _ Hb).
  - intros t (_ & Hfl & _). apply wp_ret. split; [done|].
    rewrite take_ge in Hfl by lia. done.
Qed.
End super_facts.

(** ** The loops of [ext2_mount] *)

(** The groups whose first block holds a copy, in order. *)
Definition copy_groups (sp : Z) (nbg : Z) : list Z :=
  if sp =? 1 then filter (fun i => sparse_group i = true) (seqZ 0 nbg) else seqZ 0 nbg.

Lemma seqZ_snoc n : 0 <= n -> seqZ 0 (n + 1) = seqZ 0 n ++ [n].
Proof.
  intros. rewrite <- (Z2Nat.id n) by lia. replace (_ + 1) with (Z.of_nat (S (Z.to_nat n))) by lia.
  by rewrite seqZ_S.
Qed.

Lemma filter_seqZ_snoc n :
  0 <= n ->
  filter (fun i => sparse_group i = true) (seqZ 0 (n + 1)) =
  filter (fun i => sparse_group i = true) (seqZ 0 n) ++ (if sparse_group n then [n] else []).
Proof.
  intros. rewrite seqZ_snoc, list.filter_app by done. f_equal. rewrite filter_cons, filter_nil.
  by destruct (sparse_group n).
Qed.

Lemma filter_seqZ_lt n m :
  0 <= n < m -> sparse_group n = true ->
  (length (filter (fun i => sparse_group i = true) (seqZ 0 n)) <
   length (filter (fun i => sparse_group i = true) (seqZ 0 m)))%nat.
Proof.
  intros [Hn Hm] Hg. replace m with ((n + 1) + (m - n - 1)) by lia.
  rewrite (seqZ_app 0 (n + 1)), list.filter_app, length_app, filter_seqZ_snoc, Hg, length_app by lia.
  cbn. lia.
Qed.

Lemma count_superblocks_run n :
  0 <= n < 2147483648 -> count_superblocks n = Ok (Z.of_nat (length (copy_groups 1 n))).
Proof.
  intros Hn. unfold count_superblocks.
  assert (wp (for_loop (S := Z) (B := unit) (Z.to_nat n) 0 (fun i =>
    t ← lift (sparse_test i);
    (if (t : bool) then modify (fun n => u32 (n + 1)) else mret tt) ;; mret None))
    (fun _ m => m = Z.of_nat (length (copy_groups 1 n))) 0) as Hwp.
  { apply (wp_for _ (fun i m => 0 <= i /\ m = Z.of_nat (length (copy_groups 1 i)))).
    - done.
    - intros j m Hj [Hj0 ->]. apply wp_bind. eapply wp_lift; [apply sparse_test_run; lia|].
      unfold copy_groups. change (1 =? 1) with true. cbv iota.
      pose proof (length_filter (fun i => sparse_group i = true) (seqZ 0 j)) as Hle.
      rewrite length_seqZ in Hle. rewrite filter_seqZ_snoc, length_app by done.
      destruct (sparse_group j); (split; [lia|]); cbn; rewrite ?u32_id; lia.
    - intros m [_ ->]. by rewrite Z2Nat.id, Z.add_0_l by lia. }
  apply wp_elim in Hwp as ([i r] & m & -> & ->). done.
Qed.

Lemma sparse_blocks_run n bpg sbb :
  0 <= n < 2147483648 ->
  sparse_blocks n (Z.of_nat (length (copy_groups 1 n))) bpg sbb =
    Ok ((fun g => u32 (g * bpg + sbb)) <$> copy_groups 1 n).
Proof.
  intros Hn. unfold sparse_blocks.
  match goal with |- (for_loop ?k ?i ?body ?s ≫= _) = _ =>
    assert (wp (for_loop k i body) (fun _ l => l = (fun g => u32 (g * bpg + sbb)) <$> copy_groups 1 n) s)
      as Hwp end.
  { apply (wp_for _ (fun i l => 0 <= i /\ l = (fun g => u32 (g * bpg + sbb)) <$> copy_groups 1 i)).
    - done.
    - intros j l Hj [Hj0 ->]. apply wp_bind. eapply wp_lift; [apply sparse_test_run; lia|].
      unfold copy_groups. change (1 =? 1) with true. cbv iota.
      rewrite filter_seqZ_snoc, fmap_app by done.
      destruct (sparse_group j) eqn:Hg.
      + apply wp_bind. unfold push, wp. rewrite length_fmap.
        pose proof (filter_seqZ_lt j n ltac:(lia) Hg).
        destruct (Z.ltb_spec (Z.of_nat (length (filter (fun i => sparse_group i = true) (seqZ 0 j))))
          (Z.of_nat (length (filter (fun i => sparse_group i = true) (seqZ 0 n))))); [|lia].
        split; [lia | done].
      + split; [lia|]. cbn. by rewrite app_nil_r.
    - intros l [_ ->]. by rewrite Z2Nat.id, Z.add_0_l by lia. }
  apply wp_elim in Hwp as ([i r] & m & -> & ->). done.
Qed.

Lemma all_blocks_run n bpg sbb :
  0 <= n -> all_blocks n bpg sbb = Ok ((fun g => u32 (g * bpg + sbb)) <$> copy_groups 0 n).
Proof.
  intros Hn. unfold all_blocks.
  match goal with |- (for_loop ?k ?i ?body ?s ≫= _) = _ =>
    assert (wp (for_loop k i body) (fun _ l => l = (fun g => u32 (g * bpg + sbb)) <$> copy_groups 0 n) s)
      as Hwp end.
  { apply (wp_for _ (fun i l => 0 <= i /\ l = (fun g => u32 (g * bpg + sbb)) <$> copy_groups 0 i)).
    - done.
    - intros j l Hj [Hj0 ->]. unfold copy_groups. change (0 =? 1) with false. cbv iota.
      rewrite seqZ_snoc, fmap_app by done. apply wp_bind. unfold push, wp.
      rewrite length_fmap, length_seqZ.
      destruct (Z.ltb_spec (Z.of_nat (Z.to_nat j)) n); [split; [lia | done] | lia].
    - intros l [_ ->]. by rewrite Z2Nat.id, Z.add_0_l by lia. }
  apply wp_elim in Hwp as ([i r] & m & -> & ->). done.
Qed.

(** ** What mounting computes from the superblock on the disk *)

Definition mount_sb {D} `{BlockView D} (d : D) (part_start : Z) : superblock :=
  decode (slice 0 264 (dev_sector d (part_start + 2))).
Definition mount_sparse (r : superblock) : Z :=
  if (s_rev_level r =? 1) && negb (Z.land (s_feature_ro_compat r) 1 =? 0) then 1 else 0.
Definition mount_first (r : superblock) : Z := if s_log_block_size r =? 0 then 1 else 0.
Definition mount_nbg (r : superblock) : Z :=
  if s_blocks_count r mod s_blocks_per_group r =? 0 then s_blocks_count r / s_blocks_per_group r
  else u32 (s_blocks_count r / s_blocks_per_group r + 1).
Definition mount_blocks (r : superblock) : list Z :=
  (fun g => u32 (g * s_blocks_per_group r + mount_first r)) <$> copy_groups (mount_sparse r) (mount_nbg r).
Definition mounted_sb (now : Z) (r : superblock) : superblock :=
  let r := set_s_mtime now r in
  set_s_state EXT2_ERROR_FS (set_s_mnt_count (u16 (s_mnt_count r + 1)) r).
Definition mounted_sector (r : superblock) (part_start b : Z) : Z :=
  b * (Z.shiftl 1024 (s_log_block_size r) / 512) + part_start.

(** The size of the volume that a superblock describes. *)
Definition volume_bytes (r : superblock) : Z := s_blocks_count r * (1024 * 2 ^ s_log_block_size r).

(** A volume [ext2_mount] can read and whose superblock describes copies inside the volume. *)
Record readable {D} `{Env, BlockDevice D, BlockView D} (d : D) (part_start : Z) : Prop := {
  rd_junk : sector_ok env_junk;
  rd_dev : dev_ok d;
  rd_part : 0 <= part_start;
  rd_super : in_volume d (part_start + 2)
}.
Record mountable {D} `{Env, BlockDevice D, BlockView D} (d : D) (part_start volume_size : Z) : Prop := {
  mt_readable : readable d part_start;
  mt_magic : s_magic (mount_sb d part_start) = EXT2_SUPER_MAGIC;
  mt_log : s_log_block_size (mount_sb d part_start) <= 20;
  mt_size : u32 (Z.shiftl (s_blocks_count (mount_sb d part_start))
                   (s_log_block_size (mount_sb d part_start))) <= volume_size;
  mt_bpg : 0 < s_blocks_per_group (mount_sb d part_start);
  mt_groups : mount_nbg (mount_sb d part_start) < 2147483648;
  mt_copies : forall b, b ∈ mount_blocks (mount_sb d part_start) ->
    in_volume d (mounted_sector (mount_sb d part_start) part_start b)
}.

Section mount_facts.
Context {D : Type} `{Env, BlockDeviceLaws D}.
Implicit Types (s : cst D) (d : D).

Lemma mount_sb_wf d ps : readable d ps -> cs_wf (mount_sb d ps).
Proof.
  intros [_ Hd _ Hv]. pose proof (sector_length d _ Hd Hv) as Hl. apply decode_wf.
  - by apply bytes_ok_slice, sector_bytes.
  - rewrite length_slice by lia. done.
Qed.

Lemma sb_field_range (r : superblock) : cs_wf r ->
  0 <= s_log_block_size r < 4294967296 /\ 0 <= s_blocks_count r < 4294967296 /\
  0 <= s_blocks_per_group r < 4294967296.
Proof.
  intros Hr. pose proof (cs_wf_lookup r 6 4 (s_log_block_size r) Hr eq_refl ltac:(by destruct r)).
  pose proof (cs_wf_lookup r 1 4 (s_blocks_count r) Hr eq_refl ltac:(by destruct r)).
  pose proof (cs_wf_lookup r 8 4 (s_blocks_per_group r) Hr eq_refl ltac:(by destruct r)).
  done.
Qed.

Lemma mount_nbg_range (r : superblock) : cs_wf r -> 0 < s_blocks_per_group r -> 0 <= mount_nbg r.
Proof.
  intros Hr Hb. destruct (sb_field_range r Hr) as (_ & ? & _). unfold mount_nbg.
  case_match; [by apply Z.div_pos; [lia|] | apply u32_range].
Qed.

(** The two loops together produce the list of blocks. *)
Lemma mount_loops (r : superblock) :
  cs_wf r -> 0 < s_blocks_per_group r -> mount_nbg r < 2147483648 ->
  let nsb := Z.of_nat (length (mount_blocks r)) in
  (if mount_sparse r =? 1 then count_superblocks (mount_nbg r) else Ok (mount_nbg r)) = Ok nsb /\
  (if mount_sparse r =? 1
   then sparse_blocks (mount_nbg r) nsb (s_blocks_per_group r) (mount_first r)
   else all_blocks nsb (s_blocks_per_group r) (mount_first r)) = Ok (mount_blocks r).
Proof.
  intros Hr Hb Hn nsb. pose proof (mount_nbg_range r Hr Hb).
  unfold nsb, mount_blocks. rewrite length_fmap.
  assert (mount_sparse r = 1 \/ mount_sparse r = 0) as [-> | ->]
    by (unfold mount_sparse; case_match; auto).
  - change (1 =? 1) with true. cbv iota.
    rewrite count_superblocks_run by lia. by rewrite sparse_blocks_run by lia.
  - change (0 =? 1) with false. cbv iota.
    assert (length (copy_groups 0 (mount_nbg r)) = Z.to_nat (mount_nbg r)) as ->
      by apply length_seqZ.
    rewrite Z2Nat.id by done. by rewrite all_blocks_run.
Qed.

(** The state in which [ext2_mount] tests the magic number. *)
Definition probed ps s : cst D :=
  mk_cst (upd_superblock (fun _ => mount_sb (c_dev s) ps)
            (set_sysbuf (dev_sector (c_dev s) (ps + 2)) (fresh_context ps)))
    (c_dev s) (c_errno s) (S (c_tick s)).

Lemma mount_probe_run ps s :
  readable (c_dev s) ps -> env_malloc (c_tick s) = true ->
  mount_probe ps s = Ok (mount_sb (c_dev s) ps, probed ps s).
Proof.
  intros Hrd Hm. pose proof Hrd as [Hj Hd Hp Hv]. unfold mount_probe.
  erewrite bind_ok by reflexivity. rewrite Hm. cbn [negb]. rewrite bind_modify.
  rewrite u32_id by (by eapply in_volume_u32).
  set (s0 := upd_ctx _ _).
  assert (Hread : read_sysbuf (ps + 2) s0 = Ok (0, loaded (ps + 2) s0)).
  { unfold read_sysbuf. cbn. destruct Hj as [Hj _]. by rewrite dev_read. }
  erewrite bind_ok by exact Hread.
  assert (Hget : get_sysbuf 0 (sizeof superblock) (loaded (ps + 2) s0) =
    Ok (slice 0 264 (dev_sector (c_dev s) (ps + 2)), loaded (ps + 2) s0)).
  { unfold get_sysbuf. pose proof (sector_length _ _ Hd Hv). change (sizeof superblock) with 264.
    cbn [sysbuf c_ctx loaded upd_ctx set_sysbuf s0 c_dev]. by rewrite mem_read_ok by lia. }
  by erewrite bind_ok by exact Hget.
Qed.

(** Mounting stores the geometry in the context and flushes the superblock. *)
Definition prepare (r : superblock) (t : cst D) : cst D :=
  mk_cst (upd_superblock (mounted_sb (u32 (env_time (S (c_tick t)))))
    (set_geometry (mount_first r) (mount_sparse r) (u32 (block_get_device_read_only (c_dev t)))
       (mount_nbg r) (Z.of_nat (length (mount_blocks r))) (mount_blocks r) (c_ctx t)))
    (c_dev t) (c_errno t) (S (S (c_tick t))).

Lemma mount_complete_run (r : superblock) (t : cst D) :
  cs_wf r -> 0 < s_blocks_per_group r -> mount_nbg r < 2147483648 ->
  env_malloc (c_tick t) = true ->
  mount_complete r t = (ext2_flush_superblock ;; mret 0) (prepare r t).
Proof.
  intros Hr Hbpg Hn Hm. destruct (mount_loops r Hr Hbpg Hn) as [Hcount Hblocks].
  unfold mount_complete. rewrite bind_gets. fold (mount_first r). fold (mount_sparse r).
  rewrite (bind_lift _ _ _ (s_blocks_count r / s_blocks_per_group r))
    by (unfold udiv; by destruct (Z.eqb_spec (s_blocks_per_group r) 0); [lia|]).
  rewrite (bind_lift _ _ _ (s_blocks_count r mod s_blocks_per_group r))
    by (unfold umod; by destruct (Z.eqb_spec (s_blocks_per_group r) 0); [lia|]).
  cbv zeta. fold (mount_nbg r). rewrite (bind_lift _ _ _ _ Hcount).
  erewrite bind_ok by reflexivity. rewrite Hm. cbn [negb andb].
  by rewrite (bind_lift _ _ _ _ Hblocks).
Qed.

Definition prepared ps s : cst D := prepare (mount_sb (c_dev s) ps) (probed ps s).

#[local] Opaque mount_sb mount_blocks mount_nbg.

Lemma mounted_sb_fields now (r : superblock) :
  s_log_block_size (mounted_sb now r) = s_log_block_size r /\
  s_blocks_per_group (mounted_sb now r) = s_blocks_per_group r.
Proof. by destruct r. Qed.

(** The fields of the prepared state, so that nothing below has to unfold it. *)
Record prepared_facts (now : Z) (r : superblock) ps s (p : cst D) : Prop := {
  pf_sb : ctx_superblock (c_ctx p) = mounted_sb now r;
  pf_blocks : superblock_blocks (c_ctx p) = mount_blocks r;
  pf_count : num_superblocks (c_ctx p) = Z.of_nat (length (mount_blocks r));
  pf_nbg : num_blockgroups (c_ctx p) = mount_nbg r;
  pf_part : part_start (c_ctx p) = ps;
  pf_first : superblock_block (c_ctx p) = mount_first r;
  pf_ro : read_only (c_ctx p) = u32 (block_get_device_read_only (c_dev s));
  pf_buf : sysbuf (c_ctx p) = dev_sector (c_dev s) (ps + 2);
  pf_dev : c_dev p = c_dev s
}.

Lemma prepare_facts (r : superblock) ps s (t : cst D) :
  ctx_superblock (c_ctx t) = r -> part_start (c_ctx t) = ps -> c_dev t = c_dev s ->
  sysbuf (c_ctx t) = dev_sector (c_dev s) (ps + 2) ->
  prepared_facts (u32 (env_time (S (c_tick t)))) r ps s (prepare r t).
Proof. intros <- <- Hd Hb. split; try done. cbn. by rewrite Hd. Qed.

Lemma prepared_has ps s :
  prepared_facts (u32 (env_time (S (S (c_tick s))))) (mount_sb (c_dev s) ps) ps s (prepared ps s).
Proof. by apply (prepare_facts (mount_sb (c_dev s) ps) ps s (probed ps s)). Qed.

Lemma prepared_ok now ps vs s (p : cst D) :
  mountable (c_dev s) ps vs -> fits 4 now ->
  prepared_facts now (mount_sb (c_dev s) ps) ps s p ->
  fs_ok p /\ copies_ok (c_ctx p) (c_dev p) /\
  forall b, sb_lba (c_ctx p) b = mounted_sector (mount_sb (c_dev s) ps) ps b.
Proof.
  intros [Hrd _ Hlog _ Hbpg _ Hcp] Hnow [Hsb Hbl Hct _ Hps _ _ Hbuf Hdev].
  pose proof (mount_sb_wf _ _ Hrd) as Hr.
  destruct Hrd as [_ Hd Hp Hv]. destruct (sb_field_range _ Hr) as [Hl _].
  revert Hsb Hbl Hct Hlog Hbpg Hcp Hr Hl. generalize (mount_sb (c_dev s) ps). intros r Hsb Hbl Hct Hlog Hbpg Hcp Hr Hl.
  destruct (mounted_sb_fields now r) as [Hlog' Hbpg'].
  assert (Hlba : forall b, sb_lba (c_ctx p) b = mounted_sector r ps b)
    by (intros b; unfold sb_lba, spb, bsz; by rewrite Hsb, Hlog', Hps).
  split; [split; [|by rewrite Hdev]|split; [|done]].
  - split; rewrite ?Hsb, ?Hlog', ?Hbpg', ?Hps, ?Hbuf; [lia | | by apply dev_sector_ok | done | done].
    apply wf_set_s_state; [|done]. apply wf_set_s_mnt_count; [by apply wf_set_s_mtime | apply fits_u16].
  - split; [by rewrite Hct, Hbl|]. intros b. rewrite Hbl, Hlba, Hdev. apply Hcp.
Qed.

(** Mounting prepares the context and flushes the superblock. *)
Lemma mount_run ps vs hint s :
  mountable (c_dev s) ps vs -> env_malloc (c_tick s) = true -> env_malloc (S (c_tick s)) = true ->
  exists s', ext2_mount ps vs hint s = Ok (0, s') /\ flushed (mount_blocks (mount_sb (c_dev s) ps)) (prepared ps s) s'.
Proof.
  intros Hmt Hm1 Hm2. pose proof Hmt as [Hrd Hmagic Hlog Hsize Hbpg Hn Hcp]. pose proof (mount_sb_wf _ _ Hrd) as Hr.
  assert (Hmount : ext2_mount ps vs hint s = (ext2_flush_superblock ;; mret 0) (prepared ps s)).
  { unfold ext2_mount. erewrite bind_ok by (by apply mount_probe_run). set (r := mount_sb (c_dev s) ps) in *.
    rewrite Hmagic, Z.eqb_refl. cbn [negb].
    rewrite (bind_lift _ _ _ (u32 (Z.shiftl (s_blocks_count r) (s_log_block_size r))))
      by (unfold shl32; by destruct (Z.ltb_spec (s_log_block_size r) 32); [|lia]).
    destruct (Z.ltb_spec vs (u32 (Z.shiftl (s_blocks_count r) (s_log_block_size r)))); [lia|].
    by rewrite mount_complete_run. }
  rewrite Hmount. clear Hmount. pose proof (prepared_has ps s) as Hp. revert Hp. generalize (prepared ps s). intros p Hp.
  destruct (prepared_ok _ ps vs s p Hmt (fits_u32 _) Hp) as (Hok & Hco & _).
  destruct (flush_superblock_runs p Hok Hco) as (s' & Hrun & Hfl). rewrite (pf_blocks _ _ _ _ _ Hp) in Hfl.
  exists s'. split; [by erewrite bind_ok by exact Hrun | done].
Qed.

(** The state [ext2_umount] flushes. *)
Definition unmounting s : cst D := upd_ctx (upd_superblock (set_s_state EXT2_VALID_FS)) s.

Lemma unmounting_lba s b : sb_lba (c_ctx (unmounting s)) b = sb_lba (c_ctx s) b.
Proof. unfold sb_lba, spb, bsz. cbn. by destruct (ctx_superblock (c_ctx s)). Qed.

Lemma unmounting_ok s : fs_ok s -> fs_ok (unmounting s).
Proof.
  intros [Hc Hd]. split; [|done]. apply upd_superblock_ok; [done | | by destruct (ctx_superblock (c_ctx s)) ..].
  apply wf_set_s_state; [apply Hc | done].
Qed.

Lemma umount_run s :
  fs_ok s -> copies_ok (c_ctx s) (c_dev s) ->
  exists s', ext2_umount s = Ok (0, s') /\ flushed (superblock_blocks (c_ctx s)) (unmounting s) s'.
Proof.
  intros Hs [Hnum Hin]. destruct (flush_superblock_runs (unmounting s) (unmounting_ok s Hs)) as (s' & Hrun & Hfl).
  - split; [done|]. intros b Hb. rewrite unmounting_lba. by apply Hin.
  - exists s'. split; [|done]. unfold ext2_umount. rewrite bind_modify. by erewrite bind_ok by exact Hrun.
Qed.
End mount_facts.

(** * Properties *)

(** [is_power x ofy] always returns for a positive [int] and a base of at least two, and
    returns 1 exactly when [x] is a power of [ofy]. *)
Lemma is_power_correct (x ofy : Z) :
  1 <= x < 2147483648 -> 2 <= ofy < 2147483648 ->
  exists b, is_power x ofy = Ok b /\ (b = 0 \/ b = 1) /\ (b = 1 <-> exists k, 0 <= k /\ x = ofy ^ k).
Proof. intros Hx [Ho _]. by apply is_power_run. Qed.

(** The groups that [ext2_mount] takes to hold superblock copies on a sparse volume are 0, 1,
    3, 5 and 7: the arguments of [is_power] are swapped, so every higher power of 3, 5 and 7 is
    missed although [is_power] itself recognises it. *)
Lemma sparse_groups_missed (i : Z) :
  0 <= i < 2147483648 ->
  sparse_test i = Ok (bool_decide (i ∈ [0; 1; 3; 5; 7])) /\
  (forall p k, p = 3 \/ p = 5 \/ p = 7 -> 2 <= k -> i = p ^ k ->
     is_power i p = Ok 1 /\ sparse_test i = Ok false).
Proof.
  intros Hi. rewrite (sparse_test_run i Hi). split; [done|]. intros p k Hp Hk Heq.
  assert (p ^ 2 <= i) by (rewrite Heq; apply Z.pow_le_mono_r; lia).
  rewrite Z.pow_2_r in *. split.
  - destruct (is_power_run i p) as (b & Hb & _ & Hiff); [nia | lia |].
    rewrite Hb. f_equal. apply Hiff. exists k. split; [lia | done].
  - f_equal. unfold sparse_group. apply bool_decide_eq_false.
    rewrite !elem_of_cons, elem_of_nil. nia.
Qed.

#[local] Opaque mount_sb mount_blocks mount_nbg.

Section super_properties.
Context {D : Type} `{Env, BlockDeviceLaws D}.
Implicit Types (s : cst D) (d : D).

(** C37: on a readable device, [ext2_mount] refuses a superblock without the magic number 0xEF53, and one
    whose volume has more than twice the bytes of the [vs] sectors it was given: it returns -1 and writes
    nothing. With every other superblock it goes on to mount: twice, because the code compares a size in
    KiB with a number of 512-byte sectors. The size in KiB is taken to fit 32 bits; beyond, the shift wraps. *)
Theorem mount_refuses ps vs hint s :
  readable (c_dev s) ps -> env_malloc (c_tick s) = true ->
  let r := mount_sb (c_dev s) ps in
  (s_magic r <> 0xEF53 -> exists s', ext2_mount ps vs hint s = Ok (-1, s') /\ c_dev s' = c_dev s) /\
  (s_log_block_size r < 32 -> volume_bytes r < 2 ^ 32 * 1024 ->
    (2 * (vs * 512) < volume_bytes r -> exists s', ext2_mount ps vs hint s = Ok (-1, s') /\ c_dev s' = c_dev s) /\
    (s_magic r = 0xEF53 -> volume_bytes r <= 2 * (vs * 512) ->
      ext2_mount ps vs hint s = mount_complete r (probed ps s))).
Proof.
  intros Hrd Hm r. pose proof (mount_sb_wf _ _ Hrd) as Hr. fold r in Hr. destruct (sb_field_range r Hr) as (Hlog0 & Hcount & _).
  assert (Hprobe : ext2_mount ps vs hint s = (if negb (s_magic r =? EXT2_SUPER_MAGIC) then mret (-1) else
    size ← lift (shl32 (s_blocks_count r) (s_log_block_size r));
    if vs <? size then mret (-1) else mount_complete r) (probed ps s))
    by (unfold ext2_mount; by erewrite bind_ok by (by apply mount_probe_run)).
  rewrite Hprobe. change EXT2_SUPER_MAGIC with 0xEF53. split.
  - intros Hbad%Z.eqb_neq. rewrite Hbad. by exists (probed ps s).
  - intros Hlog Hfit. unfold volume_bytes in *.
    assert (Hsize : shl32 (s_blocks_count r) (s_log_block_size r) = Ok (s_blocks_count r * 2 ^ s_log_block_size r)).
    { unfold shl32. destruct (Z.ltb_spec (s_log_block_size r) 32); [|lia]. rewrite Z.shiftl_mul_pow2 by lia.
      pose proof (Z.pow_pos_nonneg 2 (s_log_block_size r)). rewrite u32_id by nia. done. }
    split.
    + intros Hbig. exists (probed ps s). split; [|done]. destruct (negb (s_magic r =? 0xEF53)); [done|].
      rewrite (bind_lift _ _ _ _ Hsize).
      by destruct (Z.ltb_spec vs (s_blocks_count r * 2 ^ s_log_block_size r)); [|nia].
    + intros -> Hle. cbn [Z.eqb negb Pos.eqb]. rewrite (bind_lift _ _ _ _ Hsize).
      by destruct (Z.ltb_spec vs (s_blocks_count r * 2 ^ s_log_block_size r)); [nia|].
Qed.

(** With blocks larger than 1024 bytes [ext2_flush_superblock] never updates the primary
    superblock, which is always 1024 bytes into the partition: it writes the structure over the
    first sector of the partition instead. *)
Lemma flush_misses_primary s :
  fs_ok s -> copies_ok (c_ctx s) (c_dev s) -> in_volume (c_dev s) (part_start (c_ctx s) + 2) ->
  0 < s_log_block_size (ctx_superblock (c_ctx s)) -> 0 ∈ superblock_blocks (c_ctx s) ->
  (forall b, b ∈ superblock_blocks (c_ctx s) -> 0 <= b) ->
  exists s', ext2_flush_superblock s = Ok (0, s') /\
    dev_sector (c_dev s') (part_start (c_ctx s) + 2) = dev_sector (c_dev s) (part_start (c_ctx s) + 2) /\
    decode (dev_sector (c_dev s') (part_start (c_ctx s))) =
      set_s_block_group_nr 0 (ctx_superblock (c_ctx s)).
Proof.
  intros Hs Hco Hin Hlog Hz Hpos.
  destruct (flush_superblock_runs s Hs Hco) as (s' & Hrun & [_ _ _ _ Hcp Ho]).
  exists s'. split; [done|]. split.
  - apply Ho; [done|]. intros b Hb. specialize (Hpos b Hb). unfold sb_lba.
    rewrite spb_pow by apply Hs.
    pose proof (Z.pow_le_mono_r 2 2 (s_log_block_size (ctx_superblock (c_ctx s)) + 1)
      ltac:(lia) ltac:(lia)) as Hp. change (2 ^ 2) with 4 in Hp.
    destruct (decide (b = 0)) as [->|]; [lia | nia].
  - specialize (Hcp 0 Hz). unfold sb_lba in Hcp. rewrite Z.mul_0_l, Z.add_0_l in Hcp. rewrite Hcp.
    apply decode_sb_image, Hs.
Qed.
End super_properties.
