(* ===== verification/Copies.v ===== *)
(** * The copies of the superblock

    Where the EXT2 format puts the superblock and its copies, and which of them
    mounting and unmounting keep up to date ([Super]). A group of a volume with
    the sparse feature holds a copy when its number is 0, 1 or a power of 3, 5 or 7;
    otherwise every group does. The driver finds the copies of the groups below 9,
    all of them without the feature, and the primary only when blocks have 1 KiB. *)
From S2P Require Import Prelude Layout OnDisk Device Context Super.

(** ** The format *)

(** The groups of a volume; the last one may be short. *)
Definition group_count (r : superblock) : Z :=
  (s_blocks_count r + s_blocks_per_group r - 1) / s_blocks_per_group r.
Definition sparse_volume (r : superblock) : Prop := s_rev_level r = 1 /\ Z.testbit (s_feature_ro_compat r) 0 = true.
Definition backup_group (g : Z) : Prop := g = 0 \/ exists p k, (p = 3 \/ p = 5 \/ p = 7) /\ 0 <= k /\ g = p ^ k.

Definition holds_copy (r : superblock) (g : Z) : Prop := 0 <= g < group_count r /\ (sparse_volume r -> backup_group g).

(** The block of the copy of group [g]: the first block of the group. On a volume with blocks of 1 KiB
    the groups begin at block 1. *)
Definition copy_block (r : superblock) (g : Z) : Z :=
  g * s_blocks_per_group r + (if s_log_block_size r =? 0 then 1 else 0).
(** Its sector, on a volume that begins at sector [ps]: the primary is 1024 bytes into the volume, a
    block has [2 * 2 ^ s_log_block_size] sectors. *)
Definition copy_sector (r : superblock) (ps g : Z) : Z :=
  if g =? 0 then ps + 2 else ps + copy_block r g * (2 * 2 ^ s_log_block_size r).

(** ** The copies the driver knows *)
Definition known_group (r : superblock) (g : Z) : Prop := holds_copy r g /\ (sparse_volume r -> g < 9).
(** Those it writes where the format puts them. *)
Definition kept_copy (r : superblock) (g : Z) : Prop := known_group r g /\ (g = 0 -> s_log_block_size r = 0).

(** The blocks in the list of a mounted context are those of the known groups. *)
Definition lists_copies (c : ext2context) : Prop :=
  forall b, b ∈ superblock_blocks c <-> exists g, known_group (ctx_superblock c) g /\ b = copy_block (ctx_superblock c) g.

(** * Facts *)

(** With at most nine groups, or without the feature, and with blocks of 1 KiB, every copy is kept. *)
Lemma every_copy_kept r g :
  s_log_block_size r = 0 -> (sparse_volume r -> group_count r <= 9) -> holds_copy r g -> kept_copy r g.
Proof. intros Hlog Hn [Hg Hs]. split; [|done]. split; [done|]. intros Hsp. specialize (Hn Hsp). lia. Qed.

Lemma backup_group_sparse g : 0 <= g -> backup_group g /\ g < 9 <-> sparse_group g = true.
Proof.
  intros Hg. unfold sparse_group. rewrite bool_decide_eq_true, !elem_of_cons, elem_of_nil. split.
  - intros [[-> |(p & k & Hp & Hk & ->)] Hlt]; [lia|].
    destruct (Z.lt_ge_cases k 2) as [Hk2|Hk2].
    + assert (k = 0 \/ k = 1) as [-> | ->] by lia; rewrite ?Z.pow_0_r, ?Z.pow_1_r; lia.
    + exfalso. pose proof (Z.pow_le_mono_r p 2 k ltac:(lia) Hk2) as Hle. rewrite Z.pow_2_r in Hle. nia.
  - intros Hin. split; [|lia]. destruct (decide (g = 0)) as [->|Hne]; [by left|]. right.
    destruct (decide (g = 1)) as [->|Hne1]; [by exists 3, 0; auto with lia|].
    exists g, 1. rewrite Z.pow_1_r. lia.
Qed.

Section geometry.
Variable r : superblock.
Hypothesis Hr : cs_wf r.
Hypothesis Hbpg : 0 < s_blocks_per_group r.

Lemma mount_nbg_count : mount_nbg r = group_count r.
Proof.
  destruct (sb_field_range r Hr) as (_ & Hcount & Hb). unfold mount_nbg, group_count.
  set (n := s_blocks_count r) in *. set (m := s_blocks_per_group r) in *.
  pose proof (Z.div_mod n m ltac:(lia)) as Hdm. pose proof (Z.mod_pos_bound n m Hbpg).
  assert (0 <= n / m) by (apply Z.div_pos; lia).
  destruct (Z.eqb_spec (n mod m) 0) as [Hz|Hz].
  - apply Z.div_unique with (m - 1); nia.
  - rewrite u32_id by nia. apply Z.div_unique with (n mod m - 1); nia.
Qed.

Lemma group_start g : 0 <= g < group_count r -> 0 <= g * s_blocks_per_group r < s_blocks_count r.
Proof.
  intros [Hg Hn]. split; [nia|]. unfold group_count in Hn.
  pose proof (Z.mul_div_le (s_blocks_count r + s_blocks_per_group r - 1) (s_blocks_per_group r) Hbpg). nia.
Qed.

Lemma copy_block_fits g : 0 <= g < group_count r -> u32 (g * s_blocks_per_group r + mount_first r) = copy_block r g.
Proof.
  intros Hg%group_start. destruct (sb_field_range r Hr) as (_ & Hcount & _). unfold copy_block, mount_first.
  apply u32_id. destruct (s_log_block_size r =? 0); lia.
Qed.

Lemma mount_sparse_volume : mount_sparse r = 1 <-> sparse_volume r.
Proof.
  unfold mount_sparse, sparse_volume. assert (Hbit : Z.land (s_feature_ro_compat r) 1 = Z.b2z (Z.testbit (s_feature_ro_compat r) 0))
    by (rewrite Z.bit0_mod; apply (Z.land_ones _ 1); lia).
  rewrite Hbit. destruct (Z.eqb_spec (s_rev_level r) 1), (Z.testbit (s_feature_ro_compat r) 0); cbn; tauto || lia.
Qed.

(** The list of [ext2_mount] by the format. *)
Lemma mount_blocks_known b : b ∈ mount_blocks r <-> exists g, known_group r g /\ b = copy_block r g.
Proof.
  unfold mount_blocks. rewrite mount_nbg_count, list_elem_of_fmap.
  assert (Hg : forall g, g ∈ copy_groups (mount_sparse r) (group_count r) <-> known_group r g).
  { intros g. unfold copy_groups, known_group, holds_copy. destruct (Z.eqb_spec (mount_sparse r) 1) as [Hs|Hs].
    - rewrite mount_sparse_volume in Hs. rewrite list_elem_of_filter, elem_of_seqZ. split.
      + intros [Hsg Hin]. apply backup_group_sparse in Hsg; [|lia]. intuition lia.
      + intros [[Hin Hb] Hlt]. split; [|lia]. apply backup_group_sparse; [lia | auto].
    - rewrite mount_sparse_volume in Hs. rewrite elem_of_seqZ. intuition lia. }
  split; intros (g & Hx & Hy); exists g.
  - rewrite <- copy_block_fits by (by apply Hg in Hy as [[? _] _]). split; [by apply Hg | done].
  - rewrite copy_block_fits by (by destruct Hx as [[? _] _]). split; [done | by apply Hg].
Qed.
End geometry.

(** Updating the superblock keeps what the format says about its copies. *)
Record same_volume (r r' : superblock) : Prop := {
  sv_log : s_log_block_size r' = s_log_block_size r;
  sv_bpg : s_blocks_per_group r' = s_blocks_per_group r;
  sv_count : s_blocks_count r' = s_blocks_count r;
  sv_rev : s_rev_level r' = s_rev_level r;
  sv_feature : s_feature_ro_compat r' = s_feature_ro_compat r
}.

Lemma same_copies r r' g : same_volume r r' ->
  (known_group r' g <-> known_group r g) /\ copy_block r' g = copy_block r g /\
  (kept_copy r' g <-> kept_copy r g) /\ forall ps, copy_sector r' ps g = copy_sector r ps g.
Proof.
  intros [Hl Hb Hc Hv Hf]. unfold kept_copy, copy_sector, known_group, holds_copy, group_count, sparse_volume, copy_block.
  by rewrite Hl, Hb, Hc, Hv, Hf.
Qed.

Lemma same_count r r' : same_volume r r' -> group_count r' = group_count r.
Proof. intros [_ Hb Hc _ _]. unfold group_count. by rewrite Hb, Hc. Qed.

Lemma same_mounted now r : same_volume r (mounted_sb now r).
Proof. by destruct r. Qed.
Lemma same_nr k r : same_volume r (set_s_block_group_nr k r).
Proof. by destruct r. Qed.
Lemma same_state v r : same_volume r (set_s_state v r).
Proof. by destruct r. Qed.

Lemma lists_copies_same c c' :
  superblock_blocks c' = superblock_blocks c -> same_volume (ctx_superblock c) (ctx_superblock c') ->
  lists_copies c -> lists_copies c'.
Proof.
  intros Hb Hs Hc b. rewrite Hb, (Hc b). split; intros (g & Hg & ->); exists g;
    destruct (same_copies _ _ g Hs) as (Hk & Hbl & _); by rewrite Hbl, Hk in *.
Qed.

Section flushing.
Context {D : Type} `{BlockDeviceLaws D}.
Implicit Types (s t : cst D).

(** Where the driver writes the block of a known group: at its copy, but for the first group of a volume
    with larger blocks, whose copy is not at the start of its block. *)
Lemma known_sector c g : ctx_ok c -> known_group (ctx_superblock c) g ->
  sb_lba c (copy_block (ctx_superblock c) g) =
    if (g =? 0) && negb (s_log_block_size (ctx_superblock c) =? 0) then part_start c
    else copy_sector (ctx_superblock c) (part_start c) g.
Proof.
  intros Hc _. unfold sb_lba, copy_sector. rewrite spb_pow by exact Hc.
  assert (Hp : 2 ^ (s_log_block_size (ctx_superblock c) + 1) = 2 * 2 ^ s_log_block_size (ctx_superblock c))
    by (pose proof (ok_log c Hc); rewrite Z.pow_add_r by lia; lia).
  rewrite Hp. destruct (Z.eqb_spec g 0) as [->|]; cbn [andb]; [|lia]. unfold copy_block.
  destruct (Z.eqb_spec (s_log_block_size (ctx_superblock c)) 0) as [->|]; cbn [negb]; [|lia].
  change (2 ^ 0) with 1. lia.
Qed.

Lemma copies_ok_flushed s t k bf :
  copies_ok (c_ctx s) (c_dev s) -> c_ctx t = upd_superblock (set_s_block_group_nr k) (set_sysbuf bf (c_ctx s)) ->
  block_get_volume_size (c_dev t) = block_get_volume_size (c_dev s) -> copies_ok (c_ctx t) (c_dev t).
Proof.
  intros [Hn Hv] -> Hvol. split; [exact Hn|]. intros b Hb. unfold in_volume. rewrite Hvol.
  replace (sb_lba _ b) with (sb_lba (c_ctx s) b); [by apply Hv|]. unfold sb_lba, spb, bsz.
  cbn [ctx_superblock upd_superblock set_sysbuf part_start]. by rewrite s_log_block_size_set_nr.
Qed.

(** A flush, by the format. *)
Lemma flushed_copies s t :
  fs_ok s -> lists_copies (c_ctx s) -> flushed (superblock_blocks (c_ctx s)) s t ->
  let r := ctx_superblock (c_ctx s) in
  let ps := part_start (c_ctx s) in
  (forall g, kept_copy r g ->
     decode (dev_sector (c_dev t) (copy_sector r ps g)) = set_s_block_group_nr (u16 (copy_block r g)) r) /\
  (forall n, in_volume (c_dev s) n -> (forall g, kept_copy r g -> n <> copy_sector r ps g) ->
     (0 < s_log_block_size r -> n <> ps) -> dev_sector (c_dev t) n = dev_sector (c_dev s) n) /\
  (0 < s_log_block_size r -> 0 < group_count r ->
     decode (dev_sector (c_dev t) ps) = set_s_block_group_nr 0 r).
Proof.
  intros Hs Hlist [_ _ _ _ Hcp Hoth] r ps. pose proof (proj1 Hs) as Hc. split; [|split].
  - intros g [Hg Hz]. pose proof (known_sector _ g Hc Hg) as Hsec. fold r ps in Hsec.
    replace ((g =? 0) && negb (s_log_block_size r =? 0)) with false in Hsec
      by (destruct (Z.eqb_spec g 0) as [Hg0|]; [by rewrite (Hz Hg0) | done]).
    rewrite <- Hsec, Hcp; [apply decode_sb_image, Hc | apply Hlist; by exists g].
  - intros n Hn Hne Hps. apply Hoth; [done|]. intros b (g & Hg & ->)%Hlist.
    rewrite (known_sector _ g Hc Hg). fold r ps. pose proof (ok_log _ Hc) as Hlog. fold r in Hlog.
    destruct (Z.eqb_spec g 0) as [Hg0|Hg0]; cbn [andb]; [|by apply Hne].
    destruct (Z.eqb_spec (s_log_block_size r) 0) as [Hl|Hl]; cbn [negb]; [by apply Hne|]. apply Hps. lia.
  - intros Hl Hn. assert (Hk0 : known_group r 0) by (split; [split; [lia | by left] | lia]).
    pose proof (known_sector _ 0 Hc Hk0) as Hsec. fold r ps in Hsec.
    assert (Hl0 : (s_log_block_size r =? 0) = false) by (apply Z.eqb_neq; lia).
    assert (Hb : copy_block r 0 = 0) by (unfold copy_block; rewrite Hl0; lia).
    rewrite Hl0, Hb in Hsec. cbn [Z.eqb andb negb] in Hsec. rewrite <- Hsec, Hcp; [apply decode_sb_image, Hc|].
    apply Hlist. exists 0. fold r. by rewrite Hb.
Qed.
End flushing.

(** * Properties *)
Section copies_properties.
Context {D : Type} `{Env, BlockDeviceLaws D}.
Implicit Types (s : cst D).

(** C12: mounting a valid volume returns 0 with a well-formed context that lists the known copies; the
    kept copies of the superblock, at the sectors where the EXT2 format puts them, then carry the error
    state, the incremented mount count and the mount time. Kept are the copies of all groups, or, with
    the sparse feature, of the groups 0, 1, 3, 5 and 7, that of group 0 (the primary) only when blocks
    have 1 KiB: with larger blocks the driver writes to the first sector of the volume instead. No other
    sector changes. *)
Theorem mount_marks_mounted ps vs hint s :
  mountable (c_dev s) ps vs -> env_malloc (c_tick s) = true -> env_malloc (S (c_tick s)) = true ->
  let r := mount_sb (c_dev s) ps in
  let now := u32 (env_time (S (S (c_tick s)))) in
  exists s', ext2_mount ps vs hint s = Ok (0, s') /\ fs_ok s' /\ copies_ok (c_ctx s') (c_dev s') /\
    lists_copies (c_ctx s') /\ num_blockgroups (c_ctx s') = group_count r /\ part_start (c_ctx s') = ps /\
    (forall g, kept_copy r g -> decode (dev_sector (c_dev s') (copy_sector r ps g)) =
       set_s_block_group_nr (u16 (copy_block r g)) (mounted_sb now r)) /\
    (forall n, in_volume (c_dev s) n -> (forall g, kept_copy r g -> n <> copy_sector r ps g) ->
       (0 < s_log_block_size r -> n <> ps) -> dev_sector (c_dev s') n = dev_sector (c_dev s) n) /\
    (0 < s_log_block_size r -> 0 < group_count r ->
       decode (dev_sector (c_dev s') ps) = set_s_block_group_nr 0 (mounted_sb now r)).
Proof.
  intros Hmt Hm1 Hm2 r now. destruct (mount_run ps vs hint s Hmt Hm1 Hm2) as (s' & Hrun & Hfl).
  pose proof (prepared_has ps s) as Hp. revert Hp Hfl. generalize (prepared ps s). intros p Hp Hfl. fold now in Hp.
  destruct (prepared_ok now ps vs s p Hmt (fits_u32 _) Hp) as (Hok & Hco & _).
  pose proof (mount_sb_wf _ _ (mt_readable _ _ _ Hmt)) as Hr. pose proof (mt_bpg _ _ _ Hmt) as Hbpg.
  destruct Hp as [Hsb Hbl _ Hnb Hps _ _ _ Hdev]. fold r in Hsb, Hbl, Hnb, Hfl, Hr, Hbpg. clearbody r.
  pose proof (same_mounted now r) as Hsame. rewrite <- Hbl in Hfl. rewrite <- Hsb in Hsame.
  assert (Hlist : lists_copies (c_ctx p)).
  { intros b. rewrite Hbl, mount_blocks_known by done. split; intros (g & Hg & ->); exists g;
      destruct (same_copies _ _ g Hsame) as (Hk & Hcb & _); by rewrite Hcb, Hk in *. }
  destruct (flushed_copies p s' Hok Hlist Hfl) as (Hkept & Hrest & Hfirst). rewrite Hps, Hdev in *.
  pose proof Hfl as [Hok' (k & bf & Hctx) Hvol _ _ _]. rewrite Hdev in Hvol. exists s'. split; [done|]. split; [done|].
  split; [|split; [|split; [|split; [|split; [|split]]]]].
  - rewrite <- Hdev in Hco. eapply copies_ok_flushed; [exact Hco | exact Hctx | congruence].
  - apply (lists_copies_same (c_ctx p)); [by rewrite Hctx | rewrite Hctx; apply same_nr | exact Hlist].
  - rewrite Hctx. cbn. by rewrite Hnb, mount_nbg_count.
  - by rewrite Hctx.
  - intros g Hg. destruct (same_copies _ _ g Hsame) as (_ & Hcb & Hk & Hsec).
    rewrite <- Hcb, <- Hsb, <- Hsec. by apply Hkept, Hk.
  - intros n Hn Hne Hps'. apply Hrest; [done | | by rewrite (sv_log _ _ Hsame)].
    intros g Hg. destruct (same_copies _ _ g Hsame) as (_ & _ & Hk & Hsec). rewrite Hsec. by apply Hne, Hk.
  - intros Hl Hn. rewrite <- Hsb. apply Hfirst; rewrite ?(sv_log _ _ Hsame); [done|].
    by rewrite (same_count _ _ Hsame).
Qed.

(** C21: unmounting marks the kept copies of the superblock clean on the device, at the sectors where the
    EXT2 format puts them, keeps the rest of the structure, and changes no other sector. Those are all
    copies on a volume with blocks of 1 KiB and, when it has the sparse feature, at most nine groups
    ([every_copy_kept]). With larger blocks the primary is not among them, and the first sector of the
    volume is overwritten; copies in the groups 9, 25, 27 and so on of a sparse volume are not among them. *)
Theorem umount_marks_clean s :
  fs_ok s -> copies_ok (c_ctx s) (c_dev s) -> lists_copies (c_ctx s) ->
  let r := ctx_superblock (c_ctx s) in
  let ps := part_start (c_ctx s) in
  exists s', ext2_umount s = Ok (0, s') /\
    (forall g, kept_copy r g -> decode (dev_sector (c_dev s') (copy_sector r ps g)) =
       set_s_block_group_nr (u16 (copy_block r g)) (set_s_state EXT2_VALID_FS r)) /\
    (forall n, in_volume (c_dev s) n -> (forall g, kept_copy r g -> n <> copy_sector r ps g) ->
       (0 < s_log_block_size r -> n <> ps) -> dev_sector (c_dev s') n = dev_sector (c_dev s) n) /\
    (0 < s_log_block_size r -> 0 < group_count r ->
       decode (dev_sector (c_dev s') ps) = set_s_block_group_nr 0 (set_s_state EXT2_VALID_FS r)).
Proof.
  intros Hs Hco Hlist r ps. destruct (umount_run s Hs Hco) as (s' & Hrun & Hfl). exists s'. split; [done|].
  pose proof (same_state EXT2_VALID_FS r) as Hsame.
  assert (Hlist' : lists_copies (c_ctx (unmounting s))) by (by apply (lists_copies_same (c_ctx s))).
  destruct (flushed_copies (unmounting s) s' (unmounting_ok s Hs) Hlist' Hfl) as (Hkept & Hrest & Hfirst).
  change (ctx_superblock (c_ctx (unmounting s))) with (set_s_state EXT2_VALID_FS r) in *.
  change (part_start (c_ctx (unmounting s))) with ps in *. change (c_dev (unmounting s)) with (c_dev s) in *.
  split; [|split].
  - intros g Hg. destruct (same_copies _ _ g Hsame) as (_ & Hcb & Hk & Hsec). rewrite <- Hcb, <- Hsec. by apply Hkept, Hk.
  - intros n Hn Hne Hps'. apply Hrest; [done | | by rewrite (sv_log _ _ Hsame)].
    intros g Hg. destruct (same_copies _ _ g Hsame) as (_ & _ & Hk & Hsec). rewrite Hsec. by apply Hne, Hk.
  - intros Hl Hn. apply Hfirst; [by rewrite (sv_log _ _ Hsame) | by rewrite (same_count _ _ Hsame)].
Qed.
End copies_properties.
