(* ===== verification/FileBuf.v ===== *)
(** * Open files and their sector buffer

    [struct buffer_object], [struct file_ent] and the five static functions at
    the head of [src/src/embext.c]. A computation on an open file runs over
    [file_state]: the file and the mounted file system it points to.

    The buffer is a write-back cache of one sector. [view] is the device as it
    would be after the buffer is stored; the facts below say that storing and
    loading leave the view alone and that a write to the buffer is a write to
    one sector of the view. *)
From S2P Require Import Prelude Layout OnDisk Device Context.

Definition EMBEXT_MAGIC : Z := 0xEBEDDED2.

Record buffer_object : Type := mk_buffer {
  bo_buffer : list Z;
  bo_lba_block : Z;
  bo_dirty : Z
}.

Record file_ent : Type := mk_fe {
  fe_magic : Z;
  fe_flags : Z;
  fe_cursor : Z;
  fe_inode_number : Z;
  fe_buffer : buffer_object;
  fe_inode : inode;
  fe_rerrno : errno
}.

Definition set_fe_magic (v : Z) (f : file_ent) : file_ent :=
  mk_fe v (fe_flags f) (fe_cursor f) (fe_inode_number f) (fe_buffer f) (fe_inode f) (fe_rerrno f).
Definition set_fe_flags (v : Z) (f : file_ent) : file_ent :=
  mk_fe (fe_magic f) v (fe_cursor f) (fe_inode_number f) (fe_buffer f) (fe_inode f) (fe_rerrno f).
Definition set_fe_cursor (v : Z) (f : file_ent) : file_ent :=
  mk_fe (fe_magic f) (fe_flags f) v (fe_inode_number f) (fe_buffer f) (fe_inode f) (fe_rerrno f).
Definition set_fe_inode_number (v : Z) (f : file_ent) : file_ent :=
  mk_fe (fe_magic f) (fe_flags f) (fe_cursor f) v (fe_buffer f) (fe_inode f) (fe_rerrno f).
Definition set_fe_buffer (v : buffer_object) (f : file_ent) : file_ent :=
  mk_fe (fe_magic f) (fe_flags f) (fe_cursor f) (fe_inode_number f) v (fe_inode f) (fe_rerrno f).
Definition upd_fe_inode (g : inode -> inode) (f : file_ent) : file_ent :=
  mk_fe (fe_magic f) (fe_flags f) (fe_cursor f) (fe_inode_number f) (fe_buffer f)
    (g (fe_inode f)) (fe_rerrno f).
Definition set_fe_rerrno (v : errno) (f : file_ent) : file_ent :=
  mk_fe (fe_magic f) (fe_flags f) (fe_cursor f) (fe_inode_number f) (fe_buffer f) (fe_inode f) v.

Record file_state (D : Type) : Type := mk_fst {
  s_fe : file_ent;
  s_c : cst D
}.
Arguments mk_fst {D} _ _.
Arguments s_fe {D} _.
Arguments s_c {D} _.

Definition upd_fe {D} (g : file_ent -> file_ent) (s : file_state D) : file_state D :=
  mk_fst (g (s_fe s)) (s_c s).
Definition set_c {D} (c : cst D) (s : file_state D) : file_state D := mk_fst (s_fe s) c.

(** A computation of the mounted file system, run from an operation on an open file. *)
Definition on_ctx {D A} (m : M (cst D) A) : M (file_state D) A := zoom s_c set_c m.

(** [x & flag] as a condition. *)
Definition has_flag (x flag : Z) : bool := negb (Z.land x flag =? 0).

Section buffer_ops.
Context {D : Type} `{BlockDevice D}.

Definition fe : M (file_state D) file_ent := gets s_fe.
Definition fctx : M (file_state D) ext2context := gets (fun s => c_ctx (s_c s)).
(** [*rerrno = e], the caller's error number. *)
Definition rerrno (e : errno) : M (file_state D) unit :=
  modify (fun s => set_c (set_errno e (s_c s)) s).

(** [block_write(n, fe->buffer.buffer)] and [block_read(n, fe->buffer.buffer)]. *)
Definition write_filebuf (n : Z) : M (file_state D) Z := fun s =>
  '(rc, d) ← block_write n (bo_buffer (fe_buffer (s_fe s))) (c_dev (s_c s));
  Ok (rc, set_c (set_dev d (s_c s)) s).
Definition read_filebuf (n : Z) : M (file_state D) Z := fun s =>
  let b := fe_buffer (s_fe s) in
  '(rc, bs) ← block_read n (bo_buffer b) (c_dev (s_c s));
  Ok (rc, upd_fe (set_fe_buffer (mk_buffer bs (bo_lba_block b) (bo_dirty b))) s).

Definition ext2_store_buffer : M (file_state D) Z :=
  f ← fe;
  c ← fctx;
  rc ← write_filebuf (u32 (bo_lba_block (fe_buffer f) + part_start c));
  if negb (rc =? 0) then
    modify (upd_fe (set_fe_rerrno EIO)) ;;
    mret (-1)
  else
    modify (upd_fe (fun f => set_fe_buffer
      (mk_buffer (bo_buffer (fe_buffer f)) (bo_lba_block (fe_buffer f)) 0) f)) ;;
    mret 0.

(** The second half of [ext2_load_buffer]; the return code of [block_read] is ignored. *)
Definition fill_buffer (block_number offset : Z) : M (file_state D) Z :=
  c ← fctx;
  bs ← lift (ext2_block_size c);
  let lba := u32 (block_number * u32 (bs / block_get_block_size)) in
  let lba := u32 (lba + offset / 512 * (512 / block_get_block_size)) in
  modify (upd_fe (fun f => set_fe_buffer
    (mk_buffer (bo_buffer (fe_buffer f)) lba (bo_dirty (fe_buffer f))) f)) ;;
  read_filebuf (u32 (lba + part_start c)) ;;
  mret 0.

Definition ext2_load_buffer (block_number offset : Z) : M (file_state D) Z :=
  f ← fe;
  if negb (bo_dirty (fe_buffer f) =? 0) then
    rc ← ext2_store_buffer;
    if negb (rc =? 0) then mret (-1) else fill_buffer block_number offset
  else fill_buffer block_number offset.

(** Returns the [count] bytes copied to [dest]. *)
Definition ext2_read_buffer (offset count : Z) : M (file_state D) (list Z) := fun s =>
  bs ← mem_read (bo_buffer (fe_buffer (s_fe s))) (offset mod 512) count;
  Ok (bs, s).

Definition ext2_write_buffer (source : list Z) (offset : Z) : M (file_state D) Z := fun s =>
  let b := fe_buffer (s_fe s) in
  bs ← mem_write (bo_buffer b) (offset mod 512) source;
  Ok (0, upd_fe (set_fe_buffer (mk_buffer bs (bo_lba_block b) 1)) s).

Definition ext2_buffer_space : M (file_state D) Z :=
  f ← fe;
  c ← fctx;
  bs ← lift (ext2_block_size c);
  mret (u32 (bs - 1 - fe_cursor f mod 512)).
End buffer_ops.

(** * Facts *)

(** Sector [off / 512] of file system block [b]. *)
Definition block_lba (c : ext2context) (b off : Z) : Z := part_start c + b * spb c + off / 512.

(** The sector the buffer belongs to. *)
Definition buf_lba {D} (s : file_state D) : Z :=
  u32 (bo_lba_block (fe_buffer (s_fe s)) + part_start (c_ctx (s_c s))).

(** The device with the buffer stored. *)
Definition view {D} `{BlockView D} (s : file_state D) : D :=
  if bo_dirty (fe_buffer (s_fe s)) =? 0 then c_dev (s_c s)
  else dev_put (c_dev (s_c s)) (buf_lba s) (bo_buffer (fe_buffer (s_fe s))).

(** An open file whose members are values of their types and whose buffer, when dirty, belongs
    to a sector of the volume. *)
Record file_ok {D} `{BlockDevice D, BlockView D} (s : file_state D) : Prop := {
  fo_fs : fs_ok (s_c s);
  fo_buffer : sector_ok (bo_buffer (fe_buffer (s_fe s)));
  fo_dirty : bo_dirty (fe_buffer (s_fe s)) <> 0 -> in_volume (c_dev (s_c s)) (buf_lba s);
  fo_inode : cs_wf (fe_inode (s_fe s))
}.

Section buffer_facts.
Context {D : Type} `{BlockDeviceLaws D}.
Implicit Types (s : file_state D) (n b off : Z).

Lemma block_lba_u32 c b off :
  ctx_ok c -> 0 <= b -> 0 <= off -> 0 <= block_lba c b off < 4294967296 ->
  let lba := u32 (u32 (b * u32 (bsz c / block_get_block_size)) +
                  off / 512 * (512 / block_get_block_size)) in
  lba = b * spb c + off / 512 /\ u32 (lba + part_start c) = block_lba c b off.
Proof.
  intros Hc Hb Hoff Hr lba. unfold lba. change (512 / block_get_block_size) with 1.
  change block_get_block_size with 512. fold (spb c).
  pose proof (spb_ge c Hc). pose proof (ok_part c Hc).
  assert (0 <= off / 512) by (apply Z.div_pos; lia).
  autorewrite with embext. unfold block_lba in *. rewrite !u32_id by nia. nia.
Qed.

Lemma view_volume s n : file_ok s -> in_volume (view s) n <-> in_volume (c_dev (s_c s)) n.
Proof.
  intros [[_ Hd] Hb Hv _]. unfold view.
  destruct (Z.eqb_spec (bo_dirty (fe_buffer (s_fe s))) 0); [done|].
  by apply dev_put_in_volume; auto.
Qed.

Lemma view_ok s : file_ok s -> dev_ok (view s).
Proof.
  intros [[_ Hd] Hb Hv _]. unfold view.
  destruct (Z.eqb_spec (bo_dirty (fe_buffer (s_fe s))) 0); [done | apply dev_put_ok; auto].
Qed.

(** The file with its buffer stored, and with a sector loaded into its buffer. *)
Definition stored s : file_state D :=
  mk_fst (set_fe_buffer (mk_buffer (bo_buffer (fe_buffer (s_fe s))) (bo_lba_block (fe_buffer (s_fe s))) 0)
            (s_fe s))
    (set_dev (view s) (s_c s)).
Definition buffered b off s : file_state D :=
  mk_fst (set_fe_buffer (mk_buffer (dev_sector (view s) (block_lba (c_ctx (s_c s)) b off))
            (b * spb (c_ctx (s_c s)) + off / 512) 0) (s_fe s))
    (set_dev (view s) (s_c s)).

Lemma store_buffer_run s :
  file_ok s -> bo_dirty (fe_buffer (s_fe s)) <> 0 -> ext2_store_buffer s = Ok (0, stored s).
Proof.
  intros [[_ Hd] Hb Hv _] Hdirty. unfold ext2_store_buffer, fe, fctx. rewrite !bind_gets.
  unfold stored, view, buf_lba in *. destruct (Z.eqb_spec (bo_dirty (fe_buffer (s_fe s))) 0); [done|].
  unfold write_filebuf, mbind, M_bind, res_bind. by rewrite dev_write by auto.
Qed.

Lemma stored_ok s : file_ok s -> file_ok (stored s).
Proof.
  intros Hs. pose proof Hs as [[Hc Hd] Hb Hv Hi].
  split; [split; [done | by apply view_ok] | done | done | done].
Qed.

(** [ext2_load_buffer] makes the view the device and the buffer a clean copy of one sector. *)
Lemma fill_buffer_run b off s :
  file_ok s -> bo_dirty (fe_buffer (s_fe s)) = 0 -> 0 <= b -> 0 <= off ->
  in_volume (c_dev (s_c s)) (block_lba (c_ctx (s_c s)) b off) ->
  fill_buffer b off s = Ok (0, buffered b off s).
Proof.
  intros [[Hc Hd] [Hl Hb] _ _] Hclean Hb0 Ho Hv. unfold fill_buffer, fctx. rewrite bind_gets.
  erewrite bind_lift by (by apply block_size_ok).
  destruct (block_lba_u32 (c_ctx (s_c s)) b off) as [Hlba Hn];
    [done.. | by eapply in_volume_u32 |]. cbv zeta in Hlba, Hn |- *.
  rewrite Hn, Hlba, bind_modify. unfold read_filebuf, mbind, M_bind, res_bind. cbn [s_fe s_c upd_fe].
  rewrite dev_read by done. unfold buffered, view. rewrite Hclean. by destruct s as [? []].
Qed.

Lemma buffered_ok b off s :
  file_ok s -> in_volume (c_dev (s_c s)) (block_lba (c_ctx (s_c s)) b off) -> file_ok (buffered b off s).
Proof.
  intros Hs Hv. pose proof Hs as [[Hc Hd] Hb Hvol Hi]. split; [|  | done | done].
  - split; [done | by apply view_ok].
  - cbn. apply dev_sector_ok; [by apply view_ok | by apply view_volume].
Qed.

Lemma load_buffer_run b off s :
  file_ok s -> 0 <= b -> 0 <= off ->
  in_volume (c_dev (s_c s)) (block_lba (c_ctx (s_c s)) b off) ->
  ext2_load_buffer b off s = Ok (0, buffered b off s).
Proof.
  intros Hs Hb Ho Hv. unfold ext2_load_buffer, fe. rewrite bind_gets.
  destruct (Z.eqb_spec (bo_dirty (fe_buffer (s_fe s))) 0) as [Hd|Hd]; cbn [negb].
  - by apply fill_buffer_run.
  - erewrite bind_ok by (by apply store_buffer_run). cbn [Z.eqb negb].
    rewrite fill_buffer_run; [done | by apply stored_ok | done | done | done |].
    by apply view_volume.
Qed.

Lemma read_buffer_run off count s :
  file_ok s -> 0 <= count -> off mod 512 + count <= 512 ->
  ext2_read_buffer off count s = Ok (slice (off mod 512) count (bo_buffer (fe_buffer (s_fe s))), s).
Proof.
  intros [_ [Hl _] _ _] ? ?. unfold ext2_read_buffer, BLOCK_SIZE in *.
  pose proof (Z.mod_pos_bound off 512). by rewrite mem_read_ok by lia.
Qed.

Lemma read_buffer_overrun off count s :
  file_ok s -> 512 < off mod 512 + count -> ext2_read_buffer off count s = Fault OutOfBounds.
Proof.
  intros [_ [Hl _] _ _] ?. unfold ext2_read_buffer, BLOCK_SIZE in *. by rewrite mem_read_fault by lia.
Qed.

(** The file after a write to the buffer. *)
Definition poked off (src : list Z) s : file_state D :=
  let b := fe_buffer (s_fe s) in
  upd_fe (set_fe_buffer (mk_buffer (splice (off mod 512) src (bo_buffer b)) (bo_lba_block b) 1)) s.

Lemma write_buffer_run off src s :
  file_ok s -> off mod 512 + Z.of_nat (length src) <= 512 ->
  ext2_write_buffer src off s = Ok (0, poked off src s).
Proof.
  intros [_ [Hl _] _ _] ?. unfold ext2_write_buffer, BLOCK_SIZE in *.
  pose proof (Z.mod_pos_bound off 512). by rewrite mem_write_ok by lia.
Qed.

Lemma write_buffer_overrun off src s :
  file_ok s -> 512 < off mod 512 + Z.of_nat (length src) ->
  ext2_write_buffer src off s = Fault OutOfBounds.
Proof.
  intros [_ [Hl _] _ _] ?. unfold ext2_write_buffer, BLOCK_SIZE in *. by rewrite mem_write_fault by lia.
Qed.

(** The sector of a buffer that was just loaded. *)
Lemma poked_lba b off k src s :
  file_ok s -> 0 <= b -> 0 <= off ->
  in_volume (c_dev (s_c s)) (block_lba (c_ctx (s_c s)) b off) ->
  buf_lba (poked k src (buffered b off s)) = block_lba (c_ctx (s_c s)) b off.
Proof.
  intros [[Hc Hd] _ _ _] Hb Ho Hv. unfold buf_lba. cbn.
  destruct (block_lba_u32 (c_ctx (s_c s)) b off) as [Hlba Hn];
    [done.. | by eapply in_volume_u32 |]. cbv zeta in Hlba, Hn. by rewrite <- Hlba.
Qed.

(** A write to that buffer is a write to that sector of the view. *)
Lemma view_poked b off k src s :
  file_ok s -> 0 <= b -> 0 <= off ->
  in_volume (c_dev (s_c s)) (block_lba (c_ctx (s_c s)) b off) ->
  let n := block_lba (c_ctx (s_c s)) b off in
  view (poked k src (buffered b off s)) =
    dev_put (view s) n (splice (k mod 512) src (dev_sector (view s) n)).
Proof. intros Hs Hb Ho Hv n. unfold view at 1. rewrite poked_lba by done. done. Qed.

Lemma poked_ok b off k src s :
  file_ok s -> bytes_ok src -> 0 <= b -> 0 <= off ->
  k mod 512 + Z.of_nat (length src) <= 512 ->
  in_volume (c_dev (s_c s)) (block_lba (c_ctx (s_c s)) b off) ->
  file_ok (poked k src (buffered b off s)).
Proof.
  intros Hs Hsrc Hb Ho Hk Hv. destruct (buffered_ok b off s Hs Hv) as [Hfs Hbuf _ Hi].
  pose proof (Z.mod_pos_bound k 512).
  split; [done | by apply sector_ok_splice; [| |lia|] | | done].
  intros _. cbn. apply view_volume; [done|]. unfold buf_lba. cbn.
  destruct (block_lba_u32 (c_ctx (s_c s)) b off) as [Hlba Hn];
    [apply Hs | done.. | eapply in_volume_u32; [apply Hs | done] |]. cbv zeta in Hlba, Hn.
  by rewrite <- Hlba, Hn.
Qed.
End buffer_facts.
