(* ===== verification/Inode.v ===== *)
(** * Inodes of open files

    [ext2_open_inode], [ext2_flush_inode] and the two time updates of
    [src/src/embext.c]. The two functions compute the place of an inode in
    different ways; the round trip below says that they agree when the inode
    size divides a sector. *)
From S2P Require Import Prelude Layout OnDisk Device Context FileBuf.

Section inode_ops.
Context {D : Type} `{BlockDevice D}.

Definition ext2_update_atime `{Env} : M (file_state D) Z :=
  t ← on_ctx time;
  modify (upd_fe (upd_fe_inode (set_i_atime t))) ;;
  modify (upd_fe (fun f => set_fe_flags (Z.lor (fe_flags f) EXT2_FLAG_FS_DIRTY) f)) ;;
  mret 0.

Definition ext2_update_mtime `{Env} : M (file_state D) Z :=
  t ← on_ctx time;
  modify (upd_fe (upd_fe_inode (set_i_mtime t))) ;;
  modify (upd_fe (fun f => set_fe_flags (Z.lor (fe_flags f) EXT2_FLAG_FS_DIRTY) f)) ;;
  mret 0.

(** The body of the [if] of [ext2_flush_inode]. *)
Definition flush_inode_dirty (block_group inode_index : Z) : M (file_state D) unit :=
  '(_, obg) ← on_ctx (ext2_get_bg_descriptor None block_group);
  bg ← on_ctx (bg_val obg);
  c ← fctx;
  let size := s_inode_size (ctx_superblock c) in
  bs ← lift (ext2_block_size c);
  per_block ← lift (udiv bs size);
  q ← lift (udiv inode_index per_block);
  let inode_block := u32 (bg_inode_table bg + q) in
  ext2_load_buffer inode_block (u32 (inode_index * size) mod bs) ;;
  f ← fe;
  ext2_write_buffer (encode (fe_inode f)) (s32 (u32 (inode_index * size))) ;;
  ext2_store_buffer ;;
  modify (upd_fe (fun f => set_fe_flags (Z.land (fe_flags f) (Z.lnot EXT2_FLAG_FS_DIRTY)) f)).

Definition ext2_flush_inode : M (file_state D) Z :=
  f ← fe;
  c ← fctx;
  let ipg := s_inodes_per_group (ctx_superblock c) in
  block_group ← lift (udiv (u32 (fe_inode_number f - 1)) ipg);
  inode_index ← lift (umod (u32 (fe_inode_number f - 1)) ipg);
  (if has_flag (fe_flags f) EXT2_FLAG_FS_DIRTY
   then flush_inode_dirty block_group inode_index else mret tt) ;;
  mret 0.

Definition ext2_open_inode (ino : Z) : M (file_state D) Z :=
  c ← fctx;
  let r := ctx_superblock c in
  block_group ← lift (udiv (u32 (ino - 1)) (s_inodes_per_group r));
  inode_index ← lift (umod (u32 (ino - 1)) (s_inodes_per_group r));
  let bg_block := u32 (superblock_block c + 1) in
  if (s_inodes_count r <? ino) || (ino =? 0) then mret (-1)
  else
    let size := s_inode_size r in
    bg_block ← lift (shl32 bg_block (u32 (s_log_block_size r + 1)));
    let bg_block := u32 (bg_block + u32 (block_group * 32) / block_get_block_size) in
    on_ctx (read_sysbuf (u32 (bg_block + part_start c))) ;;
    bs ← on_ctx (get_sysbuf (u32 (block_group * 32) mod block_get_block_size)
                   (sizeof block_group_descriptor));
    inode_block ← lift (shl32 (bg_inode_table (decode bs)) (u32 (s_log_block_size r + 1)));
    per_sector ← lift (udiv block_get_block_size size);
    q ← lift (udiv inode_index per_sector);
    rem ← lift (umod inode_index per_sector);
    let inode_block := u32 (inode_block + q) in
    on_ctx (read_sysbuf (u32 (inode_block + part_start c))) ;;
    bs ← on_ctx (get_sysbuf (u32 (rem * size)) (sizeof inode));
    modify (upd_fe (fun f => set_fe_cursor 0 (set_fe_flags EXT2_FLAG_READ
      (set_fe_inode_number ino (upd_fe_inode (fun _ => decode bs) f))))) ;;
    mret 0.
End inode_ops.

(** * Facts *)

(** The group of an inode, its index in the group, and the sector and offset of its slot. *)
Definition ino_group (c : ext2context) (ino : Z) : Z := (ino - 1) / s_inodes_per_group (ctx_superblock c).
Definition ino_index (c : ext2context) (ino : Z) : Z := (ino - 1) mod s_inodes_per_group (ctx_superblock c).
Definition ino_desc {D} `{BlockView D} (c : ext2context) (d : D) (ino : Z) : block_group_descriptor :=
  bg_on_disk c d (superblock_block c) (ino_group c ino).
Definition ino_desc_lba (c : ext2context) (ino : Z) : Z :=
  bg_lba c (superblock_block c) (ino_group c ino).
Definition ino_lba {D} `{BlockView D} (c : ext2context) (d : D) (ino : Z) : Z :=
  part_start c + bg_inode_table (ino_desc c d ino) * spb c +
  ino_index c ino / (512 / s_inode_size (ctx_superblock c)).
Definition ino_off (c : ext2context) (ino : Z) : Z :=
  (ino_index c ino mod (512 / s_inode_size (ctx_superblock c))) * s_inode_size (ctx_superblock c).

(** The inode as stored on the device. *)
Definition inode_on_disk {D} `{BlockView D} (c : ext2context) (d : D) (ino : Z) : inode :=
  decode (slice (ino_off c ino) 128 (dev_sector d (ino_lba c d ino))).

(** [ino] has a slot: its group exists, and its descriptor and its slot are in the volume. *)
Record inode_located {D} `{BlockDevice D, BlockView D} (c : ext2context) (d : D) (ino : Z) : Prop := {
  il_ino : 0 < ino < 4294967296;
  il_count : ino <= s_inodes_count (ctx_superblock c);
  il_ipg : 0 < s_inodes_per_group (ctx_superblock c);
  il_size : s_inode_size (ctx_superblock c) ∈ [128; 256; 512];
  il_sbb : 0 <= superblock_block c;
  il_group : ino_group c ino < num_blockgroups c;
  il_groups : num_blockgroups c <= 134217728;
  il_desc : in_volume d (ino_desc_lba c ino);
  il_slot : in_volume d (ino_lba c d ino)
}.

(** The two address computations agree: counting the inodes of a sector, or of a block and then
    the sectors of the block, for [q] inodes of [size] bytes per sector. *)
Lemma slot_sector (size q k idx : Z) :
  0 < size -> size * q = 512 -> 0 < k -> 0 <= idx ->
  idx / (q * k) * k + ((idx * size) mod (512 * k)) / 512 = idx / q.
Proof.
  intros Hs Hq Hk Hi. assert (0 < q) by nia.
  rewrite (Z.rem_mul_r (idx * size) 512 k) by lia.
  replace (idx * size / 512) with (idx / q).
  - rewrite (Z.mul_comm 512), Z.div_add by lia.
    rewrite (Z.div_small (_ mod 512) 512) by (apply Z.mod_pos_bound; lia).
    rewrite <- Z.div_div by lia. pose proof (Z.div_mod (idx / q) k). lia.
  - rewrite <- Hq, (Z.mul_comm size q). by rewrite Z.div_mul_cancel_r by lia.
Qed.

Lemma slot_offset (size q idx : Z) :
  0 < size -> size * q = 512 -> (idx * size) mod 512 = idx mod q * size.
Proof. intros Hs Hq. rewrite <- Hq, (Z.mul_comm size q). apply Z.mul_mod_distr_r; nia. Qed.

Section inode_facts.
Context {D : Type} `{BlockDeviceLaws D}.
Implicit Types (s : file_state D) (c : ext2context) (d : D) (ino : Z).

(** The slots of a sector. *)
Lemma inode_slots c d ino :
  inode_located c d ino ->
  let size := s_inode_size (ctx_superblock c) in
  let q := 512 / size in
  128 <= size /\ 0 < q <= 4 /\ size * q = 512 /\ 0 <= ino_index c ino /\ 0 <= ino_group c ino /\
  0 <= ino_off c ino /\ ino_off c ino + 128 <= 512.
Proof.
  intros [Hino _ Hipg Hsize _ _ _ _ _] size q.
  assert (0 <= ino_index c ino) by (by apply Z.mod_pos_bound).
  assert (0 <= ino_group c ino) by (apply Z.div_pos; lia).
  unfold ino_off. fold size in Hsize |- *. fold q.
  assert (128 <= size /\ 0 < q <= 4 /\ size * q = 512) as (? & ? & ?).
  { unfold q. revert Hsize. rewrite !elem_of_cons, elem_of_nil.
    intros [-> |[-> |[-> |[]]]]; vm_compute; repeat split; congruence. }
  pose proof (Z.mod_pos_bound (ino_index c ino) q). repeat split; try nia.
Qed.

(** The state after [ext2_open_inode] read the slot of [ino]. *)
Definition opened ino s : file_state D :=
  let c := c_ctx (s_c s) in
  let d := c_dev (s_c s) in
  mk_fst (set_fe_cursor 0 (set_fe_flags EXT2_FLAG_READ (set_fe_inode_number ino
            (upd_fe_inode (fun _ => inode_on_disk c d ino) (s_fe s)))))
    (loaded (ino_lba c d ino) (s_c s)).

Lemma open_desc_u32 c d ino :
  ctx_ok c -> dev_ok d -> inode_located c d ino ->
  u32 (u32 (u32 (u32 (superblock_block c + 1) * spb c) + u32 (ino_group c ino * 32) / 512) + part_start c) =
    ino_desc_lba c ino /\ u32 (ino_group c ino * 32) mod 512 = 32 * (ino_group c ino mod 16).
Proof.
  intros Hc Hd Hil. pose proof (inode_slots c d ino Hil) as (_ & _ & _ & _ & Hg & _).
  destruct Hil as [_ _ _ _ _ Hgr Hgs Hdesc _]. apply in_volume_u32 in Hdesc; [|done].
  assert (u32 (ino_group c ino * 32) = 32 * ino_group c ino) as -> by (rewrite u32_id; lia).
  change 512 with (32 * 16). rewrite Z.mul_mod_distr_l, Z.div_mul_cancel_l by lia.
  split; [|done]. autorewrite with embext. unfold ino_desc_lba, bg_lba in *. rewrite u32_id; lia.
Qed.

Lemma ino_lba_u32 c d ino :
  ctx_ok c -> dev_ok d -> inode_located c d ino ->
  u32 (u32 (u32 (bg_inode_table (ino_desc c d ino) * spb c) +
            ino_index c ino / (512 / s_inode_size (ctx_superblock c))) + part_start c) = ino_lba c d ino.
Proof.
  intros Hc Hd [_ _ _ _ _ _ _ _ Hs]. apply in_volume_u32 in Hs; [|done].
  autorewrite with embext. unfold ino_lba in *. rewrite u32_id; lia.
Qed.

Lemma open_inode_run ino s :
  fs_ok (s_c s) -> inode_located (c_ctx (s_c s)) (c_dev (s_c s)) ino ->
  ext2_open_inode ino s = Ok (0, opened ino s).
Proof.
  intros [Hc Hd] Hil.
  destruct (inode_slots _ _ _ Hil) as (Hsz & Hq & Hsq & Hidx & Hg & Ho & Ho').
  destruct (open_desc_u32 _ _ _ Hc Hd Hil) as [Hlba Hoff].
  pose proof (ino_lba_u32 _ _ _ Hc Hd Hil) as Hslot.
  pose proof Hil as [Hino Hcount Hipg _ _ _ _ Hdesc Hin].
  unfold ext2_open_inode, fctx. rewrite bind_gets. set (c := c_ctx (s_c s)) in *.
  set (size := s_inode_size (ctx_superblock c)) in *.
  unfold udiv, umod. rewrite (u32_id (ino - 1)) by lia.
  destruct (Z.eqb_spec (s_inodes_per_group (ctx_superblock c)) 0); [lia|].
  rewrite (bind_lift _ _ _ _ eq_refl), (bind_lift _ _ _ _ eq_refl).
  fold (ino_group c ino) (ino_index c ino). cbv zeta.
  destruct (Z.ltb_spec (s_inodes_count (ctx_superblock c)) ino); [lia|].
  destruct (Z.eqb_spec ino 0); [lia|]. cbn [orb].
  erewrite bind_lift by (by apply shl32_block). change block_get_block_size with 512.
  rewrite Hlba, Hoff. change (sizeof block_group_descriptor) with 32. change (sizeof inode) with 128.
  erewrite bind_ok by (apply zoom_ok, read_sysbuf_ok; [done | exact Hdesc]).
  destruct (bg_slot_bounds (ino_group c ino)) as [? ?]; [lia|].
  erewrite bind_ok by (apply zoom_ok, get_sysbuf_ok; [by apply loaded_ok | lia | lia | lia]).
  cbn [s_c set_c]. unfold loaded at 1. cbn [c_ctx upd_ctx sysbuf set_sysbuf].
  change (decode (slice _ 32 _)) with (ino_desc c (c_dev (s_c s)) ino).
  erewrite bind_lift by (by apply shl32_block). fold size.
  destruct (Z.eqb_spec size 0); [lia|]. rewrite (bind_lift _ _ _ _ eq_refl).
  destruct (Z.eqb_spec (512 / size) 0); [lia|].
  rewrite (bind_lift _ _ _ _ eq_refl), (bind_lift _ _ _ _ eq_refl).
  rewrite Hslot. erewrite bind_ok by (apply zoom_ok, read_sysbuf_ok; [by apply loaded_ok | exact Hin]).
  assert (u32 (ino_index c ino mod (512 / size) * size) = ino_off c ino) as ->
    by (rewrite u32_id; [done|]; unfold ino_off in *; fold size in Ho, Ho'; lia).
  erewrite bind_ok by (apply zoom_ok, get_sysbuf_ok; [by apply loaded_ok; [apply loaded_ok|] | lia..]).
  done.
Qed.

(** Wrapping at 32 bits does not change an offset in a block or a sector. *)
Lemma u32_mod_bsz c x : ctx_ok c -> u32 x mod bsz c = x mod bsz c.
Proof.
  intros Hc. apply Z.mod_mod_divide. exists (2 ^ (22 - s_log_block_size (ctx_superblock c))).
  pose proof (ok_log c Hc). unfold bsz. rewrite Z.shiftl_mul_pow2 by lia.
  change 1024 with (2 ^ 10). rewrite <- Z.pow_add_r, <- Z.pow_add_r by lia.
  change 4294967296 with (2 ^ 32). f_equal. lia.
Qed.

Lemma s32_mod_512 x : s32 x mod 512 = x mod 512.
Proof.
  unfold s32. rewrite Zminus_mod, (Z.mod_mod_divide _ 4294967296 512) by (by exists 8388608).
  change (2147483648 mod 512) with 0. rewrite Z.sub_0_r, Z.mod_mod by lia.
  replace (x + 2147483648) with (x + 4194304 * 512) by lia. apply Z_mod_plus_full.
Qed.

(** Block and offset of the slot as [ext2_flush_inode] computes them. *)
Lemma flush_slot c d ino :
  ctx_ok c -> dev_ok d -> inode_located c d ino -> 0 <= bg_inode_table (ino_desc c d ino) ->
  let size := s_inode_size (ctx_superblock c) in
  let b := u32 (bg_inode_table (ino_desc c d ino) + ino_index c ino / (bsz c / size)) in
  let off := u32 (ino_index c ino * size) mod bsz c in
  0 < bsz c / size /\ 0 <= b /\ 0 <= off /\ block_lba c b off = ino_lba c d ino /\
  s32 (u32 (ino_index c ino * size)) mod 512 = ino_off c ino.
Proof.
  intros Hc Hd Hil Ht size b off.
  destruct (inode_slots _ _ _ Hil) as (Hsz & Hq & Hsq & Hidx & _). fold size in Hsz, Hq, Hsq.
  set (q := 512 / size) in *. pose proof (spb_ge c Hc).
  assert (bsz c / size = q * spb c) as Hbs.
  { rewrite bsz_spb, <- Hsq by done. rewrite <- Z.mul_assoc, (Z.mul_comm size), Z.div_mul by lia. done. }
  pose proof (slot_sector size q (spb c) (ino_index c ino) ltac:(lia) Hsq ltac:(lia) Hidx) as Hss.
  pose proof (in_volume_u32 _ _ Hd (il_slot _ _ _ Hil)) as Hn. unfold ino_lba in Hn |- *. fold size q in Hn |- *.
  unfold off, b, block_lba, ino_off. fold size q. rewrite u32_mod_bsz, Hbs, (bsz_spb c) by done.
  pose proof (ok_part c Hc). pose proof (Z.mod_pos_bound (ino_index c ino * size) (512 * spb c)).
  assert (0 <= ino_index c ino / (q * spb c)) by (apply Z.div_pos; nia).
  assert (0 <= (ino_index c ino * size) mod (512 * spb c) / 512) by (apply Z.div_pos; lia).
  rewrite (u32_id (bg_inode_table _ + _)) by nia.
  split; [apply Z.mul_pos_pos; lia|]. split; [lia|]. split; [lia|]. split.
  - nia.
  - rewrite s32_mod_512. unfold u32. rewrite Z.mod_mod_divide by (by exists 8388608).
    by apply slot_offset; lia.
Qed.

Lemma ino_desc_wf c d ino : dev_ok d -> inode_located c d ino -> cs_wf (ino_desc c d ino).
Proof.
  intros Hd Hil. unfold ino_desc. apply bg_on_disk_wf; [done | | apply Hil]. by apply (inode_slots c d ino).
Qed.

Lemma ino_table_pos c d ino : dev_ok d -> inode_located c d ino -> 0 <= bg_inode_table (ino_desc c d ino).
Proof.
  intros Hd Hil. pose proof (ino_desc_wf c d ino Hd Hil) as Hwf.
  eapply (cs_wf_lookup _ 2) in Hwf; [|done..]. apply Hwf.
Qed.

(** The sector of the slot with the file's inode in it. *)
Definition flushed_sector s : list Z :=
  let c := c_ctx (s_c s) in
  let ino := fe_inode_number (s_fe s) in
  splice (ino_off c ino) (encode (fe_inode (s_fe s)))
    (dev_sector (view s) (ino_lba c (c_dev (s_c s)) ino)).

(** The file after [flush_inode_dirty]: the slot's sector was loaded, overwritten and stored. *)
Definition flushed_inode s : file_state D :=
  let c := c_ctx (s_c s) in
  let ino := fe_inode_number (s_fe s) in
  let size := s_inode_size (ctx_superblock c) in
  let s1 := set_c (loaded (ino_desc_lba c ino) (s_c s)) s in
  let b := u32 (bg_inode_table (ino_desc c (c_dev (s_c s)) ino) + ino_index c ino / (bsz c / size)) in
  upd_fe (fun f => set_fe_flags (Z.land (fe_flags f) (Z.lnot EXT2_FLAG_FS_DIRTY)) f)
    (stored (poked (s32 (u32 (ino_index c ino * size))) (encode (fe_inode (s_fe s)))
       (buffered b (u32 (ino_index c ino * size) mod bsz c) s1))).

Lemma loaded_file_ok n s :
  file_ok s -> in_volume (c_dev (s_c s)) n -> file_ok (set_c (loaded n (s_c s)) s).
Proof. intros [] ?. by split; [apply loaded_ok | ..]. Qed.

Lemma flush_inode_dirty_run ino s :
  file_ok s -> fe_inode_number (s_fe s) = ino -> inode_located (c_ctx (s_c s)) (c_dev (s_c s)) ino ->
  flush_inode_dirty (ino_group (c_ctx (s_c s)) ino) (ino_index (c_ctx (s_c s)) ino) s =
    Ok (tt, flushed_inode s) /\ file_ok (flushed_inode s).
Proof.
  intros Hs Heq Hil. unfold flushed_inode. rewrite Heq. destruct s as [f [c d e t]].
  pose proof Hs as [[Hc Hd] _ _ Hi]. cbn [s_c s_fe c_ctx c_dev] in *.
  destruct (inode_slots _ _ _ Hil) as (Hsz & _ & _ & _ & Hg & Ho & Ho').
  pose proof (ino_table_pos _ _ _ Hd Hil) as Htab.
  destruct (flush_slot _ _ _ Hc Hd Hil Htab) as (Hper & Hb & Hoff & Hlba & Hpos).
  pose proof Hil as [_ _ _ _ _ Hgr _ Hdesc Hslot].
  pose proof (loaded_file_ok _ _ Hs Hdesc) as Hs1. cbn [s_c] in Hs1.
  set (s1 := set_c _ _) in Hs1 |- *.
  assert (Hget : on_ctx (ext2_get_bg_descriptor None (ino_group c ino)) (mk_fst f (mk_cst c d e t)) =
    Ok ((0, Some (ino_desc c d ino)), s1))
    by (unfold ino_desc, on_ctx; apply zoom_ok, get_bg_run; [apply Hs | done | exact Hdesc]).
  set (b := u32 _) in *. set (k := s32 _) in *. set (off := _ mod bsz c) in *.
  assert (Hv : in_volume (c_dev (s_c s1)) (block_lba (c_ctx (s_c s1)) b off)).
  { change (in_volume d (block_lba c b off)). by rewrite Hlba. }
  assert (Hlen : k mod 512 + Z.of_nat (length (encode (fe_inode f))) <= 512)
    by (rewrite Hpos, length_encode by done; change (sizeof inode) with 128; lia).
  assert (Hpoked : file_ok (poked k (encode (fe_inode f)) (buffered b off s1)))
    by (by apply poked_ok; [| auto with bytes | ..]).
  split; [|by destruct (stored_ok _ Hpoked)].
  unfold flush_inode_dirty. erewrite bind_ok by exact Hget. cbn beta iota.
  erewrite bind_ok by reflexivity. unfold fctx. rewrite bind_gets. cbv zeta.
  change (set_c (s_c s1) s1) with s1.
  change (ctx_superblock (c_ctx (s_c s1))) with (ctx_superblock c).
  erewrite bind_lift by (by apply (block_size_ok c)).
  erewrite bind_lift by (apply udiv_ok; lia). erewrite bind_lift by (apply udiv_ok; lia).
  fold b k off. erewrite bind_ok by (by apply load_buffer_run). unfold fe. rewrite bind_gets.
  erewrite bind_ok by (apply write_buffer_run; [by apply buffered_ok | exact Hlen]).
  erewrite bind_ok; [done|].
  by apply store_buffer_run.
Qed.

Lemma flush_inode_run ino s :
  file_ok s -> fe_inode_number (s_fe s) = ino -> inode_located (c_ctx (s_c s)) (c_dev (s_c s)) ino ->
  has_flag (fe_flags (s_fe s)) EXT2_FLAG_FS_DIRTY = true ->
  ext2_flush_inode s = Ok (0, flushed_inode s).
Proof.
  intros Hs Heq Hil Hflag. pose proof Hil as [Hino _ Hipg _ _ _ _ _ _].
  unfold ext2_flush_inode, fe, fctx. rewrite !bind_gets, Heq, u32_id by lia.
  erewrite bind_lift by (apply udiv_ok; lia). erewrite bind_lift by (apply umod_ok; lia).
  rewrite Hflag. by erewrite bind_ok by (by apply flush_inode_dirty_run).
Qed.

Lemma flushed_ok ino s :
  file_ok s -> fe_inode_number (s_fe s) = ino -> inode_located (c_ctx (s_c s)) (c_dev (s_c s)) ino ->
  file_ok (flushed_inode s).
Proof. intros. by eapply flush_inode_dirty_run. Qed.
End inode_facts.

(** * Properties *)
Section inode_properties.
Context {D : Type} `{BlockDeviceLaws D}.
Implicit Types (s : file_state D) (c : ext2context) (d : D) (ino : Z).

(** The sector of the slot of [ino] with the file's inode in it. *)
Definition slot_with_inode ino s : list Z :=
  splice (ino_off (c_ctx (s_c s)) ino) (encode (fe_inode (s_fe s)))
    (dev_sector (view s) (ino_lba (c_ctx (s_c s)) (c_dev (s_c s)) ino)).

Lemma slot_with_inode_ok ino s :
  file_ok s -> inode_located (c_ctx (s_c s)) (c_dev (s_c s)) ino -> sector_ok (slot_with_inode ino s).
Proof.
  intros Hs Hil. destruct (inode_slots _ _ _ Hil) as (_ & _ & _ & _ & _ & Ho & Ho').
  apply sector_ok_splice; [| auto with bytes | done |].
  - apply dev_sector_ok; [by apply view_ok | by apply view_volume; [|apply Hil]].
  - rewrite length_encode by apply Hs. change (sizeof inode) with 128. unfold BLOCK_SIZE. lia.
Qed.

(** The device after a flush: the view of the file with the slot's sector replaced. *)
Lemma flushed_dev ino s :
  file_ok s -> fe_inode_number (s_fe s) = ino -> inode_located (c_ctx (s_c s)) (c_dev (s_c s)) ino ->
  let n := ino_lba (c_ctx (s_c s)) (c_dev (s_c s)) ino in
  c_dev (s_c (flushed_inode s)) =
    dev_put (view s) n (slot_with_inode ino s).
Proof.
  intros Hs Heq Hil n. destruct s as [f [c d e t]]. cbn [s_c s_fe c_ctx c_dev] in *.
  pose proof Hs as [[Hc Hd] _ _ Hi]. cbn [s_c s_fe c_ctx c_dev] in *.
  pose proof (ino_table_pos _ _ _ Hd Hil) as Htab.
  destruct (flush_slot _ _ _ Hc Hd Hil Htab) as (_ & Hb & Hoff & Hlba & Hpos).
  pose proof (loaded_file_ok _ _ Hs (il_desc _ _ _ Hil)) as Hs1. cbn [s_c] in Hs1.
  unfold flushed_inode. cbn [s_c s_fe c_ctx c_dev]. rewrite Heq.
  set (s1 := set_c _ _) in Hs1 |- *. cbn [s_c upd_fe stored c_dev set_dev].
  rewrite view_poked; [|done..|].
  - change (c_ctx (s_c s1)) with (set_sysbuf (sysbuf (c_ctx (s_c s1))) c).
    change (block_lba (set_sysbuf _ c)) with (block_lba c).
    rewrite Hlba, Hpos. done.
  - change (in_volume d (block_lba c
      (u32 (bg_inode_table (ino_desc c d ino) +
            ino_index c ino / (bsz c / s_inode_size (ctx_superblock c))))
      (u32 (ino_index c ino * s_inode_size (ctx_superblock c)) mod bsz c))).
    rewrite Hlba. apply Hil.
Qed.

(** The slot reads back as the inode; nothing else differs from the view. *)
Lemma flushed_slot ino s :
  file_ok s -> fe_inode_number (s_fe s) = ino -> inode_located (c_ctx (s_c s)) (c_dev (s_c s)) ino ->
  let c := c_ctx (s_c s) in
  let n := ino_lba c (c_dev (s_c s)) ino in
  let d := c_dev (s_c (flushed_inode s)) in
  decode (slice (ino_off c ino) 128 (dev_sector d n)) = fe_inode (s_fe s) /\
  (forall off k, 0 <= off -> 0 <= k -> off + k <= ino_off c ino \/ ino_off c ino + 128 <= off ->
     slice off k (dev_sector d n) = slice off k (dev_sector (view s) n)) /\
  (forall m, in_volume (c_dev (s_c s)) m -> m <> n -> dev_sector d m = dev_sector (view s) m).
Proof.
  intros Hs Heq Hil c n d.
  assert (Hn : in_volume (view s) n) by (apply view_volume; [done | apply Hil]).
  pose proof (view_ok s Hs) as Hv. pose proof (dev_sector_ok _ _ Hv Hn) as [Hlen _].
  pose proof (slot_with_inode_ok ino s Hs Hil) as Hsec.
  destruct (inode_slots _ _ _ Hil) as (_ & _ & _ & _ & _ & Ho & Ho'). fold c in Ho, Ho'.
  unfold BLOCK_SIZE in Hlen. pose proof (length_encode _ (fo_inode _ Hs)) as Hle.
  change (sizeof inode) with 128 in Hle.
  unfold d. rewrite (flushed_dev ino) by done. fold c n. rewrite dev_put_same by done.
  split; [|split].
  - unfold slot_with_inode. fold c n.
    change 128 with (sizeof inode). apply decode_slice_splice; [apply Hs | done | change (sizeof inode) with 128; lia].
  - intros off k Hoff Hk Hd. unfold slot_with_inode. fold c n. apply slice_splice_disjoint; lia.
  - intros m Hm Hne. apply dev_put_other; try done. by apply view_volume.
Qed.

(** The state after the flush is well-formed, its device one of the same volume. *)
Lemma flushed_volume ino s :
  file_ok s -> fe_inode_number (s_fe s) = ino -> inode_located (c_ctx (s_c s)) (c_dev (s_c s)) ino ->
  fs_ok (s_c (flushed_inode s)) /\
  forall m, in_volume (c_dev (s_c (flushed_inode s))) m <-> in_volume (c_dev (s_c s)) m.
Proof.
  intros Hs Heq Hil. pose proof (view_ok s Hs) as Hv. pose proof (slot_with_inode_ok ino s Hs Hil) as Hsec.
  assert (Hn : in_volume (view s) (ino_lba (c_ctx (s_c s)) (c_dev (s_c s)) ino))
    by (apply view_volume; [done | apply Hil]).
  split; [by apply (flushed_ok ino)|].
  rewrite (flushed_dev ino) by done.
  intros m. rewrite dev_put_in_volume by done. by apply view_volume.
Qed.

(** An inode has the same slot on a device of the same volume with the same descriptor sector. *)
Lemma located_same c d d' ino :
  (forall m, in_volume d' m <-> in_volume d m) ->
  dev_sector d' (ino_desc_lba c ino) = dev_sector d (ino_desc_lba c ino) ->
  inode_located c d ino -> ino_lba c d' ino = ino_lba c d ino /\ inode_located c d' ino.
Proof.
  intros Hvol Hdesc Hil. assert (Hlba : ino_lba c d' ino = ino_lba c d ino).
  { unfold ino_lba, ino_desc, bg_on_disk. unfold ino_desc_lba in Hdesc. by rewrite Hdesc. }
  split; [done|]. destruct Hil. split; try done; [by apply Hvol|]. apply Hvol. by rewrite Hlba.
Qed.

(** Flushing a modified inode returns 0, clears the dirty flag and leaves a clean buffer; on
    the device the inode's slot holds the inode, the rest of its sector and every other sector
    are what the file's view of the device was. *)
Lemma flush_inode_writes_slot ino s :
  file_ok s -> fe_inode_number (s_fe s) = ino -> inode_located (c_ctx (s_c s)) (c_dev (s_c s)) ino ->
  has_flag (fe_flags (s_fe s)) EXT2_FLAG_FS_DIRTY = true ->
  let c := c_ctx (s_c s) in
  let n := ino_lba c (c_dev (s_c s)) ino in
  exists s', ext2_flush_inode s = Ok (0, s') /\
    has_flag (fe_flags (s_fe s')) EXT2_FLAG_FS_DIRTY = false /\
    bo_dirty (fe_buffer (s_fe s')) = 0 /\ fe_inode (s_fe s') = fe_inode (s_fe s) /\
    decode (slice (ino_off c ino) 128 (dev_sector (c_dev (s_c s')) n)) = fe_inode (s_fe s) /\
    (forall off k, 0 <= off -> 0 <= k -> off + k <= ino_off c ino \/ ino_off c ino + 128 <= off ->
       slice off k (dev_sector (c_dev (s_c s')) n) = slice off k (dev_sector (view s) n)) /\
    (forall m, in_volume (c_dev (s_c s)) m -> m <> n ->
       dev_sector (c_dev (s_c s')) m = dev_sector (view s) m).
Proof.
  intros Hs Heq Hil Hflag c n. exists (flushed_inode s).
  split; [by eapply flush_inode_run|]. split.
  { unfold has_flag. cbn. rewrite <- Z.land_assoc.
    change (Z.land (Z.lnot EXT2_FLAG_FS_DIRTY) EXT2_FLAG_FS_DIRTY) with 0. by rewrite Z.land_0_r. }
  split; [done|]. split; [done|]. by apply flushed_slot.
Qed.

(** C11: an inode that was flushed is the inode that [ext2_open_inode] reads back on any file of
    the same volume, although the two functions compute its place differently: when neither the
    slot nor the unwritten buffer shares a sector with the inode's group descriptor. *)
Theorem flush_open_roundtrip ino s g :
  file_ok s -> fe_inode_number (s_fe s) = ino -> inode_located (c_ctx (s_c s)) (c_dev (s_c s)) ino ->
  has_flag (fe_flags (s_fe s)) EXT2_FLAG_FS_DIRTY = true ->
  let c := c_ctx (s_c s) in
  ino_lba c (c_dev (s_c s)) ino <> ino_desc_lba c ino ->
  (bo_dirty (fe_buffer (s_fe s)) <> 0 -> buf_lba s <> ino_desc_lba c ino) ->
  exists s' s'', ext2_flush_inode s = Ok (0, s') /\
    ext2_open_inode ino (mk_fst g (s_c s')) = Ok (0, s'') /\
    fe_inode (s_fe s'') = fe_inode (s_fe s) /\ fe_inode_number (s_fe s'') = ino /\
    fe_cursor (s_fe s'') = 0 /\ fe_flags (s_fe s'') = EXT2_FLAG_READ.
Proof.
  intros Hs Heq Hil Hflag c Hne Hbuf. destruct (flushed_volume ino s Hs Heq Hil) as [Hdev Hvol].
  destruct (flushed_slot ino s Hs Heq Hil) as (Hslot & _ & Hother). fold c in Hslot, Hother.
  assert (Hctx : c_ctx (s_c (flushed_inode s)) = set_sysbuf (sysbuf (c_ctx (s_c (flushed_inode s)))) c) by done.
  destruct (located_same c (c_dev (s_c s)) (c_dev (s_c (flushed_inode s))) ino Hvol) as [Hlba Hil']; [|exact Hil|].
  { rewrite Hother; [|apply Hil | by apply not_eq_sym]. unfold view.
    destruct (Z.eqb_spec (bo_dirty (fe_buffer (s_fe s))) 0); [done|].
    rewrite dev_put_other; try done; try apply Hs; try done; [apply Hil | by apply not_eq_sym, Hbuf]. }
  exists (flushed_inode s), (opened ino (mk_fst g (s_c (flushed_inode s)))).
  split; [by eapply flush_inode_run|]. split.
  - apply open_inode_run.
    + exact Hdev.
    + cbn [s_c]. rewrite Hctx. destruct Hil'. by split.
  - split; [|done]. unfold opened, inode_on_disk. cbn [s_c s_fe fe_inode set_fe_cursor set_fe_flags
      set_fe_inode_number upd_fe_inode]. rewrite Hctx. change (ino_lba (set_sysbuf _ c)) with (ino_lba c).
    change (ino_off (set_sysbuf _ c)) with (ino_off c). by rewrite Hlba.
Qed.

(** An inode number of 0 or above the inode count is refused: [ext2_open_inode] returns -1
    and changes nothing. *)
Lemma open_inode_error ino s :
  0 < s_inodes_per_group (ctx_superblock (c_ctx (s_c s))) ->
  ino = 0 \/ s_inodes_count (ctx_superblock (c_ctx (s_c s))) < ino ->
  ext2_open_inode ino s = Ok (-1, s).
Proof.
  intros Hipg Hbad. unfold ext2_open_inode, fctx. rewrite bind_gets.
  erewrite bind_lift by (apply udiv_ok; lia). erewrite bind_lift by (apply umod_ok; lia).
  destruct (Z.ltb_spec (s_inodes_count (ctx_superblock (c_ctx (s_c s)))) ino); [done|].
  destruct (Z.eqb_spec ino 0); [done | lia].
Qed.
End inode_properties.
