(* ===== verification/BlockMap.v ===== *)
(** * From a file offset to a block

    [ext2_block_from_offset] of [src/src/embext.c]: direct, indirect, doubly and
    triply indirect blocks, read through the file's sector buffer. The reference
    is [map_block], which walks the tree of blocks on the view of the device. *)
From S2P Require Import Prelude Layout OnDisk Device Context FileBuf.

Section block_map_ops.
Context {D : Type} `{BlockDevice D}.

(** [ext2_load_buffer(fe, block, off); ext2_read_buffer(&entry, &fe->buffer, off, 4)], the pair
    of calls that reads one entry of an indirect block. *)
Definition indirect_entry (block off : Z) : M (file_state D) Z :=
  ext2_load_buffer block off ;;
  bs ← ext2_read_buffer (s32 off) 4;
  mret (le_to_Z bs).

Definition ext2_block_from_offset (offset : Z) : M (file_state D) Z :=
  f ← fe;
  c ← fctx;
  bs ← lift (ext2_block_size c);
  let i_blocks := i_block (fe_inode f) in
  let block_index := u32 (offset / bs) in
  let ie := bs / 4 in
  if block_index <? 12 then lift (arr_get i_blocks block_index)
  else
    let block_index := u32 (block_index - 12) in
    if block_index <? ie then
      b ← lift (arr_get i_blocks 12);
      indirect_entry b (u32 (block_index * 4))
    else
      let block_index := u32 (block_index - ie) in
      let ie2 := u32 (ie * ie) in
      if block_index <? ie2 then
        b ← lift (arr_get i_blocks 13);
        q ← lift (udiv block_index ie);
        b ← indirect_entry b (u32 (q * 4));
        r ← lift (umod block_index ie);
        indirect_entry b (u32 (r * 4))
      else
        let block_index := u32 (block_index - ie2) in
        let ie3 := u32 (ie2 * ie) in
        if block_index <? ie3 then
          b ← lift (arr_get i_blocks 14);
          q ← lift (udiv block_index ie2);
          b ← indirect_entry b (u32 (q * 4));
          q ← lift (udiv block_index ie);
          r ← lift (umod q ie);
          b ← indirect_entry b (u32 (r * 4));
          r ← lift (umod block_index ie);
          indirect_entry b (u32 (r * 4))
        else mret (u32 (-1)).
End block_map_ops.

(** * The reference mapping *)

(** The member of [i_block] that block [idx] of a file starts from, and the entries to follow
    from there, for [ie] entries per block. *)
Definition block_path (ie idx : Z) : option (Z * list Z) :=
  if idx <? 12 then Some (idx, [])
  else
    let k := idx - 12 in
    if k <? ie then Some (12, [k])
    else
      let k := k - ie in
      if k <? ie * ie then Some (13, [k / ie; k mod ie])
      else
        let k := k - ie * ie in
        if k <? ie * ie * ie then Some (14, [k / (ie * ie); (k / ie) mod ie; k mod ie])
        else None.

Section mapping.
Context {D : Type} `{BlockDevice D, BlockView D}.
Implicit Types (c : ext2context) (d : D).

(** Entry [i] of indirect block [b]. *)
Definition entry c d (b i : Z) : Z :=
  le_to_Z (slice ((i * 4) mod 512) 4 (dev_sector d (block_lba c b (i * 4)))).

Fixpoint follow c d (b : Z) (path : list Z) : Z :=
  match path with
  | [] => b
  | i :: path' => follow c d (entry c d b i) path'
  end.

(** Every entry on the way is an entry of a block and in the volume. *)
Fixpoint path_ok c d (b : Z) (path : list Z) : Prop :=
  match path with
  | [] => True
  | i :: path' =>
      0 <= i < 268435456 /\ in_volume d (block_lba c b (i * 4)) /\ path_ok c d (entry c d b i) path'
  end.

(** Block [idx] of the file with inode [ino]; 0 is a hole. *)
Definition map_block c d (ino : inode) (idx : Z) : option Z :=
  '(k, path) ← block_path (bsz c / 4) idx;
  b ← i_block ino !! Z.to_nat k;
  Some (follow c d b path).
Definition map_ok c d (ino : inode) (idx : Z) : Prop :=
  match block_path (bsz c / 4) idx with
  | Some (k, path) => exists b, i_block ino !! Z.to_nat k = Some b /\ path_ok c d b path
  | None => False
  end.
End mapping.

(** * Facts *)

(** Only the sector buffer and what it caches differ: the view is the same. *)
Record buf_only {D} `{BlockDevice D, BlockView D} (s s' : file_state D) : Prop := {
  bu_view : view s' = view s;
  bu_ok : file_ok s -> file_ok s';
  bu_fe : exists b, s_fe s' = set_fe_buffer b (s_fe s);
  bu_c : exists d, s_c s' = set_dev d (s_c s);
  bu_clean : bo_dirty (fe_buffer (s_fe s)) = 0 -> bo_dirty (fe_buffer (s_fe s')) = 0
}.

#[export] Instance buf_only_preorder {D} `{BlockDevice D, BlockView D} : PreOrder (@buf_only D _ _).
Proof.
  split.
  - intros [[] []]. split; [done | done | by eexists | by eexists | done].
  - intros s1 s2 s3 [Hv1 Ho1 [b1 Hb1] [d1 Hd1] Hc1] [Hv2 Ho2 [b2 Hb2] [d2 Hd2] Hc2].
    split; [by rewrite Hv2 | auto | exists b2; by rewrite Hb2, Hb1 | exists d2; by rewrite Hd2, Hd1 | auto].
Qed.

Section map_facts.
Context {D : Type} `{BlockDeviceLaws D}.
Implicit Types (s : file_state D) (c : ext2context) (d : D).

Lemma buf_only_ctx s s' : buf_only s s' -> c_ctx (s_c s') = c_ctx (s_c s).
Proof. intros [_ _ _ [d Hd] _]. by rewrite Hd. Qed.

Lemma buf_only_inode s s' : buf_only s s' -> fe_inode (s_fe s') = fe_inode (s_fe s).
Proof. intros [_ _ [b Hb] _ _]. by rewrite Hb. Qed.

Lemma buffered_only b off s :
  file_ok s -> in_volume (view s) (block_lba (c_ctx (s_c s)) b off) -> buf_only s (buffered b off s).
Proof.
  intros Hs Hv. split; [done | | by eexists | by eexists | done].
  intros _. apply buffered_ok; [done|]. by apply view_volume.
Qed.

Lemma entry_range c d b i :
  dev_ok d -> 0 <= i -> in_volume d (block_lba c b (i * 4)) -> 0 <= entry c d b i < 4294967296.
Proof.
  intros Hd Hi Hv. destruct (dev_sector_ok d _ Hd Hv) as [Hl Hb]. unfold BLOCK_SIZE in Hl.
  assert (0 <= (i * 4) mod 512 /\ (i * 4) mod 512 + 4 <= 512) as [? ?].
  { change 512 with (128 * 4). rewrite Z.mul_mod_distr_r by lia.
    pose proof (Z.mod_pos_bound i 128). lia. }
  unfold entry. pose proof (le_to_Z_range (slice ((i * 4) mod 512) 4 (dev_sector d (block_lba c b (i * 4)))))
    as Hr. rewrite length_slice in Hr by lia. apply Hr. by apply bytes_ok_slice.
Qed.

Lemma indirect_entry_run b i s :
  file_ok s -> 0 <= b -> 0 <= i < 268435456 -> in_volume (view s) (block_lba (c_ctx (s_c s)) b (i * 4)) ->
  indirect_entry b (u32 (i * 4)) s = Ok (entry (c_ctx (s_c s)) (view s) b i, buffered b (i * 4) s).
Proof.
  intros Hs Hb Hi Hv. unfold indirect_entry. rewrite u32_id, s32_id by lia.
  erewrite bind_ok by (apply load_buffer_run; [done | done | lia | by apply view_volume]).
  assert ((i * 4) mod 512 + 4 <= 512).
  { change 512 with (128 * 4). rewrite Z.mul_mod_distr_r by lia.
    pose proof (Z.mod_pos_bound i 128). lia. }
  erewrite bind_ok; [done|]. apply read_buffer_run; [by apply buffered_ok, view_volume | lia | done].
Qed.

(** The chain of loads that the code unrolls. *)
Fixpoint follow_path (b : Z) (path : list Z) : M (file_state D) Z :=
  match path with
  | [] => mret b
  | i :: path' => b' ← indirect_entry b (u32 (i * 4)); follow_path b' path'
  end.

Lemma follow_path_run path b s :
  file_ok s -> 0 <= b -> path_ok (c_ctx (s_c s)) (view s) b path ->
  exists s', follow_path b path s = Ok (follow (c_ctx (s_c s)) (view s) b path, s') /\ buf_only s s'.
Proof.
  revert b s. induction path as [|i path IH]; intros b s Hs Hb.
  - intros _. exists s. split; [done | reflexivity].
  - intros (Hi & Hv & Hp). cbn [follow_path follow].
    erewrite bind_ok by (by apply indirect_entry_run).
    assert (Hbuf : buf_only s (buffered b (i * 4) s)) by (by apply buffered_only).
    destruct (IH (entry (c_ctx (s_c s)) (view s) b i) (buffered b (i * 4) s)) as (s' & Hrun & Hs').
    + by apply Hbuf.
    + apply entry_range; [by apply view_ok | lia | done].
    + done.
    + exists s'. split; [exact Hrun | by etransitivity].
Qed.

(** A 32-bit offset needs no intermediate value above 32 bits, whatever the block size. *)
Lemma index_bounds c off :
  ctx_ok c -> 0 <= off < 4294967296 ->
  let ie := bsz c / 4 in
  let idx := off / bsz c in
  256 <= ie /\ 0 <= idx < 4194304 /\
  (idx < 12 + ie \/
   ie * ie < 4294967296 /\ (idx < 12 + ie + ie * ie \/ idx < 12 + ie + ie * ie + ie * ie * ie /\
     ie * ie * ie < 4294967296)).
Proof.
  intros Hc Hoff ie idx. pose proof (ok_log c Hc) as Hlog. unfold ie, idx, bsz.
  generalize dependent (s_log_block_size (ctx_superblock c)). intros l Hlog.
  assert (Hcase : l = 0 \/ l = 1 \/ l = 2 \/ l = 3 \/ l = 4 \/ l = 5 \/ l = 6 \/ l = 7 \/ l = 8 \/ l = 9 \/
    l = 10 \/ l = 11 \/ l = 12 \/ l = 13 \/ l = 14 \/ l = 15 \/ l = 16 \/ l = 17 \/ l = 18 \/ l = 19 \/
    l = 20) by lia.
  remember (Z.shiftl 1024 l / 4) as w eqn:Hw. remember (Z.shiftl 1024 l) as v eqn:Hv.
  clear Hc c Hlog ie idx.
  assert (Hd : 0 < v -> 0 <= off / v /\ off / v * v <= off).
  { intros Hv0. split; [apply Z.div_pos; lia|]. rewrite Z.mul_comm. by apply Z.mul_div_le. }
  generalize dependent (off / v). intros k Hd.
  do 20 (destruct Hcase as [Hl | Hcase];
    [subst l; vm_compute in Hv; subst v; vm_compute in Hw; subst w; lia|]).
  subst l. vm_compute in Hv. subst v. vm_compute in Hw. subst w. lia.
Qed.

(** The code follows [block_path]. *)
Lemma block_from_offset_path off k path s :
  file_ok s -> 0 <= off < 4294967296 ->
  block_path (bsz (c_ctx (s_c s)) / 4) (off / bsz (c_ctx (s_c s))) = Some (k, path) ->
  exists b, i_block (fe_inode (s_fe s)) !! Z.to_nat k = Some b /\ 0 <= b /\
    ext2_block_from_offset off s = follow_path b path s.
Proof.
  intros Hs Hoff Hpath. pose proof Hs as [[Hc _] _ _ Hi].
  destruct (index_bounds _ _ Hc Hoff) as (Hie & Hidx & Hcase).
  unfold ext2_block_from_offset, fe, fctx. rewrite !bind_gets.
  erewrite bind_lift by (by apply block_size_ok). revert Hpath. unfold block_path. cbv zeta.
  set (ie := bsz _ / 4) in *. set (idx := off / bsz _) in *. clearbody ie idx.
  assert (Hget : forall j, 0 <= j < 15 -> exists b, i_block (fe_inode (s_fe s)) !! Z.to_nat j = Some b /\
    0 <= b /\ arr_get (i_block (fe_inode (s_fe s))) j = Ok b).
  { intros j Hj. destruct (inode_block_lookup _ j Hi Hj) as (b & Hb & Hr).
    exists b. split; [done|]. split; [lia|]. apply arr_get_ok; [lia | done]. }
  rewrite (u32_id idx) by lia.
  destruct (Z.ltb_spec idx 12) as [Hd|Hd].
  { intros [= <- <-]. destruct (Hget idx) as (b & Hb & Hb0 & Hok); [lia|].
    exists b. split; [done|]. split; [done|]. by rewrite Hok. }
  rewrite (u32_id (idx - 12)) by lia.
  destruct (Z.ltb_spec (idx - 12) ie) as [Hi1|Hi1].
  { intros [= <- <-]. destruct (Hget 12) as (b & Hb & Hb0 & Hok); [lia|].
    exists b. split; [done|]. split; [done|]. rewrite (bind_lift _ _ _ _ Hok).
    symmetry. apply bind_ret_r. }
  rewrite (u32_id (idx - 12 - ie)), (u32_id (ie * ie)) by lia.
  destruct (Z.ltb_spec (idx - 12 - ie) (ie * ie)) as [Hi2|Hi2].
  { intros [= <- <-]. destruct (Hget 13) as (b & Hb & Hb0 & Hok); [lia|].
    exists b. split; [done|]. split; [done|]. rewrite (bind_lift _ _ _ _ Hok).
    erewrite bind_lift by (apply udiv_ok; lia). apply bind_ext. intros b1 t1.
    erewrite bind_lift by (apply umod_ok; lia). symmetry. apply bind_ret_r. }
  rewrite (u32_id (idx - 12 - ie - ie * ie)), (u32_id (ie * ie * ie)) by lia.
  destruct (Z.ltb_spec (idx - 12 - ie - ie * ie) (ie * ie * ie)) as [Hi3|Hi3]; [|done].
  intros [= <- <-]. destruct (Hget 14) as (b & Hb & Hb0 & Hok); [lia|].
  exists b. split; [done|]. split; [done|]. rewrite (bind_lift _ _ _ _ Hok).
  erewrite bind_lift by (apply udiv_ok; lia). apply bind_ext. intros b1 t1.
  erewrite bind_lift by (apply udiv_ok; lia). erewrite bind_lift by (apply umod_ok; lia).
  apply bind_ext. intros b2 t2.
  erewrite bind_lift by (apply umod_ok; lia). symmetry. apply bind_ret_r.
Qed.

Lemma block_from_offset_run off s :
  file_ok s -> 0 <= off < 4294967296 ->
  map_ok (c_ctx (s_c s)) (view s) (fe_inode (s_fe s)) (off / bsz (c_ctx (s_c s))) ->
  exists b s', ext2_block_from_offset off s = Ok (b, s') /\
    map_block (c_ctx (s_c s)) (view s) (fe_inode (s_fe s)) (off / bsz (c_ctx (s_c s))) = Some b /\
    buf_only s s'.
Proof.
  intros Hs Hoff. unfold map_ok, map_block.
  destruct (block_path _ _) as [[k path]|] eqn:Hpath; [|done]. intros (b & Hb & Hp).
  destruct (block_from_offset_path off k path s Hs Hoff Hpath) as (b' & Hb' & Hb0 & Hrun).
  assert (b' = b) as -> by congruence.
  destruct (follow_path_run path b s Hs Hb0 Hp) as (s' & Hrun' & Hbuf).
  exists (follow (c_ctx (s_c s)) (view s) b path), s'. rewrite Hrun. split; [done|].
  split; [|done]. change ((i_block (fe_inode (s_fe s)) !! Z.to_nat k ≫= fun b =>
    Some (follow (c_ctx (s_c s)) (view s) b path)) = Some (follow (c_ctx (s_c s)) (view s) b path)).
  by rewrite Hb.
Qed.

(** Every offset of a file, whose size is a [uint32_t], has a place in the tree. *)
Lemma block_path_total c off :
  ctx_ok c -> 0 <= off < 4294967296 -> is_Some (block_path (bsz c / 4) (off / bsz c)).
Proof.
  intros Hc Hoff. destruct (index_bounds c off Hc Hoff) as (Hie & Hidx & Hcase). unfold block_path.
  set (ie := bsz c / 4) in *. set (idx := off / bsz c) in *. clearbody ie idx. cbv zeta.
  destruct (Z.ltb_spec idx 12); [done|]. destruct (Z.ltb_spec (idx - 12) ie); [done|].
  destruct (Z.ltb_spec (idx - 12 - ie) (ie * ie)); [done|].
  destruct (Z.ltb_spec (idx - 12 - ie - ie * ie) (ie * ie * ie)); [done | lia].
Qed.

(** The offset before the first block, which [ext2_select_buffer] asks for as an unsigned number,
    is past the largest file. *)
Lemma block_before_first s :
  file_ok s -> ext2_block_from_offset (u64 (-1 * bsz (c_ctx (s_c s)))) s = Ok (4294967295, s).
Proof.
  intros [[Hc _] _ _ _]. unfold ext2_block_from_offset, fe, fctx. rewrite !bind_gets.
  erewrite bind_lift by (by apply block_size_ok).
  pose proof (ok_log _ Hc) as Hlog. unfold bsz.
  generalize dependent (s_log_block_size (ctx_superblock (c_ctx (s_c s)))). intros l Hl.
  assert (Hcase : l = 0 \/ l = 1 \/ l = 2 \/ l = 3 \/ l = 4 \/ l = 5 \/ l = 6 \/ l = 7 \/ l = 8 \/ l = 9 \/
    l = 10 \/ l = 11 \/ l = 12 \/ l = 13 \/ l = 14 \/ l = 15 \/ l = 16 \/ l = 17 \/ l = 18 \/ l = 19 \/
    l = 20) by lia.
  do 20 (destruct Hcase as [Hc0 | Hcase]; [subst l; by vm_compute|]).
  subst l. by vm_compute.
Qed.
End map_facts.

(** * Properties *)
Section map_properties.
Context {D : Type} `{BlockDeviceLaws D}.
Implicit Types (s : file_state D).

(** C4: [ext2_block_from_offset] implements the block tree of the file: for every offset of a
    file, with direct, indirect, doubly and triply indirect blocks and every block size up to the
    largest the driver can express, it returns the block that the reference walk finds on the
    file's view of the device, and changes nothing but the buffer it reads through. *)
Theorem block_from_offset_spec off s :
  file_ok s -> 0 <= off < 4294967296 ->
  map_ok (c_ctx (s_c s)) (view s) (fe_inode (s_fe s)) (off / bsz (c_ctx (s_c s))) ->
  exists b s', ext2_block_from_offset off s = Ok (b, s') /\
    map_block (c_ctx (s_c s)) (view s) (fe_inode (s_fe s)) (off / bsz (c_ctx (s_c s))) = Some b /\
    view s' = view s /\ file_ok s' /\
    (exists bo, s_fe s' = set_fe_buffer bo (s_fe s)) /\ (exists d, s_c s' = set_dev d (s_c s)).
Proof.
  intros Hs Hoff Hm. destruct (block_from_offset_run off s Hs Hoff Hm) as (b & s' & Hrun & Hb & []).
  exists b, s'. auto 10.
Qed.

(** The tree is large enough: every offset below the 4 GiB that [i_size] can express has a
    path of at most three entries, each inside its block, so the error return of
    [ext2_block_from_offset] is taken by no offset of a file. *)
Lemma block_path_complete (c : ext2context) off :
  ctx_ok c -> 0 <= off < 4294967296 ->
  exists k path, block_path (bsz c / 4) (off / bsz c) = Some (k, path) /\ 0 <= k < 15 /\
    (length path <= 3)%nat /\ Forall (fun i => 0 <= i < bsz c / 4) path.
Proof.
  intros Hc Hoff. destruct (index_bounds c off Hc Hoff) as (Hie & Hidx & _).
  destruct (block_path_total c off Hc Hoff) as [[k path] Hpath]. exists k, path. split; [done|].
  revert Hpath. unfold block_path. set (ie := bsz c / 4) in *. set (idx := off / bsz c) in *.
  clearbody ie idx. cbv zeta.
  destruct (Z.ltb_spec idx 12); [intros [= <- <-]; by repeat split; [lia.. | cbn; lia | constructor]|].
  destruct (Z.ltb_spec (idx - 12) ie).
  { intros [= <- <-]. repeat split; [lia.. | cbn; lia | repeat constructor; lia]. }
  destruct (Z.ltb_spec (idx - 12 - ie) (ie * ie)).
  { intros [= <- <-]. split; [lia|]. split; [cbn; lia|].
    repeat constructor; try apply Z.mod_pos_bound; try lia.
    - apply Z.div_pos; lia.
    - apply Z.div_lt_upper_bound; lia. }
  destruct (Z.ltb_spec (idx - 12 - ie - ie * ie) (ie * ie * ie)); [|done].
  intros [= <- <-]. split; [lia|]. split; [cbn; lia|].
  repeat constructor; try apply Z.mod_pos_bound; try lia.
  - apply Z.div_pos; nia.
  - apply Z.div_lt_upper_bound; nia.
Qed.
End map_properties.
