(* ===== verification/Alloc.v ===== *)
(** * Allocating inodes and blocks, truncating files

    [ext2_allocate_inode], [ext2_allocate_block] and [ext2_truncate_file] of
    [src/src/embext.c]. *)
From S2P Require Import Prelude Layout OnDisk Device Context Bitmap Super FileBuf BlockMap.

(** [S_IFDIR] of the C library. *)
Definition S_IFDIR : Z := 0x4000.

(** The loop [for(j=0;j<8;j++)] that stops at the first clear bit of a byte; 8 when there is none. *)
Fixpoint first_clear (n : nat) (j byte : Z) : Z :=
  match n with
  | O => j
  | S n' => if Z.land byte (Z.shiftl 1 j) =? 0 then j else first_clear n' (j + 1) byte
  end.

(** The use of a variable that the loop may have left uninitialised. *)
Definition init_val {S A} (v : option A) : M S A :=
  match v with Some a => mret a | None => throw Uninit end.

Section alloc_ops.
Context {D : Type} `{BlockDevice D}.

(** The first loop of both allocators, for the counter each one looks at: the highest count and
    the first group that has it. *)
Definition most_free_step (count : block_group_descriptor -> Z) (i : Z) (best : Z * Z) :
    M (file_state D) ((Z * Z) * bool) :=
  '(_, obg) ← on_ctx (ext2_get_bg_descriptor None i);
  bg ← on_ctx (bg_val obg);
  mret (if fst best <? count bg then (count bg, i) else best, false).
Definition most_free_group (count : block_group_descriptor -> Z) : M (file_state D) (Z * Z) :=
  c ← fctx;
  '(_, best) ← scan_loop (Z.to_nat (num_blockgroups c)) 0 (0, 0) (most_free_step count);
  mret best.

(** The second loop of both allocators: the byte of the bitmap in block [bitmap] with the first
    clear bit. The variables [bitmap_byte] and [j] are unset before the first round. *)
Definition bitmap_scan_step (bitmap i : Z) (v : option (Z * Z)) :
    M (file_state D) (option (Z * Z) * bool) :=
  ext2_load_buffer bitmap i ;;
  bs ← ext2_read_buffer (s32 i) 1;
  let byte := le_to_Z bs in
  let j := first_clear 8 0 byte in
  mret (Some (byte, j), j <? 8).
Definition bitmap_scan (bitmap count : Z) : M (file_state D) (Z * option (Z * Z)) :=
  scan_loop (Z.to_nat (count / 8)) 0 None (bitmap_scan_step bitmap).

(** Taking the inode of bit [j] of byte [i] of the bitmap. *)
Definition claim_inode (bg : block_group_descriptor) (group ipg i byte j : Z) : M (file_state D) Z :=
  modify (upd_fe (set_fe_inode_number (u32 (ipg * group + i * 8 + j + 1)))) ;;
  ext2_write_buffer [u8 (Z.lor byte (Z.shiftl 1 j))] (s32 i) ;;
  ext2_store_buffer ;;
  on_ctx (ext2_write_bg_descriptor
    (set_bg_free_inodes_count (u16 (bg_free_inodes_count bg - 1)) bg) group) ;;
  on_ctx (modify (upd_ctx (upd_superblock (fun r =>
    set_s_free_inodes_count (u32 (s_free_inodes_count r - 1)) r)))) ;;
  on_ctx ext2_flush_superblock ;;
  mret 0.

Definition ext2_allocate_inode : M (file_state D) Z :=
  '(most_free_inodes, group) ← most_free_group bg_free_inodes_count;
  if most_free_inodes =? 0 then
    modify (upd_fe (set_fe_rerrno ENOSPC)) ;;
    mret (-1)
  else
    '(_, obg) ← on_ctx (ext2_get_bg_descriptor None group);
    bg ← on_ctx (bg_val obg);
    c ← fctx;
    let ipg := s_inodes_per_group (ctx_superblock c) in
    '(i, v) ← bitmap_scan (bg_inode_bitmap bg) ipg;
    found ← (if i <? ipg then '(byte, j) ← init_val v; mret (if j <? 8 then Some (byte, j) else None)
             else mret None);
    match (found : option (Z * Z)) with
    | Some (byte, j) => claim_inode bg group ipg i byte j
    | None =>
        modify (upd_fe (set_fe_rerrno EIO)) ;;
        mret (-1)
    end.

(** The argument [previous_block] is not used by the code. *)
Definition ext2_allocate_block (previous_block : Z) : M (file_state D) Z :=
  '(most_free_blocks, group) ← most_free_group bg_free_blocks_count;
  if most_free_blocks =? 0 then
    modify (upd_fe (set_fe_rerrno ENOSPC)) ;;
    mret 0
  else
    '(_, obg) ← on_ctx (ext2_get_bg_descriptor None group);
    bg ← on_ctx (bg_val obg);
    c ← fctx;
    let bpg := s_blocks_per_group (ctx_superblock c) in
    '(i, v) ← bitmap_scan (bg_block_bitmap bg) bpg;
    found ← (if i <? bpg / 8 then '(byte, j) ← init_val v; mret (if j <? 8 then Some j else None)
             else mret None);
    match (found : option Z) with
    | Some j =>
        let block_no := u32 (bpg * group + i * 8 + j + 1) in
        f ← fe;
        rc ← on_ctx (ext2_change_allocated block_no EXT2_ALLOCATED
               (if has_flag (i_mode (fe_inode f)) S_IFDIR then 1 else 0));
        mret (if negb (rc =? 0) then 0 else block_no)
    | None => mret 0
    end.

(** ** Truncation *)

Definition dealloc (isdir block : Z) : M (file_state D) Z :=
  on_ctx (ext2_change_allocated block EXT2_DEALLOCATED isdir).

Definition get_i_block (k : Z) : M (file_state D) Z :=
  f ← fe;
  lift (arr_get (i_block (fe_inode f)) k).
Definition put_i_block (k v : Z) : M (file_state D) unit :=
  modify (upd_fe (upd_fe_inode (fun r => set_i_block (<[Z.to_nat k := v]> (i_block r)) r))).

(** A loop over the entries of indirect block [block ()], read again in every round, up to the
    first entry that is 0. *)
Definition each_entry (entries : Z) (block : M (file_state D) Z) (body : Z -> M (file_state D) unit) :
    M (file_state D) unit :=
  for_loop (B := unit) (Z.to_nat entries) 0 (fun i =>
    b ← block;
    e ← indirect_entry b (i * 4);
    if negb (e =? 0) then body e ;; mret None else mret (Some tt)) ;;
  mret tt.

Definition truncate_direct (isdir i : Z) : M (file_state D) (option unit) :=
  b ← get_i_block i;
  (if negb (b =? 0) then dealloc isdir b ;; mret tt else mret tt) ;;
  put_i_block i 0 ;;
  mret None.
Definition truncate_indirect (isdir entries : Z) : M (file_state D) unit :=
  each_entry entries (get_i_block 12) (fun b => dealloc isdir b ;; mret tt).
Definition truncate_double (isdir entries : Z) : M (file_state D) unit :=
  each_entry entries (get_i_block 13) (fun b =>
    each_entry entries (mret b) (fun b2 => dealloc isdir b2 ;; mret tt) ;;
    dealloc isdir b ;; mret tt).
(** The outer loop reads [i_block[13]] and the innermost one reads [block], as the code does. *)
Definition truncate_triple (isdir entries : Z) : M (file_state D) unit :=
  each_entry entries (get_i_block 13) (fun b =>
    each_entry entries (mret b) (fun b2 =>
      each_entry entries (mret b) (fun b3 => dealloc isdir b3 ;; mret tt) ;;
      dealloc isdir b2 ;; mret tt) ;;
    dealloc isdir b ;; mret tt).

(** [if(fe->inode.i_block[k]) { ...; free the block; fe->inode.i_block[k] = 0; }] *)
Definition truncate_tree (isdir k : Z) (body : M (file_state D) unit) : M (file_state D) unit :=
  b ← get_i_block k;
  if negb (b =? 0) then
    body ;;
    b ← get_i_block k;
    dealloc isdir b ;;
    put_i_block k 0
  else mret tt.

Definition ext2_truncate_file : M (file_state D) Z :=
  f ← fe;
  c ← fctx;
  bs ← lift (ext2_block_size c);
  let entries := bs / 4 in
  let isdir := if has_flag (i_mode (fe_inode f)) EXT2_S_IFDIR then 1 else 0 in
  for_loop 12 0 (truncate_direct isdir) ;;
  truncate_tree isdir 12 (truncate_indirect isdir entries) ;;
  truncate_tree isdir 13 (truncate_double isdir entries) ;;
  truncate_tree isdir 14 (truncate_triple isdir entries) ;;
  modify (upd_fe (upd_fe_inode (set_i_size 0))) ;;
  modify (upd_fe (upd_fe_inode (set_i_blocks 0))) ;;
  mret 0.
End alloc_ops.

(** * Facts *)
Section alloc_facts.
Context {D : Type} `{BlockDeviceLaws D}.
Implicit Types (s : file_state D) (count : block_group_descriptor -> Z).

(** The counter of group [g] as stored in the primary table. *)
Definition group_count count s (g : Z) : Z :=
  count (bg_on_disk (c_ctx (s_c s)) (c_dev (s_c s)) (superblock_block (c_ctx (s_c s))) g).

(** Every descriptor of the primary table is in the volume. *)
Definition table_in_volume s : Prop :=
  forall g, 0 <= g < num_blockgroups (c_ctx (s_c s)) ->
    in_volume (c_dev (s_c s)) (bg_lba (c_ctx (s_c s)) (superblock_block (c_ctx (s_c s))) g).

(** [best] is the highest count of the groups below [i], with the first group that has it. *)
Definition best_below count s (i : Z) (best : Z * Z) : Prop :=
  0 <= fst best /\ (forall g, 0 <= g < i -> group_count count s g <= fst best) /\
  (best = (0, 0) \/
   0 <= snd best < i /\ 0 < fst best /\ group_count count s (snd best) = fst best /\
   forall g, 0 <= g < snd best -> group_count count s g < fst best).

(** Only the system buffer differs. *)
Definition sysbuf_only s s' : Prop := s_fe s' = s_fe s /\ same_but_sysbuf (s_c s) (s_c s').

Lemma most_free_step_run count s t i best :
  fs_ok (s_c t) -> sysbuf_only s t -> table_in_volume s -> 0 <= i < num_blockgroups (c_ctx (s_c s)) ->
  best_below count s i best ->
  exists best' t', most_free_step count i best t = Ok ((best', false), t') /\
    best_below count s (i + 1) best' /\ sysbuf_only s t' /\ fs_ok (s_c t').
Proof.
  intros Ht [Hfe [b Hc]] Hv Hi (Hm0 & Hmax & Hbest). specialize (Hv i Hi).
  destruct (bg_slot_bounds i) as [? ?]; [lia|].
  assert (Hlba : bg_lba (c_ctx (s_c t)) (superblock_block (c_ctx (s_c t))) i =
    bg_lba (c_ctx (s_c s)) (superblock_block (c_ctx (s_c s))) i) by (by rewrite Hc).
  assert (Hdev : c_dev (s_c t) = c_dev (s_c s)) by (by rewrite Hc).
  assert (Hbg : bg_on_disk (c_ctx (s_c t)) (c_dev (s_c t)) (superblock_block (c_ctx (s_c t))) i =
    bg_on_disk (c_ctx (s_c s)) (c_dev (s_c s)) (superblock_block (c_ctx (s_c s))) i) by (by rewrite Hc).
  assert (Hin : in_volume (c_dev (s_c t)) (bg_lba (c_ctx (s_c t)) (superblock_block (c_ctx (s_c t))) i))
    by (by rewrite Hlba, Hdev).
  assert (Hnbg : num_blockgroups (c_ctx (s_c t)) = num_blockgroups (c_ctx (s_c s))) by (by rewrite Hc).
  unfold most_free_step.
  erewrite bind_ok by (apply zoom_ok, get_bg_run; [done | by rewrite Hnbg | exact Hin]).
  cbn beta iota. rewrite Hbg. erewrite bind_ok by reflexivity. eexists _, _. split; [reflexivity|].
  change (count (bg_on_disk _ _ _ i)) with (group_count count s i).
  split; [|split].
  - destruct best as [m g]. cbn [fst snd] in *.
    destruct (Z.ltb_spec m (group_count count s i)) as [Hlt|Hge]; unfold best_below; cbn [fst snd].
    + split; [lia|]. split; [intros g' Hg'; destruct (decide (g' = i)) as [->|]; [lia|]|].
      * specialize (Hmax g'). lia.
      * right. split; [lia|]. split; [lia|]. split; [done|]. intros g' Hg'. specialize (Hmax g'). lia.
    + split; [lia|]. split; [intros g' Hg'; destruct (decide (g' = i)) as [->|]; [lia|]|].
      * specialize (Hmax g'). lia.
      * destruct Hbest as [|(? & ? & ? & ?)]; [by left | right]. repeat split; try done; lia.
  - split; [done|]. cbn [s_c set_c]. etransitivity; [by exists b|]. by eexists.
  - cbn [s_c set_c]. by apply loaded_ok.
Qed.

Lemma most_free_group_run count s :
  fs_ok (s_c s) -> table_in_volume s ->
  exists best s', most_free_group count s = Ok (best, s') /\
    best_below count s (num_blockgroups (c_ctx (s_c s)) `max` 0) best /\ sysbuf_only s s' /\ fs_ok (s_c s').
Proof.
  intros Hs Hv.
  enough (wp (most_free_group count) (fun best s' =>
    best_below count s (num_blockgroups (c_ctx (s_c s)) `max` 0) best /\ sysbuf_only s s' /\
    fs_ok (s_c s')) s) as Hwp by (by apply wp_elim in Hwp as (best & s' & Hrun & ?); exists best, s').
  unfold most_free_group, fctx. apply wp_bind, wp_gets, wp_bind.
  apply (wp_scan _ (fun i best t => best_below count s i best /\ sysbuf_only s t /\ fs_ok (s_c t))).
  - split; [|split; [|done]].
    + split; [cbn; lia|]. split; [intros g Hg; lia | by left].
    + split; [done | reflexivity].
  - intros j best t Hj (Hb & Hst & Hok).
    destruct (most_free_step_run count s t j best Hok Hst Hv) as (best' & t' & Hrun & ? & ? & ?);
      [lia | done|]. by eapply wp_run; [exact Hrun|].
  - intros best t (Hb & Hst & Hok). apply wp_ret. split; [|done].
    by replace (0 + Z.of_nat (Z.to_nat (num_blockgroups (c_ctx (s_c s)))))
      with (num_blockgroups (c_ctx (s_c s)) `max` 0) in Hb by lia.
Qed.

(** ** The search in a bitmap *)

(** Byte [i] of the bitmap in block [b], and bit [k] of it. *)
Definition bitmap_byte (c : ext2context) (d : D) (b i : Z) : Z :=
  dev_sector d (block_lba c b i) !!! Z.to_nat (i mod 512).
Definition bitmap_at (c : ext2context) (d : D) (b k : Z) : bool :=
  Z.testbit (bitmap_byte c d b (k / 8)) (k mod 8).

Lemma first_clear_spec n j byte :
  0 <= j ->
  let r := first_clear n j byte in
  j <= r <= j + Z.of_nat n /\ (forall i, j <= i < r -> Z.testbit byte i = true) /\
  (r < j + Z.of_nat n -> Z.testbit byte r = false).
Proof.
  revert j. induction n as [|n IH]; intros j Hj; cbn [first_clear].
  - repeat split; intros; lia.
  - rewrite land_mask by done. destruct (Z.testbit byte j) eqn:Hb; cbn [negb].
    + destruct (IH (j + 1)) as (Hr & Hset & Hclear); [lia|]. cbv zeta.
      split; [lia|]. split; [|intros; apply Hclear; lia].
      intros i Hi. destruct (decide (i = j)) as [->|]; [done | apply Hset; lia].
    + cbv zeta. split; [lia|]. split; [intros; lia | done].
Qed.

(** A clear bit was found: bit [8 * i + j] of the bitmap, in the byte [i] now in the buffer. *)
Definition scan_hit s b (i : Z) (v : option (Z * Z)) t : Prop :=
  exists j t0, v = Some (bitmap_byte (c_ctx (s_c s)) (view s) b i, j) /\ t = buffered b i t0 /\
    buf_only s t0 /\ file_ok t0 /\ 0 <= j < 8 /\
    bitmap_at (c_ctx (s_c s)) (view s) b (8 * i + j) = false /\
    forall k, 0 <= k < 8 * i + j -> bitmap_at (c_ctx (s_c s)) (view s) b k = true.

Lemma bit_parts i j : 0 <= j < 8 -> (8 * i + j) / 8 = i /\ (8 * i + j) mod 8 = j.
Proof. intros. pose proof (Z.div_mod (8 * i + j) 8). pose proof (Z.mod_pos_bound (8 * i + j) 8). lia. Qed.

Lemma bitmap_at_parts c (d : D) b i j :
  0 <= j < 8 -> bitmap_at c d b (8 * i + j) = Z.testbit (bitmap_byte c d b i) j.
Proof.
  intros Hj. unfold bitmap_at. by destruct (bit_parts i j Hj) as [-> ->].
Qed.

Lemma bitmap_scan_step_run s b i v t :
  buf_only s t -> file_ok t -> 0 <= b -> 0 <= i < 2147483648 ->
  in_volume (view s) (block_lba (c_ctx (s_c s)) b i) ->
  (forall k, 0 <= k < 8 * i -> bitmap_at (c_ctx (s_c s)) (view s) b k = true) ->
  exists v' (brk : bool) t', bitmap_scan_step b i v t = Ok ((v', brk), t') /\
    if brk then scan_hit s b i v' t'
    else buf_only s t' /\ file_ok t' /\
      forall k, 0 <= k < 8 * (i + 1) -> bitmap_at (c_ctx (s_c s)) (view s) b k = true.
Proof.
  intros Hst Ht Hb Hi Hv Hset. pose proof (bu_view _ _ Hst) as Hview. pose proof (buf_only_ctx _ _ Hst) as Hctx.
  assert (Hvt : in_volume (view t) (block_lba (c_ctx (s_c t)) b i)) by (by rewrite Hview, Hctx).
  unfold bitmap_scan_step.
  erewrite bind_ok by (apply load_buffer_run; [done | done | lia | by apply view_volume]).
  pose proof (Z.mod_pos_bound i 512). rewrite s32_id by lia.
  assert (Hok : file_ok (buffered b i t)) by (by apply buffered_ok, view_volume).
  erewrite bind_ok by (apply read_buffer_run; [done | lia | lia]).
  destruct (dev_sector_ok _ _ (view_ok t Ht) Hvt) as [Hlen _]. unfold BLOCK_SIZE in Hlen.
  cbn [buffered s_fe fe_buffer set_fe_buffer bo_buffer].
  rewrite slice_one by lia. cbn [le_to_Z]. rewrite Z.mul_0_r, Z.add_0_r.
  rewrite Hview, Hctx. fold (bitmap_byte (c_ctx (s_c s)) (view s) b i).
  set (byte := bitmap_byte _ _ b i).
  destruct (first_clear_spec 8 0 byte) as (Hr & Hones & Hclear); [lia|]. cbv zeta in Hr, Hones, Hclear.
  set (j := first_clear 8 0 byte) in *. eexists _, (j <? 8), _. split; [reflexivity|].
  destruct (Z.ltb_spec j 8).
  - exists j, t. split; [done|]. split; [done|]. split; [done|]. split; [done|]. split; [lia|].
    split; [rewrite bitmap_at_parts by lia; apply Hclear; lia|].
    intros k Hk. destruct (decide (k < 8 * i)); [apply Hset; lia|].
    replace k with (8 * i + (k - 8 * i)) by lia. rewrite bitmap_at_parts by lia. apply Hones. lia.
  - split; [etransitivity; [exact Hst | by apply buffered_only]|]. split; [done|].
    intros k Hk. destruct (decide (k < 8 * i)); [apply Hset; lia|].
    replace k with (8 * i + (k - 8 * i)) by lia. rewrite bitmap_at_parts by lia. apply Hones. lia.
Qed.

Lemma bitmap_scan_run s b nbits :
  file_ok s -> 0 <= b -> nbits < 2147483648 ->
  (forall i, 0 <= i < nbits / 8 -> in_volume (view s) (block_lba (c_ctx (s_c s)) b i)) ->
  (exists k, 0 <= k < 8 * (nbits / 8) /\ bitmap_at (c_ctx (s_c s)) (view s) b k = false) ->
  exists i v t, bitmap_scan b nbits s = Ok ((i, v), t) /\ 0 <= i < nbits / 8 /\ scan_hit s b i v t.
Proof.
  intros Hs Hb Hcount Hv (k & Hk & Hclear).
  enough (wp (bitmap_scan b nbits) (fun r t => 0 <= fst r < nbits / 8 /\ scan_hit s b (fst r) (snd r) t) s)
    as Hwp by (apply wp_elim in Hwp as ([i v] & t & Hrun & ? & ?); by exists i, v, t).
  unfold bitmap_scan.
  apply (wp_scan _ (fun i _ t => buf_only s t /\ file_ok t /\
    forall k, 0 <= k < 8 * i -> bitmap_at (c_ctx (s_c s)) (view s) b k = true)).
  - split; [reflexivity|]. split; [done|]. intros k' Hk'. lia.
  - intros i v t Hi (Hst & Ht & Hset). rewrite Z2Nat.id in Hi by lia.
    destruct (bitmap_scan_step_run s b i v t) as (v' & brk & t' & Hrun & Hpost); try done;
      [assert (nbits / 8 < 2147483648) by (apply Z.div_lt_upper_bound; lia); lia | apply Hv; lia |].
    eapply wp_run; [exact Hrun|]. cbn [fst snd]. destruct brk; [|done]. split; [lia | done].
  - intros v t (_ & _ & Hset). rewrite Z2Nat.id in Hset by lia. rewrite Hset in Hclear; [done | lia].
Qed.

(** ** Allocating an inode *)

(** [g] is the first of the groups with the most free inodes, and has one. *)
Definition roomiest count s (g : Z) : Prop :=
  0 <= g < num_blockgroups (c_ctx (s_c s)) /\ 0 < group_count count s g /\
  (forall g', 0 <= g' < num_blockgroups (c_ctx (s_c s)) -> group_count count s g' <= group_count count s g) /\
  (forall g', 0 <= g' < g -> group_count count s g' < group_count count s g).

Lemma roomiest_best count s g :
  fs_ok (s_c s) -> table_in_volume s -> roomiest count s g ->
  exists s', most_free_group count s = Ok ((group_count count s g, g), s') /\ sysbuf_only s s' /\ fs_ok (s_c s').
Proof.
  intros Hs Hv (Hg & Hpos & Hmax & Hfirst).
  destruct (most_free_group_run count s Hs Hv) as ([m g'] & s' & Hrun & (Hm0 & Hle & Hbest) & Hso & Hok).
  cbn [fst snd] in *. exists s'. split; [|done]. rewrite Hrun. do 2 f_equal.
  destruct Hbest as [[= -> ->]|(Hg' & Hm & Heq & Hlt)]; [specialize (Hle g); lia|].
  assert (g' = g) as ->; [|by rewrite Heq].
  destruct (Z.lt_trichotomy g' g) as [Hl|[|Hgt]]; [|done|].
  - specialize (Hfirst g'). specialize (Hle g). lia.
  - specialize (Hlt g). specialize (Hmax g'). lia.
Qed.

Lemma sysbuf_only_ok s s' : file_ok s -> sysbuf_only s s' -> fs_ok (s_c s') -> file_ok s'.
Proof.
  intros [_ Hb Hd Hi] [Hfe [b Hc]] Hok. unfold buf_lba in Hd.
  split; [done | by rewrite Hfe | | by rewrite Hfe]. unfold buf_lba. by rewrite Hfe, Hc.
Qed.

Lemma sysbuf_only_view s s' : sysbuf_only s s' -> view s' = view s.
Proof. intros [Hfe [b Hc]]. unfold view, buf_lba. by rewrite Hfe, Hc. Qed.

Lemma sysbuf_only_ctx s s' : sysbuf_only s s' -> exists b, c_ctx (s_c s') = set_sysbuf b (c_ctx (s_c s)).
Proof. intros [_ [b Hc]]. exists b. by rewrite Hc. Qed.

(** The descriptor read after the search. *)
Lemma get_bg_after s g :
  file_ok s -> table_in_volume s -> 0 <= g < num_blockgroups (c_ctx (s_c s)) ->
  forall s', sysbuf_only s s' -> fs_ok (s_c s') ->
  exists s'', on_ctx (ext2_get_bg_descriptor None g) s' =
      Ok ((0, Some (bg_on_disk (c_ctx (s_c s)) (c_dev (s_c s)) (superblock_block (c_ctx (s_c s))) g)), s'') /\
    sysbuf_only s s'' /\ fs_ok (s_c s'').
Proof.
  intros Hs Hv Hg s' [Hfe [b Hc]] Hok. specialize (Hv g Hg).
  assert (Hin : in_volume (c_dev (s_c s')) (bg_lba (c_ctx (s_c s')) (superblock_block (c_ctx (s_c s'))) g))
    by (by rewrite Hc).
  set (n := bg_lba _ _ _) in Hin. exists (set_c (loaded n (s_c s')) s'). split; [|split].
  - assert (Hg' : 0 <= g < num_blockgroups (c_ctx (s_c s'))) by (rewrite Hc; exact Hg).
    unfold on_ctx. rewrite (zoom_ok _ _ _ _ _ _ (get_bg_run None g (s_c s') Hok Hg' Hin)).
    unfold n. by rewrite Hc.
  - split; [done|]. etransitivity; [by exists b | by eexists].
  - by apply loaded_ok.
Qed.

(** The superblock after an inode was taken. *)
Definition one_inode_less (r : superblock) : superblock :=
  set_s_free_inodes_count (u32 (s_free_inodes_count r - 1)) r.

Lemma one_inode_less_ok c : ctx_ok c -> ctx_ok (upd_superblock one_inode_less c).
Proof.
  intros Hc. apply upd_superblock_ok; [done | | |].
  - apply wf_set_s_free_inodes_count; [apply Hc | auto with embext].
  - by destruct (ctx_superblock c).
  - by destruct (ctx_superblock c).
Qed.

(** The context after an inode was taken: one free inode less, and what writing the superblock leaves
    in its group number and in the buffer. *)
Definition one_less_ctx (bf : list Z) (nr : Z) (c : ext2context) : ext2context :=
  upd_superblock (set_s_block_group_nr nr) (set_sysbuf bf (upd_superblock one_inode_less c)).

(** Updating the counters: only sectors of superblock copies change. *)
Lemma claim_counters_run bg g s :
  fs_ok (s_c s) -> cs_wf bg -> 0 <= g < num_blockgroups (c_ctx (s_c s)) ->
  tables_in_volume (c_ctx (s_c s)) (c_dev (s_c s)) g -> copies_ok (c_ctx (s_c s)) (c_dev (s_c s)) ->
  exists s', (on_ctx (ext2_write_bg_descriptor bg g) ;;
      on_ctx (modify (upd_ctx (upd_superblock one_inode_less))) ;;
      on_ctx ext2_flush_superblock ;; mret 0) s = Ok (0, s') /\ s_fe s' = s_fe s /\ fs_ok (s_c s') /\
    (exists bf nr, c_ctx (s_c s') = one_less_ctx bf nr (c_ctx (s_c s))) /\
    c_tick (s_c s') = c_tick (s_c s) /\
    block_get_volume_size (c_dev (s_c s')) = block_get_volume_size (c_dev (s_c s)) /\
    forall n, in_volume (c_dev (s_c s)) n ->
      (forall b, b ∈ superblock_blocks (c_ctx (s_c s)) -> n <> sb_lba (c_ctx (s_c s)) b) ->
      dev_sector (c_dev (s_c s')) n = dev_sector (c_dev (s_c s)) n.
Proof.
  intros Hs Hbg Hg Ht Hc.
  destruct (write_bg_runs bg g (s_c s) Hs Hbg Hg Ht) as (s1 & Hrun & [b Hs1] & Hok).
  set (s2 := upd_ctx (upd_superblock one_inode_less) s1).
  assert (Hs2 : fs_ok s2) by (split; [apply one_inode_less_ok |]; apply Hok).
  assert (Hsame : sb_lba (c_ctx s2) = sb_lba (c_ctx (s_c s))).
  { unfold sb_lba, spb, bsz, s2. rewrite Hs1. by destruct s as [f [[] ? ? ?]]; destruct ctx_superblock. }
  assert (Hc2 : copies_ok (c_ctx s2) (c_dev s2))
    by (destruct Hc; split; unfold s2 in *; rewrite Hs1 in *; [done | by rewrite Hsame]).
  destruct (flush_superblock_runs s2 Hs2 Hc2) as (s' & Hflush & [Hok' (k & b' & Hctx) Hvs [_ Htk] _ Hothers]).
  exists (set_c s' s). split; [|split; [done|split; [exact Hok'|split; [|split; [|split]]]]].
  - erewrite bind_ok by (apply zoom_ok; exact Hrun).
    erewrite bind_ok by (apply zoom_ok; reflexivity).
    by erewrite bind_ok by (apply zoom_ok; exact Hflush).
  - exists b', k. cbn [s_c set_c]. rewrite Hctx. unfold s2. by rewrite Hs1.
  - cbn [s_c set_c]. rewrite Htk. unfold s2. by rewrite Hs1.
  - cbn [s_c set_c]. rewrite Hvs. unfold s2. by rewrite Hs1.
  - cbn [s_c set_c]. intros n Hn Hne. rewrite Hsame in Hothers. unfold s2 in Hothers.
    rewrite Hs1 in Hothers. by apply Hothers.
Qed.

(** The bit found by the search, as a bit of its sector. *)
Lemma taken_sector i j (l : list Z) :
  bytes_ok l -> Z.of_nat (length l) = 512 -> 0 <= i -> 0 <= j < 8 ->
  splice (i mod 512) [u8 (Z.lor (l !!! Z.to_nat (i mod 512)) (Z.shiftl 1 j))] l =
    bit_put ((8 * i + j) mod 4096) true l.
Proof.
  intros Hl Hlen Hi Hj. pose proof (Z.mod_pos_bound i 512).
  assert (Hk : (8 * i + j) mod 4096 = 8 * (i mod 512) + j).
  { change 4096 with (8 * 512). rewrite Z.rem_mul_r by lia.
    destruct (bit_parts i j Hj) as [-> ->]. lia. }
  rewrite splice_one by lia. unfold bit_put. rewrite Hk.
  destruct (bit_parts (i mod 512) j Hj) as [-> ->]. f_equal. unfold byte_put.
  apply u8_id. apply (is_byte_put _ j true); [|done]. apply bytes_ok_lookup_total; [done | lia].
Qed.

(** What taking the inode of bit [k] of the bitmap in block [b] of group [g] makes of the file [s]. *)
Record inode_claimed ipg g b k s s' : Prop := {
  ic_ok : file_ok s';
  ic_fe : exists bo, s_fe s' = set_fe_buffer bo (set_fe_inode_number (u32 (ipg * g + k + 1)) (s_fe s)) /\
    bo_dirty bo = 0;
  ic_ctx : exists bf nr, c_ctx (s_c s') = one_less_ctx bf nr (c_ctx (s_c s));
  ic_tick : c_tick (s_c s') = c_tick (s_c s);
  ic_volume n : in_volume (c_dev (s_c s')) n <-> in_volume (c_dev (s_c s)) n;
  ic_sectors n : in_volume (c_dev (s_c s)) n ->
    (forall b', b' ∈ superblock_blocks (c_ctx (s_c s)) -> n <> sb_lba (c_ctx (s_c s)) b') ->
    dev_sector (c_dev (s_c s')) n =
      if n =? block_lba (c_ctx (s_c s)) b (k / 8)
      then bit_put (k mod 4096) true (dev_sector (view s) n) else dev_sector (view s) n
}.

Lemma inode_claimed_count ipg g b k s s' :
  inode_claimed ipg g b k s s' ->
  fe_inode_number (s_fe s') = u32 (ipg * g + k + 1) /\
  s_free_inodes_count (ctx_superblock (c_ctx (s_c s'))) =
    u32 (s_free_inodes_count (ctx_superblock (c_ctx (s_c s))) - 1).
Proof.
  intros [_ (bo & -> & _) (bf & nr & ->) _ _ _]. split; [done|]. cbn. by destruct (ctx_superblock (c_ctx (s_c s))).
Qed.

Lemma inode_claimed_after ipg g b k s s1 s' :
  sysbuf_only s s1 -> inode_claimed ipg g b k s1 s' -> inode_claimed ipg g b k s s'.
Proof.
  intros [Hfe [bf Hc]] [Hok Hfe' (bf' & nr & Hctx) Htick Hvol Hsec].
  assert (Hv : view s1 = view s) by (by apply sysbuf_only_view; split; [|exists bf]).
  rewrite Hfe in Hfe'. rewrite Hc in Hctx, Htick, Hvol, Hsec. rewrite Hv in Hsec.
  split; [exact Hok | exact Hfe' | by exists bf', nr | exact Htick | exact Hvol | exact Hsec].
Qed.

Lemma claim_inode_run bg g ipg b i v s t :
  file_ok s -> 0 <= b -> 0 <= i < 2147483648 -> in_volume (view s) (block_lba (c_ctx (s_c s)) b i) ->
  scan_hit s b i v t -> cs_wf bg -> 0 <= g < num_blockgroups (c_ctx (s_c s)) ->
  tables_in_volume (c_ctx (s_c s)) (c_dev (s_c s)) g -> copies_ok (c_ctx (s_c s)) (c_dev (s_c s)) ->
  exists byte j s', v = Some (byte, j) /\ 0 <= j < 8 /\
    bitmap_at (c_ctx (s_c s)) (view s) b (8 * i + j) = false /\
    (forall k, 0 <= k < 8 * i + j -> bitmap_at (c_ctx (s_c s)) (view s) b k = true) /\
    claim_inode bg g ipg i byte j t = Ok (0, s') /\ inode_claimed ipg g b (8 * i + j) s s'.
Proof.
  intros Hs Hb Hi Hv (j & t0 & -> & -> & Hbu & Ht0 & Hj & Hclear & Hset) Hbg Hg Htab Hcop.
  eexists _, j. set (byte := bitmap_byte _ _ b i).
  set (N := u32 (ipg * g + i * 8 + j + 1)).
  set (t1 := upd_fe (set_fe_inode_number N) t0).
  assert (Ht1 : file_ok t1) by (destruct Ht0; by split).
  pose proof (bu_view _ _ Hbu) as Hview. change (view t0) with (view t1) in Hview.
  pose proof (buf_only_ctx _ _ Hbu) as Hctx. change (s_c t0) with (s_c t1) in Hctx.
  assert (Hvol : forall n, in_volume (c_dev (s_c s)) n <-> in_volume (view s) n)
    by (intros n; symmetry; by apply view_volume).
  assert (Hv1 : in_volume (c_dev (s_c t1)) (block_lba (c_ctx (s_c t1)) b i))
    by (apply view_volume; [done | by rewrite Hview, Hctx]).
  set (src := [u8 (Z.lor byte (Z.shiftl 1 j))]).
  set (t2 := poked (s32 i) src (buffered b i t1)).
  assert (Hmod : s32 i mod 512 + Z.of_nat (length src) <= 512)
    by (rewrite s32_id by lia; pose proof (Z.mod_pos_bound i 512); cbn; lia).
  assert (Ht2 : file_ok t2).
  { apply poked_ok; try done; [|lia]. repeat constructor; apply u8_range. }
  assert (Hdev : view t2 = dev_put (view s) (block_lba (c_ctx (s_c s)) b i)
    (bit_put ((8 * i + j) mod 4096) true (dev_sector (view s) (block_lba (c_ctx (s_c s)) b i)))).
  { unfold t2. rewrite view_poked by (try done; lia). rewrite Hview, Hctx, s32_id by lia. f_equal.
    destruct (dev_sector_ok _ _ (view_ok s Hs) Hv) as [Hl Hby]. apply taken_sector; [done | done | lia | done]. }
  assert (Hctx3 : c_ctx (s_c (stored t2)) = c_ctx (s_c s)) by exact Hctx.
  assert (Hdev3 : c_dev (s_c (stored t2)) = view t2) by done.
  assert (Hvol3 : forall n, in_volume (view t2) n <-> in_volume (c_dev (s_c s)) n).
  { intros n. rewrite (view_volume t2), Hvol by done. change (c_dev (s_c t2)) with (view t1). by rewrite Hview. }
  destruct (claim_counters_run (set_bg_free_inodes_count (u16 (bg_free_inodes_count bg - 1)) bg) g (stored t2))
    as (s' & Hrun & Hfe & Hok' & Hctx' & Htick & Hvs & Hothers).
  - by apply stored_ok.
  - apply wf_set_bg_free_inodes_count; [done | auto with embext].
  - by rewrite Hctx3.
  - rewrite Hctx3, Hdev3. intros k Hk. destruct (Htab k Hk) as (b' & ? & ?). exists b'. by rewrite Hvol3.
  - rewrite Hctx3, Hdev3. destruct Hcop as [? Hcop]. split; [done|]. intros b' Hb'. by apply Hvol3, Hcop.
  - rewrite Hctx3, Hdev3 in *. exists s'. do 4 (split; [done|]). split.
    + unfold claim_inode. rewrite bind_modify. fold N.
      change (upd_fe (set_fe_inode_number N) (buffered b i t0)) with (buffered b i t1). fold src.
      erewrite bind_ok by (apply write_buffer_run; [by apply buffered_ok | done]). fold t2.
      erewrite bind_ok by (by apply store_buffer_run). exact Hrun.
    + destruct (bit_parts i j Hj) as [Hq _]. split; rewrite ?Hq.
      * pose proof (stored_ok t2 Ht2) as [_ ? ? ?]. split; rewrite ?Hfe; done.
      * destruct (bu_fe _ _ Hbu) as [bo Hbo]. rewrite Hfe. exists (fe_buffer (s_fe (stored t2))). split; [|done].
        unfold t2, t1, N. cbn. rewrite Hbo. replace (ipg * g + i * 8 + j + 1) with (ipg * g + (8 * i + j) + 1) by lia.
        by destruct (s_fe s).
      * exact Hctx'.
      * rewrite Htick. destruct (bu_c _ _ Hbu) as [dv Hdv]. transitivity (c_tick (s_c t0)); [done | by rewrite Hdv].
      * intros n. rewrite <- (Hvol3 n). unfold in_volume. by rewrite Hvs.
      * intros n Hn Hne. rewrite Hothers, Hdev by (by try apply Hvol3). rewrite dev_put_sector.
        -- by destruct (Z.eqb_spec n (block_lba (c_ctx (s_c s)) b i)) as [->|]; case_decide.
        -- by apply view_ok.
        -- done.
        -- by apply Hvol.
        -- destruct (dev_sector_ok _ _ (view_ok s Hs) Hv) as [Hl Hby]. unfold BLOCK_SIZE in *.
           split; [by rewrite length_bit_put|]. apply bytes_ok_bit_put; [done|].
           pose proof (Z.mod_pos_bound (8 * i + j) 4096). lia.
Qed.
End alloc_facts.

(** * Properties *)
Section alloc_properties.
Context {D : Type} `{BlockDeviceLaws D}.
Implicit Types (s : file_state D) (count : block_group_descriptor -> Z).

(** The search both allocators start with returns the highest counter of all groups and the
    first group that has it, or 0 when no group has anything free; it writes nothing and leaves the
    file alone. *)
Lemma most_free_group_spec count s :
  fs_ok (s_c s) -> table_in_volume s ->
  exists m g s', most_free_group count s = Ok ((m, g), s') /\
    (forall g', 0 <= g' < num_blockgroups (c_ctx (s_c s)) -> group_count count s g' <= m) /\
    (0 < m -> 0 <= g < num_blockgroups (c_ctx (s_c s)) /\ group_count count s g = m /\
       forall g', 0 <= g' < g -> group_count count s g' < m) /\
    s_fe s' = s_fe s /\ c_dev (s_c s') = c_dev (s_c s).
Proof.
  intros Hs Hv. destruct (most_free_group_run count s Hs Hv) as ([m g] & s' & Hrun & Hb & [Hfe [b Hc]] & _).
  destruct Hb as (Hm0 & Hmax & Hbest). cbn [fst snd] in *. exists m, g, s'. split; [done|].
  split; [intros g' Hg'; apply Hmax; lia|]. split; [|split; [done | by rewrite Hc]].
  intros Hm. destruct Hbest as [[= -> ->]|(Hg & _ & Heq & Hlt)]; [lia|]. split; [lia | done].
Qed.

(** With no free inode in any group [ext2_allocate_inode] returns -1, and with no free block in
    any group [ext2_allocate_block] returns 0; both record ENOSPC in the file and write nothing. *)
Lemma allocate_no_space s previous_block :
  fs_ok (s_c s) -> table_in_volume s ->
  ((forall g, 0 <= g < num_blockgroups (c_ctx (s_c s)) -> group_count bg_free_inodes_count s g = 0) ->
   exists s', ext2_allocate_inode s = Ok (-1, s') /\ fe_rerrno (s_fe s') = ENOSPC /\
     c_dev (s_c s') = c_dev (s_c s)) /\
  ((forall g, 0 <= g < num_blockgroups (c_ctx (s_c s)) -> group_count bg_free_blocks_count s g = 0) ->
   exists s', ext2_allocate_block previous_block s = Ok (0, s') /\ fe_rerrno (s_fe s') = ENOSPC /\
     c_dev (s_c s') = c_dev (s_c s)).
Proof.
  intros Hs Hv.
  assert (Hnone : forall count, (forall g, 0 <= g < num_blockgroups (c_ctx (s_c s)) -> group_count count s g = 0) ->
    exists g s', most_free_group count s = Ok ((0, g), s') /\ c_dev (s_c s') = c_dev (s_c s)).
  { intros count Hz. destruct (most_free_group_run count s Hs Hv)
      as ([m g] & s' & Hrun & (Hm0 & _ & Hbest) & [_ [b Hc]] & _). cbn [fst snd] in *.
    exists g, s'. split; [|by rewrite Hc]. rewrite Hrun. do 3 f_equal.
    destruct Hbest as [[= -> ->]|(Hg & Hpos & Heq & _)]; [done|]. rewrite Hz in Heq by lia. lia. }
  split; intros Hz; destruct (Hnone _ Hz) as (g & s' & Hrun & Hd).
  - unfold ext2_allocate_inode. erewrite bind_ok by exact Hrun. cbn beta iota. by eexists.
  - unfold ext2_allocate_block. erewrite bind_ok by exact Hrun. cbn beta iota. by eexists.
Qed.

(** The run of [ext2_allocate_inode] when the bitmap of the roomiest group [g] has a clear bit. *)
Lemma allocate_inode_run s g :
  let c := c_ctx (s_c s) in
  let ipg := s_inodes_per_group (ctx_superblock c) in
  let b := bg_inode_bitmap (bg_on_disk c (c_dev (s_c s)) (superblock_block c) g) in
  file_ok s -> table_in_volume s -> roomiest bg_free_inodes_count s g ->
  tables_in_volume c (c_dev (s_c s)) g -> copies_ok c (c_dev (s_c s)) -> ipg < 2147483648 ->
  (forall i, 0 <= i < ipg / 8 -> in_volume (c_dev (s_c s)) (block_lba c b i)) ->
  (exists k, 0 <= k < 8 * (ipg / 8) /\ bitmap_at c (view s) b k = false) ->
  exists k s', ext2_allocate_inode s = Ok (0, s') /\ 0 <= k < ipg /\
    bitmap_at c (view s) b k = false /\ (forall k', 0 <= k' < k -> bitmap_at c (view s) b k' = true) /\
    inode_claimed ipg g b k s s'.
Proof.
  intros c ipg b Hs Htv Hroom Htab Hcop Hipg Hbv Hclear.
  destruct (roomiest_best _ s g (fo_fs _ Hs) Htv Hroom) as (s1 & Hfind & Hso1 & Hok1).
  pose proof Hroom as (Hg & Hpos & _ & _).
  destruct (get_bg_after s g Hs Htv Hg s1 Hso1 Hok1) as (s2 & Hget & Hso2 & Hok2).
  pose proof (sysbuf_only_ok _ _ Hs Hso2 Hok2) as Hs2. pose proof (sysbuf_only_view _ _ Hso2) as Hview.
  destruct (sysbuf_only_ctx _ _ Hso2) as [b2 Hctx].
  assert (Hwf : cs_wf (bg_on_disk c (c_dev (s_c s)) (superblock_block c) g))
    by (apply bg_on_disk_wf; [apply Hs | lia | by apply Htv]).
  assert (Hb0 : 0 <= b) by (eapply (cs_wf_lookup _ 1) in Hwf; [|done..]; apply Hwf).
  destruct (bitmap_scan_run s2 b ipg Hs2 Hb0 Hipg) as (i & v & t & Hscan & Hi & Hhit).
  { rewrite Hctx, Hview. intros i Hi. by apply view_volume, Hbv. }
  { by rewrite Hctx, Hview. }
  assert (Hc2 : c_dev (s_c s2) = c_dev (s_c s)) by (by destruct Hso2 as [_ [b' ->]]).
  destruct (claim_inode_run (bg_on_disk c (c_dev (s_c s)) (superblock_block c) g) g ipg b i v s2 t)
    as (byte & j & s' & -> & Hj & Hclr & Hset & Hrun & Hclaim); try done.
  - assert (ipg / 8 < 2147483648) by (apply Z.div_lt_upper_bound; lia). lia.
  - rewrite Hctx, Hview. by apply view_volume, Hbv.
  - by rewrite Hctx.
  - by rewrite Hctx, Hc2.
  - rewrite Hctx, Hc2. destruct Hcop. by split.
  - rewrite Hctx, Hview in Hclr, Hset.
    pose proof (Z.mul_div_le ipg 8). exists (8 * i + j), s'. split; [|split; [lia|]].
    + unfold ext2_allocate_inode. erewrite bind_ok by exact Hfind. cbn beta iota.
      destruct (Z.eqb_spec (group_count bg_free_inodes_count s g) 0); [lia|].
      erewrite bind_ok by exact Hget. cbn beta iota. erewrite bind_ok by reflexivity.
      replace (set_c (s_c s2) s2) with s2 by (by destruct s2). unfold fctx. rewrite bind_gets, Hctx.
      change (s_inodes_per_group (ctx_superblock (set_sysbuf b2 (c_ctx (s_c s))))) with ipg.
      erewrite bind_ok by exact Hscan. cbn beta iota.
      destruct (Z.ltb_spec i ipg); [|lia]. cbn [init_val]. destruct (Z.ltb_spec j 8); [|lia].
      erewrite bind_ok by (erewrite bind_ok by reflexivity; reflexivity).
      destruct (Z.ltb_spec j 8); [exact Hrun | lia].
    + split; [done|]. split; [done|]. by apply (inode_claimed_after _ _ _ _ s s2).
Qed.

(** C16: [ext2_allocate_inode] takes the first clear bit of the inode bitmap of the first group with
    the most free inodes: it records that inode's number in the file, lowers the superblock's
    counter by one, and on the device sets that bit and changes nothing else outside the copies of
    the superblock. The file's buffered sector is stored on the way. *)
Theorem allocate_inode_first_free s g :
  let c := c_ctx (s_c s) in
  let ipg := s_inodes_per_group (ctx_superblock c) in
  let b := bg_inode_bitmap (bg_on_disk c (c_dev (s_c s)) (superblock_block c) g) in
  file_ok s -> table_in_volume s -> roomiest bg_free_inodes_count s g ->
  tables_in_volume c (c_dev (s_c s)) g -> copies_ok c (c_dev (s_c s)) -> ipg < 2147483648 ->
  (forall i, 0 <= i < ipg / 8 -> in_volume (c_dev (s_c s)) (block_lba c b i)) ->
  (exists k, 0 <= k < 8 * (ipg / 8) /\ bitmap_at c (view s) b k = false) ->
  exists k s', ext2_allocate_inode s = Ok (0, s') /\ 0 <= k < ipg /\
    bitmap_at c (view s) b k = false /\ (forall k', 0 <= k' < k -> bitmap_at c (view s) b k' = true) /\
    fe_inode_number (s_fe s') = u32 (ipg * g + k + 1) /\
    s_free_inodes_count (ctx_superblock (c_ctx (s_c s'))) =
      u32 (s_free_inodes_count (ctx_superblock c) - 1) /\
    forall n, in_volume (c_dev (s_c s)) n ->
      (forall b', b' ∈ superblock_blocks c -> n <> sb_lba c b') ->
      dev_sector (c_dev (s_c s')) n =
        if n =? block_lba c b (k / 8) then bit_put (k mod 4096) true (dev_sector (view s) n)
        else dev_sector (view s) n.
Proof.
  intros c ipg b Hs Htv Hroom Htab Hcop Hipg Hbv Hclear.
  destruct (allocate_inode_run s g Hs Htv Hroom Htab Hcop Hipg Hbv Hclear)
    as (k & s' & Hrun & Hk & Hclr & Hset & Hclaim). destruct (inode_claimed_count _ _ _ _ _ _ Hclaim) as [Hno Hcount].
  exists k, s'. do 6 (split; [done|]). apply Hclaim.
Qed.

(** The block bitmap of group [g], and the block claimed for its bit [k]. *)
Definition group_bitmap s (g : Z) : Z :=
  bg_block_bitmap (bg_on_disk (c_ctx (s_c s)) (c_dev (s_c s)) (superblock_block (c_ctx (s_c s))) g).
Definition claimed_block s (g k : Z) : Z := s_blocks_per_group (ctx_superblock (c_ctx (s_c s))) * g + k + 1.

(** The search of [ext2_allocate_block]: it ends in a state with the file's buffer stored, and what
    is left is [ext2_change_allocated] on the block after the clear bit [k]. *)
Lemma allocate_block_search s g k previous_block :
  let c := c_ctx (s_c s) in
  let bpg := s_blocks_per_group (ctx_superblock c) in
  let b := bg_block_bitmap (bg_on_disk c (c_dev (s_c s)) (superblock_block c) g) in
  let n := bpg * g + k + 1 in
  file_ok s -> table_in_volume s -> roomiest bg_free_blocks_count s g -> bpg < 2147483648 ->
  (forall i, 0 <= i < bpg / 8 -> in_volume (c_dev (s_c s)) (block_lba c b i)) ->
  0 <= k < 8 * (bpg / 8) -> bitmap_at c (view s) b k = false ->
  (forall k', 0 <= k' < k -> bitmap_at c (view s) b k' = true) ->
  0 <= n < 4294967296 ->
  exists t b2 bo isdir, file_ok t /\ s_fe t = set_fe_buffer bo (s_fe s) /\ bo_dirty bo = 0 /\
    s_c t = mk_cst (set_sysbuf b2 c) (view s) (c_errno (s_c s)) (c_tick (s_c s)) /\
    forall rc (s' : cst D), ext2_change_allocated n EXT2_ALLOCATED isdir (s_c t) = Ok (rc, s') ->
      ext2_allocate_block previous_block s = Ok (if negb (rc =? 0) then 0 else n, set_c s' t).
Proof.
  intros c bpg b n Hs Htv Hroom Hbpg Hbv Hk Hclear Hfirst Hn.
  destruct (roomiest_best _ s g (fo_fs _ Hs) Htv Hroom) as (s1 & Hfind & Hso1 & Hok1).
  pose proof Hroom as (Hg & Hpos & _ & _).
  destruct (get_bg_after s g Hs Htv Hg s1 Hso1 Hok1) as (s2 & Hget & Hso2 & Hok2).
  pose proof (sysbuf_only_ok _ _ Hs Hso2 Hok2) as Hs2. pose proof (sysbuf_only_view _ _ Hso2) as Hview.
  destruct (sysbuf_only_ctx _ _ Hso2) as [b2 Hctx].
  assert (Hwf : cs_wf (bg_on_disk c (c_dev (s_c s)) (superblock_block c) g))
    by (apply bg_on_disk_wf; [apply Hs | lia | by apply Htv]).
  assert (Hb0 : 0 <= b) by (eapply (cs_wf_lookup _ 0) in Hwf; [|done..]; apply Hwf).
  destruct (bitmap_scan_run s2 b bpg Hs2 Hb0 Hbpg) as (i & v & t & Hscan & Hi & Hhit).
  { rewrite Hctx, Hview. intros i Hi. by apply view_volume, Hbv. }
  { rewrite Hctx, Hview. by exists k. }
  destruct Hhit as (j & t0 & -> & -> & Hbu & Ht0 & Hj & Hclr & Hset).
  rewrite Hctx, Hview in Hclr, Hset.
  assert (k = 8 * i + j) as Hkij.
  { destruct (Z.lt_trichotomy k (8 * i + j)) as [Hlt|[|Hgt]]; [|done|].
    - specialize (Hset k). change (bitmap_at (set_sysbuf b2 (c_ctx (s_c s)))) with (bitmap_at c) in Hset.
      rewrite Hclear in Hset. specialize (Hset ltac:(lia)). done.
    - specialize (Hfirst (8 * i + j)). change (bitmap_at (set_sysbuf b2 (c_ctx (s_c s)))) with (bitmap_at c) in Hclr.
      rewrite Hclr in Hfirst. specialize (Hfirst ltac:(lia)). done. }
  set (t := buffered b i t0) in *.
  assert (Hvt : in_volume (c_dev (s_c t0)) (block_lba (c_ctx (s_c t0)) b i)).
  { apply view_volume; [done|]. rewrite (bu_view _ _ Hbu), (buf_only_ctx _ _ Hbu), Hview, Hctx.
    by apply view_volume, Hbv. }
  pose proof (buffered_ok b i t0 Ht0 Hvt) as Hokt. fold t in Hokt.
  assert (Ht : s_fe t = set_fe_buffer (fe_buffer (s_fe t)) (s_fe s) /\
    s_c t = mk_cst (set_sysbuf b2 c) (view s) (c_errno (s_c s)) (c_tick (s_c s))).
  { destruct (bu_fe _ _ Hbu) as [bo Hfe]. destruct (bu_c _ _ Hbu) as [d0 Hd0].
    pose proof (bu_view _ _ Hbu) as Hv0. destruct Hso2 as [Hfe2 [b' Hc2]]. rewrite Hc2 in Hd0, Hctx.
    split; [unfold t; cbn; by rewrite Hfe, Hfe2|]. unfold t, buffered. cbn [s_c]. rewrite Hv0, Hview, Hd0.
    unfold set_dev, upd_ctx in *. cbn [c_ctx c_errno c_tick] in *. by rewrite Hctx. }
  destruct Ht as [Hft Hct].
  exists t, b2, (fe_buffer (s_fe t)), (if has_flag (i_mode (fe_inode (s_fe t))) S_IFDIR then 1 else 0).
  split; [done|]. split; [exact Hft|]. split; [done|]. split; [exact Hct|].
  intros rc s' Hrun. unfold ext2_allocate_block. erewrite bind_ok by exact Hfind. cbn beta iota.
  destruct (Z.eqb_spec (group_count bg_free_blocks_count s g) 0); [lia|].
  erewrite bind_ok by exact Hget. cbn beta iota. erewrite bind_ok by reflexivity.
  replace (set_c (s_c s2) s2) with s2 by (by destruct s2). unfold fctx. rewrite bind_gets, Hctx.
  change (s_blocks_per_group (ctx_superblock (set_sysbuf b2 (c_ctx (s_c s))))) with bpg.
  erewrite bind_ok by exact Hscan. cbn beta iota.
  destruct (Z.ltb_spec i (bpg / 8)); [|lia]. cbn [init_val].
  erewrite bind_ok by (erewrite bind_ok by reflexivity; reflexivity). destruct (Z.ltb_spec j 8); [|lia].
  unfold fe. rewrite bind_gets. replace (bpg * g + i * 8 + j + 1) with n by (unfold n; lia).
  rewrite u32_id by lia. erewrite bind_ok by (apply zoom_ok; exact Hrun). done.
Qed.

(** The search finds the clear bit [k] of group [g], and what [ext2_change_allocated] touches for the
    block after it is in the volume. *)
Record allocatable s (g k : Z) : Prop := {
  al_file : file_ok s;
  al_table : table_in_volume s;
  al_room : roomiest bg_free_blocks_count s g;
  al_bpg : s_blocks_per_group (ctx_superblock (c_ctx (s_c s))) < 2147483648;
  al_bitmap i : 0 <= i < s_blocks_per_group (ctx_superblock (c_ctx (s_c s))) / 8 ->
    in_volume (c_dev (s_c s)) (block_lba (c_ctx (s_c s)) (group_bitmap s g) i);
  al_bit : 0 <= k < 8 * (s_blocks_per_group (ctx_superblock (c_ctx (s_c s))) / 8);
  al_clear : bitmap_at (c_ctx (s_c s)) (view s) (group_bitmap s g) k = false;
  al_first k' : 0 <= k' < k -> bitmap_at (c_ctx (s_c s)) (view s) (group_bitmap s g) k' = true;
  al_range : claimed_block s g k < 4294967296;
  al_change : change_ok (set_dev (view s) (s_c s)) (claimed_block s g k)
}.

(** The bit that [ext2_change_allocated] keeps for the claimed block. *)
Definition claim_lba s (n : Z) : Z := bitmap_lba (c_ctx (s_c s)) (view s) n.
Definition claim_taken s (n : Z) : bool :=
  bit_get (dev_sector (view s) (claim_lba s n)) (bitmap_bit (c_ctx (s_c s)) n).

(** The two outcomes: the file's buffer is stored and clean; nothing else changed when the bit was
    set, the bit and the counter when it was clear. *)
Lemma allocate_block_run s g k previous_block :
  allocatable s g k ->
  let c := c_ctx (s_c s) in
  let n := claimed_block s g k in
  exists bo b, sector_ok (bo_buffer bo) /\ bo_dirty bo = 0 /\ sector_ok b /\
    ext2_allocate_block previous_block s =
      if claim_taken s n
      then Ok (0, mk_fst (set_fe_buffer bo (s_fe s))
                    (mk_cst (set_sysbuf b c) (view s) (c_errno (s_c s)) (c_tick (s_c s))))
      else Ok (n, mk_fst (set_fe_buffer bo (s_fe s))
                    (mk_cst (upd_superblock (changed_sb EXT2_ALLOCATED) (set_sysbuf b c))
                       (dev_put (view s) (claim_lba s n)
                          (bit_put (bitmap_bit c n) true (dev_sector (view s) (claim_lba s n))))
                       (c_errno (s_c s)) (c_tick (s_c s)))).
Proof.
  intros [Hs Htv Hroom Hbpg Hbv Hk Hclear Hfirst Hn Hch] c n. fold n in Hn, Hch.
  destruct (allocate_block_search s g k previous_block) as (t & b2 & bo & isdir & Hokt & Hft & Hcl & Hct & Hprefix);
    try done; [split; [apply Hch | done]|]. fold c in Hct, Hprefix. change (_ * g + k + 1) with n in Hprefix.
  assert (Hcht : change_ok (s_c t) n).
  { rewrite Hct. destruct Hch as [_ H1' H2' H3' H4' H5']. split; [| done | done | done | done | done].
    pose proof (fo_fs _ Hokt) as Hfs. by rewrite Hct in Hfs. }
  assert (Hlba : bitmap_lba (c_ctx (s_c t)) (c_dev (s_c t)) n = claim_lba s n) by (by rewrite Hct).
  assert (Hbit : bitmap_bit (c_ctx (s_c t)) n = bitmap_bit c n) by (by rewrite Hct).
  assert (Hdt : c_dev (s_c t) = view s) by (by rewrite Hct).
  assert (Hbo : sector_ok (bo_buffer bo)) by (pose proof (fo_buffer _ Hokt) as Hb; by rewrite Hft in Hb).
  exists bo. unfold claim_taken. destruct (bit_get _ _) eqn:Htaken.
  - pose proof (change_allocated_refused EXT2_ALLOCATED isdir (s_c t) n Hcht (or_introl eq_refl)) as Hrun.
    rewrite Hlba, Hbit, Hdt in Hrun. exists (dev_sector (view s) (claim_lba s n)).
    split; [done|]. split; [done|]. split.
    + apply dev_sector_ok; [by apply view_ok|]. apply Hch.
    + rewrite (Hprefix _ _ (Hrun Htaken)). unfold set_c, loaded, upd_ctx. by rewrite Hft, Hct.
  - destruct (change_allocated_changes EXT2_ALLOCATED isdir (s_c t) n Hcht (or_introl eq_refl))
      as (b3 & Hb3 & Hrun). { rewrite Hlba, Hbit, Hdt. exact Htaken. }
    rewrite Hlba, Hbit, Hdt in Hrun. exists b3. do 3 (split; [done|]).
    rewrite (Hprefix _ _ Hrun). unfold set_c. by rewrite Hft, Hct.
Qed.

(** C23: [ext2_allocate_block] searches the block bitmap of the first group with the most free blocks
    for its first clear bit [k] and claims block [blocks_per_group * g + k + 1]. Whether that
    succeeds depends on the bit [ext2_change_allocated] keeps for this block, which is not bit [k]:
    if it is set the result is 0 and nothing is written but the file's buffered sector; if it is
    clear the block is returned and that bit set, and nothing else changes. *)
Theorem allocate_block_claims_next s g k previous_block :
  let c := c_ctx (s_c s) in
  let n := s_blocks_per_group (ctx_superblock c) * g + k + 1 in
  let lba := bitmap_lba c (view s) n in
  let bit := bitmap_bit c n in
  allocatable s g k ->
  let taken := bit_get (dev_sector (view s) lba) bit in
  exists s', ext2_allocate_block previous_block s = Ok (if taken then 0 else n, s') /\
    forall m, in_volume (view s) m -> dev_sector (c_dev (s_c s')) m =
      if negb taken && (m =? lba) then bit_put bit true (dev_sector (view s) m) else dev_sector (view s) m.
Proof.
  intros c n lba bit Hal taken.
  destruct (allocate_block_run s g k previous_block Hal) as (bo & b & _ & _ & _ & Hrun).
  change (claimed_block s g k) with n in Hrun. change (claim_lba s n) with lba in Hrun.
  change (claim_taken s n) with taken in Hrun. fold c in Hrun.
  destruct taken; (eexists; split; [exact Hrun|]); [done|].
  intros m Hm. cbn [s_c set_c c_dev negb andb].
  pose proof Hal as [Hs _ _ _ _ _ _ _ _ [_ _ _ _ _ Hvl]].
  change (in_volume (view s) lba) in Hvl.
  pose proof (view_ok s Hs) as Hvs. destruct (dev_sector_ok _ _ Hvs Hvl) as [Hl Hby]. unfold BLOCK_SIZE in Hl.
  rewrite dev_put_sector; [| done | done | done |].
  - fold bit. by destruct (Z.eqb_spec m lba) as [->|]; case_decide.
  - split; [by rewrite length_bit_put|]. apply bytes_ok_bit_put; [done|].
    pose proof (bitmap_bit_range c n : 0 <= bit < 4096). unfold bit in *. lia.
Qed.
End alloc_properties.
