(* ===== verification/Truncate.v ===== *)
(** * What truncation releases

    [ext2_truncate_file] of [src/src/embext.c] against a reference: [tree_blocks]
    enumerates the blocks of a file from its inode and the device, and the truncation
    is proved to free exactly those, to count them, and to leave an inode that refers
    to nothing, for a file without a triply indirect block and without holes in its
    index blocks. What the code frees in the other cases too is [truncated_blocks]:
    below an index block the entries before the first 0, and below a triply indirect
    block nothing that belongs to the file ([triple_tree_leaked]). The relation [released]
    says what the state is after some of the blocks were freed; [releases] is the
    contract of each part of the function. *)
From S2P Require Import Prelude Layout OnDisk Device Context Bitmap Super FileBuf BlockMap Alloc.

(** ** The reference *)

(** The numbers other than 0. *)
Definition nonzero (l : list Z) : list Z := filter (fun b => b <> 0) l.

Section reference.
Context {D : Type} `{BlockDevice D, BlockView D}.
Implicit Types (c : ext2context) (d : D) (r : inode).

(** The numbers in an index block; the blocks [depth] levels of them lead to, those below before the block
    itself; and the index blocks among them. *)
Definition block_entries c d (b : Z) : list Z := nonzero (entry c d b <$> seqZ 0 (bsz c / 4)).
Fixpoint below c d (depth : nat) (b : Z) : list Z :=
  match depth with
  | O => []
  | S depth' => flat_map (fun b' => below c d depth' b' ++ [b']) (block_entries c d b)
  end.

(** A block with what is below it; nothing when the number is 0. *)
Definition subtree (below : Z -> list Z) (b : Z) : list Z := if b =? 0 then [] else below b ++ [b].



(** ** What the code frees *)

(** The entries of indirect block [b] from entry [i] up to the first 0, at most [n]. *)
Section entries.
Variables (c : ext2context) (d : D) (b : Z).
Fixpoint entries_from (n : nat) (i : Z) : list Z :=
  match n with
  | O => []
  | S n' => let e := entry c d b i in if e =? 0 then [] else e :: entries_from n' (i + 1)
  end.
End entries.
Definition live_entries c d (b : Z) : list Z := entries_from c d b (Z.to_nat (bsz c / 4)) 0.

(** The blocks below indirect block [b], and below a doubly indirect one. *)
Definition indirect_blocks c d (b : Z) : list Z := live_entries c d b.
Definition double_blocks c d (b : Z) : list Z :=
  flat_map (fun b' => indirect_blocks c d b' ++ [b']) (live_entries c d b).
(** What the code frees below a triply indirect block: it starts from [top], the number that is
    left in [i_block[13]], and its innermost loop reads the block of the outermost one. *)
Definition triple_blocks c d (top : Z) : list Z :=
  flat_map (fun b => flat_map (fun b' => indirect_blocks c d b ++ [b']) (live_entries c d b) ++ [b])
    (live_entries c d top).

(** Every block that is freed for the file with inode [r], in order. *)
Definition truncated_blocks c d r : list Z :=
  nonzero (take 12 (i_block r)) ++
  subtree (indirect_blocks c d) (i_block r !!! 12%nat) ++
  subtree (double_blocks c d) (i_block r !!! 13%nat) ++
  subtree (fun _ => triple_blocks c d 0) (i_block r !!! 14%nat).

(** The blocks whose entries are read. *)
Definition index_blocks c d r : list Z :=
  (if i_block r !!! 12%nat =? 0 then [] else [i_block r !!! 12%nat]) ++
  (if i_block r !!! 13%nat =? 0 then [] else
     i_block r !!! 13%nat :: live_entries c d (i_block r !!! 13%nat)) ++
  (if i_block r !!! 14%nat =? 0 then [] else 0 :: live_entries c d 0).

(** Block [b] can be freed, with its group's descriptor outside the bitmap sectors of [L]. *)
Definition releasable (s : cst D) (L : list Z) (b : Z) : Prop :=
  change_ok s b /\ forall b', b' ∈ L -> group_lba s b <> bitmap_lba (c_ctx s) (c_dev s) b'.

(** The entries of block [b] can be read, and none is in a bitmap sector of [L]. *)
Definition index_readable (s : cst D) (L : list Z) (b : Z) : Prop :=
  0 <= b /\ forall i, 0 <= i < bsz (c_ctx s) / 4 ->
    in_volume (c_dev s) (block_lba (c_ctx s) b (i * 4)) /\
    forall b', b' ∈ L -> block_lba (c_ctx s) b (i * 4) <> bitmap_lba (c_ctx s) (c_dev s) b'.

(** The bit that [ext2_change_allocated] keeps for a block. *)
Definition allocation_bit c d (b : Z) : Z * Z := (bitmap_lba c d b, bitmap_bit c b).
Definition in_use c d (b : Z) : bool := bit_get (dev_sector d (bitmap_lba c d b)) (bitmap_bit c b).

(** Sector [n] after the bits of the blocks [R] were cleared. *)
Definition cleared_by c d (n : Z) (sec : list Z) (b : Z) : list Z :=
  if n =? bitmap_lba c d b then bit_put (bitmap_bit c b) false sec else sec.
Definition cleared c d (R : list Z) (n : Z) : list Z := foldl (cleared_by c d n) (dev_sector d n) R.
(** How many of them had their bit set. *)
Definition freed c d (R : list Z) : Z := Z.of_nat (length (filter (fun b => in_use c d b = true) R)).
End reference.

(** * Facts *)
Section cleared_facts.
Context {D : Type} `{BlockDeviceLaws D}.
Implicit Types (c : ext2context) (d : D) (R : list Z).

Lemma cleared_snoc c d R b n : cleared c d (R ++ [b]) n = cleared_by c d n (cleared c d R n) b.
Proof. unfold cleared. by rewrite foldl_app. Qed.

Lemma length_cleared c d R n : length (cleared c d R n) = length (dev_sector d n).
Proof.
  induction R as [|b R IH] using rev_ind; [done|]. rewrite cleared_snoc. unfold cleared_by.
  case_match; [by rewrite length_bit_put | done].
Qed.

(** A sector without the bit of any of the blocks is as it was. *)
Lemma cleared_other c d R n : (forall b, b ∈ R -> n <> bitmap_lba c d b) -> cleared c d R n = dev_sector d n.
Proof.
  induction R as [|b R IH] using rev_ind; [done|]. intros Hn. rewrite cleared_snoc. unfold cleared_by.
  destruct (Z.eqb_spec n (bitmap_lba c d b)); [by destruct (Hn b); [apply elem_of_app; right; left|]|].
  apply IH. intros b' Hb'. apply Hn, elem_of_app. by left.
Qed.

(** The bits of a cleared sector. *)
Lemma bit_get_cleared c d R n k :
  dev_ok d -> in_volume d n -> 0 <= k ->
  bit_get (cleared c d R n) k =
    bit_get (dev_sector d n) k && negb (bool_decide ((n, k) ∈ allocation_bit c d <$> R)).
Proof.
  intros Hd Hn Hk. induction R as [|b R IH] using rev_ind; [by rewrite andb_true_r|].
  rewrite cleared_snoc, fmap_app. unfold cleared_by. pose proof (bitmap_bit_range c b).
  pose proof (length_cleared c d R n) as Hl. pose proof (sector_length d n Hd Hn).
  destruct (Z.eqb_spec n (bitmap_lba c d b)) as [Hnb|Hnb].
  - rewrite bit_get_put, IH by lia. destruct (Z.eqb_spec k (bitmap_bit c b)) as [Hkb|Hkb].
    + rewrite bool_decide_true; [by rewrite andb_false_r|]. subst. apply elem_of_app. right. by left.
    + do 2 f_equal. apply bool_decide_ext. rewrite elem_of_app. change (allocation_bit c d <$> [b]) with [allocation_bit c d b]. rewrite list_elem_of_singleton.
      split; [by left | intros [|[= _ ?]]; done].
  - rewrite IH. do 2 f_equal. apply bool_decide_ext. rewrite elem_of_app. change (allocation_bit c d <$> [b]) with [allocation_bit c d b]. rewrite list_elem_of_singleton.
    split; [by left | intros [|[= ? _]]; done].
Qed.

Lemma freed_snoc c d R b : freed c d (R ++ [b]) = freed c d R + if in_use c d b then 1 else 0.
Proof.
  unfold freed. rewrite list.filter_app, length_app, filter_cons.
  case_decide as Hu; destruct (in_use c d b); try done; cbn; lia.
Qed.
End cleared_facts.

Lemma entries_le c : ctx_ok c -> bsz c / 4 <= 268435456.
Proof.
  intros Hc. pose proof (ok_log c Hc). unfold bsz. rewrite Z.shiftl_mul_pow2 by lia.
  assert (2 ^ s_log_block_size (ctx_superblock c) <= 2 ^ 20) by (apply Z.pow_le_mono_r; lia).
  change (2 ^ 20) with 1048576 in *. apply Z.div_le_upper_bound; lia.
Qed.

Section release.
Context {D : Type} `{BlockDeviceLaws D}.
(** The file whose blocks are freed, and the blocks. *)
Variables (s : file_state D) (L : list Z).
#[local] Abbreviation c0 := (c_ctx (s_c s)).
#[local] Abbreviation d0 := (c_dev (s_c s)).
Hypothesis Hrel : Forall (releasable (s_c s) L) L.
Hypothesis Hbits : NoDup (allocation_bit c0 d0 <$> L).

(** After the blocks [R] were freed, with inode [r]: their bits are clear, the counter has moved by
    as many as were in use, and the file differs in its buffer and inode only. *)
Record released (R : list Z) (r : inode) (t : file_state D) : Prop := {
  re_file : file_ok t;
  re_clean : bo_dirty (fe_buffer (s_fe t)) = 0;
  re_fe : exists bo, s_fe t = upd_fe_inode (fun _ => r) (set_fe_buffer bo (s_fe s));
  re_ctx : exists b, c_ctx (s_c t) = upd_superblock (set_s_free_blocks_count
    (u32 (s_free_blocks_count (ctx_superblock c0) + freed c0 d0 R))) (set_sysbuf b c0);
  re_volume : block_get_volume_size (c_dev (s_c t)) = block_get_volume_size d0;
  re_sectors : forall n, in_volume d0 n -> dev_sector (c_dev (s_c t)) n = cleared c0 d0 R n;
  re_errno : c_errno (s_c t) = c_errno (s_c s)
}.

Lemma re_inode R r t : released R r t -> fe_inode (s_fe t) = r.
Proof. intros [_ _ [bo ->] _ _ _ _]. done. Qed.

Lemma re_in_volume R r t n : released R r t -> in_volume (c_dev (s_c t)) n <-> in_volume d0 n.
Proof. intros []. unfold in_volume. by rewrite re_volume0. Qed.

Lemma re_bg_lba R r t x g : released R r t -> bg_lba (c_ctx (s_c t)) x g = bg_lba c0 x g.
Proof. intros [_ _ _ [b ->] _ _ _]. unfold bg_lba, spb, bsz. cbn. by destruct (ctx_superblock c0). Qed.

Lemma re_bpg R r t :
  released R r t -> s_blocks_per_group (ctx_superblock (c_ctx (s_c t))) = s_blocks_per_group (ctx_superblock c0).
Proof. intros [_ _ _ [b ->] _ _ _]. cbn. by destruct (ctx_superblock c0). Qed.

Lemma re_bsz R r t : released R r t -> bsz (c_ctx (s_c t)) = bsz c0.
Proof. intros [_ _ _ [b ->] _ _ _]. unfold bsz. cbn. by destruct (ctx_superblock c0). Qed.

Lemma re_block_lba R r t b off : released R r t -> block_lba (c_ctx (s_c t)) b off = block_lba c0 b off.
Proof. intros [_ _ _ [x ->] _ _ _]. unfold block_lba, spb, bsz. cbn. by destruct (ctx_superblock c0). Qed.

(** Freeing other blocks moves neither the bit of a block nor what [ext2_change_allocated] needs. *)
Lemma re_position R r t b :
  released R r t -> (forall x, x ∈ R -> x ∈ L) -> releasable (s_c s) L b ->
  change_ok (s_c t) b /\ bitmap_lba (c_ctx (s_c t)) (c_dev (s_c t)) b = bitmap_lba c0 d0 b /\
  bitmap_bit (c_ctx (s_c t)) b = bitmap_bit c0 b.
Proof.
  intros Ht HR [Hch Hout]. pose proof Hch as [_ Hb Hg Htab Hcop Hbm].
  pose proof (re_bpg _ _ _ Ht) as Hbpg. pose proof (fun n => re_in_volume _ _ _ n Ht) as Hvol.
  assert (Hlba : bitmap_lba (c_ctx (s_c t)) (c_dev (s_c t)) b = bitmap_lba c0 d0 b).
  { unfold bitmap_lba, bg_on_disk. rewrite Hbpg, (re_bg_lba _ _ _ _ _ Ht).
    pose proof Ht as [_ _ _ [x Hx] _ Hsec _]. rewrite Hx. cbn [superblock_block part_start upd_superblock set_sysbuf].
    rewrite Hsec by exact Htab. rewrite cleared_other; [done|]. intros b' Hb'. apply (Hout b'). by apply HR. }
  split; [|split; [done | unfold bitmap_bit; by rewrite Hbpg]].
  assert (Hsb : superblock_block (c_ctx (s_c t)) = superblock_block c0 /\
    num_blockgroups (c_ctx (s_c t)) = num_blockgroups c0 /\ num_superblocks (c_ctx (s_c t)) = num_superblocks c0 /\
    superblock_blocks (c_ctx (s_c t)) = superblock_blocks c0) by (by destruct Ht as [_ _ _ [x ->] _ _ _]).
  destruct Hsb as (Hsb & Hng & Hns & Hsbs).
  split; rewrite ?Hbpg, ?Hlba, ?Hsb, ?Hng, ?(re_bg_lba _ _ _ _ _ Ht); try done.
  - apply Ht.
  - by apply Hvol.
  - intros i Hi. rewrite Hns in Hi. destruct (Hcop i Hi) as (b0 & Hb0 & Hin). exists b0.
    rewrite Hsbs, (re_bg_lba _ _ _ _ _ Ht). split; [done|]. by apply Hvol.
  - by apply Hvol.
Qed.

(** The bit of a block is as it was while only other blocks of [L] were freed. *)
Lemma re_bit R R' b r t :
  released R r t -> L = R ++ b :: R' ->
  bit_get (dev_sector (c_dev (s_c t)) (bitmap_lba c0 d0 b)) (bitmap_bit c0 b) = in_use c0 d0 b.
Proof.
  intros Ht HL. assert (Hb : releasable (s_c s) L b) by (pose proof Hrel as Hr; rewrite HL in Hr at 2; apply Forall_app in Hr as [_ Hr]; by inversion Hr).
  destruct Hb as [[[_ Hd] _ _ _ _ Hbm] _]. pose proof (bitmap_bit_range c0 b).
  rewrite (re_sectors _ _ _ Ht), bit_get_cleared by (done || lia). rewrite bool_decide_false; [by rewrite andb_true_r|].
  intros Hin. rewrite HL, fmap_app, list.NoDup_app in Hbits. destruct Hbits as (_ & Hdis & _).
  apply (Hdis _ Hin). rewrite fmap_cons. by left.
Qed.

(** Freeing one more block, whatever its bit. *)
Lemma dealloc_run isdir R R' b r t :
  released R r t -> L = R ++ b :: R' ->
  exists rc t', dealloc isdir b t = Ok (rc, t') /\ released (R ++ [b]) r t'.
Proof.
  intros Ht HL. assert (Hb : releasable (s_c s) L b)
    by (pose proof Hrel as Hr; rewrite HL in Hr at 2; apply Forall_app in Hr as [_ Hr]; by inversion Hr).
  assert (HR : forall x, x ∈ R -> x ∈ L) by (intros x Hx; rewrite HL; apply elem_of_app; by left).
  destruct (re_position R r t b Ht HR Hb) as (Hch & Hlba & Hbit).
  pose proof (re_bit R R' b r t Ht HL) as Hget.
  destruct Hb as [[[Hc0 Hd0] _ _ _ _ Hbm] _]. pose proof (bitmap_bit_range c0 b) as Hk.
  pose proof Ht as [[[Hct Hdt] Hbuf Hdirty Hi] Hclean Hfe [x Hctx] Hvol Hsec Herr].
  unfold dealloc, on_ctx. destruct (in_use c0 d0 b) eqn:Huse.
  - destruct (change_allocated_changes EXT2_DEALLOCATED isdir (s_c t) b Hch (or_intror eq_refl))
      as (y & Hy & Hrun); [by rewrite Hlba, Hbit|].
    pose proof (changed_sector_ok EXT2_DEALLOCATED (s_c t) b Hch) as Hsok.
    rewrite Hlba, Hbit in Hrun, Hsok. change (EXT2_DEALLOCATED =? EXT2_ALLOCATED) with false in Hrun, Hsok.
    assert (Hin : in_volume (c_dev (s_c t)) (bitmap_lba c0 d0 b)) by (by apply (re_in_volume _ _ _ _ Ht)).
    eexists 0, _. split; [apply zoom_ok; exact Hrun|]. split; cbn [s_fe s_c set_c c_ctx c_dev c_errno]; try done.
    + split; cbn [s_fe s_c set_c c_ctx c_dev]; try done.
      split; [apply changed_sb_ok; by apply ctx_ok_set_sysbuf | by apply dev_put_ok].
    + exists y. rewrite Hctx, freed_snoc, Huse. unfold upd_superblock, changed_sb, set_sysbuf. cbn.
      destruct (ctx_superblock c0). cbn. unfold u32. by rewrite Zplus_mod_idemp_l, Z.add_assoc.
    + by rewrite dev_put_volume.
    + intros n Hn. rewrite dev_put_sector, cleared_snoc; [| done | done | by apply (re_in_volume _ _ _ _ Ht) | done].
      unfold cleared_by. rewrite Hsec by done. destruct (Z.eqb_spec n (bitmap_lba c0 d0 b)) as [->|];
        by rewrite ?Hsec by done; case_decide.
  - pose proof (change_allocated_refused EXT2_DEALLOCATED isdir (s_c t) b Hch (or_intror eq_refl)) as Hrun.
    rewrite Hlba, Hbit in Hrun. specialize (Hrun Hget).
    eexists (-1), _. split; [apply zoom_ok; exact Hrun|].
    assert (Hin : in_volume (c_dev (s_c t)) (bitmap_lba c0 d0 b)) by (by apply (re_in_volume _ _ _ _ Ht)).
    split; cbn [s_fe s_c set_c c_ctx c_dev c_errno loaded upd_ctx]; try done.
    + split; cbn [s_fe s_c set_c c_ctx c_dev]; try done. by apply loaded_ok.
    + eexists. rewrite Hctx, freed_snoc, Huse, Z.add_0_r. reflexivity.
    + intros n Hn. rewrite cleared_snoc, Hsec by done. unfold cleared_by.
      destruct (Z.eqb_spec n (bitmap_lba c0 d0 b)) as [->|]; [|done].
      rewrite Hsec in Hget by done. rewrite <- Hget, bit_put_id; [done|].
      rewrite length_cleared. rewrite sector_length by done. lia.
Qed.

(** The contract of a part of the truncation: from inode [r] to [r'] it frees exactly [Lm], when
    these are the next of the blocks [L]. *)
Definition releases (r : inode) (m : M (file_state D) unit) (Lm : list Z) (r' : inode) : Prop :=
  forall R R' t, L = R ++ Lm ++ R' -> released R r t ->
    exists t', m t = Ok (tt, t') /\ released (R ++ Lm) r' t'.

Lemma releases_ret r : releases r (mret tt) [] r.
Proof. intros R R' t _ Ht. exists t. by rewrite app_nil_r. Qed.

Lemma releases_bind r m1 L1 r1 m2 L2 r2 :
  releases r m1 L1 r1 -> releases r1 m2 L2 r2 -> releases r (m1 ;; m2) (L1 ++ L2) r2.
Proof.
  intros H1' H2' R R' t HL Ht. rewrite <- app_assoc in HL.
  destruct (H1' R (L2 ++ R') t HL Ht) as (t1 & Hr1 & Ht1). rewrite app_assoc in HL.
  destruct (H2' (R ++ L1) R' t1 HL Ht1) as (t2 & Hr2 & Ht2). exists t2.
  rewrite app_assoc. split; [by erewrite bind_ok by exact Hr1 | done].
Qed.

Lemma releases_dealloc isdir r b : releases r (dealloc isdir b ;; mret tt) [b] r.
Proof.
  intros R R' t HL Ht. destruct (dealloc_run isdir R R' b r t Ht HL) as (rc & t' & Hrun & Ht').
  exists t'. by erewrite bind_ok by exact Hrun.
Qed.

(** An entry is read as it was at the start, the block of the entry being untouched. *)
Lemma re_entry R R' r t b i :
  released R r t -> L = R ++ R' -> index_readable (s_c s) L b -> 0 <= i < bsz c0 / 4 ->
  exists t', indirect_entry b (i * 4) t = Ok (entry c0 d0 b i, t') /\ released R r t'.
Proof.
  intros Ht HL [Hb Hread] Hi. destruct (Hread i Hi) as [Hin Hout].
  pose proof Ht as [Hf Hcl Hfe [x Hctx] Hvol Hsec Herr].
  assert (Hc : ctx_ok (c_ctx (s_c t))) by apply Hf.
  pose proof (re_bsz _ _ _ Ht) as Hbsz. pose proof (re_block_lba _ _ _ b (i * 4) Ht) as Hlba.
  assert (Hv : view t = c_dev (s_c t)) by (unfold view; by rewrite Hcl).
  assert (Hir : 0 <= i < 268435456) by (pose proof (entries_le _ Hc) as Hle; rewrite Hbsz in Hle; lia).
  assert (Hint : in_volume (view t) (block_lba (c_ctx (s_c t)) b (i * 4)))
    by (rewrite Hv, Hlba; by apply (re_in_volume _ _ _ _ Ht)).
  exists (buffered b (i * 4) t). split.
  - pose proof (indirect_entry_run b i t Hf Hb Hir Hint) as Hrun. rewrite u32_id in Hrun by lia. rewrite Hrun.
    unfold entry. rewrite Hlba, Hv, Hsec by done. rewrite cleared_other; [done|].
    intros b' Hb'. apply Hout. rewrite HL. apply elem_of_app. by left.
  - assert (Hok : file_ok (buffered b (i * 4) t)) by (apply buffered_ok; [done | by rewrite <- Hv]).
    destruct Hfe as [bo Hfe]. split; [exact Hok | done | | | | |].
    + eexists. cbn [buffered s_fe]. rewrite Hfe. reflexivity.
    + exists x. exact Hctx.
    + cbn [buffered s_c set_dev c_dev]. by rewrite Hv.
    + cbn [buffered s_c set_dev c_dev]. rewrite Hv. exact Hsec.
    + exact Herr.
Qed.

(** A loop over the entries of a block frees what its body frees for each of them, up to the first 0. *)
Definition entry_round (block : M (file_state D) Z) (body : Z -> M (file_state D) unit) (i : Z) :
    M (file_state D) (option unit) :=
  b ← block;
  e ← indirect_entry b (i * 4);
  if negb (e =? 0) then body e ;; mret None else mret (Some tt).

Lemma releases_loop r b block body below n i R R' t :
  (forall t, fe_inode (s_fe t) = r -> block t = Ok (b, t)) -> index_readable (s_c s) L b ->
  0 <= i -> i + Z.of_nat n <= bsz c0 / 4 ->
  (forall e, e ∈ entries_from c0 d0 b n i -> releases r (body e) (below e) r) ->
  L = R ++ flat_map below (entries_from c0 d0 b n i) ++ R' -> released R r t ->
  exists out t', for_loop n i (entry_round block body) t = Ok (out, t') /\
    released (R ++ flat_map below (entries_from c0 d0 b n i)) r t'.
Proof.
  intros Hblock Hread. revert i R t. induction n as [|n IH]; intros i R t Hi Hn Hbody HL Ht.
  { exists (i, None), t. by rewrite app_nil_r. }
  cbn [for_loop entries_from] in *. set (e := entry c0 d0 b i) in *. cbv zeta in *.
  destruct (re_entry R _ r t b i Ht HL Hread) as (t1 & Hent & Ht1); [lia|]. fold e in Hent.
  destruct (Z.eqb_spec e 0) as [He|He]; cbn [negb flat_map] in *.
  - exists (i, Some tt), t1. rewrite app_nil_r. split; [|done].
    rewrite (bind_ok _ _ _ (Some tt) t1); [done|]. unfold entry_round.
    erewrite bind_ok by (apply Hblock, (re_inode _ _ _ Ht)). erewrite bind_ok by exact Hent.
    by destruct (Z.eqb_spec e 0).
  - rewrite <- app_assoc in HL.
    destruct (Hbody e (list_elem_of_here _ _) R _ t1 HL Ht1) as (t2 & Hrun & Ht2).
    rewrite app_assoc in HL.
    destruct (IH (i + 1) (R ++ below e) t2) as (out & t' & Hloop & Ht'); [lia | lia | | done | done |].
    { intros e' He'. apply Hbody. by right. }
    exists out, t'. rewrite app_assoc. split; [|done].
    rewrite (bind_ok _ _ _ None t2); [exact Hloop|]. unfold entry_round.
    erewrite bind_ok by (apply Hblock, (re_inode _ _ _ Ht)). erewrite bind_ok by exact Hent.
    destruct (Z.eqb_spec e 0); [done|]. cbn [negb]. by erewrite bind_ok by exact Hrun.
Qed.

Lemma releases_each_entry r b block body below :
  (forall t, fe_inode (s_fe t) = r -> block t = Ok (b, t)) -> ctx_ok c0 -> index_readable (s_c s) L b ->
  (forall e, e ∈ live_entries c0 d0 b -> releases r (body e) (below e) r) ->
  releases r (each_entry (bsz c0 / 4) block body) (flat_map below (live_entries c0 d0 b)) r.
Proof.
  intros Hblock Hc Hread Hbody R R' t HL Ht. pose proof (bsz_spb _ Hc). pose proof (spb_ge _ Hc).
  destruct (releases_loop r b block body below (Z.to_nat (bsz c0 / 4)) 0 R R' t Hblock Hread)
    as (out & t' & Hrun & Ht'); try done.
  { rewrite Z2Nat.id; [done | apply Z.div_pos; lia]. }
  exists t'. split; [|done]. unfold each_entry. by erewrite bind_ok by exact Hrun.
Qed.

(** ** The parts of [ext2_truncate_file] *)

(** The inode with its first [k] block numbers cleared. *)
Definition zeroed (k : nat) (r : inode) : inode := set_i_block (replicate k 0 ++ drop k (i_block r)) r.

Lemma zeroed_0 r : zeroed 0 r = r.
Proof. by destruct r. Qed.

Lemma zeroed_S k r :
  length (i_block r) = 15%nat -> (k < 15)%nat ->
  zeroed (S k) r = set_i_block (<[k := 0]> (i_block (zeroed k r))) (zeroed k r).
Proof.
  intros Hl Hk. destruct r as [? ? ? ? ? ? ? ? ? ? ? ? bs ? ? ? ? ?]. cbn in Hl. unfold zeroed. cbn [set_i_block i_block].
  f_equal.
  destruct (lookup_lt_is_Some_2 bs k) as [b Hb]; [lia|].
  rewrite (drop_S bs b k Hb), insert_app_r_alt by (rewrite length_replicate; lia).
  rewrite length_replicate, Nat.sub_diag. by rewrite replicate_S_end, <- app_assoc.
Qed.

Lemma zeroed_blocks_wf k r : cs_wf r -> (k <= 15)%nat -> cs_wf (zeroed k r).
Proof.
  intros Hr. induction k as [|k IH]; intros Hk; [by rewrite zeroed_0|].
  rewrite zeroed_S by (try lia; by destruct Hr as [[? _] _]).
  apply wf_upd_i_block; [apply IH; lia | by split].
Qed.

Lemma get_block_run r j k (t : file_state D) :
  cs_wf r -> (j <= k < 15)%nat -> fe_inode (s_fe t) = zeroed j r ->
  get_i_block (Z.of_nat k) t = Ok (i_block r !!! k, t).
Proof.
  intros [[Hl _] _] Hk Hi. unfold get_i_block, fe. rewrite bind_gets, Hi. unfold lift.
  erewrite arr_get_ok; [reflexivity | lia |]. rewrite Nat2Z.id.
  replace (i_block (zeroed j r)) with (replicate j 0 ++ drop j (i_block r)) by (by destruct r).
  rewrite lookup_app_r by (rewrite length_replicate; lia). rewrite length_replicate, lookup_drop.
  replace (j + (k - j))%nat with k by lia. apply list_lookup_lookup_total_lt. lia.
Qed.

Lemma releases_put r k :
  cs_wf r -> (k < 15)%nat -> releases (zeroed k r) (put_i_block (Z.of_nat k) 0) [] (zeroed (S k) r).
Proof.
  intros Hr Hk R R' t _ Ht. rewrite app_nil_r. eexists. split; [reflexivity|]. rewrite Nat2Z.id.
  pose proof (re_inode _ _ _ Ht) as Hi. pose proof Ht as [[Hfs Hbuf Hdirty _] Hclean [bo Hfe] Hctx Hvol Hsec Herr].
  pose proof (zeroed_S k r) as HS. destruct Hr as [[Hl ?] ?].
  split; cbn [upd_fe s_fe s_c]; try done.
  - split; cbn [upd_fe s_fe s_c upd_fe_inode fe_inode fe_buffer]; try done.
    rewrite Hi, <- HS by done. by apply zeroed_blocks_wf.
  - exists bo. rewrite Hfe. unfold upd_fe_inode. cbn. f_equal. by rewrite HS.
Qed.

Lemma nonzero_cons b l : nonzero (b :: l) = nonzero [b] ++ nonzero l.
Proof. unfold nonzero. rewrite !filter_cons. by case_decide. Qed.

Lemma direct_round isdir r k b R R' t :
  cs_wf r -> (k < 15)%nat -> i_block r !! k = Some b -> L = R ++ nonzero [b] ++ R' -> released R (zeroed k r) t ->
  exists t', truncate_direct isdir (Z.of_nat k) t = Ok (None, t') /\ released (R ++ nonzero [b]) (zeroed (S k) r) t'.
Proof.
  intros Hr Hk Hb HL Ht.
  assert (Hm : releases (zeroed k r) (if negb (b =? 0) then dealloc isdir b ;; mret tt else mret tt)
    (nonzero [b]) (zeroed k r)).
  { unfold nonzero. rewrite filter_cons.
    destruct (Z.eqb_spec b 0); case_decide; try done; [apply releases_ret | apply releases_dealloc]. }
  destruct (Hm R R' t HL Ht) as (t1 & Hrun1 & Ht1).
  destruct (releases_put r k Hr Hk (R ++ nonzero [b]) R' t1) as (t2 & Hrun2 & Ht2); [by rewrite HL, <- app_assoc | done|].
  rewrite app_nil_r in Ht2. exists t2. split; [|done]. unfold truncate_direct.
  erewrite bind_ok by (apply (get_block_run r k k); [done | lia | apply (re_inode _ _ _ Ht)]).
  rewrite (list_lookup_total_correct _ _ _ Hb). erewrite bind_ok by exact Hrun1. by erewrite bind_ok by exact Hrun2.
Qed.

Lemma releases_direct isdir r n k R R' t :
  cs_wf r -> (k + n <= 15)%nat -> L = R ++ nonzero (take n (drop k (i_block r))) ++ R' ->
  released R (zeroed k r) t ->
  exists out t', for_loop n (Z.of_nat k) (truncate_direct isdir) t = Ok (out, t') /\
    released (R ++ nonzero (take n (drop k (i_block r)))) (zeroed (k + n) r) t'.
Proof.
  intros Hr. revert k R t. induction n as [|n IH]; intros k R t Hk HL Ht.
  { exists (Z.of_nat k, None), t. by rewrite take_0, app_nil_r, Nat.add_0_r. }
  destruct (inode_block_lookup r (Z.of_nat k) Hr) as (b & Hb & Hb0); [lia|]. rewrite Nat2Z.id in Hb.
  rewrite (drop_S _ _ _ Hb), firstn_cons, nonzero_cons in *. rewrite <- app_assoc in HL.
  destruct (direct_round isdir r k b R (nonzero (take n (drop (S k) (i_block r))) ++ R') t Hr) as (t1 & Hrun & Ht1); [lia | done | exact HL | done |].
  rewrite app_assoc in HL. destruct (IH (S k) (R ++ nonzero [b]) t1) as (out & t' & Hloop & Ht'); [lia | exact HL | done |].
  exists out, t'. rewrite Nat2Z.inj_succ, <- Z.add_1_r in Hloop. rewrite <- app_assoc in Ht'.
  split; [cbn [for_loop]; by erewrite bind_ok by exact Hrun | by rewrite Nat.add_succ_r].
Qed.

(** [if(i_block[k]) { ... }]: the blocks below, then the block itself. *)
Lemma releases_tree isdir r k body below :
  cs_wf r -> (k < 15)%nat ->
  (i_block r !!! k <> 0 -> releases (zeroed k r) body (below (i_block r !!! k)) (zeroed k r)) ->
  releases (zeroed k r) (truncate_tree isdir (Z.of_nat k) body) (subtree below (i_block r !!! k)) (zeroed (S k) r).
Proof.
  intros Hr Hk Hbody R R' t HL Ht. unfold truncate_tree.
  assert (Hget : forall t : file_state D, fe_inode (s_fe t) = zeroed k r ->
    get_i_block (Z.of_nat k) t = Ok (i_block r !!! k, t)) by (intros; by apply (get_block_run r k k); [|lia|]).
  erewrite bind_ok by (apply Hget, (re_inode _ _ _ Ht)). unfold subtree in *.
  destruct (Z.eqb_spec (i_block r !!! k) 0) as [Hz|Hz]; cbn [negb].
  - exists t. rewrite app_nil_r. split; [done|].
    replace (zeroed (S k) r) with (zeroed k r); [done|]. rewrite zeroed_S by (try lia; apply Hr).
    rewrite list_insert_id; [by destruct r|].
    replace (i_block (zeroed k r)) with (replicate k 0 ++ drop k (i_block r)) by (by destruct r).
    rewrite lookup_app_r by (rewrite length_replicate; lia).
    rewrite length_replicate, lookup_drop, Nat.sub_diag, Nat.add_0_r, <- Hz.
    apply list_lookup_lookup_total_lt. destruct Hr as [[? _] _]. lia.
  - specialize (Hbody Hz). rewrite <- app_assoc in HL.
    destruct (Hbody R _ t HL Ht) as (t1 & Hrun1 & Ht1). rewrite app_assoc in HL.
    destruct (dealloc_run isdir _ _ _ _ t1 Ht1 HL) as (rc & t2 & Hrun2 & Ht2). rewrite <- app_assoc in Ht2.
    destruct (releases_put r k Hr Hk (R ++ below (i_block r !!! k) ++ [i_block r !!! k]) R' t2) as (t3 & Hrun3 & Ht3); [|done|].
    { rewrite HL. by rewrite <- !app_assoc. }
    exists t3. rewrite app_nil_r in Ht3. split; [|done].
    erewrite bind_ok by exact Hrun1. erewrite bind_ok by (apply Hget, (re_inode _ _ _ Ht1)).
    by erewrite bind_ok by exact Hrun2.
Qed.

Lemma get_zeroed_run r j k (t : file_state D) :
  (k < j)%nat -> fe_inode (s_fe t) = zeroed j r -> get_i_block (Z.of_nat k) t = Ok (0, t).
Proof.
  intros Hk Hi. unfold get_i_block, fe. rewrite bind_gets, Hi. unfold lift.
  erewrite arr_get_ok; [reflexivity | lia |]. rewrite Nat2Z.id.
  replace (i_block (zeroed j r)) with (replicate j 0 ++ drop j (i_block r)) by (by destruct r).
  rewrite lookup_app_l by (rewrite length_replicate; lia). by apply lookup_replicate.
Qed.

Section trees.
Variables (isdir : Z) (r : inode).
Hypothesis Hr : cs_wf r.
Hypothesis Hc : ctx_ok c0.
Hypothesis Hread : Forall (index_readable (s_c s) L) (index_blocks c0 d0 r).

(** Freeing the entries of a block that is named by a variable. *)
Lemma releases_entries r' b block :
  (forall t, fe_inode (s_fe t) = r' -> block t = Ok (b, t)) -> index_readable (s_c s) L b ->
  releases r' (each_entry (bsz c0 / 4) block (fun b => dealloc isdir b ;; mret tt)) (indirect_blocks c0 d0 b) r'.
Proof.
  intros Hblock Hb.
  replace (indirect_blocks c0 d0 b) with (flat_map (fun e => [e]) (live_entries c0 d0 b)).
  - by apply releases_each_entry; [| | |intros e _; apply releases_dealloc].
  - unfold indirect_blocks. induction (live_entries c0 d0 b) as [|e l IH]; [done|]. cbn [flat_map app]. by rewrite IH.
Qed.

Lemma index_indirect : i_block r !!! 12%nat <> 0 -> index_readable (s_c s) L (i_block r !!! 12%nat).
Proof.
  intros Hz. rewrite list.Forall_forall in Hread. apply Hread. unfold index_blocks.
  apply elem_of_app. left. destruct (Z.eqb_spec (i_block r !!! 12%nat) 0); [done | by left].
Qed.

Lemma index_double b :
  i_block r !!! 13%nat <> 0 -> b ∈ i_block r !!! 13%nat :: live_entries c0 d0 (i_block r !!! 13%nat) ->
  index_readable (s_c s) L b.
Proof.
  intros Hz Hb. rewrite list.Forall_forall in Hread. apply Hread. unfold index_blocks.
  apply elem_of_app. right. apply elem_of_app. left. by destruct (Z.eqb_spec (i_block r !!! 13%nat) 0).
Qed.

Lemma index_triple b :
  i_block r !!! 14%nat <> 0 -> b ∈ 0 :: live_entries c0 d0 0 -> index_readable (s_c s) L b.
Proof.
  intros Hz Hb. rewrite list.Forall_forall in Hread. apply Hread. unfold index_blocks.
  apply elem_of_app. right. apply elem_of_app. right. by destruct (Z.eqb_spec (i_block r !!! 14%nat) 0).
Qed.

Lemma releases_indirect :
  i_block r !!! 12%nat <> 0 ->
  releases (zeroed 12 r) (truncate_indirect isdir (bsz c0 / 4))
    (indirect_blocks c0 d0 (i_block r !!! 12%nat)) (zeroed 12 r).
Proof.
  intros Hz. apply releases_entries; [|by apply index_indirect].
  intros t Ht. by apply (get_block_run r 12 12); [|lia|].
Qed.

Lemma releases_double :
  i_block r !!! 13%nat <> 0 ->
  releases (zeroed 13 r) (truncate_double isdir (bsz c0 / 4))
    (double_blocks c0 d0 (i_block r !!! 13%nat)) (zeroed 13 r).
Proof.
  intros Hz. apply releases_each_entry; [| done | by apply index_double; [|left] |].
  { intros t Ht. by apply (get_block_run r 13 13); [|lia|]. }
  intros e He. eapply releases_bind; [|apply releases_dealloc].
  apply releases_entries; [done | by apply index_double; [|right]].
Qed.

Lemma releases_triple :
  i_block r !!! 14%nat <> 0 ->
  releases (zeroed 14 r) (truncate_triple isdir (bsz c0 / 4)) (triple_blocks c0 d0 0) (zeroed 14 r).
Proof.
  intros Hz. apply releases_each_entry; [| done | by apply index_triple; [|left] |].
  { intros t Ht. by apply (get_zeroed_run r 14 13); [lia|]. }
  intros e He. assert (Hre : index_readable (s_c s) L e) by (by apply index_triple; [|right]).
  eapply releases_bind; [|apply releases_dealloc].
  apply releases_each_entry; [done | done | done |]. intros e' He'.
  eapply releases_bind; [|apply releases_dealloc]. by apply releases_entries.
Qed.
End trees.
End release.

(** The inode after the truncation. *)
Definition emptied (r : inode) : inode := set_i_blocks 0 (set_i_size 0 (set_i_block (replicate 15 0) r)).

Section truncate.
Context {D : Type} `{BlockDeviceLaws D}.
Implicit Types (s : file_state D).

Lemma released_start s :
  file_ok s -> bo_dirty (fe_buffer (s_fe s)) = 0 -> released s [] (fe_inode (s_fe s)) s.
Proof.
  intros Hs Hcl. split; try done.
  - exists (fe_buffer (s_fe s)). by destruct s as [[] ?].
  - exists (sysbuf (c_ctx (s_c s))). unfold freed. cbn [filter length]. change (Z.of_nat _) with 0. rewrite Z.add_0_r.
    destruct (fo_fs _ Hs) as [[_ Hsb _ _ _] _]. pose proof (cs_wf_lookup _ 3 _ _ Hsb eq_refl eq_refl) as Hfit.
    destruct (c_ctx (s_c s)) as [? sb ? ? ? ? ? ? ?]. cbn in *. unfold upd_superblock. cbn.
    destruct sb. cbn in *. by rewrite u32_id.
Qed.

(** The whole function, on a file with a clean buffer. *)
Lemma truncate_run s :
  let r := fe_inode (s_fe s) in
  let L := truncated_blocks (c_ctx (s_c s)) (c_dev (s_c s)) r in
  file_ok s -> bo_dirty (fe_buffer (s_fe s)) = 0 ->
  Forall (releasable (s_c s) L) L -> NoDup (allocation_bit (c_ctx (s_c s)) (c_dev (s_c s)) <$> L) ->
  Forall (index_readable (s_c s) L) (index_blocks (c_ctx (s_c s)) (c_dev (s_c s)) r) ->
  exists s', ext2_truncate_file s = Ok (0, s') /\ released s L (emptied r) s'.
Proof.
  intros r L Hs Hcl Hrel Hbits Hread. set (c := c_ctx (s_c s)) in *. set (d := c_dev (s_c s)) in *.
  assert (Hr : cs_wf r) by apply Hs. assert (Hc : ctx_ok c) by apply Hs.
  set (isdir := if has_flag (i_mode r) EXT2_S_IFDIR then 1 else 0).
  set (L0 := nonzero (take 12 (i_block r))). set (L1 := subtree (indirect_blocks c d) (i_block r !!! 12%nat)).
  set (L2 := subtree (double_blocks c d) (i_block r !!! 13%nat)).
  set (L3 := subtree (fun _ => triple_blocks c d 0) (i_block r !!! 14%nat)).
  assert (HL : L = L0 ++ L1 ++ L2 ++ L3) by done.
  assert (Ht : released s [] (zeroed 0 r) s) by (rewrite zeroed_0; by apply released_start).
  destruct (releases_direct s L Hrel Hbits isdir r 12 0 [] (L1 ++ L2 ++ L3) s Hr) as (out & t0 & Hrun0 & Ht0);
    [lia | exact HL | exact Ht |].
  destruct (releases_tree s L Hrel Hbits isdir r 12 (truncate_indirect isdir (bsz c / 4)) (indirect_blocks c d) Hr)
    with (R := L0) (R' := L2 ++ L3) (t := t0) as (t1 & Hrun1 & Ht1); [lia | | done | done |].
  { by apply releases_indirect. }
  destruct (releases_tree s L Hrel Hbits isdir r 13 (truncate_double isdir (bsz c / 4)) (double_blocks c d) Hr)
    with (R := L0 ++ L1) (R' := L3) (t := t1) as (t2 & Hrun2 & Ht2); [lia | | | done |].
  { by apply releases_double. } { by rewrite HL, <- app_assoc. }
  destruct (releases_tree s L Hrel Hbits isdir r 14 (truncate_triple isdir (bsz c / 4)) (fun _ => triple_blocks c d 0) Hr)
    with (R := (L0 ++ L1) ++ L2) (R' := @nil Z) (t := t2) as (t3 & Hrun3 & Ht3); [lia | | | done |].
  { by apply releases_triple. } { by rewrite HL, !app_nil_r, <- !app_assoc. }
  fold L3 in Ht3. rewrite <- !app_assoc, <- HL in Ht3.
  exists (upd_fe (upd_fe_inode (set_i_blocks 0)) (upd_fe (upd_fe_inode (set_i_size 0)) t3)). split.
  - unfold ext2_truncate_file, fe, fctx. rewrite !bind_gets.
    erewrite bind_lift by (by apply block_size_ok). fold c r. cbv zeta. fold isdir.
    erewrite bind_ok by exact Hrun0. erewrite bind_ok by exact Hrun1.
    erewrite bind_ok by exact Hrun2. by erewrite bind_ok by exact Hrun3.
  - pose proof (re_inode _ _ _ _ Ht3) as Hi.
    assert (He : set_i_blocks 0 (set_i_size 0 (zeroed 15 r)) = emptied r).
    { unfold emptied, zeroed. rewrite drop_ge, app_nil_r; [done|]. destruct Hr as [[? _] _]. lia. }
    destruct Ht3 as [[? ? ? ?] ? [bo Hfe] ? ? ? ?]. split; cbn [upd_fe s_fe s_c]; try done.
    + split; cbn [upd_fe s_fe s_c upd_fe_inode fe_inode fe_buffer]; try done.
      apply wf_set_i_blocks; [|done]. by apply wf_set_i_size.
    + exists bo. rewrite Hfe. unfold upd_fe_inode. cbn [fe_magic fe_flags fe_cursor fe_inode_number fe_buffer fe_inode fe_rerrno].
      by rewrite He.
Qed.
End truncate.

(** ** The reference and what the code frees *)
Section tree_facts.
Context {D : Type} `{BlockDevice D, BlockView D}.
Variables (c : ext2context) (d : D).
Implicit Types (b : Z) (l : list Z).










End tree_facts.

(** * Properties *)
Section truncate_properties.
Context {D : Type} `{BlockDeviceLaws D}.
Implicit Types (s : file_state D).


(** The blocks below a triply indirect block [t] are leaked: the code walks from block 0 instead of [t], and
    when that block holds no number it releases [t] itself and nothing below it. A block of the tree keeps
    its bit unless a block outside the tree, or [t], has the same one. *)
Lemma triple_tree_leaked s :
  let c := c_ctx (s_c s) in
  let d := c_dev (s_c s) in
  let r := fe_inode (s_fe s) in
  let t := i_block r !!! 14%nat in
  let L := truncated_blocks c d r in
  file_ok s -> bo_dirty (fe_buffer (s_fe s)) = 0 -> t <> 0 -> entry c d 0 0 = 0 -> 0 < bsz c / 4 ->
  Forall (releasable (s_c s) L) L -> NoDup (allocation_bit c d <$> L) ->
  Forall (index_readable (s_c s) L) (index_blocks c d r) ->
  exists s' others, ext2_truncate_file s = Ok (0, s') /\ L = others ++ [t] /\
    others = nonzero (take 12 (i_block r)) ++ subtree (indirect_blocks c d) (i_block r !!! 12%nat) ++
      subtree (double_blocks c d) (i_block r !!! 13%nat) /\
    forall b, b ∈ below c d 3 t -> in_volume d (bitmap_lba c d b) -> allocation_bit c d b ∉ (allocation_bit c d <$> L) ->
      bit_get (dev_sector (view s') (bitmap_lba c d b)) (bitmap_bit c b) = in_use c d b.
Proof.
  intros c d r t L Hs Hcl Ht Hz Hn Hrel Hbits Hread.
  destruct (truncate_run s Hs Hcl Hrel Hbits Hread) as (s' & Hrun & [_ Hcl' _ _ _ Hsec _]). fold c d r L in Hsec.
  eexists s', _. split; [exact Hrun|]. split; [|split; [reflexivity|]].
  - unfold L, truncated_blocks. fold t. unfold subtree at 3. apply Z.eqb_neq in Ht. rewrite Ht.
    replace (triple_blocks c d 0) with (@nil Z); [by rewrite <- !app_assoc|]. unfold triple_blocks, live_entries.
    destruct (Z.to_nat (bsz c / 4)) as [|n] eqn:Hnat; [lia|]. cbn [entries_from]. by rewrite Hz.
  - intros b _ Hv Hb. assert (view s' = c_dev (s_c s')) as -> by (unfold view; by rewrite Hcl').
    pose proof (bitmap_bit_range c b). rewrite Hsec, bit_get_cleared by (done || lia || apply Hs).
    rewrite bool_decide_false by exact Hb. by rewrite andb_true_r.
Qed.
End truncate_properties.
