(* ===== verification/FileIo.v ===== *)
(** * Operations on open files

    [ext2_select_buffer], [ext2_read], [ext2_write], [ext2_lseek], [ext2_fstat],
    [ext2_isatty] and [ext2_close] of [src/src/embext.c]. Each operation is
    defined on an open file; [on_handle] adds the test for a null pointer and
    the fault of a pointer to a closed file. *)
From S2P Require Import Prelude Layout OnDisk Device Context FileBuf Inode BlockMap Alloc.

(** [int64_t] addition. *)
Definition s64_add (a b : Z) : res Z :=
  if decide (-9223372036854775808 <= a + b <= 9223372036854775807) then Ok (a + b) else Fault BadShift.
Definition INT64_MAX : Z := 9223372036854775807.

(** Constants of the C library. *)
Definition SEEK_SET : Z := 0.
Definition SEEK_CUR : Z := 1.
Definition SEEK_END : Z := 2.

(** The members of [struct stat] that [ext2_fstat] assigns. *)
Record stat : Type := mk_stat {
  st_dev : Z; st_ino : Z; st_mode : Z; st_nlink : Z; st_uid : Z; st_gid : Z; st_rdev : Z;
  st_size : Z; st_atime : Z; st_mtime : Z; st_ctime : Z; st_blksize : Z; st_blocks : Z
}.

(** What a [void *vfe] points to. *)
Inductive handle : Type :=
| NullFile
| FreedFile
| OpenFile (f : file_ent).

Section io_ops.
Context {D : Type} `{BlockDevice D}.

Definition ext2_select_buffer : M (file_state D) Z :=
  f ← fe;
  c ← fctx;
  bs ← lift (ext2_block_size c);
  block ← ext2_block_from_offset (u64 (fe_cursor f));
  previous_block ← ext2_block_from_offset (u64 ((Z.quot (fe_cursor f) bs - 1) * bs));
  let off := u32 (Z.rem (fe_cursor f) bs) in
  if negb (block =? 0) then
    ext2_load_buffer block off ;;
    mret 0
  else if has_flag (fe_flags f) EXT2_FLAG_WRITE then
    new_block ← ext2_allocate_block previous_block;
    if negb (new_block =? 0) then
      put_i_block 0 new_block ;;
      ext2_load_buffer new_block off ;;
      mret 0
    else mret (-1)
  else mret (-1).

(** The magic number is tested by every operation after the null pointer. *)
Definition with_magic {A} (bad : A) (m : M (file_state D) A) : M (file_state D) A :=
  f ← fe;
  if negb (fe_magic f =? EMBEXT_MAGIC) then rerrno EBADF ;; mret bad else m.

Definition advance (amount : Z) : M (file_state D) unit :=
  f ← fe;
  cur ← lift (s64_add (fe_cursor f) amount);
  modify (upd_fe (set_fe_cursor cur)).

(** The loop of [ext2_read]: whether it stopped with an error, the number of bytes, the bytes.
    Every round copies a byte at least, so [count] rounds are enough. *)
Fixpoint read_loop (fuel : nat) (count i : Z) (bt : list Z) : M (file_state D) (bool * Z * list Z) :=
  if i <? count then
    match fuel with
    | O => throw OutOfFuel
    | S fuel' =>
        f ← fe;
        if i_size (fe_inode f) <=? fe_cursor f then mret (false, i, bt)
        else
          rc ← ext2_select_buffer;
          if negb (rc =? 0) then rerrno EIO ;; mret (true, i, bt)
          else
            c ← fctx;
            bs ← lift (ext2_block_size c);
            space ← ext2_buffer_space;
            let amount := if space <? count - i then space else u32 (count - i) in
            let left := i_size (fe_inode f) - fe_cursor f in
            let amount := if left <? amount then u32 left else amount in
            bytes ← ext2_read_buffer (s32 (Z.rem (fe_cursor f) bs)) (s32 amount);
            advance amount ;;
            read_loop fuel' count (u32 (i + amount)) (bt ++ bytes)
    end
  else mret (false, i, bt).

Definition ext2_read `{Env} (count : Z) : M (file_state D) (Z * list Z) :=
  with_magic (-1, [])
    ('(failed, i, bt) ← read_loop (Z.to_nat count) count 0 [];
     if (failed : bool) then mret (-1, bt)
     else
       (if 0 <? i then ext2_update_atime ;; mret tt else mret tt) ;;
       mret (s32 i, bt)).

(** The end of a round of [ext2_write]: a cursor past the end extends the file. *)
Definition grow_file : M (file_state D) unit :=
  f ← fe;
  if i_size (fe_inode f) <? fe_cursor f then
    modify (upd_fe (upd_fe_inode (set_i_size (u32 (fe_cursor f))))) ;;
    modify (upd_fe (set_fe_flags (Z.lor (fe_flags f) EXT2_FLAG_FS_DIRTY)))
  else mret tt.

(** The loop of [ext2_write]. *)
Fixpoint write_loop (fuel : nat) (bt : list Z) (i : Z) : M (file_state D) (bool * Z) :=
  let count := Z.of_nat (length bt) in
  if i <? count then
    match fuel with
    | O => throw OutOfFuel
    | S fuel' =>
        rc ← ext2_select_buffer;
        if negb (rc =? 0) then rerrno EIO ;; mret (true, i)
        else
          f ← fe;
          c ← fctx;
          bs ← lift (ext2_block_size c);
          space ← ext2_buffer_space;
          let amount := if space <? count - i then space else u32 (count - i) in
          ext2_write_buffer (slice i (s32 amount) bt) (s32 (Z.rem (fe_cursor f) bs)) ;;
          advance amount ;;
          grow_file ;;
          write_loop fuel' bt (u32 (i + amount))
    end
  else mret (false, i).

Definition ext2_lseek (offset whence : Z) : M (file_state D) Z :=
  with_magic (-1)
    (f ← fe;
     let size := i_size (fe_inode f) in
     let finish (cur : Z) := modify (upd_fe (set_fe_cursor cur)) ;; mret (s32 cur) in
     let refuse (e : errno) := rerrno e ;; mret (-1) in
     if whence =? SEEK_SET then
       if offset <? 0 then refuse EINVAL else finish offset
     else if whence =? SEEK_CUR then
       room ← lift (s64_add INT64_MAX (- fe_cursor f));
       if room <? offset then refuse EOVERFLOW
       else
         cur ← lift (s64_add offset (fe_cursor f));
         if cur <? 0 then refuse EINVAL else finish cur
     else if whence =? SEEK_END then
       if INT64_MAX - size <? offset then refuse EOVERFLOW
       else if offset + size <? 0 then refuse EINVAL
       else finish (u32 (size + offset))
     else refuse EINVAL).

Definition ext2_write `{Env} (bt : list Z) : M (file_state D) Z :=
  with_magic (-1)
    (f ← fe;
     if negb (has_flag (fe_flags f) EXT2_FLAG_WRITE) then rerrno EBADF ;; mret (-1)
     else
       at_end ← (if has_flag (fe_flags f) EXT2_FLAG_APPEND then ext2_lseek 0 SEEK_END else mret 0);
       if at_end =? -1 then mret (-1)
       else
         '(failed, i) ← write_loop (length bt) bt 0;
         if (failed : bool) then mret (-1)
         else
           (if 0 <? i then ext2_update_mtime ;; mret tt else mret tt) ;;
           mret (s32 i)).

Definition ext2_fstat : M (file_state D) (Z * option stat) :=
  with_magic (-1, None)
    (f ← fe;
     c ← fctx;
     bs ← lift (ext2_block_size c);
     let r := fe_inode f in
     mret (0, Some (mk_stat 0 (fe_inode_number f) (i_mode r) (i_links_count r) (i_uid r) (i_gid r) 0
       (i_size r) (i_atime r) (i_mtime r) (i_ctime r) bs (i_blocks r)))).

Definition ext2_isatty : M (file_state D) Z :=
  with_magic 0 (rerrno ENOTTY ;; mret 0).

(** Without the [free] at the end; see [h_close]. *)
Definition ext2_close : M (file_state D) Z :=
  with_magic (-1)
    (f ← fe;
     rc ← (if negb (bo_dirty (fe_buffer f) =? 0) then ext2_store_buffer else mret 0);
     f ← fe;
     if negb (rc =? 0) then rerrno (fe_rerrno f) ;; mret (-1)
     else
       rc ← (if has_flag (fe_flags f) EXT2_FLAG_FS_DIRTY then ext2_flush_inode else mret 0);
       f ← fe;
       if negb (rc =? 0) then rerrno (fe_rerrno f) ;; mret (-1)
       else
         modify (upd_fe (set_fe_magic 0)) ;;
         mret 0).

(** ** Through the pointer the caller holds *)
Definition on_handle {A} (bad : A) (m : M (file_state D) A) (h : handle) : M (cst D) (A * handle) :=
  match h with
  | NullFile => modify (set_errno EBADF) ;; mret (bad, NullFile)
  | FreedFile => throw BadPointer
  | OpenFile f => fun c =>
      '(a, s) ← m (mk_fst f c);
      Ok ((a, OpenFile (s_fe s)), s_c s)
  end.

Definition h_read `{Env} (count : Z) : handle -> M (cst D) (Z * list Z * handle) :=
  on_handle (-1, []) (ext2_read count).
Definition h_write `{Env} (bt : list Z) : handle -> M (cst D) (Z * handle) :=
  on_handle (-1) (ext2_write bt).
Definition h_lseek (offset whence : Z) : handle -> M (cst D) (Z * handle) :=
  on_handle (-1) (ext2_lseek offset whence).
Definition h_fstat : handle -> M (cst D) (Z * option stat * handle) :=
  on_handle (-1, None) ext2_fstat.
Definition h_isatty : handle -> M (cst D) (Z * handle) := on_handle 0 ext2_isatty.
Definition h_close (h : handle) : M (cst D) (Z * handle) :=
  '(rc, h') ← on_handle (-1) ext2_close h;
  mret (rc, if rc =? 0 then FreedFile else h').
End io_ops.

(** * Facts *)

(** The cursor stands in a mapped block [b] whose sector under the cursor is in the volume; the
    block before, which the code also looks up, can be looked up. *)
Record block_ready {D} `{BlockDevice D, BlockView D} (s : file_state D) (b : Z) : Prop := {
  br_cursor : 0 <= fe_cursor (s_fe s) < 4294967296;
  br_map : map_ok (c_ctx (s_c s)) (view s) (fe_inode (s_fe s)) (fe_cursor (s_fe s) / bsz (c_ctx (s_c s)));
  br_block : map_block (c_ctx (s_c s)) (view s) (fe_inode (s_fe s))
               (fe_cursor (s_fe s) / bsz (c_ctx (s_c s))) = Some b;
  br_pos : 0 < b;
  br_prev : bsz (c_ctx (s_c s)) <= fe_cursor (s_fe s) ->
    map_ok (c_ctx (s_c s)) (view s) (fe_inode (s_fe s)) (fe_cursor (s_fe s) / bsz (c_ctx (s_c s)) - 1);
  br_data : in_volume (view s)
    (block_lba (c_ctx (s_c s)) b (fe_cursor (s_fe s) mod bsz (c_ctx (s_c s))))
}.

(** The sector under the cursor. *)
Definition cursor_lba {D} (s : file_state D) (b : Z) : Z :=
  block_lba (c_ctx (s_c s)) b (fe_cursor (s_fe s) mod bsz (c_ctx (s_c s))).

Section io_facts.
Context {D : Type} `{BlockDeviceLaws D}.
Implicit Types (s : file_state D) (b n count : Z).

Lemma bsz_range c : ctx_ok c -> 1024 <= bsz c <= 1073741824 /\ bsz c mod 512 = 0.
Proof.
  intros Hc. pose proof (bsz_spb c Hc) as Hb. pose proof (spb_pow c Hc) as Hp.
  pose proof (ok_log c Hc). pose proof (spb_ge c Hc).
  assert (spb c <= 2 ^ 21) by (rewrite Hp; apply Z.pow_le_mono_r; lia).
  split; [lia|]. rewrite Hb, Z.mul_comm. apply Z_mod_mult.
Qed.

(** The offset in the block and in the sector. *)
Lemma cursor_in_block c cur :
  ctx_ok c -> 0 <= cur < 4294967296 ->
  Z.rem cur (bsz c) = cur mod bsz c /\ 0 <= cur mod bsz c < 1073741824 /\
  s32 (cur mod bsz c) mod 512 = cur mod 512.
Proof.
  intros Hc Hcur. destruct (bsz_range c Hc) as [Hb Hm].
  pose proof (Z.mod_pos_bound cur (bsz c)).
  split; [apply Z.rem_mod_nonneg; lia|]. split; [lia|]. rewrite s32_id by lia.
  apply Z.mod_mod_divide. by apply Z.mod_divide in Hm.
Qed.

Lemma select_buffer_run b s :
  file_ok s -> block_ready s b ->
  exists s1, buf_only s s1 /\ file_ok s1 /\
    ext2_select_buffer s = Ok (0, buffered b (fe_cursor (s_fe s) mod bsz (c_ctx (s_c s))) s1).
Proof.
  intros Hs Hr. pose proof Hr as [Hcur Hmap Hblock Hpos Hprev Hdata]. pose proof Hs as [[Hc _] _ _ _].
  destruct (bsz_range _ Hc) as [Hbs _].
  destruct (block_from_offset_run (fe_cursor (s_fe s)) s Hs Hcur Hmap) as (b' & s1 & Hrun & Hb' & Hs1).
  assert (b' = b) as -> by congruence.
  assert (Hok1 : file_ok s1) by (by apply Hs1).
  assert (Hprevrun : exists p s2, ext2_block_from_offset
    (u64 ((Z.quot (fe_cursor (s_fe s)) (bsz (c_ctx (s_c s))) - 1) * bsz (c_ctx (s_c s)))) s1 = Ok (p, s2) /\
    buf_only s1 s2).
  { rewrite Z.quot_div_nonneg by lia. destruct (decide (bsz (c_ctx (s_c s)) <= fe_cursor (s_fe s))) as [Hge|Hlt].
    - assert (1 <= fe_cursor (s_fe s) / bsz (c_ctx (s_c s))) by (apply Z.div_le_lower_bound; lia).
      pose proof (Z.mul_div_le (fe_cursor (s_fe s)) (bsz (c_ctx (s_c s)))).
      rewrite u64_id by nia.
      destruct (block_from_offset_run
        ((fe_cursor (s_fe s) / bsz (c_ctx (s_c s)) - 1) * bsz (c_ctx (s_c s))) s1) as (p & s2 & Hrun2 & _ & Hs2).
      + done.
      + nia.
      + rewrite (buf_only_ctx _ _ Hs1), (buf_only_inode _ _ Hs1), (bu_view _ _ Hs1).
        rewrite Z.div_mul by lia. by apply Hprev.
      + by exists p, s2.
    - rewrite Z.div_small by lia. exists 4294967295, s1. split; [|reflexivity].
      rewrite <- (buf_only_ctx _ _ Hs1). by apply block_before_first. }
  destruct Hprevrun as (p & s2 & Hrun2 & Hs2).
  assert (Hs02 : buf_only s s2) by (by etransitivity).
  exists s2. split; [done|]. split; [by apply Hs2|].
  unfold ext2_select_buffer, fe, fctx. rewrite !bind_gets.
  erewrite bind_lift by (by apply block_size_ok). rewrite (u64_id (fe_cursor (s_fe s))) by lia.
  erewrite bind_ok by exact Hrun. erewrite bind_ok by exact Hrun2.
  destruct (Z.eqb_spec b 0); [lia|]. cbn [negb].
  destruct (cursor_in_block _ _ Hc Hcur) as (Hrem & Hoff & _). rewrite Hrem, u32_id by lia.
  erewrite bind_ok; [done|]. apply load_buffer_run; [by apply Hs2 | lia | lia |].
  rewrite (buf_only_ctx _ _ Hs02). apply view_volume; [by apply Hs2|].
  by rewrite (bu_view _ _ Hs02).
Qed.

Lemma buffer_space_run s :
  file_ok s -> ext2_buffer_space s = Ok (bsz (c_ctx (s_c s)) - 1 - fe_cursor (s_fe s) mod 512, s).
Proof.
  intros [[Hc _] _ _ _]. unfold ext2_buffer_space, fe, fctx. rewrite !bind_gets.
  erewrite bind_lift by (by apply block_size_ok). destruct (bsz_range _ Hc) as [Hb _].
  pose proof (Z.mod_pos_bound (fe_cursor (s_fe s)) 512). by rewrite u32_id by lia.
Qed.

(** The number of bytes one round copies when [n] are wanted: the code's two conditionals. *)
Lemma copy_amount space want left :
  0 <= space < 4294967296 -> 0 <= want < 4294967296 -> 0 <= left < 4294967296 ->
  (if left <? (if space <? want then space else u32 want) then u32 left
   else if space <? want then space else u32 want) = Z.min space (Z.min want left).
Proof.
  intros Hs Hw Hl. rewrite !u32_id by lia.
  destruct (Z.ltb_spec space want); [destruct (Z.ltb_spec left space) | destruct (Z.ltb_spec left want)]; lia.
Qed.

Lemma advance_run n s :
  0 <= fe_cursor (s_fe s) < 4294967296 -> 0 <= n < 4294967296 ->
  advance n s = Ok (tt, upd_fe (set_fe_cursor (fe_cursor (s_fe s) + n)) s).
Proof.
  intros Hcur Hn. unfold advance, fe. rewrite bind_gets. unfold s64_add.
  rewrite decide_True by lia. by rewrite (bind_lift _ _ _ _ eq_refl).
Qed.

Lemma read_loop_end fuel count i bt s :
  count <= i \/ (fuel <> O /\ i_size (fe_inode (s_fe s)) <= fe_cursor (s_fe s)) ->
  read_loop fuel count i bt s = Ok ((false, i, bt), s).
Proof.
  intros Hend. destruct fuel as [|fuel]; cbn [read_loop]; destruct (Z.ltb_spec i count); try done;
    destruct Hend as [|[Hf Hle]]; try lia; try done.
  unfold fe. rewrite bind_gets.
  destruct (Z.leb_spec (i_size (fe_inode (s_fe s))) (fe_cursor (s_fe s))); [done | lia].
Qed.

(** What is left of the file, and of [count] bytes wanted. *)
Definition wanted s count : Z := Z.min count (i_size (fe_inode (s_fe s)) - fe_cursor (s_fe s)).

Lemma size_range s : file_ok s -> 0 <= i_size (fe_inode (s_fe s)) < 4294967296.
Proof. intros Hs. apply (cs_wf_lookup _ 2 4 _ (fo_inode _ Hs)); by cbn. Qed.

(** One round of [ext2_read]: the copy from the buffer that the round attempts. *)
Lemma read_round fuel count i bt b s :
  file_ok s -> block_ready s b -> 0 <= i < count -> count < 4294967296 ->
  fe_cursor (s_fe s) < i_size (fe_inode (s_fe s)) ->
  let n := wanted s (count - i) in
  let space := bsz (c_ctx (s_c s)) - 1 - fe_cursor (s_fe s) mod 512 in
  exists s1, buf_only s s1 /\ file_ok s1 /\
    read_loop (S fuel) count i bt s =
      (bytes ← ext2_read_buffer (s32 (fe_cursor (s_fe s) mod bsz (c_ctx (s_c s)))) (Z.min space n);
       advance (Z.min space n) ;;
       read_loop fuel count (u32 (i + Z.min space n)) (bt ++ bytes))
        (buffered b (fe_cursor (s_fe s) mod bsz (c_ctx (s_c s))) s1).
Proof.
  intros Hs Hr Hi Hcount Hlt n space. pose proof Hs as [[Hc _] _ _ _]. pose proof (br_cursor _ _ Hr) as Hcur.
  destruct (select_buffer_run b s Hs Hr) as (s1 & Hs1 & Hok1 & Hrun). exists s1. split; [done|].
  split; [done|]. cbn [read_loop]. destruct (Z.ltb_spec i count); [|lia]. unfold fe. rewrite bind_gets.
  destruct (Z.leb_spec (i_size (fe_inode (s_fe s))) (fe_cursor (s_fe s))); [lia|].
  erewrite bind_ok by exact Hrun. cbn [Z.eqb negb].
  set (s2 := buffered _ _ s1).
  assert (Hs02 : buf_only s s2).
  { etransitivity; [exact Hs1|]. apply buffered_only; [done|].
    rewrite (bu_view _ _ Hs1), (buf_only_ctx _ _ Hs1). apply Hr. }
  assert (Hok2 : file_ok s2) by (by apply Hs02).
  assert (Hcur2 : fe_cursor (s_fe s2) = fe_cursor (s_fe s))
    by (destruct (bu_fe _ _ Hs02) as [bo ->]; done).
  unfold fctx. rewrite bind_gets. erewrite bind_lift by (apply block_size_ok, Hok2).
  erewrite bind_ok by (by apply buffer_space_run).
  rewrite Hcur2, (buf_only_ctx _ _ Hs02). fold space.
  destruct (bsz_range _ Hc) as [Hb _]. pose proof (Z.mod_pos_bound (fe_cursor (s_fe s)) 512).
  pose proof (size_range s Hs).
  destruct (cursor_in_block _ _ Hc Hcur) as (-> & _ & _). cbv zeta.
  rewrite (copy_amount space (count - i) (i_size (fe_inode (s_fe s)) - fe_cursor (s_fe s))) by (unfold space; lia).
  fold (wanted s (count - i)). fold n. rewrite (s32_id (Z.min space n)); [done|]. unfold n, wanted, space in *. lia.
Qed.

(** The bytes of the sector under the cursor, as the view of the file has them. *)
Definition cursor_bytes s b n : list Z :=
  slice (fe_cursor (s_fe s) mod 512) n (dev_sector (view s) (cursor_lba s b)).

Lemma buffered_bytes s s1 b :
  buf_only s s1 ->
  bo_buffer (fe_buffer (s_fe (buffered b (fe_cursor (s_fe s) mod bsz (c_ctx (s_c s))) s1))) =
    dev_sector (view s) (cursor_lba s b).
Proof.
  intros Hs1. cbn [buffered s_fe fe_buffer set_fe_buffer bo_buffer].
  by rewrite (bu_view _ _ Hs1), (buf_only_ctx _ _ Hs1).
Qed.

(** The loop reads all that is wanted in one round when it lies in one sector. *)
Lemma read_loop_run fuel count bt b s :
  file_ok s -> block_ready s b -> 0 < count < 4294967296 -> (Z.to_nat count <= fuel)%nat ->
  fe_cursor (s_fe s) < i_size (fe_inode (s_fe s)) ->
  let n := wanted s count in
  fe_cursor (s_fe s) mod 512 + n <= 512 ->
  exists s', buf_only s s' /\ file_ok s' /\
    read_loop fuel count 0 bt s =
      Ok ((false, n, bt ++ cursor_bytes s b n), upd_fe (set_fe_cursor (fe_cursor (s_fe s) + n)) s') /\
    bo_dirty (fe_buffer (s_fe s')) = 0.
Proof.
  intros Hs Hr Hcount Hfuel Hlt n Hn. destruct fuel as [|fuel]; [lia|].
  destruct (read_round fuel count 0 bt b s Hs Hr) as (s1 & Hs1 & Hok1 & Hrun); [lia.. |].
  rewrite Hrun. clear Hrun. rewrite Z.sub_0_r, Z.add_0_l. fold n.
  pose proof Hs as [[Hc _] _ _ _]. pose proof (br_cursor _ _ Hr) as Hcur.
  destruct (bsz_range _ Hc) as [Hb _]. pose proof (Z.mod_pos_bound (fe_cursor (s_fe s)) 512).
  pose proof (size_range s Hs). assert (0 < n) by (unfold n, wanted; lia).
  rewrite Z.min_r by lia. set (s2 := buffered _ _ s1).
  assert (Hs02 : buf_only s s2).
  { etransitivity; [exact Hs1|]. apply buffered_only; [done|].
    rewrite (bu_view _ _ Hs1), (buf_only_ctx _ _ Hs1). apply Hr. }
  assert (Hcur2 : fe_cursor (s_fe s2) = fe_cursor (s_fe s))
    by (destruct (bu_fe _ _ Hs02) as [bo ->]; done).
  exists s2. split; [done|]. split; [by apply Hs02|]. split; [|done].
  destruct (cursor_in_block _ _ Hc Hcur) as (_ & _ & Hmod).
  erewrite bind_ok by (apply read_buffer_run; [by apply Hs02 | lia | by rewrite Hmod]).
  rewrite Hmod. unfold s2 at 1. rewrite buffered_bytes by done. fold (cursor_bytes s b n).
  erewrite bind_ok by (apply advance_run; [by rewrite Hcur2 | lia]). rewrite Hcur2.
  rewrite u32_id by lia. apply read_loop_end.
  destruct (decide (count <= n)) as [|Hcn]; [by left|]. right.
  assert (n = i_size (fe_inode (s_fe s)) - fe_cursor (s_fe s)) as Hleft by (unfold n, wanted in *; lia).
  split; [lia|]. cbn [s_fe upd_fe fe_inode set_fe_cursor fe_cursor].
  rewrite (buf_only_inode _ _ Hs02). lia.
Qed.

(** Otherwise the copy runs over the end of the buffer. *)
Lemma read_loop_overrun fuel count bt b s :
  file_ok s -> block_ready s b -> 0 < count < 4294967296 -> (Z.to_nat count <= fuel)%nat ->
  fe_cursor (s_fe s) < i_size (fe_inode (s_fe s)) ->
  512 < fe_cursor (s_fe s) mod 512 + wanted s count ->
  read_loop fuel count 0 bt s = Fault OutOfBounds.
Proof.
  intros Hs Hr Hcount Hfuel Hlt Hn. destruct fuel as [|fuel]; [lia|].
  destruct (read_round fuel count 0 bt b s Hs Hr) as (s1 & Hs1 & Hok1 & Hrun); [lia.. |].
  rewrite Hrun, Z.sub_0_r. pose proof Hs as [[Hc _] _ _ _]. pose proof (br_cursor _ _ Hr) as Hcur.
  destruct (bsz_range _ Hc) as [Hb _]. destruct (cursor_in_block _ _ Hc Hcur) as (_ & _ & Hmod).
  apply bind_fault, read_buffer_overrun; [|rewrite Hmod; lia].
  apply buffered_ok; [done|]. apply view_volume; [done|].
  rewrite (bu_view _ _ Hs1), (buf_only_ctx _ _ Hs1). apply Hr.
Qed.

(** The write that a round of [ext2_write] attempts after the buffer was selected. *)
Lemma write_round fuel bt s t :
  ext2_select_buffer s = Ok (0, t) -> file_ok t -> 0 <= fe_cursor (s_fe t) < 4294967296 ->
  0 < Z.of_nat (length bt) < 4294967296 ->
  let count := Z.of_nat (length bt) in
  let space := bsz (c_ctx (s_c t)) - 1 - fe_cursor (s_fe t) mod 512 in
  write_loop (S fuel) bt 0 s =
    (ext2_write_buffer (slice 0 (Z.min space count) bt)
       (s32 (fe_cursor (s_fe t) mod bsz (c_ctx (s_c t)))) ;;
     advance (Z.min space count) ;;
     grow_file ;;
     write_loop fuel bt (u32 (0 + Z.min space count))) t.
Proof.
  intros Hrun Ht Hcur Hlen count space. pose proof Ht as [[Hc _] _ _ _].
  cbn [write_loop]. fold count in Hlen |- *. destruct (Z.ltb_spec 0 count); [|lia].
  erewrite bind_ok by exact Hrun. cbn [Z.eqb negb].
  rewrite (bind_ok fe _ t (s_fe t) t), (bind_ok fctx _ t (c_ctx (s_c t)) t) by done.
  erewrite bind_lift by (by apply block_size_ok). erewrite bind_ok by (by apply buffer_space_run). fold space.
  destruct (bsz_range _ Hc) as [Hb _]. pose proof (Z.mod_pos_bound (fe_cursor (s_fe t)) 512).
  destruct (cursor_in_block _ _ Hc Hcur) as (-> & _ & _). cbv zeta.
  assert ((if space <? count - 0 then space else u32 (count - 0)) = Z.min space count) as ->.
  { rewrite u32_id, Z.sub_0_r by lia. destruct (Z.ltb_spec space count); lia. }
  rewrite (s32_id (Z.min space count)); [done | unfold space; lia].
Qed.

Lemma write_loop_end fuel bt i s :
  Z.of_nat (length bt) <= i -> write_loop fuel bt i s = Ok ((false, i), s).
Proof.
  intros Hi. destruct fuel; cbn [write_loop]; by destruct (Z.ltb_spec i (Z.of_nat (length bt))); [lia|].
Qed.

(** The file after [n] bytes were written at the cursor: the cursor, the size, the flags. *)
Definition extended n (f : file_ent) : file_ent :=
  let cur := fe_cursor f + n in
  let f := set_fe_cursor cur f in
  if i_size (fe_inode f) <? cur then
    set_fe_flags (Z.lor (fe_flags f) EXT2_FLAG_FS_DIRTY) (upd_fe_inode (set_i_size (u32 cur)) f)
  else f.

Lemma grow_file_run n s :
  grow_file (upd_fe (set_fe_cursor (fe_cursor (s_fe s) + n)) s) = Ok (tt, upd_fe (extended n) s).
Proof.
  unfold grow_file, fe. rewrite bind_gets. unfold extended, upd_fe. cbn.
  by destruct (Z.ltb_spec (i_size (fe_inode (s_fe s))) (fe_cursor (s_fe s) + n)).
Qed.

(** The loop writes everything in one round when it lies in one sector. *)
Lemma write_loop_selected fuel bt s t :
  ext2_select_buffer s = Ok (0, t) -> file_ok t -> 0 <= fe_cursor (s_fe t) < 4294967296 ->
  (0 < length bt)%nat -> (length bt <= fuel)%nat ->
  fe_cursor (s_fe t) mod 512 + Z.of_nat (length bt) <= 512 ->
  write_loop fuel bt 0 s =
    Ok ((false, Z.of_nat (length bt)),
        upd_fe (extended (Z.of_nat (length bt)))
          (poked (s32 (fe_cursor (s_fe t) mod bsz (c_ctx (s_c t)))) bt t)).
Proof.
  intros Hrun Ht Hcur Hlen Hfuel Hn. destruct fuel as [|fuel]; [lia|].
  pose proof Ht as [[Hc _] _ _ _]. pose proof (Z.mod_pos_bound (fe_cursor (s_fe t)) 512).
  destruct (bsz_range _ Hc) as [Hb _].
  rewrite (write_round fuel bt s t Hrun Ht Hcur) by lia.
  rewrite Z.min_r by lia. rewrite Z.add_0_l, u32_id by lia.
  assert (slice 0 (Z.of_nat (length bt)) bt = bt) as ->.
  { unfold slice. rewrite Nat2Z.id. cbn. apply take_ge. lia. }
  destruct (cursor_in_block _ _ Hc Hcur) as (_ & _ & Hmod).
  erewrite bind_ok by (apply write_buffer_run; [done | by rewrite Hmod]).
  set (t' := poked _ bt t). change (fe_cursor (s_fe t)) with (fe_cursor (s_fe t')) in Hcur.
  erewrite bind_ok by (apply advance_run; [exact Hcur | lia]).
  erewrite bind_ok by (apply grow_file_run). by apply write_loop_end.
Qed.

(** What [ext2_select_buffer] leaves on a ready block. *)
Lemma selected_ok b s s1 :
  file_ok s -> block_ready s b -> buf_only s s1 -> file_ok s1 ->
  let t := buffered b (fe_cursor (s_fe s) mod bsz (c_ctx (s_c s))) s1 in
  buf_only s t /\ file_ok t /\ fe_cursor (s_fe t) = fe_cursor (s_fe s).
Proof.
  intros Hs Hr Hs1 Hok1 t. assert (Ht : buf_only s t).
  { etransitivity; [exact Hs1|]. apply buffered_only; [done|].
    rewrite (bu_view _ _ Hs1), (buf_only_ctx _ _ Hs1). apply Hr. }
  split; [done|]. split; [by apply Ht|]. by destruct (bu_fe _ _ Ht) as [bo ->].
Qed.

Lemma write_loop_run fuel bt b s :
  file_ok s -> block_ready s b -> (0 < length bt)%nat -> (length bt <= fuel)%nat ->
  fe_cursor (s_fe s) mod 512 + Z.of_nat (length bt) <= 512 ->
  exists s1, buf_only s s1 /\ file_ok s1 /\
    write_loop fuel bt 0 s =
      Ok ((false, Z.of_nat (length bt)),
          upd_fe (extended (Z.of_nat (length bt)))
            (poked (s32 (fe_cursor (s_fe s) mod bsz (c_ctx (s_c s)))) bt
               (buffered b (fe_cursor (s_fe s) mod bsz (c_ctx (s_c s))) s1))).
Proof.
  intros Hs Hr Hlen Hfuel Hn. destruct (select_buffer_run b s Hs Hr) as (s1 & Hs1 & Hok1 & Hrun).
  exists s1. split; [done|]. split; [done|].
  destruct (selected_ok b s s1 Hs Hr Hs1 Hok1) as (Ht & Hokt & Hcur).
  rewrite (write_loop_selected fuel bt s _ Hrun Hokt); rewrite ?Hcur; try done; [|apply Hr].
  by rewrite (buf_only_ctx _ _ Ht).
Qed.

Lemma write_loop_overrun fuel bt b s :
  file_ok s -> block_ready s b -> 0 < Z.of_nat (length bt) < 4294967296 -> (length bt <= fuel)%nat ->
  512 < fe_cursor (s_fe s) mod 512 + Z.of_nat (length bt) ->
  write_loop fuel bt 0 s = Fault OutOfBounds.
Proof.
  intros Hs Hr Hlen Hfuel Hn. destruct fuel as [|fuel]; [lia|].
  destruct (select_buffer_run b s Hs Hr) as (s1 & Hs1 & Hok1 & Hrun).
  destruct (selected_ok b s s1 Hs Hr Hs1 Hok1) as (Ht & Hokt & Hcur).
  rewrite (write_round fuel bt s _ Hrun Hokt); rewrite ?Hcur; [|apply Hr | done].
  pose proof Hokt as [[Hc _] _ _ _]. destruct (bsz_range _ Hc) as [Hb _].
  pose proof (Z.mod_pos_bound (fe_cursor (s_fe s)) 512).
  destruct (cursor_in_block _ (fe_cursor (s_fe s)) Hc) as (_ & _ & Hmod); [apply Hr|].
  apply bind_fault, write_buffer_overrun; [done|]. rewrite Hmod, length_slice; lia.
Qed.

(** ** Updates that leave buffer and device alone *)
Lemma view_upd_fe g s : fe_buffer (g (s_fe s)) = fe_buffer (s_fe s) -> view (upd_fe g s) = view s.
Proof. intros Hg. unfold view, buf_lba. cbn [s_fe s_c upd_fe]. by rewrite Hg. Qed.

Lemma file_ok_upd_fe g s :
  file_ok s -> fe_buffer (g (s_fe s)) = fe_buffer (s_fe s) -> cs_wf (fe_inode (g (s_fe s))) ->
  file_ok (upd_fe g s).
Proof.
  intros [Hfs Hb Hd Hi] Hg Hwf. unfold buf_lba in Hd.
  split; [done | | | done]; unfold buf_lba; cbn [s_fe s_c upd_fe]; by rewrite Hg.
Qed.

(** The file after [ext2_update_atime] or [ext2_update_mtime]. *)
Definition touched `{Env} (set : Z -> inode -> inode) s : file_state D :=
  upd_fe (fun f => set_fe_flags (Z.lor (fe_flags f) EXT2_FLAG_FS_DIRTY)
            (upd_fe_inode (set (u32 (env_time (c_tick (s_c s))))) f))
    (set_c (mk_cst (c_ctx (s_c s)) (c_dev (s_c s)) (c_errno (s_c s)) (S (c_tick (s_c s)))) s).

Lemma update_atime_run `{Env} s : ext2_update_atime s = Ok (0, touched set_i_atime s).
Proof. done. Qed.

Lemma update_mtime_run `{Env} s : ext2_update_mtime s = Ok (0, touched set_i_mtime s).
Proof. done. Qed.

Lemma view_touched `{Env} set s : view (touched set s) = view s.
Proof. done. Qed.

Lemma touched_ok `{Env} (set : Z -> inode -> inode) s :
  (forall v r, cs_wf r -> fits 4 v -> cs_wf (set v r)) -> file_ok s -> file_ok (touched set s).
Proof.
  intros Hset [Hfs Hb Hd Hi]. split; [done | done | done |]. apply Hset; [done | apply u32_range].
Qed.

Lemma extended_buffer n f : fe_buffer (extended n f) = fe_buffer f.
Proof. unfold extended. by case_match. Qed.

Lemma extended_inode n f :
  fe_inode (extended n f) =
    if i_size (fe_inode f) <? fe_cursor f + n then set_i_size (u32 (fe_cursor f + n)) (fe_inode f)
    else fe_inode f.
Proof. unfold extended. cbn [fe_inode set_fe_cursor]. by case_match. Qed.

Lemma extended_cursor n f : fe_cursor (extended n f) = fe_cursor f + n.
Proof. unfold extended. by case_match. Qed.

Lemma extended_ok n s : file_ok s -> file_ok (upd_fe (extended n) s).
Proof.
  intros Hs. apply file_ok_upd_fe; [done | apply extended_buffer |]. rewrite extended_inode.
  case_match; [|apply Hs]. apply wf_set_i_size; [apply Hs | apply u32_range].
Qed.

Lemma has_flag_set x f : f <> 0 -> 0 <= f -> has_flag (Z.lor x f) f = true.
Proof.
  intros Hf Hp. unfold has_flag. assert (Z.land (Z.lor x f) f = f) as ->.
  { apply Z.bits_inj'. intros i _. rewrite Z.land_spec, Z.lor_spec. by destruct (Z.testbit x i), (Z.testbit f i). }
  by destruct (Z.eqb_spec f 0).
Qed.
End io_facts.

(** * Properties *)
Section io_properties.
Context {D : Type} `{Env, BlockDeviceLaws D}.
Implicit Types (s : file_state D) (b n count : Z).

(** An open file: its members are values of their types, its magic number is intact. *)
Definition open_file s : Prop := file_ok s /\ fe_magic (s_fe s) = EMBEXT_MAGIC.

Lemma with_magic_run {A} (bad : A) (m : M (file_state D) A) s :
  fe_magic (s_fe s) = EMBEXT_MAGIC -> with_magic bad m s = m s.
Proof. intros Hm. unfold with_magic, fe. rewrite bind_gets, Hm. done. Qed.

(** Everything a read of [n] bytes inside a sector does. *)
Record read_moved n s s' : Prop := {
  rm_open : open_file s';
  rm_cursor : fe_cursor (s_fe s') = fe_cursor (s_fe s) + n;
  rm_view : view s' = view s;
  rm_ctx : c_ctx (s_c s') = c_ctx (s_c s);
  rm_size : i_size (fe_inode (s_fe s')) = i_size (fe_inode (s_fe s));
  rm_blocks : i_block (fe_inode (s_fe s')) = i_block (fe_inode (s_fe s));
  rm_atime : i_atime (fe_inode (s_fe s')) = u32 (env_time (c_tick (s_c s)));
  rm_flag : has_flag (fe_flags (s_fe s')) EXT2_FLAG_FS_DIRTY = true;
  rm_flags : fe_flags (s_fe s') = Z.lor (fe_flags (s_fe s)) EXT2_FLAG_FS_DIRTY;
  rm_number : fe_inode_number (s_fe s') = fe_inode_number (s_fe s);
  rm_errno : c_errno (s_c s') = c_errno (s_c s);
  rm_clean : bo_dirty (fe_buffer (s_fe s')) = 0;
  rm_mode : i_mode (fe_inode (s_fe s')) = i_mode (fe_inode (s_fe s))
}.

Lemma read_effect count b s :
  open_file s -> block_ready s b -> 0 < count < 4294967296 ->
  fe_cursor (s_fe s) < i_size (fe_inode (s_fe s)) ->
  fe_cursor (s_fe s) mod 512 + wanted s count <= 512 ->
  exists s', ext2_read count s = Ok ((wanted s count, cursor_bytes s b (wanted s count)), s') /\
    read_moved (wanted s count) s s'.
Proof.
  intros [Hs Hmagic] Hr Hcount Hlt Hn.
  destruct (read_loop_run (Z.to_nat count) count [] b s) as (s1 & Hs1 & Hok1 & Hrun & Hcl1); try done.
  set (n := wanted s count) in *.
  assert (0 < n <= 512) by (pose proof (Z.mod_pos_bound (fe_cursor (s_fe s)) 512); unfold n, wanted in *; lia).
  destruct (bu_fe _ _ Hs1) as [bo Hfe]. destruct (bu_c _ _ Hs1) as [d Hd].
  set (s2 := upd_fe _ s1) in Hrun. exists (touched set_i_atime s2). split.
  - unfold ext2_read. rewrite with_magic_run by done. erewrite bind_ok by exact Hrun. cbn beta iota.
    destruct (Z.ltb_spec 0 n); [|lia].
    rewrite (bind_ok _ _ s2 tt (touched set_i_atime s2)) by done. by rewrite s32_id by lia.
  - assert (Hok2 : file_ok s2) by (apply file_ok_upd_fe; [done | done | apply Hok1]).
    assert (Hok3 : file_ok (touched set_i_atime s2))
      by (apply touched_ok; [|done]; by intros; apply wf_set_i_atime).
    assert (Hv : view (touched set_i_atime s2) = view s)
      by (rewrite view_touched; unfold s2; by rewrite view_upd_fe, (bu_view _ _ Hs1)).
    split; try done; unfold s2; cbn [touched s_fe s_c upd_fe fe_inode set_fe_flags upd_fe_inode
      set_fe_cursor fe_flags c_tick set_c c_ctx c_errno]; rewrite ?Hfe, ?Hd; cbn [fe_inode set_fe_buffer
      c_tick set_dev c_ctx c_errno]; try done.
    + split; [done|]. cbn. by rewrite Hfe.
    + by destruct (fe_inode (s_fe s)).
    + by destruct (fe_inode (s_fe s)).
    + by destruct (fe_inode (s_fe s)).
    + by apply has_flag_set.
    + by destruct (fe_inode (s_fe s)).
Qed.

(** C13: a read whose bytes lie in one sector of a mapped block returns as many bytes as asked
    for and left in the file, exactly the bytes of that sector in the file's view of the device;
    the cursor moves past them, the access time is set and the inode marked for writing, and the
    view of the device is unchanged. *)
Theorem read_within_sector count b s :
  open_file s -> block_ready s b -> 0 < count < 2147483648 ->
  fe_cursor (s_fe s) < i_size (fe_inode (s_fe s)) ->
  let n := wanted s count in
  fe_cursor (s_fe s) mod 512 + n <= 512 ->
  exists s', ext2_read count s = Ok ((n, cursor_bytes s b n), s') /\
    fe_cursor (s_fe s') = fe_cursor (s_fe s) + n /\ view s' = view s /\ file_ok s' /\
    i_size (fe_inode (s_fe s')) = i_size (fe_inode (s_fe s)) /\
    i_block (fe_inode (s_fe s')) = i_block (fe_inode (s_fe s)) /\
    i_atime (fe_inode (s_fe s')) = u32 (env_time (c_tick (s_c s))) /\
    has_flag (fe_flags (s_fe s')) EXT2_FLAG_FS_DIRTY = true.
Proof.
  intros Hf Hr Hcount Hlt n Hn.
  destruct (read_effect count b s) as (s' & Hrun & [[Hok _]]); try done; [lia|].
  exists s'. auto 10.
Qed.

(** Moving the cursor inside its sector: same sector, same block. *)
Lemma cursor_lba_moved b s s' :
  file_ok s -> c_ctx (s_c s') = c_ctx (s_c s) -> 0 <= fe_cursor (s_fe s) -> 0 <= fe_cursor (s_fe s') ->
  fe_cursor (s_fe s') / 512 = fe_cursor (s_fe s) / 512 -> cursor_lba s' b = cursor_lba s b.
Proof.
  intros [[Hctx _] _ _ _] Hc Hcur Hcur' Hsec. pose proof (bsz_spb _ Hctx) as Hspb.
  pose proof (spb_ge _ Hctx). unfold cursor_lba, block_lba. rewrite Hc. f_equal.
  rewrite Hspb, !Z.rem_mul_r by lia.
  rewrite !(Z.mul_comm 512 (_ mod _)), !Z.div_add, !(Z.div_small (_ mod 512)) by
    (try lia; apply Z.mod_pos_bound; lia). by rewrite Hsec.
Qed.

Lemma ready_moved b s s' :
  file_ok s -> block_ready s b -> view s' = view s -> c_ctx (s_c s') = c_ctx (s_c s) ->
  i_block (fe_inode (s_fe s')) = i_block (fe_inode (s_fe s)) ->
  0 <= fe_cursor (s_fe s') < 4294967296 ->
  fe_cursor (s_fe s') / 512 = fe_cursor (s_fe s) / 512 -> block_ready s' b.
Proof.
  intros Hs Hr Hv Hc Hb Hcur Hsec. pose proof Hs as [[Hctx _] _ _ _].
  destruct (bsz_range _ Hctx) as [Hbs _]. pose proof (bsz_spb _ Hctx) as Hspb.
  pose proof (spb_ge _ Hctx) as Hge. pose proof (cursor_lba_moved b s s' Hs Hc) as Hoff.
  unfold cursor_lba in Hoff. rewrite Hc in Hoff.
  destruct Hr as [Hcur0 Hmap Hblock Hpos Hprev Hdata].
  assert (Hdiv : fe_cursor (s_fe s') / bsz (c_ctx (s_c s)) = fe_cursor (s_fe s) / bsz (c_ctx (s_c s)))
    by (rewrite Hspb, <- !Z.div_div by lia; by rewrite Hsec).
  assert (Hmo : forall idx, map_ok (c_ctx (s_c s)) (view s) (fe_inode (s_fe s')) idx <->
    map_ok (c_ctx (s_c s)) (view s) (fe_inode (s_fe s)) idx) by (intros idx; unfold map_ok; by rewrite Hb).
  split; rewrite ?Hv, ?Hc, ?Hdiv; try done.
  - by apply Hmo.
  - unfold map_block in *. by rewrite Hb.
  - intros Hle. apply Hmo, Hprev.
    assert (1 <= fe_cursor (s_fe s') / bsz (c_ctx (s_c s))) as H1le by (apply Z.div_le_lower_bound; lia).
    rewrite Hdiv in H1le. pose proof (Z.mul_div_le (fe_cursor (s_fe s)) (bsz (c_ctx (s_c s)))). nia.
  - rewrite Hoff; [done | lia | lia | done].
Qed.

(** A read that runs past the end of the sector under the cursor copies bytes from behind the
    512-byte buffer, since the code computes the room with the block size: the run is undefined. *)
Lemma read_overruns_buffer count b s :
  open_file s -> block_ready s b -> 0 < count < 4294967296 ->
  fe_cursor (s_fe s) < i_size (fe_inode (s_fe s)) ->
  512 < fe_cursor (s_fe s) mod 512 + wanted s count ->
  ext2_read count s = Fault OutOfBounds.
Proof.
  intros [Hs Hmagic] Hr Hcount Hlt Hn. unfold ext2_read. rewrite with_magic_run by done.
  apply bind_fault. by eapply read_loop_overrun.
Qed.

Lemma read_end_run count s :
  open_file s -> 0 <= count ->
  count = 0 \/ i_size (fe_inode (s_fe s)) <= fe_cursor (s_fe s) ->
  ext2_read count s = Ok ((0, []), s).
Proof.
  intros [Hs Hmagic] Hcount Hend. unfold ext2_read. rewrite with_magic_run by done.
  erewrite bind_ok; [|apply read_loop_end].
  - reflexivity.
  - destruct (decide (count = 0)) as [->|]; [by left | right; lia].
Qed.

(** At or after the end of the file, or for zero bytes, a read returns 0 and changes nothing. *)
Lemma read_at_end count s :
  open_file s -> 0 <= count ->
  count = 0 \/ i_size (fe_inode (s_fe s)) <= fe_cursor (s_fe s) ->
  ext2_read count s = Ok ((0, []), s).
Proof. apply read_end_run. Qed.

(** [s'] is [s] with the cursor moved by [n] on the same file, the same view and the same map. *)
Record moved_by n s s' : Prop := {
  mv_open : open_file s';
  mv_cursor : fe_cursor (s_fe s') = fe_cursor (s_fe s) + n;
  mv_view : view s' = view s;
  mv_ctx : c_ctx (s_c s') = c_ctx (s_c s);
  mv_size : i_size (fe_inode (s_fe s')) = i_size (fe_inode (s_fe s));
  mv_blocks : i_block (fe_inode (s_fe s')) = i_block (fe_inode (s_fe s));
  mv_clean : bo_dirty (fe_buffer (s_fe s)) = 0 -> bo_dirty (fe_buffer (s_fe s')) = 0
}.

Lemma moved_by_refl s : open_file s -> moved_by 0 s s.
Proof. intros Hs. split; try done. lia. Qed.

(** The [n] bytes at offset [k] from the cursor of [s], read when the cursor is there. *)
Lemma read_at_offset k n b s t :
  open_file s -> block_ready s b -> moved_by k s t -> 0 <= k -> 0 < n ->
  fe_cursor (s_fe s) + k + n <= i_size (fe_inode (s_fe s)) ->
  fe_cursor (s_fe s) mod 512 + k + n <= 512 ->
  exists t', ext2_read n t =
      Ok ((n, slice (fe_cursor (s_fe s) mod 512 + k) n (dev_sector (view s) (cursor_lba s b))), t') /\
    moved_by (k + n) s t'.
Proof.
  intros [Hs _] Hr [Ho Hcur Hv Hc Hsz Hb Hcl] Hk Hn Hsize Hoff. pose proof (br_cursor _ _ Hr) as Hcr.
  pose proof (size_range s Hs). pose proof (Z.mod_pos_bound (fe_cursor (s_fe s)) 512).
  assert (Hmod : (fe_cursor (s_fe s) + k) mod 512 = fe_cursor (s_fe s) mod 512 + k).
  { rewrite <- Zplus_mod_idemp_l. apply Z.mod_small. lia. }
  assert (Hdiv : (fe_cursor (s_fe s) + k) / 512 = fe_cursor (s_fe s) / 512).
  { symmetry. apply (Z.div_unique _ _ _ (fe_cursor (s_fe s) mod 512 + k)); [lia|].
    pose proof (Z.div_mod (fe_cursor (s_fe s)) 512). lia. }
  assert (Hrt : block_ready t b)
    by (apply (ready_moved b s t Hs Hr Hv Hc Hb); rewrite Hcur; [lia | exact Hdiv]).
  assert (Hw : wanted t n = n) by (unfold wanted; rewrite Hcur, Hsz; lia).
  destruct (read_effect n b t) as (t' & Hrun & Hmv); try done; [lia | rewrite Hcur, Hsz; lia |
    rewrite Hw, Hcur, Hmod; lia |].
  rewrite Hw in Hrun, Hmv. exists t'. split.
  - rewrite Hrun. unfold cursor_bytes. rewrite Hcur, Hmod, Hv.
    assert (cursor_lba t b = cursor_lba s b) as ->; [|done].
    apply (cursor_lba_moved b s t Hs Hc); [lia | rewrite Hcur; lia | by rewrite Hcur].
  - destruct Hmv as [Ho' Hcur' Hv' Hc' Hsz' Hb' _ _ _ _ _ Hcl'].
    split; [done | rewrite Hcur', Hcur; lia | congruence.. | auto].
Qed.

(** A file that [ext2_write] accepts and does not move to its end first. *)
Definition writable s : Prop :=
  has_flag (fe_flags (s_fe s)) EXT2_FLAG_WRITE = true /\
  has_flag (fe_flags (s_fe s)) EXT2_FLAG_APPEND = false.

Lemma write_start bt s :
  open_file s -> writable s ->
  ext2_write bt s = ('(failed, i) ← write_loop (length bt) bt 0;
     if (failed : bool) then mret (-1)
     else (if 0 <? i then ext2_update_mtime ;; mret tt else mret tt) ;; mret (s32 i)) s.
Proof.
  intros [Hs Hmagic] [Hw Ha]. unfold ext2_write. rewrite with_magic_run by done.
  unfold fe. rewrite bind_gets, Hw, Ha. done.
Qed.

Lemma write_run bt b s :
  open_file s -> writable s -> block_ready s b -> (0 < length bt)%nat ->
  fe_cursor (s_fe s) mod 512 + Z.of_nat (length bt) <= 512 ->
  exists s1, buf_only s s1 /\ file_ok s1 /\
    ext2_write bt s = Ok (Z.of_nat (length bt),
      touched set_i_mtime (upd_fe (extended (Z.of_nat (length bt)))
            (poked (s32 (fe_cursor (s_fe s) mod bsz (c_ctx (s_c s)))) bt
               (buffered b (fe_cursor (s_fe s) mod bsz (c_ctx (s_c s))) s1)))).
Proof.
  intros Hf Hw Hr Hlen Hn. pose proof Hf as [Hs _].
  destruct (write_loop_run (length bt) bt b s) as (s1 & Hs1 & Hok1 & Hrun); try done.
  exists s1. split; [done|]. split; [done|]. rewrite write_start by done.
  erewrite bind_ok by exact Hrun. cbn beta iota.
  pose proof (Z.mod_pos_bound (fe_cursor (s_fe s)) 512).
  destruct (Z.ltb_spec 0 (Z.of_nat (length bt))); [|lia]. rewrite s32_id by lia. reflexivity.
Qed.

(** Everything a write inside a sector does. *)
Record written bt b s s' : Prop := {
  wr_ok : file_ok s';
  wr_cursor : fe_cursor (s_fe s') = fe_cursor (s_fe s) + Z.of_nat (length bt);
  wr_size : i_size (fe_inode (s_fe s')) =
    (if i_size (fe_inode (s_fe s)) <? fe_cursor (s_fe s) + Z.of_nat (length bt)
     then u32 (fe_cursor (s_fe s) + Z.of_nat (length bt)) else i_size (fe_inode (s_fe s)));
  wr_blocks : i_block (fe_inode (s_fe s')) = i_block (fe_inode (s_fe s));
  wr_mtime : i_mtime (fe_inode (s_fe s')) = u32 (env_time (c_tick (s_c s)));
  wr_flag : has_flag (fe_flags (s_fe s')) EXT2_FLAG_FS_DIRTY = true;
  wr_flags : fe_flags (s_fe s') = Z.lor (fe_flags (s_fe s)) EXT2_FLAG_FS_DIRTY;
  wr_number : fe_inode_number (s_fe s') = fe_inode_number (s_fe s);
  wr_magic : fe_magic (s_fe s') = fe_magic (s_fe s);
  wr_ctx : c_ctx (s_c s') = c_ctx (s_c s);
  wr_volume m : in_volume (view s') m <-> in_volume (view s) m;
  wr_view m : in_volume (view s) m -> dev_sector (view s') m =
    if decide (m = cursor_lba s b)
    then splice (fe_cursor (s_fe s) mod 512) bt (dev_sector (view s) (cursor_lba s b))
    else dev_sector (view s) m;
  wr_errno : c_errno (s_c s') = c_errno (s_c s);
  wr_buffer : buf_lba s' = cursor_lba s b;
  wr_mode : i_mode (fe_inode (s_fe s')) = i_mode (fe_inode (s_fe s))
}.

Lemma poked_written bt b s s1 :
  file_ok s -> buf_only s s1 -> file_ok s1 -> 0 <= fe_cursor (s_fe s) < 4294967296 -> 0 < b ->
  in_volume (view s) (cursor_lba s b) -> bytes_ok bt ->
  fe_cursor (s_fe s) mod 512 + Z.of_nat (length bt) <= 512 ->
  written bt b s (touched set_i_mtime (upd_fe (extended (Z.of_nat (length bt)))
    (poked (s32 (fe_cursor (s_fe s) mod bsz (c_ctx (s_c s)))) bt
       (buffered b (fe_cursor (s_fe s) mod bsz (c_ctx (s_c s))) s1)))).
Proof.
  intros Hs Hs1 Hok1 Hcur Hpos Hdata Hbt Hn. pose proof Hs as [[Hc _] _ _ _].
  destruct (cursor_in_block _ _ Hc Hcur) as (_ & Hoff & Hmod).
  assert (Hvol : in_volume (c_dev (s_c s1)) (block_lba (c_ctx (s_c s1)) b
    (fe_cursor (s_fe s) mod bsz (c_ctx (s_c s))))).
  { apply view_volume; [done|]. by rewrite (bu_view _ _ Hs1), (buf_only_ctx _ _ Hs1). }
  set (s3 := poked _ bt _).
  assert (Hok3 : file_ok s3) by (apply poked_ok; try done; try lia; by rewrite Hmod).
  destruct (bu_fe _ _ Hs1) as [bo Hfe]. destruct (bu_c _ _ Hs1) as [d Hd].
  assert (Hcur3 : fe_cursor (s_fe s3) = fe_cursor (s_fe s)) by (unfold s3; cbn; by rewrite Hfe).
  assert (Hino3 : fe_inode (s_fe s3) = fe_inode (s_fe s)) by (unfold s3; cbn; by rewrite Hfe).
  assert (Hmag3 : fe_magic (s_fe s3) = fe_magic (s_fe s)) by (unfold s3; cbn; by rewrite Hfe).
  assert (Hfl3 : fe_flags (s_fe s3) = fe_flags (s_fe s)) by (unfold s3; cbn; by rewrite Hfe).
  assert (Hnum3 : fe_inode_number (s_fe s3) = fe_inode_number (s_fe s)) by (unfold s3; cbn; by rewrite Hfe).
  assert (Hc3 : c_ctx (s_c s3) = c_ctx (s_c s)) by (unfold s3; cbn; by rewrite Hd).
  assert (Ht3 : c_tick (s_c s3) = c_tick (s_c s)) by (unfold s3; cbn; by rewrite Hd).
  assert (Hsec : sector_ok (splice (fe_cursor (s_fe s) mod 512) bt (dev_sector (view s) (cursor_lba s b)))).
  { pose proof (Z.mod_pos_bound (fe_cursor (s_fe s)) 512).
    apply sector_ok_splice; [| done | lia | unfold BLOCK_SIZE; lia].
    apply dev_sector_ok; [by apply view_ok | done]. }
  assert (Hv3 : view (touched set_i_mtime (upd_fe (extended (Z.of_nat (length bt))) s3)) =
    dev_put (view s) (cursor_lba s b)
      (splice (fe_cursor (s_fe s) mod 512) bt (dev_sector (view s) (cursor_lba s b)))).
  { rewrite view_touched, view_upd_fe by apply extended_buffer. unfold s3.
    rewrite view_poked by (done || lia). by rewrite Hmod, (bu_view _ _ Hs1), (buf_only_ctx _ _ Hs1). }
  split; rewrite ?Hv3; cbn [touched s_fe s_c upd_fe fe_inode set_fe_flags upd_fe_inode fe_flags
    fe_cursor fe_magic set_c c_tick c_ctx]; rewrite ?extended_inode, ?Hcur3, ?Hino3.
  - apply touched_ok; [by intros; apply wf_set_i_mtime | by apply extended_ok].
  - by rewrite extended_cursor, Hcur3.
  - by destruct (fe_inode (s_fe s)); case_match.
  - by destruct (fe_inode (s_fe s)); case_match.
  - rewrite Ht3. by destruct (fe_inode (s_fe s)); case_match.
  - by apply has_flag_set.
  - rewrite <- Hfl3. unfold extended. case_match; cbn [fe_flags set_fe_flags]; [|done].
    by rewrite <- Z.lor_assoc, Z.lor_diag.
  - rewrite <- Hnum3. unfold extended. by case_match.
  - unfold extended. by case_match.
  - done.
  - intros m. by apply dev_put_in_volume; [apply view_ok|..].
  - intros m Hm. by apply dev_put_sector; [apply view_ok|..].
  - unfold s3. cbn. by rewrite Hd.
  - transitivity (buf_lba s3); [unfold buf_lba; cbn; by rewrite extended_buffer|]. unfold s3.
    rewrite poked_lba by (done || lia). by rewrite (buf_only_ctx _ _ Hs1).
  - by destruct (fe_inode (s_fe s)); case_match.
Qed.

Lemma write_effect bt b s :
  open_file s -> writable s -> block_ready s b -> bytes_ok bt -> (0 < length bt)%nat ->
  fe_cursor (s_fe s) mod 512 + Z.of_nat (length bt) <= 512 ->
  exists s', ext2_write bt s = Ok (Z.of_nat (length bt), s') /\ written bt b s s'.
Proof.
  intros Hf Hw Hr Hbt Hlen Hn.
  destruct (write_run bt b s Hf Hw Hr Hlen Hn) as (s1 & Hs1 & Hok1 & Hrun).
  eexists. split; [exact Hrun|]. by apply poked_written; try apply Hf; try apply Hr.
Qed.

(** C14: a write inside the sector under the cursor, on a mapped block, returns the number of bytes;
    in the file's view of the device exactly those bytes of that sector are replaced; the cursor
    moves past them, the size grows to the cursor when it was passed, and the modification time is
    set and the inode marked for writing. *)
Theorem write_within_sector bt b s :
  open_file s -> writable s -> block_ready s b -> bytes_ok bt -> (0 < length bt)%nat ->
  fe_cursor (s_fe s) mod 512 + Z.of_nat (length bt) <= 512 ->
  let n := Z.of_nat (length bt) in
  let lba := cursor_lba s b in
  exists s', ext2_write bt s = Ok (n, s') /\ file_ok s' /\
    fe_cursor (s_fe s') = fe_cursor (s_fe s) + n /\
    i_size (fe_inode (s_fe s')) =
      (if i_size (fe_inode (s_fe s)) <? fe_cursor (s_fe s) + n then u32 (fe_cursor (s_fe s) + n)
       else i_size (fe_inode (s_fe s))) /\
    i_block (fe_inode (s_fe s')) = i_block (fe_inode (s_fe s)) /\
    i_mtime (fe_inode (s_fe s')) = u32 (env_time (c_tick (s_c s))) /\
    has_flag (fe_flags (s_fe s')) EXT2_FLAG_FS_DIRTY = true /\
    (forall m, in_volume (view s) m -> dev_sector (view s') m =
       if decide (m = lba) then splice (fe_cursor (s_fe s) mod 512) bt (dev_sector (view s) lba)
       else dev_sector (view s) m).
Proof.
  intros Hf Hw Hr Hbt Hlen Hn n lba.
  destruct (write_effect bt b s Hf Hw Hr Hbt Hlen Hn) as (s' & Hrun & []).
  exists s'. auto 10.
Qed.

(** A write that runs past the end of the sector under the cursor copies bytes behind the
    512-byte buffer, onto the members of the open file that follow it: the run is undefined. *)
Lemma write_overruns_buffer bt b s :
  open_file s -> writable s -> block_ready s b -> 0 < Z.of_nat (length bt) < 4294967296 ->
  512 < fe_cursor (s_fe s) mod 512 + Z.of_nat (length bt) ->
  ext2_write bt s = Fault OutOfBounds.
Proof.
  intros Hf Hw Hr Hlen Hn. rewrite write_start by done. apply bind_fault.
  by eapply write_loop_overrun; try apply Hf.
Qed.

(** ** Seeking *)

(** The position that [whence] and [offset] ask for. *)
Definition seek_base s (whence : Z) : Z :=
  if whence =? SEEK_SET then 0
  else if whence =? SEEK_CUR then fe_cursor (s_fe s) else i_size (fe_inode (s_fe s)).

Lemma lseek_run offset whence s :
  open_file s -> whence = SEEK_SET \/ whence = SEEK_CUR \/ whence = SEEK_END ->
  0 <= fe_cursor (s_fe s) <= INT64_MAX - 2147483648 -> -2147483648 <= offset < 2147483648 ->
  let pos := seek_base s whence + offset in
  ext2_lseek offset whence s =
    if pos <? 0 then Ok (-1, set_c (set_errno EINVAL (s_c s)) s)
    else let cur := if whence =? SEEK_END then u32 pos else pos in
      Ok (s32 cur, upd_fe (set_fe_cursor cur) s).
Proof.
  intros [Hs Hm] Hw Hcur Hoff pos. unfold ext2_lseek. rewrite with_magic_run by done.
  unfold fe. rewrite bind_gets. pose proof (size_range s Hs). unfold INT64_MAX in *.
  unfold pos, seek_base. destruct Hw as [-> | [-> | ->]]; cbn [Z.eqb SEEK_SET SEEK_CUR SEEK_END Pos.eqb].
  - rewrite Z.add_0_l. by destruct (Z.ltb_spec offset 0).
  - unfold s64_add. rewrite !decide_True by lia. rewrite (bind_lift _ _ _ _ eq_refl).
    destruct (Z.ltb_spec (9223372036854775807 + - fe_cursor (s_fe s)) offset); [lia|].
    rewrite (bind_lift _ _ _ _ eq_refl), (Z.add_comm offset).
    by destruct (Z.ltb_spec (fe_cursor (s_fe s) + offset) 0).
  - destruct (Z.ltb_spec (9223372036854775807 - i_size (fe_inode (s_fe s))) offset); [lia|].
    rewrite (Z.add_comm offset).
    by destruct (Z.ltb_spec (i_size (fe_inode (s_fe s)) + offset) 0).
Qed.

(** [ext2_lseek] with any of the three origins: a negative position is refused with EINVAL and
    the file is unchanged; a position that fits an [int] becomes the cursor and is returned. *)
Lemma lseek_spec offset whence s :
  open_file s -> whence = SEEK_SET \/ whence = SEEK_CUR \/ whence = SEEK_END ->
  0 <= fe_cursor (s_fe s) <= INT64_MAX - 2147483648 -> -2147483648 <= offset < 2147483648 ->
  let pos := seek_base s whence + offset in
  (pos < 0 -> exists s', ext2_lseek offset whence s = Ok (-1, s') /\
     s_fe s' = s_fe s /\ c_errno (s_c s') = EINVAL /\ c_dev (s_c s') = c_dev (s_c s)) /\
  (0 <= pos < 2147483648 -> exists s', ext2_lseek offset whence s = Ok (pos, s') /\
     s_fe s' = set_fe_cursor pos (s_fe s) /\ s_c s' = s_c s).
Proof.
  intros Hf Hw Hcur Hoff pos. rewrite lseek_run by done. fold pos. cbv zeta. split; intros Hpos.
  - destruct (Z.ltb_spec pos 0); [|lia]. eexists. split; [reflexivity|]. done.
  - destruct (Z.ltb_spec pos 0); [lia|]. rewrite (u32_id pos) by lia.
    assert ((if whence =? SEEK_END then pos else pos) = pos) as -> by (by case_match).
    rewrite s32_id by lia. by eexists.
Qed.

(** C40: the room in the buffer is computed with the block size, although the buffer is one 512-byte
    sector: a read that runs past the end of the sector under the cursor copies bytes from behind the
    buffer, and a write past it overwrites the members of the open file that follow: both are undefined. *)
Theorem transfers_overrun_buffer b s :
  open_file s -> block_ready s b ->
  (forall count, 0 < count < 4294967296 -> fe_cursor (s_fe s) < i_size (fe_inode (s_fe s)) ->
     512 < fe_cursor (s_fe s) mod 512 + wanted s count -> ext2_read count s = Fault OutOfBounds) /\
  (forall bt, writable s -> 0 < Z.of_nat (length bt) < 4294967296 ->
     512 < fe_cursor (s_fe s) mod 512 + Z.of_nat (length bt) -> ext2_write bt s = Fault OutOfBounds).
Proof.
  intros Hf Hr. split; intros; [by eapply read_overruns_buffer | by eapply write_overruns_buffer].
Qed.

(** Seeking from the end to a position of 4 GiB or more is not refused: the [uint32_t] sum
    wraps and the cursor is set 4 GiB short of the position asked for. *)
Lemma lseek_end_wraps offset s :
  open_file s -> 0 <= fe_cursor (s_fe s) <= INT64_MAX - 2147483648 -> 0 <= offset < 2147483648 ->
  4294967296 <= i_size (fe_inode (s_fe s)) + offset ->
  exists s', ext2_lseek offset SEEK_END s = Ok (i_size (fe_inode (s_fe s)) + offset - 4294967296, s') /\
    fe_cursor (s_fe s') = i_size (fe_inode (s_fe s)) + offset - 4294967296.
Proof.
  intros Hf Hcur Hoff Hpos. rewrite lseek_run by (auto; lia).
  change (seek_base s SEEK_END) with (i_size (fe_inode (s_fe s))). cbv zeta.
  pose proof (size_range s (proj1 Hf)).
  destruct (Z.ltb_spec (i_size (fe_inode (s_fe s)) + offset) 0); [lia|]. change (SEEK_END =? SEEK_END) with true.
  cbv iota. replace (u32 (i_size (fe_inode (s_fe s)) + offset))
    with (i_size (fe_inode (s_fe s)) + offset - 4294967296).
  - rewrite s32_id by lia. by eexists.
  - symmetry. unfold u32. rewrite <- (Z_mod_plus_full _ (-1)). apply Z.mod_small. lia.
Qed.

(** ** Round trip *)

(** In the direct blocks the mapping depends on the inode only. *)
Lemma direct_ready b s :
  file_ok s -> 0 <= fe_cursor (s_fe s) < 4294967296 ->
  fe_cursor (s_fe s) < 12 * bsz (c_ctx (s_c s)) ->
  i_block (fe_inode (s_fe s)) !! Z.to_nat (fe_cursor (s_fe s) / bsz (c_ctx (s_c s))) = Some b -> 0 < b ->
  in_volume (view s) (cursor_lba s b) -> block_ready s b.
Proof.
  intros Hs Hcur Hdir Hb Hpos Hv. pose proof Hs as [[Hc _] _ _ Hi]. destruct (bsz_range _ Hc) as [Hbs _].
  assert (Hlt : fe_cursor (s_fe s) / bsz (c_ctx (s_c s)) < 12) by (apply Z.div_lt_upper_bound; lia).
  assert (Hpath : forall idx, idx < 12 -> block_path (bsz (c_ctx (s_c s)) / 4) idx = Some (idx, [])).
  { intros idx Hidx. unfold block_path. by destruct (Z.ltb_spec idx 12); [|lia]. }
  split; try done.
  - unfold map_ok. rewrite Hpath by done. by exists b.
  - unfold map_block. rewrite Hpath by done. cbn. by rewrite Hb.
  - intros Hge. unfold map_ok. rewrite Hpath by lia.
    assert (1 <= fe_cursor (s_fe s) / bsz (c_ctx (s_c s))) by (apply Z.div_le_lower_bound; lia).
    destruct (inode_block_lookup _ (fe_cursor (s_fe s) / bsz (c_ctx (s_c s)) - 1) Hi) as (b' & Hb' & _); [lia|].
    by exists b'.
Qed.

(** After a write the bytes are read back from where they were written. *)
Lemma read_back bt b s s1 :
  open_file s -> written bt b s s1 -> (0 < length bt)%nat ->
  0 <= fe_cursor (s_fe s) -> fe_cursor (s_fe s) + Z.of_nat (length bt) < 2147483648 ->
  fe_cursor (s_fe s) < 12 * bsz (c_ctx (s_c s)) ->
  i_block (fe_inode (s_fe s)) !! Z.to_nat (fe_cursor (s_fe s) / bsz (c_ctx (s_c s))) = Some b -> 0 < b ->
  in_volume (view s) (cursor_lba s b) ->
  fe_cursor (s_fe s) mod 512 + Z.of_nat (length bt) <= 512 ->
  let n := Z.of_nat (length bt) in
  exists s2 s3, ext2_lseek (fe_cursor (s_fe s)) SEEK_SET s1 = Ok (fe_cursor (s_fe s), s2) /\
    ext2_read n s2 = Ok ((n, bt), s3).
Proof.
  intros Hf Hwr Hlen Hcur Hmax Hdir Hb Hpos Hv Hn n. pose proof Hf as [Hs Hm].
  pose proof Hwr as [Hok1 Hcur1 Hsize1 Hblk1 _ _ _ _ Hmag1 Hctx1 Hvol1 Hview1].
  assert (Hopen1 : open_file s1) by (split; congruence).
  set (s2 := upd_fe (set_fe_cursor (fe_cursor (s_fe s))) s1).
  assert (Hok2 : file_ok s2) by (apply file_ok_upd_fe; [done | done | apply Hok1]).
  assert (Hv2 : view s2 = view s1) by done.
  assert (Hlba2 : cursor_lba s2 b = cursor_lba s b) by (unfold cursor_lba; cbn; by rewrite Hctx1).
  assert (Hready2 : block_ready s2 b).
  { apply direct_ready; try done; cbn [s_c s_fe s2 upd_fe fe_cursor fe_inode set_fe_cursor];
      rewrite ?Hctx1, ?Hblk1; try done; [lia|]. rewrite Hlba2, Hv2. by apply Hvol1. }
  assert (Hsize2 : fe_cursor (s_fe s) + n <= i_size (fe_inode (s_fe s2))).
  { cbn [s2 s_fe upd_fe fe_inode set_fe_cursor]. rewrite Hsize1, u32_id by lia. fold n.
    destruct (Z.ltb_spec (i_size (fe_inode (s_fe s))) (fe_cursor (s_fe s) + n)); lia. }
  assert (Hwant : wanted s2 n = n).
  { unfold wanted. cbn [s2 s_fe upd_fe fe_cursor set_fe_cursor] in *. lia. }
  destruct (read_loop_run (Z.to_nat n) n [] b s2) as (s4 & Hs4 & _ & Hread & _); try done.
  - lia.
  - cbn [s2 s_fe upd_fe fe_cursor set_fe_cursor] in *. lia.
  - rewrite Hwant. cbn [s2 s_fe upd_fe fe_cursor set_fe_cursor]. lia.
  - rewrite Hwant in Hread.
    eexists s2, (touched set_i_atime (upd_fe _ s4)). split.
    + rewrite lseek_run; [| done | by left | rewrite Hcur1; unfold INT64_MAX; lia | lia].
      change (seek_base s1 SEEK_SET) with 0. rewrite Z.add_0_l.
      destruct (Z.ltb_spec (fe_cursor (s_fe s)) 0); [lia|]. cbv zeta.
      change (SEEK_SET =? SEEK_END) with false. by rewrite s32_id by lia.
    + unfold ext2_read. rewrite with_magic_run by (cbn; congruence).
      erewrite bind_ok by exact Hread. cbn beta iota. destruct (Z.ltb_spec 0 n); [|lia].
      erewrite bind_ok by reflexivity. rewrite s32_id by lia.
      assert (cursor_bytes s2 b n = bt) as ->; [|reflexivity].
      unfold cursor_bytes. rewrite Hv2, Hlba2, Hview1 by done. rewrite decide_True by done.
      pose proof (Z.mod_pos_bound (fe_cursor (s_fe s)) 512).
      cbn [s2 s_fe upd_fe fe_cursor set_fe_cursor]. apply slice_splice_same; [lia|].
      rewrite (sector_length (view s)); [lia | by apply view_ok | done].
Qed.

(** ** Bad handles, and closing *)

(** A null pointer or a file whose magic number is gone is refused by every operation, with
    EBADF and without a change to the file or the device; a read, write, seek, fstat or close
    returns -1, and [ext2_isatty] returns 0. *)
Lemma bad_handle_refused (h : handle) (c : cst D) count bt offset whence :
  match h with
  | NullFile => True
  | FreedFile => False
  | OpenFile f => fe_magic f <> EMBEXT_MAGIC
  end ->
  let c' := set_errno EBADF c in
  h_read count h c = Ok ((-1, [], h), c') /\ h_write bt h c = Ok ((-1, h), c') /\
  h_lseek offset whence h c = Ok ((-1, h), c') /\ h_fstat h c = Ok ((-1, None, h), c') /\
  h_close h c = Ok ((-1, h), c') /\ h_isatty h c = Ok ((0, h), c').
Proof.
  intros Hbad c'. destruct h as [| |f]; [by repeat split | done |].
  assert (Hm : forall A (bad : A) (m : M (file_state D) A),
    with_magic bad m (mk_fst f c) = Ok (bad, mk_fst f c')).
  { intros A bad m. unfold with_magic, fe. rewrite bind_gets. cbn [s_fe].
    by destruct (Z.eqb_spec (fe_magic f) EMBEXT_MAGIC). }
  unfold h_read, h_write, h_lseek, h_fstat, h_close, h_isatty, on_handle, ext2_read, ext2_write,
    ext2_lseek, ext2_fstat, ext2_close, ext2_isatty, mbind, M_bind, res_bind.
  by rewrite !Hm.
Qed.

(** The first half of a close: the buffer is on the device. *)
Lemma close_store s : file_ok s ->
  exists s1, (if negb (bo_dirty (fe_buffer (s_fe s)) =? 0) then ext2_store_buffer else mret 0) s = Ok (0, s1) /\
    file_ok s1 /\ view s1 = view s /\ c_dev (s_c s1) = view s /\
    c_ctx (s_c s1) = c_ctx (s_c s) /\ fe_inode (s_fe s1) = fe_inode (s_fe s) /\
    fe_flags (s_fe s1) = fe_flags (s_fe s) /\ fe_inode_number (s_fe s1) = fe_inode_number (s_fe s).
Proof.
  intros Hs. destruct (Z.eqb_spec (bo_dirty (fe_buffer (s_fe s))) 0) as [Hd|Hd]; cbn [negb].
  - exists s. assert (c_dev (s_c s) = view s) by (unfold view; by rewrite Hd). done.
  - exists (stored s). split; [by apply store_buffer_run|]. split; [by apply stored_ok | done].
Qed.

(** What closing does to a file with a modified inode: its buffer is stored, then its inode. *)
Lemma close_run ino s :
  open_file s -> fe_inode_number (s_fe s) = ino -> inode_located (c_ctx (s_c s)) (view s) ino ->
  has_flag (fe_flags (s_fe s)) EXT2_FLAG_FS_DIRTY = true ->
  exists s1, ext2_close s = Ok (0, upd_fe (set_fe_magic 0) (flushed_inode s1)) /\
    file_ok s1 /\ view s1 = view s /\ c_dev (s_c s1) = view s /\ c_ctx (s_c s1) = c_ctx (s_c s) /\
    fe_inode (s_fe s1) = fe_inode (s_fe s) /\ fe_inode_number (s_fe s1) = ino.
Proof.
  intros [Hs Hm] Hino Hil Hflag.
  destruct (close_store s Hs) as (s1 & Hstore & Hok1 & Hv1 & Hd1 & Hc1 & Hi1 & Hfl1 & Hn1). exists s1.
  rewrite Hino in Hn1. split; [|done]. assert (Hil1 : inode_located (c_ctx (s_c s1)) (c_dev (s_c s1)) ino) by (by rewrite Hc1, Hd1).
  pose proof (flush_inode_run ino s1 Hok1 Hn1 Hil1 ltac:(by rewrite Hfl1)) as Hflush.
  unfold ext2_close. rewrite with_magic_run by done. rewrite (bind_ok fe _ s (s_fe s) s) by done.
  erewrite bind_ok by exact Hstore. rewrite (bind_ok fe _ s1 (s_fe s1) s1) by done. cbn [Z.eqb negb].
  rewrite Hfl1, Hflag. by erewrite bind_ok by exact Hflush.
Qed.

(** Closing a file whose inode has not been modified only stores its buffer. *)
Lemma close_clean_run s :
  open_file s -> has_flag (fe_flags (s_fe s)) EXT2_FLAG_FS_DIRTY = false ->
  exists s1, ext2_close s = Ok (0, upd_fe (set_fe_magic 0) s1) /\
    file_ok s1 /\ c_dev (s_c s1) = view s /\ c_ctx (s_c s1) = c_ctx (s_c s).
Proof.
  intros [Hs Hm] Hflag. destruct (close_store s Hs) as (s1 & Hstore & Hok1 & Hv1 & Hd1 & Hc1 & _ & Hfl1 & _).
  exists s1. split; [|done]. unfold ext2_close. rewrite with_magic_run by done.
  rewrite (bind_ok fe _ s (s_fe s) s) by done.
  erewrite bind_ok by exact Hstore. rewrite (bind_ok fe _ s1 (s_fe s1) s1) by done. cbn [Z.eqb negb].
  rewrite Hfl1, Hflag. reflexivity.
Qed.

(** C20: closing an open file stores its buffer and its modified inode: the close returns 0 and frees
    the file, the device is the file's view with the inode in its slot, and any later use of the
    pointer is undefined. *)
Theorem close_writes_back ino (f : file_ent) (c : cst D) :
  let s := mk_fst f c in
  open_file s -> fe_inode_number f = ino -> inode_located (c_ctx c) (view s) ino ->
  has_flag (fe_flags f) EXT2_FLAG_FS_DIRTY = true ->
  let n := ino_lba (c_ctx c) (view s) ino in
  exists c', h_close (OpenFile f) c = Ok ((0, FreedFile), c') /\
    decode (slice (ino_off (c_ctx c) ino) 128 (dev_sector (c_dev c') n)) = fe_inode f /\
    (forall m, in_volume (view s) m -> m <> n -> dev_sector (c_dev c') m = dev_sector (view s) m) /\
    h_close FreedFile c' = Fault BadPointer.
Proof.
  intros s Hs Hino Hil Hflag n.
  destruct (close_run ino s Hs Hino Hil Hflag) as (s1 & Hrun & Hok1 & Hv1 & Hd1 & Hc1 & Hi1 & Hn1).
  assert (Hil1 : inode_located (c_ctx (s_c s1)) (c_dev (s_c s1)) ino) by (by rewrite Hc1, Hd1).
  destruct (flushed_slot ino s1 Hok1 Hn1 Hil1) as (Hslot & _ & Hoth). rewrite Hc1, Hd1, Hi1 in Hslot.
  rewrite Hc1, Hd1, Hv1 in Hoth. fold n in Hslot, Hoth.
  exists (s_c (flushed_inode s1)). split; [|split; [exact Hslot | split; [exact Hoth | done]]].
  unfold h_close, on_handle. unfold mbind at 1, M_bind at 1. fold s. unfold mbind at 1, res_bind. by rewrite Hrun.
Qed.
End io_properties.
