(* ===== verification/FileSpec.v ===== *)
(** * A file is an array of bytes

    The contract of an open file whose blocks are direct: an array of bytes with
    a size and a cursor, on which [ext2_read], [ext2_write], [ext2_lseek] and
    [ext2_fstat] of [src/src/embext.c] work. [byte_file] and the [spec_*]
    operations do not mention blocks, sectors, buffers or the device; [abstract]
    reads the array off an open file; the property is that every sequence of
    operations gives the answers of the specification.

    The specification has the limits of the code: a transfer that crosses a
    512-byte boundary is undefined, [bf_touched] says that the file has to be
    written back when it is closed, and a write must lie in the blocks the file
    has ([Grow] is about the others). *)
From S2P Require Import Prelude Hoare Layout OnDisk Device Context FileBuf Inode BlockMap Alloc FileIo.

(** ** The specification *)
Record byte_file : Type := mk_bytes {
  bf_data : list Z;
  bf_size : Z;
  bf_cursor : Z;
  bf_write : bool;
  bf_append : bool;
  bf_touched : bool;
  bf_errno : errno
}.

Definition set_bf_cursor (v : Z) (a : byte_file) : byte_file :=
  mk_bytes (bf_data a) (bf_size a) v (bf_write a) (bf_append a) (bf_touched a) (bf_errno a).
Definition set_bf_errno (e : errno) (a : byte_file) : byte_file :=
  mk_bytes (bf_data a) (bf_size a) (bf_cursor a) (bf_write a) (bf_append a) (bf_touched a) e.
Definition set_bf_touched (v : bool) (a : byte_file) : byte_file :=
  mk_bytes (bf_data a) (bf_size a) (bf_cursor a) (bf_write a) (bf_append a) v (bf_errno a).

Inductive file_op : Type :=
| ReadOp (count : Z)
| WriteOp (bt : list Z)
| SeekOp (offset whence : Z)
| SizeOp.

Inductive answer : Type :=
| Bytes (n : Z) (bt : list Z)
| Status (rc : Z).

(** A transfer of [n] bytes at [pos] stays inside a 512-byte sector. *)
Definition one_sector (pos n : Z) : bool := pos mod 512 + n <=? 512.

Definition spec_read (count : Z) : M byte_file answer := fun a =>
  let n := Z.min count (bf_size a - bf_cursor a) in
  if n <=? 0 then Ok (Bytes 0 [], a)
  else if one_sector (bf_cursor a) n
  then Ok (Bytes n (slice (bf_cursor a) n (bf_data a)),
           set_bf_touched true (set_bf_cursor (bf_cursor a + n) a))
  else Fault OutOfBounds.

(** Where a write starts. *)
Definition write_start_of (a : byte_file) : Z := if bf_append a then bf_size a else bf_cursor a.

Definition spec_write (bt : list Z) : M byte_file answer := fun a =>
  let n := Z.of_nat (length bt) in
  let start := write_start_of a in
  if negb (bf_write a) then Ok (Status (-1), set_bf_errno EBADF a)
  else if n =? 0 then Ok (Status 0, set_bf_cursor start a)
  else if one_sector start n
  then Ok (Status n, mk_bytes (splice start bt (bf_data a)) (Z.max (bf_size a) (start + n)) (start + n)
             (bf_write a) (bf_append a) true (bf_errno a))
  else Fault OutOfBounds.

(** The position a seek asks for; [None] for an unknown origin. *)
Definition seek_pos (a : byte_file) (offset whence : Z) : option Z :=
  if whence =? SEEK_SET then Some offset
  else if whence =? SEEK_CUR then Some (bf_cursor a + offset)
  else if whence =? SEEK_END then Some (bf_size a + offset)
  else None.

Definition spec_seek (offset whence : Z) : M byte_file answer := fun a =>
  match seek_pos a offset whence with
  | Some pos => if pos <? 0 then Ok (Status (-1), set_bf_errno EINVAL a) else Ok (Status pos, set_bf_cursor pos a)
  | None => Ok (Status (-1), set_bf_errno EINVAL a)
  end.

Definition spec_op (op : file_op) : M byte_file answer :=
  match op with
  | ReadOp count => spec_read count
  | WriteOp bt => spec_write bt
  | SeekOp offset whence => spec_seek offset whence
  | SizeOp => fun a => Ok (Status (bf_size a), a)
  end.

(** The arguments are values of their C types; a write stays in the array and a position in an [int]. *)
Definition op_allowed (a : byte_file) (op : file_op) : Prop :=
  match op with
  | ReadOp count => 0 <= count < 2147483648
  | WriteOp bt => bytes_ok bt /\
      (bf_write a = true -> write_start_of a + Z.of_nat (length bt) <= Z.of_nat (length (bf_data a)))
  | SeekOp offset whence => -2147483648 <= offset < 2147483648 /\
      match seek_pos a offset whence with Some pos => pos < 2147483648 | None => True end
  | SizeOp => True
  end.

(** The error number is only an output. *)
Lemma op_allowed_errno e a op : op_allowed (set_bf_errno e a) op <-> op_allowed a op.
Proof. by destruct op. Qed.

Lemma spec_op_errno e op a :
  match spec_op op a with
  | Ok (r, a') => exists e', spec_op op (set_bf_errno e a) = Ok (r, set_bf_errno e' a')
  | Fault flt => spec_op op (set_bf_errno e a) = Fault flt
  end.
Proof.
  destruct op as [count|bt|offset whence|]; cbn [spec_op].
  - unfold spec_read. cbn [set_bf_errno bf_size bf_cursor bf_data].
    destruct (_ <=? 0); [by exists e|]. by destruct (one_sector _ _); [exists e|].
  - unfold spec_write, write_start_of. cbn [set_bf_errno bf_size bf_cursor bf_data bf_write bf_append].
    destruct (negb (bf_write a)); [by exists EBADF|]. destruct (_ =? 0); [by exists e|].
    by destruct (one_sector _ _); [exists e|].
  - unfold spec_seek. change (seek_pos (set_bf_errno e a) offset whence) with (seek_pos a offset whence).
    destruct (seek_pos a offset whence) as [pos|]; [|by exists EINVAL]. by destruct (pos <? 0); [exists EINVAL | exists e].
  - by exists e.
Qed.

#[export] Instance op_allowed_dec a op : Decision (op_allowed a op).
Proof. destruct op as [count|bt|offset whence|]; cbn [op_allowed]; try (destruct (seek_pos a offset whence)); apply _. Defined.

(** ** The code *)
Definition file_op_run {D} `{BlockDevice D, Env} (op : file_op) : M (file_state D) answer :=
  match op with
  | ReadOp count => '(n, bt) ← ext2_read count; mret (Bytes n bt)
  | WriteOp bt => n ← ext2_write bt; mret (Status n)
  | SeekOp offset whence => n ← ext2_lseek offset whence; mret (Status n)
  | SizeOp => '(rc, st) ← ext2_fstat; mret (Status (match st with Some st => st_size st | None => rc end))
  end.

(** ** The array of an open file *)

(** The sector that byte [p] of a file with the blocks [bl] is in. *)
Definition file_lba (bl : list Z) (c : ext2context) (p : Z) : Z :=
  block_lba c (default 0 (bl !! Z.to_nat (p / bsz c))) (p mod bsz c).

Definition capacity (bl : list Z) (c : ext2context) : Z := Z.of_nat (length bl) * bsz c.

Definition file_bytes {D} `{BlockView D} (bl : list Z) (c : ext2context) (d : D) : list Z :=
  (fun p => default 0 (dev_sector d (file_lba bl c p) !! Z.to_nat (p mod 512))) <$> seqZ 0 (capacity bl c).

Definition abstract {D} `{BlockView D} (bl : list Z) (s : file_state D) : byte_file :=
  mk_bytes (file_bytes bl (c_ctx (s_c s)) (view s)) (i_size (fe_inode (s_fe s))) (fe_cursor (s_fe s))
    (has_flag (fe_flags (s_fe s)) EXT2_FLAG_WRITE) (has_flag (fe_flags (s_fe s)) EXT2_FLAG_APPEND)
    (has_flag (fe_flags (s_fe s)) EXT2_FLAG_FS_DIRTY) (c_errno (s_c s)).

(** The sectors of the file. *)
Definition file_sector (bl : list Z) (c : ext2context) (m : Z) : Prop :=
  exists p, 0 <= p < capacity bl c /\ m = file_lba bl c p.

(** [bl] are the blocks of the open file: its first direct blocks, all different, in the volume, and
    enough for its size; its buffer, when dirty, belongs to one of its sectors. *)
Record laid_out {D} `{BlockDevice D, BlockView D} (bl : list Z) (s : file_state D) : Prop := {
  lo_open : open_file s;
  lo_direct : (length bl <= 12)%nat;
  lo_blocks k b : bl !! k = Some b -> i_block (fe_inode (s_fe s)) !! k = Some b /\ 0 < b;
  lo_distinct : NoDup bl;
  lo_volume p : 0 <= p < capacity bl (c_ctx (s_c s)) -> in_volume (view s) (file_lba bl (c_ctx (s_c s)) p);
  lo_capacity : capacity bl (c_ctx (s_c s)) < 2147483648;
  lo_size : i_size (fe_inode (s_fe s)) <= capacity bl (c_ctx (s_c s));
  lo_cursor : 0 <= fe_cursor (s_fe s) < 2147483648;
  lo_cached : bo_dirty (fe_buffer (s_fe s)) <> 0 -> file_sector bl (c_ctx (s_c s)) (buf_lba s)
}.

(** * Facts *)
Section array_facts.
Context {D : Type} `{BlockDeviceLaws D}.
Implicit Types (s : file_state D) (d : D) (bl : list Z) (c : ext2context) (p q n : Z).

(** The sector of a byte, counted from the start of its block. *)
Lemma sector_in_block c p : ctx_ok c -> 0 <= p ->
  p / 512 = p / bsz c * spb c + p mod bsz c / 512 /\ 0 <= p mod bsz c / 512 < spb c.
Proof.
  intros Hc Hp. pose proof (bsz_spb c Hc) as Hb. pose proof (spb_ge c Hc).
  pose proof (Z.div_mod p (bsz c)). pose proof (Z.mod_pos_bound p (bsz c)). split.
  - symmetry. apply Z.div_unique_pos with (r := p mod bsz c mod 512); [apply Z.mod_pos_bound; lia|].
    pose proof (Z.div_mod (p mod bsz c) 512). nia.
  - split; [apply Z.div_pos; lia | apply Z.div_lt_upper_bound; lia].
Qed.

Lemma block_index bl c p : ctx_ok c -> 0 <= p < capacity bl c ->
  exists b, bl !! Z.to_nat (p / bsz c) = Some b /\ file_lba bl c p = block_lba c b (p mod bsz c).
Proof.
  intros Hc Hp. destruct (bsz_range c Hc) as [Hb _]. unfold capacity in Hp.
  destruct (lookup_lt_is_Some_2 bl (Z.to_nat (p / bsz c))) as [b Hlk].
  - assert (0 <= p / bsz c < Z.of_nat (length bl)); [|lia].
    split; [apply Z.div_pos; lia | apply Z.div_lt_upper_bound; lia].
  - exists b. split; [done|]. unfold file_lba. by rewrite Hlk.
Qed.

(** Two bytes are in the same sector of the volume only if they are in the same sector of the file. *)
Lemma file_lba_inj bl c p q :
  ctx_ok c -> NoDup bl -> 0 <= p < capacity bl c -> 0 <= q < capacity bl c ->
  file_lba bl c p = file_lba bl c q -> p / 512 = q / 512.
Proof.
  intros Hc Hnd Hp Hq Heq. destruct (block_index bl c p Hc Hp) as (b1 & Hb1 & Hp1).
  destruct (block_index bl c q Hc Hq) as (b2 & Hb2 & Hq2). rewrite Hp1, Hq2 in Heq.
  destruct (sector_in_block c p Hc) as [-> Hr1]; [lia|]. destruct (sector_in_block c q Hc) as [-> Hr2]; [lia|].
  unfold block_lba in Heq. assert (b1 = b2) as -> by nia.
  pose proof (NoDup_lookup bl _ _ _ Hnd Hb1 Hb2). destruct (bsz_range c Hc) as [Hb _].
  assert (0 <= p / bsz c) by (apply Z.div_pos; lia). assert (0 <= q / bsz c) by (apply Z.div_pos; lia).
  assert (p / bsz c = q / bsz c) by lia. nia.
Qed.

Lemma file_lba_same bl c p q : ctx_ok c -> 0 <= p -> 0 <= q -> p / 512 = q / 512 -> file_lba bl c p = file_lba bl c q.
Proof.
  intros Hc Hp Hq Heq. destruct (sector_in_block c p Hc Hp) as [Hdp Hr1]. destruct (sector_in_block c q Hc Hq) as [Hdq Hr2].
  pose proof (spb_ge c Hc). assert (p / bsz c = q / bsz c) as Hd by nia.
  unfold file_lba, block_lba. rewrite Hd. nia.
Qed.

Lemma length_file_bytes bl c d : length (file_bytes bl c d) = Z.to_nat (capacity bl c).
Proof. unfold file_bytes. by rewrite length_fmap, length_seqZ. Qed.

Lemma lookup_file_bytes bl c d p : 0 <= p < capacity bl c ->
  file_bytes bl c d !! Z.to_nat p = Some (default 0 (dev_sector d (file_lba bl c p) !! Z.to_nat (p mod 512))).
Proof.
  intros Hp. unfold file_bytes. rewrite list_lookup_fmap, lookup_seqZ_lt by lia. cbn. by rewrite Z2Nat.id by lia.
Qed.

Lemma file_bytes_ok bl c d :
  dev_ok d -> (forall q, 0 <= q < capacity bl c -> in_volume d (file_lba bl c q)) -> bytes_ok (file_bytes bl c d).
Proof.
  intros Hd Hv. apply Forall_fmap, Forall_seqZ. intros p Hp. destruct (dev_sector_ok d _ Hd (Hv p ltac:(lia))) as [_ Hb].
  destruct (dev_sector d (file_lba bl c p) !! Z.to_nat (p mod 512)) as [x|] eqn:Hx; cbn; rewrite Hx; cbn;
    [by apply (Forall_lookup_1 _ _ _ _ Hb Hx) | unfold is_byte; lia].
Qed.

(** The array of a device in which only sectors outside the file changed. *)
Lemma file_bytes_ext bl c d d' :
  (forall p, 0 <= p < capacity bl c -> dev_sector d' (file_lba bl c p) = dev_sector d (file_lba bl c p)) ->
  file_bytes bl c d' = file_bytes bl c d.
Proof.
  intros Heq. unfold file_bytes. apply list_fmap_ext. intros i p Hi. rewrite Heq; [done|].
  apply lookup_seqZ in Hi. lia.
Qed.

(** Bytes of one sector, seen in the array and in the sector. *)
Lemma slice_file_bytes bl c d p n :
  ctx_ok c -> (forall q, 0 <= q < capacity bl c -> Z.of_nat (length (dev_sector d (file_lba bl c q))) = 512) ->
  0 <= p -> 0 <= n -> p + n <= capacity bl c -> p mod 512 + n <= 512 ->
  slice p n (file_bytes bl c d) = slice (p mod 512) n (dev_sector d (file_lba bl c p)).
Proof.
  intros Hc Hlen Hp Hn Hcap Hsec. pose proof (Z.mod_pos_bound p 512).
  destruct (decide (n = 0)) as [->|Hn0]; [done|].
  apply (list_eq_same_length _ _ (Z.to_nat n)); rewrite ?length_slice; rewrite ?length_file_bytes, ?Hlen; try lia.
  intros i x y Hi. rewrite !lookup_slice by lia.
  replace (Z.to_nat p + i)%nat with (Z.to_nat (p + Z.of_nat i)) by lia.
  rewrite lookup_file_bytes by lia. intros [= <-].
  assert (Hq : (p + Z.of_nat i) mod 512 = p mod 512 + Z.of_nat i).
  { rewrite <- Zplus_mod_idemp_l. apply Z.mod_small. lia. }
  rewrite (file_lba_same bl c (p + Z.of_nat i) p), Hq by
    (done || lia || (pose proof (Z.div_mod p 512); pose proof (Z.div_mod (p + Z.of_nat i) 512); lia)).
  replace (Z.to_nat (p mod 512 + Z.of_nat i)) with (Z.to_nat (p mod 512) + i)%nat by lia. by intros ->.
Qed.

(** A change inside one sector is the same change of the array. *)
Lemma splice_file_bytes bl c d d' p bt :
  ctx_ok c -> NoDup bl ->
  (forall q, 0 <= q < capacity bl c -> Z.of_nat (length (dev_sector d (file_lba bl c q))) = 512) ->
  0 <= p -> (0 < length bt)%nat -> p + Z.of_nat (length bt) <= capacity bl c ->
  p mod 512 + Z.of_nat (length bt) <= 512 ->
  (forall q, 0 <= q < capacity bl c -> dev_sector d' (file_lba bl c q) =
     if decide (file_lba bl c q = file_lba bl c p) then splice (p mod 512) bt (dev_sector d (file_lba bl c p))
     else dev_sector d (file_lba bl c q)) ->
  file_bytes bl c d' = splice p bt (file_bytes bl c d).
Proof.
  intros Hc Hnd Hlen Hp Hbt Hcap Hsec Hd'. pose proof (Z.mod_pos_bound p 512).
  apply (list_eq_same_length _ _ (Z.to_nat (capacity bl c)));
    rewrite ?length_splice; rewrite ?length_file_bytes; try lia.
  intros i x y Hi. rewrite <- (Nat2Z.id i), lookup_file_bytes by lia. intros [= <-].
  set (q := Z.of_nat i) in *. assert (Hq : 0 <= q < capacity bl c) by lia.
  assert (Hps : Z.of_nat (length (dev_sector d (file_lba bl c p))) = 512) by (apply Hlen; lia).
  pose proof (Z.div_mod p 512). pose proof (Z.div_mod q 512). pose proof (Z.mod_pos_bound q 512).
  rewrite Hd' by done. case_decide as Heq.
  - apply file_lba_inj in Heq; [|done..|lia].
    destruct (decide (p <= q < p + Z.of_nat (length bt))) as [Hin|Hout].
    + rewrite !lookup_splice_in by (rewrite ?length_file_bytes; lia).
      replace (Z.to_nat (q mod 512) - Z.to_nat (p mod 512))%nat with (Z.to_nat q - Z.to_nat p)%nat by lia. by intros ->.
    + rewrite !lookup_splice_out by (rewrite ?length_file_bytes; lia). rewrite lookup_file_bytes by lia.
      intros [= <-]. by rewrite (file_lba_same bl c q p) by (done || lia).
  - assert (q / 512 <> p / 512) by (intros Hdiv; apply Heq, file_lba_same; done || lia).
    rewrite lookup_splice_out by (rewrite ?length_file_bytes; lia). rewrite lookup_file_bytes by lia. by intros [= <-].
Qed.
End array_facts.

(** What an operation keeps of the file: its number and the kind of file; the rest of the inode changes
    only when the file is marked for writing back. *)
Record same_file (f0 f : file_ent) : Prop := {
  sf_number : fe_inode_number f = fe_inode_number f0;
  sf_mode : i_mode (fe_inode f) = i_mode (fe_inode f0);
  sf_untouched : has_flag (fe_flags f) EXT2_FLAG_FS_DIRTY = false ->
    has_flag (fe_flags f0) EXT2_FLAG_FS_DIRTY = false /\ fe_inode f = fe_inode f0
}.

#[export] Instance same_file_preorder : PreOrder same_file.
Proof.
  split; [by split|]. intros f g h [Hn1 Hm1 Hu1] [Hn2 Hm2 Hu2]. split; [congruence | congruence |].
  intros Hh. destruct (Hu2 Hh) as [Hg ->]. by apply Hu1.
Qed.

Lemma same_file_touched f0 f :
  fe_inode_number f = fe_inode_number f0 -> i_mode (fe_inode f) = i_mode (fe_inode f0) ->
  has_flag (fe_flags f) EXT2_FLAG_FS_DIRTY = true -> same_file f0 f.
Proof. intros Hn Hm Hf. split; [done | done | by rewrite Hf]. Qed.

Section step_facts.
Context {D : Type} `{Env, BlockDeviceLaws D}.
Variables (bl : list Z) (c0 : ext2context) (f0 : file_ent) (d0 : D).
Implicit Types (s : file_state D) (a : byte_file).

(** The open file implements the array [a]; the sectors of [d0] outside the file are as they were. *)
Record implements a s : Prop := {
  im_laid : laid_out bl s;
  im_abs : abstract bl s = a;
  im_ctx : c_ctx (s_c s) = c0;
  im_same : same_file f0 (s_fe s);
  im_volume m : in_volume (view s) m <-> in_volume d0 m;
  im_frame m : in_volume d0 m -> ~ file_sector bl c0 m -> dev_sector (view s) m = dev_sector d0 m
}.

Lemma laid_ctx s : laid_out bl s -> ctx_ok (c_ctx (s_c s)).
Proof. intros Hl. by destruct (lo_open _ _ Hl) as [[[]]]. Qed.

Lemma laid_sectors s : laid_out bl s -> forall q, 0 <= q < capacity bl (c_ctx (s_c s)) ->
  Z.of_nat (length (dev_sector (view s) (file_lba bl (c_ctx (s_c s)) q))) = 512.
Proof. intros Hl q Hq. apply sector_length; [apply view_ok, (lo_open _ _ Hl) | by apply (lo_volume _ _ Hl)]. Qed.

Lemma laid_ready s : laid_out bl s -> fe_cursor (s_fe s) < capacity bl (c_ctx (s_c s)) ->
  exists b, block_ready s b /\ cursor_lba s b = file_lba bl (c_ctx (s_c s)) (fe_cursor (s_fe s)).
Proof.
  intros Hl Hcur. pose proof (laid_ctx s Hl) as Hc. destruct (bsz_range _ Hc) as [Hb _].
  pose proof Hl as [Hop Hdir Hblk _ Hvol Hcap _ Hc0 _].
  destruct (block_index bl _ (fe_cursor (s_fe s)) Hc) as (b & Hlk & Hlba); [lia|].
  exists b. split; [|by rewrite Hlba]. destruct (Hblk _ _ Hlk) as [Hib Hpos].
  apply direct_ready; try done; [apply Hop | lia | unfold capacity in *; nia |].
  unfold cursor_lba. rewrite <- Hlba. apply Hvol. lia.
Qed.

(** The file after a step that kept its blocks, the view outside its sectors and the geometry. *)
Lemma implements_step a s a' s' :
  implements a s -> open_file s' -> c_ctx (s_c s') = c0 -> same_file (s_fe s) (s_fe s') ->
  i_block (fe_inode (s_fe s')) = i_block (fe_inode (s_fe s)) ->
  i_size (fe_inode (s_fe s')) <= capacity bl c0 -> 0 <= fe_cursor (s_fe s') < 2147483648 ->
  (bo_dirty (fe_buffer (s_fe s')) <> 0 -> file_sector bl c0 (buf_lba s')) ->
  (forall m, in_volume (view s') m <-> in_volume (view s) m) ->
  (forall m, in_volume (view s) m -> ~ file_sector bl c0 m -> dev_sector (view s') m = dev_sector (view s) m) ->
  abstract bl s' = a' -> implements a' s'.
Proof.
  intros [[Hop Hdir Hblk Hnd Hvol Hcap Hsz Hcur _] _ Hc Hn Hv Hf] Hop' Hc' Hn' Hb' Hsz' Hcur' Hbuf' Hv' Hf' Ha'.
  rewrite Hc in Hvol, Hcap. split; [split|..]; rewrite ?Hc'; try done.
  - intros k b. rewrite Hb'. apply Hblk.
  - intros p Hp. by apply Hv', Hvol.
  - by etransitivity.
  - intros m. by rewrite Hv'.
  - intros m Hm Hnm. rewrite Hf'; [by apply Hf | by apply Hv | done].
Qed.

(** The flags a read or a write sets. *)
Lemma has_flag_dirtied x f : Z.land EXT2_FLAG_FS_DIRTY f = 0 ->
  has_flag (Z.lor x EXT2_FLAG_FS_DIRTY) f = has_flag x f.
Proof. intros Hf. unfold has_flag. by rewrite Z.land_lor_distr_l, Hf, Z.lor_0_r. Qed.

Lemma read_step count a s :
  implements a s -> 0 <= count < 2147483648 -> matches implements (spec_read count a) (file_op_run (ReadOp count) s).
Proof.
  intros Him Hcount. pose proof Him as [Hl <- Hc _ Hv Hf]. pose proof Hl as [Hop _ _ _ _ Hcap Hsz Hcur Hbuf].
  unfold spec_read, matches. cbn [bf_size bf_cursor bf_data abstract file_op_run].
  set (n := Z.min count _). rewrite Hc in *. destruct (Z.leb_spec n 0) as [Hn|Hn].
  { exists s. split; [|done]. by erewrite bind_ok by (apply read_end_run; [done|lia|lia]). }
  destruct (laid_ready s Hl) as (b & Hr & Hlba); [rewrite Hc; lia|]. rewrite Hc in Hlba.
  assert (Hw : wanted s count = n) by done. unfold one_sector. destruct (Z.leb_spec (fe_cursor (s_fe s) mod 512 + n) 512) as [Hin|Hout].
  - destruct (read_effect count b s Hop Hr) as (s' & Hrun & Hmv); [lia|lia|by rewrite Hw|]. rewrite Hw in Hrun, Hmv.
    exists s'. split.
    + erewrite bind_ok by exact Hrun. cbn beta iota.
      assert (cursor_bytes s b n = slice (fe_cursor (s_fe s)) n (file_bytes bl (c_ctx (s_c s)) (view s))) as ->;
        [|by rewrite Hc].
      unfold cursor_bytes. rewrite Hlba, <- Hc. symmetry.
      apply slice_file_bytes; rewrite ?Hc; try lia; [rewrite <- Hc; by apply laid_ctx |].
      rewrite <- Hc. by apply laid_sectors.
    + destruct Hmv as [Hop' Hcur' Hv' Hc' Hsz' Hb' _ Hd' Hfl' Hno' He' Hcl' Hmo'].
      apply (implements_step _ s _ s' Him); try congruence; try lia.
      * by apply same_file_touched.
      * intros m. by rewrite Hv'.
      * unfold abstract. rewrite Hd'. by rewrite Hv', Hc', Hsz', Hcur', Hfl', He', Hc, !has_flag_dirtied.
  - apply bind_fault. apply (read_overruns_buffer count b); try done; lia.
Qed.

Lemma size_step a s : implements a s -> matches implements (spec_op SizeOp a) (file_op_run SizeOp s).
Proof.
  intros Him. pose proof Him as [Hl <- _ _ _ _]. pose proof Hl as [[Hok Hm] _ _ _ _ _ _ _ _]. exists s. split; [|done].
  cbn [file_op_run]. unfold ext2_fstat. unfold mbind at 1, M_bind at 1. rewrite with_magic_run by done.
  rewrite (bind_ok fe _ s (s_fe s) s), (bind_ok fctx _ s (c_ctx (s_c s)) s) by done.
  erewrite bind_lift by (apply block_size_ok; apply (laid_ctx s Hl)). done.
Qed.

(** Only the cursor, or only the error number, changes. *)
Lemma cursor_step p a s : implements a s -> 0 <= p < 2147483648 ->
  implements (set_bf_cursor p a) (upd_fe (set_fe_cursor p) s).
Proof.
  intros Him Hp. pose proof Him as [Hl <- Hc _ _ _]. pose proof Hl as [[Hok Hm] _ _ _ _ _ Hsz _ Hbuf]. rewrite Hc in Hsz, Hbuf.
  apply (implements_step _ s _ _ Him); try done. split; [|done]. apply file_ok_upd_fe; [done | done | apply Hok].
Qed.

Lemma errno_step e a s : implements a s -> implements (set_bf_errno e a) (set_c (set_errno e (s_c s)) s).
Proof.
  intros Him. pose proof Him as [Hl <- Hc _ _ _]. pose proof Hl as [[Hok Hm] _ _ _ _ _ Hsz Hcur Hbuf]. rewrite Hc in Hsz, Hbuf.
  apply (implements_step _ s _ _ Him); try done. split; [|done]. by destruct Hok.
Qed.

(** A seek to a position of an [int], for each of the origins. *)
Lemma lseek_in_range offset whence s :
  open_file s -> whence = SEEK_SET \/ whence = SEEK_CUR \/ whence = SEEK_END ->
  0 <= fe_cursor (s_fe s) < 2147483648 -> -2147483648 <= offset < 2147483648 ->
  seek_base s whence + offset < 2147483648 ->
  ext2_lseek offset whence s =
    if seek_base s whence + offset <? 0 then Ok (-1, set_c (set_errno EINVAL (s_c s)) s)
    else Ok (seek_base s whence + offset, upd_fe (set_fe_cursor (seek_base s whence + offset)) s).
Proof.
  intros Hop Hw Hcur Hoff Hpos. rewrite lseek_run by (done || (unfold INT64_MAX; lia)).
  destruct (Z.ltb_spec (seek_base s whence + offset) 0); [done|].
  cbv zeta. rewrite u32_id by lia. case_match; by rewrite s32_id by lia.
Qed.

Lemma seek_base_of s whence offset : whence = SEEK_SET \/ whence = SEEK_CUR \/ whence = SEEK_END ->
  seek_pos (abstract bl s) offset whence = Some (seek_base s whence + offset).
Proof. by intros [-> | [-> | ->]]. Qed.

Lemma seek_step offset whence a s :
  implements a s -> op_allowed a (SeekOp offset whence) ->
  matches implements (spec_seek offset whence a) (file_op_run (SeekOp offset whence) s).
Proof.
  intros Him [Hoff Hpos]. pose proof Him as [Hl <- Hc _ _ _]. pose proof Hl as [Hop _ _ _ _ _ _ Hcur _].
  unfold spec_seek. cbn [file_op_run].
  destruct (decide (whence = SEEK_SET \/ whence = SEEK_CUR \/ whence = SEEK_END)) as [Hw|Hw].
  - rewrite seek_base_of in Hpos |- * by done. set (pos := seek_base s whence + offset) in *.
    pose proof (lseek_in_range offset whence s Hop Hw Hcur Hoff Hpos) as Hrun. unfold matches. fold pos in Hrun.
    destruct (Z.ltb_spec pos 0).
    + eexists. split; [by erewrite bind_ok by exact Hrun | by apply errno_step].
    + eexists. split; [by erewrite bind_ok by exact Hrun | by apply cursor_step].
  - assert (Hnone : seek_pos (abstract bl s) offset whence = None).
    { unfold seek_pos. destruct (Z.eqb_spec whence SEEK_SET), (Z.eqb_spec whence SEEK_CUR),
        (Z.eqb_spec whence SEEK_END); done || (exfalso; auto). }
    rewrite Hnone. eexists. split; [|by apply errno_step]. unfold ext2_lseek. unfold mbind at 1, M_bind at 1.
    rewrite with_magic_run by apply Hop. rewrite (bind_ok fe _ s (s_fe s) s) by done.
    destruct (Z.eqb_spec whence SEEK_SET), (Z.eqb_spec whence SEEK_CUR), (Z.eqb_spec whence SEEK_END);
      try (exfalso; auto; fail). done.
Qed.

(** A write starts at the cursor, or at the end of a file opened with [O_APPEND]. *)
Lemma write_started bt a s :
  implements a s -> bf_write a = true ->
  let t := upd_fe (set_fe_cursor (write_start_of a)) s in
  implements (set_bf_cursor (write_start_of a) a) t /\
  ext2_write bt s = ('(failed, i) ← write_loop (length bt) bt 0;
     if (failed : bool) then mret (-1)
     else (if 0 <? i then ext2_update_mtime ;; mret tt else mret tt) ;; mret (s32 i)) t.
Proof.
  intros Him Hw t. pose proof Him as [Hl <- Hc _ _ _]. pose proof Hl as [Hop _ _ _ _ Hcap Hsz Hcur Hbuf].
  pose proof (size_range s (proj1 Hop)) as Hsr.
  assert (Hstart : 0 <= write_start_of (abstract bl s) < 2147483648) by (unfold write_start_of; case_match; cbn; lia).
  split; [by apply cursor_step|]. cbn [bf_write abstract] in Hw. unfold ext2_write.
  rewrite with_magic_run by apply Hop. rewrite (bind_ok fe _ s (s_fe s) s), Hw by done. cbn [negb].
  subst t. unfold write_start_of. cbn [bf_append bf_size bf_cursor abstract].
  destruct (has_flag (fe_flags (s_fe s)) EXT2_FLAG_APPEND).
  - pose proof (lseek_in_range 0 SEEK_END s Hop) as Hrun.
    change (seek_base s SEEK_END) with (i_size (fe_inode (s_fe s))) in Hrun. rewrite Z.add_0_r in Hrun.
    destruct (Z.ltb_spec (i_size (fe_inode (s_fe s))) 0); [lia|].
    erewrite bind_ok by (apply Hrun; auto; lia). destruct (Z.eqb_spec (i_size (fe_inode (s_fe s))) (-1)); [lia | done].
  - by destruct s as [[] ?].
Qed.

(** The array after the bytes were written. *)
Lemma written_step bt b a s s' :
  implements a s -> written bt b s s' -> (0 < length bt)%nat ->
  cursor_lba s b = file_lba bl c0 (bf_cursor a) ->
  bf_cursor a + Z.of_nat (length bt) <= capacity bl c0 -> bf_cursor a mod 512 + Z.of_nat (length bt) <= 512 ->
  let pos := bf_cursor a + Z.of_nat (length bt) in
  implements (mk_bytes (splice (bf_cursor a) bt (bf_data a)) (Z.max (bf_size a) pos) pos
    (bf_write a) (bf_append a) true (bf_errno a)) s'.
Proof.
  intros Him [Hok' Hcur' Hsz' Hb' _ Hd' Hfl' Hno' Hmag' Hc' Hvol' Hview' He' Hlba' Hmo'] Hlen Hlba Hcap Hsec pos.
  pose proof Him as [Hl <- Hc _ Hv Hf]. pose proof Hl as [Hop _ _ Hnd Hvol Hcap2 Hsz Hcur _]. rewrite Hc in *.
  cbn [bf_cursor bf_data bf_size bf_write bf_append bf_touched bf_errno abstract] in *.
  pose proof (size_range s (proj1 Hop)) as Hsr. fold pos in Hcur', Hsz'.
  assert (Hmax : i_size (fe_inode (s_fe s')) = Z.max (i_size (fe_inode (s_fe s))) pos).
  { rewrite Hsz', u32_id by lia. destruct (Z.ltb_spec (i_size (fe_inode (s_fe s))) pos); lia. }
  apply (implements_step _ s _ s' Him); rewrite ?Hmax; try done; try lia; [split; [done|] | | | |].
  - rewrite Hmag'. apply Hop.
  - by apply same_file_touched.
  - intros _. exists (fe_cursor (s_fe s)). split; [lia|]. by rewrite Hlba'.
  - intros m Hm Hnm. rewrite Hview' by done. apply decide_False. intros ->. apply Hnm.
    exists (fe_cursor (s_fe s)). split; [lia | done].
  - unfold abstract. rewrite Hd', Hc', Hmax, Hcur', Hfl', He', Hc, !has_flag_dirtied by done. f_equal.
    apply splice_file_bytes; try lia; [rewrite <- Hc; by apply laid_ctx | done | |].
    + rewrite <- Hc. by apply laid_sectors.
    + intros q Hq. rewrite Hview' by (by apply Hvol). by rewrite Hlba.
Qed.

Lemma write_bytes_step bt a s :
  implements a s -> bf_write a = true -> bytes_ok bt -> (0 < length bt)%nat ->
  write_start_of a + Z.of_nat (length bt) <= Z.of_nat (length (bf_data a)) ->
  matches implements (spec_write bt a) (file_op_run (WriteOp bt) s).
Proof.
  intros Him Hw Hbt Hlen Hcap. destruct (write_started bt a s Him Hw) as [Him2 Hrun].
  unfold spec_write. rewrite Hw. cbn [negb]. destruct (Z.eqb_spec (Z.of_nat (length bt)) 0) as [|Hnz]; [lia|].
  set (p := write_start_of a) in *. set (n := Z.of_nat (length bt)) in *. set (t := upd_fe _ s) in *.
  pose proof Him2 as [Hl Ha Hc _ _ _]. pose proof Hl as [Hop _ _ _ _ _ _ _ _].
  assert (Hdata : bf_data a = file_bytes bl c0 (view t))
    by (change (bf_data a) with (bf_data (set_bf_cursor p a)); rewrite <- Ha, <- Hc; done).
  assert (Hp : fe_cursor (s_fe t) = p) by done. rewrite Hdata in Hcap.
  assert (Hn : 0 < n) by (unfold n; lia). assert (Hp0 : 0 <= p) by (rewrite <- Hp; apply Hl).
  rewrite length_file_bytes in Hcap.
  destruct (laid_ready t Hl) as (b & Hr & Hlba); [rewrite Hc, Hp; lia|]. rewrite Hc, Hp in Hlba.
  cbn [file_op_run]. unfold one_sector. destruct (Z.leb_spec (p mod 512 + n) 512) as [Hin|Hout].
  - destruct (write_loop_run (length bt) bt b t) as (s1 & Hs1 & Hok1 & Hloop); try done; [apply Hop|].
    assert (Hwr := poked_written bt b t s1 (proj1 Hop) Hs1 Hok1 (br_cursor _ _ Hr) (br_pos _ _ Hr)
      (br_data _ _ Hr) Hbt Hin).
    match type of Hwr with written _ _ _ ?s' => exists s' end. split.
    + erewrite bind_ok; [reflexivity|]. rewrite Hrun. erewrite bind_ok by exact Hloop. cbn beta iota. fold n.
      destruct (Z.ltb_spec 0 n); [|lia]. pose proof (Z.mod_pos_bound p 512). rewrite s32_id by lia. reflexivity.
    + pose proof (written_step bt b (set_bf_cursor p a) t _ Him2 Hwr Hlen Hlba) as Hstep.
      cbn [bf_cursor bf_data bf_size bf_write bf_append bf_touched bf_errno set_bf_cursor] in Hstep. rewrite Hw in Hstep.
      apply Hstep; fold n; lia.
  - rewrite (bind_fault _ _ _ OutOfBounds); [done|]. rewrite Hrun. rewrite (bind_fault _ _ _ OutOfBounds); [done|].
    pose proof (lo_capacity _ _ Hl) as Hmax. rewrite Hc in Hmax.
    apply (write_loop_overrun _ bt b); try done; [apply Hop | fold n; lia].
Qed.
End step_facts.

(** * Properties *)
Section refinement.
Context {D : Type} `{Env, BlockDeviceLaws D}.
Implicit Types (s : file_state D).

Lemma file_ops_simulate bl (c0 : ext2context) f0 (d0 : D) :
  simulates (implements bl c0 f0 d0) op_allowed spec_op file_op_run.
Proof.
  intros op a s Him Hop. destruct op as [count|bt|offset whence|].
  - by apply read_step.
  - destruct Hop as [Hbt Hcap]. destruct (bf_write a) eqn:Hw; [destruct bt as [|b bt]|].
    + destruct (write_started bl c0 f0 d0 [] a s Him Hw) as [Him2 Hrun]. cbn [spec_op]. unfold spec_write. rewrite Hw.
      cbn [negb length Z.of_nat Z.eqb]. eexists. split; [|exact Him2]. cbn [file_op_run].
      by erewrite bind_ok by (rewrite Hrun; reflexivity).
    + apply write_bytes_step; auto. cbn; lia.
    + pose proof (errno_step bl c0 f0 d0 EBADF _ _ Him) as Him2. pose proof Him as [Hl <- _ _ _ _].
      cbn [spec_op]. unfold spec_write. rewrite Hw. eexists. split; [|exact Him2]. cbn [file_op_run].
      cbn [bf_write abstract] in Hw. unfold ext2_write. unfold mbind at 1, M_bind at 1.
      rewrite with_magic_run by apply (lo_open _ _ Hl). rewrite (bind_ok fe _ s (s_fe s) s), Hw by done. done.
  - by apply seek_step.
  - by apply size_step.
Qed.

Lemma laid_implements bl s : laid_out bl s ->
  implements bl (c_ctx (s_c s)) (s_fe s) (view s) (abstract bl s) s.
Proof. by split. Qed.

(** A sequence of operations on the file, and what it keeps. *)
Lemma file_ops_run bl s ops :
  laid_out bl s -> all_allowed op_allowed spec_op ops (abstract bl s) ->
  matches (implements bl (c_ctx (s_c s)) (s_fe s) (view s))
    (run_ops spec_op ops (abstract bl s)) (run_ops file_op_run ops s).
Proof. intros Hl Hall. apply (simulates_run _ _ _ (file_ops_simulate bl _ _ _)); [by apply laid_implements | done]. Qed.

(** C3: refinement of the abstract file: on an open file whose blocks are direct, every sequence of
    reads, writes, seeks and status calls gives exactly the answers of an array of bytes with a size and
    a cursor, errors and their [errno] included, and is undefined exactly where the array is: at the first
    transfer that crosses a 512-byte boundary. Afterwards the file again is the array the
    specification ends with, and no sector outside the file has changed. *)
Theorem file_refines_bytes bl s ops :
  laid_out bl s -> all_allowed op_allowed spec_op ops (abstract bl s) ->
  match run_ops spec_op ops (abstract bl s) with
  | Ok (answers, a) => exists s', run_ops file_op_run ops s = Ok (answers, s') /\
      laid_out bl s' /\ abstract bl s' = a /\
      forall m, in_volume (view s) m -> ~ file_sector bl (c_ctx (s_c s)) m ->
        dev_sector (view s') m = dev_sector (view s) m
  | Fault f => run_ops file_op_run ops s = Fault f
  end.
Proof.
  intros Hl Hall. pose proof (file_ops_run bl s ops Hl Hall) as Hrun. unfold matches in Hrun.
  destruct (run_ops spec_op ops (abstract bl s)) as [[answers a]|f]; [|done].
  destruct Hrun as (s' & Hrun & [Hl' Ha' _ _ _ Hf']). by exists s'.
Qed.
End refinement.
