(* ===== verification/Files.v ===== *)
(** * Several open files of one volume

    Files that do not share a block, each with its own sector buffer over the one
    device: what an operation on one of them changes on the device, and that the
    others are the arrays of bytes they were. *)
From stdpp Require Import gmap.
From S2P Require Import Prelude Hoare Layout OnDisk Device Context FileBuf Inode BlockMap Alloc FileIo FileSpec.

(** ** The code: open files that point to one mounted file system *)
Record open_files (D : Type) : Type := mk_open_files {
  of_files : gmap nat file_ent;
  of_c : cst D
}.
Arguments mk_open_files {D} _ _.
Arguments of_files {D} _.
Arguments of_c {D} _.

Definition call_run {D} `{BlockDevice D, Env} (call : nat * file_op) : M (open_files D) answer := fun st =>
  match of_files st !! fst call with
  | None => Fault BadPointer
  | Some f =>
      '(r, s) ← file_op_run (snd call) (mk_fst f (of_c st));
      Ok (r, mk_open_files (<[fst call := s_fe s]> (of_files st)) (s_c s))
  end.

(** * Facts *)
Section files_facts.
Context {D : Type} `{Env, BlockDeviceLaws D}.
Implicit Types (s : file_state D) (c : cst D) (bl : list Z).

(** Different blocks have different sectors. *)
Lemma disjoint_sectors bl bl' (c : ext2context) m :
  ctx_ok c -> bl ## bl' -> file_sector bl c m -> ~ file_sector bl' c m.
Proof.
  intros Hc Hdis (p & Hp & ->) (q & Hq & Heq). destruct (block_index bl c p Hc Hp) as (b1 & Hb1 & Hp1).
  destruct (block_index bl' c q Hc Hq) as (b2 & Hb2 & Hq2). rewrite Hp1, Hq2 in Heq.
  destruct (sector_in_block c p Hc) as [_ Hr1]; [lia|]. destruct (sector_in_block c q Hc) as [_ Hr2]; [lia|].
  unfold block_lba in Heq. assert (b1 = b2) as <- by nia.
  apply list_elem_of_lookup_2 in Hb1, Hb2. by apply (Hdis b1).
Qed.

(** Outside its sectors the view of a file is the device. *)
Lemma view_outside bl s m :
  laid_out bl s -> in_volume (view s) m -> ~ file_sector bl (c_ctx (s_c s)) m ->
  dev_sector (view s) m = dev_sector (c_dev (s_c s)) m.
Proof.
  intros Hl Hm Hn. pose proof Hl as [[Hok _] _ _ _ _ _ _ _ Hcached]. pose proof Hok as [[_ Hd] Hb Hv _].
  apply view_volume in Hm; [|done]. unfold view. destruct (Z.eqb_spec (bo_dirty (fe_buffer (s_fe s))) 0) as [|Hdirty]; [done|].
  apply dev_put_other; auto. intros ->. by apply Hn, Hcached.
Qed.

(** What an operation on one file does to the volume. *)
Record op_effect bl s a' s' : Prop := {
  oe_laid : laid_out bl s';
  oe_abs : abstract bl s' = a';
  oe_ctx : c_ctx (s_c s') = c_ctx (s_c s);
  oe_same : same_file (s_fe s) (s_fe s');
  oe_volume m : in_volume (c_dev (s_c s')) m <-> in_volume (c_dev (s_c s)) m;
  oe_other m : in_volume (c_dev (s_c s)) m -> ~ file_sector bl (c_ctx (s_c s)) m ->
    dev_sector (c_dev (s_c s')) m = dev_sector (c_dev (s_c s)) m
}.

Lemma op_run bl op s :
  laid_out bl s -> op_allowed (abstract bl s) op ->
  matches (op_effect bl s) (spec_op op (abstract bl s)) (file_op_run op s).
Proof.
  intros Hl Hop. pose proof (file_ops_simulate bl _ _ _ op _ _ (laid_implements bl s Hl) Hop) as Hrun.
  unfold matches in *. destruct (spec_op op (abstract bl s)) as [[r a']|f]; [|done].
  destruct Hrun as (s' & Hrun & [Hl' Ha' Hc' Hs' Hv' Hf']). exists s'. split; [done|].
  assert (Hvol : forall m, in_volume (c_dev (s_c s')) m <-> in_volume (c_dev (s_c s)) m).
  { intros m. rewrite <- (view_volume s' m), <- (view_volume s m) by (first [apply (lo_open _ _ Hl) | apply (lo_open _ _ Hl')]). apply Hv'. }
  split; try done. intros m Hm Hn.
  assert (Hm1 : in_volume (view s) m) by (apply view_volume; [apply (lo_open _ _ Hl) | done]).
  rewrite <- (view_outside bl s') , <- (view_outside bl s), Hf'; rewrite ?Hc'; try done. by apply Hv'.
Qed.

(** A file whose sectors another one has not touched. *)
Lemma neighbour_kept bl f c c' :
  laid_out bl (mk_fst f c) -> (exists bf, c_ctx c' = set_sysbuf bf (c_ctx c)) -> fs_ok c' ->
  (forall m, in_volume (c_dev c') m <-> in_volume (c_dev c) m) ->
  (forall m, in_volume (c_dev c) m -> file_sector bl (c_ctx c) m -> dev_sector (c_dev c') m = dev_sector (c_dev c) m) ->
  laid_out bl (mk_fst f c') /\
  abstract bl (mk_fst f c') = set_bf_errno (c_errno c') (abstract bl (mk_fst f c)).
Proof.
  intros Hl [bf Hctx] Hfs Hv Hs. pose proof Hl as [[Hok Hm] Hdir Hblk Hnd Hvol Hcap Hsz Hcur Hcached].
  pose proof Hok as [[_ Hd] Hb Hdv Hi]. cbn [s_c s_fe] in *.
  assert (Hlba : buf_lba (mk_fst f c') = buf_lba (mk_fst f c)) by (unfold buf_lba; cbn; by rewrite Hctx).
  assert (Hok' : file_ok (mk_fst f c')) by (split; [done | done | rewrite Hlba; intros Hx; by apply Hv, Hdv | done]).
  assert (Hview : forall m, file_sector bl (c_ctx c) m -> in_volume (c_dev c) m ->
    dev_sector (view (mk_fst f c')) m = dev_sector (view (mk_fst f c)) m).
  { intros m Hfm Hin. unfold view. cbn [s_fe s_c]. destruct (Z.eqb_spec (bo_dirty (fe_buffer f)) 0) as [|Hx]; [by apply Hs|].
    rewrite Hlba, !dev_put_sector by (first [done | apply Hfs | by apply Hdv | by apply Hv | by apply Hv, Hdv]).
    case_decide; [done | by apply Hs]. }
  assert (Hin : forall p, 0 <= p < capacity bl (c_ctx c) -> in_volume (c_dev c) (file_lba bl (c_ctx c) p))
    by (intros p Hp; by apply (view_volume (mk_fst f c)); [|apply Hvol]).
  assert (Hcapeq : capacity bl (c_ctx c') = capacity bl (c_ctx c)) by (by rewrite Hctx).
  assert (Hsec : forall m, file_sector bl (c_ctx c') m <-> file_sector bl (c_ctx c) m) by (intros m; by rewrite Hctx).
  assert (Hflba : forall p, file_lba bl (c_ctx c') p = file_lba bl (c_ctx c) p) by (intros p; by rewrite Hctx).
  split.
  - split; cbn [s_c s_fe]; rewrite ?Hcapeq, ?Hlba; try done; [|intros Hx; by apply Hsec, Hcached].
    intros p Hp. rewrite Hflba. apply view_volume; [done|]. by apply Hv, Hin.
  - unfold abstract, set_bf_errno. cbn [s_c s_fe bf_data bf_size bf_cursor bf_write bf_append bf_touched].
    f_equal. unfold file_bytes. rewrite Hcapeq. apply list_fmap_ext. intros i p Hp. apply lookup_seqZ in Hp.
    rewrite Hflba, Hview; [done | exists p; split; [lia | done] | apply Hin; lia].
Qed.

(** What closing a file does to the volume: the sectors of the view, with the inode in its slot when it
    was modified. *)
Lemma close_effect ino s :
  open_file s -> fe_inode_number (s_fe s) = ino -> inode_located (c_ctx (s_c s)) (view s) ino ->
  ino_lba (c_ctx (s_c s)) (view s) ino <> ino_desc_lba (c_ctx (s_c s)) ino ->
  let n := ino_lba (c_ctx (s_c s)) (view s) ino in
  exists s', ext2_close s = Ok (0, s') /\ fs_ok (s_c s') /\
    (exists bf, c_ctx (s_c s') = set_sysbuf bf (c_ctx (s_c s))) /\
    (forall m, in_volume (c_dev (s_c s')) m <-> in_volume (view s) m) /\
    (forall m, in_volume (view s) m -> m <> n -> dev_sector (c_dev (s_c s')) m = dev_sector (view s) m) /\
    (forall off k, 0 <= off -> 0 <= k ->
       off + k <= ino_off (c_ctx (s_c s)) ino \/ ino_off (c_ctx (s_c s)) ino + 128 <= off ->
       slice off k (dev_sector (c_dev (s_c s')) n) = slice off k (dev_sector (view s) n)) /\
    inode_on_disk (c_ctx (s_c s)) (c_dev (s_c s')) ino =
      if has_flag (fe_flags (s_fe s)) EXT2_FLAG_FS_DIRTY then fe_inode (s_fe s)
      else inode_on_disk (c_ctx (s_c s)) (view s) ino.
Proof.
  intros Hop Hn Hil Hne n. destruct (has_flag (fe_flags (s_fe s)) EXT2_FLAG_FS_DIRTY) eqn:Hfl.
  - destruct (close_run ino s Hop Hn Hil Hfl) as (s1 & Hrun & Hok1 & Hv1 & Hd1 & Hc1 & Hi1 & Hn1).
    assert (Hil1 : inode_located (c_ctx (s_c s1)) (c_dev (s_c s1)) ino) by (by rewrite Hc1, Hd1).
    destruct (flushed_slot ino s1 Hok1 Hn1 Hil1) as (Hslot & Hslice & Hoth).
    destruct (flushed_volume ino s1 Hok1 Hn1 Hil1) as [Hfs Hvol]. cbv zeta in Hslot, Hslice, Hoth.
    rewrite Hd1, Hc1, Hi1 in Hslot. rewrite Hd1, Hc1, Hv1 in Hslice, Hoth. rewrite Hd1 in Hvol.
    eexists. split; [exact Hrun|]. split; [done|]. split.
    { exists (sysbuf (c_ctx (s_c (flushed_inode s1)))).
      transitivity (set_sysbuf (sysbuf (c_ctx (s_c (flushed_inode s1)))) (c_ctx (s_c s1))); [done | by rewrite Hc1]. }
    do 3 (split; [done|]). unfold inode_on_disk.
    destruct (located_same (c_ctx (s_c s)) (view s) (c_dev (s_c (flushed_inode s1))) ino Hvol) as [Hl _]; [| done |].
    + apply Hoth; [apply Hil | by apply not_eq_sym].
    + change (c_dev (s_c (upd_fe (set_fe_magic 0) (flushed_inode s1)))) with (c_dev (s_c (flushed_inode s1))). rewrite Hl. exact Hslot.
  - destruct (close_clean_run s Hop Hfl) as (s1 & Hrun & Hok1 & Hd1 & Hc1).
    eexists. split; [exact Hrun|]. split; [apply Hok1|].
    change (c_dev (s_c (upd_fe (set_fe_magic 0) s1))) with (c_dev (s_c s1)). split.
    { exists (sysbuf (c_ctx (s_c s1))). cbn [upd_fe s_c]. rewrite Hc1. by destruct (c_ctx (s_c s)). }
    rewrite Hd1. do 3 (split; [done|]). done.
Qed.

Lemma h_close_ok f c s' : ext2_close (mk_fst f c) = Ok (0, s') -> h_close (OpenFile f) c = Ok ((0, FreedFile), s_c s').
Proof. intros Hrun. unfold h_close, on_handle. unfold mbind at 1, M_bind at 1. unfold mbind at 1, res_bind. by rewrite Hrun. Qed.
End files_facts.
