(* ===== verification/Grow.v ===== *)
(** * Writing into a hole

    [ext2_select_buffer] and [ext2_write] of [src/src/embext.c] when the cursor is
    in a direct block that the file does not have: a block is allocated, or the
    transfer fails. *)
From S2P Require Import Prelude Layout OnDisk Device Context Bitmap Super FileBuf Inode BlockMap Alloc FileIo.

(** The cursor is in direct block [idx] of the file, whose number is 0. *)
Record in_hole {D} (s : file_state D) (idx : Z) : Prop := {
  ho_cursor : 0 <= fe_cursor (s_fe s) < 4294967296;
  ho_index : fe_cursor (s_fe s) / bsz (c_ctx (s_c s)) = idx;
  ho_direct : idx < 12;
  ho_block : i_block (fe_inode (s_fe s)) !! Z.to_nat idx = Some 0
}.

Section grow_facts.
Context {D : Type} `{BlockDeviceLaws D}.
Implicit Types (s : file_state D).

(** In the direct blocks the code reads the inode only. *)
Lemma direct_block_run s off b :
  file_ok s -> 0 <= off < 4294967296 -> off / bsz (c_ctx (s_c s)) < 12 ->
  i_block (fe_inode (s_fe s)) !! Z.to_nat (off / bsz (c_ctx (s_c s))) = Some b ->
  ext2_block_from_offset off s = Ok (b, s).
Proof.
  intros Hs Hoff Hidx Hb.
  destruct (block_from_offset_path off (off / bsz (c_ctx (s_c s))) [] s Hs Hoff) as (b' & Hb' & _ & ->).
  - unfold block_path. by destruct (Z.ltb_spec (off / bsz (c_ctx (s_c s))) 12); [|lia].
  - cbn [follow_path]. by replace b' with b by congruence.
Qed.

(** The block before, which only the allocator is given. *)
Lemma previous_block_run s idx :
  file_ok s -> in_hole s idx ->
  exists p, ext2_block_from_offset
    (u64 ((Z.quot (fe_cursor (s_fe s)) (bsz (c_ctx (s_c s))) - 1) * bsz (c_ctx (s_c s)))) s = Ok (p, s).
Proof.
  intros Hs [Hcur Hidx Hdir _]. pose proof Hs as [[Hc _] _ _ Hi]. destruct (bsz_range _ Hc) as [Hbs _].
  rewrite Z.quot_div_nonneg, Hidx by lia. assert (0 <= idx) by (rewrite <- Hidx; apply Z.div_pos; lia).
  pose proof (Z.mul_div_le (fe_cursor (s_fe s)) (bsz (c_ctx (s_c s)))) as Hle. rewrite Hidx in Hle.
  destruct (decide (idx = 0)) as [->|Hne].
  - exists 4294967295. by apply block_before_first.
  - destruct (inode_block_lookup _ (idx - 1) Hi) as (p & Hp & _); [lia|]. exists p.
    rewrite u64_id by nia. apply direct_block_run; [done | nia | rewrite Z.div_mul; lia | by rewrite Z.div_mul by lia].
Qed.

(** What [ext2_select_buffer] does in a hole. *)
Lemma select_hole s idx :
  file_ok s -> in_hole s idx ->
  exists p, ext2_select_buffer s =
    (if has_flag (fe_flags (s_fe s)) EXT2_FLAG_WRITE then
       new_block ← ext2_allocate_block p;
       if negb (new_block =? 0) then
         put_i_block 0 new_block ;;
         ext2_load_buffer new_block (fe_cursor (s_fe s) mod bsz (c_ctx (s_c s))) ;;
         mret 0
       else mret (-1)
     else mret (-1)) s.
Proof.
  intros Hs Hh. destruct (previous_block_run s idx Hs Hh) as [p Hp]. exists p.
  pose proof Hs as [[Hc _] _ _ _]. destruct Hh as [Hcur Hidx Hdir Hb].
  unfold ext2_select_buffer, fe, fctx. rewrite !bind_gets. erewrite bind_lift by (by apply block_size_ok).
  rewrite (u64_id (fe_cursor (s_fe s))) by lia.
  erewrite bind_ok by (by apply (direct_block_run s (fe_cursor (s_fe s)) 0); [| |rewrite Hidx|rewrite Hidx]).
  erewrite bind_ok by exact Hp. cbn [Z.eqb negb].
  destruct (cursor_in_block _ _ Hc Hcur) as (-> & Hoff & _). rewrite u32_id by lia. done.
Qed.

(** The file after the block [n] was allocated, its number stored as that of the first block. *)
Definition grown s (n : Z) (bo : buffer_object) (b : list Z) : file_state D :=
  let c := c_ctx (s_c s) in
  mk_fst (upd_fe_inode (fun r => set_i_block (<[0%nat := n]> (i_block r)) r) (set_fe_buffer bo (s_fe s)))
    (mk_cst (upd_superblock (changed_sb EXT2_ALLOCATED) (set_sysbuf b c))
       (dev_put (view s) (claim_lba s n)
          (bit_put (bitmap_bit c n) true (dev_sector (view s) (claim_lba s n))))
       (c_errno (s_c s)) (c_tick (s_c s))).

Lemma claimed_sector_ok s g k :
  allocatable s g k -> let n := claimed_block s g k in
  in_volume (view s) (claim_lba s n) /\
  sector_ok (bit_put (bitmap_bit (c_ctx (s_c s)) n) true (dev_sector (view s) (claim_lba s n))).
Proof.
  intros [Hs _ _ _ _ _ _ _ _ [_ _ _ _ _ Hvl]] n. change (in_volume (view s) (claim_lba s n)) in Hvl.
  split; [done|]. destruct (dev_sector_ok _ _ (view_ok s Hs) Hvl) as [Hl Hby].
  pose proof (bitmap_bit_range (c_ctx (s_c s)) n). unfold BLOCK_SIZE in *.
  split; [by rewrite length_bit_put|]. apply bytes_ok_bit_put; [done | lia].
Qed.

Lemma grown_facts s g k bo b :
  allocatable s g k -> sector_ok (bo_buffer bo) -> bo_dirty bo = 0 -> sector_ok b ->
  let n := claimed_block s g k in
  let t := grown s n bo b in
  file_ok t /\ view t = c_dev (s_c t) /\ bsz (c_ctx (s_c t)) = bsz (c_ctx (s_c s)) /\
  (forall x off, block_lba (c_ctx (s_c t)) x off = block_lba (c_ctx (s_c s)) x off) /\
  (forall m, in_volume (view t) m <-> in_volume (view s) m) /\ 0 < n.
Proof.
  intros Hal Hbo Hcl Hb n t. destruct (claimed_sector_ok s g k Hal) as [Hv Hsec]. fold n in Hv, Hsec.
  pose proof (al_file _ _ _ Hal) as Hs. pose proof Hs as [[Hc Hd] _ _ Hi]. pose proof (view_ok s Hs) as Hvo.
  assert (Hn : 0 < n < 4294967296).
  { split; [|apply Hal]. destruct Hal as [_ _ [Hg _] _ _ Hk _ _ _ _]. unfold n, claimed_block.
    pose proof (ok_bpg _ Hc). nia. }
  assert (Hview : view t = c_dev (s_c t)) by (unfold view, t; cbn; by rewrite Hcl).
  split; [|split; [done|]].
  - split; cbn; [split | done | by rewrite Hcl | apply wf_upd_i_block; [done | unfold fits; lia]].
    + by apply changed_sb_ok, ctx_ok_set_sysbuf.
    + by apply dev_put_ok.
  - assert (Hlog : s_log_block_size (ctx_superblock (c_ctx (s_c t))) = s_log_block_size (ctx_superblock (c_ctx (s_c s))))
      by apply (changed_sb_fields EXT2_ALLOCATED).
    split; [unfold bsz; by rewrite Hlog|]. split; [intros x off; unfold block_lba, spb, bsz; by rewrite Hlog|].
    split; [|lia]. intros m. rewrite Hview. by apply dev_put_in_volume.
Qed.

(** The allocation succeeds: the buffer holds the sector of the new block under the cursor. *)
Lemma select_hole_allocates s idx g k :
  in_hole s idx -> has_flag (fe_flags (s_fe s)) EXT2_FLAG_WRITE = true -> allocatable s g k ->
  let n := claimed_block s g k in
  claim_taken s n = false -> in_volume (view s) (cursor_lba s n) ->
  exists bo b, sector_ok (bo_buffer bo) /\ bo_dirty bo = 0 /\ sector_ok b /\
    ext2_select_buffer s = Ok (0, buffered n (fe_cursor (s_fe s) mod bsz (c_ctx (s_c s))) (grown s n bo b)).
Proof.
  intros Hh Hw Hal n Hfree Hdata. pose proof (al_file _ _ _ Hal) as Hs.
  destruct (select_hole s idx Hs Hh) as [p Hsel]. rewrite Hw in Hsel.
  destruct (allocate_block_run s g k p Hal) as (bo & b & Hbo & Hcl & Hb & Hrun). fold n in Hrun. rewrite Hfree in Hrun.
  destruct (grown_facts s g k bo b Hal Hbo Hcl Hb) as (Hok & Hview & Hbsz & Hlba & Hvol & Hpos). fold n in Hok, Hview, Hvol, Hpos.
  exists bo, b. do 3 (split; [done|]). rewrite Hsel. erewrite bind_ok by exact Hrun.
  destruct (Z.eqb_spec n 0); [lia|]. cbn [negb]. unfold put_i_block. rewrite bind_modify.
  pose proof Hs as [[Hc _] _ _ _]. destruct (cursor_in_block _ _ Hc (ho_cursor _ _ Hh)) as (_ & Hoff & _).
  erewrite bind_ok; [reflexivity|].
  apply (load_buffer_run n _ (grown s n bo b)); [done | lia | lia |].
  rewrite Hlba, <- Hview. by apply Hvol.
Qed.

(** The allocation fails: the file's buffer is stored and nothing else happens. *)
Lemma select_hole_fails s idx g k :
  in_hole s idx -> has_flag (fe_flags (s_fe s)) EXT2_FLAG_WRITE = true -> allocatable s g k ->
  claim_taken s (claimed_block s g k) = true ->
  exists t, ext2_select_buffer s = Ok (-1, t) /\ c_dev (s_c t) = view s /\ view t = view s.
Proof.
  intros Hh Hw Hal Htaken. pose proof (al_file _ _ _ Hal) as Hs.
  destruct (select_hole s idx Hs Hh) as [p Hsel]. rewrite Hw in Hsel.
  destruct (allocate_block_run s g k p Hal) as (bo & b & Hbo & Hcl & Hb & Hrun). rewrite Htaken in Hrun.
  eexists. rewrite Hsel. split; [by erewrite bind_ok by exact Hrun|]. split; [done|].
  unfold view. cbn. by rewrite Hcl.
Qed.
End grow_facts.

(** * Properties *)
Section grow_properties.
Context {D : Type} `{Env, BlockDeviceLaws D}.
Implicit Types (s : file_state D).

(** A write to a hole is a write to the new block of the grown file. *)
Lemma hole_written bt s idx g k :
  open_file s -> writable s -> in_hole s idx -> allocatable s g k ->
  let n := claimed_block s g k in
  claim_taken s n = false -> in_volume (view s) (cursor_lba s n) -> bytes_ok bt -> (0 < length bt)%nat ->
  fe_cursor (s_fe s) mod 512 + Z.of_nat (length bt) <= 512 ->
  exists bo b s', sector_ok (bo_buffer bo) /\ bo_dirty bo = 0 /\ sector_ok b /\
    ext2_write bt s = Ok (Z.of_nat (length bt), s') /\ written bt n (grown s n bo b) s'.
Proof.
  intros Hf Hw Hh Hal n Hfree Hdata Hbt Hlen Hn. pose proof Hf as [Hs _]. pose proof (ho_cursor _ _ Hh) as Hcur.
  destruct (select_hole_allocates s idx g k Hh (proj1 Hw) Hal Hfree Hdata) as (bo & b & Hbo & Hcl & Hb & Hsel).
  destruct (grown_facts s g k bo b Hal Hbo Hcl Hb) as (Hok & Hview & Hbsz & Hlba & Hvol & Hpos).
  fold n in Hsel, Hok, Hview, Hbsz, Hlba, Hvol, Hpos. set (t := grown s n bo b) in *.
  assert (Hcl2 : cursor_lba t n = cursor_lba s n) by (unfold cursor_lba; rewrite Hlba, Hbsz; done).
  assert (Hdt : in_volume (view t) (cursor_lba t n)) by (rewrite Hcl2; by apply Hvol).
  exists bo, b. eexists. do 3 (split; [done|]). split.
  - rewrite write_start by done.
    assert (Hbuf : file_ok (buffered n (fe_cursor (s_fe s) mod bsz (c_ctx (s_c s))) t)).
    { apply buffered_ok; [done|]. rewrite Hview, Hcl2 in Hdt. rewrite Hlba. exact Hdt. }
    erewrite bind_ok by (apply (write_loop_selected (length bt) bt s _ Hsel Hbuf); done).
    cbn beta iota. pose proof (Z.mod_pos_bound (fe_cursor (s_fe s)) 512).
    destruct (Z.ltb_spec 0 (Z.of_nat (length bt))); [|lia]. rewrite s32_id by lia. reflexivity.
  - change (fe_cursor (s_fe (buffered _ _ t))) with (fe_cursor (s_fe t)).
    change (fe_cursor (s_fe s)) with (fe_cursor (s_fe t)). rewrite <- Hbsz.
    by apply (poked_written bt n t t).
Qed.

(** The device of the grown file. *)
Lemma grown_view s g k bo b m :
  allocatable s g k -> sector_ok (bo_buffer bo) -> bo_dirty bo = 0 -> sector_ok b -> in_volume (view s) m ->
  let n := claimed_block s g k in
  dev_sector (view (grown s n bo b)) m =
    if decide (m = claim_lba s n) then bit_put (bitmap_bit (c_ctx (s_c s)) n) true (dev_sector (view s) m)
    else dev_sector (view s) m.
Proof.
  intros Hal Hbo Hcl Hb Hm n. destruct (claimed_sector_ok s g k Hal) as [Hv Hsec]. fold n in Hv, Hsec.
  destruct (grown_facts s g k bo b Hal Hbo Hcl Hb) as (_ & Hview & _). fold n in Hview.
  rewrite Hview. unfold grown. cbn [s_c c_dev]. rewrite dev_put_sector; [by case_decide; subst | | done | done | done]. apply view_ok, Hal.
Qed.

Lemma written_to_hole bt s g k bo b s' :
  allocatable s g k -> sector_ok (bo_buffer bo) -> bo_dirty bo = 0 -> sector_ok b ->
  let n := claimed_block s g k in
  let lba := cursor_lba s n in
  in_volume (view s) lba -> lba <> claim_lba s n -> written bt n (grown s n bo b) s' ->
  file_ok s' /\ fe_cursor (s_fe s') = fe_cursor (s_fe s) + Z.of_nat (length bt) /\
  i_size (fe_inode (s_fe s')) =
    (if i_size (fe_inode (s_fe s)) <? fe_cursor (s_fe s) + Z.of_nat (length bt)
     then u32 (fe_cursor (s_fe s) + Z.of_nat (length bt)) else i_size (fe_inode (s_fe s))) /\
  i_block (fe_inode (s_fe s')) = <[0%nat := n]> (i_block (fe_inode (s_fe s))) /\
  has_flag (fe_flags (s_fe s')) EXT2_FLAG_FS_DIRTY = true /\
  forall m, in_volume (view s) m -> dev_sector (view s') m =
    if decide (m = lba) then splice (fe_cursor (s_fe s) mod 512) bt (dev_sector (view s) lba)
    else if decide (m = claim_lba s n) then bit_put (bitmap_bit (c_ctx (s_c s)) n) true (dev_sector (view s) m)
    else dev_sector (view s) m.
Proof.
  intros Hal Hbo Hcl Hb n lba Hdata Hne [Hok Hcur Hsize Hblk _ Hflag _ _ _ _ _ Hview].
  destruct (grown_facts s g k bo b Hal Hbo Hcl Hb) as (_ & _ & Hbsz & Hlba & Hvol & _). fold n in Hbsz, Hlba, Hvol.
  assert (Hclba : cursor_lba (grown s n bo b) n = lba) by (unfold cursor_lba; rewrite Hlba, Hbsz; done).
  change (fe_cursor (s_fe (grown s n bo b))) with (fe_cursor (s_fe s)) in *. rewrite Hclba in Hview.
  assert (Hino : i_size (fe_inode (s_fe (grown s n bo b))) = i_size (fe_inode (s_fe s)) /\
    i_block (fe_inode (s_fe (grown s n bo b))) = <[0%nat := n]> (i_block (fe_inode (s_fe s))))
    by (cbn; by destruct (fe_inode (s_fe s))).
  destruct Hino as [Hisz Hibl]. rewrite Hisz in Hsize. rewrite Hibl in Hblk. do 5 (split; [done|]).
  intros m Hm. rewrite Hview by (by apply Hvol). unfold n in *. case_decide; [|by rewrite grown_view].
  rewrite grown_view by done. by rewrite decide_False.
Qed.

(** C15: a write whose cursor is in a direct block the file does not have allocates a block. When the
    allocation succeeds the bytes are in the new block, in the sector under the cursor, the block's bit
    is set and no other sector changes; but the block becomes the file's first one, whatever the
    index the cursor is at: its old first block is lost and the hole stays. When the allocation fails
    the write returns -1 with EIO and changes nothing in the file's view. *)
Theorem write_into_hole bt s idx g k :
  let n := claimed_block s g k in
  let lba := cursor_lba s n in
  let len := Z.of_nat (length bt) in
  open_file s -> writable s -> in_hole s idx -> allocatable s g k ->
  in_volume (view s) lba -> lba <> claim_lba s n ->
  bytes_ok bt -> (0 < length bt)%nat -> fe_cursor (s_fe s) mod 512 + len <= 512 ->
  exists s', ext2_write bt s = Ok (if claim_taken s n then -1 else len, s') /\
    if claim_taken s n then c_errno (s_c s') = EIO /\ view s' = view s
    else
      file_ok s' /\ fe_cursor (s_fe s') = fe_cursor (s_fe s) + len /\
      i_size (fe_inode (s_fe s')) =
        (if i_size (fe_inode (s_fe s)) <? fe_cursor (s_fe s) + len then u32 (fe_cursor (s_fe s) + len)
         else i_size (fe_inode (s_fe s))) /\
      i_block (fe_inode (s_fe s')) = <[0%nat := n]> (i_block (fe_inode (s_fe s))) /\
      has_flag (fe_flags (s_fe s')) EXT2_FLAG_FS_DIRTY = true /\
      forall m, in_volume (view s) m -> dev_sector (view s') m =
        if decide (m = lba) then splice (fe_cursor (s_fe s) mod 512) bt (dev_sector (view s) lba)
        else if decide (m = claim_lba s n)
        then bit_put (bitmap_bit (c_ctx (s_c s)) n) true (dev_sector (view s) m)
        else dev_sector (view s) m.
Proof.
  intros n lba len Hf Hw Hh Hal Hdata Hne Hbt Hlen Hn. destruct (claim_taken s n) eqn:Htaken.
  - destruct (select_hole_fails s idx g k Hh (proj1 Hw) Hal Htaken) as (t & Hsel & Hdev & Hview).
    exists (set_c (set_errno EIO (s_c t)) t). split; [|split; [done | exact Hview]].
    rewrite write_start by done.
    rewrite (bind_ok _ _ s (true, 0) (set_c (set_errno EIO (s_c t)) t)); [done|].
    destruct bt as [|x bt]; [cbn in Hlen; lia|]. cbn [length write_loop].
    destruct (Z.ltb_spec 0 (Z.of_nat (S (length bt)))); [|lia]. by erewrite bind_ok by exact Hsel.
  - destruct (hole_written bt s idx g k Hf Hw Hh Hal Htaken Hdata Hbt Hlen Hn)
      as (bo & b & s' & Hbo & Hcl & Hb & Hrun & Hwr).
    exists s'. split; [exact Hrun|]. by apply (written_to_hole bt s g k bo b s' Hal Hbo Hcl Hb Hdata Hne).
Qed.

(** The first write to an empty file, which allocates its first block, is read back: after seeking to
    where the bytes were written a read returns them. *)
Lemma first_write_read_back bt s g k :
  let n := claimed_block s g k in
  let len := Z.of_nat (length bt) in
  open_file s -> writable s -> in_hole s 0 -> allocatable s g k ->
  claim_taken s n = false -> in_volume (view s) (cursor_lba s n) ->
  bytes_ok bt -> (0 < length bt)%nat -> fe_cursor (s_fe s) mod 512 + len <= 512 ->
  fe_cursor (s_fe s) + len < 2147483648 ->
  exists s1 s2 s3, ext2_write bt s = Ok (len, s1) /\
    ext2_lseek (fe_cursor (s_fe s)) SEEK_SET s1 = Ok (fe_cursor (s_fe s), s2) /\
    ext2_read len s2 = Ok ((len, bt), s3).
Proof.
  intros n len Hf Hw Hh Hal Htaken Hdata Hbt Hlen Hn Hmax.
  destruct (hole_written bt s 0 g k Hf Hw Hh Hal Htaken Hdata Hbt Hlen Hn)
    as (bo & b & s1 & Hbo & Hcl & Hb & Hrun & Hwr). fold n in Hwr.
  destruct (grown_facts s g k bo b Hal Hbo Hcl Hb) as (Hok & _ & Hbsz & Hlba & Hvol & Hpos).
  fold n in Hok, Hbsz, Hlba, Hvol, Hpos. set (t := grown s n bo b) in *.
  destruct Hh as [Hcur Hidx _ _]. pose proof Hf as [Hs Hm]. pose proof Hs as [[Hc _] _ _ [[Hl _] _]].
  destruct (bsz_range _ Hc) as [Hbs _].
  change (fe_cursor (s_fe s)) with (fe_cursor (s_fe t)) in *.
  destruct (read_back bt n t s1) as (s2 & s3 & Hseek & Hread); try done.
  - lia.
  - rewrite Hbsz. pose proof (Z.div_mod (fe_cursor (s_fe t)) (bsz (c_ctx (s_c s)))) as Hdm. rewrite Hidx in Hdm.
    pose proof (Z.mod_pos_bound (fe_cursor (s_fe t)) (bsz (c_ctx (s_c s)))). lia.
  - rewrite Hbsz, Hidx. unfold t. cbn [grown s_fe fe_inode upd_fe_inode set_fe_buffer].
    replace (i_block (set_i_block _ _)) with (<[0%nat := n]> (i_block (fe_inode (s_fe s))))
      by (by destruct (fe_inode (s_fe s))).
    apply list_lookup_insert_eq. lia.
  - unfold cursor_lba. rewrite Hlba, Hbsz. by apply Hvol.
  - by exists s1, s2, s3.
Qed.

(** A file that is not open for writing has nothing in a hole: a read there fails with EIO. *)
Lemma read_hole_fails count s idx :
  open_file s -> in_hole s idx -> has_flag (fe_flags (s_fe s)) EXT2_FLAG_WRITE = false ->
  0 < count -> fe_cursor (s_fe s) < i_size (fe_inode (s_fe s)) ->
  ext2_read count s = Ok ((-1, []), set_c (set_errno EIO (s_c s)) s).
Proof.
  intros [Hs Hm] Hh Hw Hcount Hlt. destruct (select_hole s idx Hs Hh) as [p Hsel]. rewrite Hw in Hsel.
  unfold ext2_read. rewrite with_magic_run by done. rewrite (bind_ok _ _ s (true, 0, []) (set_c (set_errno EIO (s_c s)) s)); [done|].
  destruct (Z.to_nat count) eqn:Hc; [lia|]. cbn [read_loop]. destruct (Z.ltb_spec 0 count); [|lia].
  unfold fe. rewrite bind_gets. destruct (Z.leb_spec (i_size (fe_inode (s_fe s))) (fe_cursor (s_fe s))); [lia|].
  by erewrite bind_ok by exact Hsel.
Qed.
End grow_properties.
