(* ===== verification/Directory.v ===== *)
(** * Directories, and opening files by path

    [ext2_readdir], [ext2_lookup_path] and [ext2_open] of [src/src/embext.c] and
    [ext2_append_to_directory] of [src/src/embext_directory.c]. *)
From S2P Require Import Prelude Layout OnDisk Device Context FileBuf Inode BlockMap Alloc FileIo.

(** Constants of the C library, with their values on Linux. *)
Definition O_WRONLY : Z := 1.
Definition O_RDWR : Z := 2.
Definition O_CREAT : Z := 64.
Definition O_EXCL : Z := 128.
Definition O_TRUNC : Z := 512.
Definition O_APPEND : Z := 1024.

Definition MAX_PATH_LEN : Z := 1024.
Definition MAX_PATH_LEVELS : Z := 100.

(** [struct dirent]. The code has one static variable of this type and returns a pointer to it;
    here its value is passed from call to call. *)
Record dirent : Type := mk_dirent {
  d_ino : Z;           (** int *)
  d_name : list Z      (** char[256] *)
}.

(** The string in a character array, and a string as an argument: bytes up to the first zero. *)
Fixpoint c_string (l : list Z) : list Z :=
  match l with
  | [] => []
  | b :: l' => if b =? 0 then [] else b :: c_string l'
  end.

(** [strtok] with the separator ["/"]: the maximal runs of other characters. *)
Fixpoint tokens (cur path : list Z) : list (list Z) :=
  match path with
  | [] => match cur with [] => [] | _ => [cur] end
  | b :: path' =>
      if b =? 47 then
        match cur with [] => tokens [] path' | _ => cur :: tokens [] path' end
      else tokens (cur ++ [b]) path'
  end.

(** The elements of a path: of its first 1023 characters, the first 100 tokens. *)
Definition path_elements (path : list Z) : list (list Z) :=
  take (Z.to_nat MAX_PATH_LEVELS) (tokens [] (take (Z.to_nat (MAX_PATH_LEN - 1)) path)).

(** [int] addition. *)
Definition int_sum (a b : Z) : res Z :=
  if decide (-2147483648 <= a + b <= 2147483647) then Ok (a + b) else Fault BadShift.

(** An [int] in memory after the bytes [bs] were written from its first byte on. *)
Definition write_int (v : Z) (bs : list Z) : Z :=
  match bs with
  | [] => v
  | _ => s32 (le_to_Z (bs ++ drop (length bs) (Z_to_le 4 (u32 v))))
  end.

Section directory_ops.
Context {D : Type} `{Env, BlockDevice D}.

(** Whether an entry was returned, and the static variable. *)
Definition ext2_readdir (de : dirent) : M (file_state D) (bool * dirent) :=
  '(rc, bs) ← ext2_read 4;
  let de := mk_dirent (write_int (d_ino de) bs) (d_name de) in
  if rc <? 4 then mret (false, de)
  else
    '(rc, bs) ← ext2_read 2;
    if rc <? 2 then mret (false, de)
    else
      let rec_len := le_to_Z bs in
      '(rc, bs) ← ext2_read 1;
      if rc <? 1 then mret (false, de)
      else
        let name_len := le_to_Z bs in
        '(rc, _) ← ext2_read 1;
        if rc <? 1 then mret (false, de)
        else if 0 <? d_ino de then
          '(_, name) ← ext2_read name_len;
          l ← lift (mem_write (d_name de) 0 name);
          l ← lift (mem_write l name_len [0]);
          ext2_lseek (rec_len - 8 - name_len) SEEK_CUR ;;
          mret (true, mk_dirent (d_ino de) l)
        else mret (false, de).

(** The loop of [ext2_lookup_path] over the entries of one directory. A directory whose record
    lengths move the cursor backwards keeps it running, so it has fuel. *)
Fixpoint find_entry (fuel : nat) (name : list Z) (de : dirent) : M (file_state D) (bool * dirent) :=
  '(found, de) ← ext2_readdir de;
  if negb found then mret (false, de)
  else if bool_decide (c_string (d_name de) = name) then mret (true, de)
  else
    match fuel with
    | O => throw OutOfFuel
    | S fuel' => find_entry fuel' name de
    end.

(** The loop over the elements; the inode number is a [uint32_t], the result an [int]. *)
Fixpoint lookup_elements (fuel : nat) (ino : Z) (elements : list (list Z)) (de : dirent) :
    M (file_state D) (Z * dirent) :=
  match elements with
  | [] => mret (s32 ino, de)
  | e :: elements' =>
      rc ← ext2_open_inode ino;
      if negb (rc =? 0) then rerrno ENOENT ;; mret (-1, de)
      else
        '(found, de) ← find_entry fuel e de;
        if negb found then rerrno ENOENT ;; mret (-1, de)
        else lookup_elements fuel (u32 (d_ino de)) elements' de
  end.

Definition ext2_lookup_path (fuel : nat) (path : list Z) (de : dirent) : M (file_state D) (Z * dirent) :=
  lookup_elements fuel EXT2_ROOT_INO (path_elements path) de.

(** ** Appending an entry *)

(** [ext2_close(fe, &i)]: the error number goes to a variable that is not used. *)
Definition close_quietly : M (file_state D) unit :=
  e ← gets (fun s => c_errno (s_c s));
  ext2_close ;;
  rerrno e.

(** The [do ... while] loop that walks the records of the last block: [None] after an early
    return, else the offset of the last record and its header. *)
Fixpoint last_record (fuel : nat) (block_size last_block this_offset : Z) (h : ext2_dir_header) :
    M (file_state D) (option (Z * ext2_dir_header)) :=
  let this_offset := this_offset + dh_rec_len h in
  pos ← ext2_lseek (last_block + this_offset) SEEK_SET;
  if negb (pos =? last_block + this_offset) then close_quietly ;; mret None
  else
    '(rc, bs) ← ext2_read (sizeof ext2_dir_header);
    if negb (rc =? sizeof ext2_dir_header) then close_quietly ;; mret None
    else
      let h := decode bs in
      if this_offset + dh_rec_len h <? block_size then
        match fuel with
        | O => throw OutOfFuel
        | S fuel' => last_record fuel' block_size last_block this_offset h
        end
      else mret (Some (this_offset, h)).

Definition padded_len (n : Z) : Z := (n / 4 + (if n mod 4 =? 0 then 0 else 1)) * 4 + 8.

(** The part of [ext2_append_to_directory] after the directory was opened. *)
Definition append_entry (fuel : nat) (ino : Z) (filename : list Z) : M (file_state D) Z :=
  c ← fctx;
  block_size ← lift (ext2_block_size c);
  file_length ← ext2_lseek 0 SEEK_END;
  if negb (Z.rem file_length block_size =? 0) then
    rerrno ENOENT ;; ext2_close ;; mret (-1)
  else
    last_block ← lift (int_sum file_length (- block_size));
    if last_block <? 0 then rerrno EIO ;; ext2_close ;; mret (-1)
    else
      last ← last_record fuel block_size last_block 0 (mk_dir_header 0 0 0 0);
      match last with
      | None => mret (-1)
      | Some (this_offset, h) =>
          let minimum_old_entry_len := padded_len (dh_name_len h) in
          let len := Z.of_nat (length filename) in
          let minimum_new_entry_len := padded_len len in
          (if minimum_new_entry_len <? dh_rec_len h - minimum_old_entry_len then
             ext2_lseek (this_offset + last_block) SEEK_SET ;;
             ext2_write (encode (mk_dir_header (dh_inode h) (u16 minimum_old_entry_len)
               (dh_name_len h) (dh_file_type h))) ;;
             let this_offset := this_offset + u16 minimum_old_entry_len in
             position ← lift (int_sum this_offset last_block);
             ext2_lseek position SEEK_SET ;;
             ext2_write (encode (mk_dir_header ino (u16 (block_size - this_offset)) (u8 len) 0)) ;;
             ext2_write filename
           else
             ext2_lseek 0 SEEK_END ;;
             for_loop (B := unit) (Z.to_nat (block_size / 128)) 0 (fun _ =>
               ext2_write (replicate 128 0) ;; mret None) ;;
             ext2_lseek (- block_size) SEEK_END ;;
             ext2_write (encode (mk_dir_header ino (u16 block_size) (u8 len) 0)) ;;
             ext2_write filename) ;;
          ext2_close ;;
          mret 0
      end.

(** ** Opening *)

(** A file as [memset] leaves it, with its magic number. *)
Definition zeroed_file : file_ent :=
  mk_fe EMBEXT_MAGIC 0 0 0 (mk_buffer (replicate 512 0) 0 0) (decode (replicate 128 0)) ENONE.

(** [name[..i]] and [name[i+1..]] for the last separator [i] of the name. *)
Fixpoint split_last (name : list Z) : option (list Z * list Z) :=
  match name with
  | [] => None
  | b :: name' =>
      match split_last name' with
      | Some (path, last) => Some (b :: path, last)
      | None => if b =? 47 then Some ([], name') else None
      end
  end.

(** The flags of the open file that the mode of access sets. *)
Definition access_flags (flags fe_flags : Z) : Z :=
  let f :=
    if has_flag flags O_RDWR then Z.lor fe_flags (Z.lor EXT2_FLAG_READ EXT2_FLAG_WRITE)
    else if has_flag flags O_WRONLY then Z.lor fe_flags EXT2_FLAG_WRITE
    else Z.lor fe_flags EXT2_FLAG_READ in
  if has_flag flags O_APPEND then Z.lor f EXT2_FLAG_APPEND else f.

(** The inode of a new file. *)
Definition new_inode (mode atime ctime mtime : Z) : inode :=
  mk_inode (u16 (Z.lor mode EXT2_S_IFREG)) (u16 env_uid) 0 atime ctime mtime 0 (u16 env_gid) 1 0 0 0
    (replicate 15 0) 0 0 0 0 (replicate 12 0).

(** [ext2_append_to_directory] as [ext2_open] calls it. *)
Definition appender : Type := list Z -> Z -> list Z -> dirent -> M (cst D) (Z * dirent).

(** The branch that creates the file; the result says whether the file is returned or freed. *)
Definition open_create (append : appender) (name : list Z) (mode : Z) (de : dirent) :
    M (file_state D) (bool * dirent) :=
  c ← fctx;
  if negb (read_only c =? 0) then rerrno EROFS ;; mret (false, de)
  else
    rc ← ext2_allocate_inode;
    if negb (rc =? 0) then
      f ← fe;
      rerrno (fe_rerrno f) ;; mret (false, de)
    else
      match split_last name with
      | None => rerrno ENOENT ;; mret (false, de)
      | Some (local_path, local_name) =>
          m1 ← on_ctx malloc;
          m2 ← on_ctx malloc;
          if negb (m1 && m2) then throw NullDeref
          else
            f ← fe;
            '(rc, de) ← on_ctx (append local_path (fe_inode_number f) local_name de);
            if negb (rc =? 0) then mret (false, de)
            else
              atime ← on_ctx time;
              ctime ← on_ctx time;
              mtime ← on_ctx time;
              modify (upd_fe (upd_fe_inode (fun _ => new_inode mode atime ctime mtime))) ;;
              modify (upd_fe (set_fe_cursor 0)) ;;
              modify (upd_fe (fun f => set_fe_flags (Z.lor (fe_flags f) EXT2_FLAG_FS_DIRTY) f)) ;;
              ext2_flush_inode ;;
              mret (true, de)
      end.

(** The branch of an existing file. *)
Definition open_existing (flags internal_call : Z) : M (file_state D) bool :=
  f ← fe;
  c ← fctx;
  if has_flag flags O_CREAT && has_flag flags O_EXCL then rerrno EEXIST ;; mret false
  else if negb (has_flag flags (Z.lor O_WRONLY O_RDWR)) then mret true
  else if negb (read_only c =? 0) then rerrno EROFS ;; mret false
  else if has_flag (i_mode (fe_inode f)) EXT2_S_IFDIR && (internal_call =? 0) then
    rerrno EISDIR ;; mret false
  else
    (if has_flag flags O_TRUNC then
       ext2_truncate_file ;;
       modify (upd_fe (set_fe_cursor 0))
     else mret tt) ;;
    mret true.

Definition open_body (append : appender) (fuel : nat) (name : list Z)
    (flags mode : Z) (de : dirent) : M (file_state D) (bool * dirent) :=
  let internal_call := Z.land mode 512 in
  let mode := Z.land mode 511 in
  '(ino, de) ← ext2_lookup_path fuel name de;
  i ← ext2_open_inode (u32 ino);
  modify (upd_fe (fun f => set_fe_flags (access_flags flags (fe_flags f)) f)) ;;
  e ← gets (fun s => c_errno (s_c s));
  if (i =? -1) && bool_decide (e = ENOENT) then
    if negb (has_flag flags O_CREAT) then rerrno ENOENT ;; mret (false, de)
    else open_create append name mode de
  else if i =? 0 then keep ← open_existing flags internal_call; mret (keep, de)
  else mret (false, de).

(** Runs an operation on an open file that is not used afterwards. *)
Definition run_file {A} (f : file_ent) (m : M (file_state D) A) : M (cst D) A := fun c =>
  match m (mk_fst f c) with
  | Ok (a, s) => Ok (a, s_c s)
  | Fault e => Fault e
  end.

(** [ext2_open] allocates the file, and frees it when the body does not keep it. *)
Definition open_with (append : appender) (fuel : nat) (name : list Z) (flags mode : Z) (de : dirent) :
    M (cst D) (handle * dirent) :=
  m ← malloc;
  if negb m then modify (set_errno ENOMEM) ;; mret (NullFile, de)
  else
    run_file zeroed_file
      ('(keep, de) ← open_body append fuel name flags mode de;
       f ← fe;
       mret (if (keep : bool) then OpenFile f else NullFile, de)).

(** [ext2_append_to_directory] in terms of the [ext2_open] it calls. *)
Definition append_with (open : list Z -> Z -> Z -> dirent -> M (cst D) (handle * dirent)) (fuel : nat) :
    appender := fun directory ino filename de =>
  '(h, de) ← open directory O_RDWR 1023 de;
  match h with
  | OpenFile f => rc ← run_file f (append_entry fuel ino filename); mret (rc, de)
  | _ => mret (-1, de)
  end.

(** [ext2_open] and [ext2_append_to_directory] call each other: a creation appends an entry to a
    directory that is opened without creating it, so the calls are at most two deep. *)
Fixpoint ext2_open_rec (depth fuel : nat) (name : list Z) (flags mode : Z) (de : dirent) :
    M (cst D) (handle * dirent) :=
  open_with
    match depth with
    | O => fun _ _ _ _ => throw OutOfFuel
    | S depth' => append_with (ext2_open_rec depth' fuel) fuel
    end fuel name flags mode de.

Definition ext2_open (fuel : nat) (name : list Z) (flags mode : Z) (de : dirent) :
    M (cst D) (handle * dirent) := ext2_open_rec 1 fuel name flags mode de.
Definition ext2_append_to_directory (fuel : nat) : appender := append_with (ext2_open fuel) fuel.
End directory_ops.

Lemma new_inode_wf `{Env} mode a c m :
  0 <= a < 4294967296 -> 0 <= c < 4294967296 -> 0 <= m < 4294967296 -> cs_wf (new_inode mode a c m).
Proof.
  intros Ha Hc Hm. split; [done|]. unfold new_inode. cbn.
  assert (forall w, fits w 0) by (intros w; split; [done | apply Z.pow_pos_nonneg; lia]).
  assert (fits 2 1) by (split; [done | by vm_compute]).
  repeat (apply Forall2_cons_2; [first [done | apply u16_range]|]). apply Forall2_nil_2.
Qed.

(** * Facts *)

Lemma int_sum_ok a b : -2147483648 <= a + b <= 2147483647 -> int_sum a b = Ok (a + b).
Proof. intros Hab. unfold int_sum. by rewrite decide_True. Qed.

Lemma write_int_all v bs : length bs = 4%nat -> write_int v bs = s32 (le_to_Z bs).
Proof. intros Hl. destruct_length Hl. done. Qed.

(** ** Paths *)

(** A path element: not empty, no separator, no terminating zero. *)
Definition is_element (e : list Z) : Prop := e <> [] /\ Forall (fun b => b <> 47 /\ b <> 0) e.

(** The absolute path of a list of elements. *)
Definition join_path (es : list (list Z)) : list Z := flat_map (fun e => 47 :: e) es.

Lemma tokens_run cur e rest :
  Forall (fun b => b <> 47) e -> tokens cur (e ++ rest) = tokens (cur ++ e) rest.
Proof.
  revert cur. induction e as [|b e IH]; intros cur Hall; cbn.
  - by rewrite app_nil_r.
  - inversion Hall as [|? ? Hb He]; subst. destruct (Z.eqb_spec b 47); [done|].
    rewrite IH by done. by rewrite <- app_assoc.
Qed.

Lemma element_no_separator e : is_element e -> Forall (fun b => b <> 47) e.
Proof. intros [_ He]. eapply Forall_impl; [|exact He]. by intros b [? _]. Qed.

Lemma tokens_join_path es cur :
  Forall is_element es -> tokens cur (join_path es) = match cur with [] => es | _ => cur :: es end.
Proof.
  intros Hes. revert cur. induction Hes as [|e es He Hes IH]; intros cur.
  - by destruct cur.
  - cbn [join_path flat_map app tokens Z.eqb Pos.eqb].
    assert (Hrest : tokens [] (e ++ flat_map (fun e => 47 :: e) es) = e :: es).
    { rewrite tokens_run by (by apply element_no_separator). cbn [app].
      change (flat_map (fun e => 47 :: e) es) with (join_path es). rewrite IH.
      destruct He as [Hne _]. by destruct e. }
    rewrite Hrest. by destruct cur.
Qed.

(** Tokens are elements when the path is a C string. *)
Lemma tokens_elements cur path :
  Forall (fun b => b <> 47 /\ b <> 0) cur -> Forall (fun b => b <> 0) path ->
  Forall is_element (tokens cur path).
Proof.
  intros Hcur Hp. revert cur Hcur. induction Hp as [|b path Hb Hp IH]; intros cur Hcur; cbn.
  - destruct cur; constructor; [by split | constructor].
  - destruct (Z.eqb_spec b 47) as [->|Hne].
    + destruct cur; [by apply IH|]. constructor; [by split | by apply IH].
    + apply IH, Forall_app. split; [done|]. by repeat constructor.
Qed.

(** ** Entry names *)
Lemma c_string_app_zero l rest : c_string (l ++ 0 :: rest) = c_string l.
Proof. induction l as [|b l IH]; cbn; [done|]. destruct (b =? 0); [done | by rewrite IH]. Qed.

(** The name copied to the front of the array and terminated. *)
Lemma terminated_name (name dn : list Z) :
  (length name < length dn)%nat ->
  exists l1 l, mem_write dn 0 name = Ok l1 /\ mem_write l1 (Z.of_nat (length name)) [0] = Ok l /\
    length l = length dn /\ c_string l = c_string name.
Proof.
  intros Hlen. eexists _, _. split; [apply mem_write_ok; lia|].
  assert (Hl1 : length (splice 0 name dn) = length dn) by (apply length_splice; lia).
  split; [apply mem_write_ok; cbn [length]; lia|].
  split; [rewrite length_splice; cbn [length]; lia|].
  unfold splice. rewrite Nat2Z.id. cbn [Z.to_nat take app length Nat.add].
  change (take (Z.to_nat 0) dn) with (@nil Z). cbn [app]. rewrite take_app_length.
  apply c_string_app_zero.
Qed.

(** ** The recursion of [ext2_open] *)
Section open_facts.
Context {D : Type} `{Env, BlockDevice D}.
Implicit Types (s : file_state D) (c : cst D) (a : appender (D := D)).

Lemma run_file_ext {A} f (m m' : M (file_state D) A) c :
  (forall s, m s = m' s) -> run_file f m c = run_file f m' c.
Proof. intros Hm. unfold run_file. by rewrite Hm. Qed.

(** A file opened without [O_CREAT] needs no append. *)
Lemma open_with_no_create a a' fuel name flags mode de c :
  has_flag flags O_CREAT = false ->
  open_with a fuel name flags mode de c = open_with a' fuel name flags mode de c.
Proof.
  intros Hflag. unfold open_with. apply bind_ext. intros m t. destruct m; [|done]. cbn [negb].
  apply run_file_ext. intros s. unfold open_body.
  assert (Hb : forall A (m m' : M (file_state D) A) (k : A -> M (file_state D) (handle * dirent)),
    (forall s, m s = m' s) -> (m ≫= k) s = (m' ≫= k) s)
    by (intros A m1 m2 k Hm; unfold mbind, M_bind; by rewrite Hm).
  apply Hb. intros s0. apply bind_ext. intros [ino de'] t1. apply bind_ext. intros i t2.
  apply bind_ext. intros [] t3. apply bind_ext. intros e t4.
  destruct ((i =? -1) && bool_decide (e = ENOENT)); [|done]. by rewrite Hflag.
Qed.

Lemma open_with_ext a a' fuel name flags mode de c :
  (forall d i n e c', a d i n e c' = a' d i n e c') ->
  open_with a fuel name flags mode de c = open_with a' fuel name flags mode de c.
Proof.
  intros Ha. unfold open_with. apply bind_ext. intros m t. destruct m; [|done]. cbn [negb].
  apply run_file_ext. intros s. unfold open_body.
  assert (Hb : forall A B (m m' : M (file_state D) A) (k : A -> M (file_state D) B) s,
    (forall s, m s = m' s) -> (m ≫= k) s = (m' ≫= k) s)
    by (intros A B m1 m2 k s1 Hm; unfold mbind, M_bind; by rewrite Hm).
  apply Hb. intros s0. apply bind_ext. intros [ino de'] t1. apply bind_ext. intros i t2.
  apply bind_ext. intros [] t3. apply bind_ext. intros e t4.
  destruct ((i =? -1) && bool_decide (e = ENOENT)); [|done].
  destruct (negb (has_flag flags O_CREAT)); [done|]. unfold open_create.
  apply bind_ext. intros cx t5. destruct (negb (read_only cx =? 0)); [done|].
  apply bind_ext. intros rc t6. destruct (negb (rc =? 0)); [done|].
  destruct (split_last name) as [[lp ln]|]; [|done].
  apply bind_ext. intros m1 t7. apply bind_ext. intros m2 t8. destruct (negb (m1 && m2)); [done|].
  apply bind_ext. intros f t9. apply Hb. intros s1. unfold on_ctx, zoom. by rewrite Ha.
Qed.

Lemma append_with_ext open open' fuel d i n e c :
  (forall name flags mode de c', has_flag flags O_CREAT = false ->
     open name flags mode de c' = open' name flags mode de c') ->
  append_with (D := D) open fuel d i n e c = append_with open' fuel d i n e c.
Proof.
  intros Ho. unfold append_with, mbind, M_bind. by rewrite Ho.
Qed.
End open_facts.

(** * Properties *)

(** C27: the path parser of [ext2_lookup_path] splits every absolute path of at most 1023 characters
    and 100 elements into exactly its elements, and whatever the string, each element it yields is
    not empty and has no separator. *)
Theorem path_elements_spec (es : list (list Z)) (path : list Z) :
  Forall is_element es -> (length (join_path es) <= 1023)%nat -> (length es <= 100)%nat ->
  Forall (fun b => b <> 0) path ->
  path_elements (join_path es) = es /\
  Forall is_element (path_elements path) /\ (length (path_elements path) <= 100)%nat.
Proof.
  intros Hes Hlen Hcount Hpath. unfold path_elements.
  change (Z.to_nat MAX_PATH_LEVELS) with 100%nat. change (Z.to_nat (MAX_PATH_LEN - 1)) with 1023%nat.
  split; [|split].
  - rewrite (take_ge (join_path es)), tokens_join_path by done. by apply take_ge.
  - apply Forall_take, tokens_elements; [done|]. by apply Forall_take.
  - rewrite length_take. lia.
Qed.

Section directory_properties.
Context {D : Type} `{Env, BlockDeviceLaws D}.
Implicit Types (s : file_state D).

(** C28: [ext2_open] and [ext2_append_to_directory] call each other at most once: a deeper recursion
    gives the same result on every argument and every state. *)
Theorem open_depth_enough n fuel name flags mode de (c : cst D) :
  ext2_open_rec (S n) fuel name flags mode de c = ext2_open fuel name flags mode de c.
Proof.
  unfold ext2_open. cbn [ext2_open_rec]. apply open_with_ext. intros d i nm e c'.
  apply append_with_ext. intros name' flags' mode' de' c'' Hflag.
  destruct n; cbn [ext2_open_rec]; by apply open_with_no_create.
Qed.

(** The header of the record at the cursor, and the name behind it. *)
Definition record_header s (b : Z) : ext2_dir_header := decode (cursor_bytes s b 8).
Definition record_name s (b : Z) : list Z :=
  slice (fe_cursor (s_fe s) mod 512 + 8) (dh_name_len (record_header s b))
    (dev_sector (view s) (cursor_lba s b)).

(** The members of the header where [ext2_readdir] reads them. *)
Lemma record_fields b s :
  open_file s -> block_ready s b -> fe_cursor (s_fe s) mod 512 + 8 <= 512 ->
  let h := record_header s b in
  let sector := dev_sector (view s) (cursor_lba s b) in
  let off := fe_cursor (s_fe s) mod 512 in
  cs_wf h /\ length (slice off 4 sector) = 4%nat /\ le_to_Z (slice off 4 sector) = dh_inode h /\
  le_to_Z (slice (off + 4) 2 sector) = dh_rec_len h /\
  le_to_Z (slice (off + 6) 1 sector) = dh_name_len h.
Proof.
  intros [Hs _] Hr Hoff h sector off. pose proof (Z.mod_pos_bound (fe_cursor (s_fe s)) 512) as Hp.
  pose proof (dev_sector_ok _ _ (view_ok s Hs) (br_data _ _ Hr)) as [Hlen Hb]. unfold BLOCK_SIZE in Hlen.
  assert (Hsl : forall a n, 0 <= a -> 0 <= n -> a + n <= 8 ->
    slice a n (cursor_bytes s b 8) = slice (off + a) n sector)
    by (intros a n Ha Hn Han; apply slice_slice; lia).
  split; [|split; [change (Z.of_nat (length sector) = 512) in Hlen; rewrite length_slice; [done | unfold off; lia | lia | unfold off; lia] | split; [|split]]].
  - apply decode_wf; [by apply bytes_ok_slice|]. unfold cursor_bytes, cursor_lba.
    rewrite length_slice by lia. done.
  - rewrite <- (Z.add_0_r off), <- Hsl by lia. symmetry.
    by apply (decode_field (T := ext2_dir_header) 0 4 0 (cursor_bytes s b 8)).
  - rewrite <- Hsl by lia. symmetry.
    by apply (decode_field (T := ext2_dir_header) 1 2 4 (cursor_bytes s b 8)).
  - rewrite <- Hsl by lia. symmetry.
    by apply (decode_field (T := ext2_dir_header) 2 1 6 (cursor_bytes s b 8)).
Qed.

(** The name is read whole, also when it is empty. *)
Lemma read_name b s t :
  open_file s -> block_ready s b -> moved_by 8 s t ->
  let len := dh_name_len (record_header s b) in
  0 <= len -> fe_cursor (s_fe s) mod 512 + 8 + len <= 512 ->
  fe_cursor (s_fe s) + 8 + len <= i_size (fe_inode (s_fe s)) ->
  exists t', ext2_read len t = Ok ((len, record_name s b), t') /\ moved_by (8 + len) s t' /\
    Z.of_nat (length (record_name s b)) = len.
Proof.
  intros Ho Hr Hm len Hl Hoff Hsize. pose proof (Z.mod_pos_bound (fe_cursor (s_fe s)) 512) as Hp.
  pose proof (dev_sector_ok _ _ (view_ok s (proj1 Ho)) (br_data _ _ Hr)) as [Hlen _]. unfold BLOCK_SIZE in Hlen.
  assert (Hname : Z.of_nat (length (record_name s b)) = len).
  { unfold record_name, cursor_lba. rewrite length_slice by (fold len; lia). fold len. lia. }
  destruct (decide (len = 0)) as [Hz|Hnz].
  - exists t. rewrite Hz in Hname |- *. split; [|by rewrite Z.add_0_r].
    assert (record_name s b = []) as -> by (apply nil_length_inv; lia).
    apply read_end_run; [apply Hm | done | by left].
  - destruct (read_at_offset 8 len b s t Ho Hr Hm) as (t' & Hrun & Hm'); [lia..|].
    exists t'. done.
Qed.

(** A record in use under the cursor, header and name inside one sector of mapped block [b]. *)
Record record_here s (b : Z) : Prop := {
  rh_ready : block_ready s b;
  rh_ino : 0 < dh_inode (record_header s b) < 2147483648;
  rh_header : fe_cursor (s_fe s) mod 512 + 8 <= 512;
  rh_name : fe_cursor (s_fe s) mod 512 + 8 + dh_name_len (record_header s b) <= 512;
  rh_size : fe_cursor (s_fe s) + 8 + dh_name_len (record_header s b) <= i_size (fe_inode (s_fe s))
}.

Lemma readdir_run b s de :
  open_file s -> record_here s b -> length (d_name de) = 256%nat ->
  let h := record_header s b in
  exists s' de', ext2_readdir de s = Ok ((true, de'), s') /\ moved_by (dh_rec_len h) s s' /\
    d_ino de' = dh_inode h /\ c_string (d_name de') = c_string (record_name s b) /\
    length (d_name de') = 256%nat.
Proof.
  intros Ho [Hr Hino Hoff8 Hoff Hsize] Hde h. fold h in Hino, Hoff, Hsize. pose proof Ho as [Hs _]. pose proof (br_cursor _ _ Hr) as Hcur.
  pose proof (Z.mod_pos_bound (fe_cursor (s_fe s)) 512) as Hp.
  destruct (record_fields b s Ho Hr Hoff8) as (Hwf & Hf_four & Hf_ino & Hf_rec & Hf_len).
  fold h in Hwf, Hf_ino, Hf_rec, Hf_len.
  assert (Hnl : 0 <= dh_name_len h < 256) by (apply (cs_wf_lookup h 2 1 _ Hwf); by cbn).
  assert (Hrl : 0 <= dh_rec_len h < 65536) by (apply (cs_wf_lookup h 1 2 _ Hwf); by cbn).
  unfold ext2_readdir. pose proof (moved_by_refl s Ho) as Hm0.
  destruct (read_at_offset 0 4 b s s Ho Hr Hm0) as (s1 & Hr1 & Hm1); [lia.. |].
  rewrite Z.add_0_r, Z.add_0_l in *. erewrite bind_ok by exact Hr1. cbn beta iota. rewrite Z.ltb_irrefl.
  destruct (read_at_offset 4 2 b s s1 Ho Hr Hm1) as (s2 & Hr2 & Hm2); [lia.. |].
  erewrite bind_ok by exact Hr2. cbn beta iota. rewrite Z.ltb_irrefl.
  destruct (read_at_offset 6 1 b s s2 Ho Hr Hm2) as (s3 & Hr3 & Hm3); [lia.. |].
  erewrite bind_ok by exact Hr3. cbn beta iota. rewrite Z.ltb_irrefl.
  destruct (read_at_offset 7 1 b s s3 Ho Hr Hm3) as (s4 & Hr4 & Hm4); [lia.. |].
  erewrite bind_ok by exact Hr4. cbn beta iota. rewrite Z.ltb_irrefl. cbn [d_ino d_name].
  rewrite write_int_all by exact Hf_four.
  rewrite Hf_ino, Hf_rec, Hf_len, s32_id by lia. destruct (Z.ltb_spec 0 (dh_inode h)); [|lia].
  destruct (read_name b s s4 Ho Hr Hm4 (proj1 Hnl) Hoff Hsize) as (t & Hrt & Hmt & Hnamelen).
  fold h in Hrt, Hmt, Hnamelen.
  erewrite bind_ok by exact Hrt. cbn beta iota.
  destruct (terminated_name (record_name s b) (d_name de)) as (l1 & l & Hw1 & Hw2 & Hlen & Hstr);
    [lia|].
  rewrite Hnamelen in Hw2. rewrite (bind_lift _ _ _ _ Hw1), (bind_lift _ _ _ _ Hw2).
  destruct Hmt as [Hot Hct Hvt Hxt Hst Hbt Hclt].
  assert (Hseek : ext2_lseek (dh_rec_len h - 8 - dh_name_len h) SEEK_CUR t =
    Ok (s32 (fe_cursor (s_fe s) + dh_rec_len h),
        upd_fe (set_fe_cursor (fe_cursor (s_fe s) + dh_rec_len h)) t)).
  { rewrite lseek_run; [| done | by right; left | rewrite Hct; unfold INT64_MAX; lia | lia].
    change (seek_base t SEEK_CUR) with (fe_cursor (s_fe t)). rewrite Hct.
    replace (fe_cursor (s_fe s) + (8 + dh_name_len h) + (dh_rec_len h - 8 - dh_name_len h))
      with (fe_cursor (s_fe s) + dh_rec_len h) by lia. cbv zeta.
    by destruct (Z.ltb_spec (fe_cursor (s_fe s) + dh_rec_len h) 0); [lia|]. }
  erewrite bind_ok by exact Hseek. eexists _, _. split; [reflexivity|].
  cbn [d_ino d_name]. split; [|split; [done | split; [done | lia]]].
  split; [| done | done | done | done | done | done].
  split; [apply file_ok_upd_fe; [apply Hot | done | apply Hot] | apply Hot].
Qed.

(** C17: [ext2_readdir] at a record in use, header and name inside one sector of a mapped block,
    returns an entry with the record's inode number and name, terminated, and leaves the cursor
    exactly [rec_len] bytes further; the view of the device is unchanged. *)
Theorem readdir_entry b s de :
  open_file s -> block_ready s b -> length (d_name de) = 256%nat ->
  let h := record_header s b in
  0 < dh_inode h < 2147483648 ->
  fe_cursor (s_fe s) mod 512 + 8 <= 512 ->
  fe_cursor (s_fe s) mod 512 + 8 + dh_name_len h <= 512 ->
  fe_cursor (s_fe s) + 8 + dh_name_len h <= i_size (fe_inode (s_fe s)) ->
  exists s' de', ext2_readdir de s = Ok ((true, de'), s') /\
    d_ino de' = dh_inode h /\ c_string (d_name de') = c_string (record_name s b) /\
    length (d_name de') = 256%nat /\
    fe_cursor (s_fe s') = fe_cursor (s_fe s) + dh_rec_len h /\ view s' = view s /\ open_file s' /\
    i_size (fe_inode (s_fe s')) = i_size (fe_inode (s_fe s)) /\
    i_block (fe_inode (s_fe s')) = i_block (fe_inode (s_fe s)).
Proof.
  intros Ho Hr Hde h Hino Hoff8 Hoff Hsize.
  destruct (readdir_run b s de Ho) as (s' & de' & Hrun & [] & ? & ? & ?); [by split | done|].
  exists s', de'. auto 10.
Qed.
End directory_properties.
