(* ===== verification/Walk.v ===== *)
(** * The reference walk of a path

    [listing] is the sequence of records a directory holds, [walk] follows the
    elements of a path through such listings. Both depend on the context only
    through the geometry that mounting fixes: changes of the free counters and of
    the system buffer do not matter. *)
From S2P Require Import Prelude Layout OnDisk Device Context Bitmap FileBuf Inode BlockMap Alloc FileIo FileSpec Directory.

(** ** The reference *)

(** A file with inode [r], its buffer clean and its cursor at [cur]. *)
Definition at_pos {D} (c : ext2context) (d : D) (r : inode) (cur : Z) : file_state D :=
  mk_fst (mk_fe EMBEXT_MAGIC EXT2_FLAG_READ cur 0 (mk_buffer (replicate 512 0) 0 0) r ENONE)
    (mk_cst c d ENONE 0).

(** The entry of the list with a name. *)
Fixpoint find_name (name : list Z) (l : list (Z * list Z)) : option Z :=
  match l with
  | [] => None
  | (ino, n) :: l' => if bool_decide (n = name) then Some ino else find_name name l'
  end.

Section reference.
Context {D : Type} `{BlockDevice D, BlockView D}.
Implicit Types (c : ext2context) (d : D) (r : inode) (cur : Z).

(** The records of a directory from [cur] to its end: inode numbers and names. *)
Inductive listing c d r : Z -> list (Z * list Z) -> Prop :=
| listing_end cur :
    i_size r <= cur -> listing c d r cur []
| listing_record cur b l :
    record_here (at_pos c d r cur) b ->
    listing c d r (cur + dh_rec_len (record_header (at_pos c d r cur) b)) l ->
    listing c d r cur ((dh_inode (record_header (at_pos c d r cur) b),
                        c_string (record_name (at_pos c d r cur) b)) :: l).

(** [walk n c d ino es res]: from directory [ino], the elements [es] lead to the inode [res], or
    to an entry that does not exist; every directory on the way has at most [n] records. *)
Inductive walk (n : nat) c d : Z -> list (list Z) -> option Z -> Prop :=
| walk_here ino :
    walk n c d ino [] (Some ino)
| walk_missing ino e es l :
    inode_located c d ino -> listing c d (inode_on_disk c d ino) 0 l -> (length l <= n)%nat ->
    find_name e l = None -> walk n c d ino (e :: es) None
| walk_step ino ino' e es l res :
    inode_located c d ino -> listing c d (inode_on_disk c d ino) 0 l -> (length l <= n)%nat ->
    find_name e l = Some ino' -> walk n c d ino' es res -> walk n c d ino (e :: es) res.
End reference.

(** ** The geometry of a mounted volume

    Where blocks, descriptors and inodes are. *)
Record same_geometry (c c' : ext2context) : Prop := {
  sg_part : part_start c' = part_start c;
  sg_primary : superblock_block c' = superblock_block c;
  sg_groups : num_blockgroups c' = num_blockgroups c;
  sg_read_only : read_only c' = read_only c;
  sg_log : s_log_block_size (ctx_superblock c') = s_log_block_size (ctx_superblock c);
  sg_ipg : s_inodes_per_group (ctx_superblock c') = s_inodes_per_group (ctx_superblock c);
  sg_count : s_inodes_count (ctx_superblock c') = s_inodes_count (ctx_superblock c);
  sg_inode : s_inode_size (ctx_superblock c') = s_inode_size (ctx_superblock c)
}.

#[export] Instance same_geometry_equivalence : Equivalence same_geometry.
Proof.
  split.
  - intros c. by split.
  - intros c c' []. by split.
  - intros c c' c'' [] []. split; congruence.
Qed.

Lemma geometry_sysbuf bf c : same_geometry c (set_sysbuf bf c).
Proof. by split. Qed.

(** Only the superblock's counters and group number differ. *)
Lemma geometry_superblock f c :
  (forall r : superblock, s_log_block_size (f r) = s_log_block_size r /\ s_inodes_per_group (f r) = s_inodes_per_group r /\
    s_inodes_count (f r) = s_inodes_count r /\ s_inode_size (f r) = s_inode_size r) ->
  same_geometry c (upd_superblock f c).
Proof. intros Hf. destruct (Hf (ctx_superblock c)) as (? & ? & ? & ?). by split. Qed.

(** The context after a block was allocated, and after an inode was. *)
Lemma geometry_changed a bf c : same_geometry c (upd_superblock (changed_sb a) (set_sysbuf bf c)).
Proof.
  transitivity (set_sysbuf bf c); [apply geometry_sysbuf|]. apply geometry_superblock.
  intros r. unfold changed_sb. destruct r. by case_match.
Qed.

Lemma geometry_one_less bf nr c : same_geometry c (one_less_ctx bf nr c).
Proof.
  unfold one_less_ctx. transitivity (upd_superblock one_inode_less c); [apply geometry_superblock; by intros []|].
  etransitivity; [apply (geometry_sysbuf bf)|]. apply geometry_superblock. by intros [].
Qed.

Section geometry.
Context {D : Type} `{BlockDevice D, BlockView D}.
Variables (c c' : ext2context).
Hypothesis Hg : same_geometry c c'.
Implicit Types (d : D) (r : inode).

Lemma geo_bsz : bsz c' = bsz c.
Proof. unfold bsz. by rewrite (sg_log _ _ Hg). Qed.
Lemma geo_spb : spb c' = spb c.
Proof. unfold spb. by rewrite geo_bsz. Qed.
Lemma geo_block_lba b off : block_lba c' b off = block_lba c b off.
Proof. unfold block_lba. by rewrite (sg_part _ _ Hg), geo_spb. Qed.
Lemma geo_bg_lba b g : bg_lba c' b g = bg_lba c b g.
Proof. unfold bg_lba. by rewrite (sg_part _ _ Hg), geo_spb. Qed.
Lemma geo_group ino : ino_group c' ino = ino_group c ino.
Proof. unfold ino_group. by rewrite (sg_ipg _ _ Hg). Qed.
Lemma geo_index ino : ino_index c' ino = ino_index c ino.
Proof. unfold ino_index. by rewrite (sg_ipg _ _ Hg). Qed.
Lemma geo_desc ino : ino_desc_lba c' ino = ino_desc_lba c ino.
Proof. unfold ino_desc_lba. by rewrite geo_bg_lba, (sg_primary _ _ Hg), geo_group. Qed.
Lemma geo_lba d ino : ino_lba c' d ino = ino_lba c d ino.
Proof.
  unfold ino_lba, ino_desc, bg_on_disk.
  by rewrite geo_bg_lba, (sg_primary _ _ Hg), geo_group, geo_spb, geo_index, (sg_inode _ _ Hg), (sg_part _ _ Hg).
Qed.
Lemma geo_off ino : ino_off c' ino = ino_off c ino.
Proof. unfold ino_off. by rewrite geo_index, (sg_inode _ _ Hg). Qed.
Lemma geo_disk d ino : inode_on_disk c' d ino = inode_on_disk c d ino.
Proof. unfold inode_on_disk. by rewrite geo_lba, geo_off. Qed.

Lemma geo_located d ino : inode_located c d ino -> inode_located c' d ino.
Proof.
  intros [Hi Hc Hp Hs Hb Hgr Hgs Hd Hsl]. destruct Hg as [_ Hpr Hng _ _ Hpg Hct Hsz].
  split; rewrite ?geo_group, ?geo_desc, ?geo_lba, ?Hpr, ?Hng, ?Hpg, ?Hct, ?Hsz; done.
Qed.

(** ** What a file reads *)
Lemma geo_capacity bl : capacity bl c' = capacity bl c.
Proof. unfold capacity. by rewrite geo_bsz. Qed.
Lemma geo_file_lba bl p : file_lba bl c' p = file_lba bl c p.
Proof. unfold file_lba. by rewrite geo_bsz, geo_block_lba. Qed.
Lemma geo_file_sector bl m : file_sector bl c' m <-> file_sector bl c m.
Proof. unfold file_sector. rewrite geo_capacity. by setoid_rewrite geo_file_lba. Qed.
Lemma geo_file_bytes bl d : file_bytes bl c' d = file_bytes bl c d.
Proof. unfold file_bytes. rewrite geo_capacity. apply list_fmap_ext. intros _ p _. by rewrite geo_file_lba. Qed.
Lemma geo_entry d b i : entry c' d b i = entry c d b i.
Proof. unfold entry. by rewrite geo_block_lba. Qed.

Lemma geo_follow d b path : follow c' d b path = follow c d b path.
Proof. revert b. induction path as [|i path IH]; intros b; [done|]. cbn [follow]. by rewrite geo_entry, IH. Qed.

Lemma geo_path_ok d b path : path_ok c d b path -> path_ok c' d b path.
Proof.
  revert b. induction path as [|i path IH]; intros b; [done|]. intros (Hi & Hv & Hp).
  split; [done|]. rewrite geo_block_lba, geo_entry. split; [done | by apply IH].
Qed.

Lemma geo_map_ok d r idx : map_ok c d r idx -> map_ok c' d r idx.
Proof.
  unfold map_ok. rewrite geo_bsz. destruct (block_path _ _) as [[k path]|]; [|done].
  intros (b & Hb & Hp). exists b. split; [done | by apply geo_path_ok].
Qed.

Lemma geo_map_block d r idx : map_block c' d r idx = map_block c d r idx.
Proof.
  unfold map_block. rewrite geo_bsz. destruct (block_path _ _) as [[k path]|]; [|done]. cbn [mbind option_bind].
  destruct (i_block r !! Z.to_nat k); [|done]. cbn. by rewrite geo_follow.
Qed.

Lemma geo_ready d r cur b : block_ready (at_pos c d r cur) b -> block_ready (at_pos c' d r cur) b.
Proof.
  intros [Hcur Hmap Hblock Hpos Hprev Hdata]. cbn [at_pos s_c c_ctx] in *.
  split; cbn [at_pos s_c c_ctx]; rewrite ?geo_bsz, ?geo_map_block, ?geo_block_lba; try done; [by apply geo_map_ok|].
  intros Hle. by apply geo_map_ok, Hprev.
Qed.

Lemma geo_cursor_lba d r cur b : cursor_lba (at_pos c' d r cur) b = cursor_lba (at_pos c d r cur) b.
Proof. unfold cursor_lba. cbn [at_pos s_c c_ctx]. by rewrite geo_bsz, geo_block_lba. Qed.

Lemma geo_header d r cur b : record_header (at_pos c' d r cur) b = record_header (at_pos c d r cur) b.
Proof. unfold record_header, cursor_bytes. by rewrite geo_cursor_lba. Qed.

Lemma geo_name d r cur b : record_name (at_pos c' d r cur) b = record_name (at_pos c d r cur) b.
Proof. unfold record_name. by rewrite geo_cursor_lba, geo_header. Qed.

Lemma geo_listing d r cur l : listing c d r cur l -> listing c' d r cur l.
Proof.
  intros Hl. induction Hl as [cur Hend | cur b l [Hr Hino Hhd Hnm Hsz] Hl IH]; [by constructor|].
  rewrite <- geo_header, <- geo_name. apply listing_record; [|by rewrite geo_header].
  split; rewrite ?geo_header; try done. by apply geo_ready.
Qed.

Lemma geo_walk fuel d ino es res : walk fuel c d ino es res -> walk fuel c' d ino es res.
Proof.
  induction 1; [constructor | eapply walk_missing | eapply walk_step]; try done;
    first [by apply geo_located | rewrite geo_disk; by apply geo_listing].
Qed.
End geometry.

(** The system buffer. *)
Section sysbuf.
Context {D : Type} `{BlockDevice D, BlockView D}.
Implicit Types (d : D).

Lemma located_sysbuf bf c d ino : inode_located c d ino -> inode_located (set_sysbuf bf c) d ino.
Proof. apply geo_located, geometry_sysbuf. Qed.
Lemma listing_sysbuf bf c d r cur l : listing c d r cur l -> listing (set_sysbuf bf c) d r cur l.
Proof. apply geo_listing, geometry_sysbuf. Qed.
Lemma walk_sysbuf fuel bf c d ino es res : walk fuel c d ino es res -> walk fuel (set_sysbuf bf c) d ino es res.
Proof. apply geo_walk, geometry_sysbuf. Qed.
End sysbuf.

(** ** Paths that lead to an inode whatever else changes

    The path leads to the inode [ino] on every device that agrees with [d] outside the sectors
    [changed]: nothing on the way is in one of them. *)
Definition path_leads {D} `{BlockDevice D, BlockView D} (fuel : nat) (c : ext2context) (d : D) (path : list Z)
    (ino : Z) (changed : Z -> Prop) : Prop :=
  forall d', dev_ok d' -> (forall m, in_volume d' m <-> in_volume d m) ->
    (forall m, in_volume d m -> ~ changed m -> dev_sector d' m = dev_sector d m) ->
    walk fuel c d' EXT2_ROOT_INO (path_elements path) (Some ino).

Section path_leads.
Context {D : Type} `{BlockDevice D, BlockView D}.
Implicit Types (d : D) (changed : Z -> Prop).

Lemma walk_app fuel c d ino es1 ino1 es2 res :
  walk fuel c d ino es1 (Some ino1) -> walk fuel c d ino1 es2 res -> walk fuel c d ino (es1 ++ es2) res.
Proof.
  intros Hw H2. remember (Some ino1) as r eqn:Hr. induction Hw as [|ino e es l|ino ino' e es l res' Hil Hl Hn Hf Hw IH].
  - injection Hr as ->. exact H2.
  - discriminate Hr.
  - eapply walk_step; eauto.
Qed.

Lemma path_leads_walk fuel c d path ino changed :
  dev_ok d -> path_leads fuel c d path ino changed -> walk fuel c d EXT2_ROOT_INO (path_elements path) (Some ino).
Proof. intros Hd Hp. by apply Hp. Qed.

(** One change after the other, under a context of the same geometry. *)
Lemma path_leads_step fuel c c' d d' path ino changed (first rest : Z -> Prop) :
  path_leads fuel c d path ino changed -> same_geometry c c' ->
  (forall m, in_volume d' m <-> in_volume d m) ->
  (forall m, in_volume d m -> ~ first m -> dev_sector d' m = dev_sector d m) ->
  (forall m, first m -> changed m) -> (forall m, rest m -> changed m) ->
  path_leads fuel c' d' path ino rest.
Proof.
  intros Hp Hg Hv Hs Hf Hr d2 Hd2 Hv2 Hs2. apply (geo_walk c c' Hg). apply Hp; [done | |].
  - intros m. by rewrite Hv2, Hv.
  - intros m Hm Hn. rewrite Hs2, Hs; [done | done | intros Hx; by apply Hn, Hf | by apply Hv | intros Hx; by apply Hn, Hr].
Qed.
End path_leads.
