(* ===== verification/Lookup.v ===== *)
(** * Looking up and opening paths

    [ext2_lookup_path], and [ext2_open] of existing and of missing files, are proved
    to follow the reference walk of [Walk]. *)
From S2P Require Import Prelude Layout OnDisk Device Context FileBuf Inode BlockMap Alloc FileIo Directory Walk.

(** * Facts *)
Section lookup_facts.
Context {D : Type} `{Env, BlockDeviceLaws D}.
Implicit Types (s : file_state D) (c : ext2context) (d : D) (r : inode) (cur : Z).

(** The file [s] reads the directory with inode [r] and stands at [cur]. *)
Record reads c d r cur s : Prop := {
  rd_open : open_file s;
  rd_clean : bo_dirty (fe_buffer (s_fe s)) = 0;
  rd_dev : c_dev (s_c s) = d;
  rd_ctx : c_ctx (s_c s) = c;
  rd_size : i_size (fe_inode (s_fe s)) = i_size r;
  rd_blocks : i_block (fe_inode (s_fe s)) = i_block r;
  rd_cursor : fe_cursor (s_fe s) = cur
}.

Lemma clean_view s : bo_dirty (fe_buffer (s_fe s)) = 0 -> view s = c_dev (s_c s).
Proof. intros Hc. unfold view. by rewrite Hc. Qed.

(** Whether a block is ready depends on the context, the view, the block numbers and the cursor. *)
Lemma ready_same s t b :
  c_ctx (s_c t) = c_ctx (s_c s) -> view t = view s -> fe_cursor (s_fe t) = fe_cursor (s_fe s) ->
  i_block (fe_inode (s_fe t)) = i_block (fe_inode (s_fe s)) -> block_ready s b -> block_ready t b.
Proof.
  intros Hc Hv Hcur Hb [? Hmap Hblock ? Hprev ?].
  split; rewrite ?Hc, ?Hv, ?Hcur; unfold map_ok, map_block in *; rewrite ?Hb; done.
Qed.

Lemma reads_record c d r cur s b :
  reads c d r cur s -> record_here (at_pos c d r cur) b ->
  record_here s b /\ record_header s b = record_header (at_pos c d r cur) b /\
  record_name s b = record_name (at_pos c d r cur) b.
Proof.
  intros [Ho Hcl Hd Hc Hsz Hb Hcur] [Hr Hino Hhd Hnm Hsize].
  assert (Hv : view s = view (at_pos c d r cur)) by (by rewrite clean_view, Hd).
  assert (Hh : record_header s b = record_header (at_pos c d r cur) b).
  { unfold record_header, cursor_bytes, cursor_lba. by rewrite Hv, Hc, Hcur. }
  split; [|split; [done|]].
  - split; rewrite ?Hh, ?Hcur, ?Hsz; try done.
    by apply (ready_same (at_pos c d r cur)).
  - unfold record_name, cursor_lba. by rewrite Hh, Hv, Hc, Hcur.
Qed.

Lemma reads_moved c d r cur n s t :
  reads c d r cur s -> moved_by n s t -> reads c d r (cur + n) t.
Proof.
  intros [Ho Hcl Hd Hc Hsz Hb Hcur] [Ho' Hcur' Hv' Hc' Hsz' Hb' Hcl'].
  pose proof (Hcl' Hcl) as Hclean. rewrite !clean_view in Hv' by done.
  split; try done; congruence.
Qed.

Lemma readdir_end s de :
  open_file s -> i_size (fe_inode (s_fe s)) <= fe_cursor (s_fe s) ->
  ext2_readdir de s = Ok ((false, de), s).
Proof.
  intros Ho Hend. unfold ext2_readdir. erewrite bind_ok by (apply read_end_run; [done | lia | by right]). by destruct de.
Qed.

(** The loop over one directory finds the first record with the name. *)
Lemma find_entry_run fuel name c d r cur l s de :
  listing c d r cur l -> reads c d r cur s -> length (d_name de) = 256%nat -> (length l <= fuel)%nat ->
  exists found de' s' cur', find_entry fuel name de s = Ok ((found, de'), s') /\ reads c d r cur' s' /\
    length (d_name de') = 256%nat /\
    match find_name name l with
    | Some ino => found = true /\ d_ino de' = ino /\ 0 < ino < 2147483648
    | None => found = false
    end.
Proof.
  intros Hl. revert fuel s de. induction Hl as [cur Hend | cur b l Hrec Hl IH]; intros fuel s de Hs Hde Hfuel.
  - exists false, de, s, cur. split; [|by split].
    assert (Hrun : ext2_readdir de s = Ok ((false, de), s))
      by (apply readdir_end; [apply Hs|]; destruct Hs as [_ _ _ _ -> _ ->]; done).
    destruct fuel; cbn [find_entry]; by erewrite bind_ok by exact Hrun.
  - destruct (reads_record _ _ _ _ _ _ Hs Hrec) as (Hrec' & Hh & Hn).
    destruct (readdir_run b s de (rd_open _ _ _ _ _ Hs) Hrec' Hde) as (t & de' & Hrun & Hmv & Hino & Hname & Hde').
    rewrite Hh in Hmv, Hino. rewrite Hn in Hname. pose proof (reads_moved _ _ _ _ _ _ _ Hs Hmv) as Ht.
    cbn [length find_name] in *. destruct fuel as [|fuel]; [lia|].
    cbn [find_entry]. erewrite bind_ok by exact Hrun. cbn [negb]. rewrite Hname.
    case_bool_decide.
    + eexists _, _, _, _. split; [reflexivity|]. split; [exact Ht|]. split; [done|].
      split; [done|]. split; [done | apply Hrec].
    + apply IH; [done | done | lia].
Qed.

(** ** Walking a path *)

(** The state between two steps: a clean buffer, the device and the context it started with but
    for the system buffer. *)
Record looks c d s : Prop := {
  lk_open : open_file s;
  lk_clean : bo_dirty (fe_buffer (s_fe s)) = 0;
  lk_dev : c_dev (s_c s) = d;
  lk_ctx : exists bf, c_ctx (s_c s) = set_sysbuf bf c
}.

Lemma reads_looks bf c d r cur s : reads (set_sysbuf bf c) d r cur s -> looks c d s.
Proof. intros [? ? ? Hc _ _ _]. split; [done | done | done | by exists bf]. Qed.

Lemma inode_on_disk_wf c d ino : dev_ok d -> inode_located c d ino -> cs_wf (inode_on_disk c d ino).
Proof.
  intros Hd Hil. destruct (inode_slots c d ino Hil) as (_ & _ & _ & _ & _ & Ho & Ho').
  pose proof (dev_sector_ok d _ Hd (il_slot _ _ _ Hil)) as [Hl Hb]. unfold BLOCK_SIZE in Hl.
  apply decode_wf; [by apply bytes_ok_slice|]. by rewrite length_slice by lia.
Qed.

(** Opening an inode starts a reading of it. *)
Lemma open_reads c d ino s :
  looks c d s -> inode_located c d ino ->
  exists bf, ext2_open_inode ino s = Ok (0, opened ino s) /\
    reads (set_sysbuf bf c) d (inode_on_disk c d ino) 0 (opened ino s) /\
    fe_inode (s_fe (opened ino s)) = inode_on_disk c d ino.
Proof.
  intros [[Hs Hm] Hcl Hd [bf Hc]] Hil.
  assert (Hil' : inode_located (c_ctx (s_c s)) (c_dev (s_c s)) ino)
    by (rewrite Hc, Hd; by apply located_sysbuf).
  assert (Hino : inode_on_disk (c_ctx (s_c s)) (c_dev (s_c s)) ino = inode_on_disk c d ino) by (by rewrite Hc, Hd).
  pose proof (il_slot _ _ _ Hil') as Hslot.
  exists (dev_sector d (ino_lba c d ino)). split; [apply open_inode_run; [apply Hs | done]|].
  assert (Hok : open_file (opened ino s)).
  { split; [|done]. destruct Hs as [Hfs Hb Hdv Hi]. split; [by apply loaded_ok | done | done |].
    apply inode_on_disk_wf; [apply Hfs | done]. }
  unfold opened in *. rewrite Hino in *. split; [|done].
  split; [done | done | done | | done | done | done].
  cbn [s_c loaded c_ctx upd_ctx]. by rewrite Hc, Hd.
Qed.

Lemma lookup_elements_run fuel c d ino es res s de :
  walk fuel c d ino es res -> looks c d s -> length (d_name de) = 256%nat -> 0 <= ino < 2147483648 ->
  exists v de' s', lookup_elements fuel ino es de s = Ok ((v, de'), s') /\ looks c d s' /\
    length (d_name de') = 256%nat /\
    match res with
    | Some i => v = i /\ 0 <= i < 2147483648
    | None => v = -1 /\ c_errno (s_c s') = ENOENT
    end.
Proof.
  intros Hw. revert s de.
  induction Hw as [ino | ino e es l Hil Hl Hlen Hnone | ino ino' e es l res Hil Hl Hlen Hfound Hw IH];
    intros s de Hs Hde Hino; cbn [lookup_elements].
  - exists ino, de, s. by rewrite s32_id by lia.
  - destruct (open_reads c d ino s Hs Hil) as (bf & Hopen & Hrd & _).
    destruct (find_entry_run fuel e _ _ _ _ _ _ de (listing_sysbuf bf _ _ _ _ _ Hl) Hrd Hde Hlen)
      as (found & de' & s' & cur' & Hrun & Hrd' & Hde' & Hres). rewrite Hnone in Hres. subst found.
    erewrite bind_ok by exact Hopen. cbn [Z.eqb negb]. erewrite bind_ok by exact Hrun. cbn [negb].
    eexists _, _, _. split; [reflexivity|]. split; [|by split].
    destruct Hrd' as [[[] Hm] ? ? ? ? ? ?]. split; [|done|done|by exists bf]. by split.
  - destruct (open_reads c d ino s Hs Hil) as (bf & Hopen & Hrd & _).
    destruct (find_entry_run fuel e _ _ _ _ _ _ de (listing_sysbuf bf _ _ _ _ _ Hl) Hrd Hde Hlen)
      as (found & de' & s' & cur' & Hrun & Hrd' & Hde' & Hres). rewrite Hfound in Hres.
    destruct Hres as (-> & Hino' & Hrange).
    erewrite bind_ok by exact Hopen. cbn [Z.eqb negb]. erewrite bind_ok by exact Hrun. cbn [negb].
    rewrite Hino', u32_id by lia. apply IH; [by eapply reads_looks | done | lia].
Qed.
End lookup_facts.

(** * Properties *)

(** What [ext2_lookup_path] returns for the end of a walk. *)
Definition lookup_code (res : option Z) : Z := match res with Some ino => ino | None => -1 end.

(** Whether an opening truncates the file it finds. *)
Definition truncates (flags : Z) : bool := has_flag flags O_TRUNC && has_flag flags (Z.lor O_WRONLY O_RDWR).

(** The error of an opening, [None] when it goes on: [r] is the inode the path leads to, [ro] says
    whether the volume is read-only. *)
Definition open_error (ro : Z) (r : option inode) (flags mode : Z) : option errno :=
  match r with
  | None => if has_flag flags O_CREAT then None else Some ENOENT
  | Some r =>
      if has_flag flags O_CREAT && has_flag flags O_EXCL then Some EEXIST
      else if negb (has_flag flags (Z.lor O_WRONLY O_RDWR)) then None
      else if negb (ro =? 0) then Some EROFS
      else if has_flag (i_mode r) EXT2_S_IFDIR && (Z.land mode 512 =? 0) then Some EISDIR
      else None
  end.

Section lookup_properties.
Context {D : Type} `{Env, BlockDeviceLaws D}.
Implicit Types (s : file_state D).

Lemma set_sysbuf_same c : set_sysbuf (sysbuf c) c = c.
Proof. by destruct c. Qed.

Lemma looks_start s :
  open_file s -> bo_dirty (fe_buffer (s_fe s)) = 0 -> looks (c_ctx (s_c s)) (c_dev (s_c s)) s.
Proof. intros Ho Hcl. split; [done | done | done |]. exists (sysbuf (c_ctx (s_c s))). by rewrite set_sysbuf_same. Qed.

(** C18: [ext2_lookup_path] implements the reference walk: with fuel for the longest directory on the
    way, it returns the inode number the walk ends at, or -1 with ENOENT when an element has no
    entry; nothing is written. *)
Theorem lookup_path_follows_walk fuel path res s de :
  open_file s -> bo_dirty (fe_buffer (s_fe s)) = 0 -> length (d_name de) = 256%nat ->
  walk fuel (c_ctx (s_c s)) (c_dev (s_c s)) EXT2_ROOT_INO (path_elements path) res ->
  exists de' s', ext2_lookup_path fuel path de s = Ok ((lookup_code res, de'), s') /\ open_file s' /\
    c_dev (s_c s') = c_dev (s_c s) /\ (res = None -> c_errno (s_c s') = ENOENT).
Proof.
  intros Ho Hcl Hde Hw.
  destruct (lookup_elements_run fuel _ _ _ _ _ s de Hw (looks_start s Ho Hcl) Hde)
    as (v & de' & s' & Hrun & [] & _ & Hres); [done|].
  exists de', s'. split; [destruct res; destruct Hres as [-> _]; exact Hrun|]. split; [done|]. split; [done|].
  intros ->. apply Hres.
Qed.

(** The new file in the state after [malloc]. *)
Definition fresh_file (c : cst D) : file_state D :=
  mk_fst zeroed_file (mk_cst (c_ctx c) (c_dev c) (c_errno c) (S (c_tick c))).

Lemma zeroed_inode_wf : cs_wf (fe_inode zeroed_file).
Proof. split; [done|]. apply (bool_decide_unpack _). vm_compute. exact I. Qed.

Lemma fresh_file_open (c : cst D) : fs_ok c -> open_file (fresh_file c).
Proof.
  intros [Hc Hd]. split; [|done]. split; [by split | | done | apply zeroed_inode_wf].
  split; [done | by apply bytes_ok_replicate].
Qed.

Lemma open_run (a : appender (D := D)) fuel name flags mode de (c : cst D) keep de' s' :
  env_malloc (c_tick c) = true ->
  open_body a fuel name flags mode de (fresh_file c) = Ok ((keep, de'), s') ->
  open_with a fuel name flags mode de c =
    Ok ((if keep then OpenFile (s_fe s') else NullFile, de'), s_c s').
Proof.
  intros Hm Hbody. unfold open_with.
  assert (Hrun : malloc c = Ok (true, mk_cst (c_ctx c) (c_dev c) (c_errno c) (S (c_tick c))))
    by (unfold malloc; by rewrite Hm).
  erewrite bind_ok by exact Hrun. cbn [negb]. unfold run_file.
  change (mk_fst zeroed_file _) with (fresh_file c). by erewrite bind_ok by exact Hbody.
Qed.

(** An opening that finds its inode: [open_existing] decides, on a file that reads it. *)
Lemma open_body_found (a : appender (D := D)) fuel name flags mode de (c : cst D) ino :
  fs_ok c -> length (d_name de) = 256%nat ->
  walk fuel (c_ctx c) (c_dev c) EXT2_ROOT_INO (path_elements name) (Some ino) ->
  inode_located (c_ctx c) (c_dev c) ino ->
  exists de' s, looks (c_ctx c) (c_dev c) s /\ fe_inode (s_fe s) = inode_on_disk (c_ctx c) (c_dev c) ino /\
    fe_inode_number (s_fe s) = ino /\ fe_cursor (s_fe s) = 0 /\
    fe_flags (s_fe s) = access_flags flags EXT2_FLAG_READ /\
    open_body a fuel name flags mode de (fresh_file c) =
      (keep ← open_existing flags (Z.land mode 512); mret (keep, de')) s.
Proof.
  intros Hc Hde Hw Hil.
  pose proof (looks_start (fresh_file c) (fresh_file_open c Hc) eq_refl) as Hlk.
  destruct (lookup_elements_run fuel _ _ _ _ _ (fresh_file c) de Hw Hlk Hde)
    as (v & de' & s1 & Hrun & Hlk1 & _ & -> & Hino); [done|].
  destruct (open_reads _ _ ino s1 Hlk1 Hil) as (bf & Hopen & Hrd & Hr).
  exists de', (upd_fe (fun f => set_fe_flags (access_flags flags (fe_flags f)) f) (opened ino s1)).
  split; [|split; [exact Hr | do 3 (split; [done|])]].
  - destruct Hrd as [[Hok Hm] Hcl Hd Hctx _ _ _]. split; [|done|done|by exists bf].
    split; [apply file_ok_upd_fe; [done | done | apply Hok] | done].
  - unfold open_body. erewrite bind_ok by exact Hrun. cbn beta iota. rewrite u32_id by lia.
    erewrite bind_ok by exact Hopen. rewrite bind_modify. rewrite bind_gets. done.
Qed.

Lemma open_existing_run s flags mode :
  truncates flags = false ->
  open_existing flags (Z.land mode 512) s =
    match open_error (read_only (c_ctx (s_c s))) (Some (fe_inode (s_fe s))) flags mode with
    | Some e => Ok (false, set_c (set_errno e (s_c s)) s)
    | None => Ok (true, s)
    end.
Proof.
  unfold truncates. intros Ht. unfold open_existing, open_error, fe, fctx. rewrite !bind_gets.
  destruct (has_flag flags O_TRUNC); [destruct (has_flag flags (Z.lor O_WRONLY O_RDWR)); [done|]|]; by repeat case_match.
Qed.

(** C19: opening a path that leads to an inode, with any flags but O_TRUNC together with O_WRONLY or
    O_RDWR: the file is returned with the inode of that number, its cursor at 0 and the flags of the access
    mode; or, when the flags and the volume exclude it, nothing is returned and the error is EEXIST, EROFS
    or EISDIR. The device is unchanged either way. *)
Theorem open_existing_file fuel name flags mode de (c : cst D) ino :
  fs_ok c -> env_malloc (c_tick c) = true -> length (d_name de) = 256%nat ->
  walk fuel (c_ctx c) (c_dev c) EXT2_ROOT_INO (path_elements name) (Some ino) ->
  inode_located (c_ctx c) (c_dev c) ino -> truncates flags = false ->
  let r := inode_on_disk (c_ctx c) (c_dev c) ino in
  match open_error (read_only (c_ctx c)) (Some r) flags mode with
  | None => exists f de' c', ext2_open fuel name flags mode de c = Ok ((OpenFile f, de'), c') /\
      open_file (mk_fst f c') /\ fe_inode f = r /\ fe_inode_number f = ino /\ fe_cursor f = 0 /\
      fe_flags f = access_flags flags EXT2_FLAG_READ /\ c_dev c' = c_dev c
  | Some e => exists de' c', ext2_open fuel name flags mode de c = Ok ((NullFile, de'), c') /\
      c_errno c' = e /\ c_dev c' = c_dev c
  end.
Proof.
  intros Hc Hm Hde Hw Hil Ht r. unfold ext2_open. cbn [ext2_open_rec].
  set (a := append_with _ _).
  destruct (open_body_found a fuel name flags mode de c ino Hc Hde Hw Hil)
    as (de' & s & [Ho _ Hd [bf Hctx]] & Hr & Hn & Hcur & Hfl & Hbody).
  pose proof (open_existing_run s flags mode Ht) as Hrun. rewrite Hr, Hctx in Hrun.
  change (read_only (set_sysbuf bf (c_ctx c))) with (read_only (c_ctx c)) in Hrun. fold r in Hrun, Hr.
  destruct (open_error _ _ _ _) as [e|].
  - eexists de', _. split.
    + eapply (open_run a fuel name flags mode de c false); [done|]. rewrite Hbody.
      by erewrite bind_ok by exact Hrun.
    + by split.
  - eexists (s_fe s), de', _. split.
    + eapply (open_run a fuel name flags mode de c true); [done|]. rewrite Hbody.
      by erewrite bind_ok by exact Hrun.
    + split; [by destruct s | by repeat split].
Qed.

(** C25: opening a path with an element that has no entry, without [O_CREAT], returns no file and the
    error of such an opening, ENOENT, and writes nothing. *)
Theorem open_missing_file fuel name flags mode de (c : cst D) e :
  fs_ok c -> env_malloc (c_tick c) = true -> length (d_name de) = 256%nat ->
  walk fuel (c_ctx c) (c_dev c) EXT2_ROOT_INO (path_elements name) None ->
  0 < s_inodes_per_group (ctx_superblock (c_ctx c)) ->
  s_inodes_count (ctx_superblock (c_ctx c)) < 4294967295 -> open_error (read_only (c_ctx c)) None flags mode = Some e ->
  exists de' c', ext2_open fuel name flags mode de c = Ok ((NullFile, de'), c') /\
    c_errno c' = e /\ c_dev c' = c_dev c.
Proof.
  intros Hc Hm Hde Hw Hipg Hcount Hopen.
  assert (Hflag : has_flag flags O_CREAT = false /\ e = ENOENT)
    by (revert Hopen; cbn; destruct (has_flag flags O_CREAT); [done | by intros [= <-]]).
  destruct Hflag as [Hflag ->]. unfold ext2_open. cbn [ext2_open_rec]. set (a := append_with _ _).
  pose proof (looks_start (fresh_file c) (fresh_file_open c Hc) eq_refl) as Hlk.
  destruct (lookup_elements_run fuel _ _ _ _ _ (fresh_file c) de Hw Hlk Hde)
    as (v & de' & s & Hrun & [Ho _ Hd [bf Hctx]] & _ & -> & Herr); [done|].
  eexists de', _. split.
  - eapply (open_run a fuel name flags mode de c false); [done|]. unfold open_body.
    erewrite bind_ok by exact Hrun. cbn beta iota.
    erewrite bind_ok; [|apply open_inode_error; rewrite Hctx; [exact Hipg | by right]].
    rewrite bind_modify, bind_gets. cbn [s_c upd_fe]. rewrite Herr, Hflag. reflexivity.
  - by split.
Qed.
End lookup_properties.
