(* ===== verification/DeviceInv.v ===== *)
(** * What every write keeps, every call keeps

    The file system reaches its device through [block_read] and [block_write]
    only. So a predicate on devices that [block_write] keeps, whatever sector and
    bytes it is given, is kept by every function of [src/src/embext.c]: by the ones
    on the mounted file system and by the ones on open files. *)
From S2P Require Import Prelude Hoare Layout OnDisk Device BlockPc Context Bitmap Super.
From S2P Require Import FileBuf Inode BlockMap Alloc FileIo Directory.

(** A write leaves the write protection of the device as it is. *)
Class SteadyProtection (D : Type) `{BlockDevice D} : Prop :=
  write_protection n buf (d : D) rc d' :
    block_write n buf d = Ok (rc, d') -> block_get_device_read_only d' = block_get_device_read_only d.

#[export] Instance pc_protection : SteadyProtection pc_state.
Proof.
  intros n buf d rc d'. cbn. unfold Pc.block_write. destruct (Pc.past_end n d); [by intros [= _ <-]|].
  destruct (blocks d) as [| |mem]; try done. cbn [Pc.deref mbind res_bind].
  destruct (mem_read buf 0 BLOCK_SIZE) as [src|]; [|done]. cbn [mbind res_bind].
  destruct (mem_write mem _ src); [|done]. by intros [= _ <-].
Qed.

Section device_inv.
Context {D : Type} `{BlockDevice D, Env} (Q : D -> Prop).
Hypothesis Hwrite : forall n buf d rc d', Q d -> block_write n buf d = Ok (rc, d') -> Q d'.

Definition fs_has (s : cst D) : Prop := Q (c_dev s).
Definition file_has (s : file_state D) : Prop := Q (c_dev (s_c s)).

(** ** The mounted file system *)
Lemma read_sysbuf_has n : keeps fs_has (read_sysbuf n).
Proof. intros s rc s' Hs (b & ->)%read_sysbuf_frame. exact Hs. Qed.
Lemma write_sysbuf_has n : keeps fs_has (write_sysbuf n).
Proof.
  intros s rc s' Hs. unfold write_sysbuf. destruct (block_write _ _ _) as [[rc' d]|] eqn:Hrun; [|done].
  intros [= _ <-]. by eapply Hwrite.
Qed.
Lemma get_sysbuf_has off n : keeps fs_has (get_sysbuf off n).
Proof. intros s a s' Hs. unfold get_sysbuf. destruct (mem_read _ _ _); [|done]. by intros [= _ <-]. Qed.
Lemma put_sysbuf_has off l : keeps fs_has (put_sysbuf off l).
Proof. intros s a s' Hs. unfold put_sysbuf. destruct (mem_write _ _ _); [|done]. by intros [= _ <-]. Qed.
Lemma ctx_has : keeps fs_has ctx.
Proof. apply keeps_gets. Qed.
Lemma sb_has : keeps fs_has sb.
Proof. apply keeps_gets. Qed.
Lemma time_has : keeps fs_has time.
Proof. by intros s t s' Hs [= <- <-]. Qed.
Lemma malloc_has : keeps fs_has malloc.
Proof. by intros s t s' Hs [= <- <-]. Qed.
Lemma upd_ctx_has f : keeps fs_has (modify (upd_ctx f)).
Proof. by apply keeps_modify. Qed.
Lemma set_errno_has e : keeps fs_has (modify (set_errno e)).
Proof. by apply keeps_modify. Qed.
Lemma bg_val_has o : keeps fs_has (bg_val o).
Proof. destruct o; [apply keeps_ret | apply keeps_throw]. Qed.
Hint Resolve read_sysbuf_has write_sysbuf_has get_sysbuf_has put_sysbuf_has ctx_has sb_has time_has malloc_has
  upd_ctx_has set_errno_has bg_val_has : hoare.

Lemma get_bg_descriptor_has bg i : keeps fs_has (ext2_get_bg_descriptor bg i).
Proof. unfold ext2_get_bg_descriptor. repeat keeps_step. Qed.
Hint Resolve get_bg_descriptor_has : hoare.
Lemma write_bg_descriptor_has bg i : keeps fs_has (ext2_write_bg_descriptor bg i).
Proof. unfold ext2_write_bg_descriptor, write_bg_step. repeat keeps_step. Qed.
Hint Resolve write_bg_descriptor_has : hoare.
Lemma change_allocated_has b a d : keeps fs_has (ext2_change_allocated b a d).
Proof. unfold ext2_change_allocated. repeat keeps_step. Qed.
Lemma flush_superblock_has : keeps fs_has ext2_flush_superblock.
Proof. unfold ext2_flush_superblock, flush_superblock_step. repeat keeps_step. Qed.
Hint Resolve change_allocated_has flush_superblock_has : hoare.
Lemma mount_has ps vs hint : keeps fs_has (ext2_mount ps vs hint).
Proof. unfold ext2_mount, mount_probe, mount_complete. repeat keeps_step. Qed.
Lemma umount_has : keeps fs_has ext2_umount.
Proof. unfold ext2_umount. repeat keeps_step. Qed.

(** ** Open files *)
Lemma on_ctx_has {A} (m : M (cst D) A) : keeps fs_has m -> keeps file_has (on_ctx m).
Proof. intros Hm. by eapply hoare_zoom. Qed.
Lemma upd_fe_has f : keeps file_has (modify (upd_fe f)).
Proof. by apply keeps_modify. Qed.
Lemma rerrno_has e : keeps file_has (rerrno e).
Proof. by apply keeps_modify. Qed.
Lemma fe_has : keeps file_has fe.
Proof. apply keeps_gets. Qed.
Lemma fctx_has : keeps file_has fctx.
Proof. apply keeps_gets. Qed.
Lemma init_val_has {A} (o : option A) : keeps file_has (init_val o).
Proof. destruct o; [apply keeps_ret | apply keeps_throw]. Qed.
Lemma put_i_block_has k b : keeps file_has (put_i_block k b).
Proof. apply upd_fe_has. Qed.
Lemma write_filebuf_has n : keeps file_has (write_filebuf n).
Proof.
  intros s rc s' Hs. unfold write_filebuf. destruct (block_write _ _ _) as [[rc' d]|] eqn:Hrun; [|done].
  intros [= _ <-]. by eapply Hwrite.
Qed.
Lemma read_filebuf_has n : keeps file_has (read_filebuf n).
Proof. intros s rc s' Hs. unfold read_filebuf. destruct (block_read _ _ _) as [[rc' b]|]; [|done]. by intros [= _ <-]. Qed.
Lemma read_buffer_has off n : keeps file_has (ext2_read_buffer off n).
Proof. intros s a s' Hs. unfold ext2_read_buffer. destruct (mem_read _ _ _); [|done]. by intros [= _ <-]. Qed.
Lemma write_buffer_has l off : keeps file_has (ext2_write_buffer l off).
Proof. intros s a s' Hs. unfold ext2_write_buffer. destruct (mem_write _ _ _); [|done]. by intros [= _ <-]. Qed.
Hint Extern 1 (keeps _ (on_ctx _)) => apply on_ctx_has; auto with hoare nocore : hoare.
Hint Resolve upd_fe_has rerrno_has fe_has fctx_has init_val_has put_i_block_has write_filebuf_has read_filebuf_has
  read_buffer_has write_buffer_has : hoare.

Lemma store_buffer_has : keeps file_has ext2_store_buffer.
Proof. unfold ext2_store_buffer. repeat keeps_step. Qed.
Lemma fill_buffer_has b off : keeps file_has (fill_buffer b off).
Proof. unfold fill_buffer. repeat keeps_step. Qed.
Hint Resolve store_buffer_has fill_buffer_has : hoare.
Lemma load_buffer_has b off : keeps file_has (ext2_load_buffer b off).
Proof. unfold ext2_load_buffer. repeat keeps_step. Qed.
Lemma buffer_space_has : keeps file_has ext2_buffer_space.
Proof. unfold ext2_buffer_space. repeat keeps_step. Qed.
Lemma update_atime_has : keeps file_has ext2_update_atime.
Proof. unfold ext2_update_atime. repeat keeps_step. Qed.
Lemma update_mtime_has : keeps file_has ext2_update_mtime.
Proof. unfold ext2_update_mtime. repeat keeps_step. Qed.
Hint Resolve load_buffer_has buffer_space_has update_atime_has update_mtime_has : hoare.
Lemma flush_inode_has : keeps file_has ext2_flush_inode.
Proof. unfold ext2_flush_inode, flush_inode_dirty. repeat keeps_step. Qed.
Lemma open_inode_has ino : keeps file_has (ext2_open_inode ino).
Proof. unfold ext2_open_inode. repeat keeps_step. Qed.
Lemma indirect_entry_has b off : keeps file_has (indirect_entry b off).
Proof. unfold indirect_entry. repeat keeps_step. Qed.
Hint Resolve flush_inode_has open_inode_has indirect_entry_has : hoare.
Lemma block_from_offset_has off : keeps file_has (ext2_block_from_offset off).
Proof. unfold ext2_block_from_offset. repeat keeps_step. Qed.
Lemma most_free_group_has count : keeps file_has (most_free_group count).
Proof. unfold most_free_group, most_free_step. repeat keeps_step. Qed.
Lemma bitmap_scan_has b n : keeps file_has (bitmap_scan b n).
Proof. unfold bitmap_scan, bitmap_scan_step. repeat keeps_step. Qed.
Hint Resolve block_from_offset_has most_free_group_has bitmap_scan_has : hoare.
Lemma allocate_inode_has : keeps file_has ext2_allocate_inode.
Proof. unfold ext2_allocate_inode, claim_inode. repeat keeps_step. Qed.
Lemma allocate_block_has prev : keeps file_has (ext2_allocate_block prev).
Proof. unfold ext2_allocate_block. repeat keeps_step. Qed.
Hint Resolve allocate_inode_has allocate_block_has : hoare.

Lemma dealloc_has isdir b : keeps file_has (dealloc isdir b).
Proof. unfold dealloc. repeat keeps_step. Qed.
Lemma get_i_block_has k : keeps file_has (get_i_block k).
Proof. unfold get_i_block. repeat keeps_step. Qed.
Hint Resolve dealloc_has get_i_block_has : hoare.
Lemma each_entry_has n b body :
  keeps file_has b -> (forall e, keeps file_has (body e)) -> keeps file_has (each_entry n b body).
Proof. intros Hb Hbody. unfold each_entry. repeat first [apply Hb | apply Hbody | keeps_step]. Qed.
Lemma truncate_tree_has isdir k body : keeps file_has body -> keeps file_has (truncate_tree isdir k body).
Proof. intros Hb. unfold truncate_tree. repeat first [apply Hb | keeps_step]. Qed.
Lemma truncate_file_has : keeps file_has ext2_truncate_file.
Proof.
  unfold ext2_truncate_file, truncate_direct, truncate_indirect, truncate_double, truncate_triple.
  repeat first [apply each_entry_has | apply truncate_tree_has | keeps_step].
Qed.
Lemma select_buffer_has : keeps file_has ext2_select_buffer.
Proof. unfold ext2_select_buffer. repeat keeps_step. Qed.
Lemma advance_has n : keeps file_has (advance n).
Proof. unfold advance. repeat keeps_step. Qed.
Lemma grow_file_has : keeps file_has grow_file.
Proof. unfold grow_file. repeat keeps_step. Qed.
Hint Resolve truncate_file_has select_buffer_has advance_has grow_file_has : hoare.

Lemma read_has count : keeps file_has (ext2_read count).
Proof.
  assert (Hloop : forall fuel i bt, keeps file_has (read_loop fuel count i bt)).
  { induction fuel as [|fuel IH]; intros i bt; cbn [read_loop]; repeat first [apply IH | keeps_step]. }
  unfold ext2_read, with_magic. repeat first [apply Hloop | keeps_step].
Qed.
Lemma lseek_has offset whence : keeps file_has (ext2_lseek offset whence).
Proof. unfold ext2_lseek, with_magic. repeat keeps_step. Qed.
Hint Resolve lseek_has : hoare.
Lemma write_has bt : keeps file_has (ext2_write bt).
Proof.
  assert (Hloop : forall fuel i, keeps file_has (write_loop fuel bt i)).
  { induction fuel as [|fuel IH]; intros i; cbn [write_loop]; repeat first [apply IH | keeps_step]. }
  unfold ext2_write, with_magic. repeat first [apply Hloop | keeps_step].
Qed.
Lemma fstat_has : keeps file_has ext2_fstat.
Proof. unfold ext2_fstat, with_magic. repeat keeps_step. Qed.
Lemma close_has : keeps file_has ext2_close.
Proof. unfold ext2_close, with_magic. repeat keeps_step. Qed.
Hint Resolve read_has write_has fstat_has close_has : hoare.

Lemma on_handle_has {A} (bad : A) (m : M (file_state D) A) h :
  keeps file_has m -> keeps fs_has (on_handle bad m h).
Proof.
  intros Hm. destruct h as [| |f]; cbn [on_handle]; [repeat keeps_step | apply keeps_throw |].
  intros s r s' Hs. destruct (m (mk_fst f s)) as [[a t]|] eqn:Hrun; [|done].
  intros [= _ <-]. by apply (Hm (mk_fst f s) a t).
Qed.
Lemma h_close_has h : keeps fs_has (h_close h).
Proof. unfold h_close. apply keeps_bind; [by apply on_handle_has, close_has|]. intros [rc h']. apply keeps_ret. Qed.

(** ** Directories and opening *)
Lemma readdir_has de : keeps file_has (ext2_readdir de).
Proof. unfold ext2_readdir. repeat keeps_step. Qed.
Hint Resolve readdir_has : hoare.
Lemma find_entry_has fuel name de : keeps file_has (find_entry fuel name de).
Proof. revert de. induction fuel as [|fuel IH]; intros de; cbn [find_entry]; repeat first [apply IH | keeps_step]. Qed.
Hint Resolve find_entry_has : hoare.
Lemma lookup_path_has fuel path de : keeps file_has (ext2_lookup_path fuel path de).
Proof.
  unfold ext2_lookup_path. generalize EXT2_ROOT_INO, (path_elements path). intros ino es. revert ino de.
  induction es as [|e es IH]; intros ino de; cbn [lookup_elements]; repeat first [apply IH | keeps_step].
Qed.
Hint Resolve lookup_path_has : hoare.
Lemma append_entry_has fuel ino name : keeps file_has (append_entry fuel ino name).
Proof.
  assert (Hloop : forall n bs lb off h, keeps file_has (last_record n bs lb off h)).
  { induction n as [|n IH]; intros bs lb off h; cbn [last_record]; unfold close_quietly; repeat first [apply IH | keeps_step]. }
  unfold append_entry. repeat first [apply Hloop | keeps_step].
Qed.
Lemma run_file_has {A} f (m : M (file_state D) A) : keeps file_has m -> keeps fs_has (run_file f m).
Proof.
  intros Hm s a s' Hs. unfold run_file. destruct (m (mk_fst f s)) as [[a' t]|] eqn:Hrun; [|done].
  intros [= _ <-]. by apply (Hm (mk_fst f s) a' t).
Qed.

Lemma open_with_has append fuel name flags mode de :
  (forall dir ino file de, keeps fs_has (append dir ino file de)) ->
  keeps fs_has (open_with append fuel name flags mode de).
Proof.
  intros Ha. unfold open_with. apply keeps_bind; [apply malloc_has|]. intros ok.
  destruct (negb ok); [repeat keeps_step|]. apply run_file_has. unfold open_body, open_create, open_existing.
  repeat first [apply on_ctx_has, Ha | keeps_step].
Qed.

Lemma open_has fuel name flags mode de : keeps fs_has (ext2_open fuel name flags mode de).
Proof.
  unfold ext2_open. generalize 1%nat. intros depth. revert name flags mode de.
  induction depth as [|depth IH]; intros name flags mode de; cbn [ext2_open_rec]; apply open_with_has;
    intros dir ino file de'; [apply keeps_throw|].
  unfold append_with. apply keeps_bind; [apply IH|]. intros [h de2]. destruct h; try apply keeps_ret.
  apply keeps_bind; [apply run_file_has, append_entry_has | intros ?; apply keeps_ret].
Qed.
End device_inv.
