(* ===== verification/FileSystem.v ===== *)
(** * The file system is a table of byte arrays

    A fixed set of files, each with a path, an inode and blocks of its own, on one
    mounted volume. The specification keeps an array of bytes for every file,
    stored or open; the code keeps directory entries, inodes, blocks and a buffer
    per open file on one device. Any interleaving of opens, reads, writes, seeks,
    status calls and closes on the files gives the answers of the specification. *)
From stdpp Require Import gmap.
From S2P Require Import Prelude Hoare Layout OnDisk Device Context FileBuf Inode BlockMap Alloc FileIo FileSpec Files Directory Walk Lookup.

(** ** The specification *)

(** The files that are stored, with their bytes and size, and those that are open. *)
Record fs_spec : Type := mk_fs_spec {
  sp_stored : gmap nat (list Z * Z);
  sp_open : gmap nat byte_file
}.

(** [de] is what the static variable of [ext2_readdir] happens to hold. *)
Inductive fs_op : Type :=
| OpenOp (flags mode : Z) (de : dirent)
| FileOp (op : file_op)
| CloseOp.

(** The array of a file that was just opened. *)
Definition opened_bytes (flags : Z) (stored : list Z * Z) : byte_file :=
  mk_bytes (fst stored) (snd stored) 0 (has_flag flags O_RDWR || has_flag flags O_WRONLY) (has_flag flags O_APPEND)
    false ENONE.

Definition spec_fs (call : nat * fs_op) : M fs_spec answer := fun b =>
  let '(id, op) := call in
  match op with
  | OpenOp flags _ _ =>
      match sp_stored b !! id with
      | Some stored =>
          Ok (Status 0, mk_fs_spec (delete id (sp_stored b)) (<[id := opened_bytes flags stored]> (sp_open b)))
      | None => Fault BadPointer
      end
  | FileOp op =>
      match sp_open b !! id with
      | Some a =>
          '(r, a') ← spec_op op a;
          Ok (r, mk_fs_spec (sp_stored b) (<[id := set_bf_errno ENONE a']> (sp_open b)))
      | None => Fault BadPointer
      end
  | CloseOp =>
      match sp_open b !! id with
      | Some a =>
          Ok (Status 0, mk_fs_spec (<[id := (bf_data a, bf_size a)]> (sp_stored b)) (delete id (sp_open b)))
      | None => Fault BadPointer
      end
  end.

(** A file is opened when it is stored, without [O_TRUNC] and without asking for a new file; it is
    used and closed when it is open. *)
Definition fs_allowed (b : fs_spec) (call : nat * fs_op) : Prop :=
  match snd call with
  | OpenOp flags _ de =>
      is_Some (sp_stored b !! fst call) /\ length (d_name de) = 256%nat /\
      has_flag flags O_TRUNC = false /\ has_flag flags O_CREAT && has_flag flags O_EXCL = false
  | FileOp op => match sp_open b !! fst call with Some a => op_allowed a op | None => False end
  | CloseOp => is_Some (sp_open b !! fst call)
  end.

#[export] Instance fs_allowed_dec b call : Decision (fs_allowed b call).
Proof.
  unfold fs_allowed. destruct (snd call) as [flags mode de|op|]; [| |apply _].
  - repeat apply and_dec; apply _.
  - destruct (sp_open b !! fst call); apply _.
Defined.

(** ** The volume *)
Record file_info : Type := mk_info {
  fi_path : list Z;
  fi_ino : Z;
  fi_blocks : list Z
}.

Definition fs_run {D} `{BlockDevice D, Env} (fuel : nat) (infos : gmap nat file_info) (call : nat * fs_op) :
    M (open_files D) answer := fun st =>
  let '(id, op) := call in
  match op with
  | OpenOp flags mode de =>
      match infos !! id with
      | Some fi =>
          '((h, _), c) ← ext2_open fuel (fi_path fi) flags mode de (of_c st);
          match h with
          | OpenFile f => Ok (Status 0, mk_open_files (<[id := f]> (of_files st)) c)
          | _ => Ok (Status (-1), mk_open_files (of_files st) c)
          end
      | None => Fault BadPointer
      end
  | FileOp op => call_run (id, op) st
  | CloseOp =>
      match of_files st !! id with
      | Some f =>
          '((rc, h), c) ← h_close (OpenFile f) (of_c st);
          match h with
          | OpenFile f' => Ok (Status rc, mk_open_files (<[id := f']> (of_files st)) c)
          | _ => Ok (Status rc, mk_open_files (delete id (of_files st)) c)
          end
      | None => Fault BadPointer
      end
  end.

Section layout.
Context {D : Type} `{BlockDevice D, BlockView D}.
Variables (fuel : nat) (c0 : ext2context) (d0 : D) (infos : gmap nat file_info).

Definition slot (fi : file_info) : Z := ino_lba c0 d0 (fi_ino fi).
Definition file_of (fi : file_info) : Z -> Prop := file_sector (fi_blocks fi) c0.

(** The sectors that the operations may write. *)
Definition fs_sector (m : Z) : Prop := exists id fi, infos !! id = Some fi /\ (file_of fi m \/ m = slot fi).

(** The files of the volume lie apart from each other, from the inodes, from the descriptors of the
    groups, and from the directories on their paths. *)
Record volume_layout : Prop := {
  vl_ctx : ctx_ok c0;
  vl_writable : read_only c0 = 0;
  vl_dev : dev_ok d0;
  vl_direct id fi : infos !! id = Some fi -> (length (fi_blocks fi) <= 12)%nat;
  vl_distinct id fi : infos !! id = Some fi -> NoDup (fi_blocks fi);
  vl_positive id fi k b : infos !! id = Some fi -> fi_blocks fi !! k = Some b -> 0 < b;
  vl_capacity id fi : infos !! id = Some fi -> capacity (fi_blocks fi) c0 < 2147483648;
  vl_volume id fi p : infos !! id = Some fi -> 0 <= p < capacity (fi_blocks fi) c0 ->
    in_volume d0 (file_lba (fi_blocks fi) c0 p);
  vl_disjoint i j fi fj : i <> j -> infos !! i = Some fi -> infos !! j = Some fj -> fi_blocks fi ## fi_blocks fj;
  vl_located id fi : infos !! id = Some fi -> inode_located c0 d0 (fi_ino fi);
  vl_slot i j fi fj : infos !! i = Some fi -> infos !! j = Some fj -> ~ file_of fj (slot fi);
  vl_desc i j fi fj : infos !! i = Some fi -> infos !! j = Some fj -> ~ file_of fj (ino_desc_lba c0 (fi_ino fi));
  vl_slot_desc i j fi fj : infos !! i = Some fi -> infos !! j = Some fj -> slot fi <> ino_desc_lba c0 (fi_ino fj);
  vl_slots i j fi fj : i <> j -> infos !! i = Some fi -> infos !! j = Some fj ->
    slot fi <> slot fj \/ ino_off c0 (fi_ino fi) + 128 <= ino_off c0 (fi_ino fj) \/
    ino_off c0 (fi_ino fj) + 128 <= ino_off c0 (fi_ino fi);
  vl_path id fi : infos !! id = Some fi -> path_leads fuel c0 d0 (fi_path fi) (fi_ino fi) fs_sector
}.

(** The device has only changed where it may. *)
Record volume_at (d : D) : Prop := {
  va_ok : dev_ok d;
  va_volume m : in_volume d m <-> in_volume d0 m;
  va_rest m : in_volume d0 m -> ~ fs_sector m -> dev_sector d m = dev_sector d0 m
}.

(** A stored file: what its inode and its blocks hold. *)
Record stored_file (fi : file_info) (d : D) (stored : list Z * Z) : Prop := {
  st_data : file_bytes (fi_blocks fi) c0 d = fst stored;
  st_length : i_size (inode_on_disk c0 d (fi_ino fi)) = snd stored;
  st_fits : snd stored <= capacity (fi_blocks fi) c0;
  st_blocks_at k b : fi_blocks fi !! k = Some b -> i_block (inode_on_disk c0 d (fi_ino fi)) !! k = Some b;
  st_regular : has_flag (i_mode (inode_on_disk c0 d (fi_ino fi))) EXT2_S_IFDIR = false
}.

(** An open file; its inode is the stored one unless it has been touched. *)
Record opened_file (fi : file_info) (f : file_ent) (c : cst D) (a : byte_file) : Prop := {
  op_laid : laid_out (fi_blocks fi) (mk_fst f c);
  op_abs : set_bf_errno ENONE (abstract (fi_blocks fi) (mk_fst f c)) = a;
  op_number : fe_inode_number f = fi_ino fi;
  op_regular : has_flag (i_mode (fe_inode f)) EXT2_S_IFDIR = false;
  op_untouched : has_flag (fe_flags f) EXT2_FLAG_FS_DIRTY = false ->
    inode_on_disk c0 (c_dev c) (fi_ino fi) = fe_inode f
}.

(** The file [id] is either stored or open, in the specification and in the code alike. *)
Definition same_state (b : fs_spec) (st : open_files D) (id : nat) (fi : file_info) : Prop :=
  match sp_stored b !! id, sp_open b !! id, of_files st !! id with
  | Some stored, None, None => stored_file fi (c_dev (of_c st)) stored
  | None, Some a, Some f => opened_file fi f (of_c st) a
  | _, _, _ => False
  end.

Record represents (b : fs_spec) (st : open_files D) : Prop := {
  rp_ok : fs_ok (of_c st);
  rp_ctx : exists bf, c_ctx (of_c st) = set_sysbuf bf c0;
  rp_volume : volume_at (c_dev (of_c st));
  rp_files id fi : infos !! id = Some fi -> same_state b st id fi;
  rp_none id : infos !! id = None -> sp_stored b !! id = None /\ sp_open b !! id = None /\ of_files st !! id = None
}.
End layout.

(** * Facts *)

Section fs_facts.
Context {D : Type} `{Env, BlockDeviceLaws D}.
Variables (fuel : nat) (c0 : ext2context) (d0 : D) (infos : gmap nat file_info).
Hypothesis Hlay : volume_layout fuel c0 d0 infos.
Implicit Types (c : cst D) (d : D) (f : file_ent) (a : byte_file).
#[local] Abbreviation at_layout := (volume_at c0 d0 infos).
#[local] Abbreviation Slot := (slot c0 d0).
#[local] Abbreviation File := (file_of c0).

(** The descriptor of a file's inode is never written, so its slot does not move. *)
Lemma layout_inode d id fi : at_layout d -> infos !! id = Some fi ->
  ino_lba c0 d (fi_ino fi) = Slot fi /\ inode_located c0 d (fi_ino fi).
Proof.
  intros [Hok Hv Hr] Hfi. pose proof (vl_located _ _ _ _ Hlay id fi Hfi) as Hil.
  apply (located_same c0 d0 d); [exact Hv | | exact Hil]. apply Hr; [apply Hil|].
  intros (j & fj & Hfj & [Hin|Heq]).
  - by apply (vl_desc _ _ _ _ Hlay id j fi fj).
  - by apply (vl_slot_desc _ _ _ _ Hlay j id fj fi).
Qed.

(** [d'] differs from [d] only in the sectors of the file [fi] and in the slot of its inode. *)
Record only_file (fi : file_info) d d' : Prop := {
  of_ok : dev_ok d';
  of_volume m : in_volume d' m <-> in_volume d m;
  of_rest m : in_volume d m -> ~ File fi m -> m <> Slot fi -> dev_sector d' m = dev_sector d m;
  of_slot off k : 0 <= off -> 0 <= k ->
    off + k <= ino_off c0 (fi_ino fi) \/ ino_off c0 (fi_ino fi) + 128 <= off ->
    slice off k (dev_sector d' (Slot fi)) = slice off k (dev_sector d (Slot fi))
}.

Lemma only_file_layout fi d d' id : infos !! id = Some fi -> only_file fi d d' -> at_layout d -> at_layout d'.
Proof.
  intros Hfi [Hok Hv Hr _] [_ Hv0 Hr0]. split; [done | intros m; by rewrite Hv|].
  intros m Hm Hn. rewrite Hr; [by apply Hr0 | by apply Hv0 | |]; intros Hx; apply Hn; exists id, fi; auto.
Qed.

(** The inode of another file is as it was, and so are its sectors. *)
Lemma other_inode i j fi fj d d' :
  i <> j -> infos !! i = Some fi -> infos !! j = Some fj -> at_layout d -> only_file fi d d' ->
  inode_on_disk c0 d' (fi_ino fj) = inode_on_disk c0 d (fi_ino fj).
Proof.
  intros Hne Hfi Hfj Hd Hof. pose proof (only_file_layout fi d d' i Hfi Hof Hd) as Hd'.
  destruct (layout_inode d j fj Hd Hfj) as [Hl Hil]. destruct (layout_inode d' j fj Hd' Hfj) as [Hl' _].
  pose proof (il_slot _ _ _ Hil) as Hin. destruct (inode_slots _ _ _ Hil) as (_ & _ & _ & _ & _ & Ho & _).
  unfold inode_on_disk. rewrite Hl', Hl in *. f_equal. destruct Hof as [_ _ Hr Hs].
  destruct (decide (Slot fj = Slot fi)) as [Heq|Hneq].
  - rewrite Heq. apply Hs; [lia | lia |].
    destruct (vl_slots _ _ _ _ Hlay i j fi fj Hne Hfi Hfj) as [Hx|[Hx|Hx]]; [congruence | by right | by left].
  - f_equal. apply Hr; [done | by apply (vl_slot _ _ _ _ Hlay j i fj fi) | done].
Qed.

Lemma other_sectors i j fi fj d d' m :
  i <> j -> infos !! i = Some fi -> infos !! j = Some fj -> only_file fi d d' -> in_volume d m -> File fj m ->
  dev_sector d' m = dev_sector d m.
Proof.
  intros Hne Hfi Hfj [_ _ Hr _] Hm Hin. apply Hr; [done | |].
  - revert Hin. apply disjoint_sectors; [apply Hlay|]. by apply (vl_disjoint _ _ _ _ Hlay j i).
  - intros ->. by apply (vl_slot _ _ _ _ Hlay i j fi fj).
Qed.

Lemma file_in_volume d id fi p : at_layout d -> infos !! id = Some fi ->
  0 <= p < capacity (fi_blocks fi) c0 -> in_volume d (file_lba (fi_blocks fi) c0 p).
Proof. intros Hd Hfi Hp. apply (va_volume _ _ _ _ Hd). by apply (vl_volume _ _ _ _ Hlay id). Qed.

Lemma stored_kept i j fi fj d d' stored :
  i <> j -> infos !! i = Some fi -> infos !! j = Some fj -> at_layout d -> only_file fi d d' ->
  stored_file c0 fj d stored -> stored_file c0 fj d' stored.
Proof.
  intros Hne Hfi Hfj Hd Hof [Hdata Hlen Hfit Hb Hreg].
  pose proof (other_inode i j fi fj d d' Hne Hfi Hfj Hd Hof) as Hino. split; rewrite ?Hino; try done.
  rewrite <- Hdata. apply file_bytes_ext. intros p Hp.
  apply (other_sectors i j fi fj); try done; [by apply (file_in_volume d j) | by exists p].
Qed.

Lemma opened_kept i j fi fj c c' f a :
  i <> j -> infos !! i = Some fi -> infos !! j = Some fj -> at_layout (c_dev c) ->
  only_file fi (c_dev c) (c_dev c') -> fs_ok c' ->
  (exists bf, c_ctx c = set_sysbuf bf c0) -> (exists bf, c_ctx c' = set_sysbuf bf c0) ->
  opened_file c0 fj f c a -> opened_file c0 fj f c' a.
Proof.
  intros Hne Hfi Hfj Hd Hof Hok [bf Hc] [bf' Hc'] [Hl Ha Hn Hreg Hun].
  destruct (neighbour_kept (fi_blocks fj) f c c' Hl) as [Hl' Ha'].
  - exists bf'. by rewrite Hc', Hc.
  - done.
  - apply Hof.
  - intros m Hm Hin. rewrite Hc in Hin. by apply (other_sectors i j fi fj).
  - split; try done; [by rewrite Ha'|]. intros Hf. by rewrite (other_inode i j fi fj _ _ Hne Hfi Hfj Hd Hof), Hun.
Qed.

(** A step of the file [id] that leaves the others alone. *)
Lemma represents_step b st b' st' id fi :
  represents c0 d0 infos b st -> infos !! id = Some fi -> fs_ok (of_c st') ->
  (exists bf, c_ctx (of_c st') = set_sysbuf bf c0) -> only_file fi (c_dev (of_c st)) (c_dev (of_c st')) ->
  (forall j, j <> id -> sp_stored b' !! j = sp_stored b !! j /\ sp_open b' !! j = sp_open b !! j /\
    of_files st' !! j = of_files st !! j) ->
  same_state c0 b' st' id fi -> represents c0 d0 infos b' st'.
Proof.
  intros [_ Hc Hd Hfiles Hnone] Hfi Hok Hc' Hof Hj Hid. split; [done | done | by apply (only_file_layout fi _ _ id Hfi Hof) | |].
  - intros j fj Hfj. destruct (decide (j = id)) as [->|Hne]; [by assert (fj = fi) as -> by congruence|].
    specialize (Hfiles j fj Hfj). unfold same_state in *. destruct (Hj j Hne) as (-> & -> & ->).
    destruct (sp_stored b !! j), (sp_open b !! j), (of_files st !! j); try done.
    + by apply (stored_kept id j fi fj (c_dev (of_c st))).
    + by apply (opened_kept id j fi fj (of_c st)).
  - intros j Hjn. assert (j <> id) by (intros ->; congruence). destruct (Hj j) as (-> & -> & ->); auto.
Qed.

(** The state of the file that is called. *)
Lemma represents_stored b st id stored : represents c0 d0 infos b st -> sp_stored b !! id = Some stored ->
  exists fi, infos !! id = Some fi /\ stored_file c0 fi (c_dev (of_c st)) stored /\
    sp_open b !! id = None /\ of_files st !! id = None.
Proof.
  intros [_ _ _ Hfiles Hnone] Hs. destruct (infos !! id) as [fi|] eqn:Hfi.
  - exists fi. split; [done|]. specialize (Hfiles id fi Hfi). unfold same_state in Hfiles. rewrite Hs in Hfiles.
    by destruct (sp_open b !! id), (of_files st !! id).
  - destruct (Hnone id Hfi) as [Hx _]. congruence.
Qed.

Lemma represents_open b st id a : represents c0 d0 infos b st -> sp_open b !! id = Some a ->
  exists fi f, infos !! id = Some fi /\ of_files st !! id = Some f /\ opened_file c0 fi f (of_c st) a /\
    sp_stored b !! id = None.
Proof.
  intros [_ _ _ Hfiles Hnone] Hs. destruct (infos !! id) as [fi|] eqn:Hfi.
  - specialize (Hfiles id fi Hfi). unfold same_state in Hfiles. rewrite Hs in Hfiles.
    destruct (sp_stored b !! id), (of_files st !! id) as [f|]; try done. by exists fi, f.
  - destruct (Hnone id Hfi) as (_ & Hx & _). congruence.
Qed.

(** A call on an open file. *)
Lemma file_call op a b st id :
  represents c0 d0 infos b st -> sp_open b !! id = Some a -> op_allowed a op ->
  matches (represents c0 d0 infos) (spec_fs (id, FileOp op) b) (fs_run fuel infos (id, FileOp op) st).
Proof.
  intros Hrep Ha Hop. destruct (represents_open b st id a Hrep Ha) as (fi & f & Hfi & Hf & [Hl Habs Hn Hreg Hun] & Hst).
  pose proof Hrep as [_ [bf Hc] Hd _ _]. unfold spec_fs, fs_run, call_run. cbn [fst snd]. rewrite Ha, Hf.
  set (s := mk_fst f (of_c st)) in *. rewrite <- Habs in Hop |- *.
  pose proof (op_run (fi_blocks fi) op s Hl (proj1 (op_allowed_errno ENONE _ op) Hop)) as Hrun.
  pose proof (spec_op_errno ENONE op (abstract (fi_blocks fi) s)) as Herr. unfold matches in *.
  destruct (spec_op op (abstract (fi_blocks fi) s)) as [[r a']|flt]; [|by rewrite Herr; cbn; rewrite Hrun].
  destruct Herr as [e' ->]. destruct Hrun as (s' & Hrun & [Hl' Habs' Hctx' [Hn' Hm' Hun'] Hvol' Hoth']).
  cbn [mbind res_bind]. rewrite Hrun. cbn [mbind res_bind]. eexists. split; [reflexivity|].
  assert (Hok' : fs_ok (s_c s')) by (by destruct (lo_open _ _ Hl') as [[]]).
  destruct (layout_inode (c_dev (of_c st)) id fi Hd Hfi) as [Hlba Hil]. pose proof (il_slot _ _ _ Hil) as Hin. rewrite Hlba in Hin.
  assert (Hoth : forall m, in_volume (c_dev (of_c st)) m -> ~ File fi m -> dev_sector (c_dev (s_c s')) m = dev_sector (c_dev (of_c st)) m)
    by (intros m Hm Hnm; apply Hoth'; [done | change (c_ctx (s_c s)) with (c_ctx (of_c st)); by rewrite Hc]).
  assert (Hslot : dev_sector (c_dev (s_c s')) (Slot fi) = dev_sector (c_dev (of_c st)) (Slot fi))
    by (apply Hoth; [done | by apply (vl_slot _ _ _ _ Hlay id id)]).
  assert (Hof : only_file fi (c_dev (of_c st)) (c_dev (s_c s')))
    by (split; [apply Hok' | exact Hvol' | auto | intros; by rewrite Hslot]).
  pose proof (only_file_layout fi _ _ id Hfi Hof Hd) as Hd'.
  eapply (represents_step b st _ _ id fi Hrep Hfi); cbn [of_c of_files sp_stored sp_open]; [exact Hok' | | exact Hof | |].
  - exists bf. by rewrite Hctx'.
  - intros j Hj. rewrite !lookup_insert_ne by done. done.
  - unfold same_state. cbn [of_c of_files sp_stored sp_open]. rewrite Hst, !lookup_insert_eq.
    split; [by destruct s' | rewrite <- Habs'; by destruct s' | by rewrite Hn' | by rewrite Hm' |].
    intros Hfl. destruct (Hun' Hfl) as [Hfl0 Heq]. rewrite Heq. change (fe_inode (s_fe s)) with (fe_inode f). rewrite <- (Hun Hfl0). unfold inode_on_disk.
    destruct (layout_inode (c_dev (s_c s')) id fi Hd' Hfi) as [-> _]. by rewrite Hlba, Hslot.
Qed.

(** A file that was just opened is its stored array. *)
Lemma opened_fresh id fi c stored flags s :
  (exists bf, c_ctx c = set_sysbuf bf c0) -> at_layout (c_dev c) -> infos !! id = Some fi ->
  stored_file c0 fi (c_dev c) stored -> looks (c_ctx c) (c_dev c) s ->
  fe_inode (s_fe s) = inode_on_disk (c_ctx c) (c_dev c) (fi_ino fi) -> fe_inode_number (s_fe s) = fi_ino fi ->
  fe_cursor (s_fe s) = 0 -> fe_flags (s_fe s) = access_flags flags EXT2_FLAG_READ ->
  opened_file c0 fi (s_fe s) (s_c s) (opened_bytes flags stored).
Proof.
  intros [bf Hc] Hd Hfi [Hdata Hlen Hfit Hb Hreg] [Hop Hcl Hdev [bf' Hctx]] Hino Hn Hcur Hfl.
  assert (Hi : fe_inode (s_fe s) = inode_on_disk c0 (c_dev c) (fi_ino fi)) by (by rewrite Hino, Hc).
  assert (Hs : mk_fst (s_fe s) (s_c s) = s) by (by destruct s).
  assert (Hv : view s = c_dev c) by (by rewrite clean_view).
  assert (Hcs : c_ctx (s_c s) = set_sysbuf bf' c0) by (by rewrite Hctx, Hc).
  assert (Hcap : capacity (fi_blocks fi) (c_ctx (s_c s)) = capacity (fi_blocks fi) c0) by (by rewrite Hcs).
  assert (Hlba : forall p, file_lba (fi_blocks fi) (c_ctx (s_c s)) p = file_lba (fi_blocks fi) c0 p) by (intros p; by rewrite Hcs).
  split; rewrite ?Hs; try done.
  - split; rewrite ?Hcap, ?Hv, ?Hcur; try done.
    + by apply (vl_direct _ _ _ _ Hlay id).
    + intros k b Hk. rewrite Hi. split; [by apply Hb | by apply (vl_positive _ _ _ _ Hlay id fi k)].
    + by apply (vl_distinct _ _ _ _ Hlay id).
    + intros p Hp. rewrite Hlba. by apply (file_in_volume (c_dev c) id).
    + by apply (vl_capacity _ _ _ _ Hlay id).
    + rewrite Hi, Hlen. done.
  - unfold abstract, opened_bytes, set_bf_errno.
    cbn [bf_data bf_size bf_cursor bf_write bf_append bf_touched]. rewrite Hcur, Hi, Hlen, Hfl, <- Hdata, Hv.
    assert (file_bytes (fi_blocks fi) (c_ctx (s_c s)) (c_dev c) = file_bytes (fi_blocks fi) c0 (c_dev c)) as -> by (by rewrite Hcs).
    unfold access_flags. by destruct (has_flag flags O_RDWR), (has_flag flags O_WRONLY), (has_flag flags O_APPEND).
  - by rewrite Hi.
  - intros _. by rewrite Hdev.
Qed.

Lemma open_call flags mode de b st id :
  (forall t, env_malloc t = true) -> represents c0 d0 infos b st -> fs_allowed b (id, OpenOp flags mode de) ->
  matches (represents c0 d0 infos) (spec_fs (id, OpenOp flags mode de) b) (fs_run fuel infos (id, OpenOp flags mode de) st).
Proof.
  intros Hmem Hrep ([stored Hst] & Hde & Htr & Hex). cbn [fst snd] in *.
  destruct (represents_stored b st id stored Hrep Hst) as (fi & Hfi & Hsf & Ho & Hf).
  pose proof Hrep as [Hok [bf Hc] Hd _ _]. unfold spec_fs, fs_run. rewrite Hst, Hfi.
  destruct (layout_inode (c_dev (of_c st)) id fi Hd Hfi) as [Hlba Hil].
  assert (Hw : walk fuel (c_ctx (of_c st)) (c_dev (of_c st)) EXT2_ROOT_INO (path_elements (fi_path fi)) (Some (fi_ino fi))).
  { rewrite Hc. apply walk_sysbuf. by apply (vl_path _ _ _ _ Hlay id fi Hfi); apply Hd. }
  unfold ext2_open. cbn [ext2_open_rec]. set (a := append_with _ _).
  destruct (open_body_found a fuel (fi_path fi) flags mode de (of_c st) (fi_ino fi) Hok Hde Hw)
    as (de' & s & Hs & Hi & Hn & Hcur & Hfl & Hbody); [rewrite Hc; by apply located_sysbuf|].
  pose proof Hs as [Hop Hcl Hdev [bf' Hctx]].
  assert (Hrun : open_existing flags (Z.land mode 512) s = Ok (true, s)).
  { rewrite open_existing_run by (unfold truncates; by rewrite Htr). unfold open_error. rewrite Hex, Hi, Hctx, Hc.
    change (inode_on_disk (set_sysbuf bf c0)) with (inode_on_disk c0). rewrite (st_regular _ _ _ _ Hsf).
    change (read_only (set_sysbuf bf' (set_sysbuf bf c0))) with (read_only c0). rewrite (vl_writable _ _ _ _ Hlay).
    by destruct (negb _). }
  rewrite (open_run a fuel (fi_path fi) flags mode de (of_c st) true de' s (Hmem _)) by
    (rewrite Hbody; by erewrite bind_ok by exact Hrun).
  cbn [mbind res_bind]. eexists. split; [reflexivity|].
  eapply (represents_step b st _ _ id fi Hrep Hfi); cbn [of_c of_files sp_stored sp_open].
  - by destruct Hop as [[]].
  - exists bf'. by rewrite Hctx, Hc.
  - rewrite Hdev. split; [apply Hd | done | done | done].
  - intros j Hj. rewrite !lookup_insert_ne, lookup_delete_ne by done. done.
  - unfold same_state. cbn [of_c of_files sp_stored sp_open]. rewrite lookup_delete_eq, !lookup_insert_eq.
    apply (opened_fresh id fi (of_c st)); try done. by exists bf.
Qed.

(** Closing a file: the volume changes in the file's sectors and in its inode, which is the one of the
    open file. *)
Lemma closed_volume id fi f c :
  (exists bf, c_ctx c = set_sysbuf bf c0) -> at_layout (c_dev c) -> infos !! id = Some fi ->
  laid_out (fi_blocks fi) (mk_fst f c) -> fe_inode_number f = fi_ino fi ->
  (has_flag (fe_flags f) EXT2_FLAG_FS_DIRTY = false -> inode_on_disk c0 (c_dev c) (fi_ino fi) = fe_inode f) ->
  exists c', h_close (OpenFile f) c = Ok ((0, FreedFile), c') /\ fs_ok c' /\
    (exists bf, c_ctx c' = set_sysbuf bf c0) /\ only_file fi (c_dev c) (c_dev c') /\
    (forall m, in_volume (c_dev c) m -> File fi m -> dev_sector (c_dev c') m = dev_sector (view (mk_fst f c)) m) /\
    inode_on_disk c0 (c_dev c') (fi_ino fi) = fe_inode f.
Proof.
  intros [bf Hc] Hd Hfi Hl Hn Hun. set (s := mk_fst f c) in *.
  destruct (layout_inode (c_dev c) id fi Hd Hfi) as [Hlba Hil].
  assert (Hvv : forall m, in_volume (view s) m <-> in_volume (c_dev c) m) by (intros m; by apply view_volume, (lo_open _ _ Hl)).
  assert (Hout : forall m, in_volume (c_dev c) m -> ~ File fi m -> dev_sector (view s) m = dev_sector (c_dev c) m).
  { intros m Hm Hnm. apply (view_outside (fi_blocks fi)); [done | by apply Hvv |].
    change (c_ctx (s_c s)) with (c_ctx c). by rewrite Hc. }
  assert (Hnf : ~ File fi (Slot fi)) by (by apply (vl_slot _ _ _ _ Hlay id id)).
  destruct (located_same c0 (c_dev c) (view s) (fi_ino fi) Hvv) as [Hlbav Hilv];
    [apply Hout; [apply Hil | by apply (vl_desc _ _ _ _ Hlay id id)] | done |].
  pose proof (il_slot _ _ _ Hil) as Hin. rewrite Hlba in Hin.
  destruct (close_effect (fi_ino fi) s (lo_open _ _ Hl) Hn) as (s' & Hrun & Hok & [bf' Hctx] & Hvol & Hoth & Hslice & Hdisk);
    change (c_ctx (s_c s)) with (c_ctx c) in *; rewrite ?Hc; [by apply located_sysbuf | |].
  { change (ino_lba (set_sysbuf bf c0)) with (ino_lba c0). change (ino_desc_lba (set_sysbuf bf c0)) with (ino_desc_lba c0).
    rewrite Hlbav, Hlba. by apply (vl_slot_desc _ _ _ _ Hlay id id). }
  apply h_close_ok in Hrun. cbv zeta in Hoth, Hslice. change (fe_inode (s_fe s)) with (fe_inode f) in Hdisk.
  change (fe_flags (s_fe s)) with (fe_flags f) in Hdisk. rewrite Hc in *. change (ino_lba (set_sysbuf bf c0)) with (ino_lba c0) in *.
  change (ino_off (set_sysbuf bf c0)) with (ino_off c0) in *.
  change (inode_on_disk (set_sysbuf bf c0)) with (inode_on_disk c0) in *. rewrite Hlbav, Hlba in *.
  exists (s_c s'). split; [done|]. split; [done|]. split; [by exists bf'|]. split; [split|split].
  - apply Hok.
  - intros m. by rewrite Hvol.
  - intros m Hm Hnm Hns. rewrite Hoth by (try done; by apply Hvv). by apply Hout.
  - intros off k Ho Hk Hr. rewrite Hslice by done. by rewrite Hout.
  - intros m Hm Hfm. apply Hoth; [by apply Hvv | intros ->; by apply Hnf].
  - rewrite Hdisk. destruct (has_flag (fe_flags f) EXT2_FLAG_FS_DIRTY); [done|].
    rewrite <- Hun by done. unfold inode_on_disk. by rewrite Hlbav, Hlba, Hout.
Qed.

Lemma close_call a b st id :
  represents c0 d0 infos b st -> sp_open b !! id = Some a ->
  matches (represents c0 d0 infos) (spec_fs (id, CloseOp) b) (fs_run fuel infos (id, CloseOp) st).
Proof.
  intros Hrep Ha. destruct (represents_open b st id a Hrep Ha) as (fi & f & Hfi & Hf & [Hl Habs Hn Hreg Hun] & Hst).
  pose proof Hrep as [Hok Hc Hd _ _]. unfold spec_fs, fs_run. rewrite Ha, Hf.
  destruct (closed_volume id fi f (of_c st) Hc Hd Hfi Hl Hn Hun) as (c' & Hrun & Hok' & Hc' & Hof & Hdata & Hdisk).
  rewrite Hrun. cbn [mbind res_bind]. eexists. split; [reflexivity|].
  eapply (represents_step b st _ _ id fi Hrep Hfi); cbn [of_c of_files sp_stored sp_open]; [done | done | done | |].
  - intros j Hj. rewrite lookup_insert_ne, !lookup_delete_ne by done. done.
  - unfold same_state. cbn [of_c of_files sp_stored sp_open]. rewrite lookup_insert_eq, !lookup_delete_eq.
    rewrite <- Habs. destruct Hc as [bf Hc]. pose proof Hl as [_ _ Hb _ _ _ Hsz _ _]. cbn [s_fe s_c] in *.
    split; rewrite ?Hdisk; cbn [fst snd set_bf_errno abstract bf_data bf_size s_fe s_c]; rewrite ?Hc in *; try done.
    + change (file_bytes (fi_blocks fi) (set_sysbuf bf c0)) with (file_bytes (D := D) (fi_blocks fi) c0).
      apply file_bytes_ext. intros p Hp. apply Hdata; [by apply (file_in_volume (c_dev (of_c st)) id) | by exists p].
    + intros k b' Hk. by apply Hb.
Qed.

(** Every call answers what the specification answers. *)
Lemma fs_simulates : (forall t, env_malloc t = true) ->
  simulates (represents c0 d0 infos) fs_allowed spec_fs (fs_run fuel infos).
Proof.
  intros Hmem [id op] b st Hrep Hop. destruct op as [flags mode de|op|].
  - by apply open_call.
  - unfold fs_allowed in Hop. cbn [fst snd] in Hop. destruct (sp_open b !! id) as [a|] eqn:Ha; [|done].
    by apply (file_call op a).
  - destruct Hop as [a Ha]. by apply (close_call a).
Qed.
End fs_facts.

(** * Properties *)
Section fs_properties.
Context {D : Type} `{Env, BlockDeviceLaws D}.

(** C2: the file system is a table of byte arrays: over a volume on which the files lie apart, any
    interleaving of opens, reads, writes, seeks, status calls and closes on any of the files gives the
    answers of a specification that keeps one array of bytes per file, so that what is written to a file
    is what is read from it, within a session, in the next one, and whatever happens to the other files
    in between; the volume is left such that the same holds for everything that follows, and nothing
    outside the files and their inodes has changed. The calls neither create nor truncate files, and reads
    and writes stay within the direct blocks the files have. *)
Theorem file_system_refines fuel c0 (d0 : D) infos b st calls :
  volume_layout fuel c0 d0 infos -> (forall t, env_malloc t = true) ->
  represents c0 d0 infos b st -> all_allowed fs_allowed spec_fs calls b ->
  match run_ops spec_fs calls b with
  | Ok (answers, b') => exists st', run_ops (fs_run fuel infos) calls st = Ok (answers, st') /\
      represents c0 d0 infos b' st' /\
      forall m, in_volume d0 m -> ~ fs_sector c0 d0 infos m -> dev_sector (c_dev (of_c st')) m = dev_sector d0 m
  | Fault f => run_ops (fs_run fuel infos) calls st = Fault f
  end.
Proof.
  intros Hlay Hmem Hrep Hall. pose proof (fs_simulates fuel c0 d0 infos Hlay Hmem) as Hsim.
  pose proof (simulates_run calls b st Hsim Hrep Hall) as Hrun. unfold matches in Hrun.
  destruct (run_ops spec_fs calls b) as [[answers b']|f]; [|done].
  destruct Hrun as (st' & Hrun & Hrep'). exists st'. split; [done|]. split; [done | apply Hrep'].
Qed.
End fs_properties.
