(* ===== verification/Volume.v ===== *)
(** * A volume that is mounted, used and unmounted

    The whole life of a volume: any number of sessions, each of which mounts it,
    calls the file system and unmounts it. The table of byte arrays of [FileSystem]
    is all that the sessions of one volume share: what one session stored, the next
    one finds. [Super], [FileSystem] and [DeviceInv] are composed here. *)
From stdpp Require Import gmap.
From S2P Require Import Prelude Hoare Layout OnDisk Device Context Bitmap Super FileBuf Inode BlockMap Alloc FileIo FileSpec Files Directory Walk Lookup DeviceInv FileSystem.

(** ** The sessions *)

(** The calls on the files of a mounted volume; no file is open at the start. *)
Definition calls_run {D} `{BlockDevice D, Env} (fuel : nat) (infos : gmap nat file_info) (calls : list (nat * fs_op)) :
    M (cst D) (list answer) := fun c =>
  '(rs, st) ← run_ops (fs_run fuel infos) calls (mk_open_files ∅ c);
  Ok (rs, of_c st).

Definition session_run {D} `{BlockDevice D, Env} (fuel : nat) (infos : gmap nat file_info) (ps vs hint : Z)
    (calls : list (nat * fs_op)) : M (cst D) (list answer) :=
  '(rc, context) ← p_mount ps vs hint;
  if negb (rc =? 0) then mret [Status rc]
  else
    rs ← through context (calls_run fuel infos calls);
    '(rc', _) ← p_umount context;
    mret (Status rc :: rs ++ [Status rc']).

(** The specification: the stored files, and nothing else. *)
Definition spec_session (calls : list (nat * fs_op)) : M (gmap nat (list Z * Z)) (list answer) := fun stored =>
  '(rs, b) ← run_ops spec_fs calls (mk_fs_spec stored ∅);
  Ok (Status 0 :: rs ++ [Status 0], sp_stored b).

(** Every call is allowed where it is made, and every file is closed at the end. *)
Definition session_allowed (stored : gmap nat (list Z * Z)) (calls : list (nat * fs_op)) : Prop :=
  all_allowed fs_allowed spec_fs calls (mk_fs_spec stored ∅) /\
  match run_ops spec_fs calls (mk_fs_spec stored ∅) with Ok (_, b) => sp_open b = ∅ | Fault _ => True end.

#[export] Instance session_allowed_dec stored calls : Decision (session_allowed stored calls).
Proof. unfold session_allowed. apply and_dec; [apply _|]. case_match; [case_match|]; apply _. Defined.

(** ** The volume *)

(** What mounting and unmounting leave of the superblock. *)
Definition fixed_sb (r : superblock) : superblock :=
  set_s_mtime 0 (set_s_mnt_count 0 (set_s_state 0 (set_s_block_group_nr 0 r))).

Section volume.
Context {D : Type} `{Env, BlockDevice D, BlockView D}.
Variables (fuel : nat) (ps vs : Z) (d0 : D) (infos : gmap nat file_info).

(** The context that mounting the volume gives, but for the superblock's counters and the buffer. *)
Definition volume_ctx : ext2context :=
  let r := mount_sb d0 ps in
  mk_context ps r (mount_sparse r) (replicate 512 0) (mount_first r) 0 (mount_nbg r)
    (Z.of_nat (length (mount_blocks r))) (mount_blocks r).

(** The sectors of the superblock's copies. *)
Definition super_sector (m : Z) : Prop :=
  exists b, b ∈ mount_blocks (mount_sb d0 ps) /\ m = mounted_sector (mount_sb d0 ps) ps b.

Definition written_sector (m : Z) : Prop := fs_sector volume_ctx d0 infos m \/ super_sector m.

(** The files lie apart from each other and from the copies of the superblock. *)
Record volume : Prop := {
  vd_mountable : mountable d0 ps vs;
  vd_layout : volume_layout fuel volume_ctx d0 infos;
  vd_path id fi : infos !! id = Some fi -> path_leads fuel volume_ctx d0 (fi_path fi) (fi_ino fi) written_sector;
  vd_files m : super_sector m -> ~ fs_sector volume_ctx d0 infos m;
  vd_desc m id fi : super_sector m -> infos !! id = Some fi -> m <> ino_desc_lba volume_ctx (fi_ino fi);
  vd_primary : ~ fs_sector volume_ctx d0 infos (ps + 2)
}.

(** The volume between two sessions: the files are stored, and the rest is as it was but for the copies
    of the superblock. What the memory of the driver holds does not matter. *)
Record volume_holds (stored : gmap nat (list Z * Z)) (s : cst D) : Prop := {
  vh_ok : dev_ok (c_dev s);
  vh_writable : block_get_device_read_only (c_dev s) = 0;
  vh_volume m : in_volume (c_dev s) m <-> in_volume d0 m;
  vh_rest m : in_volume d0 m -> ~ written_sector m -> dev_sector (c_dev s) m = dev_sector d0 m;
  vh_super : fixed_sb (mount_sb (c_dev s) ps) = fixed_sb (mount_sb d0 ps);
  vh_files id fi : infos !! id = Some fi ->
    exists x, stored !! id = Some x /\ stored_file volume_ctx fi (c_dev s) x;
  vh_none id : infos !! id = None -> stored !! id = None
}.
End volume.

(** * Facts *)

(** ** Files under a context of the same geometry *)
Section geometry.
Context {D : Type} `{BlockDevice D, BlockView D}.
Variables (c c' : ext2context).
Hypothesis Hg : same_geometry c c'.
Implicit Types (d : D) (bl : list Z).

(** A stored file whose inode and sectors are where they were. *)
Lemma stored_moved fi d d' x :
  stored_file c fi d x -> inode_on_disk c d' (fi_ino fi) = inode_on_disk c d (fi_ino fi) ->
  (forall p, 0 <= p < capacity (fi_blocks fi) c ->
     dev_sector d' (file_lba (fi_blocks fi) c p) = dev_sector d (file_lba (fi_blocks fi) c p)) ->
  stored_file c' fi d' x.
Proof.
  intros [Hdata Hlen Hfit Hb Hreg] Hino Hsec.
  split; rewrite ?(geo_disk c c' Hg), ?Hino, ?(geo_capacity c c' Hg); try done.
  rewrite (geo_file_bytes c c' Hg), <- Hdata. by apply file_bytes_ext.
Qed.
End geometry.

(** ** The layout outlives a session *)
Section layout_facts.
Context {D : Type} `{Env, BlockDeviceLaws D}.
Variables (fuel : nat) (ps vs : Z) (d0 : D) (infos : gmap nat file_info).
Hypothesis Hvol : volume fuel ps vs d0 infos.
Implicit Types (d : D) (c : ext2context) (fi : file_info).
#[local] Abbreviation c0 := (volume_ctx ps d0).
#[local] Abbreviation Written := (written_sector ps d0 infos).
#[local] Abbreviation Files := (fs_sector c0 d0 infos).
#[local] Abbreviation Super := (super_sector ps d0).

(** A device that has only changed where sessions write. *)
Record resembles d : Prop := {
  rs_ok : dev_ok d;
  rs_volume m : in_volume d m <-> in_volume d0 m;
  rs_rest m : in_volume d0 m -> ~ Written m -> dev_sector d m = dev_sector d0 m
}.

Lemma resembles_step d d' :
  resembles d -> dev_ok d' -> (forall m, in_volume d' m <-> in_volume d m) ->
  (forall m, in_volume d m -> ~ Written m -> dev_sector d' m = dev_sector d m) -> resembles d'.
Proof.
  intros [_ Hv Hr] Hok Hv' Hr'. split; [done | intros m; by rewrite Hv'|].
  intros m Hm Hn. rewrite Hr', Hr by (try done; by apply Hv). done.
Qed.

Lemma desc_not_written id fi : infos !! id = Some fi -> ~ Written (ino_desc_lba c0 (fi_ino fi)).
Proof.
  pose proof (vd_layout _ _ _ _ _ Hvol) as Hlay. intros Hfi [(j & fj & Hfj & [Hin|Heq])|Hs].
  - by apply (vl_desc _ _ _ _ Hlay id j fi fj).
  - by apply (vl_slot_desc _ _ _ _ Hlay j id fj fi).
  - by apply (vd_desc _ _ _ _ _ Hvol _ id fi Hs).
Qed.

Lemma moved_inode d id fi : resembles d -> infos !! id = Some fi ->
  ino_lba c0 d (fi_ino fi) = slot c0 d0 fi /\ inode_located c0 d (fi_ino fi).
Proof.
  intros [Hok Hv Hr] Hfi. pose proof (vl_located _ _ _ _ (vd_layout _ _ _ _ _ Hvol) id fi Hfi) as Hil.
  apply (located_same c0 d0 d); [exact Hv | | exact Hil]. apply Hr; [apply Hil | by apply (desc_not_written id)].
Qed.

(** The sectors that calls may write, after the geometry was read again. *)
Lemma slot_moved c d id fi : resembles d -> same_geometry c0 c -> infos !! id = Some fi -> slot c d fi = slot c0 d0 fi.
Proof. intros Hd Hg Hfi. unfold slot at 1. rewrite (geo_lba c0 c Hg). by apply (moved_inode d id fi). Qed.

Lemma fs_sector_moved c d m : resembles d -> same_geometry c0 c -> fs_sector c d infos m <-> Files m.
Proof.
  intros Hd Hg. unfold fs_sector, file_of. split; intros (id & fi & Hfi & Hm); exists id, fi; (split; [done|]);
    rewrite (slot_moved c d id fi), (geo_file_sector c0 c Hg) in *; done.
Qed.

Lemma layout_moved c d : resembles d -> same_geometry c0 c -> ctx_ok c -> volume_layout fuel c d infos.
Proof.
  intros Hd Hg Hc. pose proof Hd as [Hok Hv Hr].
  destruct (vd_layout _ _ _ _ _ Hvol) as [_ Hro _ Hdir Hdis Hpos Hcap Hin Hsep Hloc Hsl Hde Hsd Hss _].
  split; try done.
  - by rewrite (sg_read_only _ _ Hg).
  - intros id fi Hfi. rewrite (geo_capacity c0 c Hg). by apply (Hcap id).
  - intros id fi p Hfi Hp. rewrite (geo_capacity c0 c Hg) in Hp. rewrite (geo_file_lba c0 c Hg). by apply Hv, (Hin id).
  - intros id fi Hfi. apply (geo_located c0 c Hg). by apply (moved_inode d id fi).
  - intros i j fi fj Hi Hj. unfold file_of. rewrite (geo_file_sector c0 c Hg), (slot_moved c d i fi) by done.
    by apply (Hsl i j).
  - intros i j fi fj Hi Hj. unfold file_of. rewrite (geo_file_sector c0 c Hg), (geo_desc c0 c Hg). by apply (Hde i j).
  - intros i j fi fj Hi Hj. rewrite (slot_moved c d i fi), (geo_desc c0 c Hg) by done. by apply (Hsd i j).
  - intros i j fi fj Hne Hi Hj. rewrite (slot_moved c d i fi), (slot_moved c d j fj), !(geo_off c0 c Hg) by done.
    by apply (Hss i j).
  - intros id fi Hfi. apply (path_leads_step fuel c0 c d0 d _ _ Written Written); try done.
    + by apply (vd_path _ _ _ _ _ Hvol id).
    + intros m Hm. left. by apply (fs_sector_moved c d).
Qed.

(** Files stay as they are when only copies of the superblock are written. *)
Lemma stored_kept_by_super c c' d d' id fi x :
  resembles d -> resembles d' -> same_geometry c0 c -> same_geometry c0 c' -> infos !! id = Some fi ->
  (forall m, in_volume d m -> ~ Super m -> dev_sector d' m = dev_sector d m) ->
  stored_file c fi d x -> stored_file c' fi d' x.
Proof.
  intros Hd Hd' Hg Hg' Hfi Hs Hst. assert (Hcc : same_geometry c c') by (transitivity (volume_ctx ps d0); [by symmetry | done]).
  assert (Hfile : forall m, in_volume d m -> Files m -> dev_sector d' m = dev_sector d m)
    by (intros m Hm Hf; apply Hs; [done | intros Hx; by apply (vd_files _ _ _ _ _ Hvol m Hx)]).
  apply (stored_moved c c' Hcc fi d d' x Hst).
  - rewrite !(geo_disk c0 c Hg). unfold inode_on_disk. destruct (moved_inode d id fi Hd Hfi) as [Hlba Hil].
    destruct (moved_inode d' id fi Hd' Hfi) as [Hlba' _]. pose proof (il_slot _ _ _ Hil) as Hin. rewrite Hlba', Hlba in *.
    rewrite Hfile; [done | done|]. exists id, fi. auto.
  - intros p Hp. rewrite (geo_capacity c0 c Hg) in Hp. rewrite !(geo_file_lba c0 c Hg). apply Hfile.
    + apply (rs_volume _ Hd). by apply (vl_volume _ _ _ _ (vd_layout _ _ _ _ _ Hvol) id).
    + exists id, fi. split; [done|]. left. by exists p.
Qed.
End layout_facts.

(** ** The superblock *)

Lemma fixed_field {A} (f : superblock -> A) r r' :
  (forall r, f (fixed_sb r) = f r) -> fixed_sb r = fixed_sb r' -> f r = f r'.
Proof. intros Hf Heq. by rewrite <- Hf, Heq, Hf. Qed.

Lemma fixed_blocks r r' : fixed_sb r = fixed_sb r' ->
  mount_blocks r = mount_blocks r' /\ mount_nbg r = mount_nbg r' /\ mount_first r = mount_first r' /\
  s_log_block_size r = s_log_block_size r' /\ s_blocks_per_group r = s_blocks_per_group r'.
Proof. intros Heq. repeat split; revert Heq; apply fixed_field; by intros []. Qed.

Lemma fixed_mounted now nr r : fixed_sb (set_s_block_group_nr nr (mounted_sb now r)) = fixed_sb r.
Proof. by destruct r. Qed.
Lemma fixed_nr nr r : fixed_sb (set_s_block_group_nr nr r) = fixed_sb r.
Proof. by destruct r. Qed.
(** What the next mount reads of a copy. *)
Lemma decode_image_slice r b : cs_wf r -> decode (slice 0 264 (sb_image r b)) = set_s_block_group_nr (u16 b) r.
Proof.
  intros Hr. assert (Hw : cs_wf (set_s_block_group_nr (u16 b) r)) by (apply wf_set_s_block_group_nr; [done | apply fits_u16]).
  unfold sb_image, slice. rewrite drop_0, take_app_length' by (by rewrite length_encode_sb). by apply decode_encode.
Qed.

Section super.
Context {D : Type} `{Env, BlockDeviceLaws D}.
Implicit Types (d : D).

Lemma fixed_sector r r' ps b : fixed_sb r = fixed_sb r' -> mounted_sector r ps b = mounted_sector r' ps b.
Proof. intros (_ & _ & _ & Hl & _)%fixed_blocks. unfold mounted_sector. by rewrite Hl. Qed.

Lemma mountable_same ps vs d0 d :
  mountable d0 ps vs -> dev_ok d -> (forall m, in_volume d m <-> in_volume d0 m) ->
  fixed_sb (mount_sb d ps) = fixed_sb (mount_sb d0 ps) -> mountable d ps vs.
Proof.
  intros [[Hj Hd0 Hp Hin] Hmagic Hlog Hsize Hbpg Hn Hcp] Hd Hv Heq.
  destruct (fixed_blocks _ _ Heq) as (Hbl & Hnbg & _ & Hlogr & Hbpgr).
  assert (s_magic (mount_sb d ps) = s_magic (mount_sb d0 ps) /\
    s_blocks_count (mount_sb d ps) = s_blocks_count (mount_sb d0 ps)) as [Hm Hc].
  { split; revert Heq; apply fixed_field; by intros []. }
  split; rewrite ?Hm, ?Hc, ?Hbl, ?Hnbg, ?Hlogr, ?Hbpgr;
    [split; [exact Hj | exact Hd | exact Hp | by apply Hv] | exact Hmagic | exact Hlog | exact Hsize | exact Hbpg | exact Hn |].
  intros b Hb. rewrite (fixed_sector _ _ ps b Heq). by apply Hv, Hcp.
Qed.

(** Flushing the superblock of a context that is the volume's changes the copies only, and the superblock
    that the next mount reads stays the volume's. *)
Lemma flush_volume ps d0 s s' :
  fs_ok s -> part_start (c_ctx s) = ps -> fixed_sb (ctx_superblock (c_ctx s)) = fixed_sb (mount_sb d0 ps) ->
  in_volume (c_dev s) (ps + 2) -> fixed_sb (mount_sb (c_dev s) ps) = fixed_sb (mount_sb d0 ps) ->
  flushed (mount_blocks (mount_sb d0 ps)) s s' ->
  (forall m, in_volume (c_dev s') m <-> in_volume (c_dev s) m) /\
  (forall m, in_volume (c_dev s) m -> ~ super_sector ps d0 m -> dev_sector (c_dev s') m = dev_sector (c_dev s) m) /\
  fixed_sb (mount_sb (c_dev s') ps) = fixed_sb (mount_sb d0 ps).
Proof.
  intros Hs Hps Hfix Hin Hold [_ _ Hv _ Hcp Hoth].
  assert (Hlba : forall b, sb_lba (c_ctx s) b = mounted_sector (mount_sb d0 ps) ps b).
  { intros b. rewrite <- (fixed_sector _ _ ps b Hfix). unfold sb_lba, mounted_sector, spb, bsz. by rewrite Hps. }
  assert (Hrest : forall m, in_volume (c_dev s) m -> ~ super_sector ps d0 m -> dev_sector (c_dev s') m = dev_sector (c_dev s) m).
  { intros m Hm Hn. apply Hoth; [done|]. intros b Hb ->. apply Hn. exists b. by rewrite Hlba. }
  split; [intros m; unfold in_volume; by rewrite Hv|]. split; [done|].
  destruct (decide (Exists (fun b => ps + 2 = sb_lba (c_ctx s) b) (mount_blocks (mount_sb d0 ps)))) as [Hex|Hno].
  - apply list.Exists_exists in Hex as (b & Hb & Heq). rewrite <- Hfix. unfold mount_sb at 1. rewrite Heq, Hcp by exact Hb. rewrite decode_image_slice by apply Hs. apply fixed_nr.
  - rewrite <- Hold. unfold mount_sb. rewrite Hrest; [done | done|]. intros (b & Hb & Heq). apply Hno, list.Exists_exists.
    exists b. by rewrite Hlba.
Qed.
End super.

(** ** A session *)
Section session_facts.
Context {D : Type} `{Env, BlockDeviceLaws D, !SteadyProtection D}.
Variables (fuel : nat) (ps vs : Z) (d0 : D) (infos : gmap nat file_info).
Hypothesis Hvol : volume fuel ps vs d0 infos.
Hypothesis Hmem : forall t, env_malloc t = true.
Implicit Types (s : cst D) (stored : gmap nat (list Z * Z)).
#[local] Abbreviation c0 := (volume_ctx ps d0).
#[local] Abbreviation r0 := (mount_sb d0 ps).

(** The mounted volume while no file is open. *)
Record mounted_with stored s : Prop := {
  mw_ok : fs_ok s;
  mw_geometry : same_geometry c0 (c_ctx s);
  mw_device : resembles ps d0 infos (c_dev s);
  mw_protection : block_get_device_read_only (c_dev s) = 0;
  mw_blocks : superblock_blocks (c_ctx s) = mount_blocks r0;
  mw_count : num_superblocks (c_ctx s) = Z.of_nat (length (mount_blocks r0));
  mw_super : fixed_sb (ctx_superblock (c_ctx s)) = fixed_sb r0;
  mw_primary : fixed_sb (mount_sb (c_dev s) ps) = fixed_sb r0;
  mw_files id fi : infos !! id = Some fi ->
    exists x, stored !! id = Some x /\ stored_file (c_ctx s) fi (c_dev s) x;
  mw_none id : infos !! id = None -> stored !! id = None
}.

Lemma steady_writable n buf (d : D) rc d' :
  block_get_device_read_only d = 0 -> block_write n buf d = Ok (rc, d') -> block_get_device_read_only d' = 0.
Proof. intros <- Hrun. by apply (write_protection n buf d rc d'). Qed.

Lemma primary_in_volume d : resembles ps d0 infos d -> in_volume d (ps + 2).
Proof. intros Hd. apply (rs_volume _ _ _ _ Hd). apply (vd_mountable _ _ _ _ _ Hvol). Qed.

(** A flush of the superblock, seen from the volume. *)
Lemma flush_resembles s s' :
  fs_ok s -> resembles ps d0 infos (c_dev s) -> part_start (c_ctx s) = ps ->
  fixed_sb (ctx_superblock (c_ctx s)) = fixed_sb r0 -> fixed_sb (mount_sb (c_dev s) ps) = fixed_sb r0 ->
  flushed (mount_blocks r0) s s' ->
  resembles ps d0 infos (c_dev s') /\ fixed_sb (mount_sb (c_dev s') ps) = fixed_sb r0 /\
  forall m, in_volume (c_dev s) m -> ~ super_sector ps d0 m -> dev_sector (c_dev s') m = dev_sector (c_dev s) m.
Proof.
  intros Hs Hd Hps Hfix Hold Hfl.
  destruct (flush_volume ps d0 s s' Hs Hps Hfix (primary_in_volume _ Hd) Hold Hfl) as (Hv & Hrest & Hnew).
  split; [|split; [exact Hnew | exact Hrest]].
  apply (resembles_step _ _ _ (c_dev s)); [exact Hd | apply (fl_ok _ _ _ Hfl) | exact Hv|].
  intros m Hm Hn. apply Hrest; [exact Hm | intros Hx; apply Hn; by right].
Qed.

Lemma session_mounts hint stored s :
  volume_holds ps d0 infos stored s ->
  exists s', ext2_mount ps vs hint s = Ok (0, s') /\ mounted_with stored s'.
Proof.
  intros [Hok Hro Hv Hrest Hsb Hfiles Hnone].
  assert (Hd : resembles ps d0 infos (c_dev s)) by (split; assumption).
  pose proof (mountable_same ps vs d0 (c_dev s) (vd_mountable _ _ _ _ _ Hvol) Hok Hv Hsb) as Hmt.
  destruct (mount_run ps vs hint s Hmt (Hmem _) (Hmem _)) as (s' & Hrun & Hfl). exists s'. split; [exact Hrun|].
  destruct (fixed_blocks _ _ Hsb) as (Hbl & Hnbg & Hfirst & _ & _). rewrite Hbl in Hfl.
  pose proof (prepared_has ps s) as Hp. revert Hp Hfl. generalize (prepared ps s). intros p Hp Hfl.
  destruct (prepared_ok _ ps vs s p Hmt (fits_u32 _) Hp) as (Hpok & _ & _).
  destruct Hp as [Hpsb Hpbl Hpct Hpnb Hpps Hpf Hpro _ Hpdev]. rewrite Hbl in Hpbl, Hpct.
  assert (Hpfix : fixed_sb (ctx_superblock (c_ctx p)) = fixed_sb r0).
  { rewrite Hpsb, <- Hsb. etransitivity; [|apply (fixed_mounted (u32 (env_time (S (S (c_tick s))))) 0)]. symmetry. apply fixed_nr. }
  pose proof Hfl as [Hok' (k & bf & Hctx) _ _ _ _].
  destruct (flush_resembles p s' Hpok) as (Hd' & Hnew & Hsec); rewrite ?Hpdev; try assumption.
  rewrite Hpdev in Hsec.
  assert (Hgeo : same_geometry c0 (c_ctx s')).
  { rewrite Hctx. transitivity (c_ctx p).
    - split; cbn [volume_ctx part_start superblock_block num_blockgroups read_only ctx_superblock];
        [exact Hpps | congruence | congruence | by rewrite Hpro, Hro |
         revert Hpfix; apply fixed_field; by intros [] ..].
    - etransitivity; [apply (geometry_sysbuf bf) | apply geometry_superblock; intros []; repeat split]. }
  split; try assumption.
  - exact (mount_has _ steady_writable ps vs hint s 0 s' Hro Hrun).
  - by rewrite Hctx.
  - by rewrite Hctx.
  - rewrite Hctx. etransitivity; [apply fixed_nr | exact Hpfix].
  - intros id fi Hfi. destruct (Hfiles id fi Hfi) as (x & Hx & Hst). exists x. split; [exact Hx|].
    by apply (stored_kept_by_super fuel ps vs d0 infos Hvol c0 (c_ctx s') (c_dev s) (c_dev s') id).
Qed.

(** The calls of a session reach the device by writing it, so they leave its protection alone. *)
Lemma file_op_protected op :
  keeps (file_has (fun d : D => block_get_device_read_only d = 0)) (file_op_run op).
Proof.
  destruct op; cbn [file_op_run]; (apply keeps_bind; [|by intros ?; try case_match; apply keeps_ret]).
  - apply read_has, steady_writable.
  - apply write_has, steady_writable.
  - apply lseek_has.
  - apply fstat_has.
Qed.

Lemma calls_protected calls s rs s' :
  calls_run fuel infos calls s = Ok (rs, s') -> block_get_device_read_only (c_dev s) = 0 ->
  block_get_device_read_only (c_dev s') = 0.
Proof.
  assert (Hcall : forall call, keeps (fun st : open_files D => block_get_device_read_only (c_dev (of_c st)) = 0)
    (fs_run fuel infos call)).
  { intros [id [flags mode de|op|]] st r st' Hst; unfold fs_run, call_run; cbn [fst snd].
    - destruct (infos !! id) as [fi|]; [|done].
      destruct (ext2_open fuel (fi_path fi) flags mode de (of_c st)) as [[[h de'] c]|] eqn:Hopen; [|done].
      apply (open_has _ steady_writable) in Hopen; [|exact Hst]. by destruct h; intros [= _ <-].
    - destruct (of_files st !! id) as [f|]; [|done].
      destruct (file_op_run op (mk_fst f (of_c st))) as [[a t]|] eqn:Hop; [|done]. intros [= _ <-].
      by apply file_op_protected in Hop.
    - destruct (of_files st !! id) as [f|]; [|done].
      destruct (h_close (OpenFile f) (of_c st)) as [[[rc h] c]|] eqn:Hclose; [|done].
      apply (h_close_has _ steady_writable) in Hclose; [|exact Hst]. by destruct h; intros [= _ <-]. }
  intros Hrun Hs. unfold calls_run in Hrun.
  destruct (run_ops (fs_run fuel infos) calls (mk_open_files ∅ s)) as [[rs1 st]|] eqn:Hops; [|done].
  injection Hrun as _ <-. eapply (keeps_run_ops _ _ calls Hcall), Hops. exact Hs.
Qed.

Lemma mounted_represents stored s :
  mounted_with stored s ->
  represents (c_ctx s) (c_dev s) infos (mk_fs_spec stored ∅) (mk_open_files ∅ s).
Proof.
  intros [Hok Hgeo Hd Hro Hbl Hct Hsb Hpr Hfiles Hnone]. split; cbn [of_c of_files sp_stored sp_open].
  - exact Hok.
  - exists (sysbuf (c_ctx s)). by destruct (c_ctx s).
  - split; [apply Hok | done | done].
  - intros id fi Hfi. destruct (Hfiles id fi Hfi) as (x & Hx & Hst). unfold same_state.
    cbn [of_c of_files sp_stored sp_open]. by rewrite Hx, !lookup_empty.
  - intros id Hid. rewrite !lookup_empty. auto.
Qed.

Lemma represents_mounted stored s b st :
  mounted_with stored s -> represents (c_ctx s) (c_dev s) infos b st -> sp_open b = ∅ ->
  block_get_device_read_only (c_dev (of_c st)) = 0 -> mounted_with (sp_stored b) (of_c st).
Proof.
  intros [Hok Hgeo Hd _ Hbl Hct Hsb Hpr _ _] [Hok' [bf Hctx] [Hdev Hv Hrest] Hfiles Hnone] Hopen Hro.
  assert (Hg : same_geometry (c_ctx s) (c_ctx (of_c st))) by (rewrite Hctx; apply geometry_sysbuf).
  pose proof (fs_sector_moved fuel ps vs d0 infos Hvol (c_ctx s) (c_dev s)) as Hsec.
  split; try assumption.
  - by transitivity (c_ctx s).
  - apply (resembles_step _ _ _ (c_dev s)); try done. intros m Hm Hn. apply Hrest; [done|].
    intros Hx. apply Hn. left. by apply Hsec.
  - by rewrite Hctx.
  - by rewrite Hctx.
  - by rewrite Hctx.
  - rewrite <- Hpr. unfold mount_sb. rewrite Hrest; [done | by apply primary_in_volume |].
    intros Hx. apply (vd_primary _ _ _ _ _ Hvol). by apply Hsec in Hx.
  - intros id fi Hfi. specialize (Hfiles id fi Hfi). unfold same_state in Hfiles. rewrite Hopen, lookup_empty in Hfiles.
    destruct (sp_stored b !! id) as [x|]; [|done]. destruct (of_files st !! id); [done|]. exists x. split; [done|].
    by apply (stored_moved (c_ctx s) (c_ctx (of_c st)) Hg fi (c_dev (of_c st))).
  - intros id Hid. by apply Hnone.
Qed.

Lemma session_calls stored s calls :
  mounted_with stored s -> session_allowed stored calls ->
  match run_ops spec_fs calls (mk_fs_spec stored ∅) with
  | Ok (rs, b) => exists s', calls_run fuel infos calls s = Ok (rs, s') /\ mounted_with (sp_stored b) s'
  | Fault f => calls_run fuel infos calls s = Fault f
  end.
Proof.
  intros Hs [Hall Hend]. pose proof Hs as [[Hc _] Hgeo Hd Hro _ _ _ _ _ _].
  pose proof (layout_moved fuel ps vs d0 infos Hvol (c_ctx s) (c_dev s) Hd Hgeo Hc) as Hlay.
  pose proof (fs_simulates fuel _ _ infos Hlay Hmem) as Hsim.
  pose proof (simulates_run calls _ _ Hsim (mounted_represents stored s Hs) Hall) as Hrun. unfold matches in Hrun.
  destruct (run_ops spec_fs calls (mk_fs_spec stored ∅)) as [[rs b]|f].
  - destruct Hrun as (st & Hrun & Hrep). exists (of_c st).
    assert (Hcalls : calls_run fuel infos calls s = Ok (rs, of_c st)) by (unfold calls_run; by rewrite Hrun).
    split; [exact Hcalls|]. apply (represents_mounted stored s b st Hs Hrep Hend).
    by apply (calls_protected calls s rs (of_c st) Hcalls).
  - unfold calls_run. by rewrite Hrun.
Qed.

Lemma session_umounts stored s :
  mounted_with stored s -> exists s', ext2_umount s = Ok (0, s') /\ volume_holds ps d0 infos stored s'.
Proof.
  intros [Hok Hgeo Hd Hro Hbl Hct Hsb Hpr Hfiles Hnone]. pose proof (sg_part _ _ Hgeo) as Hps.
  assert (Hco : copies_ok (c_ctx s) (c_dev s)).
  { split; [by rewrite Hbl|]. intros b Hb. rewrite Hbl in Hb. apply (rs_volume _ _ _ _ Hd).
    replace (sb_lba (c_ctx s) b) with (mounted_sector r0 ps b); [by apply (vd_mountable _ _ _ _ _ Hvol)|].
    rewrite <- (fixed_sector _ _ ps b Hsb). unfold sb_lba, mounted_sector, spb, bsz. by rewrite Hps. }
  destruct (umount_run s Hok Hco) as (s' & Hrun & Hfl). rewrite Hbl in Hfl. exists s'. split; [exact Hrun|].
  destruct (flush_resembles (unmounting s) s' (unmounting_ok s Hok) Hd Hps) as (Hd' & Hnew & Hsec); [|exact Hpr | exact Hfl |].
  { rewrite <- Hsb. cbn [unmounting upd_ctx c_ctx upd_superblock ctx_superblock]. by destruct (ctx_superblock (c_ctx s)). }
  pose proof Hd' as [Hok' Hv' Hrest']. split; try assumption.
  - exact (umount_has _ steady_writable s 0 s' Hro Hrun).
  - intros id fi Hfi. destruct (Hfiles id fi Hfi) as (x & Hx & Hst). exists x. split; [exact Hx|].
    by apply (stored_kept_by_super fuel ps vs d0 infos Hvol (c_ctx s) c0 (c_dev s) (c_dev s') id).
Qed.

(** A whole session. *)
Lemma session_step hint :
  simulates (volume_holds ps d0 infos) session_allowed spec_session (session_run fuel infos ps vs hint).
Proof.
  intros calls stored s Hs Hall. destruct (session_mounts hint stored s Hs) as (s1 & Hmount & Hs1).
  assert (Hpm : p_mount ps vs hint s = Ok ((0, LiveContext), s1)) by (unfold p_mount; by erewrite bind_ok by exact Hmount).
  pose proof (session_calls stored s1 calls Hs1 Hall) as Hcalls. unfold matches, spec_session, session_run.
  destruct (run_ops spec_fs calls (mk_fs_spec stored ∅)) as [[rs b]|f]; cbn [mbind res_bind].
  - destruct Hcalls as (s2 & Hcalls & Hs2). destruct (session_umounts (sp_stored b) s2 Hs2) as (s3 & Humount & Hs3).
    exists s3. split; [|exact Hs3]. erewrite bind_ok by exact Hpm. cbn [Z.eqb negb].
    assert (Hpu : p_umount LiveContext s2 = Ok ((0, FreedContext), s3)) by (unfold p_umount; by erewrite bind_ok by exact Humount).
    erewrite bind_ok by exact Hcalls. by erewrite bind_ok by exact Hpu.
  - erewrite bind_ok by exact Hpm. cbn [Z.eqb negb]. by apply bind_fault.
Qed.
End session_facts.

(** * Properties *)
Section volume_properties.
Context {D : Type} `{Env, BlockDeviceLaws D, !SteadyProtection D}.

(** C1: the volume is a table of byte arrays from session to session: over a valid volume on which the
    files lie apart from each other and from the superblock, every sequence of sessions, each of which
    mounts the volume, opens, reads, writes, seeks and closes files in any interleaving, and unmounts it,
    gives the answers of the specification, whose only state between sessions is the bytes and the size
    of every file: mounting and unmounting return 0, what one session wrote the next one reads, and at the
    end the volume holds the arrays again, everything else on it but the copies of the superblock being
    what it was at the start. The calls neither create nor truncate files, and stay within their blocks. *)
Theorem volume_keeps_files fuel ps vs hint (d0 : D) infos stored s sessions :
  volume fuel ps vs d0 infos -> (forall t, env_malloc t = true) ->
  volume_holds ps d0 infos stored s -> all_allowed session_allowed spec_session sessions stored ->
  match run_ops spec_session sessions stored with
  | Ok (answers, stored') => exists s', run_ops (session_run fuel infos ps vs hint) sessions s = Ok (answers, s') /\
      volume_holds ps d0 infos stored' s'
  | Fault f => run_ops (session_run fuel infos ps vs hint) sessions s = Fault f
  end.
Proof.
  intros Hvol Hmem Hs Hall.
  exact (simulates_run sessions stored s (session_step fuel ps vs d0 infos Hvol Hmem hint) Hs Hall).
Qed.
End volume_properties.
