(* ===== verification/Append.v ===== *)
(** * Appending an entry to a directory

    [append_entry], the part of [ext2_append_to_directory] of
    [src/src/embext_directory.c] that works on the opened directory, for a
    directory of direct blocks whose last record has room. A directory is the array
    of bytes of [FileSpec]; its records are a [chain] in the array, and the chain
    after the run is the chain before with one more record, so a reading of the
    directory lists the old entries and then the new one. *)
From S2P Require Import Prelude Hoare Layout OnDisk Device Context Bitmap Super FileBuf Inode BlockMap Alloc FileIo FileSpec Files Directory Walk Lookup.

(** ** Records in an array of bytes *)
Definition header_at (data : list Z) (o : Z) : ext2_dir_header := decode (slice o 8 data).
Definition name_at (data : list Z) (o : Z) : list Z := slice (o + 8) (dh_name_len (header_at data o)) data.
Definition entry_at (data : list Z) (o : Z) : Z * list Z := (dh_inode (header_at data o), c_string (name_at data o)).

(** A record in use, its header and name in one sector. *)
Record record_at (data : list Z) (o : Z) : Prop := {
  ra_pos : 0 <= o;
  ra_ino : 0 < dh_inode (header_at data o) < 2147483648;
  ra_header : o mod 512 + 8 <= 512;
  ra_sector : o mod 512 + 8 + dh_name_len (header_at data o) <= 512;
  ra_len : 8 + dh_name_len (header_at data o) <= dh_rec_len (header_at data o);
  ra_end : o + 8 <= Z.of_nat (length data) /\ o + dh_rec_len (header_at data o) <= Z.of_nat (length data)
}.

(** The records from offset [o] up to the one at [last], that one not included. *)
Inductive chain (data : list Z) : Z -> list (Z * list Z) -> Z -> Prop :=
| chain_end o : chain data o [] o
| chain_record o l last :
    record_at data o -> chain data (o + dh_rec_len (header_at data o)) l last ->
    chain data o (entry_at data o :: l) last.

(** The records [l] and then, up to the end, the record at [q] for [name] and inode [i]. *)
Record ends_with (data : list Z) (l : list (Z * list Z)) (q i : Z) (name : list Z) : Prop := {
  ew_chain : chain data 0 l q;
  ew_record : record_at data q;
  ew_entry : entry_at data q = (i, name);
  ew_end : q + dh_rec_len (header_at data q) = Z.of_nat (length data)
}.

(** * Facts *)

(** ** Records *)
Section record_facts.
Implicit Types (data : list Z) (o k : Z) (l : list (Z * list Z)).

Lemma header_ranges data o :
  bytes_ok data -> 0 <= o -> o + 8 <= Z.of_nat (length data) ->
  0 <= dh_inode (header_at data o) < 4294967296 /\ 0 <= dh_rec_len (header_at data o) < 65536 /\
  0 <= dh_name_len (header_at data o) < 256 /\ 0 <= dh_file_type (header_at data o) < 256.
Proof.
  intros Hb Ho Hl. assert (Hwf : cs_wf (header_at data o))
    by (apply decode_wf; [by apply bytes_ok_slice | by rewrite length_slice by lia]).
  split; [|split; [|split]].
  - by apply (cs_wf_lookup _ 0 4 _ Hwf).
  - by apply (cs_wf_lookup _ 1 2 _ Hwf).
  - by apply (cs_wf_lookup _ 2 1 _ Hwf).
  - by apply (cs_wf_lookup _ 3 1 _ Hwf).
Qed.

Lemma record_length data o : bytes_ok data -> record_at data o ->
  0 <= dh_name_len (header_at data o) < 256 /\ 8 <= dh_rec_len (header_at data o) < 65536.
Proof.
  intros Hb [Hp _ _ _ Hlen [He _]]. destruct (header_ranges data o Hb Hp He) as (_ & ? & ? & _). lia.
Qed.

(** A record whose bytes are the same is the same record. *)
Lemma record_same data data' o :
  let k := 8 + dh_name_len (header_at data o) in
  bytes_ok data -> length data' = length data -> slice o k data' = slice o k data -> record_at data o ->
  record_at data' o /\ entry_at data' o = entry_at data o /\ header_at data' o = header_at data o.
Proof.
  intros k Hb Hl Hk Hr. destruct (record_length data o Hb Hr) as [Hn _]. destruct Hr as [Hp Hi Hh Hs Hlen He].
  assert (Hhd : header_at data' o = header_at data o).
  { unfold header_at. f_equal. transitivity (slice 0 8 (slice o k data')); [symmetry; rewrite slice_slice by lia; f_equal; lia|].
    rewrite Hk, slice_slice by lia. f_equal. lia. }
  split; [split; rewrite ?Hhd, ?Hl; done|]. split; [|done]. unfold entry_at, name_at. rewrite Hhd. do 2 f_equal.
  transitivity (slice 8 (k - 8) (slice o k data')); [symmetry; rewrite slice_slice by lia; f_equal; lia|].
  rewrite Hk, slice_slice by lia. f_equal. lia.
Qed.

Lemma chain_le data o l last : bytes_ok data -> chain data o l last -> o <= last.
Proof.
  intros Hb Hc. induction Hc as [|o l last Hr Hc IH]; [lia|]. pose proof (record_length data o Hb Hr). lia.
Qed.

Lemma chain_app data o l1 mid l2 last : chain data o l1 mid -> chain data mid l2 last -> chain data o (l1 ++ l2) last.
Proof. intros H1 H2. induction H1 as [|o l mid Hr Hc IH]; [exact H2|]. cbn [app]. constructor; auto. Qed.

Lemma chain_snoc data o l last : chain data o l last -> record_at data last ->
  chain data o (l ++ [entry_at data last]) (last + dh_rec_len (header_at data last)).
Proof. intros Hc Hr. eapply chain_app; [exact Hc|]. constructor; [exact Hr | constructor]. Qed.

(** A chain does not change when the bytes before its end do not. *)
Lemma chain_same data data' o l last :
  bytes_ok data -> length data' = length data ->
  (forall o k, 0 <= o -> 0 <= k -> o + k <= last -> slice o k data' = slice o k data) ->
  chain data o l last -> chain data' o l last.
Proof.
  intros Hb Hl Hsame Hc. induction Hc as [|o l last Hr Hc IH]; [constructor|].
  pose proof (chain_le _ _ _ _ Hb Hc). pose proof (record_length data o Hb Hr). pose proof (ra_pos _ _ Hr).
  pose proof (ra_len _ _ Hr).
  destruct (record_same data data' o Hb Hl) as (Hr' & He & Hh); [apply Hsame; lia | done |].
  rewrite <- He. constructor; [done|]. rewrite Hh. by apply IH.
Qed.

(** ** What the three writes make of the records *)
Lemma decode_header i r n t :
  0 <= i < 4294967296 -> 0 <= r < 65536 -> 0 <= n < 256 -> 0 <= t < 256 ->
  Z.of_nat (length (encode (mk_dir_header i r n t))) = 8 /\ bytes_ok (encode (mk_dir_header i r n t)) /\
  decode (encode (mk_dir_header i r n t)) = mk_dir_header i r n t.
Proof.
  intros. assert (Hwf : cs_wf (mk_dir_header i r n t))
    by (split; [done|]; repeat constructor; unfold fits; cbn; lia).
  split; [by rewrite length_encode|]. split; [auto with bytes | by apply decode_encode].
Qed.

(** A header written at [o] is the header there. *)
Lemma header_written data o i r m t :
  0 <= i < 4294967296 -> 0 <= r < 65536 -> 0 <= m < 256 -> 0 <= t < 256 ->
  0 <= o -> o + 8 <= Z.of_nat (length data) ->
  header_at (splice o (encode (mk_dir_header i r m t)) data) o = mk_dir_header i r m t.
Proof.
  intros Hi Hr Hm Ht Ho Hl. destruct (decode_header i r m t Hi Hr Hm Ht) as (Hlen & _ & Hdec).
  unfold header_at. rewrite <- Hlen, slice_splice_same, Hdec; [done | lia | lia].
Qed.

(** A record whose length is changed keeps its inode and its name. *)
Lemma record_shrunk data o r :
  let h := header_at data o in
  let data' := splice o (encode (mk_dir_header (dh_inode h) r (dh_name_len h) (dh_file_type h))) data in
  bytes_ok data -> record_at data o -> 8 + dh_name_len h <= r < 65536 -> o + r <= Z.of_nat (length data) ->
  record_at data' o /\ entry_at data' o = entry_at data o /\ dh_rec_len (header_at data' o) = r.
Proof.
  intros h data' Hb Hr Hlen Hend. pose proof Hr as [Hp Hi Hhd Hsec Hl [He _]]. fold h in Hi, Hsec, Hl.
  destruct (header_ranges data o Hb Hp He) as (? & _ & Hn & Ht). fold h in Hn, Ht.
  destruct (decode_header (dh_inode h) r (dh_name_len h) (dh_file_type h)) as (Henc & _); [lia..|].
  assert (Hh : header_at data' o = mk_dir_header (dh_inode h) r (dh_name_len h) (dh_file_type h))
    by (apply header_written; lia).
  assert (Hsize : length data' = length data) by (apply length_splice; lia).
  assert (Hname : name_at data' o = name_at data o).
  { unfold name_at. rewrite Hh. cbn [dh_name_len]. fold h. apply slice_splice_disjoint; lia. }
  split; [split; rewrite ?Hh, ?Hsize; cbn [dh_inode dh_name_len dh_rec_len]; lia|]. split; [|by rewrite Hh].
  unfold entry_at. by rewrite Hname, Hh.
Qed.

(** A header written where a record with a name of [k] bytes may stand, then the name. *)
Lemma record_written data q i name :
  let k := Z.of_nat (length name) in
  let size := Z.of_nat (length data) in
  let data' := splice (q + 8) name (splice q (encode (mk_dir_header i (size - q) k 0)) data) in
  0 <= q -> 0 < i < 2147483648 -> c_string name = name -> 0 < k < 256 -> q mod 512 + 8 + k <= 512 ->
  8 + k <= size - q < 65536 ->
  record_at data' q /\ entry_at data' q = (i, name) /\ q + dh_rec_len (header_at data' q) = size /\
  length data' = length data.
Proof.
  intros k size data' Hq Hi Hname Hk Hsec Hlen. set (data1 := splice q _ data) in data'.
  destruct (decode_header i (size - q) k 0) as (Henc & _); [lia..|].
  assert (Hl1 : length data1 = length data) by (apply length_splice; lia).
  assert (Hl' : length data' = length data) by (unfold data'; rewrite length_splice; fold k; lia).
  assert (Hh : header_at data' q = mk_dir_header i (size - q) k 0).
  { transitivity (header_at data1 q); [|apply header_written; lia].
    unfold header_at. f_equal. apply slice_splice_disjoint; fold k; lia. }
  assert (Hnm : name_at data' q = name).
  { unfold name_at. rewrite Hh. cbn [dh_name_len]. apply slice_splice_same; fold k; lia. }
  split; [split; rewrite ?Hh, ?Hl'; cbn [dh_inode dh_name_len dh_rec_len]; fold size; lia|].
  split; [|split; [rewrite Hh; cbn [dh_rec_len]; lia | done]]. unfold entry_at. by rewrite Hnm, Hh, Hname.
Qed.

(** The three writes of [append_entry]: the last record is shrunk to [r] bytes, a header and a name
    follow it. *)
Definition with_record (data : list Z) (last r i : Z) (name : list Z) : list Z :=
  let h := header_at data last in
  let q := last + r in
  splice (q + 8) name
    (splice q (encode (mk_dir_header i (Z.of_nat (length data) - q) (Z.of_nat (length name)) 0))
      (splice last (encode (mk_dir_header (dh_inode h) r (dh_name_len h) (dh_file_type h))) data)).

Lemma appended_chain data l last r i name :
  let h := header_at data last in
  let q := last + r in
  let k := Z.of_nat (length name) in
  let size := Z.of_nat (length data) in
  bytes_ok data -> chain data 0 l last -> record_at data last ->
  8 + dh_name_len h <= r < 65536 -> 0 < i < 2147483648 -> c_string name = name -> bytes_ok name -> 0 < k < 256 ->
  q mod 512 + 8 + k <= 512 -> 8 + k <= size - q < 65536 ->
  ends_with (with_record data last r i name) (l ++ [entry_at data last]) q i name /\
  length (with_record data last r i name) = length data.
Proof.
  intros h q k size Hb Hc Hr Hlen Hi Hname Hbn Hk Hsec Hroom.
  pose proof (ra_pos _ _ Hr) as Hp. destruct (record_length data last Hb Hr) as [Hn _]. fold h in Hn.
  destruct (header_ranges data last Hb Hp (proj1 (ra_end _ _ Hr))) as (Hin & _ & _ & Ht). fold h in Hin, Ht.
  destruct (decode_header (dh_inode h) r (dh_name_len h) (dh_file_type h)) as (Henc1 & Hb1 & _); [lia..|].
  destruct (decode_header i (size - q) k 0) as (Henc2 & Hb2 & _); [unfold q; lia..|].
  destruct (record_shrunk data last r Hb Hr Hlen) as (Hr1 & He1 & Hl1); [fold size; unfold q in Hroom; lia|]. fold h in Hr1, He1, Hl1.
  set (data1 := splice last _ data) in *.
  assert (Hs1 : length data1 = length data) by (apply length_splice; unfold q in Hroom; fold size; lia).
  destruct (record_written data1 q i name) as (Hr2 & He2 & Hend2 & Hs2); rewrite ?Hs1; fold size k; try done; [lia|].
  rewrite Hs1 in Hr2, He2, Hend2, Hs2. fold size k in Hr2, He2, Hend2, Hs2.
  change (with_record data last r i name) with (splice (q + 8) name (splice q (encode (mk_dir_header i (size - q) k 0)) data1)).
  set (data3 := splice (q + 8) name _) in *. split; [|exact Hs2].
  split; [| exact Hr2 | exact He2 | rewrite Hend2, Hs2; reflexivity].
  apply (chain_same data1); [unfold data1; by apply bytes_ok_splice | by rewrite Hs2 | |].
  - intros o j Ho Hj Hle. unfold data3. rewrite !slice_splice_disjoint; rewrite ?length_splice; rewrite ?Hs1; fold size k; lia || done.
  - rewrite <- He1. unfold q. rewrite <- Hl1. apply chain_snoc; [|exact Hr1].
    apply (chain_same data); [done | done | | done].
    intros o j Ho Hj Hle. apply slice_splice_disjoint; unfold q in Hroom; fold size; lia.
Qed.
End record_facts.

(** ** A directory of direct blocks, open for reading and writing *)
Section dir_file.
Context {D : Type} `{Env, BlockDeviceLaws D}.
Implicit Types (s : file_state D) (data : list Z).
(** The context, the number of the directory's inode, its blocks, and the device before the run. *)
Variables (c : ext2context) (ino : Z) (bl : list Z) (d0 : D).
#[local] Abbreviation size := (capacity bl c).

(** The directory with the bytes [data] and the cursor [pos]; [touched] when the inode has to be
    written back. *)
Record dir_file data (pos : Z) (touched : bool) s : Prop := {
  df_laid : laid_out bl s;
  df_abs : exists e, abstract bl s = mk_bytes data size pos true false touched e;
  df_ctx : c_ctx (s_c s) = c;
  df_number : fe_inode_number (s_fe s) = ino;
  df_volume m : in_volume (c_dev (s_c s)) m <-> in_volume d0 m;
  df_rest m : in_volume d0 m -> ~ file_sector bl c m -> dev_sector (c_dev (s_c s)) m = dev_sector d0 m
}.

Lemma dir_data data pos t s : dir_file data pos t s ->
  data = file_bytes bl c (view s) /\ pos = fe_cursor (s_fe s) /\ i_size (fe_inode (s_fe s)) = size.
Proof. intros [_ [e He] <- _ _ _]. unfold abstract in He. by injection He as -> -> ->. Qed.

Lemma dir_length data pos t s : dir_file data pos t s -> Z.of_nat (length data) = size /\ bytes_ok data.
Proof.
  intros Hs. destruct (dir_data _ _ _ _ Hs) as (-> & _ & _). pose proof (df_laid _ _ _ _ Hs) as Hl. rewrite length_file_bytes.
  split; [unfold capacity; pose proof (laid_ctx bl s Hl) as Hc; rewrite (df_ctx _ _ _ _ Hs) in Hc; destruct (bsz_range c Hc); lia|].
  apply file_bytes_ok; [apply view_ok, Hl|]. rewrite <- (df_ctx _ _ _ _ Hs). apply Hl.
Qed.

Lemma dir_bsz data pos t s : dir_file data pos t s -> ctx_ok c /\ 1024 <= bsz c <= 1073741824 /\ size < 2147483648.
Proof.
  intros Hs. pose proof (df_laid _ _ _ _ Hs) as Hl. pose proof (laid_ctx bl s Hl) as Hc. pose proof (lo_capacity _ _ Hl).
  rewrite (df_ctx _ _ _ _ Hs) in *. by destruct (bsz_range c Hc).
Qed.

(** One operation, by the specification of open files. *)
Lemma dir_op op data pos t s r data' pos' t' :
  dir_file data pos t s ->
  (forall e, op_allowed (mk_bytes data size pos true false t e) op) ->
  (forall e, exists e', spec_op op (mk_bytes data size pos true false t e) =
     Ok (r, mk_bytes data' size pos' true false t' e')) ->
  exists s', file_op_run op s = Ok (r, s') /\ dir_file data' pos' t' s'.
Proof.
  intros [Hl [e He] Hc Hn Hv Hr] Hop Hspec. specialize (Hop e). destruct (Hspec e) as [e' Hsp].
  pose proof (op_run bl op s Hl) as Hrun. rewrite He in Hrun. specialize (Hrun Hop). unfold matches in Hrun.
  rewrite Hsp in Hrun. destruct Hrun as (s' & Hrun & [Hl' Ha' Hc' [Hn' _ _] Hv' Ho']). exists s'. split; [exact Hrun|].
  rewrite Hc in *. split; [done | by exists e' | done | congruence | intros m; by rewrite Hv' |].
  intros m Hm Hnm. rewrite Ho' by (try done; by apply Hv). by apply Hr.
Qed.

Lemma seek_dir p data pos t s :
  dir_file data pos t s -> 0 <= p < 2147483648 ->
  exists s', ext2_lseek p SEEK_SET s = Ok (p, s') /\ dir_file data p t s'.
Proof.
  intros Hs Hp. destruct (dir_op (SeekOp p SEEK_SET) data pos t s (Status p) data p t Hs) as (s' & Hrun & Hs').
  - intros e. cbn. lia.
  - intros e. exists e. cbn [spec_op]. unfold spec_seek, seek_pos. rewrite Z.eqb_refl.
    by destruct (Z.ltb_spec p 0); [lia|].
  - exists s'. split; [|exact Hs']. apply bind_inv in Hrun as (n & s1 & Hrun & [= <- <-]). exact Hrun.
Qed.

Lemma seek_end_dir data pos t s :
  dir_file data pos t s -> exists s', ext2_lseek 0 SEEK_END s = Ok (size, s') /\ dir_file data size t s'.
Proof.
  intros Hs. destruct (dir_bsz _ _ _ _ Hs) as (_ & Hb & Hsz). assert (0 <= size) by (unfold capacity; lia).
  destruct (dir_op (SeekOp 0 SEEK_END) data pos t s (Status size) data size t Hs) as (s' & Hrun & Hs').
  - intros e. cbn. lia.
  - intros e. exists e. cbn [spec_op]. unfold spec_seek, seek_pos.
    change (SEEK_END =? SEEK_SET) with false. change (SEEK_END =? SEEK_CUR) with false.
    change (SEEK_END =? SEEK_END) with true. cbn [bf_size].
    cbv iota. rewrite Z.add_0_r. by destruct (Z.ltb_spec size 0); [lia|].
  - exists s'. split; [|exact Hs']. apply bind_inv in Hrun as (n & s1 & Hrun & [= <- <-]). exact Hrun.
Qed.

Lemma read_dir k data pos t s :
  dir_file data pos t s -> 0 < k -> pos mod 512 + k <= 512 -> pos + k <= size ->
  exists s', ext2_read k s = Ok ((k, slice pos k data), s') /\ dir_file data (pos + k) true s'.
Proof.
  intros Hs Hk Hsec Hend. pose proof (Z.mod_pos_bound pos 512).
  destruct (dir_op (ReadOp k) data pos t s (Bytes k (slice pos k data)) data (pos + k) true Hs) as (s' & Hrun & Hs').
  - intros e. cbn. lia.
  - intros e. exists e. cbn [spec_op]. unfold spec_read, one_sector. cbn [bf_size bf_cursor bf_data].
    rewrite Z.min_l by lia. destruct (Z.leb_spec k 0); [lia|]. by destruct (Z.leb_spec (pos mod 512 + k) 512); [|lia].
  - exists s'. split; [|exact Hs']. apply bind_inv in Hrun as ([n bt] & s1 & Hrun & [= <- <- <-]). exact Hrun.
Qed.

Lemma write_dir bs data pos t s :
  dir_file data pos t s -> bytes_ok bs -> (0 < length bs)%nat ->
  pos mod 512 + Z.of_nat (length bs) <= 512 -> pos + Z.of_nat (length bs) <= size ->
  exists s', ext2_write bs s = Ok (Z.of_nat (length bs), s') /\
    dir_file (splice pos bs data) (pos + Z.of_nat (length bs)) true s'.
Proof.
  intros Hs Hbs Hlen Hsec Hend. destruct (dir_length _ _ _ _ Hs) as [Hl _].
  destruct (dir_op (WriteOp bs) data pos t s (Status (Z.of_nat (length bs))) (splice pos bs data)
    (pos + Z.of_nat (length bs)) true Hs) as (s' & Hrun & Hs').
  - intros e. cbn. split; [done|]. intros _. lia.
  - intros e. exists e. cbn [spec_op]. unfold spec_write, write_start_of, one_sector.
    cbn [bf_write bf_append bf_cursor bf_size bf_data bf_errno negb].
    destruct (Z.eqb_spec (Z.of_nat (length bs)) 0); [lia|].
    destruct (Z.leb_spec (pos mod 512 + Z.of_nat (length bs)) 512); [|lia]. by rewrite Z.max_l by lia.
  - exists s'. split; [|exact Hs']. apply bind_inv in Hrun as (n & s1 & Hrun & [= <- <-]). exact Hrun.
Qed.

(** ** The last record of the last block, whose first byte is [base] *)
Variable base : Z.
Hypothesis Hbase : base = size - bsz c.
Hypothesis Hbase0 : 0 <= base.

(** One round of the loop over the records. *)
Lemma last_round fuel data pos t o s off h :
  record_at data o -> dir_file data pos t s -> base + (off + dh_rec_len h) = o ->
  exists s', dir_file data (o + 8) true s' /\
    last_record fuel (bsz c) base off h s =
      (if o - base + dh_rec_len (header_at data o) <? bsz c then
         match fuel with
         | O => throw OutOfFuel
         | S fuel' => last_record fuel' (bsz c) base (o - base) (header_at data o)
         end
       else mret (Some (o - base, header_at data o))) s'.
Proof.
  intros Hr Hs Hoff. destruct (dir_bsz _ _ _ _ Hs) as (_ & _ & Hsz). destruct (dir_length _ _ _ _ Hs) as [Hl _].
  destruct Hr as [Hp _ Hhd _ _ [He _]].
  destruct (seek_dir o data pos t s Hs) as (s1 & Hseek & Hs1); [lia|].
  destruct (read_dir 8 data o t s1 Hs1) as (s2 & Hread & Hs2); [lia..|].
  exists s2. split; [done|]. replace (o - base) with (off + dh_rec_len h) by lia.
  destruct fuel as [|fuel]; cbn [last_record]; rewrite Hoff;
    erewrite bind_ok by exact Hseek; rewrite Z.eqb_refl; cbn [negb];
    change (sizeof ext2_dir_header) with 8; erewrite bind_ok by exact Hread; cbn beta iota;
    rewrite Z.eqb_refl; done.
Qed.

(** The loop finds the last record. *)
Lemma last_record_run fuel data o l last pos t s off h :
  chain data o l last -> record_at data last -> last + dh_rec_len (header_at data last) = size ->
  dir_file data pos t s -> base + (off + dh_rec_len h) = o -> (length l <= fuel)%nat ->
  exists s', last_record fuel (bsz c) base off h s = Ok (Some (last - base, header_at data last), s') /\
    dir_file data (last + 8) true s'.
Proof.
  intros Hc Hlast Hend. revert fuel pos t s off h.
  induction Hc as [o | o l last Hr Hc IH]; intros fuel pos t s off h Hs Hoff Hfuel.
  - destruct (last_round fuel data pos t o s off h Hlast Hs Hoff) as (s' & Hs' & Hrun).
    exists s'. split; [|done]. rewrite Hrun. by destruct (Z.ltb_spec (o - base + dh_rec_len (header_at data o)) (bsz c)); [lia|].
  - destruct (last_round fuel data pos t o s off h Hr Hs Hoff) as (s1 & Hs1 & Hrun).
    destruct (dir_length _ _ _ _ Hs) as [Hl Hb]. pose proof (chain_le _ _ _ _ Hb Hc).
    pose proof (record_length data last Hb Hlast). destruct fuel as [|fuel]; [cbn in Hfuel; lia|].
    destruct (IH Hlast Hend fuel _ true s1 (o - base) (header_at data o) Hs1) as (s' & Hrest & Hs'); [lia | cbn in Hfuel; lia|].
    exists s'. split; [|done]. rewrite Hrun.
    destruct (Z.ltb_spec (o - base + dh_rec_len (header_at data o)) (bsz c)); [exact Hrest | lia].
Qed.

(** ** Writing the new record behind the last one *)
Lemma padded_len_bounds n : 0 <= n < 256 -> 8 + n <= padded_len n <= 8 + n + 3.
Proof.
  intros Hn. unfold padded_len. pose proof (Z.div_mod n 4). pose proof (Z.mod_pos_bound n 4).
  destruct (Z.eqb_spec (n mod 4) 0); lia.
Qed.

(** What the theorem about [append_entry] asks of the new entry [name] for inode [i] and of the last
    record, at [last]: it ends the directory, and the room behind its name is enough; the record there
    lies in one sector. *)
Record room_for data (last i : Z) (name : list Z) : Prop := {
  rf_record : record_at data last;
  rf_end : last + dh_rec_len (header_at data last) = Z.of_nat (length data);
  rf_room : padded_len (Z.of_nat (length name)) <
    dh_rec_len (header_at data last) - padded_len (dh_name_len (header_at data last));
  rf_sector : (last + padded_len (dh_name_len (header_at data last))) mod 512 +
    8 + Z.of_nat (length name) <= 512;
  rf_ino : 0 < i < 2147483648;
  rf_name : c_string name = name;
  rf_bytes : bytes_ok name;
  rf_len : 0 < Z.of_nat (length name) < 256
}.

(** The array with the new record. *)
Definition appended_data data (last i : Z) (name : list Z) : list Z :=
  with_record data last (padded_len (dh_name_len (header_at data last))) i name.

Lemma appended_ends data l last i name :
  bytes_ok data -> chain data 0 l last -> room_for data last i name ->
  ends_with (appended_data data last i name) (l ++ [entry_at data last])
    (last + padded_len (dh_name_len (header_at data last))) i name /\
  length (appended_data data last i name) = length data.
Proof.
  intros Hb Hc [Hr Hend Hroom Hsec Hi Hname Hbytes Hlen]. destruct (record_length data last Hb Hr) as [Hn Hrl].
  pose proof (padded_len_bounds _ Hn). pose proof (padded_len_bounds (Z.of_nat (length name)) ltac:(lia)).
  apply appended_chain; try done; lia.
Qed.

Lemma append_writes data last i name pos t s :
  let h := header_at data last in
  let pad := padded_len (dh_name_len h) in
  let k := Z.of_nat (length name) in
  dir_file data pos t s -> room_for data last i name ->
  exists s', (ext2_lseek last SEEK_SET ;;
      ext2_write (encode (mk_dir_header (dh_inode h) pad (dh_name_len h) (dh_file_type h))) ;;
      position ← lift (int_sum (last - base + pad) base);
      ext2_lseek position SEEK_SET ;;
      ext2_write (encode (mk_dir_header i (size - (last + pad)) k 0)) ;;
      ext2_write name) s = Ok (k, s') /\ exists pos', dir_file (appended_data data last i name) pos' true s'.
Proof.
  intros h pad k Hs [Hr Hend Hroom Hsec Hi Hname Hbytes Hlen]. destruct (dir_length _ _ _ _ Hs) as [Hl Hb].
  destruct (dir_bsz _ _ _ _ Hs) as (_ & _ & Hsz). pose proof Hr as [Hp Hino Hhd Hrsec Hrlen [He _]].
  destruct (header_ranges data last Hb Hp He) as (_ & Hrl & Hnl & Htl). fold h in Hend, Hroom, Hsec, Hino, Hrsec, Hrlen, Hrl, Hnl, Htl.
  pose proof (padded_len_bounds _ Hnl) as Hpad. fold pad in Hpad, Hroom, Hsec. fold k in Hroom, Hsec, Hlen.
  pose proof (padded_len_bounds k ltac:(lia)) as Hpk.
  destruct (decode_header (dh_inode h) pad (dh_name_len h) (dh_file_type h)) as (Hl1 & Hb1 & _); [lia..|].
  destruct (decode_header i (size - (last + pad)) k 0) as (Hl2 & Hb2 & _); [lia..|].
  assert (Hm8 : (last + pad + 8) mod 512 = (last + pad) mod 512 + 8).
  { pose proof (Z.mod_pos_bound (last + pad) 512). rewrite <- Zplus_mod_idemp_l. apply Z.mod_small. lia. }
  destruct (seek_dir last _ _ _ s Hs) as (s1 & Hr1 & Hs1); [lia|].
  destruct (write_dir _ _ _ _ s1 Hs1 Hb1) as (s2 & Hr2 & Hs2); [cbn; lia | rewrite Hl1; lia.. |].
  destruct (seek_dir (last + pad) _ _ _ s2 Hs2) as (s3 & Hr3 & Hs3); [lia|].
  destruct (write_dir _ _ _ _ s3 Hs3 Hb2) as (s4 & Hr4 & Hs4); [cbn; lia | rewrite Hl2; lia.. |].
  rewrite Hl2 in Hs4. destruct (write_dir name _ _ _ s4 Hs4 Hbytes) as (s5 & Hr5 & Hs5); [lia | rewrite ?Hm8; fold k; lia.. |].
  exists s5. split.
  { do 2 (erewrite bind_ok by eassumption). erewrite bind_lift by (apply int_sum_ok; lia).
    replace (last - base + pad + base) with (last + pad) by lia. by do 2 (erewrite bind_ok by eassumption). } eexists. unfold appended_data, with_record.
  rewrite Hl. exact Hs5.
Qed.

(** The directory's inode and its descriptor lie outside the directory's sectors. *)
Record dir_apart : Prop := {
  da_located : inode_located c d0 ino;
  da_desc : ~ file_sector bl c (ino_desc_lba c ino);
  da_slot : ~ file_sector bl c (ino_lba c d0 ino);
  da_apart : ino_lba c d0 ino <> ino_desc_lba c ino
}.

(** What the run of [append_entry] leaves on the device [d'], when it found the records [l] and the
    one at [last]: the chain with one more record, a directory inode of the same size and blocks, and
    every other sector as it was. *)
Record appended data l last i name (d' : D) : Prop := {
  ap_ok : dev_ok d';
  ap_volume m : in_volume d' m <-> in_volume d0 m;
  ap_records : ends_with (file_bytes bl c d') (l ++ [entry_at data last])
    (last + padded_len (dh_name_len (header_at data last))) i name;
  ap_lba : ino_lba c d' ino = ino_lba c d0 ino;
  ap_located : inode_located c d' ino;
  ap_size : i_size (inode_on_disk c d' ino) = size;
  ap_blocks k b : bl !! k = Some b -> i_block (inode_on_disk c d' ino) !! k = Some b;
  ap_other m : in_volume d0 m -> m <> ino_lba c d0 ino -> ~ file_sector bl c m -> dev_sector d' m = dev_sector d0 m
}.

Lemma append_close data pos s :
  dir_file data pos true s -> dir_apart ->
  exists s', ext2_close s = Ok (0, s') /\ (exists bf, c_ctx (s_c s') = set_sysbuf bf c) /\ fs_ok (s_c s') /\
    let d' := c_dev (s_c s') in
    (forall m, in_volume d' m <-> in_volume d0 m) /\ file_bytes bl c d' = data /\
    ino_lba c d' ino = ino_lba c d0 ino /\ inode_located c d' ino /\
    i_size (inode_on_disk c d' ino) = size /\ (forall k b, bl !! k = Some b -> i_block (inode_on_disk c d' ino) !! k = Some b) /\
    forall m, in_volume d0 m -> m <> ino_lba c d0 ino -> ~ file_sector bl c m -> dev_sector d' m = dev_sector d0 m.
Proof.
  intros Hs [Hil Hdesc Hslot Hne]. pose proof Hs as [Hl [e Habs] Hc Hn Hv Hr].
  destruct (dir_data _ _ _ _ Hs) as (Hdata & _ & Hsz). pose proof (lo_open _ _ Hl) as Hop.
  assert (Hflag : has_flag (fe_flags (s_fe s)) EXT2_FLAG_FS_DIRTY = true) by (unfold abstract in Habs; by injection Habs).
  assert (Hvv : forall m, in_volume (view s) m <-> in_volume d0 m) by (intros m; rewrite <- Hv; by apply view_volume, Hop).
  assert (Hout : forall m, in_volume d0 m -> ~ file_sector bl c m -> dev_sector (view s) m = dev_sector d0 m).
  { intros m Hm Hnm. rewrite (view_outside bl s) by (rewrite ?Hc; try done; by apply Hvv). by apply Hr. }
  destruct (located_same c d0 (view s) ino Hvv) as [Hlba Hilv]; [apply Hout; [apply Hil | done] | done |].
  destruct (close_effect ino s Hop Hn) as (s' & Hrun & Hok & Hbf & Hvol & Hoth & _ & Hdisk); rewrite ?Hc, ?Hlba; try done.
  rewrite Hc, Hlba in *. rewrite Hflag in Hdisk. exists s'. split; [done|]. split; [done|]. split; [done|]. cbv zeta.
  assert (Hvol' : forall m, in_volume (c_dev (s_c s')) m <-> in_volume d0 m) by (intros m; by rewrite Hvol, Hvv).
  assert (Hrest : forall m, in_volume d0 m -> m <> ino_lba c d0 ino -> ~ file_sector bl c m ->
    dev_sector (c_dev (s_c s')) m = dev_sector d0 m).
  { intros m Hm Hnm Hnf. rewrite Hoth by (try done; by apply Hvv). by apply Hout. }
  destruct (located_same c d0 (c_dev (s_c s')) ino Hvol') as [Hlba' Hil']; [apply Hrest; [apply Hil | by apply not_eq_sym | done] | done |].
  split; [done|]. split; [|do 2 (split; [done|]); rewrite Hdisk; split; [done|]; split; [|done]].
  - rewrite Hdata. apply file_bytes_ext. intros p Hp. apply Hoth.
    + rewrite <- Hc. apply (lo_volume _ _ Hl). by rewrite Hc.
    + intros Heq. apply Hslot. exists p. by rewrite <- Heq.
  - intros k b Hk. by apply (lo_blocks _ _ Hl).
Qed.

Lemma append_entry_run fuel data l0 l last i name pos s :
  dir_file data pos false s -> chain data 0 l0 base -> chain data base l last -> room_for data last i name ->
  (length l <= fuel)%nat -> dir_apart ->
  exists s', append_entry fuel i name s = Ok (0, s') /\ (exists bf, c_ctx (s_c s') = set_sysbuf bf c) /\ fs_ok (s_c s') /\
    appended data (l0 ++ l) last i name (c_dev (s_c s')).
Proof.
  intros Hs Hc0 Hc Hroom Hfuel Hap. destruct (dir_bsz _ _ _ _ Hs) as (Hctx & Hb & Hsz). destruct (dir_length _ _ _ _ Hs) as [Hl Hbd].
  pose proof Hroom as [Hr Hend Hrm Hsec _ _ _ Hlen]. pose proof (chain_le _ _ _ _ Hbd Hc) as Hle.
  destruct (header_ranges data last Hbd (ra_pos _ _ Hr) (proj1 (ra_end _ _ Hr))) as (_ & Hrl & Hnl & _).
  pose proof (padded_len_bounds _ Hnl) as Hpad. pose proof (padded_len_bounds (Z.of_nat (length name)) ltac:(lia)) as Hpk.
  destruct (seek_end_dir _ _ _ s Hs) as (s0 & Hseek & Hs0).
  destruct (last_record_run fuel data base l last _ _ s0 0 (mk_dir_header 0 0 0 0) Hc Hr ltac:(lia) Hs0) as (s1 & Hlast & Hs1);
    [cbn; lia | done |].
  destruct (append_writes data last i name _ _ s1 Hs1 Hroom) as (s2 & Hwr & pos' & Hs2).
  destruct (append_close _ _ s2 Hs2 Hap) as (s3 & Hclose & Hbf & Hok3 & Hv3 & Hd3 & Hlba3 & Hil3 & Hsz3 & Hbl3 & Hoth3).
  exists s3. split; [|split; [done|split; [done|]]].
  - set (h := header_at data last) in *. set (pad := padded_len (dh_name_len h)) in *.
    unfold append_entry, fctx. rewrite bind_gets, (df_ctx _ _ _ _ Hs), (bind_lift _ _ _ _ (block_size_ok c Hctx)).
    erewrite bind_ok by exact Hseek.
    assert (Hrem : Z.rem size (bsz c) = 0) by (unfold capacity; apply Z.rem_mul; lia).
    rewrite Hrem. cbn [Z.eqb negb]. erewrite bind_lift by (apply int_sum_ok; lia). rewrite Z.add_opp_r, <- Hbase. destruct (Z.ltb_spec base 0); [lia|].
    erewrite bind_ok by exact Hlast. cbn beta iota zeta. fold h. fold pad.
    rewrite (u16_id pad), (u8_id (Z.of_nat _)) by lia.
    replace (last - base + base) with last by lia.
    replace (bsz c - (last - base + pad)) with (size - (last + pad)) by lia.
    rewrite (u16_id (size - _)) by lia.
    destruct (Z.ltb_spec (padded_len (Z.of_nat (length name))) (dh_rec_len h - pad)); [|lia].
    erewrite bind_ok by exact Hwr. by erewrite bind_ok by exact Hclose.
  - destruct (appended_ends data (l0 ++ l) last i name Hbd (chain_app _ _ _ _ _ _ Hc0 Hc) Hroom) as [Hew _].
    split; try done; [apply Hok3 | by rewrite Hd3].
Qed.
End dir_file.

(** ** From the records in the array to the reading of the directory *)

(** The inode [r] of a directory with the blocks [bl]: all of them direct, different, in the volume and
    in use up to their end. *)
Record dir_blocks {D} `{BlockDevice D} (c : ext2context) (d : D) (r : inode) (bl : list Z) : Prop := {
  db_size : i_size r = capacity bl c;
  db_some : bl <> [];
  db_direct : (length bl <= 12)%nat;
  db_blocks k b : bl !! k = Some b -> i_block r !! k = Some b /\ 0 < b;
  db_distinct : NoDup bl;
  db_capacity : capacity bl c < 2147483648;
  db_volume p : 0 <= p < capacity bl c -> in_volume d (file_lba bl c p)
}.

Section chain_listing.
Context {D : Type} `{Env, BlockDeviceLaws D}.
Variables (c : ext2context) (d : D) (r : inode) (bl : list Z).
Hypothesis Hctx : ctx_ok c.
Hypothesis Hdev : dev_ok d.
Hypothesis Hwf : cs_wf r.
Hypothesis Hdb : dir_blocks c d r bl.
#[local] Abbreviation data := (file_bytes bl c d).

Lemma dir_bytes_length : Z.of_nat (length data) = capacity bl c.
Proof. rewrite length_file_bytes. unfold capacity. destruct (bsz_range c Hctx). lia. Qed.

Lemma record_listed o :
  record_at data o ->
  exists b, record_here (at_pos c d r o) b /\ record_header (at_pos c d r o) b = header_at data o /\
    (dh_inode (record_header (at_pos c d r o) b), c_string (record_name (at_pos c d r o) b)) = entry_at data o.
Proof.
  intros Hr. destruct (bsz_range c Hctx) as [Hb _]. pose proof dir_bytes_length as Hlen.
  assert (Hbytes : bytes_ok data) by (apply file_bytes_ok; [done | apply Hdb]).
  destruct (record_length data o Hbytes Hr) as [Hn _]. pose proof Hr as [Hp Hino Hhd Hsec Hl [He Hend]]. rewrite Hlen in *.
  destruct Hdb as [Hsz _ Hdir Hbl Hnd Hcap Hvol]. pose proof (Z.mod_pos_bound o 512).
  destruct (block_index bl c o Hctx) as (b & Hlk & Hlba); [lia|]. destruct (Hbl _ _ Hlk) as [Hib Hpos].
  assert (Hcl : cursor_lba (at_pos c d r o) b = file_lba bl c o) by (by rewrite Hlba).
  assert (Hslice : forall k, 0 <= k -> o + k <= capacity bl c -> o mod 512 + k <= 512 ->
    slice (o mod 512) k (dev_sector d (file_lba bl c o)) = slice o k data).
  { intros k Hk Hok Hsk. symmetry. apply slice_file_bytes; try done. intros q Hq. apply sector_length; [done | by apply Hvol]. }
  assert (Hh : record_header (at_pos c d r o) b = header_at data o).
  { unfold record_header, cursor_bytes, header_at. rewrite Hcl. f_equal. apply Hslice; lia. }
  exists b. split; [|split; [done|]].
  - split; rewrite ?Hh; cbn [at_pos s_fe fe_cursor fe_inode]; rewrite ?Hsz; try done; [|lia].
    apply direct_ready; cbn [at_pos s_c s_fe c_ctx fe_cursor fe_inode]; try done; try lia.
    + split; [by split | | done | done]. split; [done | by apply bytes_ok_replicate].
    + unfold capacity in *. nia.
    + rewrite Hcl. apply Hvol. lia.
  - unfold entry_at, record_name. rewrite Hh, Hcl. do 2 f_equal. unfold name_at. set (k := dh_name_len (header_at data o)) in *.
    change (view (at_pos c d r o)) with d. cbn [at_pos s_fe fe_cursor].
    transitivity (slice 8 k (slice (o mod 512) (8 + k) (dev_sector d (file_lba bl c o)))); [symmetry; apply slice_slice; lia|].
    rewrite Hslice by lia. apply slice_slice; lia.
Qed.

Lemma chain_listing o l last l' :
  chain data o l last -> listing c d r last l' -> listing c d r o (l ++ l').
Proof.
  intros Hc Hl. induction Hc as [o | o l last Hr Hc IH]; [done|].
  destruct (record_listed o Hr) as (b & Hhere & Hh & He). cbn [app]. rewrite <- He.
  apply listing_record; [done|]. rewrite Hh. by apply IH.
Qed.

Lemma ends_with_listing l q i name :
  ends_with data l q i name -> listing c d r 0 (l ++ [(i, name)]).
Proof.
  intros [Hc Hr He Hend]. apply (chain_listing _ _ q); [done|]. destruct (record_listed q Hr) as (b & Hhere & Hh & He').
  rewrite <- He, <- He'. apply listing_record; [done|]. rewrite Hh, Hend, dir_bytes_length. constructor.
  rewrite (db_size _ _ _ _ Hdb). lia.
Qed.
End chain_listing.

(** * [ext2_append_to_directory] *)
Section append_run.
Context {D : Type} `{Env, BlockDeviceLaws D}.
Implicit Types (c : cst D) (bl : list Z).

(** The bytes of the directory with the blocks [bl], and where its last block starts. *)
Definition dir_bytes bl c : list Z := file_bytes bl (c_ctx c) (c_dev c).
Definition last_block bl c : Z := capacity bl (c_ctx c) - bsz (c_ctx c).

(** The directory at [directory], with inode [ino] and blocks [bl], as the function may meet it. *)
Record direct_directory (fuel : nat) c (directory : list Z) (ino : Z) bl : Prop := {
  sd_walk : walk fuel (c_ctx c) (c_dev c) EXT2_ROOT_INO (path_elements directory) (Some ino);
  sd_blocks : dir_blocks (c_ctx c) (c_dev c) (inode_on_disk (c_ctx c) (c_dev c) ino) bl;
  sd_apart : dir_apart (c_ctx c) ino bl (c_dev c)
}.

(** Its records: [l0] in the blocks before the last one, [l] and the one at [last] in the last one. *)
Record dir_records bl c (l0 l : list (Z * list Z)) (last : Z) : Prop := {
  dc_before : chain (dir_bytes bl c) 0 l0 (last_block bl c);
  dc_chain : chain (dir_bytes bl c) (last_block bl c) l last
}.

Lemma last_block_range fuel c directory ino bl : fs_ok c -> direct_directory fuel c directory ino bl -> 0 <= last_block bl c.
Proof.
  intros [Hc _] [_ [_ Hne _ _ _ _ _] _]. destruct (bsz_range _ Hc) as [Hb _]. unfold last_block, capacity.
  destruct bl; [done|]. cbn [length]. nia.
Qed.

Lemma append_to_directory_run depth fuel directory i name de c ino bl l0 l last :
  fs_ok c -> env_malloc (c_tick c) = true -> read_only (c_ctx c) = 0 -> length (d_name de) = 256%nat ->
  direct_directory fuel c directory ino bl -> dir_records bl c l0 l last ->
  room_for (dir_bytes bl c) last i name -> (length l <= fuel)%nat ->
  exists de' c', append_with (ext2_open_rec depth fuel) fuel directory i name de c = Ok ((0, de'), c') /\
    (exists bf, c_ctx c' = set_sysbuf bf (c_ctx c)) /\ fs_ok c' /\
    appended (c_ctx c) ino bl (c_dev c) (dir_bytes bl c) (l0 ++ l) last i name (c_dev c').
Proof.
  intros Hc Hm Hro Hde Hdir [Hch0 Hch] Hroom Hfuel. pose proof (last_block_range fuel c directory ino bl Hc Hdir) as Hbase.
  pose proof Hdir as [Hw [Hsz Hne Hdirect Hbl Hnd Hcap Hdata] Hap].
  set (a := match depth with
            | O => fun _ _ _ _ => throw OutOfFuel
            | S n => append_with (ext2_open_rec n fuel) fuel
            end : appender (D := D)).
  destruct (open_body_found a fuel directory O_RDWR 1023 de c ino Hc Hde Hw (da_located _ _ _ _ Hap))
    as (de1 & s & [Ho Hcl Hd [bf Hctx]] & Hr & Hn & Hcur & Hfl & Hbody).
  assert (Hex : open_existing O_RDWR (Z.land 1023 512) s = Ok (true, s)).
  { rewrite open_existing_run, Hctx by done. unfold open_error.
    change (read_only (set_sysbuf bf (c_ctx c))) with (read_only (c_ctx c)). rewrite Hro.
    by destruct (has_flag (i_mode _) _). }
  assert (Hopen : ext2_open_rec depth fuel directory O_RDWR 1023 de c = Ok ((OpenFile (s_fe s), de1), s_c s)).
  { transitivity (open_with a fuel directory O_RDWR 1023 de c); [unfold a; by destruct depth|].
    apply (open_run a fuel directory O_RDWR 1023 de c true); [done|]. rewrite Hbody.
    by erewrite bind_ok by exact Hex. }
  assert (Hv : view s = c_dev c) by (by rewrite clean_view).
  assert (Hs : dir_file (set_sysbuf bf (c_ctx c)) ino bl (c_dev c) (dir_bytes bl c) 0 false s).
  { split; rewrite ?Hd; try done.
    - split; rewrite ?Hctx, ?Hcur, ?Hr, ?Hv, ?Hcl; try done. by rewrite Hsz.
    - exists (c_errno (s_c s)). unfold abstract. rewrite Hctx, Hcur, Hr, Hv, Hfl, Hsz. reflexivity. }
  destruct (append_entry_run (set_sysbuf bf (c_ctx c)) ino bl (c_dev c) (last_block bl c) eq_refl Hbase fuel
    (dir_bytes bl c) l0 l last i name 0 s Hs Hch0 Hch Hroom Hfuel)
    as (s' & Hrun & [bf' Hc'] & Hfs & [Hok' Vol Rec Lba Loc Sz Bl Oth]); [by destruct Hap as [[]] |].
  exists de1, (s_c s'). split; [|split; [by exists bf' | split; [exact Hfs|]]].
  - assert (Hrf : run_file (s_fe s) (append_entry fuel i name) (s_c s) = Ok (0, s_c s')).
    { unfold run_file. replace (mk_fst (s_fe s) (s_c s)) with s by (by destruct s). by rewrite Hrun. }
    unfold append_with. erewrite bind_ok by exact Hopen. cbn beta iota. by erewrite bind_ok by exact Hrf.
  - split; [exact Hok' | exact Vol | exact Rec | exact Lba | by destruct Loc | exact Sz | exact Bl | exact Oth].
Qed.

(** What a reading of the directory lists, before and after. *)
Lemma direct_directory_listing fuel directory i name c ino bl l0 l last :
  fs_ok c -> direct_directory fuel c directory ino bl -> dir_records bl c l0 l last ->
  room_for (dir_bytes bl c) last i name ->
  listing (c_ctx c) (c_dev c) (inode_on_disk (c_ctx c) (c_dev c) ino) 0 ((l0 ++ l) ++ [entry_at (dir_bytes bl c) last]).
Proof.
  intros [Hc Hd] [Hw Hdb Hap] [Hch0 Hch] Hroom.
  assert (Hwf : cs_wf (inode_on_disk (c_ctx c) (c_dev c) ino)) by (apply inode_on_disk_wf; [done | apply Hap]).
  rewrite (surjective_pairing (entry_at _ last)). apply (ends_with_listing _ _ _ bl Hc Hd Hwf Hdb _ last).
  split; [by eapply chain_app | apply Hroom | apply surjective_pairing | apply Hroom].
Qed.

Lemma appended_listing (c : ext2context) d ino bl data l last i name d' :
  ctx_ok c -> dir_blocks c d (inode_on_disk c d ino) bl -> appended c ino bl d data l last i name d' ->
  listing c d' (inode_on_disk c d' ino) 0 ((l ++ [entry_at data last]) ++ [(i, name)]).
Proof.
  intros Hc [Hsz Hne Hdir Hbl Hnd Hcap Hdata] [Hok Hvol Hrec Hlba Hloc Hsz' Hbl' _].
  assert (Hwf : cs_wf (inode_on_disk c d' ino)) by (by apply inode_on_disk_wf).
  eapply (ends_with_listing _ _ _ bl); try done. split; try done.
  - intros k b Hk. split; [by apply Hbl' | by apply (Hbl k)].
  - intros p Hp. by apply Hvol, Hdata.
Qed.

(** C24: [ext2_append_to_directory] adds one entry: for a directory of at most twelve blocks, all direct,
    whose last record has room for it, it returns 0, and a reading of the directory that listed the entries of the blocks before
    the last one ([l0]) and of the last one ([l] and the last record) now lists those, unchanged and in
    their order, and then the new name with its inode number; sectors other than the directory's and the
    one of its inode are as they were. *)
Theorem append_adds_entry fuel directory i name de c ino bl l0 l last :
  fs_ok c -> env_malloc (c_tick c) = true -> read_only (c_ctx c) = 0 -> length (d_name de) = 256%nat ->
  direct_directory fuel c directory ino bl -> dir_records bl c l0 l last ->
  room_for (dir_bytes bl c) last i name -> (length l <= fuel)%nat ->
  let old := (l0 ++ l) ++ [entry_at (dir_bytes bl c) last] in
  listing (c_ctx c) (c_dev c) (inode_on_disk (c_ctx c) (c_dev c) ino) 0 old /\
  exists de' c', ext2_append_to_directory fuel directory i name de c = Ok ((0, de'), c') /\
    listing (c_ctx c) (c_dev c') (inode_on_disk (c_ctx c) (c_dev c') ino) 0 (old ++ [(i, name)]) /\
    forall m, in_volume (c_dev c) m -> m <> ino_lba (c_ctx c) (c_dev c) ino -> ~ file_sector bl (c_ctx c) m ->
      dev_sector (c_dev c') m = dev_sector (c_dev c) m.
Proof.
  intros Hc Hm Hro Hde Hdir Hch Hroom Hfuel old. split; [by eapply direct_directory_listing|].
  destruct (append_to_directory_run 1 fuel directory i name de c ino bl l0 l last Hc Hm Hro Hde Hdir Hch Hroom Hfuel)
    as (de' & c' & Hrun & _ & _ & Happ). exists de', c'. split; [exact Hrun|]. split; [|by apply Happ].
  eapply appended_listing; [apply Hc | apply Hdir | exact Happ].
Qed.
End append_run.
