(* ===== verification/Create.v ===== *)
(** * Creating a file in a directory

    The run of [ext2_open] with [O_CREAT] on a path whose directory exists and does not list the last
    element, across the components it goes through: the lookup, the claim of an inode
    ([ext2_allocate_inode]), the entry in the directory ([ext2_append_to_directory]) and the new inode
    ([ext2_flush_inode]). *)
From S2P Require Import Prelude Layout OnDisk Device Context Bitmap Super FileBuf Inode BlockMap Alloc FileIo FileSpec Files Directory Walk Lookup Append.

(** ** The path of the new file: a directory and a name *)

Lemma tokens_last cur path rest : tokens cur (path ++ 47 :: rest) = tokens cur path ++ tokens [] rest.
Proof.
  revert cur. induction path as [|b path IH]; intros cur; cbn [app tokens].
  - change (47 =? 47) with true. cbv iota. by destruct cur.
  - destruct (b =? 47); [|apply IH]. destruct cur; [apply IH|]. cbn [app]. by rewrite IH.
Qed.

(** The whole path is within the limits of the parser. *)
Record path_fits (dpath name : list Z) : Prop := {
  pf_name : Forall (fun b => b <> 47) name;
  pf_some : (0 < length name)%nat;
  pf_len : Z.of_nat (length (dpath ++ 47 :: name)) < MAX_PATH_LEN;
  pf_levels : Z.of_nat (length (path_elements dpath)) < MAX_PATH_LEVELS
}.

Lemma path_elements_snoc dpath name :
  path_fits dpath name -> path_elements (dpath ++ 47 :: name) = path_elements dpath ++ [name].
Proof.
  intros [Hn Hs Hlen Hlev]. rewrite length_app in Hlen. cbn [length] in Hlen. unfold path_elements in *.
  rewrite (take_ge (dpath ++ _)), tokens_last by (rewrite length_app; cbn [length]; lia).
  rewrite (take_ge dpath) in Hlev |- * by lia. rewrite length_take in Hlev.
  assert (tokens [] name = [name]) as ->.
  { rewrite <- (app_nil_r name) at 1. rewrite tokens_run by done. by destruct name; cbn in Hs; [lia|]. }
  unfold MAX_PATH_LEVELS in *. rewrite take_ge by (rewrite length_app; cbn [length]; lia). by rewrite take_ge by lia.
Qed.

Lemma split_last_none name : Forall (fun b => b <> 47) name -> split_last name = None.
Proof. induction 1 as [|b name Hb Hn IH]; cbn [split_last]; [done|]. rewrite IH. by destruct (Z.eqb_spec b 47). Qed.

Lemma split_last_snoc dpath name :
  Forall (fun b => b <> 47) name -> split_last (dpath ++ 47 :: name) = Some (dpath, name).
Proof.
  intros Hn. induction dpath as [|b dpath IH]; cbn [app split_last]; [by rewrite split_last_none|]. by rewrite IH.
Qed.

Lemma find_name_snoc name l i : find_name name l = None -> find_name name (l ++ [(i, name)]) = Some i.
Proof.
  induction l as [|[j n] l IH]; cbn [find_name app]; intros Hl; [by rewrite bool_decide_true|].
  by case_bool_decide; [|apply IH].
Qed.

(** ** The volume before the creation *)
Section creation.
Context {D : Type} `{Env, BlockDevice D, BlockView D}.

(** The inode bitmap of group [g], and the inode of its bit [k]. *)
Definition inode_bitmap (c : ext2context) (d : D) (g : Z) : Z :=
  bg_inode_bitmap (bg_on_disk c d (superblock_block c) g).
Definition inode_of_bit (c : ext2context) (g k : Z) : Z := s_inodes_per_group (ctx_superblock c) * g + k + 1.

(** What [ext2_allocate_inode] finds: [g] is the group it picks, [k] the first clear bit of its bitmap. *)
Record inode_free (c : cst D) (g k : Z) : Prop := {
  if_table : table_in_volume (fresh_file c);
  if_group : roomiest bg_free_inodes_count (fresh_file c) g;
  if_tables : tables_in_volume (c_ctx c) (c_dev c) g;
  if_copies : copies_ok (c_ctx c) (c_dev c);
  if_count : s_inodes_per_group (ctx_superblock (c_ctx c)) < 2147483648;
  if_bitmap i : 0 <= i < s_inodes_per_group (ctx_superblock (c_ctx c)) / 8 ->
    in_volume (c_dev c) (block_lba (c_ctx c) (inode_bitmap (c_ctx c) (c_dev c) g) i);
  if_bit : 0 <= k < 8 * (s_inodes_per_group (ctx_superblock (c_ctx c)) / 8);
  if_clear : bitmap_at (c_ctx c) (c_dev c) (inode_bitmap (c_ctx c) (c_dev c) g) k = false;
  if_first k' : 0 <= k' < k -> bitmap_at (c_ctx c) (c_dev c) (inode_bitmap (c_ctx c) (c_dev c) g) k' = true
}.

(** The sectors the directory with inode [dino] and blocks [bl] is read from. *)
Definition dir_sector (c : ext2context) (d : D) (dino : Z) (bl : list Z) (m : Z) : Prop :=
  m = ino_desc_lba c dino \/ m = ino_lba c d dino \/ file_sector bl c m.

(** The slot of inode [n], its descriptor and the sectors of the directory do not overlap; the
    slots of the two inodes may share a sector. *)
Record written_apart (c : ext2context) (d : D) (dino : Z) (bl : list Z) (n : Z) : Prop := {
  wa_located : inode_located c d n;
  wa_desc : ino_desc_lba c n <> ino_lba c d dino;
  wa_desc_dir : ~ file_sector bl c (ino_desc_lba c n);
  wa_slot : ino_lba c d n <> ino_desc_lba c dino;
  wa_slot_desc : ino_lba c d n <> ino_desc_lba c n;
  wa_slot_dir : ~ file_sector bl c (ino_lba c d n);
  wa_slots : ino_lba c d n <> ino_lba c d dino \/
    ino_off c n + 128 <= ino_off c dino \/ ino_off c dino + 128 <= ino_off c n
}.

(** The sectors that the claim of bit [k] of the bitmap of group [g] writes: the sector of the bitmap,
    and the copies of the superblock. *)
Definition claim_sector (c : ext2context) (d : D) (g k m : Z) : Prop :=
  m = block_lba c (inode_bitmap c d g) (k / 8) \/ exists b', b' ∈ superblock_blocks c /\ m = sb_lba c b'.

(** Those are not sectors of the directory, nor the descriptor of the new inode. *)
Definition claim_apart (c : ext2context) (d : D) (dino : Z) (bl : list Z) (g k n : Z) : Prop :=
  forall m, dir_sector c d dino bl m \/ m = ino_desc_lba c n -> ~ claim_sector c d g k m.

(** The sectors that the entry and the new inode are written to. *)
Definition entry_sector (c : ext2context) (d : D) (dino : Z) (bl : list Z) (n m : Z) : Prop :=
  m = ino_lba c d n \/ m = ino_lba c d dino \/ file_sector bl c m.

(** The directory [dpath] has the blocks [bl], whose records are [l0], [l] and a last one with room for
    [name]; none of them is called [name]. *)
Record dir_has_room (fuel : nat) (c : cst D) (dpath : list Z) (dino : Z) (bl : list Z) (n : Z)
    (l0 l : list (Z * list Z)) (last : Z) (name : list Z) : Prop := {
  dr_dir : direct_directory fuel c dpath dino bl;
  dr_records : dir_records bl c l0 l last;
  dr_room : room_for (dir_bytes bl c) last n name;
  dr_fuel : (length (l0 ++ l) + 2 <= fuel)%nat;
  dr_new : find_name name ((l0 ++ l) ++ [entry_at (dir_bytes bl c) last]) = None;
  dr_fits : path_fits dpath name
}.
End creation.

(** * Facts *)
Section creation_facts.
Context {D : Type} `{Env, BlockDeviceLaws D}.
Implicit Types (c : cst D).

(** The directory is the same on a device [d'] that agrees on its sectors, under a context of the
    same geometry. *)
Section unchanged.
Variables (c : cst D) (dpath : list Z) (dino : Z) (bl : list Z) (n : Z) (C1 : ext2context) (d' : D).
#[local] Abbreviation C := (c_ctx c).
#[local] Abbreviation d := (c_dev c).
Hypothesis Hc : fs_ok c.
Hypothesis Hgeo : same_geometry C C1.
Hypothesis Hvol : forall m, in_volume d' m <-> in_volume d m.
Hypothesis Hsame : forall m, in_volume d m -> dir_sector C d dino bl m -> dev_sector d' m = dev_sector d m.

Lemma unchanged_located ino :
  inode_located C d ino -> dev_sector d' (ino_desc_lba C ino) = dev_sector d (ino_desc_lba C ino) ->
  ino_lba C1 d' ino = ino_lba C d ino /\ inode_located C1 d' ino.
Proof.
  intros Hil Hdesc. destruct (located_same C d d' ino Hvol Hdesc Hil) as [Hlba Hil'].
  rewrite (geo_lba _ _ Hgeo). split; [done | by apply (geo_located _ _ Hgeo)].
Qed.

Variables (fuel : nat) (l0 l : list (Z * list Z)) (last : Z) (name : list Z).
Hypothesis Hwalk : walk fuel C d' EXT2_ROOT_INO (path_elements dpath) (Some dino).
Hypothesis Hroot : dir_has_room fuel c dpath dino bl n l0 l last name.

Lemma unchanged_data o : 0 <= o < capacity bl C ->
  dev_sector d' (file_lba bl C o) = dev_sector d (file_lba bl C o).
Proof.
  intros Ho. apply Hsame; [by apply (db_volume _ _ _ _ (sd_blocks _ _ _ _ _ (dr_dir _ _ _ _ _ _ _ _ _ _ Hroot)))|].
  right; right. by exists o.
Qed.

Lemma unchanged_bytes : file_bytes bl C1 d' = file_bytes bl C d.
Proof. rewrite (geo_file_bytes _ _ Hgeo). apply file_bytes_ext, unchanged_data. Qed.

Lemma unchanged_root :
  ino_lba C1 d' dino = ino_lba C d dino /\ inode_located C1 d' dino /\
  inode_on_disk C1 d' dino = inode_on_disk C d dino.
Proof.
  pose proof (da_located _ _ _ _ (sd_apart _ _ _ _ _ (dr_dir _ _ _ _ _ _ _ _ _ _ Hroot))) as Hil.
  destruct (unchanged_located _ Hil) as [Hlba Hil']; [apply Hsame; [apply Hil | by left]|].
  split; [done|]. split; [done|]. unfold inode_on_disk. rewrite Hlba, (geo_off _ _ Hgeo), Hsame; [done | apply Hil |].
  by right; left.
Qed.

Lemma unchanged_room e t : dir_has_room fuel (mk_cst C1 d' e t) dpath dino bl n l0 l last name.
Proof.
  destruct Hroot as [[Hw [Hsz Hne Hdir Hbl Hnd Hcap Hdata] [Hil Hdesc Hslot Hds]] [Hch0 Hch] Hr Hf Hnew Hname].
  destruct unchanged_root as (Hlba & Hil1 & Hdisk).
  assert (Hlast : last_block bl (mk_cst C1 d' e t) = last_block bl c)
    by (unfold last_block; cbn [c_ctx]; by rewrite (geo_capacity _ _ Hgeo), (geo_bsz _ _ Hgeo)).
  assert (Hbytes : dir_bytes bl (mk_cst C1 d' e t) = dir_bytes bl c) by apply unchanged_bytes.
  split; rewrite ?Hbytes; try done.
  - split; cbn [c_ctx c_dev]; rewrite ?Hdisk.
    + by apply (geo_walk _ _ Hgeo).
    + split; rewrite ?(geo_capacity _ _ Hgeo); try done. intros p Hp. rewrite (geo_file_lba _ _ Hgeo). by apply Hvol, Hdata.
    + split; rewrite ?(geo_file_sector _ _ Hgeo), ?(geo_desc _ _ Hgeo), ?Hlba; done.
  - split; by rewrite Hbytes, Hlast.
Qed.

Lemma unchanged_apart :
  written_apart C d dino bl n -> dev_sector d' (ino_desc_lba C n) = dev_sector d (ino_desc_lba C n) ->
  written_apart C1 d' dino bl n.
Proof.
  intros [Hil ? ? ? ? ? ?] Hdesc. destruct (unchanged_located n Hil Hdesc) as [Hlba Hil'].
  destruct unchanged_root as (Hlbar & _).
  split; rewrite ?(geo_file_sector _ _ Hgeo), ?(geo_desc _ _ Hgeo), ?(geo_off _ _ Hgeo), ?Hlba, ?Hlbar; done.
Qed.

Lemma unchanged_entry m :
  inode_located C d n -> dev_sector d' (ino_desc_lba C n) = dev_sector d (ino_desc_lba C n) ->
  entry_sector C1 d' dino bl n m -> entry_sector C d dino bl n m.
Proof.
  intros Hil Hdesc. destruct (unchanged_located n Hil Hdesc) as [Hlba _]. destruct unchanged_root as (Hlbar & _).
  unfold entry_sector. by rewrite Hlba, Hlbar, (geo_file_sector _ _ Hgeo).
Qed.
End unchanged.

(** What the three steps leave: the directory lists the new name, and the path leads to the inode. *)
Lemma created_walk fuel c dpath dino bl n l0 l last name d2 d3 :
  fs_ok c -> dir_has_room fuel c dpath dino bl n l0 l last name -> written_apart (c_ctx c) (c_dev c) dino bl n ->
  appended (c_ctx c) dino bl (c_dev c) (dir_bytes bl c) (l0 ++ l) last n name d2 ->
  ino_lba (c_ctx c) d2 n = ino_lba (c_ctx c) (c_dev c) n -> dev_ok d3 ->
  (forall m, in_volume d3 m <-> in_volume d2 m) ->
  (forall off k, 0 <= off -> 0 <= k -> off + k <= ino_off (c_ctx c) n \/ ino_off (c_ctx c) n + 128 <= off ->
     slice off k (dev_sector d3 (ino_lba (c_ctx c) d2 n)) = slice off k (dev_sector d2 (ino_lba (c_ctx c) d2 n))) ->
  (forall m, in_volume d2 m -> m <> ino_lba (c_ctx c) d2 n -> dev_sector d3 m = dev_sector d2 m) ->
  walk fuel (c_ctx c) d3 EXT2_ROOT_INO (path_elements dpath) (Some dino) ->
  walk fuel (c_ctx c) d3 EXT2_ROOT_INO (path_elements (dpath ++ 47 :: name)) (Some n).
Proof.
  intros [Hc Hd] [[Hw Hdb Hap] _ Hroom Hfuel Hnew Hname] [Hil Hde Hded Hsl Hsld Hsldir Hsls]
    [Hok2 Hvol2 Hrec Hlba Hloc Hsz2 Hbl2 _] Hlbn Hok3 Hvol3 Hslice Hoth Hwd.
  set (C := c_ctx c) in *. set (d := c_dev c) in *. rewrite Hlbn in *.
  pose proof (il_slot _ _ _ Hloc) as Hrs. pose proof (il_desc _ _ _ Hloc) as Hrd.
  destruct (located_same C d2 d3 dino Hvol3) as [Hlba3 Hloc3]; [by apply Hoth; [|apply not_eq_sym] | done |].
  assert (Hdisk : inode_on_disk C d3 dino = inode_on_disk C d2 dino).
  { unfold inode_on_disk. rewrite Hlba3. f_equal. rewrite Hlba in *.
    destruct (decide (ino_lba C d n = ino_lba C d dino)) as [Heq|Hne].
    - rewrite <- Heq. destruct (inode_slots _ _ _ Hloc) as (_ & _ & _ & _ & _ & Ho & _).
      apply Hslice; [lia | lia |]. destruct Hsls as [|[|]]; [done | by right | by left].
    - by rewrite Hoth by (try done; by apply not_eq_sym). }
  pose proof Hdb as [Hsz Hne Hdir Hbl Hnd Hcap Hdata].
  set (old := (l0 ++ l) ++ [entry_at (dir_bytes bl c) last]) in *.
  assert (Hlist : listing C d3 (inode_on_disk C d3 dino) 0 (old ++ [(n, name)])).
  { rewrite Hdisk. eapply (ends_with_listing C d3 _ bl Hc Hok3).
    - by apply inode_on_disk_wf.
    - split; [exact Hsz2 | done | done | | done | done | intros p Hp; by apply Hvol3, Hvol2, Hdata].
      intros j b Hj. split; [by apply Hbl2 | by apply (Hbl j)].
    - rewrite (file_bytes_ext bl C d2); [exact Hrec|]. intros p Hp. apply Hoth; [by apply Hvol2, Hdata|].
      intros Heq. apply Hsldir. exists p. by rewrite <- Heq. }
  rewrite path_elements_snoc by done. eapply walk_app; [exact Hwd|].
  eapply walk_step; [exact Hloc3 | exact Hlist | | by apply find_name_snoc | constructor].
  unfold old. rewrite length_app in Hfuel. rewrite !length_app. cbn [length]. lia.
Qed.

(** ** The steps of a creation *)
Section steps.
Variables (fuel : nat) (c : cst D) (dpath : list Z) (dino : Z) (bl : list Z) (g k n : Z).
Variables (l0 l : list (Z * list Z)) (last : Z) (name : list Z).
Hypothesis Hc : fs_ok c.
Hypothesis Hmem : forall t, env_malloc t = true.
Hypothesis Hfree : inode_free c g k.
Hypothesis Hn : n = inode_of_bit (c_ctx c) g k.
Hypothesis Hroom : dir_has_room fuel c dpath dino bl n l0 l last name.
Hypothesis Hclaim : claim_apart (c_ctx c) (c_dev c) dino bl g k n.
Hypothesis Hwritten : written_apart (c_ctx c) (c_dev c) dino bl n.
Hypothesis Hpath : path_leads fuel (c_ctx c) (c_dev c) dpath dino
  (fun m => claim_sector (c_ctx c) (c_dev c) g k m \/ entry_sector (c_ctx c) (c_dev c) dino bl n m).

Lemma n_range : 0 < n < 2147483648.
Proof. exact (rf_ino _ _ _ _ (dr_room _ _ _ _ _ _ _ _ _ _ Hroom)). Qed.

(** The name is not found. *)
Lemma lookup_step de :
  length (d_name de) = 256%nat ->
  exists de' s, ext2_lookup_path fuel (dpath ++ 47 :: name) de (fresh_file c) = Ok ((-1, de'), s) /\
    looks (c_ctx c) (c_dev c) s /\ c_errno (s_c s) = ENOENT /\ length (d_name de') = 256%nat.
Proof.
  intros Hde. pose proof Hroom as [Hroot Hch Hrm Hfuel Hnew Hname].
  assert (Hw : walk fuel (c_ctx c) (c_dev c) EXT2_ROOT_INO (path_elements (dpath ++ 47 :: name)) None).
  { rewrite path_elements_snoc by done. eapply walk_app; [apply Hroot|]. eapply walk_missing; [apply Hroot | | | exact Hnew].
    - by eapply direct_directory_listing.
    - rewrite length_app. cbn [length]. lia. }
  destruct (lookup_elements_run fuel _ _ _ _ _ (fresh_file c) de Hw (looks_start (fresh_file c) (fresh_file_open c Hc) eq_refl) Hde)
    as (v & de' & s & Hrun & Hs & Hde' & -> & Herr); [done|]. by exists de', s.
Qed.

(** An inode is claimed. *)
Lemma claim_step s :
  looks (c_ctx c) (c_dev c) s ->
  exists s', ext2_allocate_inode s = Ok (0, s') /\
    inode_claimed (s_inodes_per_group (ctx_superblock (c_ctx c))) g (inode_bitmap (c_ctx c) (c_dev c) g) k s s'.
Proof.
  intros [[Hok _] Hcl Hd [bf Hctx]]. assert (Hv : view s = c_dev c) by (by rewrite clean_view).
  pose proof Hfree as [Htab Hg Htabs Hcop Hipg Hbm Hk Hclear Hfirst].
  destruct (allocate_inode_run s g) as (k' & s' & Hrun & Hk' & Hclear' & Hfirst' & Hcl');
    rewrite ?Hv, ?Hctx, ?Hd in *; try done.
  - unfold table_in_volume. rewrite Hctx, Hd. exact Htab.
  - unfold roomiest, group_count. rewrite Hctx, Hd. exact Hg.
  - destruct Hcop. by split.
  - by exists k.
  - assert (k' = k) as ->; [|by exists s'].
    destruct (Z.lt_trichotomy k' k) as [Hlt|[|Hlt]]; [|done|].
    + specialize (Hfirst k' ltac:(lia)). change (bitmap_at (c_ctx c) (c_dev c) (inode_bitmap (c_ctx c) (c_dev c) g) k' = false) in Hclear'. congruence.
    + specialize (Hfirst' k ltac:(lia)). change (bitmap_at (c_ctx c) (c_dev c) (inode_bitmap (c_ctx c) (c_dev c) g) k = true) in Hfirst'. congruence.
Qed.

(** The volume after the claim is as the directory needs it, and so is the new inode's slot. *)
Lemma claimed_step s s' :
  looks (c_ctx c) (c_dev c) s ->
  inode_claimed (s_inodes_per_group (ctx_superblock (c_ctx c))) g (inode_bitmap (c_ctx c) (c_dev c) g) k s s' ->
  same_geometry (c_ctx c) (c_ctx (s_c s')) /\ fs_ok (s_c s') /\
  dir_has_room fuel (s_c s') dpath dino bl n l0 l last name /\
  written_apart (c_ctx (s_c s')) (c_dev (s_c s')) dino bl n /\
  path_leads fuel (c_ctx (s_c s')) (c_dev (s_c s')) dpath dino
    (entry_sector (c_ctx (s_c s')) (c_dev (s_c s')) dino bl n) /\
  fe_inode_number (s_fe s') = n /\ fe_magic (s_fe s') = EMBEXT_MAGIC /\
  fe_flags (s_fe s') = fe_flags (s_fe s) /\ bo_dirty (fe_buffer (s_fe s')) = 0 /\ sector_ok (bo_buffer (fe_buffer (s_fe s'))).
Proof.
  intros [[Hok Hmg] Hcl Hd [bf Hctx]] [Hok' (bo & Hfe & Hbo) (bf' & nr & Hctx') _ Hvol Hsec].
  assert (Hv : view s = c_dev c) by (by rewrite clean_view). rewrite Hd, Hctx, Hv in *.
  assert (Hgeo : same_geometry (c_ctx c) (c_ctx (s_c s')))
    by (rewrite Hctx'; apply (geometry_one_less bf' nr (c_ctx c))).
  assert (Hother : forall m, in_volume (c_dev c) m -> ~ claim_sector (c_ctx c) (c_dev c) g k m ->
    dev_sector (c_dev (s_c s')) m = dev_sector (c_dev c) m).
  { intros m Hm Hnc. rewrite Hsec by (try done; intros b' Hb' ->; apply Hnc; right; by exists b').
    destruct (Z.eqb_spec m (block_lba (set_sysbuf bf (c_ctx c)) (inode_bitmap (c_ctx c) (c_dev c) g) (k / 8)));
      [exfalso; apply Hnc; by left | done]. }
  assert (Hsame : forall m, in_volume (c_dev c) m -> dir_sector (c_ctx c) (c_dev c) dino bl m \/ m = ino_desc_lba (c_ctx c) n ->
    dev_sector (c_dev (s_c s')) m = dev_sector (c_dev c) m) by (intros m Hm Hr; apply Hother; [done | by apply Hclaim]).
  assert (Hsr : forall m, in_volume (c_dev c) m -> dir_sector (c_ctx c) (c_dev c) dino bl m ->
    dev_sector (c_dev (s_c s')) m = dev_sector (c_dev c) m) by (intros m Hm Hr; apply Hsame; [done | by left]).
  assert (Hdesc : dev_sector (c_dev (s_c s')) (ino_desc_lba (c_ctx c) n) = dev_sector (c_dev c) (ino_desc_lba (c_ctx c) n))
    by (apply Hsame; [apply Hwritten | by right]).
  assert (Hpl : path_leads fuel (c_ctx (s_c s')) (c_dev (s_c s')) dpath dino (entry_sector (c_ctx c) (c_dev c) dino bl n))
    by (eapply path_leads_step; [exact Hpath | exact Hgeo | exact Hvol | exact Hother | by left | by right]).
  assert (Hwd : walk fuel (c_ctx c) (c_dev (s_c s')) EXT2_ROOT_INO (path_elements dpath) (Some dino)).
  { apply Hpath; [apply Hok' | exact Hvol |]. intros m Hm Hnm. apply Hother; [done|]. intros Hx. apply Hnm. by left. }
  split; [exact Hgeo|]. split; [apply Hok'|].
  split; [|split; [|split]].
  - pose proof (unchanged_room c dpath dino bl n _ (c_dev (s_c s')) Hgeo Hvol Hsr fuel l0 l last name Hwd Hroom
      (c_errno (s_c s')) (c_tick (s_c s'))) as Hr. by destruct (s_c s').
  - by eapply unchanged_apart.
  - intros d2 Hd2 Hv2 Hs2. apply Hpl; [done | done |]. intros m Hm Hnm. apply Hs2; [done|]. intros Hx. apply Hnm.
    revert Hx. eapply unchanged_entry; try done. apply Hwritten.
  - pose proof (fo_buffer _ Hok') as Hbuf. rewrite Hfe in Hbuf |- *. split; [|by split].
    pose proof n_range. cbn. rewrite u32_id; unfold inode_of_bit in Hn; lia.
Qed.

Lemma malloc_step (c0 : cst D) : malloc c0 = Ok (true, mk_cst (c_ctx c0) (c_dev c0) (c_errno c0) (S (c_tick c0))).
Proof. unfold malloc. by rewrite Hmem. Qed.

(** The new inode before it is flushed. *)
Definition fresh_inode mode (t : nat) (f : file_ent) : file_ent :=
  set_fe_flags (Z.lor (fe_flags f) EXT2_FLAG_FS_DIRTY) (set_fe_cursor 0 (upd_fe_inode
    (fun _ => new_inode mode (u32 (env_time t)) (u32 (env_time (S t))) (u32 (env_time (S (S t))))) f)).

(** Flushing the inode [f] of the new file, after its entry was appended: [c1] is the state before the
    entry, [c2] the one after. *)
Lemma flush_step (c1 c2 : cst D) f :
  fs_ok c1 -> dir_has_room fuel c1 dpath dino bl n l0 l last name -> written_apart (c_ctx c1) (c_dev c1) dino bl n ->
  path_leads fuel (c_ctx c1) (c_dev c1) dpath dino (entry_sector (c_ctx c1) (c_dev c1) dino bl n) ->
  (exists bf, c_ctx c2 = set_sysbuf bf (c_ctx c1)) -> fs_ok c2 ->
  appended (c_ctx c1) dino bl (c_dev c1) (dir_bytes bl c1) (l0 ++ l) last n name (c_dev c2) ->
  fe_inode_number f = n -> fe_magic f = EMBEXT_MAGIC -> bo_dirty (fe_buffer f) = 0 ->
  sector_ok (bo_buffer (fe_buffer f)) -> cs_wf (fe_inode f) -> has_flag (fe_flags f) EXT2_FLAG_FS_DIRTY = true ->
  let s := flushed_inode (mk_fst f c2) in
  ext2_flush_inode (mk_fst f c2) = Ok (0, s) /\ open_file s /\
  inode_located (c_ctx (s_c s)) (c_dev (s_c s)) n /\
  inode_on_disk (c_ctx (s_c s)) (c_dev (s_c s)) n = fe_inode f /\
  walk fuel (c_ctx (s_c s)) (c_dev (s_c s)) EXT2_ROOT_INO (path_elements (dpath ++ 47 :: name)) (Some n).
Proof.
  intros Hok1 Hroom1 Hwr1 Hpl1 [bf Hctx] Hok2 Happ Hnf Hmg Hcl Hbuf Hwf Hflag s.
  set (C := c_ctx c1) in *. pose proof (ap_volume _ _ _ _ _ _ _ _ _ _ Happ) as Hvol.
  destruct (located_same C (c_dev c1) (c_dev c2) n Hvol) as [Hlba Hloc]; [| apply Hwr1 |].
  { apply (ap_other _ _ _ _ _ _ _ _ _ _ Happ); apply Hwr1. }
  set (s0 := mk_fst f c2) in *.
  assert (Hs0 : file_ok s0) by (split; [done | done | intros Hne; by destruct Hne | done]).
  assert (Hloc0 : inode_located (c_ctx (s_c s0)) (c_dev (s_c s0)) n)
    by (change (inode_located (c_ctx c2) (c_dev c2) n); rewrite Hctx; by apply located_sysbuf).
  pose proof (flush_inode_run n s0 Hs0 Hnf Hloc0 Hflag) as Hflush. pose proof (flushed_ok n s0 Hs0 Hnf Hloc0) as Hfin.
  destruct (flushed_slot n s0 Hs0 Hnf Hloc0) as (Hslot & Hslice & Hoth).
  destruct (flushed_volume n s0 Hs0 Hnf Hloc0) as [Hok Hvol3].
  assert (Hv : view s0 = c_dev c2) by (by apply clean_view). fold s in Hok, Hvol3, Hslot, Hslice, Hoth, Hfin, Hflush.
  cbv zeta in Hslot, Hslice, Hoth. rewrite Hv in Hslice, Hoth.
  change (c_dev (s_c s0)) with (c_dev c2) in *. change (c_ctx (s_c s0)) with (c_ctx c2) in Hslot, Hslice, Hoth.
  rewrite Hctx in Hslot, Hslice, Hoth.
  assert (Hcs : c_ctx (s_c s) = set_sysbuf (sysbuf (c_ctx (s_c s))) C).
  { transitivity (set_sysbuf (sysbuf (c_ctx (s_c s))) (c_ctx c2)); [done | by rewrite Hctx]. }
  destruct (located_same C (c_dev c2) (c_dev (s_c s)) n Hvol3) as [Hlba' Hloc'];
    [apply Hoth; [apply Hloc | change (ino_desc_lba C n <> ino_lba C (c_dev c2) n); rewrite Hlba; apply not_eq_sym, Hwr1] | done |].
  split; [done|]. split; [by split|]. rewrite Hcs. split; [by apply located_sysbuf|]. split.
  - unfold inode_on_disk. change (ino_lba (set_sysbuf _ C)) with (ino_lba C). by rewrite Hlba'.
  - apply walk_sysbuf.
    apply (created_walk fuel c1 dpath dino bl n l0 l last name (c_dev c2) _ Hok1 Hroom1 Hwr1 Happ Hlba (proj2 Hok) Hvol3 Hslice Hoth).
    apply Hpl1; [apply Hok | intros m; by rewrite Hvol3, Hvol |]. intros m Hm Hnm.
    rewrite Hoth; [| by apply Hvol | intros Heq; apply Hnm; left; etransitivity; [exact Heq | exact Hlba]].
    apply (ap_other _ _ _ _ _ _ _ _ _ _ Happ); [done | intros ->; apply Hnm; by right; left |].
    intros Hf. apply Hnm. by right; right.
Qed.

(** The branch of [ext2_open] that creates the file. *)
Lemma create_step mode de s :
  looks (c_ctx c) (c_dev c) s -> read_only (c_ctx c) = 0 -> length (d_name de) = 256%nat ->
  exists de' s' t, open_create (append_with (ext2_open_rec 0 fuel) fuel) (dpath ++ 47 :: name) mode de s = Ok ((true, de'), s') /\
    open_file s' /\ fe_inode_number (s_fe s') = n /\ fe_cursor (s_fe s') = 0 /\
    fe_inode (s_fe s') = new_inode mode (u32 (env_time t)) (u32 (env_time (S t))) (u32 (env_time (S (S t)))) /\
    inode_located (c_ctx (s_c s')) (c_dev (s_c s')) n /\
    inode_on_disk (c_ctx (s_c s')) (c_dev (s_c s')) n = fe_inode (s_fe s') /\
    walk fuel (c_ctx (s_c s')) (c_dev (s_c s')) EXT2_ROOT_INO (path_elements (dpath ++ 47 :: name)) (Some n).
Proof.
  intros Hs Hro Hde. destruct (claim_step s Hs) as (s1 & Halloc & Hcl).
  destruct (claimed_step s s1 Hs Hcl) as (Hgeo & Hok1 & Hroom1 & Hwr1 & Hpl1 & Hn1 & Hmg1 & Hfl1 & Hbd1 & Hbs1).
  set (c2 := mk_cst (c_ctx (s_c s1)) (c_dev (s_c s1)) (c_errno (s_c s1)) (S (S (c_tick (s_c s1))))).
  assert (Hok2 : fs_ok c2) by exact Hok1.
  assert (Hroom2 : dir_has_room fuel c2 dpath dino bl n l0 l last name) by (destruct Hroom1 as [[] [] ? ? ? ?]; by split).
  assert (Hro2 : read_only (c_ctx c2) = 0) by (etransitivity; [exact (sg_read_only _ _ Hgeo) | exact Hro]).
  pose proof Hroom2 as [Hdir Hch Hrm Hfuel Hnew Hname].
  destruct (append_to_directory_run 0 fuel dpath n name de c2 dino bl l0 l last Hok2 (Hmem _) Hro2 Hde Hdir Hch Hrm ltac:(rewrite length_app in Hfuel; lia))
    as (de' & c3 & Happ & Hctx3 & Hok3 & Happd).
  set (t := c_tick c3). set (f := fresh_inode mode t (s_fe s1)).
  set (c4 := mk_cst (c_ctx c3) (c_dev c3) (c_errno c3) (S (S (S t)))).
  destruct (flush_step c2 c4 f Hok2 Hroom2 Hwr1 Hpl1 Hctx3 Hok3 Happd Hn1 Hmg1 Hbd1 Hbs1) as (Hflush & Hfacts);
    [by apply new_inode_wf; apply u32_range | by apply (has_flag_set (fe_flags (s_fe s1))) |].
  exists de', (flushed_inode (mk_fst f c4)), t. split.
  - assert (Hroc : read_only (c_ctx (s_c s)) = 0) by (by destruct Hs as [_ _ _ [bf0 ->]]).
    unfold open_create, fctx, fe. rewrite bind_gets, Hroc. change (negb (0 =? 0)) with false. cbv iota.
    erewrite bind_ok by exact Halloc. change (negb (0 =? 0)) with false. cbv iota.
    rewrite split_last_snoc by apply Hname.
    erewrite bind_ok by (apply zoom_ok, malloc_step). erewrite bind_ok by (apply zoom_ok, malloc_step).
    change (negb (true && true)) with false. cbv iota. rewrite bind_gets. cbn [s_fe set_c]. rewrite Hn1.
    erewrite bind_ok by (apply zoom_ok; exact Happ). cbn beta iota. change (negb (0 =? 0)) with false. cbv iota.
    do 3 (erewrite bind_ok by (apply zoom_ok; reflexivity)). rewrite !bind_modify.
    erewrite bind_ok by exact Hflush. reflexivity.
  - destruct Hfacts as (Hopen & Hloc & Hdisk & Hw). split; [exact Hopen|]. split; [exact Hn1|].
    split; [done|]. split; [done|]. split; [exact Hloc|]. split; [exact Hdisk | exact Hw].
Qed.
End steps.
End creation_facts.

(** * Properties *)
Section creation_properties.
Context {D : Type} `{Env, BlockDeviceLaws D}.

Lemma create_file_run fuel dpath name flags mode de (c : cst D) dino bl g k l0 l last :
  let path := dpath ++ 47 :: name in
  let n := inode_of_bit (c_ctx c) g k in
  fs_ok c -> (forall t, env_malloc t = true) -> read_only (c_ctx c) = 0 -> length (d_name de) = 256%nat ->
  has_flag flags O_CREAT = true -> s_inodes_count (ctx_superblock (c_ctx c)) < 4294967295 ->
  inode_free c g k -> dir_has_room fuel c dpath dino bl n l0 l last name ->
  claim_apart (c_ctx c) (c_dev c) dino bl g k n -> written_apart (c_ctx c) (c_dev c) dino bl n ->
  path_leads fuel (c_ctx c) (c_dev c) dpath dino
    (fun m => claim_sector (c_ctx c) (c_dev c) g k m \/ entry_sector (c_ctx c) (c_dev c) dino bl n m) ->
  exists f de' c' t, ext2_open fuel path flags mode de c = Ok ((OpenFile f, de'), c') /\
    open_file (mk_fst f c') /\ fe_inode_number f = n /\ fe_cursor f = 0 /\
    fe_inode f = new_inode (Z.land mode 511) (u32 (env_time t)) (u32 (env_time (S t))) (u32 (env_time (S (S t)))) /\
    inode_on_disk (c_ctx c') (c_dev c') n = fe_inode f /\
    walk fuel (c_ctx c') (c_dev c') EXT2_ROOT_INO (path_elements path) (Some n).
Proof.
  intros path n Hc Hmem Hro Hde Hflag Hcount Hfree Hroom Hclaim Hwr Hpath.
  set (a := append_with (ext2_open_rec 0 fuel) fuel).
  destruct (lookup_step fuel c dpath dino bl n l0 l last name Hc Hroom de Hde) as (de1 & s & Hlook & Hs & Herr & Hde1).
  set (s1 := upd_fe (fun f => set_fe_flags (access_flags flags (fe_flags f)) f) s).
  assert (Hs1 : looks (c_ctx c) (c_dev c) s1).
  { destruct Hs as [[Hok Hm] Hcl Hd Hctx]. split; try done. split; [by apply file_ok_upd_fe; [| |apply Hok] | done]. }
  destruct (create_step fuel c dpath dino bl g k n l0 l last name Hmem Hfree eq_refl Hroom Hclaim Hwr Hpath
    (Z.land mode 511) de1 s1 Hs1 Hro Hde1) as (de' & s' & t & Hrun & [Hok' Hm'] & Hn & Hcur & Hino & Hloc & Hdisk & Hw).
  exists (s_fe s'), de', (s_c s'), t. split.
  - apply (open_run a fuel path flags mode de c true); [apply Hmem|].
    unfold open_body. erewrite bind_ok by exact Hlook. cbn beta iota.
    erewrite bind_ok; [|apply open_inode_error; destruct Hs as [_ _ _ [bf ->]]; [apply Hwr | by right]].
    rewrite bind_modify, bind_gets. fold s1. change (c_errno (s_c s1)) with (c_errno (s_c s)).
    rewrite Herr, Hflag. exact Hrun.
  - split; [by destruct s'|]. by do 4 (split; [done|]).
Qed.

(** C8: creating a file: when the directory of the path exists, does not list the name, has at most twelve
    blocks, all direct, and has room for the entry in its last record, when an inode is free and the
    sectors to be written are apart from each other, [ext2_open] with [O_CREAT] returns an open file with
    the claimed inode's number and the inode of a new file, the device holds that inode in its slot, and
    a lookup of the path, which failed before, now ends at it. *)
Theorem create_file_found fuel dpath name flags mode de (c : cst D) dino bl g k l0 l last :
  let path := dpath ++ 47 :: name in
  let n := inode_of_bit (c_ctx c) g k in
  fs_ok c -> (forall t, env_malloc t = true) -> read_only (c_ctx c) = 0 -> length (d_name de) = 256%nat ->
  has_flag flags O_CREAT = true -> s_inodes_count (ctx_superblock (c_ctx c)) < 4294967295 ->
  inode_free c g k -> dir_has_room fuel c dpath dino bl n l0 l last name ->
  claim_apart (c_ctx c) (c_dev c) dino bl g k n -> written_apart (c_ctx c) (c_dev c) dino bl n ->
  path_leads fuel (c_ctx c) (c_dev c) dpath dino
    (fun m => claim_sector (c_ctx c) (c_dev c) g k m \/ entry_sector (c_ctx c) (c_dev c) dino bl n m) ->
  exists f de' c' t, ext2_open fuel path flags mode de c = Ok ((OpenFile f, de'), c') /\
    open_file (mk_fst f c') /\ fe_inode_number f = n /\ fe_cursor f = 0 /\
    fe_inode f = new_inode (Z.land mode 511) (u32 (env_time t)) (u32 (env_time (S t))) (u32 (env_time (S (S t)))) /\
    inode_on_disk (c_ctx c') (c_dev c') n = fe_inode f /\
    forall de2, length (d_name de2) = 256%nat ->
      exists de3 s, ext2_lookup_path fuel path de2 (fresh_file c') = Ok ((n, de3), s) /\
        c_dev (s_c s) = c_dev c'.
Proof.
  intros path n Hc Hmem Hro Hde Hflag Hcount Hfree Hroom Hclaim Hwr Hpath.
  destruct (create_file_run fuel dpath name flags mode de c dino bl g k l0 l last Hc Hmem Hro Hde Hflag Hcount Hfree Hroom
    Hclaim Hwr Hpath) as (f & de' & c' & t & Hrun & Hop & Hn & Hcur & Hino & Hdisk & Hw).
  exists f, de', c', t. do 6 (split; [done|]). intros de2 Hde2.
  assert (Hc' : fs_ok c') by (destruct Hop as [[] _]; done).
  destruct (lookup_elements_run fuel _ _ _ _ _ (fresh_file c') de2 Hw (looks_start (fresh_file c') (fresh_file_open c' Hc') eq_refl) Hde2)
    as (v & de3 & s3 & Hrun3 & Hs3 & _ & -> & _); [done|]. exists de3, s3. split; [exact Hrun3 | apply Hs3].
Qed.
End creation_properties.
