(* ===== verification/Reopen.v ===== *)
(** * Opening with truncation

    [ext2_open] with [O_TRUNC] on an existing file: the composition of the lookup
    ([Lookup]), the truncation ([Truncate]) and the close of [FileIo]. *)
From S2P Require Import Prelude Layout OnDisk Device Context Bitmap FileBuf Inode BlockMap Alloc FileIo Directory Truncate Walk Lookup.

(** The inode [ino], of blocks [L], can be truncated: its blocks can be released, no two share a bit of
    the bitmaps, its index blocks can be read, and no bit is in the sector of its slot. *)
Record truncatable {D} `{BlockDevice D, BlockView D} (c : cst D) (ino : Z) (L : list Z) : Prop := {
  tr_located : inode_located (c_ctx c) (c_dev c) ino;
  tr_blocks : Forall (releasable c L) L;
  tr_bits : NoDup (allocation_bit (c_ctx c) (c_dev c) <$> L);
  tr_index : Forall (index_readable c L)
    (index_blocks (c_ctx c) (c_dev c) (inode_on_disk (c_ctx c) (c_dev c) ino));
  tr_slot b : b ∈ L -> ino_lba (c_ctx c) (c_dev c) ino <> bitmap_lba (c_ctx c) (c_dev c) b
}.

Section reopen_facts.
Context {D : Type} `{Env, BlockDeviceLaws D}.
Implicit Types (s : file_state D) (c : cst D).

(** Closing a file with nothing to write back changes nothing. *)
Lemma close_untouched_run f c :
  fe_magic f = EMBEXT_MAGIC -> bo_dirty (fe_buffer f) = 0 -> has_flag (fe_flags f) EXT2_FLAG_FS_DIRTY = false ->
  h_close (OpenFile f) c = Ok ((0, FreedFile), c).
Proof.
  intros Hm Hd Hfl. assert (Hrun : ext2_close (mk_fst f c) = Ok (0, mk_fst (set_fe_magic 0 f) c)).
  { unfold ext2_close. rewrite with_magic_run by done. unfold fe. rewrite bind_gets. cbn [s_fe].
    rewrite Hd. cbn [Z.eqb negb]. erewrite bind_ok by reflexivity. rewrite bind_gets. cbn [Z.eqb negb s_fe].
    rewrite Hfl. by erewrite bind_ok by reflexivity. }
  unfold h_close, on_handle. unfold mbind at 1, M_bind at 1, mbind, res_bind. by rewrite Hrun.
Qed.

(** The flags of an access mode do not say that the inode is modified. *)
Lemma access_flags_clean flags : has_flag (access_flags flags EXT2_FLAG_READ) EXT2_FLAG_FS_DIRTY = false.
Proof. unfold access_flags. by repeat case_match. Qed.

(** What the truncation asks of a volume does not depend on the system buffer. *)
Lemma releasable_same s c L bf b :
  fs_ok (s_c s) -> c_dev (s_c s) = c_dev c -> c_ctx (s_c s) = set_sysbuf bf (c_ctx c) ->
  releasable c L b -> releasable (s_c s) L b.
Proof.
  intros Hs Hd Hc [[_ H1' H2' H3' H4' H5'] Hout]. split; [split|].
  - exact Hs.
  - exact H1'.
  - rewrite Hc. exact H2'.
  - rewrite Hc, Hd. exact H3'.
  - rewrite Hc, Hd. exact H4'.
  - rewrite Hc, Hd. exact H5'.
  - unfold group_lba, group_of. rewrite Hc, Hd. exact Hout.
Qed.

Lemma readable_same s c L bf b :
  c_dev (s_c s) = c_dev c -> c_ctx (s_c s) = set_sysbuf bf (c_ctx c) ->
  index_readable c L b -> index_readable (s_c s) L b.
Proof. intros Hd Hc Hr. unfold index_readable. rewrite Hc, Hd. exact Hr. Qed.

Lemma truncated_blocks_sysbuf bf cx (d : D) r :
  truncated_blocks (set_sysbuf bf cx) d r = truncated_blocks cx d r.
Proof. reflexivity. Qed.

Lemma index_blocks_sysbuf bf cx (d : D) r : index_blocks (set_sysbuf bf cx) d r = index_blocks cx d r.
Proof. reflexivity. Qed.

(** The branch of an existing file that is truncated. *)
Lemma open_existing_truncates s flags mode :
  has_flag flags O_TRUNC = true -> has_flag flags (Z.lor O_WRONLY O_RDWR) = true ->
  open_error (read_only (c_ctx (s_c s))) (Some (fe_inode (s_fe s))) flags mode = None ->
  open_existing flags (Z.land mode 512) s =
    (ext2_truncate_file ;; modify (upd_fe (set_fe_cursor 0)) ;; mret true) s.
Proof.
  intros Ht Hw. unfold open_existing, open_error, fe, fctx. rewrite !bind_gets, Ht, Hw. cbn [negb].
  repeat case_match; try done. intros _. unfold mbind, M_bind. by destruct (ext2_truncate_file s) as [[]|].
Qed.

(** The whole opening: it returns the emptied file in a state with its blocks released. *)
Lemma open_truncate_run fuel name flags mode de c ino :
  let r := inode_on_disk (c_ctx c) (c_dev c) ino in
  let L := truncated_blocks (c_ctx c) (c_dev c) r in
  fs_ok c -> env_malloc (c_tick c) = true -> length (d_name de) = 256%nat ->
  walk fuel (c_ctx c) (c_dev c) EXT2_ROOT_INO (path_elements name) (Some ino) ->
  has_flag flags O_TRUNC = true -> has_flag flags (Z.lor O_WRONLY O_RDWR) = true ->
  open_error (read_only (c_ctx c)) (Some r) flags mode = None ->
  truncatable c ino L ->
  exists s de' t, looks (c_ctx c) (c_dev c) s /\ fe_inode (s_fe s) = r /\ fe_inode_number (s_fe s) = ino /\
    fe_flags (s_fe s) = access_flags flags EXT2_FLAG_READ /\ released s L (emptied r) t /\
    ext2_open fuel name flags mode de c = Ok ((OpenFile (set_fe_cursor 0 (s_fe t)), de'), s_c t).
Proof.
  intros r L Hc Hm Hde Hw Htr Hwr Herr [Hil Hrel Hbits Hread _].
  unfold ext2_open. cbn [ext2_open_rec]. set (a := append_with _ _).
  destruct (open_body_found a fuel name flags mode de c ino Hc Hde Hw Hil)
    as (de' & s & Hlk & Hr & Hn & _ & Hfl & Hbody).
  pose proof Hlk as [[Hok _] Hcl Hd [bf Hctx]].
  assert (HL : truncated_blocks (c_ctx (s_c s)) (c_dev (s_c s)) (fe_inode (s_fe s)) = L)
    by (rewrite Hctx, Hd, Hr; apply truncated_blocks_sysbuf).
  pose proof (truncate_run s Hok Hcl) as Hrun. cbv zeta in Hrun. rewrite HL in Hrun. clear HL. clearbody L.
  destruct Hrun as (t & Hrun & Ht).
  - eapply Forall_impl; [|exact Hrel]. intros b Hb. by eapply releasable_same; [apply Hok | | |].
  - rewrite Hctx, Hd. exact Hbits.
  - rewrite Hctx, Hd, Hr, index_blocks_sysbuf. eapply Forall_impl; [|exact Hread]. intros b Hb.
    eapply (readable_same s c); [exact Hd | exact Hctx | exact Hb].
  - rewrite Hr in Ht. exists s, de', t. do 5 (split; [done|]).
    eapply (open_run a fuel name flags mode de c true de' (upd_fe (set_fe_cursor 0) t)); [done|].
    rewrite Hbody. rewrite (bind_ok _ _ _ true (upd_fe (set_fe_cursor 0) t)); [done|].
    rewrite open_existing_truncates; [by erewrite bind_ok by exact Hrun | done | done |].
    rewrite Hctx, Hr. exact Herr.
Qed.
End reopen_facts.

(** * Properties *)
Section reopen_properties.
Context {D : Type} `{Env, BlockDeviceLaws D}.
Implicit Types (c : cst D).

(** C26: the truncation of [O_TRUNC] is not written back: after opening an existing file with [O_TRUNC] and
    closing it, both successful, the allocation bits of its blocks are clear on the device, but the
    sector of its inode is what it was, with the old size and the numbers of the blocks that are now
    free, because [ext2_truncate_file] does not mark the inode as modified. *)
Theorem truncation_not_written_back fuel name flags mode de c ino :
  let r := inode_on_disk (c_ctx c) (c_dev c) ino in
  let n := ino_lba (c_ctx c) (c_dev c) ino in
  let L := truncated_blocks (c_ctx c) (c_dev c) r in
  fs_ok c -> env_malloc (c_tick c) = true -> length (d_name de) = 256%nat ->
  walk fuel (c_ctx c) (c_dev c) EXT2_ROOT_INO (path_elements name) (Some ino) ->
  has_flag flags O_TRUNC = true -> has_flag flags (Z.lor O_WRONLY O_RDWR) = true ->
  open_error (read_only (c_ctx c)) (Some r) flags mode = None ->
  truncatable c ino L ->
  exists f de' c', ext2_open fuel name flags mode de c = Ok ((OpenFile f, de'), c') /\
    fe_inode f = emptied r /\ fe_cursor f = 0 /\
    h_close (OpenFile f) c' = Ok ((0, FreedFile), c') /\
    (forall b, b ∈ L ->
       bit_get (dev_sector (c_dev c') (bitmap_lba (c_ctx c) (c_dev c) b)) (bitmap_bit (c_ctx c) b) = false) /\
    dev_sector (c_dev c') n = dev_sector (c_dev c) n /\
    decode (slice (ino_off (c_ctx c) ino) 128 (dev_sector (c_dev c') n)) = r.
Proof.
  intros r n L Hc Hm Hde Hw Htr Hwr Herr Htc. pose proof Htc as [Hil Hrel _ _ Hn].
  destruct (open_truncate_run fuel name flags mode de c ino Hc Hm Hde Hw Htr Hwr Herr Htc)
    as (s & de' & t & [[_ Hmg] _ Hd [bf Hctx]] & Hr & _ & Hfl & [Hok Hcl [bo Hfe] _ _ Hsec _] & Hopen).
  fold r L in Hfe, Hsec.
  assert (Hsec' : forall m, in_volume (c_dev c) m ->
    dev_sector (c_dev (s_c t)) m = cleared (c_ctx c) (c_dev c) L m).
  { intros m Hv. rewrite Hsec by (by rewrite Hd). rewrite Hctx, Hd. reflexivity. }
  assert (Hslot : dev_sector (c_dev (s_c t)) n = dev_sector (c_dev c) n).
  { rewrite Hsec' by apply Hil. by apply cleared_other. }
  exists (set_fe_cursor 0 (s_fe t)), de', (s_c t). split; [exact Hopen|].
  split; [by rewrite Hfe|]. split; [done|]. split; [|split; [|split; [done | by rewrite Hslot]]].
  - apply close_untouched_run; [by rewrite Hfe | done |]. rewrite Hfe. cbn [fe_flags upd_fe_inode set_fe_buffer set_fe_cursor].
    rewrite Hfl. apply access_flags_clean.
  - intros b Hb. pose proof (bitmap_bit_range (c_ctx c) b).
    assert (Hv : in_volume (c_dev c) (bitmap_lba (c_ctx c) (c_dev c) b))
      by (rewrite list.Forall_forall in Hrel; apply (Hrel b Hb)).
    rewrite Hsec', bit_get_cleared by (try done; try lia; apply Hc).
    rewrite bool_decide_true, andb_false_r; [done|]. by apply (list_elem_of_fmap_2 (allocation_bit _ _)).
Qed.
End reopen_properties.
