(* ===== verification/Persist.v ===== *)
(** * What is written is still there after closing and opening again

    A write, the close of the file, an opening by its path and a read, one after
    the other: the composition of [FileIo], [Inode] and [Lookup], and for the first
    write to an empty file of [Grow]. *)
From S2P Require Import Prelude Layout OnDisk Device Context Bitmap FileBuf Inode BlockMap Alloc FileIo Grow Directory Walk Lookup.

Section persist_facts.
Context {D : Type} `{Env, BlockDeviceLaws D}.
Implicit Types (s : file_state D).

(** The file of [s], closed and opened again for reading: [f] in the state [c]. *)
Record reopened s (ino : Z) (f : file_ent) (c : cst D) : Prop := {
  re_open : open_file (mk_fst f c);
  re_inode : fe_inode f = fe_inode (s_fe s);
  re_number : fe_inode_number f = ino;
  re_cursor : fe_cursor f = 0;
  re_clean : bo_dirty (fe_buffer f) = 0;
  re_ctx : exists bf, c_ctx c = set_sysbuf bf (c_ctx (s_c s));
  re_volume m : in_volume (c_dev c) m <-> in_volume (view s) m;
  re_sectors m : in_volume (view s) m -> m <> ino_lba (c_ctx (s_c s)) (view s) ino ->
    dev_sector (c_dev c) m = dev_sector (view s) m
}.

Lemma open_for_reading fuel path de (c : cst D) ino :
  fs_ok c -> env_malloc (c_tick c) = true -> length (d_name de) = 256%nat ->
  walk fuel (c_ctx c) (c_dev c) EXT2_ROOT_INO (path_elements path) (Some ino) ->
  inode_located (c_ctx c) (c_dev c) ino ->
  exists s de', ext2_open fuel path 0 0 de c = Ok ((OpenFile (s_fe s), de'), s_c s) /\
    looks (c_ctx c) (c_dev c) s /\ fe_inode (s_fe s) = inode_on_disk (c_ctx c) (c_dev c) ino /\
    fe_inode_number (s_fe s) = ino /\ fe_cursor (s_fe s) = 0.
Proof.
  intros Hc Hm Hde Hw Hil. unfold ext2_open. cbn [ext2_open_rec]. set (a := append_with _ _).
  destruct (open_body_found a fuel path 0 0 de c ino Hc Hde Hw Hil)
    as (de' & s & Hs & Hr & Hn & Hcur & _ & Hbody).
  assert (Hex : open_existing 0 (Z.land 0 512) s = Ok (true, s)) by (by rewrite open_existing_run).
  exists s, de'. split; [|done].
  apply (open_run a fuel path 0 0 de c true); [done|]. rewrite Hbody. by erewrite bind_ok by exact Hex.
Qed.

Lemma close_reopen fuel path de ino s :
  open_file s -> fe_inode_number (s_fe s) = ino -> has_flag (fe_flags (s_fe s)) EXT2_FLAG_FS_DIRTY = true ->
  (forall t, env_malloc t = true) -> length (d_name de) = 256%nat ->
  let c := c_ctx (s_c s) in
  let n := ino_lba c (view s) ino in
  inode_located c (view s) ino -> n <> ino_desc_lba c ino ->
  path_leads fuel c (view s) path ino (fun m => m = n) ->
  exists c1 f de' c2, h_close (OpenFile (s_fe s)) (s_c s) = Ok ((0, FreedFile), c1) /\
    ext2_open fuel path 0 0 de c1 = Ok ((OpenFile f, de'), c2) /\ reopened s ino f c2.
Proof.
  intros Hop Hn Hfl Hmem Hde c n Hil Hne Hpath.
  destruct (close_run ino s Hop Hn Hil Hfl) as (s1 & Hrun & Hok1 & Hv1 & Hd1 & Hc1 & Hi1 & Hn1).
  assert (Hil1 : inode_located (c_ctx (s_c s1)) (c_dev (s_c s1)) ino) by (by rewrite Hc1, Hd1).
  destruct (flushed_slot ino s1 Hok1 Hn1 Hil1) as (Hslot & _ & Hoth).
  destruct (flushed_volume ino s1 Hok1 Hn1 Hil1) as [Hfs Hvol].
  set (s2 := flushed_inode s1) in *. cbv zeta in Hslot, Hoth.
  rewrite Hv1, Hd1, Hc1 in Hoth. rewrite Hd1, Hc1, Hi1 in Hslot. rewrite Hd1 in Hvol. fold c n in Hslot, Hoth.
  assert (Hctx : c_ctx (s_c s2) = set_sysbuf (sysbuf (c_ctx (s_c s2))) c).
  { transitivity (set_sysbuf (sysbuf (c_ctx (s_c s2))) (c_ctx (s_c s1))); [done | by rewrite Hc1]. }
  destruct (located_same c (view s) (c_dev (s_c s2)) ino Hvol) as [Hlba2 Hil2];
    [apply Hoth; [apply Hil | by apply not_eq_sym] | done |].
  assert (Hdisk : inode_on_disk (c_ctx (s_c s2)) (c_dev (s_c s2)) ino = fe_inode (s_fe s)).
  { rewrite Hctx. unfold inode_on_disk. change (ino_lba (set_sysbuf _ c)) with (ino_lba c).
    rewrite Hlba2. exact Hslot. }
  destruct (open_for_reading fuel path de (s_c s2) ino Hfs (Hmem _) Hde)
    as (s3 & de' & Hopen & [Hop3 Hcl3 Hd3 [bf Hctx3]] & Hr3 & Hn3 & Hcur3).
  - rewrite Hctx. apply walk_sysbuf, Hpath; [apply Hfs | exact Hvol |]. intros m Hm Hnm. by apply Hoth.
  - rewrite Hctx. by apply located_sysbuf.
  - exists (s_c s2), (s_fe s3), de', (s_c s3). split; [|split; [exact Hopen|]].
    + unfold h_close, on_handle. unfold mbind at 1, M_bind at 1. unfold mbind at 1, res_bind.
      replace (mk_fst (s_fe s) (s_c s)) with s by (by destruct s). by rewrite Hrun.
    + split; [by destruct s3 | by rewrite Hr3 | done | done | done | | by rewrite Hd3 | by rewrite Hd3].
      exists bf. rewrite Hctx3, Hctx. done.
Qed.
End persist_facts.

(** * Properties *)
Section persist_properties.
Context {D : Type} `{Env, BlockDeviceLaws D}.
Implicit Types (s : file_state D).

(** The volume around a write into block [b]: the sector that is written, the slot of the file's inode
    and its descriptor are three sectors. *)
Record write_apart s (b ino : Z) : Prop := {
  pa_located : inode_located (c_ctx (s_c s)) (view s) ino;
  pa_data : in_volume (view s) (cursor_lba s b);
  pa_desc : cursor_lba s b <> ino_desc_lba (c_ctx (s_c s)) ino;
  pa_slot : ino_lba (c_ctx (s_c s)) (view s) ino <> cursor_lba s b;
  pa_slot_desc : ino_lba (c_ctx (s_c s)) (view s) ino <> ino_desc_lba (c_ctx (s_c s)) ino
}.

(** After a reopening a read where the bytes [bt] were written returns them. *)
Lemma reopened_read bt b ino s s1 f c :
  open_file s -> written bt b s s1 -> (0 < length bt)%nat ->
  0 <= fe_cursor (s_fe s) -> fe_cursor (s_fe s) + Z.of_nat (length bt) < 2147483648 ->
  fe_cursor (s_fe s) < 12 * bsz (c_ctx (s_c s)) ->
  i_block (fe_inode (s_fe s)) !! Z.to_nat (fe_cursor (s_fe s) / bsz (c_ctx (s_c s))) = Some b -> 0 < b ->
  fe_cursor (s_fe s) mod 512 + Z.of_nat (length bt) <= 512 -> in_volume (view s) (cursor_lba s b) ->
  ino_lba (c_ctx (s_c s1)) (view s1) ino <> cursor_lba s b -> reopened s1 ino f c ->
  exists s2 s3, ext2_lseek (fe_cursor (s_fe s)) SEEK_SET (mk_fst f c) = Ok (fe_cursor (s_fe s), s2) /\
    ext2_read (Z.of_nat (length bt)) s2 = Ok ((Z.of_nat (length bt), bt), s3).
Proof.
  intros Hf [Hok1 _ Hsize1 Hblk1 _ _ _ _ _ Hctx1 Hvol1 Hview1] Hlen Hcur Hmax Hdir Hb Hpos Hn Hdata Hslot
    [Hop Hino _ Hcur0 Hcl [bf Hctx] Hvol Hsec].
  set (p := fe_cursor (s_fe s)) in *. set (n := Z.of_nat (length bt)) in *.
  set (s2 := mk_fst (set_fe_cursor p f) c).
  assert (Hop2 : open_file s2) by (destruct Hop as [Hok Hm]; split; [|done]; by apply (file_ok_upd_fe (set_fe_cursor p) (mk_fst f c)); [| |apply Hok]).
  assert (Hc2 : c_ctx (s_c s2) = set_sysbuf bf (c_ctx (s_c s))) by (cbn; by rewrite Hctx, Hctx1).
  assert (Hv2 : view s2 = c_dev c) by (by apply clean_view).
  assert (Hlba2 : cursor_lba s2 b = cursor_lba s b) by (unfold cursor_lba; by rewrite Hc2).
  assert (Hin : in_volume (view s1) (cursor_lba s b)) by (by apply Hvol1).
  assert (Hr : block_ready s2 b).
  { apply direct_ready; rewrite ?Hc2; cbn [s_fe fe_cursor fe_inode set_fe_cursor s2]; rewrite ?Hino, ?Hblk1; try done;
      [apply Hop2 | lia |]. rewrite Hlba2, Hv2. by apply Hvol. }
  assert (Hsz : i_size (fe_inode (s_fe s2)) = i_size (fe_inode (s_fe s1))) by (cbn; by rewrite Hino).
  assert (Hend : p + n <= i_size (fe_inode (s_fe s2))).
  { rewrite Hsz, Hsize1, u32_id by lia. destruct (Z.ltb_spec (i_size (fe_inode (s_fe s))) (p + n)); lia. }
  assert (Hwant : wanted s2 n = n) by (unfold wanted; change (fe_cursor (s_fe s2)) with p; lia).
  destruct (read_effect n b s2 Hop2 Hr) as (s3 & Hread & _); change (fe_cursor (s_fe s2)) with p;
    [lia | lia | lia |].
  exists s2, s3. split.
  - rewrite lseek_run; [| exact Hop | by left | cbn; rewrite Hcur0; unfold INT64_MAX; lia | lia].
    change (seek_base _ SEEK_SET) with 0. rewrite Z.add_0_l. destruct (Z.ltb_spec p 0); [lia|].
    change (SEEK_SET =? SEEK_END) with false. cbv zeta iota. by rewrite s32_id by lia.
  - rewrite Hread, Hwant. do 3 f_equal. unfold cursor_bytes. change (fe_cursor (s_fe s2)) with p.
    rewrite Hlba2, Hv2, Hsec, Hview1, decide_True by (done || by apply not_eq_sym).
    pose proof (Z.mod_pos_bound p 512). apply slice_splice_same; [lia|].
    rewrite (sector_length (view s)); [lia | by apply view_ok, Hf | done].
Qed.

(** Once the bytes [bt] are written into block [b] of the file [s], closing it and opening its path again
    gives a file that reads them. *)
Lemma written_persists fuel path de bt b ino s s1 :
  open_file s -> written bt b s s1 -> fe_inode_number (s_fe s) = ino -> (0 < length bt)%nat ->
  0 <= fe_cursor (s_fe s) -> fe_cursor (s_fe s) + Z.of_nat (length bt) < 2147483648 ->
  fe_cursor (s_fe s) < 12 * bsz (c_ctx (s_c s)) ->
  i_block (fe_inode (s_fe s)) !! Z.to_nat (fe_cursor (s_fe s) / bsz (c_ctx (s_c s))) = Some b -> 0 < b ->
  fe_cursor (s_fe s) mod 512 + Z.of_nat (length bt) <= 512 ->
  write_apart s b ino -> (forall t, env_malloc t = true) -> length (d_name de) = 256%nat ->
  path_leads fuel (c_ctx (s_c s)) (view s) path ino
    (fun m => m = cursor_lba s b \/ m = ino_lba (c_ctx (s_c s)) (view s) ino) ->
  exists c1 f de' c2 s2 s3, h_close (OpenFile (s_fe s1)) (s_c s1) = Ok ((0, FreedFile), c1) /\
    ext2_open fuel path 0 0 de c1 = Ok ((OpenFile f, de'), c2) /\
    fe_inode f = fe_inode (s_fe s1) /\ fe_inode_number f = ino /\
    ext2_lseek (fe_cursor (s_fe s)) SEEK_SET (mk_fst f c2) = Ok (fe_cursor (s_fe s), s2) /\
    ext2_read (Z.of_nat (length bt)) s2 = Ok ((Z.of_nat (length bt), bt), s3).
Proof.
  intros Hf Hwr Hnum Hlen Hcur Hmax Hdir Hb Hpos Hn [Hil Hdata Hdd Hsd Hsl] Hmem Hde Hpath.
  pose proof Hwr as [Hok1 _ _ _ _ Hfl1 _ Hnum1 Hmg1 Hctx1 Hvol1 Hview1].
  destruct (located_same (c_ctx (s_c s)) (view s) (view s1) ino Hvol1) as [Hlba1 Hil1]; [|done|].
  { rewrite Hview1 by apply Hil. by rewrite decide_False by (by apply not_eq_sym). }
  destruct (close_reopen fuel path de ino s1) as (c1 & f & de' & c2 & Hclose & Hopen & Hre);
    rewrite ?Hctx1, ?Hlba1; try done.
  - split; [done|]. rewrite Hmg1. apply Hf.
  - congruence.
  - intros d' Hd' Hv' Hs'. apply Hpath; [done | intros m; by rewrite Hv' |].
    intros m Hm Hnm. rewrite Hs' by (try (by apply Hvol1); intros ->; apply Hnm; by right).
    rewrite Hview1 by done. rewrite decide_False; [done|]. intros ->. apply Hnm. by left.
  - destruct (reopened_read bt b ino s s1 f c2 Hf Hwr) as (s2 & s3 & Hseek & Hread); rewrite ?Hctx1, ?Hlba1; try done.
    exists c1, f, de', c2, s2, s3. destruct Hre. done.
Qed.

(** ** The first write to an empty file *)
Lemma grown_apart s g k bo b ino :
  allocatable s g k -> sector_ok (bo_buffer bo) -> bo_dirty bo = 0 -> sector_ok b ->
  let n := claimed_block s g k in
  let t := grown s n bo b in
  write_apart s n ino -> claim_lba s n <> ino_desc_lba (c_ctx (s_c s)) ino ->
  write_apart t n ino /\ cursor_lba t n = cursor_lba s n /\
  ino_lba (c_ctx (s_c t)) (view t) ino = ino_lba (c_ctx (s_c s)) (view s) ino.
Proof.
  intros Hal Hbo Hcl Hb n t [Hil Hdata Hdd Hsd Hsl] Hcd.
  destruct (grown_facts s g k bo b Hal Hbo Hcl Hb) as (Hok & Hview & Hbsz & Hlba & Hvol & Hpos).
  fold n t in Hok, Hview, Hbsz, Hlba, Hvol, Hpos.
  pose proof (geometry_changed EXT2_ALLOCATED b (c_ctx (s_c s))) as Hgeo. change (same_geometry (c_ctx (s_c s)) (c_ctx (s_c t))) in Hgeo.
  assert (Hcur : cursor_lba t n = cursor_lba s n) by (unfold cursor_lba; by rewrite Hlba, Hbsz).
  destruct (located_same (c_ctx (s_c s)) (view s) (view t) ino Hvol) as [Hlb Hil']; [|done|].
  { unfold t, n. rewrite (grown_view s g k) by (done || apply Hil). rewrite decide_False; [done | by apply not_eq_sym]. }
  rewrite <- (geo_lba _ _ Hgeo) in Hlb. split; [|done].
  split; rewrite ?Hcur, ?(geo_desc _ _ Hgeo), ?Hlb; try done; [by apply (geo_located _ _ Hgeo) | by apply Hvol].
Qed.

Lemma grown_path s g k bo b fuel path ino (changed : Z -> Prop) :
  allocatable s g k -> sector_ok (bo_buffer bo) -> bo_dirty bo = 0 -> sector_ok b ->
  let n := claimed_block s g k in
  let t := grown s n bo b in
  path_leads fuel (c_ctx (s_c s)) (view s) path ino (fun m => m = claim_lba s n \/ changed m) ->
  path_leads fuel (c_ctx (s_c t)) (view t) path ino changed.
Proof.
  intros Hal Hbo Hcl Hb n t Hpath.
  destruct (grown_facts s g k bo b Hal Hbo Hcl Hb) as (_ & _ & _ & _ & Hvol & _). fold n t in Hvol.
  eapply (path_leads_step _ _ _ _ _ _ _ _ (fun m => m = claim_lba s n)); [exact Hpath | | exact Hvol | | by left | by right].
  - apply (geometry_changed EXT2_ALLOCATED b (c_ctx (s_c s))).
  - intros m Hm Hne. unfold t, n. rewrite (grown_view s g k) by done. by apply decide_False.
Qed.

(** C7: the first write to an empty file, within one sector, allocates its first block, and what was written survives: after
    closing the file, opening its path again and seeking, a read returns it; the block's number is in
    the inode the file has then. *)
Theorem first_write_persists fuel path de bt s g k ino :
  let n := claimed_block s g k in
  let len := Z.of_nat (length bt) in
  open_file s -> writable s -> fe_inode_number (s_fe s) = ino -> in_hole s 0 -> allocatable s g k ->
  claim_taken s n = false -> bytes_ok bt -> (0 < length bt)%nat ->
  fe_cursor (s_fe s) mod 512 + len <= 512 -> fe_cursor (s_fe s) + len < 2147483648 ->
  write_apart s n ino -> claim_lba s n <> ino_desc_lba (c_ctx (s_c s)) ino ->
  (forall t, env_malloc t = true) -> length (d_name de) = 256%nat ->
  path_leads fuel (c_ctx (s_c s)) (view s) path ino
    (fun m => m = claim_lba s n \/ m = cursor_lba s n \/ m = ino_lba (c_ctx (s_c s)) (view s) ino) ->
  exists s1 c1 f de' c2 s2 s3, ext2_write bt s = Ok (len, s1) /\
    h_close (OpenFile (s_fe s1)) (s_c s1) = Ok ((0, FreedFile), c1) /\
    ext2_open fuel path 0 0 de c1 = Ok ((OpenFile f, de'), c2) /\
    fe_inode_number f = ino /\ i_block (fe_inode f) !! 0%nat = Some n /\
    ext2_lseek (fe_cursor (s_fe s)) SEEK_SET (mk_fst f c2) = Ok (fe_cursor (s_fe s), s2) /\
    ext2_read len s2 = Ok ((len, bt), s3).
Proof.
  intros n len Hf Hw Hnum Hh Hal Htaken Hbt Hlen Hn Hmax Hap Hcd Hmem Hde Hpath.
  destruct (hole_written bt s 0 g k Hf Hw Hh Hal Htaken (pa_data _ _ _ Hap) Hbt Hlen Hn)
    as (bo & b & s1 & Hbo & Hcl & Hb & Hrun & Hwr). fold n in Hwr.
  destruct (grown_facts s g k bo b Hal Hbo Hcl Hb) as (Hok & _ & Hbsz & _ & _ & Hpos). fold n in Hok, Hbsz, Hpos.
  destruct (grown_apart s g k bo b ino Hal Hbo Hcl Hb Hap Hcd) as (Hap' & Hcur' & Hlba'). fold n in Hap', Hcur', Hlba'.
  set (t := grown s n bo b) in *.
  assert (Hft : open_file t) by (split; [done | apply Hf]).
  assert (Hblk : i_block (fe_inode (s_fe t)) !! 0%nat = Some n).
  { unfold t. cbn [grown s_fe fe_inode upd_fe_inode set_fe_buffer].
    replace (i_block (set_i_block _ _)) with (<[0%nat := n]> (i_block (fe_inode (s_fe s)))) by (by destruct (fe_inode (s_fe s))).
    apply list_lookup_insert_eq. destruct (fo_inode _ (proj1 Hf)) as [[Hl _] _]. lia. }
  pose proof Hh as [Hcur Hidx _ _]. pose proof (proj1 (fo_fs _ (proj1 Hf))) as Hc. destruct (bsz_range _ Hc) as [Hbs _].
  destruct (written_persists fuel path de bt n ino t s1 Hft Hwr) as (c1 & f & de' & c2 & s2 & s3 & Hclose & Hopen & Hino & Hrest);
    change (fe_cursor (s_fe t)) with (fe_cursor (s_fe s)); rewrite ?Hbsz, ?Hidx, ?Hcur', ?Hlba'; try done; [lia | |
    by apply (grown_path s g k) |].
  - pose proof (Z.div_mod (fe_cursor (s_fe s)) (bsz (c_ctx (s_c s)))) as Hdm. rewrite Hidx in Hdm.
    pose proof (Z.mod_pos_bound (fe_cursor (s_fe s)) (bsz (c_ctx (s_c s)))). lia.
  - exists s1, c1, f, de', c2, s2, s3. do 3 (split; [done|]). split; [apply Hrest|]. split; [|apply Hrest].
    rewrite Hino, (wr_blocks _ _ _ _ Hwr). exact Hblk.
Qed.
End persist_properties.
