(* ===== verification/Debug.v ===== *)
(** * The debug printers

    [ext2_print_inode] and [ext2_print_bg1_bitmap] of [src/src/embext.c], compiled
    under [EMBEXT_DEBUG]. What they send to [printf] is their result: a list of
    [printed] items, one per conversion, with the label before it. *)
From Stdlib Require Import String.
From S2P Require Import Prelude Layout OnDisk Device Context.

Inductive printed : Type :=
| field (label : string) (v : Z)          (** a label and a number, in decimal or octal *)
| hex (b : Z)                             (** [%02x] *)
| escape (b : Z)                          (** [\x%02x] *)
| char (b : Z)                            (** [%c] *)
| label (l : string)                      (** a text without a conversion *)
| newline
| summary (total used free : Z).          (** the last line of the bitmap *)

(** ** Inodes *)
Definition print_osd2 (b : Z) : printed := if (b <? 32) || (126 <? b) then escape b else char b.

Definition ext2_print_inode (r : inode) : list printed :=
  [field "i_mode" (i_mode r); field "i_uid" (i_uid r); field "i_size" (i_size r);
   field "i_atime" (i_atime r); field "i_ctime" (i_ctime r); field "i_mtime" (i_mtime r);
   field "i_dtime" (i_dtime r); field "i_gid" (i_gid r); field "i_links_count" (i_links_count r);
   field "i_blocks" (i_blocks r); field "i_flags" (i_flags r); field "i_osd1" (i_osd1 r);
   label "i_block"] ++
  map (field "") (i_block r) ++
  [field "i_generation" (i_generation r); field "i_file_acl" (i_file_acl r);
   field "i_dir_acl" (i_dir_acl r); field "i_faddr" (i_faddr r); label "i_osd2"] ++
  map print_osd2 (i_osd2 r) ++ [newline].

(** ** The block bitmap of the first group *)

(** [for(k=1;k<0x100;k<<=1) if(b & k) nused++;] *)
Definition count_byte (b nused : Z) : Z :=
  if negb (b =? 0) then
    fold_left (fun n k => if negb (Z.land b k =? 0) then u32 (n + 1) else n)
      [0x01; 0x02; 0x04; 0x08; 0x10; 0x20; 0x40; 0x80] nused
  else nused.

Section debug_ops.
Context {D : Type} `{BlockDevice D}.

(** One byte of the buffer, one row of 32, one sector of 16 rows: what was printed, and [nused]. *)
Definition print_byte (j i : Z) (acc : list printed * Z) : M (cst D) (list printed * Z * bool) :=
  l ← get_sysbuf (j * 32 + i) 1;
  let b := le_to_Z l in
  mret ((fst acc ++ [hex b], count_byte b (snd acc)), false).
Definition print_row (j : Z) (acc : list printed * Z) : M (cst D) (list printed * Z * bool) :=
  '(_, acc) ← scan_loop 32 0 acc (print_byte j);
  mret ((fst acc ++ [newline], snd acc), false).
Definition print_sector (acc : list printed * Z) : M (cst D) (list printed * Z) :=
  '(_, acc) ← scan_loop 16 0 acc print_row;
  mret acc.

(** [while(bmp_read < (1024u << s_log_block_size))] *)
Fixpoint print_bitmap (fuel : nat) (bmp_read bmp_block : Z) (acc : list printed * Z) :
    M (cst D) (Z * (list printed * Z)) :=
  c ← ctx;
  bound ← lift (shl32 1024 (s_log_block_size (ctx_superblock c)));
  if bmp_read <? bound then
    match fuel with
    | O => throw OutOfFuel
    | S fuel' =>
        read_sysbuf bmp_block ;;
        acc ← print_sector acc;
        print_bitmap fuel' (u32 (bmp_read + 512)) (u32 (bmp_block + 1)) acc
    end
  else mret (bmp_read, acc).

Definition ext2_print_bg1_bitmap (fuel : nat) : M (cst D) (list printed) :=
  c ← ctx;
  let r := ctx_superblock c in
  count ← lift (udiv (s_blocks_count r) (s_blocks_per_group r));
  rest ← lift (umod (s_blocks_count r) (s_blocks_per_group r));
  let block_group_count := if negb (rest =? 0) then u32 (count + 1) else count in
  let bg_block := u32 (superblock_block c + 1) in
  bg_block ← lift (shl32 bg_block (u32 (s_log_block_size r + 1)));
  let bg_block := u32 (bg_block + 0 * 32 / block_get_block_size) in
  read_sysbuf (u32 (bg_block + part_start c)) ;;
  b ← get_sysbuf 0 (sizeof block_group_descriptor);
  let bg : block_group_descriptor := decode b in
  bmp_block ← lift (shl32 (bg_block_bitmap bg) (u32 (s_log_block_size r + 1)));
  let bmp_block := u32 (bmp_block + part_start c) in
  '(bmp_read, (out, nused)) ← print_bitmap fuel 0 bmp_block ([], 0);
  mret ([field "block group count" block_group_count;
         field "bg_block_bitmap" (bg_block_bitmap bg); field "bg_inode_bitmap" (bg_inode_bitmap bg);
         field "bg_inode_table" (bg_inode_table bg);
         field "bg_free_blocks_count" (bg_free_blocks_count bg); field "of" (s_blocks_per_group r);
         field "bg_free_inodes_count" (bg_free_inodes_count bg);
         field "bg_used_dirs_count" (bg_used_dirs_count bg)] ++ out ++
        [summary (u32 (bmp_read * 8)) nused (u32 (u32 (bmp_read * 8) - nused))]).
End debug_ops.

(** * Facts *)

(** ** Counting bits *)

(** How many of the indices below [n] satisfy [p]. *)
Fixpoint count_if (p : Z -> bool) (n : nat) : Z :=
  match n with
  | O => 0
  | S n' => count_if p n' + (if p (Z.of_nat n') then 1 else 0)
  end.

(** The bits of a bitmap that are set. *)
Definition ones (l : list Z) : Z := count_if (bit_get l) (8 * length l).

Lemma count_if_range p n : 0 <= count_if p n <= Z.of_nat n.
Proof. induction n as [|n IH]; cbn [count_if]; [lia|]. destruct (p _); lia. Qed.

Lemma count_if_ext p q n : (forall k, 0 <= k < Z.of_nat n -> p k = q k) -> count_if p n = count_if q n.
Proof.
  induction n as [|n IH]; intros Hpq; cbn [count_if]; [done|].
  rewrite IH by (intros; apply Hpq; lia). by rewrite Hpq by lia.
Qed.

Lemma count_if_add p n m : count_if p (n + m) = count_if p n + count_if (fun k => p (Z.of_nat n + k)) m.
Proof.
  induction m as [|m IH]; cbn [count_if]; [rewrite Nat.add_0_r; lia|].
  rewrite Nat.add_succ_r. cbn [count_if]. rewrite IH, Nat2Z.inj_add. lia.
Qed.

Lemma bit_get_app_l l1 l2 k : 0 <= k < 8 * Z.of_nat (length l1) -> bit_get (l1 ++ l2) k = bit_get l1 k.
Proof.
  intros Hk. unfold bit_get. pose proof (bit_index k l1 Hk). by rewrite lookup_total_app_l.
Qed.

Lemma bit_get_app_r l1 l2 k :
  0 <= k -> bit_get (l1 ++ l2) (8 * Z.of_nat (length l1) + k) = bit_get l2 k.
Proof.
  intros Hk. unfold bit_get. rewrite (Z.add_comm _ k), (Z.mul_comm 8), Z.div_add, Z.mod_add by lia.
  assert (0 <= k / 8) by (apply Z.div_pos; lia).
  rewrite lookup_total_app_r by lia. repeat f_equal. lia.
Qed.

Lemma ones_app l1 l2 : ones (l1 ++ l2) = ones l1 + ones l2.
Proof.
  unfold ones. rewrite length_app, Nat.mul_add_distr_l, count_if_add. f_equal.
  - apply count_if_ext. intros k Hk. apply bit_get_app_l. lia.
  - apply count_if_ext. intros k Hk. rewrite Nat2Z.inj_mul. apply bit_get_app_r. lia.
Qed.

Lemma ones_range l : 0 <= ones l <= 8 * Z.of_nat (length l).
Proof. unfold ones. pose proof (count_if_range (bit_get l) (8 * length l)). lia. Qed.

(** The loop over the bits of a byte counts them. *)
Lemma count_byte_ones b nused : is_byte b -> 0 <= nused < 4294967288 -> count_byte b nused = nused + ones [b].
Proof.
  intros Hb Hn. assert (Hall : forallb (fun n => let b := Z.of_nat n in
    let c := count_byte b 0 in (c =? ones [b])) (seq 0 256) = true) by (by vm_compute).
  assert (Hshift : forall ks n, (n + Z.of_nat (length ks) < 4294967296) -> 0 <= n ->
    fold_left (fun n k => if negb (Z.land b k =? 0) then u32 (n + 1) else n) ks n =
    n + fold_left (fun n k => if negb (Z.land b k =? 0) then u32 (n + 1) else n) ks 0).
  { intros ks.
    assert (Hacc : forall n, 0 <= n -> n + Z.of_nat (length ks) < 4294967296 ->
      fold_left (fun n k => if negb (Z.land b k =? 0) then u32 (n + 1) else n) ks n =
      n + Z.of_nat (length (List.filter (fun k => negb (Z.land b k =? 0)) ks))).
    { induction ks as [|k ks IH]; intros n H0 Hl; cbn [fold_left List.filter length] in *; [lia|].
      destruct (negb _); [|rewrite IH; lia]. rewrite u32_id, IH by lia. cbn [length]. lia. }
    intros n Hl H0. rewrite !Hacc by lia. lia. }
  rewrite forallb_forall in Hall. specialize (Hall (Z.to_nat b)). unfold is_byte in Hb.
  rewrite in_seq, Z2Nat.id in Hall by lia. specialize (Hall ltac:(lia)). cbv zeta in Hall.
  apply Z.eqb_eq in Hall. rewrite <- Hall. unfold count_byte. destruct (negb (b =? 0)); [|lia].
  apply Hshift; cbn [length]; lia.
Qed.

(** ** The loops *)
Section debug_facts.
Context {D : Type} `{BlockDeviceLaws D}.
Implicit Types (s : cst D) (acc : list printed * Z).

(** The first [k] bytes of the buffer have been counted. *)
Definition counted (s : cst D) (n0 k : Z) (acc : list printed * Z) (t : cst D) : Prop :=
  t = s /\ snd acc = n0 + ones (take (Z.to_nat k) (sysbuf (c_ctx s))).

Lemma ones_take_S l k : (k < length l)%nat -> ones (take (S k) l) = ones (take k l) + ones [l !!! k].
Proof. intros Hk. erewrite take_S_r by (by apply list_lookup_lookup_total_lt). apply ones_app. Qed.

Lemma print_byte_counted s n0 j i acc t :
  fs_ok s -> 0 <= n0 < 4294963200 -> 0 <= j < 16 -> 0 <= i < 32 -> counted s n0 (j * 32 + i) acc t ->
  wp (print_byte j i acc) (fun r t' => snd r = false /\ counted s n0 (j * 32 + (i + 1)) (fst r) t') t.
Proof.
  intros Hs Hn Hj Hi [-> Hacc]. unfold print_byte. apply wp_bind.
  eapply wp_run; [apply get_sysbuf_ok; [done | lia..]|]. apply wp_ret. cbn [fst snd]. split; [done|].
  split; [done|]. cbn [snd]. destruct Hs as [[_ _ [Hl Hb] _ _] _]. unfold BLOCK_SIZE in Hl.
  rewrite slice_one by lia. cbn [le_to_Z]. rewrite Z.add_0_r, Hacc.
  replace (Z.to_nat (j * 32 + (i + 1))) with (S (Z.to_nat (j * 32 + i))) by lia.
  rewrite ones_take_S by lia. rewrite count_byte_ones; [lia | apply bytes_ok_lookup_total; [done | lia]|].
  pose proof (ones_range (take (Z.to_nat (j * 32 + i)) (sysbuf (c_ctx s)))) as Hr.
  rewrite length_take in Hr. lia.
Qed.

Lemma print_sector_counted s n0 acc :
  fs_ok s -> 0 <= n0 < 4294963200 -> snd acc = n0 ->
  wp (print_sector acc) (fun acc' t => t = s /\ snd acc' = n0 + ones (sysbuf (c_ctx s))) s.
Proof.
  intros Hs Hn Hacc. unfold print_sector. apply wp_bind.
  apply (wp_scan _ (fun j acc t => counted s n0 (j * 32) acc t)).
  - split; [done|]. rewrite Hacc. symmetry. apply Z.add_0_r.
  - intros j acc1 t Hj Hc. unfold print_row. apply wp_bind.
    apply (wp_scan _ (fun i acc t => counted s n0 (j * 32 + i) acc t)).
    + by rewrite Z.add_0_r.
    + intros i acc2 u Hi Hc2. eapply wp_mono; [by apply print_byte_counted; [| |lia..|]|].
      intros [acc3 brk] v [-> Hc3]. done.
    + intros acc2 u [-> Hc2]. apply wp_ret. cbn [snd fst]. split; [done|]. cbn [snd].
      rewrite Hc2. replace (j * 32 + (0 + Z.of_nat 32)) with ((j + 1) * 32) by lia. done.
  - intros acc1 t [-> Hc]. apply wp_ret. split; [done|]. rewrite Hc, take_ge; [done|].
    destruct Hs as [[_ _ [Hl _] _ _] _]. unfold BLOCK_SIZE in Hl. lia.
Qed.

(** The bytes of [n] sectors. *)
Fixpoint sectors_bytes (d : D) (lba : Z) (n : nat) : list Z :=
  match n with
  | O => []
  | S n' => sectors_bytes d lba n' ++ dev_sector d (lba + Z.of_nat n')
  end.

Lemma length_sectors_bytes d lba n :
  dev_ok d -> (forall i, 0 <= i < Z.of_nat n -> in_volume d (lba + i)) ->
  length (sectors_bytes d lba n) = (512 * n)%nat.
Proof.
  intros Hd. induction n as [|n IH]; intros Hv; cbn [sectors_bytes]; [done|].
  rewrite length_app, IH by (intros; apply Hv; lia).
  pose proof (sector_length d (lba + Z.of_nat n) Hd ltac:(apply Hv; lia)). lia.
Qed.

(** The loop bound, on a volume whose bitmap has less than 2^32 bits. *)
Lemma bitmap_bound c :
  ctx_ok c -> s_log_block_size (ctx_superblock c) <= 18 ->
  shl32 1024 (s_log_block_size (ctx_superblock c)) = Ok (bsz c) /\ 0 < bsz c <= 268435456.
Proof.
  intros [[Hl0 _] _ _ _ _] Hl.
  pose proof (Z.pow_le_mono_r 2 _ 18 ltac:(lia) Hl) as Hp. pose proof (Z.pow_pos_nonneg 2 _ ltac:(lia) Hl0) as Hp0.
  change (2 ^ 18) with 262144 in Hp.
  assert (Hb : 0 < bsz c <= 268435456) by (unfold bsz; rewrite Z.shiftl_mul_pow2 by lia; lia).
  split; [|done]. unfold shl32. replace (_ <? 32) with true by (symmetry; apply Z.ltb_lt; lia).
  f_equal. apply u32_id. fold (bsz c). lia.
Qed.

(** [n] sectors of the bitmap have been counted, [m] are left. *)
Lemma print_bitmap_run fuel s lba n m acc :
  fs_ok s -> s_log_block_size (ctx_superblock (c_ctx s)) <= 18 ->
  Z.of_nat (n + m) = spb (c_ctx s) -> (m <= fuel)%nat ->
  (forall i, 0 <= i < spb (c_ctx s) -> in_volume (c_dev s) (lba + i)) ->
  snd acc = ones (sectors_bytes (c_dev s) lba n) ->
  exists out b, print_bitmap fuel (512 * Z.of_nat n) (u32 (lba + Z.of_nat n)) acc s =
    Ok ((bsz (c_ctx s), (out, ones (sectors_bytes (c_dev s) lba (n + m)))), upd_ctx (set_sysbuf b) s).
Proof.
  revert fuel n acc s. induction m as [|m IH]; intros fuel n acc s Hs Hlog Hnm Hf Hv Hacc.
  all: destruct (bitmap_bound _ (proj1 Hs) Hlog) as [Hbound Hb]; pose proof (bsz_spb _ (proj1 Hs)) as Hbsz.
  - rewrite Nat.add_0_r in *. destruct acc as [out nused]. cbn [snd] in Hacc. subst nused.
    exists out, (sysbuf (c_ctx s)).
    destruct fuel; cbn [print_bitmap]; unfold ctx; rewrite bind_gets; rewrite (bind_lift _ _ _ _ Hbound);
      replace (512 * Z.of_nat n) with (bsz (c_ctx s)) by lia; rewrite Z.ltb_irrefl;
      by destruct s as [[] ? ? ?].
  - destruct fuel as [|fuel]; [lia|]. cbn [print_bitmap]. unfold ctx. rewrite bind_gets, (bind_lift _ _ _ _ Hbound).
    replace (512 * Z.of_nat n <? bsz (c_ctx s)) with true by (symmetry; apply Z.ltb_lt; lia).
    assert (Hin : in_volume (c_dev s) (lba + Z.of_nat n)) by (apply Hv; lia).
    rewrite (u32_id (lba + Z.of_nat n)) by (by eapply in_volume_u32; [apply Hs|]).
    erewrite bind_ok by (by apply read_sysbuf_ok). set (s1 := loaded (lba + Z.of_nat n) s).
    assert (Hs1 : fs_ok s1) by (by apply loaded_ok).
    pose proof (ones_range (sectors_bytes (c_dev s) lba n)) as Hr.
    rewrite length_sectors_bytes in Hr by (try apply Hs; intros; apply Hv; lia).
    destruct (wp_elim _ _ _ (print_sector_counted s1 (snd acc) acc Hs1 ltac:(lia) eq_refl)) as (acc1 & t & Hrun & -> & Hacc1).
    erewrite bind_ok by done.
    replace (u32 (512 * Z.of_nat n + 512)) with (512 * Z.of_nat (S n)) by (rewrite u32_id; lia).
    replace (u32 (lba + Z.of_nat n + 1)) with (u32 (lba + Z.of_nat (S n))) by (f_equal; lia).
    destruct (IH fuel (S n) acc1 s1) as (out & b & Hfin); try done; try lia.
    + cbn [c_ctx s1 loaded upd_ctx]. change (spb _) with (spb (c_ctx s)). lia.
    + rewrite Hacc1, Hacc. cbn [sectors_bytes]. by rewrite ones_app.
    + exists out, b. rewrite Hfin. by rewrite Nat.add_succ_r.
Qed.
End debug_facts.

(** * Properties *)
Section debug_properties.
Context {D : Type} `{BlockDeviceLaws D}.
Implicit Types (s : cst D).

(** C39: on a volume with blocks of 2^28 bytes or less, [ext2_print_bg1_bitmap] returns, writes nothing, and
    its last line gives the number of bits of the first group's block bitmap, how many of them are set, and
    how many are clear. *)
Theorem print_bitmap_counts fuel s :
  fs_ok s -> s_log_block_size (ctx_superblock (c_ctx s)) <= 18 -> spb (c_ctx s) <= Z.of_nat fuel ->
  let c := c_ctx s in
  let table := bg_lba c (superblock_block c) 0 in
  let lba := bg_block_bitmap (bg_on_disk c (c_dev s) (superblock_block c) 0) * spb c + part_start c in
  in_volume (c_dev s) table -> (forall i, 0 <= i < spb c -> in_volume (c_dev s) (lba + i)) ->
  let bitmap := sectors_bytes (c_dev s) lba (Z.to_nat (spb c)) in
  exists out s', ext2_print_bg1_bitmap fuel s =
      Ok (out ++ [summary (8 * bsz c) (ones bitmap) (8 * bsz c - ones bitmap)], s') /\
    same_but_sysbuf s s'.
Proof.
  intros Hs Hlog Hf c table lba Ht Hv bitmap. pose proof Hs as [Hc Hd]. subst c.
  destruct (bitmap_bound _ Hc Hlog) as [_ Hb]. pose proof (bsz_spb _ Hc) as Hbsz. pose proof (ok_bpg _ Hc) as Hbpg.
  assert (Hlba : 0 <= lba < 4294967296).
  { eapply in_volume_u32; [exact Hd|]. rewrite <- (Z.add_0_r lba). apply Hv. pose proof (spb_ge _ Hc). lia. }
  destruct (print_bitmap_run fuel (loaded table s) lba 0 (Z.to_nat (spb (c_ctx s))) ([], 0)) as (out & b & Hrun).
  { by apply loaded_ok. }
  { done. }
  { change (spb (c_ctx (loaded _ _))) with (spb (c_ctx s)). pose proof (spb_ge _ Hc). lia. }
  { lia. }
  { exact Hv. }
  { done. }
  pose proof (ones_range bitmap) as Hones. unfold bitmap at 3 in Hones.
  rewrite (length_sectors_bytes (c_dev s) lba (Z.to_nat (spb (c_ctx s))) Hd) in Hones by (intros; apply Hv; lia).
  unfold ext2_print_bg1_bitmap, ctx. rewrite bind_gets.
  erewrite !bind_lift by (apply udiv_ok || apply umod_ok; lia).
  erewrite bind_lift by (by apply shl32_block).
  change (block_get_block_size) with 512. change (0 * 32 / 512) with 0.
  replace (u32 (u32 (u32 (u32 (superblock_block (c_ctx s) + 1) * spb (c_ctx s)) + 0) + part_start (c_ctx s)))
    with table.
  2:{ rewrite Z.add_0_r. autorewrite with embext. subst table. unfold bg_lba in *.
      rewrite Z.div_0_l, Z.add_0_r in * by done. rewrite u32_id; [lia|].
      apply (in_volume_u32 (c_dev s)) in Ht; [lia | done]. }
  erewrite bind_ok by (by apply read_sysbuf_ok).
  change (sizeof block_group_descriptor) with 32.
  erewrite bind_ok by (apply get_sysbuf_ok; [by apply loaded_ok | lia..]).
  change (decode (slice 0 32 (sysbuf (c_ctx (loaded table s))))) with
    (bg_on_disk (c_ctx s) (c_dev s) (superblock_block (c_ctx s)) 0).
  erewrite bind_lift by (by apply shl32_block).
  autorewrite with embext. fold lba.
  change (512 * Z.of_nat 0) with 0 in Hrun. rewrite Z.add_0_r in Hrun. erewrite bind_ok by (exact Hrun).
  cbn beta iota. change (bsz (c_ctx (loaded table s))) with (bsz (c_ctx s)).
  change (0 + Z.to_nat (spb (c_ctx s)))%nat with (Z.to_nat (spb (c_ctx s))).
  rewrite app_assoc, (Z.mul_comm (bsz (c_ctx s))), (u32_id (8 * bsz _)) by lia.
  change (ones (sectors_bytes _ _ _)) with (ones bitmap). rewrite (u32_id (8 * _ - _)) by lia.
  do 2 eexists. split; [done|]. by eexists.
Qed.
End debug_properties.
