(* ===== verification/Typing.v ===== *)
(** * What no operation breaks: the mounted file system

    Whatever the arguments, the contents of the volume and the answers of the
    device, the functions of [src/src/embext.c] that return leave a context whose
    fields fit their types, a system buffer of 512 bytes, a usable device of the
    same size, and the geometry the volume was mounted with. [SafeDevice] is what
    the device has to promise for that: less than [BlockDeviceLaws], since it
    speaks of every sector number and every return code. *)
From S2P Require Import Prelude Hoare Layout OnDisk Device BlockPc Context Bitmap Super.

Class SafeDevice (D : Type) `{BlockDevice D, BlockView D} : Prop := {
  safe_read n buf (d : D) rc buf' :
    dev_ok d -> sector_ok buf -> block_read n buf d = Ok (rc, buf') -> sector_ok buf';
  safe_write n buf (d : D) rc d' :
    dev_ok d -> sector_ok buf -> block_write n buf d = Ok (rc, d') ->
    dev_ok d' /\ block_get_volume_size d' = block_get_volume_size d
}.

#[export] Instance pc_safe : SafeDevice pc_state.
Proof.
  split.
  - intros n buf d rc buf' Hd [Hl Hb]. cbn. unfold Pc.block_read. destruct (Pc.past_end n d); [by intros [= <- <-]|].
    unfold dev_ok in Hd. cbn in Hd. unfold Pc.ok in Hd.
    destruct (blocks d) as [| |mem]; try done. destruct Hd as (_ & Hmem & _ & _). cbn [Pc.deref].
    unfold mbind, res_bind. unfold mem_read. case_decide as Hr; [|done].
    unfold mem_write. case_decide as Hw; [|done]. intros [= <- <-]. split; unfold BLOCK_SIZE in *.
    { rewrite length_splice; lia. } auto with bytes.
  - intros n buf d rc d' Hd [Hl Hb]. cbn. unfold Pc.block_write. destruct (Pc.past_end n d); [by intros [= <- <-]|].
    unfold dev_ok in Hd |- *. cbn in Hd |- *. unfold Pc.ok in Hd |- *.
    destruct (blocks d) as [| |mem] eqn:Hm; try done. destruct Hd as (Hlen & Hmem & Hmod & Hmax). cbn [Pc.deref].
    unfold mbind, res_bind. unfold mem_read. case_decide as Hr; [|done].
    unfold mem_write. case_decide as Hw; [|done]. intros [= <- <-]. cbn. split; [|done].
    rewrite length_splice by lia. auto with bytes.
Qed.

Lemma bytes_ok_u8 x : bytes_ok [u8 x].
Proof. constructor; [apply u8_range | constructor]. Qed.
Lemma is_byte_0 : is_byte 0.
Proof. unfold is_byte. lia. Qed.
#[export] Hint Resolve bytes_ok_u8 is_byte_0 : bytes.

(** What mounting fixes: everything but the free counters, the group number and the buffer. *)
Definition frozen (c : ext2context) : ext2context :=
  set_sysbuf [] (upd_superblock (fun r => set_s_block_group_nr 0
    (set_s_free_inodes_count 0 (set_s_free_blocks_count 0 r))) c).

(** Well-typed, with geometry [g] and [v] sectors. *)
Definition fs_typed {D} `{BlockDevice D, BlockView D} (g : ext2context) (v : Z) (s : cst D) : Prop :=
  fs_ok s /\ frozen (c_ctx s) = g /\ block_get_volume_size (c_dev s) = v.

Definition is_u32 (a : Z) : Prop := 0 <= a < 4294967296.

Section fs.
Context {D : Type} `{SafeDevice D} (g : ext2context) (v : Z).
#[local] Abbreviation typed := (fs_typed (D := D) g v).

Lemma read_sysbuf_typed n : keeps typed (read_sysbuf n).
Proof.
  intros s rc s' ([Hc Hd] & Hg & Hv). unfold read_sysbuf.
  destruct (block_read _ _ _) as [[rc' b]|] eqn:Hrun; [|done]. intros [= <- <-].
  split; [split; [|done] | done]. apply ctx_ok_set_sysbuf; [done|]. eapply safe_read; [done | apply Hc | done].
Qed.

Lemma write_sysbuf_typed n : keeps typed (write_sysbuf n).
Proof.
  intros s rc s' ([Hc Hd] & Hg & Hv). unfold write_sysbuf.
  destruct (block_write _ _ _) as [[rc' d]|] eqn:Hrun; [|done]. intros [= <- <-].
  apply safe_write in Hrun as [Hd' Hv']; [|done | apply Hc]. split; [done|]. split; [done|]. by rewrite <- Hv.
Qed.

Lemma get_sysbuf_typed off n :
  yields typed (fun l => bytes_ok l /\ (0 <= n -> Z.of_nat (length l) = n)) (get_sysbuf off n).
Proof.
  intros s l s' Hs. pose proof Hs as ([Hc Hd] & _). unfold get_sysbuf, mem_read. case_decide as Hr; [|done].
  intros [= <- <-]. split; [done|]. destruct Hc as [_ _ [Hl Hb] _ _].
  split; [auto with bytes|]. intros. rewrite length_slice by lia. lia.
Qed.

Lemma get_sysbuf_keeps off n : keeps typed (get_sysbuf off n).
Proof. eapply yields_keeps, get_sysbuf_typed. Qed.

Lemma put_sysbuf_typed off l : bytes_ok l -> keeps typed (put_sysbuf off l).
Proof.
  intros Hb s r s' ([Hc Hd] & Hg & Hv). unfold put_sysbuf, mem_write. case_decide as Hr; [|done].
  intros [= <- <-]. split; [split; [|done] | done]. apply ctx_ok_set_sysbuf; [done|].
  destruct Hc as [_ _ Hs _ _]. pose proof (proj1 Hs). unfold BLOCK_SIZE in *.
  apply sector_ok_splice; unfold BLOCK_SIZE; first [done | lia].
Qed.

Lemma time_typed `{Env} : yields typed is_u32 time.
Proof. intros s t s' Hs [= <- <-]. split; [exact Hs | apply u32_range]. Qed.
Lemma time_keeps `{Env} : keeps typed time.
Proof. eapply yields_keeps, time_typed. Qed.
Lemma malloc_keeps `{Env} : keeps typed malloc.
Proof. intros s m s' Hs [= <- <-]. exact Hs. Qed.
Lemma set_errno_keeps e : keeps typed (modify (set_errno e)).
Proof. by apply keeps_modify. Qed.
Lemma bg_val_keeps o : keeps typed (bg_val o).
Proof. destruct o; [apply keeps_ret | apply keeps_throw]. Qed.
Lemma ctx_keeps : keeps typed ctx.
Proof. apply keeps_gets. Qed.
Lemma sb_keeps : keeps typed sb.
Proof. apply keeps_gets. Qed.

(** The superblock members that change while the volume is mounted. *)
Lemma upd_superblock_keeps f :
  (forall r, cs_wf r -> cs_wf (f r) /\ s_log_block_size (f r) = s_log_block_size r /\
     s_blocks_per_group (f r) = s_blocks_per_group r /\
     set_s_block_group_nr 0 (set_s_free_inodes_count 0 (set_s_free_blocks_count 0 (f r))) =
     set_s_block_group_nr 0 (set_s_free_inodes_count 0 (set_s_free_blocks_count 0 r))) ->
  keeps typed (modify (upd_ctx (upd_superblock f))).
Proof.
  intros Hf. apply keeps_modify. intros s ([[Hl Hsb Hbuf Hp Hbpg] Hd] & Hg & Hv).
  destruct (Hf _ Hsb) as (Hwf & Hlog & Hbp & Hfr). split; [split; [split|]|]; cbn; rewrite ?Hlog, ?Hbp; try done.
  split; [|done]. rewrite <- Hg. unfold frozen, upd_superblock, set_sysbuf. cbn. by rewrite Hfr.
Qed.

Hint Resolve read_sysbuf_typed write_sysbuf_typed get_sysbuf_keeps malloc_keeps set_errno_keeps time_keeps
  bg_val_keeps ctx_keeps sb_keeps : hoare.
Hint Extern 1 (keeps _ (put_sysbuf _ _)) => apply put_sysbuf_typed; auto with bytes : hoare.

Lemma get_bg_descriptor_keeps bg i : keeps typed (ext2_get_bg_descriptor bg i).
Proof. unfold ext2_get_bg_descriptor. repeat keeps_step. Qed.
Hint Resolve get_bg_descriptor_keeps : hoare.

Lemma write_bg_descriptor_keeps bg i : keeps typed (ext2_write_bg_descriptor bg i).
Proof. unfold ext2_write_bg_descriptor, write_bg_step. repeat keeps_step. Qed.
Hint Resolve write_bg_descriptor_keeps : hoare.

Lemma count_blocks_keeps b x y :
  keeps typed (modify (upd_ctx (upd_superblock (fun r =>
    if (b : bool) then set_s_free_blocks_count (u32 (s_free_blocks_count r + x)) r
    else set_s_free_blocks_count (u32 (s_free_blocks_count r + y)) r)))).
Proof.
  apply upd_superblock_keeps. intros r Hr.
  destruct b; (split; [apply wf_set_s_free_blocks_count; [done | apply u32_range] | by destruct r]).
Qed.

Lemma count_inodes_keeps x :
  keeps typed (modify (upd_ctx (upd_superblock (fun r =>
    set_s_free_inodes_count (u32 (s_free_inodes_count r + x)) r)))).
Proof.
  apply upd_superblock_keeps. intros r Hr.
  split; [apply wf_set_s_free_inodes_count; [done | apply u32_range] | by destruct r].
Qed.

Lemma group_nr_keeps b : keeps typed (modify (upd_ctx (upd_superblock (set_s_block_group_nr (u16 b))))).
Proof.
  apply upd_superblock_keeps. intros r Hr.
  split; [apply wf_set_s_block_group_nr; [done | apply u16_range] | by destruct r].
Qed.
Hint Resolve group_nr_keeps : hoare.
Hint Extern 1 (keeps _ (modify (upd_ctx (upd_superblock _)))) =>
  first [apply (count_blocks_keeps _ (-1) 1) | apply (count_inodes_keeps (-1))] : hoare.

Lemma change_allocated_keeps block a d : keeps typed (ext2_change_allocated block a d).
Proof. unfold ext2_change_allocated. repeat keeps_step. Qed.

Lemma flush_superblock_keeps : keeps typed ext2_flush_superblock.
Proof. unfold ext2_flush_superblock, flush_superblock_step. repeat keeps_step. Qed.
End fs.
