(* ===== verification/TypingFile.v ===== *)
(** * What no operation breaks: open files

    The functions on open files of [src/src/embext.c] keep the sector buffer a
    sector and the inode well-formed, whatever the arguments, the volume and the
    device do, and so does everything they do to the mounted file system. *)
From S2P Require Import Prelude Hoare Layout OnDisk Device Context Bitmap Super.
From S2P Require Import FileBuf Inode BlockMap Alloc FileIo Directory Typing.

(** Well-typed, with magic number [m]. *)
Definition file_typed {D} `{BlockDevice D, BlockView D} (g : ext2context) (v m : Z) (s : file_state D) : Prop :=
  fs_typed g v (s_c s) /\ sector_ok (bo_buffer (fe_buffer (s_fe s))) /\ cs_wf (fe_inode (s_fe s)) /\
  fe_magic (s_fe s) = m.

Lemma is_u32_u32 a : is_u32 (u32 a).
Proof. apply u32_range. Qed.
Lemma is_u32_0 : is_u32 0.
Proof. unfold is_u32. lia. Qed.
#[export] Hint Resolve is_u32_u32 is_u32_0 : embext.

Section file.
Context {D : Type} `{SafeDevice D} (g : ext2context) (v m : Z).
#[local] Abbreviation typed := (file_typed (D := D) g v m).

Lemma on_ctx_yields {A} (c : M (cst D) A) (Q : A -> Prop) :
  yields (fs_typed g v) Q c -> yields typed Q (on_ctx c).
Proof.
  intros Hc. eapply hoare_zoom; [exact Hc | by intros s [Hs _]|].
  intros s a t (_ & Hb & Hi & Hm) [Ht Ha]. done.
Qed.

Lemma on_ctx_keeps {A} (c : M (cst D) A) : keeps (fs_typed g v) c -> keeps typed (on_ctx c).
Proof.
  intros Hc. apply (yields_keeps _ (fun _ => True)), on_ctx_yields. eapply hoare_post; [exact Hc | done].
Qed.

Lemma upd_fe_keeps f :
  (forall e, sector_ok (bo_buffer (fe_buffer e)) -> cs_wf (fe_inode e) ->
     sector_ok (bo_buffer (fe_buffer (f e))) /\ cs_wf (fe_inode (f e)) /\ fe_magic (f e) = fe_magic e) ->
  keeps typed (modify (upd_fe f)).
Proof.
  intros Hf. apply keeps_modify. intros s (Hc & Hb & Hi & Hm). destruct (Hf _ Hb Hi) as (Hb' & Hi' & Hm').
  split; [done|]. split; [done|]. split; [done|]. by rewrite <- Hm.
Qed.

Lemma upd_inode_keeps f : (forall r, cs_wf r -> cs_wf (f r)) -> keeps typed (modify (upd_fe (upd_fe_inode f))).
Proof. intros Hf. apply upd_fe_keeps. intros e Hb Hi. split; [done|]. split; [by apply Hf | done]. Qed.

Lemma rerrno_keeps e : keeps typed (rerrno e).
Proof. by apply keeps_modify. Qed.

Lemma write_filebuf_keeps n : keeps typed (write_filebuf n).
Proof.
  intros s rc s' (([Hc Hd] & Hg & Hv) & Hb & Hi & Hm). unfold write_filebuf.
  destruct (block_write _ _ _) as [[rc' d]|] eqn:Hrun; [|done]. intros [= <- <-].
  apply safe_write in Hrun as [Hd' Hv']; [|done..]. split; [|done]. split; [done|]. split; [done|]. by rewrite <- Hv.
Qed.

Lemma read_filebuf_keeps n : keeps typed (read_filebuf n).
Proof.
  intros s rc s' (Hc & Hb & Hi & Hm). unfold read_filebuf.
  destruct (block_read _ _ _) as [[rc' b]|] eqn:Hrun; [|done]. intros [= <- <-].
  split; [done|]. split; [|done]. eapply safe_read; [apply Hc | exact Hb | done].
Qed.

Lemma read_buffer_typed off n :
  yields typed bytes_ok (ext2_read_buffer off n).
Proof.
  intros s l s' Hs. pose proof Hs as (_ & [_ Hb] & _). unfold ext2_read_buffer, mem_read. case_decide; [|done].
  intros [= <- <-]. split; [done | auto with bytes].
Qed.
Lemma read_buffer_keeps off n : keeps typed (ext2_read_buffer off n).
Proof. eapply yields_keeps, read_buffer_typed. Qed.

Lemma write_buffer_keeps l off : bytes_ok l -> keeps typed (ext2_write_buffer l off).
Proof.
  intros Hl s r s' (Hc & Hb & Hi & Hm). unfold ext2_write_buffer, mem_write. case_decide as Hr; [|done].
  intros [= <- <-]. split; [done|]. split; [|done]. cbn. pose proof (proj1 Hb).
  unfold BLOCK_SIZE in *. apply sector_ok_splice; unfold BLOCK_SIZE; first [done | lia].
Qed.

Lemma fe_keeps : keeps typed fe.
Proof. apply keeps_gets. Qed.
Lemma fctx_keeps : keeps typed fctx.
Proof. apply keeps_gets. Qed.
Lemma init_val_keeps {A} (o : option A) : keeps typed (init_val o).
Proof. destruct o; [apply keeps_ret | apply keeps_throw]. Qed.
Lemma put_i_block_keeps k b : is_u32 b -> keeps typed (put_i_block k b).
Proof. intros Hb. apply upd_inode_keeps. intros r Hr. by apply wf_upd_i_block. Qed.

Hint Resolve rerrno_keeps write_filebuf_keeps read_filebuf_keeps read_buffer_keeps fe_keeps fctx_keeps
  init_val_keeps : hoare.
Hint Resolve get_bg_descriptor_keeps write_bg_descriptor_keeps change_allocated_keeps flush_superblock_keeps
  read_sysbuf_typed write_sysbuf_typed get_sysbuf_keeps malloc_keeps time_keeps bg_val_keeps : hoare.
Hint Extern 1 (keeps _ (on_ctx (modify _))) => apply on_ctx_keeps, (count_inodes_keeps g v (-1)) : hoare.
Hint Extern 2 (keeps _ (on_ctx _)) => apply on_ctx_keeps; auto with hoare nocore : hoare.
Hint Extern 1 (keeps _ (ext2_write_buffer _ _)) => apply write_buffer_keeps; auto with bytes : hoare.
Hint Extern 1 (keeps _ (put_i_block _ _)) => apply put_i_block_keeps; auto with embext : hoare.
(** Updates of the file other than its buffer, its inode and its magic number. *)
Hint Extern 1 (keeps _ (modify (upd_fe _))) => by apply upd_fe_keeps : hoare.

Lemma store_buffer_keeps : keeps typed ext2_store_buffer.
Proof. unfold ext2_store_buffer. repeat keeps_step. Qed.
Lemma fill_buffer_keeps b off : keeps typed (fill_buffer b off).
Proof. unfold fill_buffer. repeat keeps_step. Qed.
Hint Resolve store_buffer_keeps fill_buffer_keeps : hoare.
Lemma load_buffer_keeps b off : keeps typed (ext2_load_buffer b off).
Proof. unfold ext2_load_buffer. repeat keeps_step. Qed.
Lemma buffer_space_keeps : keeps typed ext2_buffer_space.
Proof. unfold ext2_buffer_space. repeat keeps_step. Qed.
Hint Resolve load_buffer_keeps buffer_space_keeps : hoare.

(** ** Inodes *)
Lemma set_time_keeps `{Env} (f : Z -> inode -> inode) {A} (k : unit -> M (file_state D) A) :
  (forall t r, cs_wf r -> is_u32 t -> cs_wf (f t r)) -> (forall a, keeps typed (k a)) ->
  keeps typed (t ← on_ctx time; a ← modify (upd_fe (upd_fe_inode (f t))); k a).
Proof.
  intros Hf Hk. eapply yields_use; [apply on_ctx_yields, time_typed|]. intros t Ht.
  apply keeps_bind; [apply upd_inode_keeps; intros r Hr; by apply Hf | exact Hk].
Qed.

Lemma update_atime_keeps `{Env} : keeps typed ext2_update_atime.
Proof.
  apply (set_time_keeps set_i_atime).
  - intros t r Hr Ht. by apply wf_set_i_atime.
  - repeat keeps_step.
Qed.
Lemma update_mtime_keeps `{Env} : keeps typed ext2_update_mtime.
Proof.
  apply (set_time_keeps set_i_mtime).
  - intros t r Hr Ht. by apply wf_set_i_mtime.
  - repeat keeps_step.
Qed.
Lemma flush_inode_dirty_keeps bg i : keeps typed (flush_inode_dirty bg i).
Proof. unfold flush_inode_dirty. repeat keeps_step. Qed.
Hint Resolve update_atime_keeps update_mtime_keeps flush_inode_dirty_keeps : hoare.
Lemma flush_inode_keeps : keeps typed ext2_flush_inode.
Proof. unfold ext2_flush_inode. repeat keeps_step. Qed.
Hint Resolve flush_inode_keeps : hoare.

Lemma load_inode_keeps off ino :
  keeps typed (bs ← on_ctx (get_sysbuf off (sizeof inode));
    modify (upd_fe (fun f => set_fe_cursor 0 (set_fe_flags EXT2_FLAG_READ
      (set_fe_inode_number ino (upd_fe_inode (fun _ => decode bs) f))))) ;; mret 0).
Proof.
  eapply yields_use; [apply on_ctx_yields, get_sysbuf_typed|]. intros l (Hb & Hl).
  apply keeps_bind; [|repeat keeps_step].
  apply upd_fe_keeps. intros e Hbuf _. split; [done|]. split; [|done].
  apply (decode_wf (T := inode)); [done|]. rewrite Hl; [done|]. by vm_compute.
Qed.

Lemma open_inode_keeps ino : keeps typed (ext2_open_inode ino).
Proof.
  unfold ext2_open_inode. repeat lazymatch goal with
  | |- keeps _ (on_ctx (get_sysbuf _ (sizeof inode)) ≫= _) => apply load_inode_keeps
  | _ => keeps_step
  end.
Qed.
Hint Resolve open_inode_keeps : hoare.

(** ** Blocks *)
Lemma indirect_entry_keeps b off : keeps typed (indirect_entry b off).
Proof. unfold indirect_entry. repeat keeps_step. Qed.
Hint Resolve indirect_entry_keeps : hoare.
Lemma block_from_offset_keeps off : keeps typed (ext2_block_from_offset off).
Proof. unfold ext2_block_from_offset. repeat keeps_step. Qed.
Lemma most_free_group_keeps count : keeps typed (most_free_group count).
Proof. unfold most_free_group, most_free_step. repeat keeps_step. Qed.
Lemma bitmap_scan_keeps b n : keeps typed (bitmap_scan b n).
Proof. unfold bitmap_scan, bitmap_scan_step. repeat keeps_step. Qed.
Lemma claim_inode_keeps bg group ipg i byte j : keeps typed (claim_inode bg group ipg i byte j).
Proof. unfold claim_inode. repeat keeps_step. Qed.
Hint Resolve block_from_offset_keeps most_free_group_keeps bitmap_scan_keeps claim_inode_keeps : hoare.
Lemma allocate_inode_keeps : keeps typed ext2_allocate_inode.
Proof. unfold ext2_allocate_inode. repeat keeps_step. Qed.

Lemma allocate_block_typed prev : yields typed is_u32 (ext2_allocate_block prev).
Proof. unfold ext2_allocate_block. repeat yields_step; try case_match; auto with embext. Qed.

Lemma dealloc_keeps isdir b : keeps typed (dealloc isdir b).
Proof. unfold dealloc. repeat keeps_step. Qed.
Lemma get_i_block_keeps k : keeps typed (get_i_block k).
Proof. unfold get_i_block. repeat keeps_step. Qed.
Hint Resolve allocate_inode_keeps dealloc_keeps get_i_block_keeps : hoare.
Lemma each_entry_keeps n b body :
  keeps typed b -> (forall e, keeps typed (body e)) -> keeps typed (each_entry n b body).
Proof. intros Hb Hbody. unfold each_entry. repeat first [apply Hb | apply Hbody | keeps_step]. Qed.
Lemma truncate_tree_keeps isdir k body : keeps typed body -> keeps typed (truncate_tree isdir k body).
Proof. intros Hb. unfold truncate_tree. repeat first [apply Hb | keeps_step]. Qed.

Lemma truncate_file_keeps : keeps typed ext2_truncate_file.
Proof.
  assert (Hz : fits 4 0) by (by vm_compute).
  unfold ext2_truncate_file, truncate_direct, truncate_indirect, truncate_double, truncate_triple.
  repeat first [apply each_entry_keeps | apply truncate_tree_keeps | keeps_step
    | apply upd_inode_keeps; auto with embext].
Qed.
Hint Resolve truncate_file_keeps : hoare.

(** ** Operations *)
Hint Extern 0 (keeps _ (modify (upd_fe (upd_fe_inode _)))) => apply upd_inode_keeps; auto with embext : hoare.

Lemma select_buffer_keeps : keeps typed ext2_select_buffer.
Proof.
  unfold ext2_select_buffer. repeat lazymatch goal with
  | |- keeps _ (ext2_allocate_block _ ≫= _) => eapply yields_use; [apply allocate_block_typed|]
  | _ => keeps_step
  end.
Qed.
Hint Resolve select_buffer_keeps : hoare.

Lemma with_magic_keeps {A} (bad : A) (c : M (file_state D) A) : keeps typed c -> keeps typed (with_magic bad c).
Proof. intros Hc. unfold with_magic. repeat first [apply Hc | keeps_step]. Qed.
Lemma advance_keeps n : keeps typed (advance n).
Proof. unfold advance. repeat keeps_step. Qed.
Lemma grow_file_keeps : keeps typed grow_file.
Proof. unfold grow_file. repeat keeps_step. Qed.
Hint Resolve advance_keeps grow_file_keeps : hoare.

Lemma read_loop_typed fuel count i bt :
  bytes_ok bt -> yields typed (fun r => bytes_ok (snd r)) (read_loop fuel count i bt).
Proof.
  revert i bt. induction fuel as [|fuel IH]; intros i bt Hbt; cbn [read_loop].
  - repeat yields_step; done.
  - repeat lazymatch goal with
    | |- yields _ _ (ext2_read_buffer _ _ ≫= _) => eapply yields_use2; [apply read_buffer_typed|]
    | |- yields _ _ (read_loop _ _ _ _) => apply IH; apply bytes_ok_app; split; done
    | _ => yields_step
    end; done.
Qed.

Lemma read_typed `{Env} count : yields typed (fun r => bytes_ok (snd r)) (ext2_read count).
Proof.
  unfold ext2_read, with_magic. repeat lazymatch goal with
  | |- yields _ _ (read_loop _ _ _ _ ≫= _) => eapply yields_use2; [apply (read_loop_typed _ _ _ []), Forall_nil_2|]
  | _ => yields_step
  end; first [done | apply Forall_nil_2].
Qed.
Lemma read_keeps `{Env} count : keeps typed (ext2_read count).
Proof. eapply yields_keeps, read_typed. Qed.
Hint Resolve read_keeps : hoare.

Lemma lseek_keeps offset whence : keeps typed (ext2_lseek offset whence).
Proof. apply with_magic_keeps. repeat keeps_step. Qed.
Hint Resolve lseek_keeps : hoare.

Lemma write_loop_keeps fuel bt i : bytes_ok bt -> keeps typed (write_loop fuel bt i).
Proof.
  intros Hbt. revert i. induction fuel as [|fuel IH]; intros i; cbn [write_loop];
    repeat first [apply IH | keeps_step].
Qed.
Lemma write_keeps `{Env} bt : bytes_ok bt -> keeps typed (ext2_write bt).
Proof.
  intros Hbt. apply with_magic_keeps. repeat first [apply write_loop_keeps, Hbt | keeps_step].
Qed.
Lemma fstat_keeps : keeps typed ext2_fstat.
Proof. apply with_magic_keeps. repeat keeps_step. Qed.
Lemma isatty_keeps : keeps typed ext2_isatty.
Proof. apply with_magic_keeps. repeat keeps_step. Qed.
Hint Extern 1 (keeps _ (ext2_write _)) => apply write_keeps; auto with bytes : hoare.

Lemma readdir_keeps `{Env} de : keeps typed (ext2_readdir de).
Proof. unfold ext2_readdir. repeat keeps_step. Qed.
Hint Resolve readdir_keeps : hoare.
Lemma find_entry_keeps `{Env} fuel name de : keeps typed (find_entry fuel name de).
Proof. revert de. induction fuel as [|fuel IH]; intros de; cbn [find_entry]; repeat first [apply IH | keeps_step]. Qed.
Hint Resolve find_entry_keeps : hoare.
Lemma lookup_path_keeps `{Env} fuel path de : keeps typed (ext2_lookup_path fuel path de).
Proof.
  unfold ext2_lookup_path. generalize EXT2_ROOT_INO, (path_elements path). intros ino es. revert ino de.
  induction es as [|e es IH]; intros ino de; cbn [lookup_elements]; repeat first [apply IH | keeps_step].
Qed.
Hint Resolve lookup_path_keeps : hoare.

(** Closing ends with the magic number cleared, or fails and leaves it. *)
Lemma close_typed : hoare typed ext2_close (fun rc s => file_typed g v (if rc =? 0 then 0 else m) s).
Proof.
  assert (Hfail : forall e, hoare typed (rerrno e ;; mret (-1)) (fun rc s => file_typed g v (if rc =? 0 then 0 else m) s)).
  { intros e. eapply hoare_bind; [apply rerrno_keeps|]. intros ?. by apply hoare_ret. }
  unfold ext2_close, with_magic. eapply hoare_bind; [apply fe_keeps|]. intros f. cbv beta. case_match; [apply Hfail|].
  eapply hoare_bind; [apply fe_keeps|]. intros f1. cbv beta.
  eapply (hoare_bind _ _ _ (fun _ => typed)); [change (keeps typed (if negb (bo_dirty (fe_buffer f1) =? 0) then
    ext2_store_buffer else mret 0)); repeat keeps_step|]. intros rc. cbv beta.
  eapply hoare_bind; [apply fe_keeps|]. intros f2. cbv beta. case_match; [apply Hfail|].
  eapply (hoare_bind _ _ _ (fun _ => typed)); [change (keeps typed (if has_flag (fe_flags f2) EXT2_FLAG_FS_DIRTY
    then ext2_flush_inode else mret 0)); repeat keeps_step|]. intros rc'. cbv beta.
  eapply hoare_bind; [apply fe_keeps|]. intros f3. cbv beta. case_match; [apply Hfail|].
  intros s a s' (Hc & Hb & Hi & _) [= <- <-]. done.
Qed.
End file.

(** The hints of the section, for the files that follow. *)
#[export] Hint Resolve rerrno_keeps fe_keeps fctx_keeps init_val_keeps open_inode_keeps flush_inode_keeps
  allocate_inode_keeps truncate_file_keeps read_keeps lseek_keeps fstat_keeps isatty_keeps readdir_keeps
  find_entry_keeps lookup_path_keeps malloc_keeps time_keeps set_errno_keeps : hoare.
#[export] Hint Extern 2 (keeps _ (on_ctx _)) => apply on_ctx_keeps; auto with hoare nocore : hoare.
#[export] Hint Extern 1 (keeps _ (modify (upd_fe _))) => by apply upd_fe_keeps : hoare.
#[export] Hint Extern 1 (keeps _ (ext2_write _)) => apply write_keeps; auto with bytes : hoare.

(** ** Files that are closed on the way *)
Definition file_any {D} `{BlockDevice D, BlockView D} (g : ext2context) (v : Z) (s : file_state D) : Prop :=
  exists m, file_typed g v m s.

Section append.
Context {D : Type} `{SafeDevice D, Env} (g : ext2context) (v : Z).
#[local] Abbreviation any := (file_any (D := D) g v).

Lemma keeps_any {A} (c : M (file_state D) A) : (forall m, keeps (file_typed g v m) c) -> keeps any c.
Proof. intros Hc s a s' [m Hs] Hrun. exists m. by eapply Hc. Qed.

Lemma close_any : keeps any ext2_close.
Proof. intros s rc s' [m Hs] Hrun. eexists. by eapply close_typed. Qed.
Hint Resolve close_any : hoare.
Hint Extern 3 (keeps (file_any _ _) _) => apply keeps_any; intros ?; auto with hoare nocore : hoare.

Lemma close_quietly_any : keeps any close_quietly.
Proof. unfold close_quietly. repeat keeps_step. Qed.
Hint Resolve close_quietly_any : hoare.
Lemma last_record_any fuel bs lb off h : keeps any (last_record fuel bs lb off h).
Proof.
  revert off h. induction fuel as [|fuel IH]; intros off h; cbn [last_record];
    repeat first [apply IH | keeps_step].
Qed.
Hint Resolve last_record_any : hoare.
Lemma append_entry_any fuel ino name : bytes_ok name -> keeps any (append_entry fuel ino name).
Proof. intros Hname. unfold append_entry. repeat keeps_step. Qed.

(** A file no longer used once the operation is over. *)
Lemma run_file_keeps {A} f (c : M (file_state D) A) :
  sector_ok (bo_buffer (fe_buffer f)) -> cs_wf (fe_inode f) -> keeps any c -> keeps (fs_typed g v) (run_file f c).
Proof.
  intros Hb Hi Hc s a s' Hs. unfold run_file. destruct (c (mk_fst f s)) as [[a' t]|] eqn:Hrun; [|done].
  intros [= <- <-]. destruct (Hc (mk_fst f s) a' t) as [m [Ht _]]; [by exists (fe_magic f) | done | exact Ht].
Qed.
End append.

(** ** Opening *)

(** An open file that can be handed out. *)
Definition handle_typed (h : handle) : Prop :=
  match h with
  | OpenFile f => sector_ok (bo_buffer (fe_buffer f)) /\ cs_wf (fe_inode f) /\ fe_magic f = EMBEXT_MAGIC
  | _ => True
  end.
Lemma zeroed_wf : cs_wf (fe_inode zeroed_file) /\ sector_ok (bo_buffer (fe_buffer zeroed_file)).
Proof.
  split; [|split; [by vm_compute | by apply bytes_ok_replicate, is_byte_0]].
  apply (decode_wf (T := inode)); [by apply bytes_ok_replicate, is_byte_0 | by vm_compute].
Qed.

Lemma split_last_bytes name path last :
  bytes_ok name -> split_last name = Some (path, last) -> bytes_ok path /\ bytes_ok last.
Proof.
  intros Hn. revert path last. induction Hn as [|b name Hb Hn IH]; intros path last; cbn [split_last]; [done|].
  destruct (split_last name) as [[p l]|].
  - intros [= <- <-]. destruct (IH p l eq_refl). split; [by constructor | done].
  - destruct (b =? 47); [|done]. intros [= <- <-]. split; [constructor | done].
Qed.

Section open.
Context {D : Type} `{SafeDevice D, Env} (g : ext2context) (v m : Z).
#[local] Abbreviation typed := (file_typed (D := D) g v m).

(** [append] keeps the file system well-typed. *)
Definition append_keeps (append : appender (D := D)) : Prop :=
  forall dir ino name de, bytes_ok dir -> bytes_ok name -> keeps (fs_typed g v) (append dir ino name de).

Lemma open_create_keeps append name mode de :
  append_keeps append -> bytes_ok name -> keeps typed (open_create append name mode de).
Proof.
  intros Ha Hn. unfold open_create. destruct (split_last name) as [[dir file]|] eqn:Hsplit.
  - destruct (split_last_bytes _ _ _ Hn Hsplit) as [Hd Hf].
    repeat lazymatch goal with
    | |- keeps _ (on_ctx (append _ _ _ _) ≫= _) => apply keeps_bind; [by apply on_ctx_keeps, Ha|]
    | |- keeps _ (on_ctx time ≫= _) =>
        eapply yields_use; [apply on_ctx_yields, time_typed|]
    | |- keeps _ (modify (upd_fe (upd_fe_inode (fun _ => new_inode _ _ _ _))) ≫= _) =>
        apply keeps_bind; [apply upd_inode_keeps; intros; by apply new_inode_wf|]
    | _ => keeps_step
    end.
  - repeat keeps_step.
Qed.

Lemma open_existing_keeps flags ic : keeps typed (open_existing flags ic).
Proof. unfold open_existing. repeat keeps_step. Qed.

Lemma open_body_keeps append fuel name flags mode de :
  append_keeps append -> bytes_ok name -> keeps typed (open_body append fuel name flags mode de).
Proof.
  intros Ha Hn. unfold open_body.
  repeat first [apply open_create_keeps; done | apply open_existing_keeps | keeps_step].
Qed.
End open.

Section opening.
Context {D : Type} `{SafeDevice D, Env} (g : ext2context) (v : Z).

Lemma run_file_yields {A} f (c : M (file_state D) A) (Q : A -> Prop) :
  handle_typed (OpenFile f) -> yields (file_typed g v EMBEXT_MAGIC) Q c -> yields (fs_typed g v) Q (run_file f c).
Proof.
  intros (Hb & Hi & Hm) Hc s a s' Hs. unfold run_file. destruct (c (mk_fst f s)) as [[a' t]|] eqn:Hrun; [|done].
  intros [= <- <-]. destruct (Hc (mk_fst f s) a' t) as [[Ht _] Ha]; [by rewrite <- Hm in * | done | done].
Qed.

Lemma fe_yields : yields (file_typed (D := D) g v EMBEXT_MAGIC) (fun f => handle_typed (OpenFile f)) fe.
Proof. intros s f s' Hs [= <- <-]. split; [done|]. destruct Hs as (_ & ?). done. Qed.

Lemma open_with_typed append fuel name flags mode de :
  append_keeps (D := D) g v append -> bytes_ok name ->
  yields (fs_typed g v) (fun r => handle_typed (fst r)) (open_with append fuel name flags mode de).
Proof.
  intros Ha Hn. unfold open_with. apply yields_bind; [apply malloc_keeps|]. intros ok.
  destruct (negb ok); [repeat yields_step; done|].
  apply run_file_yields; [by destruct zeroed_wf|].
  apply yields_bind; [by apply open_body_keeps|]. intros [keep de']. cbv beta iota.
  eapply yields_use2; [apply fe_yields|]. intros f Hf. apply yields_ret. by destruct keep.
Qed.

Lemma append_with_keeps open fuel :
  (forall name flags mode de, bytes_ok name ->
     yields (fs_typed g v) (fun r => handle_typed (fst r)) (open name flags mode de)) ->
  append_keeps (D := D) g v (append_with open fuel).
Proof.
  intros Ho dir ino name de Hd Hn. unfold append_with. eapply yields_use; [by apply Ho|].
  intros [h de'] Hh. cbn [fst] in Hh. destruct h as [| |f]; [apply keeps_ret..|]. destruct Hh as (Hb & Hi & _).
  apply keeps_bind; [by apply run_file_keeps; [..|apply append_entry_any]|]. repeat keeps_step.
Qed.

Lemma open_rec_typed depth fuel name flags mode de :
  bytes_ok name ->
  yields (fs_typed (D := D) g v) (fun r => handle_typed (fst r)) (ext2_open_rec depth fuel name flags mode de).
Proof.
  revert name flags mode de. induction depth as [|depth IH]; intros name flags mode de Hn; cbn [ext2_open_rec];
    apply open_with_typed; try done.
  by apply append_with_keeps.
Qed.
End opening.
