(* ===== verification/System.v ===== *)
(** * The open files of a mounted file system

    A program opens files and calls the operations of [src/src/embext.c] on them
    in any order; every file points to the one mounted file system. [step] is one
    call, [rtc step] a history. *)
From stdpp Require Import gmap relations.
From S2P Require Import Prelude Hoare Layout OnDisk Device Context Bitmap Super.
From S2P Require Import FileBuf Inode BlockMap Alloc FileIo Directory Typing TypingFile.

(** A call on an open file. *)
Inductive call : Type :=
| CallRead (count : Z)
| CallWrite (bt : list Z)
| CallLseek (offset whence : Z)
| CallFstat
| CallIsatty
| CallReaddir (de : dirent)
| CallClose.

(** The bytes a program passes are bytes. *)
Definition call_ok (c : call) : Prop := if c is CallWrite bt then bytes_ok bt else True.

Section calls.
Context {D : Type} `{Env, BlockDevice D}.

Definition run_call (c : call) (h : handle) : M (cst D) handle :=
  match c with
  | CallRead n => '(_, h') ← h_read n h; mret h'
  | CallWrite bt => '(_, h') ← h_write bt h; mret h'
  | CallLseek o w => '(_, h') ← h_lseek o w h; mret h'
  | CallFstat => '(_, h') ← h_fstat h; mret h'
  | CallIsatty => '(_, h') ← h_isatty h; mret h'
  | CallReaddir de => '(_, h') ← on_handle (false, de) (ext2_readdir de) h; mret h'
  | CallClose => '(_, h') ← h_close h; mret h'
  end.

Fixpoint run_calls (cs : list call) (h : handle) : M (cst D) handle :=
  match cs with
  | [] => mret h
  | c :: cs' => h' ← run_call c h; run_calls cs' h'
  end.
End calls.

Record system (D : Type) : Type := mk_sys {
  sys_fs : cst D;
  sys_files : gmap nat handle       (** what [ext2_open] returned so far *)
}.
Arguments mk_sys {D} _ _.
Arguments sys_fs {D} _.
Arguments sys_files {D} _.

(** One call of the program that returns. *)
Inductive step {D} `{Env, BlockDevice D} : system D -> system D -> Prop :=
| step_open id fuel name flags mode de h de' fs fs' files :
    bytes_ok name -> files !! id = None ->
    ext2_open fuel name flags mode de fs = Ok ((h, de'), fs') ->
    step (mk_sys fs files) (mk_sys fs' (<[id := h]> files))
| step_call id c h h' fs fs' files :
    files !! id = Some h -> call_ok c -> run_call c h fs = Ok (h', fs') ->
    step (mk_sys fs files) (mk_sys fs' (<[id := h']> files)).

(** ** Types *)
Section types.
Context {D : Type} `{SafeDevice D, Env} (g : ext2context) (v : Z).
Implicit Types (h : handle) (fs : cst D).

Lemma on_handle_typed {A} (bad : A) (m : M (file_state D) A) h :
  handle_typed h -> keeps (file_typed g v EMBEXT_MAGIC) m ->
  yields (fs_typed g v) (fun r => handle_typed (snd r)) (on_handle bad m h).
Proof.
  intros Hh Hm. destruct h as [| |f]; cbn [on_handle].
  - apply yields_bind; [apply set_errno_keeps|]. intros ?. by apply yields_ret.
  - done.
  - destruct Hh as (Hb & Hi & Hmag). intros fs [a h'] fs' Hfs Hrun. unfold mbind, res_bind in Hrun.
    destruct (m (mk_fst f fs)) as [[a' s]|] eqn:Hr; [|done]. injection Hrun as <- <- <-.
    destruct (Hm (mk_fst f fs) a' s) as (Hc & Hb' & Hi' & Hm'); [by split | done |]. done.
Qed.

Lemma h_close_typed h : handle_typed h -> yields (fs_typed g v) (fun r => handle_typed (snd r)) (h_close (D := D) h).
Proof.
  intros Hh fs [rc h'] fs' Hfs Hrun. unfold h_close in Hrun. apply bind_inv in Hrun as ([rc1 h1] & fs1 & Hr & Hret).
  injection Hret as <- <- <-. cbn [snd]. destruct h as [| |f]; cbn [on_handle] in Hr.
  - injection Hr as <- <- <-. done.
  - done.
  - unfold mbind, res_bind in Hr. destruct (ext2_close (mk_fst f fs)) as [[a' s]|] eqn:Hcl; [|done].
    injection Hr as <- <- <-. destruct Hh as (Hb & Hi & Hmag).
    destruct (close_typed g v EMBEXT_MAGIC (mk_fst f fs) a' s) as (Hc & Hb' & Hi' & Hm'); [by split | done |].
    split; [done|]. destruct (a' =? 0); [done | by split].
Qed.

Lemma run_call_typed c h :
  call_ok c -> handle_typed h -> yields (fs_typed (D := D) g v) handle_typed (run_call c h).
Proof.
  intros Hc Hh.
  assert (Hgo : forall A (m : M (cst D) (A * handle)), yields (fs_typed g v) (fun r => handle_typed (snd r)) m ->
    yields (fs_typed g v) handle_typed ('(_, h') ← m; mret h')).
  { intros A m Hm. eapply yields_use2; [exact Hm|]. intros [a h'] Hh'. by apply yields_ret. }
  destruct c; cbn [run_call]; apply Hgo; try apply on_handle_typed; try done.
  - apply read_keeps.
  - by apply write_keeps.
  - apply lseek_keeps.
  - apply fstat_keeps.
  - apply isatty_keeps.
  - apply readdir_keeps.
  - by apply h_close_typed.
Qed.

Definition sys_typed (S : system D) : Prop :=
  fs_typed g v (sys_fs S) /\ map_Forall (fun _ h => handle_typed h) (sys_files S).

Lemma step_typed S S' : sys_typed S -> step S S' -> sys_typed S'.
Proof.
  intros [Hfs Hfiles] Hst.
  destruct Hst as [id fuel name flags mode de h de' fs fs' files Hn Hid Hrun|id c h h' fs fs' files Hid Hc Hrun].
  - apply (open_rec_typed g v 1 fuel name flags mode de Hn) in Hrun as [Hfs' Hh]; [|done].
    split; [done|]. by apply map_Forall_insert_2.
  - apply (run_call_typed c h Hc) in Hrun as [Hfs' Hh]; [|by apply (Hfiles id)|done].
    split; [done|]. by apply map_Forall_insert_2.
Qed.
End types.

(** A closed file stays closed: no later call on it returns. *)
Lemma step_freed {D} `{Env, BlockDevice D} (S S' : system D) id :
  step S S' -> sys_files S !! id = Some FreedFile -> sys_files S' !! id = Some FreedFile.
Proof.
  intros Hst Hid. destruct Hst as [i fuel name flags mode de h de' fs fs' files Hn Hi Hrun|i c h h' fs fs' files Hi Hc Hrun];
    cbn in *.
  - rewrite lookup_insert_ne; [done | congruence].
  - destruct (decide (i = id)) as [->|]; [|by rewrite lookup_insert_ne]. exfalso.
    assert (h = FreedFile) as -> by congruence. by destruct c.
Qed.

(** ** Queries *)

(** The calls that are not meant to change the volume. *)
Definition is_query (c : call) : bool := match c with CallWrite _ | CallClose => false | _ => true end.

(** A file without the write flag and without unsaved data, over the device [d]. *)
Definition clean {D} (d : D) (s : file_state D) : Prop :=
  c_dev (s_c s) = d /\ bo_dirty (fe_buffer (s_fe s)) = 0 /\ has_flag (fe_flags (s_fe s)) EXT2_FLAG_WRITE = false.

Definition handle_clean (h : handle) : Prop :=
  if h is OpenFile f then bo_dirty (fe_buffer f) = 0 /\ has_flag (fe_flags f) EXT2_FLAG_WRITE = false else True.

Section queries.
Context {D : Type} `{Env, BlockDevice D} (d : D).
#[local] Abbreviation clean := (clean (D := D) d).

(** A computation on the context that leaves the device alone. *)
Lemma on_ctx_clean {A} (m : M (cst D) A) :
  keeps (fun s => c_dev s = d) m -> keeps clean (on_ctx m).
Proof. intros Hm. eapply hoare_zoom; [exact Hm | by intros s [Hs _]|]. intros s a t (_ & Hs) Ht. done. Qed.

Lemma upd_fe_clean f :
  (forall e, bo_dirty (fe_buffer (f e)) = bo_dirty (fe_buffer e) /\
     (has_flag (fe_flags e) EXT2_FLAG_WRITE = false -> has_flag (fe_flags (f e)) EXT2_FLAG_WRITE = false)) ->
  keeps clean (modify (upd_fe f)).
Proof.
  intros Hf. apply keeps_modify. intros s (Hd & Hb & Hw). destruct (Hf (s_fe s)) as [Hb' Hw'].
  split; [done|]. cbn. rewrite Hb'. auto.
Qed.

Lemma fe_clean : yields clean (fun f => bo_dirty (fe_buffer f) = 0 /\ has_flag (fe_flags f) EXT2_FLAG_WRITE = false) fe.
Proof. intros s f s' Hs [= <- <-]. split; [done|]. by destruct Hs. Qed.
Lemma fe_keeps_clean : keeps clean fe.
Proof. apply keeps_gets. Qed.
Lemma fctx_clean : keeps clean fctx.
Proof. apply keeps_gets. Qed.
Lemma rerrno_clean e : keeps clean (rerrno e).
Proof. by apply keeps_modify. Qed.
Lemma read_filebuf_clean n : keeps clean (read_filebuf n).
Proof.
  intros s rc s' Hs. unfold read_filebuf. destruct (block_read _ _ _) as [[rc' b]|]; [|done]. by intros [= <- <-].
Qed.
Lemma read_buffer_clean off n : keeps clean (ext2_read_buffer off n).
Proof. intros s l s' Hs. unfold ext2_read_buffer. destruct (mem_read _ _ _); [|done]. by intros [= <- <-]. Qed.
Lemma time_clean : keeps clean (on_ctx time).
Proof. apply on_ctx_clean. by intros s t s' Hs [= <- <-]. Qed.
Hint Resolve fe_keeps_clean fctx_clean rerrno_clean read_filebuf_clean read_buffer_clean time_clean : hoare.
Hint Extern 1 (keeps _ (modify (upd_fe _))) => by apply upd_fe_clean : hoare.

Lemma fill_buffer_clean b off : keeps clean (fill_buffer b off).
Proof. unfold fill_buffer. repeat keeps_step. Qed.
Hint Resolve fill_buffer_clean : hoare.
(** A clean buffer is not stored before the next sector is loaded. *)
Lemma load_buffer_clean b off : keeps clean (ext2_load_buffer b off).
Proof.
  unfold ext2_load_buffer. eapply yields_use; [apply fe_clean|]. intros f [-> _]. cbn [negb Z.eqb].
  apply fill_buffer_clean.
Qed.
Hint Resolve load_buffer_clean : hoare.
Lemma indirect_entry_clean b off : keeps clean (indirect_entry b off).
Proof. unfold indirect_entry. repeat keeps_step. Qed.
Hint Resolve indirect_entry_clean : hoare.
Lemma block_from_offset_clean off : keeps clean (ext2_block_from_offset off).
Proof. unfold ext2_block_from_offset. repeat keeps_step. Qed.
Hint Resolve block_from_offset_clean : hoare.
(** Without the write flag no block is allocated. *)
Lemma select_buffer_clean : keeps clean ext2_select_buffer.
Proof.
  unfold ext2_select_buffer. eapply yields_use; [apply fe_clean|]. intros f [_ Hw].
  rewrite Hw. repeat keeps_step.
Qed.
Lemma buffer_space_clean : keeps clean ext2_buffer_space.
Proof. unfold ext2_buffer_space. repeat keeps_step. Qed.
Lemma advance_clean n : keeps clean (advance n).
Proof. unfold advance. repeat keeps_step. Qed.
Hint Resolve select_buffer_clean buffer_space_clean advance_clean : hoare.
Lemma read_loop_clean fuel count i bt : keeps clean (read_loop fuel count i bt).
Proof.
  revert i bt. induction fuel as [|fuel IH]; intros i bt; cbn [read_loop]; repeat first [apply IH | keeps_step].
Qed.

(** Setting another flag does not set the write flag. *)
Lemma other_flag_clean x f :
  Z.land f EXT2_FLAG_WRITE = 0 -> has_flag x EXT2_FLAG_WRITE = false -> has_flag (Z.lor x f) EXT2_FLAG_WRITE = false.
Proof. unfold has_flag. intros Hf Hx. by rewrite Z.land_lor_distr_l, Hf, Z.lor_0_r. Qed.
Lemma update_atime_clean : keeps clean ext2_update_atime.
Proof.
  unfold ext2_update_atime. repeat keeps_step. apply upd_fe_clean. intros e. split; [done | by apply other_flag_clean].
Qed.
Hint Resolve read_loop_clean update_atime_clean : hoare.

Lemma read_clean count : keeps clean (ext2_read count).
Proof. unfold ext2_read, with_magic. repeat keeps_step. Qed.
Lemma lseek_clean o w : keeps clean (ext2_lseek o w).
Proof. unfold ext2_lseek, with_magic. repeat keeps_step. Qed.
Hint Resolve read_clean lseek_clean : hoare.
Lemma fstat_clean : keeps clean ext2_fstat.
Proof. unfold ext2_fstat, with_magic. repeat keeps_step. Qed.
Lemma isatty_clean : keeps clean ext2_isatty.
Proof. unfold ext2_isatty, with_magic. repeat keeps_step. Qed.
Lemma readdir_clean de : keeps clean (ext2_readdir de).
Proof. unfold ext2_readdir. repeat keeps_step. Qed.
Hint Resolve fstat_clean isatty_clean readdir_clean : hoare.
Lemma find_entry_clean fuel name de : keeps clean (find_entry fuel name de).
Proof. revert de. induction fuel as [|fuel IH]; intros de; cbn [find_entry]; repeat first [apply IH | keeps_step]. Qed.
Hint Resolve find_entry_clean : hoare.

Lemma on_handle_clean {A} (bad : A) (m : M (file_state D) A) h :
  keeps clean m ->
  forall fs r fs', c_dev fs = d /\ handle_clean h -> on_handle bad m h fs = Ok (r, fs') ->
    c_dev fs' = d /\ handle_clean (snd r).
Proof.
  intros Hm fs [a h'] fs' [Hd Hh] Hrun. destruct h as [| |f]; cbn [on_handle] in Hrun.
  - by injection Hrun as <- <- <-.
  - done.
  - unfold mbind, res_bind in Hrun. destruct (m (mk_fst f fs)) as [[a' s]|] eqn:Hr; [|done].
    injection Hrun as <- <- <-. by apply (Hm (mk_fst f fs) a' s).
Qed.

Lemma run_query_clean c h fs h' fs' :
  is_query c = true -> c_dev fs = d /\ handle_clean h -> run_call c h fs = Ok (h', fs') ->
  c_dev fs' = d /\ handle_clean h'.
Proof.
  intros Hq Hh. destruct c; try done; cbn [run_call]; intros ([a h1] & fs1 & Hrun & [= <- <-])%bind_inv;
    revert Hh Hrun; apply on_handle_clean; auto with hoare.
Qed.

Lemma run_queries_clean cs h fs h' fs' :
  Forall (fun c => is_query c = true) cs -> c_dev fs = d /\ handle_clean h -> run_calls cs h fs = Ok (h', fs') ->
  c_dev fs' = d.
Proof.
  intros Hcs. revert h fs. induction Hcs as [|c cs Hc _ IH]; intros h fs Hh; cbn [run_calls].
  - intros [= _ <-]. apply Hh.
  - intros (h1 & fs1 & Hrun & Hrest)%bind_inv. eapply IH, Hrest. by eapply run_query_clean.
Qed.

(** ** Opening without write access *)
Lemma sysbuf_dev {A} (m : M (cst D) A) :
  (forall s a s', m s = Ok (a, s') -> c_dev s' = c_dev s) -> keeps clean (on_ctx m).
Proof. intros Hm. apply on_ctx_clean. intros s a s' <- Hrun. by eapply Hm. Qed.

Lemma read_sysbuf_clean n : keeps clean (on_ctx (read_sysbuf n)).
Proof. apply sysbuf_dev. intros s a s' (b & ->)%read_sysbuf_frame. done. Qed.
Lemma get_sysbuf_clean off n : keeps clean (on_ctx (get_sysbuf off n)).
Proof. apply sysbuf_dev. intros s a s'. unfold get_sysbuf. destruct (mem_read _ _ _); [|done]. by intros [= _ <-]. Qed.
Hint Resolve read_sysbuf_clean get_sysbuf_clean : hoare.

Lemma open_inode_clean ino : keeps clean (ext2_open_inode ino).
Proof. unfold ext2_open_inode. repeat keeps_step. Qed.
Hint Resolve open_inode_clean : hoare.
Lemma lookup_path_clean fuel path de : keeps clean (ext2_lookup_path fuel path de).
Proof.
  unfold ext2_lookup_path. generalize EXT2_ROOT_INO, (path_elements path). intros ino es. revert ino de.
  induction es as [|e es IH]; intros ino de; cbn [lookup_elements]; repeat first [apply IH | keeps_step].
Qed.
Hint Resolve lookup_path_clean : hoare.

(** The flags of [ext2_open] that ask for no write access. *)
Definition reads_only (flags : Z) : Prop :=
  has_flag flags O_CREAT = false /\ has_flag flags O_WRONLY = false /\ has_flag flags O_RDWR = false.

Lemma reads_only_access flags : reads_only flags -> has_flag flags (Z.lor O_WRONLY O_RDWR) = false.
Proof.
  intros (_ & H1 & H2). unfold has_flag in *. apply negb_false_iff, Z.eqb_eq in H1, H2.
  by rewrite Z.land_lor_distr_r, H1, H2.
Qed.

Lemma access_clean flags x :
  reads_only flags -> has_flag x EXT2_FLAG_WRITE = false -> has_flag (access_flags flags x) EXT2_FLAG_WRITE = false.
Proof.
  intros (_ & H1 & H2) Hx. unfold access_flags. rewrite H1, H2.
  destruct (has_flag flags O_APPEND); repeat apply other_flag_clean; done.
Qed.

Lemma open_body_clean append fuel name flags mode de :
  reads_only flags -> keeps clean (open_body append fuel name flags mode de).
Proof.
  intros Hf. pose proof (reads_only_access _ Hf) as Hacc. pose proof Hf as (Hc & _).
  unfold open_body, open_existing. rewrite Hc, Hacc. cbn [negb andb].
  repeat lazymatch goal with
  | |- keeps _ (modify (upd_fe _) ≫= _) => apply keeps_bind;
      [apply upd_fe_clean; intros e; split; [done | by apply access_clean]|]
  | _ => keeps_step
  end.
Qed.

Lemma run_file_inv {A} f (m : M (file_state D) A) (fs : cst D) a fs' :
  run_file f m fs = Ok (a, fs') -> exists s, m (mk_fst f fs) = Ok (a, s) /\ fs' = s_c s.
Proof. unfold run_file. destruct (m (mk_fst f fs)) as [[a' s]|]; [|done]. intros [= <- <-]. eauto. Qed.

Lemma open_clean fuel name flags mode de fs h de' fs' :
  reads_only flags -> c_dev fs = d -> ext2_open fuel name flags mode de fs = Ok ((h, de'), fs') ->
  c_dev fs' = d /\ handle_clean h.
Proof.
  intros Hf Hd. unfold ext2_open. cbn [ext2_open_rec]. unfold open_with.
  intros (ok & fs1 & [= _ <-] & Hrun)%bind_inv. destruct (negb ok); [by injection Hrun as <- <- <-|].
  apply run_file_inv in Hrun as (s & Hbody & ->). apply bind_inv in Hbody as ([keep de1] & s1 & Hopen & Hrest).
  apply (open_body_clean _ fuel name flags mode de Hf) in Hopen as (Hd1 & Hb1 & Hw1); [|done].
  apply bind_inv in Hrest as (f & s2 & [= <- <-] & [= <- _ <-]). split; [done|]. by destruct keep.
Qed.
End queries.

(** * Properties *)
Section system_properties.
Context {D : Type} `{SafeDevice D, Env}.
Implicit Types (fs : cst D) (h : handle).

(** C29: every call preserves the types of the program's data: on a well-typed mounted file system and a
    handle that is null, freed or a well-typed open file, a call that returns leaves both so, with the
    geometry and the size of the volume unchanged, whatever the volume contains and the device answers. *)
Theorem call_preserves_types c h fs h' fs' :
  call_ok c -> fs_ok fs -> handle_typed h -> run_call c h fs = Ok (h', fs') ->
  fs_ok fs' /\ handle_typed h' /\ frozen (c_ctx fs') = frozen (c_ctx fs) /\
  block_get_volume_size (c_dev fs') = block_get_volume_size (c_dev fs).
Proof.
  intros Hc Hfs Hh Hrun.
  apply (run_call_typed (frozen (c_ctx fs)) (block_get_volume_size (c_dev fs)) c h Hc Hh) in Hrun
    as [(Hfs' & Hg & Hv) Hh']; done.
Qed.

(** C9: in every history of opens and calls on any number of files over one mounted volume, the file system
    stays well-typed with the geometry it was mounted with on a device of the same size, every file that was
    opened is null, closed, or a live file with its magic number, a sector in its buffer and a well-formed
    inode, and a file that is closed stays closed. *)
Theorem reachable_invariant fs (S : system D) :
  fs_ok fs -> rtc step (mk_sys fs ∅) S ->
  fs_ok (sys_fs S) /\ frozen (c_ctx (sys_fs S)) = frozen (c_ctx fs) /\
  block_get_volume_size (c_dev (sys_fs S)) = block_get_volume_size (c_dev fs) /\
  map_Forall (fun _ h => handle_typed h) (sys_files S) /\
  forall id S', sys_files S !! id = Some FreedFile -> rtc step S S' -> sys_files S' !! id = Some FreedFile.
Proof.
  intros Hfs Hr.
  assert (Hinv : sys_typed (frozen (c_ctx fs)) (block_get_volume_size (c_dev fs)) S).
  { set (g := frozen (c_ctx fs)). set (v := block_get_volume_size (c_dev fs)).
    refine (rtc_ind_r (sys_typed g v) (mk_sys fs ∅) _ _ S Hr).
    { split; [split; [exact Hfs | done] | apply map_Forall_empty]. }
    intros S1 S2 _ Hst Hinv. eapply step_typed; [exact Hinv | exact Hst]. }
  destruct Hinv as [(Hok & Hg & Hv) Hfiles]. split; [done|]. split; [done|]. split; [done|]. split; [done|].
  intros id S' Hid Hrs. revert Hid. clear -Hrs.
  induction Hrs as [|S1 S2 S3 Hst _ IH]; [done|]. intros Hid. by apply IH, (step_freed _ _ _ Hst).
Qed.
End system_properties.

Section query_properties.
Context {D : Type} `{Env, BlockDevice D}.
Implicit Types (fs : cst D).

(** C10: a file opened without O_CREAT, O_WRONLY and O_RDWR never changes the device before it is closed:
    neither the open nor any sequence of reads, seeks, directory reads and status calls does, whatever
    they return, on any volume. *)
Theorem read_only_session_never_writes fuel name flags mode de h de' fs fs1 cs h' fs2 :
  reads_only flags -> ext2_open fuel name flags mode de fs = Ok ((h, de'), fs1) ->
  Forall (fun c => is_query c = true) cs -> run_calls cs h fs1 = Ok (h', fs2) ->
  c_dev fs1 = c_dev fs /\ c_dev fs2 = c_dev fs.
Proof.
  intros Hf Hopen Hcs Hrun. destruct (open_clean (c_dev fs) fuel name flags mode de fs h de' fs1 Hf eq_refl Hopen) as [Hd Hh].
  split; [done|]. by eapply run_queries_clean.
Qed.
End query_properties.
