(* ===== verification/Sample.v ===== *)
(** * A sample volume

    A 16 KiB image with 1024-byte blocks and two block groups of eight blocks,
    a root directory and one file, held by the host driver. The witnesses
    evaluate the operations on it.

    Blocks: 1 superblock, 2 descriptors, 3 block bitmap, 4 inode bitmap,
    5 inode table, 6 root directory, 7 file data; group 1 repeats the layout
    from block 9 on. *)
From S2P Require Import Prelude Layout OnDisk Device BlockPc Context.

Definition pad (n : nat) (l : list Z) : list Z := l ++ replicate (n - length l) 0.

Definition sample_sb : superblock :=
  mk_superblock 16 16 0 2 5 1 0 0 8 8 8 100 101 3 20 EXT2_SUPER_MAGIC EXT2_VALID_FS 1 0 99 0 0 0 0 0
    11 128 0 0 0 0 (replicate 16 7) (replicate 16 65) (replicate 64 0) 0 0 0 [0; 0]
    (replicate 16 0) 0 0 0 [1; 2; 3; 4] 0 [0; 0; 0] 0 0.
Definition sample_bg0 : block_group_descriptor := mk_bg 3 4 5 1 2 1 0 (replicate 12 0).
Definition sample_bg1 : block_group_descriptor := mk_bg 11 12 13 3 7 0 0 (replicate 12 0).

Definition sample_root : inode :=
  mk_inode 0x41ED 0 1024 50 51 52 0 0 3 2 0 0 (6 :: replicate 14 0) 0 0 0 0 (replicate 12 0).
Definition sample_file : inode :=
  mk_inode 0x81A4 1000 700 60 61 62 0 1000 1 2 0 0 (7 :: replicate 14 0) 0 0 0 0 (replicate 12 0).

(** ["."], [".."] and ["a.txt"]. *)
Definition sample_dir : list Z :=
  encode (mk_dir_header 2 12 1 2) ++ [46; 0; 0; 0] ++
  encode (mk_dir_header 2 12 2 2) ++ [46; 46; 0; 0] ++
  encode (mk_dir_header 8 1000 5 1) ++ [97; 46; 116; 120; 116].
Definition sample_data : list Z := (fun i => (i * i + 3) mod 256) <$> seqZ 0 700.

Definition blocks_with (bg0 bg1 : block_group_descriptor) : list (list Z) :=
  [ []; encode sample_sb; encode bg0 ++ encode bg1; [255]; [255; 0];
    replicate 128 0 ++ encode sample_root ++ replicate 640 0 ++ encode sample_file;
    sample_dir; sample_data; [];
    encode sample_sb; encode bg0 ++ encode bg1; [63]; [1]; []; []; [] ].
Definition sample_image : list Z := concat (pad 1024 <$> blocks_with sample_bg0 sample_bg1).
Definition sample_dev : pc_state := mk_pc 16384 (Image sample_image) 0.

Definition sample_ctx : ext2context :=
  mk_context 0 sample_sb 0 (replicate 512 0) 1 0 2 2 [1; 9].
Definition sample_cst : cst pc_state := mk_cst sample_ctx sample_dev ENONE 0.

(** The host the witnesses run on: a clock that ticks, memory that never runs out. *)
#[export] Instance sample_env : Env := {|
  env_time := fun n => 1700000000 + Z.of_nat n;
  env_malloc := fun _ => true;
  env_junk := replicate 512 0xAA;
  env_uid := 1000;
  env_gid := 1000
|}.

Lemma bytes_ok_check l : forallb (fun b => (0 <=? b) && (b <? 256)) l = true -> bytes_ok l.
Proof.
  intros Hall. apply Forall_forall. intros b Hb.
  apply (proj1 (List.forallb_forall _ _) Hall) in Hb. unfold is_byte. lia.
Qed.

Lemma sample_image_length : Z.of_nat (length sample_image) = 16384.
Proof. vm_compute. reflexivity. Qed.

Lemma sample_image_bytes : bytes_ok sample_image.
Proof. apply bytes_ok_check. vm_compute. reflexivity. Qed.

Lemma sample_dev_ok : dev_ok sample_dev.
Proof. split; [apply sample_image_length|]. split; [apply sample_image_bytes | done]. Qed.

Lemma sample_in_volume n : 0 <= n < 32 -> in_volume sample_dev n.
Proof. intros Hn. unfold in_volume. change (block_get_volume_size sample_dev) with 32. lia. Qed.

(** [cs_wf] by computation. *)
Lemma sample_sb_wf : cs_wf sample_sb.
Proof. split; [done|]. apply (bool_decide_unpack _). vm_compute. exact I. Qed.

Lemma sample_ctx_ok : ctx_ok sample_ctx.
Proof.
  split; [done | apply sample_sb_wf | | done | done].
  split; [done | by apply bytes_ok_replicate].
Qed.

Lemma sample_fs_ok : fs_ok sample_cst.
Proof. split; [apply sample_ctx_ok | apply sample_dev_ok]. Qed.

Lemma sample_tables g : 0 <= g < 2 -> tables_in_volume sample_ctx sample_dev g.
Proof.
  intros Hg i Hi. cbn in Hi. assert (g / 16 = 0) as Hg' by (apply Z.div_small; lia).
  assert (i = 0 \/ i = 1) as [-> | ->] by lia; eexists; (split; [reflexivity|]);
    apply sample_in_volume; unfold bg_lba, spb, bsz; rewrite Hg'; vm_compute; split; congruence.
Qed.
