(* ===== verification/Witnesses.v ===== *)
(** * Witnesses

    Every property with hypotheses is applied here to the sample volume, its
    hypotheses discharged by evaluation. *)
From S2P Require Import Prelude Layout OnDisk Device BlockPc Context Bitmap Super Copies Sample.

(** ** The host driver *)
Lemma sample_sector_ok k : is_byte k -> sector_ok (replicate 512 k).
Proof. intros Hk. split; [done | by apply bytes_ok_replicate]. Qed.

Lemma pc_write_read_witness :
  exists s', Pc.block_write 20 (replicate 512 7) sample_dev = Ok (0, s') /\
    Pc.block_read 20 (replicate 512 0) s' = Ok (0, replicate 512 7) /\ Pc.ok s' /\
    (forall m, in_volume sample_dev m -> m <> 20 ->
       Pc.block_read m (replicate 512 0) s' = Pc.block_read m (replicate 512 0) sample_dev).
Proof.
  by apply (pc_write_read sample_dev 20 (replicate 512 7) (replicate 512 0) sample_dev_ok);
    [apply sample_in_volume | apply sample_sector_ok |].
Defined.

Definition sample_host : host := mk_host (Some sample_image) true 16384.

(** ** Layout *)
Lemma sample_file_wf : cs_wf sample_file.
Proof. split; [done|]. apply (bool_decide_unpack _). vm_compute. exact I. Qed.

(** ** Bitmaps *)
Lemma sample_change_ok : change_ok sample_cst 7.
Proof.
  split; [apply sample_fs_ok | done | done | | by apply sample_tables |].
  - by apply sample_in_volume; vm_compute.
  - by apply sample_in_volume; vm_compute.
Qed.

Lemma sample_bitmap_lba : bitmap_lba (c_ctx sample_cst) (c_dev sample_cst) 7 = 3.
Proof. vm_compute. reflexivity. Qed.

Lemma sample_bitmap_bit : bitmap_bit (c_ctx sample_cst) 7 = 7.
Proof. vm_compute. reflexivity. Qed.

Lemma sample_bit_free : bit_get (dev_sector sample_dev 3) 7 = false.
Proof. vm_compute. reflexivity. Qed.

Lemma change_allocated_spec_witness :
  (exists rc s', ext2_change_allocated 7 EXT2_ALLOCATED 1 sample_cst = Ok (rc, s') /\
    rc = 0 /\
    (forall k', 0 <= k' -> bit_get (dev_sector (c_dev s') 3) k' =
       if k' =? 7 then true else bit_get (dev_sector sample_dev 3) k') /\
    (forall n, in_volume sample_dev n -> n <> 3 -> dev_sector (c_dev s') n = dev_sector sample_dev n) /\
    s_free_blocks_count (ctx_superblock (c_ctx s')) = 1) /\
  (exists rc s', ext2_change_allocated 7 EXT2_DEALLOCATED 0 sample_cst = Ok (rc, s') /\
    rc = -1 /\ c_dev s' = sample_dev /\ ctx_superblock (c_ctx s') = sample_sb).
Proof.
  pose proof (change_allocated_spec EXT2_ALLOCATED 1 sample_cst 7 sample_change_ok (or_introl eq_refl)) as H1.
  pose proof (change_allocated_spec EXT2_DEALLOCATED 0 sample_cst 7 sample_change_ok (or_intror eq_refl)) as H2.
  cbv zeta in H1, H2. rewrite sample_bitmap_lba, sample_bitmap_bit in H1, H2.
  change (c_dev sample_cst) with sample_dev in H1, H2. rewrite sample_bit_free in H1, H2. by split.
Defined.

(** ** The superblock *)
Lemma sample_readable ps : 0 <= ps < 30 -> readable sample_dev ps.
Proof.
  intros Hps. split; [|apply sample_dev_ok | lia | apply sample_in_volume; lia].
  split; [done | by apply bytes_ok_replicate].
Qed.

(** At sector 1 there is no superblock; at 0 there is one, of 16 KiB. *)
Lemma mount_refuses_witness :
  (exists s', ext2_mount 1 32 0 sample_cst = Ok (-1, s') /\ c_dev s' = sample_dev) /\
  (exists s', ext2_mount 0 15 0 sample_cst = Ok (-1, s') /\ c_dev s' = sample_dev) /\
  ext2_mount 0 16 0 sample_cst = mount_complete (mount_sb sample_dev 0) (probed 0 sample_cst).
Proof.
  assert (Hb : volume_bytes (mount_sb sample_dev 0) = 16384) by (vm_compute; reflexivity).
  assert (Hl : s_log_block_size (mount_sb sample_dev 0) = 0) by (vm_compute; reflexivity).
  pose proof (mount_refuses 1 32 0 sample_cst (sample_readable 1 ltac:(lia)) eq_refl) as [H1 _].
  pose proof (mount_refuses 0 15 0 sample_cst (sample_readable 0 ltac:(lia)) eq_refl) as [_ H15].
  pose proof (mount_refuses 0 16 0 sample_cst (sample_readable 0 ltac:(lia)) eq_refl) as [_ H16].
  change (c_dev sample_cst) with sample_dev in *. rewrite Hb, Hl in H15, H16. split; [|split].
  - apply H1. by vm_compute.
  - apply (H15 ltac:(lia) ltac:(lia)). lia.
  - apply (H16 ltac:(lia) ltac:(lia)); [vm_compute; reflexivity | lia].
Defined.

Lemma sample_mount_blocks : mount_blocks (mount_sb sample_dev 0) = [1; 9].
Proof. vm_compute. reflexivity. Qed.

Lemma sample_mountable : mountable sample_dev 0 32.
Proof.
  split; [by apply sample_readable | by vm_compute.. |].
  intros b. rewrite sample_mount_blocks, !elem_of_cons, elem_of_nil.
  intros [->|[->|[]]]; by apply sample_in_volume; vm_compute.
Qed.

(** The copies of the sample volume: groups 0 and 1, in the sectors 2 and 18. *)
Lemma sample_copy_sectors r : r = mount_sb sample_dev 0 \/ r = sample_sb ->
  kept_copy r 0 /\ copy_sector r 0 0 = 2 /\ kept_copy r 1 /\ copy_sector r 0 1 = 18 /\
  s_log_block_size r = 0 /\ forall g, kept_copy r g -> g = 0 \/ g = 1.
Proof.
  intros Hr. assert (group_count r = 2 /\ s_log_block_size r = 0 /\ copy_sector r 0 0 = 2 /\ copy_sector r 0 1 = 18) as (Hn & Hl & H0 & H1)
    by (destruct Hr as [-> | ->]; vm_compute; repeat split).
  assert (Hk : forall g, g = 0 \/ g = 1 -> kept_copy r g).
  { intros g Hg. apply every_copy_kept; [done | lia |]. split; [lia|]. intros _.
    destruct Hg as [-> | ->]; [by left | right; exists 3, 0; auto with lia]. }
  do 2 (split; [auto|]). do 2 (split; [auto|]). split; [done|]. intros g [[[Hg _] _] _]. lia.
Qed.

Lemma sample_kept_rest r n : r = mount_sb sample_dev 0 \/ r = sample_sb -> n <> 2 -> n <> 18 ->
  (forall g, kept_copy r g -> n <> copy_sector r 0 g) /\ (0 < s_log_block_size r -> n <> 0).
Proof.
  intros Hr H2 H18. destruct (sample_copy_sectors r Hr) as (_ & E0 & _ & E1 & Hl & Hg). split; [|lia].
  intros g [-> | ->]%Hg; congruence.
Qed.

Lemma mount_marks_mounted_witness :
  exists s', ext2_mount 0 32 0 sample_cst = Ok (0, s') /\ fs_ok s' /\ num_blockgroups (c_ctx s') = 2 /\
    decode (dev_sector (c_dev s') 2) = set_s_block_group_nr 1 (mounted_sb (u32 (env_time 2)) (mount_sb sample_dev 0)) /\
    decode (dev_sector (c_dev s') 18) = set_s_block_group_nr 9 (mounted_sb (u32 (env_time 2)) (mount_sb sample_dev 0)) /\
    (forall n, in_volume sample_dev n -> n <> 2 -> n <> 18 -> dev_sector (c_dev s') n = dev_sector sample_dev n).
Proof.
  destruct (mount_marks_mounted 0 32 0 sample_cst) as (s' & Hrun & Hok & _ & _ & Hn & _ & Hcp & Hrest & _);
    [apply sample_mountable | done | done |].
  change (c_dev sample_cst) with sample_dev in *. change (c_tick sample_cst) with 0%nat in *.
  assert (group_count (mount_sb sample_dev 0) = 2 /\ copy_block (mount_sb sample_dev 0) 0 = 1 /\ copy_block (mount_sb sample_dev 0) 1 = 9)
    as (Hg & B0 & B1) by (vm_compute; repeat split).
  destruct (sample_copy_sectors (mount_sb sample_dev 0)) as (K0 & E0 & K1 & E1 & _); [by left|].
  pose proof (Hcp 0 K0) as D0. pose proof (Hcp 1 K1) as D1. rewrite E0, B0 in D0. rewrite E1, B1 in D1. rewrite Hg in Hn.
  exists s'. split; [exact Hrun|]. split; [exact Hok|]. split; [exact Hn|]. split; [exact D0|]. split; [exact D1|].
  intros n Hv H2 H18. destruct (sample_kept_rest (mount_sb sample_dev 0) n) as [Hk Hf]; [by left | exact H2 | exact H18 |].
  by apply Hrest.
Defined.

Lemma sample_copies_ok : copies_ok sample_ctx sample_dev.
Proof.
  split; [done|]. intros b. cbn [superblock_blocks sample_ctx]. rewrite !elem_of_cons, elem_of_nil.
  intros [->|[->|[]]]; by apply sample_in_volume; vm_compute.
Qed.

Lemma sample_lists_copies : lists_copies sample_ctx.
Proof.
  assert (Hb : superblock_blocks sample_ctx = mount_blocks sample_sb) by (vm_compute; reflexivity).
  intros b. rewrite Hb. apply mount_blocks_known; [apply sample_ctx_ok | done].
Qed.

Lemma umount_marks_clean_witness :
  exists s', ext2_umount sample_cst = Ok (0, s') /\
    decode (dev_sector (c_dev s') 2) = set_s_block_group_nr 1 (set_s_state EXT2_VALID_FS sample_sb) /\
    decode (dev_sector (c_dev s') 18) = set_s_block_group_nr 9 (set_s_state EXT2_VALID_FS sample_sb) /\
    (forall n, in_volume sample_dev n -> n <> 2 -> n <> 18 -> dev_sector (c_dev s') n = dev_sector sample_dev n).
Proof.
  destruct (umount_marks_clean sample_cst) as (s' & Hrun & Hcp & Hrest & _);
    [apply sample_fs_ok | apply sample_copies_ok | apply sample_lists_copies |].
  change (ctx_superblock (c_ctx sample_cst)) with sample_sb in *. change (part_start (c_ctx sample_cst)) with 0 in *.
  change (c_dev sample_cst) with sample_dev in *.
  destruct (sample_copy_sectors sample_sb) as (K0 & E0 & K1 & E1 & _); [by right|].
  pose proof (Hcp 0 K0) as D0. pose proof (Hcp 1 K1) as D1. rewrite E0 in D0. rewrite E1 in D1.
  exists s'. split; [exact Hrun|]. split; [exact D0|]. split; [exact D1|].
  intros n Hv H2 H18. destruct (sample_kept_rest sample_sb n) as [Hk Hf]; [by right | exact H2 | exact H18 |]. by apply Hrest.
Defined.
