(* ===== verification/FileWitnesses.v ===== *)
(** * Witnesses for the properties of open files

    The regular file of the sample volume, inode 8, opened for reading and
    writing, with a clean buffer and a modified inode; its root directory, and
    paths that lead to the file and to nothing. *)
From S2P Require Import Prelude Layout OnDisk Device BlockPc Context Bitmap Super FileBuf Inode BlockMap Alloc FileIo Grow Directory Walk Lookup Sample Witnesses.

Definition sample_fe : file_ent :=
  mk_fe EMBEXT_MAGIC (EXT2_FLAG_READ + EXT2_FLAG_WRITE + EXT2_FLAG_FS_DIRTY) 100 8
    (mk_buffer (replicate 512 0) 0 0) sample_file ENONE.
Definition sample_fs : file_state pc_state := mk_fst sample_fe sample_cst.

Lemma sample_file_ok (f : file_ent) :
  bo_dirty (fe_buffer f) = 0 -> bo_buffer (fe_buffer f) = replicate 512 0 -> cs_wf (fe_inode f) ->
  file_ok (mk_fst f sample_cst).
Proof.
  intros Hd Hb Hi. split; [apply sample_fs_ok | | done | done].
  cbn [s_fe]. rewrite Hb. split; [done | by apply bytes_ok_replicate].
Qed.

Lemma sample_open : open_file sample_fs.
Proof. split; [|done]. apply sample_file_ok; [done | done | apply sample_file_wf]. Qed.

Lemma sample_view : view sample_fs = sample_dev.
Proof. reflexivity. Qed.

Lemma sample_ino_lba : ino_lba sample_ctx sample_dev 8 = 11.
Proof. vm_compute. reflexivity. Qed.

Lemma sample_ino_off : ino_off sample_ctx 8 = 384.
Proof. vm_compute. reflexivity. Qed.

Lemma sample_located : inode_located sample_ctx sample_dev 8.
Proof.
  split; [done | done | done | by apply (bool_decide_unpack _) | done | done | done | |].
  - by apply sample_in_volume; vm_compute.
  - rewrite sample_ino_lba. by apply sample_in_volume.
Qed.

Lemma flush_open_roundtrip_witness :
  exists s' s'', ext2_flush_inode sample_fs = Ok (0, s') /\
    ext2_open_inode 8 (mk_fst sample_fe (s_c s')) = Ok (0, s'') /\
    fe_inode (s_fe s'') = sample_file /\ fe_inode_number (s_fe s'') = 8 /\
    fe_cursor (s_fe s'') = 0 /\ fe_flags (s_fe s'') = EXT2_FLAG_READ.
Proof.
  apply (flush_open_roundtrip 8 sample_fs sample_fe).
  - apply sample_open.
  - done.
  - apply sample_located.
  - done.
  - by vm_compute.
  - done.
Defined.

(** A file whose thirteenth block is reached through block 7. *)
Definition indirect_file : inode :=
  mk_inode 0x81A4 1000 20000 60 61 62 0 1000 1 40 0 0 (7 :: replicate 11 0 ++ [7; 0; 0]) 0 0 0 0
    (replicate 12 0).
Definition indirect_fs : file_state pc_state :=
  mk_fst (mk_fe EMBEXT_MAGIC EXT2_FLAG_READ 0 8 (mk_buffer (replicate 512 0) 0 0) indirect_file ENONE)
    sample_cst.

Lemma block_from_offset_spec_witness :
  exists b s', ext2_block_from_offset 12800 indirect_fs = Ok (b, s') /\
    map_block sample_ctx sample_dev indirect_file 12 = Some b /\
    view s' = sample_dev /\ file_ok s' /\
    (exists bo, s_fe s' = set_fe_buffer bo (s_fe indirect_fs)) /\
    (exists d, s_c s' = set_dev d sample_cst).
Proof.
  apply (block_from_offset_spec 12800 indirect_fs); [| done |].
  - apply sample_file_ok; [done | done |]. split; [done|]. apply (bool_decide_unpack _). vm_compute. exact I.
  - exists 7. split; [done|]. split; [done|]. split; [|done]. by apply sample_in_volume; vm_compute.
Defined.

(** ** Reading and writing *)
Lemma sample_cursor_lba : cursor_lba sample_fs 7 = 14.
Proof. vm_compute. reflexivity. Qed.

Lemma sample_ready : block_ready sample_fs 7.
Proof.
  apply direct_ready; [apply sample_open | done | done | done | done |].
  rewrite sample_cursor_lba. by apply sample_in_volume.
Qed.

Lemma read_within_sector_witness :
  exists s', ext2_read 300 sample_fs = Ok ((300, slice 100 300 sample_data), s') /\
    fe_cursor (s_fe s') = 400 /\ view s' = sample_dev /\ file_ok s' /\
    i_size (fe_inode (s_fe s')) = 700 /\ i_block (fe_inode (s_fe s')) = i_block sample_file /\
    i_atime (fe_inode (s_fe s')) = u32 (env_time 0) /\
    has_flag (fe_flags (s_fe s')) EXT2_FLAG_FS_DIRTY = true.
Proof.
  replace (slice 100 300 sample_data) with (cursor_bytes sample_fs 7 (wanted sample_fs 300))
    by (vm_compute; reflexivity).
  by apply (read_within_sector 300 7 sample_fs sample_open sample_ready).
Defined.

Lemma sample_writable : writable sample_fs.
Proof. done. Qed.

Lemma write_within_sector_witness :
  exists s', ext2_write [1; 2; 3] sample_fs = Ok (3, s') /\ file_ok s' /\
    fe_cursor (s_fe s') = 103 /\ i_size (fe_inode (s_fe s')) = 700 /\
    i_block (fe_inode (s_fe s')) = i_block sample_file /\
    i_mtime (fe_inode (s_fe s')) = u32 (env_time 0) /\
    has_flag (fe_flags (s_fe s')) EXT2_FLAG_FS_DIRTY = true /\
    (forall m, in_volume sample_dev m -> dev_sector (view s') m =
       if decide (m = 14) then splice 100 [1; 2; 3] (dev_sector sample_dev 14)
       else dev_sector sample_dev m).
Proof.
  pose proof (write_within_sector [1; 2; 3] 7 sample_fs sample_open sample_writable sample_ready) as Hw.
  cbv zeta in Hw. rewrite sample_cursor_lba in Hw. apply Hw; [by repeat constructor | cbn; lia | done].
Defined.

Lemma transfers_overrun_buffer_witness :
  ext2_read 500 sample_fs = Fault OutOfBounds /\ ext2_write (replicate 413 0) sample_fs = Fault OutOfBounds.
Proof.
  destruct (transfers_overrun_buffer 7 sample_fs sample_open sample_ready) as [Hread Hwrite].
  split; [by apply Hread | by apply Hwrite].
Defined.

Lemma close_writes_back_witness :
  exists c', h_close (OpenFile sample_fe) sample_cst = Ok ((0, FreedFile), c') /\
    decode (slice 384 128 (dev_sector (c_dev c') 11)) = sample_file /\
    (forall m, in_volume sample_dev m -> m <> 11 -> dev_sector (c_dev c') m = dev_sector sample_dev m) /\
    h_close FreedFile c' = Fault BadPointer.
Proof.
  pose proof (close_writes_back 8 sample_fe sample_cst sample_open eq_refl sample_located eq_refl) as Hw.
  cbv zeta in Hw. change (view (mk_fst sample_fe sample_cst)) with sample_dev in Hw.
  change (c_ctx sample_cst) with sample_ctx in Hw.
  rewrite sample_ino_lba, sample_ino_off in Hw. exact Hw.
Defined.

(** ** Allocation *)
Lemma group_cases g : 0 <= g < 2 -> g = 0 \/ g = 1.
Proof. lia. Qed.

Lemma sample_table_in_volume : table_in_volume sample_fs.
Proof. intros g Hg. destruct (group_cases g Hg) as [-> | ->]; by apply sample_in_volume; vm_compute. Qed.

(** Inode 10, the second of group 1, is the one allocated. *)
Lemma sample_roomiest : roomiest bg_free_inodes_count sample_fs 1.
Proof.
  split; [done|]. split; [by vm_compute|]. split.
  - intros g Hg. destruct (group_cases g Hg) as [-> | ->]; by vm_compute.
  - intros g Hg. replace g with 0 by lia. by vm_compute.
Qed.

Lemma allocate_inode_first_free_witness :
  exists k s', ext2_allocate_inode sample_fs = Ok (0, s') /\ 0 <= k < 8 /\
    bitmap_at sample_ctx sample_dev 12 k = false /\
    (forall k', 0 <= k' < k -> bitmap_at sample_ctx sample_dev 12 k' = true) /\
    fe_inode_number (s_fe s') = u32 (8 * 1 + k + 1) /\
    s_free_inodes_count (ctx_superblock (c_ctx (s_c s'))) =
      u32 (s_free_inodes_count sample_sb - 1) /\
    forall n, in_volume sample_dev n ->
      (forall b', b' ∈ [1; 9] -> n <> sb_lba sample_ctx b') ->
      dev_sector (c_dev (s_c s')) n =
        if n =? block_lba sample_ctx 12 (k / 8) then bit_put (k mod 4096) true (dev_sector sample_dev n)
        else dev_sector sample_dev n.
Proof.
  assert (Hb : bg_inode_bitmap (bg_on_disk sample_ctx sample_dev (superblock_block sample_ctx) 1) = 12)
    by (vm_compute; reflexivity).
  pose proof (allocate_inode_first_free sample_fs 1) as Hall. cbv zeta in Hall.
  change (c_ctx (s_c sample_fs)) with sample_ctx in Hall.
  change (c_dev (s_c sample_fs)) with sample_dev in Hall. rewrite Hb in Hall. apply Hall.
  - apply sample_open.
  - apply sample_table_in_volume.
  - apply sample_roomiest.
  - by apply sample_tables.
  - apply sample_copies_ok.
  - done.
  - intros i Hi. change (0 <= i < 1) in Hi. replace i with 0 by lia. by apply sample_in_volume; vm_compute.
  - exists 1. by vm_compute.
Defined.

(** Bit 6 of the block bitmap of group 1 is the first clear one: block 15 is claimed. *)
Lemma sample_roomiest_blocks : roomiest bg_free_blocks_count sample_fs 1.
Proof.
  split; [done|]. split; [by vm_compute|]. split.
  - intros g Hg. destruct (group_cases g Hg) as [-> | ->]; by vm_compute.
  - intros g Hg. replace g with 0 by lia. by vm_compute.
Qed.

(** Any file with a clean buffer on the sample volume. *)
Section sample_allocation.
Variable f : file_ent.
Hypothesis Hd : bo_dirty (fe_buffer f) = 0.
Hypothesis Hb : bo_buffer (fe_buffer f) = replicate 512 0.
Hypothesis Hi : cs_wf (fe_inode f).

Lemma sample_clean_view : view (mk_fst f sample_cst) = sample_dev.
Proof. unfold view. cbn [s_fe]. by rewrite Hd. Qed.

Lemma sample_view_change_ok n :
  8 <= n < 16 -> change_ok (set_dev (view (mk_fst f sample_cst)) (s_c (mk_fst f sample_cst))) n.
Proof.
  intros Hn. assert (n / 8 = 1) as Hq by (symmetry; apply (Z.div_unique _ _ _ (n - 8)); lia).
  pose proof (Z.mod_pos_bound n 8).
  assert (n mod 8 / 8 = 0) as Hm by (apply Z.div_small; lia).
  assert (Hlba : bitmap_lba sample_ctx sample_dev n = 11).
  { unfold bitmap_lba. change (s_blocks_per_group (ctx_superblock sample_ctx)) with 8.
    rewrite Hq, Hm. vm_compute. reflexivity. }
  rewrite sample_clean_view. change (change_ok (set_dev sample_dev sample_cst) n).
  split; change (s_blocks_per_group (ctx_superblock (c_ctx (set_dev sample_dev sample_cst)))) with 8.
  - apply sample_fs_ok.
  - lia.
  - by rewrite Hq.
  - rewrite Hq. by apply sample_in_volume; vm_compute.
  - rewrite Hq. by apply (sample_tables 1).
  - change (in_volume sample_dev (bitmap_lba sample_ctx sample_dev n)). rewrite Hlba. by apply sample_in_volume.
Qed.

Lemma sample_allocatable : allocatable (mk_fst f sample_cst) 1 6.
Proof.
  assert (Hbm : group_bitmap (mk_fst f sample_cst) 1 = 11) by (vm_compute; reflexivity).
  split; rewrite ?Hbm, ?sample_clean_view.
  - by apply sample_file_ok.
  - apply sample_table_in_volume.
  - apply sample_roomiest_blocks.
  - done.
  - intros i Hi'. change (0 <= i < 1) in Hi'. replace i with 0 by lia. by apply sample_in_volume; vm_compute.
  - done.
  - by vm_compute.
  - intros k' Hk'. assert (k' = 0 \/ k' = 1 \/ k' = 2 \/ k' = 3 \/ k' = 4 \/ k' = 5)
      as [-> |[-> |[-> |[-> |[-> | ->]]]]] by lia; by vm_compute.
  - done.
  - rewrite <- sample_clean_view. by apply sample_view_change_ok.
Qed.
End sample_allocation.

Lemma allocate_block_claims_next_witness :
  exists s', ext2_allocate_block 0 sample_fs = Ok (15, s') /\
    forall m, in_volume sample_dev m -> dev_sector (c_dev (s_c s')) m =
      if true && (m =? 11) then bit_put 7 true (dev_sector sample_dev m) else dev_sector sample_dev m.
Proof.
  assert (Hlba : bitmap_lba sample_ctx sample_dev 15 = 11) by (vm_compute; reflexivity).
  assert (Hbit : bit_get (dev_sector sample_dev 11) 7 = false) by (vm_compute; reflexivity).
  pose proof (allocate_block_claims_next sample_fs 1 6 0) as Hall. cbv zeta in Hall.
  change (c_ctx (s_c sample_fs)) with sample_ctx in Hall.
  change (s_blocks_per_group (ctx_superblock sample_ctx) * 1 + 6 + 1) with 15 in Hall.
  change (bitmap_bit sample_ctx 15) with 7 in Hall.
  change (view sample_fs) with sample_dev in Hall. rewrite Hlba, Hbit in Hall.
  apply Hall, sample_allocatable; [done | done | apply sample_file_wf].
Defined.

(** ** Writing into a hole *)

(** An empty file, and one whose second block is missing, the cursor in the hole. *)
Definition hole_fs (blocks : list Z) (cur : Z) : file_state pc_state :=
  mk_fst (mk_fe EMBEXT_MAGIC (EXT2_FLAG_READ + EXT2_FLAG_WRITE) cur 8 (mk_buffer (replicate 512 0) 0 0)
            (set_i_block blocks sample_file) ENONE) sample_cst.

Lemma hole_wf blocks :
  length blocks = 15%nat -> bool_decide (Forall2 fits (cs_widths inode) (cs_vals (set_i_block blocks sample_file))) = true ->
  cs_wf (set_i_block blocks sample_file).
Proof. intros Hl Hf. split; [by split|]. by apply bool_decide_eq_true in Hf. Qed.

Lemma write_into_hole_witness :
  exists s', ext2_write [1; 2; 3] (hole_fs (7 :: replicate 14 0) 1124) = Ok (3, s') /\
    file_ok s' /\ fe_cursor (s_fe s') = 1127 /\ i_size (fe_inode (s_fe s')) = 1127 /\
    i_block (fe_inode (s_fe s')) = 15 :: replicate 14 0 /\
    has_flag (fe_flags (s_fe s')) EXT2_FLAG_FS_DIRTY = true /\
    forall m, in_volume sample_dev m -> dev_sector (view s') m =
      if decide (m = 30) then splice 100 [1; 2; 3] (dev_sector sample_dev 30)
      else if decide (m = 11) then bit_put 7 true (dev_sector sample_dev m)
      else dev_sector sample_dev m.
Proof.
  assert (Hwf : cs_wf (set_i_block (7 :: replicate 14 0) sample_file)) by (apply hole_wf; [done | by vm_compute]).
  pose proof (write_into_hole [1; 2; 3] (hole_fs (7 :: replicate 14 0) 1124) 1 1 6) as Hw. cbv zeta in Hw.
  assert (Htaken : claim_taken (hole_fs (7 :: replicate 14 0) 1124) 15 = false) by (vm_compute; reflexivity).
  assert (Hlba : cursor_lba (hole_fs (7 :: replicate 14 0) 1124) 15 = 30) by (vm_compute; reflexivity).
  assert (Hclaim : claim_lba (hole_fs (7 :: replicate 14 0) 1124) 15 = 11) by (vm_compute; reflexivity).
  change (claimed_block (hole_fs (7 :: replicate 14 0) 1124) 1 6) with 15 in Hw.
  rewrite Htaken, Hlba, Hclaim in Hw.
  change (view (hole_fs (7 :: replicate 14 0) 1124)) with sample_dev in Hw.
  apply Hw.
  - split; [by apply sample_file_ok | reflexivity].
  - split; reflexivity.
  - split; [vm_compute; split; congruence | vm_compute; reflexivity | vm_compute; reflexivity | reflexivity].
  - by apply sample_allocatable.
  - apply (sample_in_volume 30). lia.
  - vm_compute. congruence.
  - by repeat constructor.
  - cbn. lia.
  - done.
Defined.

(** ** Directories *)

(** The path "/b/a.txt". *)
Lemma path_elements_spec_witness :
  path_elements (join_path [[98]; [97; 46; 116]]) = [[98]; [97; 46; 116]] /\
  Forall is_element (path_elements [47; 98; 47; 47; 99]) /\
  (length (path_elements [47; 98; 47; 47; 99]%Z) <= 100)%nat.
Proof.
  apply (path_elements_spec [[98]; [97; 46; 116]] [47; 98; 47; 47; 99]).
  - repeat constructor; done.
  - cbn. lia.
  - cbn. lia.
  - repeat constructor; done.
Defined.

(** The root directory, the cursor at its third record, "a.txt". *)
Definition sample_dir_fs : file_state pc_state :=
  mk_fst (mk_fe EMBEXT_MAGIC EXT2_FLAG_READ 24 2 (mk_buffer (replicate 512 0) 0 0) sample_root ENONE)
    sample_cst.

Lemma sample_dir_open : open_file sample_dir_fs.
Proof.
  split; [|done]. apply sample_file_ok; [done | done |].
  split; [done|]. apply (bool_decide_unpack _). vm_compute. exact I.
Qed.

Lemma sample_dir_ready : block_ready sample_dir_fs 6.
Proof.
  apply direct_ready; [apply sample_dir_open | done | done | done | done |].
  by apply sample_in_volume; vm_compute.
Qed.

Lemma readdir_entry_witness :
  exists s' de', ext2_readdir (mk_dirent 0 (replicate 256 0)) sample_dir_fs = Ok ((true, de'), s') /\
    d_ino de' = 8 /\ c_string (d_name de') = [97; 46; 116; 120; 116] /\
    length (d_name de') = 256%nat /\ fe_cursor (s_fe s') = 1024 /\ view s' = sample_dev /\
    open_file s' /\ i_size (fe_inode (s_fe s')) = 1024 /\
    i_block (fe_inode (s_fe s')) = i_block sample_root.
Proof.
  assert (Hh : record_header sample_dir_fs 6 = mk_dir_header 8 1000 5 1) by (vm_compute; reflexivity).
  assert (Hn : record_name sample_dir_fs 6 = [97; 46; 116; 120; 116]) by (vm_compute; reflexivity).
  pose proof (readdir_entry 6 sample_dir_fs (mk_dirent 0 (replicate 256 0))
    sample_dir_open sample_dir_ready eq_refl) as Hrd.
  cbv zeta in Hrd. rewrite Hh, Hn in Hrd.
  apply Hrd; [by split | by vm_compute..].
Defined.

(** ** Paths *)

(** The inodes of the root directory and of the file, as read from the device. *)
Lemma sample_root_inode : inode_on_disk sample_ctx sample_dev 2 = sample_root.
Proof. vm_compute. reflexivity. Qed.

Lemma sample_root_located : inode_located sample_ctx sample_dev 2.
Proof.
  split; [done | done | done | by apply (bool_decide_unpack _) | done | done | done | |];
    by apply sample_in_volume; vm_compute.
Qed.

Lemma sample_root_wf : cs_wf sample_root.
Proof. split; [done|]. apply (bool_decide_unpack _). vm_compute. exact I. Qed.

(** The three records of the root directory. *)
Lemma sample_record_here cur :
  cur = 0 \/ cur = 12 \/ cur = 24 -> record_here (at_pos sample_ctx sample_dev sample_root cur) 6.
Proof.
  intros Hcur.
  assert (Hr : block_ready (at_pos sample_ctx sample_dev sample_root cur) 6).
  { apply direct_ready; destruct Hcur as [-> |[-> | ->]]; try done;
      try (apply sample_file_ok; [done | done | apply sample_root_wf]);
      by apply sample_in_volume; vm_compute. }
  destruct Hcur as [-> |[-> | ->]]; (split; [exact Hr | by vm_compute..]).
Qed.

Definition sample_listing : list (Z * list Z) := [(2, [46]); (2, [46; 46]); (8, [97; 46; 116; 120; 116])].

Lemma sample_root_listing : listing sample_ctx sample_dev (inode_on_disk sample_ctx sample_dev 2) 0 sample_listing.
Proof.
  rewrite sample_root_inode.
  assert (Hstep : forall cur h name l, cur = 0 \/ cur = 12 \/ cur = 24 ->
    record_header (at_pos sample_ctx sample_dev sample_root cur) 6 = h ->
    c_string (record_name (at_pos sample_ctx sample_dev sample_root cur) 6) = name ->
    listing sample_ctx sample_dev sample_root (cur + dh_rec_len h) l ->
    listing sample_ctx sample_dev sample_root cur ((dh_inode h, name) :: l)).
  { intros cur h name l Hcur <- <- Hl. apply listing_record; [by apply sample_record_here | done]. }
  apply (Hstep 0 (mk_dir_header 2 12 1 2)); [by left | by vm_compute | by vm_compute |].
  apply (Hstep 12 (mk_dir_header 2 12 2 2)); [by right; left | by vm_compute | by vm_compute |].
  apply (Hstep 24 (mk_dir_header 8 1000 5 1)); [by right; right | by vm_compute | by vm_compute |].
  by apply listing_end.
Qed.

(** The paths "/a.txt" and "/b". *)
Definition path_a : list Z := [47; 97; 46; 116; 120; 116].
Definition path_b : list Z := [47; 98].

Lemma sample_walk_a : walk 3 sample_ctx sample_dev 2 (path_elements path_a) (Some 8).
Proof.
  apply (walk_step 3 _ _ 2 8 _ [] sample_listing);
    [apply sample_root_located | apply sample_root_listing | cbn; lia | done | apply walk_here].
Qed.

Lemma sample_walk_b : walk 3 sample_ctx sample_dev 2 (path_elements path_b) None.
Proof.
  apply (walk_missing 3 _ _ 2 _ [] sample_listing);
    [apply sample_root_located | apply sample_root_listing | cbn; lia | done].
Qed.

Definition no_dirent : dirent := mk_dirent 0 (replicate 256 0).

Lemma lookup_path_follows_walk_witness :
  exists de' s', ext2_lookup_path 3 path_a no_dirent sample_fs = Ok ((8, de'), s') /\ open_file s' /\
    c_dev (s_c s') = sample_dev /\ (Some 8 = None -> c_errno (s_c s') = ENOENT).
Proof.
  apply (lookup_path_follows_walk 3 path_a (Some 8) sample_fs no_dirent sample_open);
    [done | done | apply sample_walk_a].
Defined.

Lemma open_existing_file_witness :
  exists f de' c', ext2_open 3 path_a O_RDWR 0 no_dirent sample_cst = Ok ((OpenFile f, de'), c') /\
    open_file (mk_fst f c') /\ fe_inode f = sample_file /\ fe_inode_number f = 8 /\ fe_cursor f = 0 /\
    fe_flags f = EXT2_FLAG_READ + EXT2_FLAG_WRITE /\ c_dev c' = sample_dev.
Proof.
  assert (Hr : inode_on_disk sample_ctx sample_dev 8 = sample_file) by (vm_compute; reflexivity).
  pose proof (open_existing_file 3 path_a O_RDWR 0 no_dirent sample_cst 8) as Hopen.
  cbv zeta in Hopen. change (c_ctx sample_cst) with sample_ctx in Hopen.
  change (c_dev sample_cst) with sample_dev in Hopen. rewrite Hr in Hopen.
  apply Hopen; [apply sample_fs_ok | done | done | apply sample_walk_a | apply sample_located | done].
Defined.

Lemma open_missing_file_witness :
  exists de' c', ext2_open 3 path_b 0 0 no_dirent sample_cst = Ok ((NullFile, de'), c') /\
    c_errno c' = ENOENT /\ c_dev c' = sample_dev.
Proof.
  apply (open_missing_file 3 path_b 0 0 no_dirent sample_cst ENOENT);
    [apply sample_fs_ok | done | done | apply sample_walk_b | done | done | done].
Defined.
