(* ===== verification/SystemWitnesses.v ===== *)
(** * Witnesses for the properties of histories and of the debug printers

    The file of the sample volume is opened through its path, used and closed;
    the block bitmap of its first group is printed. *)
From stdpp Require Import gmap relations.
From S2P Require Import Prelude Hoare Layout OnDisk Device BlockPc Context FileBuf FileIo.
From S2P Require Import Directory Debug Typing TypingFile System Sample Witnesses FileWitnesses.

Lemma is_ok_inv {A} (r : res A) : is_ok r = true -> exists a, r = Ok a.
Proof. destruct r; [eauto | done]. Qed.

Lemma sample_handle_typed : handle_typed (OpenFile sample_fe).
Proof. split; [|split; [apply sample_file_wf | done]]. split; [done | by apply bytes_ok_replicate]. Qed.

Lemma call_preserves_types_witness :
  exists h' fs', run_call (CallWrite [1; 2; 3]) (OpenFile sample_fe) sample_cst = Ok (h', fs') /\
    fs_ok fs' /\ handle_typed h' /\ frozen (c_ctx fs') = frozen sample_ctx /\
    block_get_volume_size (c_dev fs') = block_get_volume_size sample_dev.
Proof.
  destruct (is_ok_inv (run_call (CallWrite [1; 2; 3]) (OpenFile sample_fe) sample_cst)) as ([h' fs'] & Hrun).
  - vm_compute. reflexivity.
  - exists h', fs'. split; [exact Hrun|].
    apply (call_preserves_types (CallWrite [1; 2; 3]) (OpenFile sample_fe) sample_cst h' fs').
    + by apply bytes_ok_check.
    + apply sample_fs_ok.
    + apply sample_handle_typed.
    + exact Hrun.
Defined.

(** Opening the file, and then a read and a seek, or closing it. *)
Definition sample_queries : list call := [CallRead 10; CallLseek 5 0; CallFstat; CallRead 3].

Lemma read_only_session_never_writes_witness :
  exists h de fs1 h' fs2, ext2_open 3 path_a 0 0 no_dirent sample_cst = Ok ((h, de), fs1) /\
    run_calls sample_queries h fs1 = Ok (h', fs2) /\ c_dev fs1 = sample_dev /\ c_dev fs2 = sample_dev.
Proof.
  assert (Hflags : reads_only 0) by (by split).
  assert (Hqueries : Forall (fun c => is_query c = true) sample_queries) by (by repeat constructor).
  destruct (is_ok_inv ((r ← ext2_open 3 path_a 0 0 no_dirent; run_calls sample_queries (fst r)) sample_cst)) as ([h' fs2] & Hrun).
  - vm_compute. reflexivity.
  - apply bind_inv in Hrun as ([h de] & fs1 & Hopen & Hrun). exists h, de, fs1, h', fs2.
    split; [exact Hopen|]. split; [exact Hrun|].
    exact (read_only_session_never_writes 3 path_a 0 0 no_dirent h de sample_cst fs1 sample_queries h' fs2
      Hflags Hopen Hqueries Hrun).
Defined.

Lemma reachable_invariant_witness :
  exists S, rtc step (mk_sys sample_cst ∅) S /\ sys_files S !! 0%nat = Some FreedFile /\
    fs_ok (sys_fs S) /\ frozen (c_ctx (sys_fs S)) = frozen sample_ctx /\
    block_get_volume_size (c_dev (sys_fs S)) = block_get_volume_size sample_dev /\
    map_Forall (fun _ h => handle_typed h) (sys_files S) /\
    forall id S', sys_files S !! id = Some FreedFile -> rtc step S S' -> sys_files S' !! id = Some FreedFile.
Proof.
  assert (Hpath : bytes_ok path_a) by (by apply bytes_ok_check).
  destruct (is_ok_inv ((r ← ext2_open 3 path_a 0 0 no_dirent; h ← run_call CallClose (fst r);
    if h is FreedFile then mret tt else throw BadPointer) sample_cst)) as ([u fs3] & Hrun).
  { vm_compute. reflexivity. }
  apply bind_inv in Hrun as ([h de] & fs1 & Hopen & Hrun). cbn [fst] in Hrun.
  apply bind_inv in Hrun as (h' & fs2 & Hclose & Hrun). destruct h'; [discriminate Hrun | clear Hrun | discriminate Hrun].
  exists (mk_sys fs2 (<[0%nat := FreedFile]> (<[0%nat := h]> ∅))).
  pose proof (rtc_l step _ _ _ (step_open 0 3 path_a 0 0 no_dirent h de sample_cst fs1 ∅ Hpath (lookup_empty _) Hopen)
    (rtc_once _ _ (step_call 0 CallClose h FreedFile fs1 fs2 _ (lookup_insert_eq _ _ _) I Hclose))) as Hr.
  split; [exact Hr|]. split; [apply lookup_insert_eq|].
  exact (reachable_invariant sample_cst _ sample_fs_ok Hr).
Defined.

Lemma print_bitmap_counts_witness :
  let used := ones (sectors_bytes sample_dev 6 2) in
  used = 8 /\
  exists out s', ext2_print_bg1_bitmap 2 sample_cst =
      Ok (out ++ [summary (8 * bsz sample_ctx) used (8 * bsz sample_ctx - used)], s') /\
    same_but_sysbuf sample_cst s'.
Proof.
  split; [vm_compute; reflexivity|].
  apply (print_bitmap_counts 2 sample_cst sample_fs_ok).
  - done.
  - by vm_compute.
  - by apply sample_in_volume.
  - intros i Hi. change (spb (c_ctx sample_cst)) with 2 in Hi. apply sample_in_volume.
    change (0 <= 6 + i < 32). lia.
Defined.
