(* ===== verification/ReleaseWitnesses.v ===== *)
(** * Witnesses for truncation

    [tree_dev] is the sample volume with an index block: block 7 holds the
    numbers 13 and 14, and the bytes the driver takes for the bitmaps have every
    bit set. [tree_file] has the direct blocks 9 and 10 and that index block. *)
From S2P Require Import Prelude Layout OnDisk Device BlockPc Context Bitmap Super FileBuf Inode BlockMap Alloc FileIo Directory Truncate Walk Lookup Reopen Sample Witnesses FileWitnesses.















(** The file "a.txt" of the sample volume has one block, 7. *)
Lemma sample_truncated : truncated_blocks sample_ctx sample_dev sample_file = [7].
Proof. vm_compute. reflexivity. Qed.

Lemma sample_group_7 : group_lba sample_cst 7 = 4.
Proof. vm_compute. reflexivity. Qed.

Lemma sample_truncatable : truncatable sample_cst 8 [7].
Proof.
  split; change (c_ctx sample_cst) with sample_ctx; change (c_dev sample_cst) with sample_dev.
  - apply sample_located.
  - constructor; [|constructor]. split; [apply sample_change_ok|].
    intros b' Hb'. apply list_elem_of_singleton in Hb' as ->. rewrite sample_group_7, sample_bitmap_lba. done.
  - apply (bool_decide_unpack _). vm_compute. exact I.
  - replace (inode_on_disk sample_ctx sample_dev 8) with sample_file by (vm_compute; reflexivity). constructor.
  - intros b' Hb'. apply list_elem_of_singleton in Hb' as ->. rewrite sample_ino_lba.
    change (11 <> bitmap_lba (c_ctx sample_cst) (c_dev sample_cst) 7). rewrite sample_bitmap_lba. done.
Qed.

Lemma truncation_not_written_back_witness :
  exists f de' c', ext2_open 3 path_a (O_RDWR + O_TRUNC) 0 no_dirent sample_cst = Ok ((OpenFile f, de'), c') /\
    fe_inode f = emptied sample_file /\ fe_cursor f = 0 /\
    h_close (OpenFile f) c' = Ok ((0, FreedFile), c') /\
    (forall b, b ∈ [7] ->
       bit_get (dev_sector (c_dev c') (bitmap_lba sample_ctx sample_dev b)) (bitmap_bit sample_ctx b) = false) /\
    dev_sector (c_dev c') 11 = dev_sector sample_dev 11 /\
    decode (slice 384 128 (dev_sector (c_dev c') 11)) = sample_file.
Proof.
  assert (Hr : inode_on_disk sample_ctx sample_dev 8 = sample_file) by (vm_compute; reflexivity).
  pose proof (truncation_not_written_back 3 path_a (O_RDWR + O_TRUNC) 0 no_dirent sample_cst 8) as Ht.
  cbv zeta in Ht. change (c_ctx sample_cst) with sample_ctx in Ht.
  change (c_dev sample_cst) with sample_dev in Ht.
  rewrite Hr, sample_truncated, sample_ino_lba, sample_ino_off in Ht. apply Ht.
  - apply sample_fs_ok.
  - done.
  - done.
  - apply sample_walk_a.
  - done.
  - done.
  - done.
  - apply sample_truncatable.
Defined.
