(* ===== verification/CreateWitnesses.v ===== *)
(** * Witnesses for directories that grow and files that persist

    In the sample volume the records of the root directory are at 0, 12 and 24 of
    block 6; the last one, "a.txt", has 1000 bytes. Inode 10, the second of group
    1, is the one a creation claims; its slot is in sector 26. *)
From S2P Require Import Prelude Layout OnDisk Device BlockPc Context Bitmap Super FileBuf Inode BlockMap Alloc FileIo FileSpec Directory Walk Lookup Append Create Persist Sample Witnesses FileWitnesses.

(** A file of one block: its sectors. *)
Lemma block_file_lba b p : 0 <= p < 1024 -> file_lba [b] sample_ctx p = 2 * b + p / 512.
Proof.
  intros Hp. unfold file_lba, block_lba. change (bsz sample_ctx) with 1024. change (part_start sample_ctx) with 0.
  change (spb sample_ctx) with 2. rewrite Z.div_small, Z.mod_small by lia. change (Z.to_nat 0) with 0%nat.
  change (default 0 ([b] !! 0%nat)) with b. lia.
Qed.

Lemma half_sector p : 0 <= p < 1024 -> 0 <= p / 512 < 2.
Proof. intros Hp. pose proof (Z.div_pos p 512). pose proof (Z.div_lt_upper_bound p 512 2). lia. Qed.

Lemma block_file_sector b m : file_sector [b] sample_ctx m -> 2 * b <= m < 2 * b + 2.
Proof.
  intros (p & Hp & ->). change (0 <= p < 1024) in Hp. rewrite block_file_lba by lia. pose proof (half_sector p Hp). lia.
Qed.

Lemma record_at_concrete data o i r m t :
  header_at data o = mk_dir_header i r m t -> 0 <= o -> 0 < i < 2147483648 -> 0 <= m -> o mod 512 + 8 + m <= 512 -> 8 + m <= r ->
  o + r <= Z.of_nat (length data) -> record_at data o.
Proof. intros Hh Ho Hi Hm Hs Hl He. split; rewrite ?Hh; cbn [dh_inode dh_rec_len dh_name_len]; lia. Qed.

(** ** The root directory, on any volume with the geometry of the sample *)
Section root.
Variables (d : pc_state) (records : list (Z * list Z)) (q i : Z) (nm : list Z).
Hypothesis Hvolume : forall m, 0 <= m < 32 -> in_volume d m.
Hypothesis Hroot : inode_on_disk sample_ctx d 2 = sample_root.
Hypothesis Hlba : ino_lba sample_ctx d 2 = 10.
Hypothesis Hdesc : ino_desc_lba sample_ctx 2 = 4.
Hypothesis Hlocated : inode_located sample_ctx d 2.
Hypothesis Hends : ends_with (file_bytes [6] sample_ctx d) records q i nm.

Lemma root_blocks : dir_blocks sample_ctx d sample_root [6].
Proof.
  split; [reflexivity | discriminate | cbn; lia | | apply NoDup_singleton | reflexivity |].
  - intros [|k] b Hb; [injection Hb as <-; split; [reflexivity | lia] | by destruct k].
  - intros p Hp. change (0 <= p < 1024) in Hp. rewrite block_file_lba by lia. apply Hvolume. pose proof (half_sector p Hp). lia.
Qed.

(** A path of one element goes through the sectors 4, 10, 12 and 13. *)
Lemma root_path_leads fuel path e ino (changed : Z -> Prop) :
  (length records + 1 <= fuel)%nat -> (forall m, changed m -> 3 <= m < 14 -> m = 11) ->
  path_elements path = [e] -> find_name e (records ++ [(i, nm)]) = Some ino ->
  path_leads fuel sample_ctx d path ino changed.
Proof.
  intros Hfuel Hch Hpath Hfind d' Hd' Hvol Hsec.
  assert (Hs : forall m, 3 <= m < 14 -> m <> 11 -> dev_sector d' m = dev_sector d m)
    by (intros m Hm Hne; apply Hsec; [apply Hvolume; lia | intros Hc; by apply Hne, Hch]).
  destruct (located_same sample_ctx d d' 2 Hvol) as [Hl Hloc]; [rewrite Hdesc; apply Hs; lia | exact Hlocated |].
  assert (Hr : inode_on_disk sample_ctx d' 2 = sample_root)
    by (rewrite <- Hroot; unfold inode_on_disk; rewrite Hl, Hlba, Hs by lia; reflexivity).
  rewrite Hpath. apply (walk_step fuel _ _ 2 ino _ [] (records ++ [(i, nm)]));
    [exact Hloc | | rewrite length_app; cbn [length]; lia | exact Hfind | apply walk_here].
  rewrite Hr. apply (ends_with_listing sample_ctx d' sample_root [6] sample_ctx_ok Hd' sample_root_wf) with (q := q).
  - destruct root_blocks as [Hsz Hne Hdir Hbl Hnd Hcap Hin]. split; [done | done | done | done | done | done |].
    intros p Hp. by apply Hvol, Hin.
  - rewrite (file_bytes_ext [6] sample_ctx d d'); [exact Hends|]. intros p Hp. change (0 <= p < 1024) in Hp.
    rewrite block_file_lba by lia. pose proof (half_sector p Hp). apply Hs; lia.
Qed.
End root.

(** ** The root directory of the sample volume *)
Definition sample_dir : list Z := file_bytes [6] sample_ctx sample_dev.

Lemma sample_dir_length : Z.of_nat (length sample_dir) = 1024.
Proof. vm_compute. reflexivity. Qed.

Lemma sample_headers :
  header_at sample_dir 0 = mk_dir_header 2 12 1 2 /\ header_at sample_dir 12 = mk_dir_header 2 12 2 2 /\
  header_at sample_dir 24 = mk_dir_header 8 1000 5 1.
Proof. vm_compute. repeat split. Qed.

Lemma sample_entries :
  entry_at sample_dir 0 = (2, [46]) /\ entry_at sample_dir 12 = (2, [46; 46]) /\
  entry_at sample_dir 24 = (8, [97; 46; 116; 120; 116]).
Proof. vm_compute. repeat split. Qed.

Lemma sample_record_24 : record_at sample_dir 24.
Proof.
  destruct sample_headers as (_ & _ & H24). apply (record_at_concrete _ _ _ _ _ _ H24); rewrite ?sample_dir_length; first [lia | done].
Qed.

Lemma sample_chain : chain sample_dir 0 [(2, [46]); (2, [46; 46])] 24.
Proof.
  destruct sample_headers as (H0 & H12 & _). destruct sample_entries as (E0 & E12 & _). rewrite <- E0, <- E12.
  apply chain_record; [apply (record_at_concrete _ _ _ _ _ _ H0); rewrite ?sample_dir_length; first [lia | done]|]. rewrite H0.
  apply chain_record; [apply (record_at_concrete _ _ _ _ _ _ H12); rewrite ?sample_dir_length; first [lia | done]|]. rewrite H12.
  apply chain_end.
Qed.

Lemma sample_ends_with : ends_with sample_dir [(2, [46]); (2, [46; 46])] 24 8 [97; 46; 116; 120; 116].
Proof.
  split; [exact sample_chain | exact sample_record_24 | apply sample_entries |].
  destruct sample_headers as (_ & _ & ->). rewrite sample_dir_length. reflexivity.
Qed.

(** The entry "b" for inode 10. *)
Lemma sample_room : room_for sample_dir 24 10 [98].
Proof.
  destruct sample_headers as (_ & _ & H24). split; rewrite ?H24, ?sample_dir_length.
  - exact sample_record_24.
  - reflexivity.
  - reflexivity.
  - vm_compute. congruence.
  - lia.
  - reflexivity.
  - by apply bytes_ok_check.
  - cbn. lia.
Qed.

(** The sectors that are read and written. *)
Lemma sample_lbas :
  ino_lba sample_ctx sample_dev 2 = 10 /\ ino_off sample_ctx 2 = 128 /\ ino_desc_lba sample_ctx 2 = 4 /\
  ino_lba sample_ctx sample_dev 10 = 26 /\ ino_off sample_ctx 10 = 128 /\ ino_desc_lba sample_ctx 10 = 4.
Proof. vm_compute. repeat split. Qed.

Lemma sample_dir_apart : dir_apart sample_ctx 2 [6] sample_dev.
Proof.
  destruct sample_lbas as (Hl & _ & Hd & _). split; rewrite ?Hl, ?Hd; [exact sample_root_located | | | lia];
    intros Hf%block_file_sector; lia.
Qed.

Lemma sample_directory fuel : direct_directory fuel sample_cst [] EXT2_ROOT_INO [6].
Proof.
  split; change (c_ctx sample_cst) with sample_ctx; change (c_dev sample_cst) with sample_dev;
    change EXT2_ROOT_INO with 2; rewrite ?sample_root_inode.
  - apply walk_here.
  - apply root_blocks, sample_in_volume.
  - apply sample_dir_apart.
Qed.

Lemma append_adds_entry_witness :
  let old := [(2, [46]); (2, [46; 46]); (8, [97; 46; 116; 120; 116])] in
  listing sample_ctx sample_dev sample_root 0 old /\
  exists de' c', ext2_append_to_directory 2 [] 10 [98] no_dirent sample_cst = Ok ((0, de'), c') /\
    listing sample_ctx (c_dev c') (inode_on_disk sample_ctx (c_dev c') 2) 0 (old ++ [(10, [98])]) /\
    forall m, in_volume sample_dev m -> m <> 10 -> ~ file_sector [6] sample_ctx m ->
      dev_sector (c_dev c') m = dev_sector sample_dev m.
Proof.
  pose proof (append_adds_entry 2 [] 10 [98] no_dirent sample_cst 2 [6] [] [(2, [46]); (2, [46; 46])] 24) as Happ.
  destruct sample_lbas as (Hl & _). cbv zeta in Happ. change (c_ctx sample_cst) with sample_ctx in Happ.
  change (c_dev sample_cst) with sample_dev in Happ. change (dir_bytes [6] sample_cst) with sample_dir in Happ.
  destruct sample_entries as (_ & _ & He). rewrite Hl, He, sample_root_inode in Happ.
  apply Happ; [apply sample_fs_ok | reflexivity | reflexivity | reflexivity | apply sample_directory | |
    exact sample_room | cbn; lia].
  split; [apply chain_end | exact sample_chain].
Defined.

(** ** A directory that is full

    The sample volume with a root directory whose last record has no room for a name of 250 bytes,
    and with free block bits where the driver keeps them. *)
Definition full_dir : list Z :=
  encode (mk_dir_header 2 12 1 2) ++ [46; 0; 0; 0] ++
  encode (mk_dir_header 2 488 2 2) ++ [46; 46] ++ replicate 478 0 ++
  encode (mk_dir_header 8 260 252 1) ++ replicate 252 98 ++
  encode (mk_dir_header 8 264 5 1) ++ [97; 46; 116; 120; 116].
Definition full_blocks : list (list Z) :=
  [ []; encode sample_sb; encode sample_bg0 ++ encode sample_bg1; [255]; [255; 0];
    replicate 128 0 ++ encode sample_root; full_dir; sample_data; [];
    encode sample_sb; encode sample_bg0 ++ encode sample_bg1; [0]; [1]; []; []; [] ].
Definition full_cst : cst pc_state :=
  mk_cst sample_ctx (mk_pc 16384 (Image (concat (pad 1024 <$> full_blocks))) 0) ENONE 0.

(** Appending to the full directory returns 0, but the block that was allocated for it has taken the
    place of block 6 in the inode, and the size, not a multiple of a block, refuses the next entry. *)
Lemma full_directory_loses_block :
  inode_on_disk sample_ctx (c_dev full_cst) 2 = sample_root /\
  match ext2_append_to_directory 4 [] 10 (replicate 250 99) no_dirent full_cst with
  | Ok ((rc, _), c) =>
      let r := inode_on_disk sample_ctx (c_dev c) 2 in (rc, i_block r, i_size r) = (0, 9 :: replicate 14 0, 1152)
  | Fault _ => False
  end.
Proof. split; vm_compute; reflexivity. Qed.

(** ** Writing to "a.txt", closing it and opening it again *)
(** The path goes through sectors 4, 10, 12 and 13. *)
Lemma sample_path_leads fuel (changed : Z -> Prop) :
  (3 <= fuel)%nat -> (forall m, changed m -> m = 11 \/ 14 <= m) ->
  path_leads fuel sample_ctx sample_dev path_a 8 changed.
Proof.
  intros Hfuel Hch. destruct sample_lbas as (Hl & _ & Hd & _).
  apply (root_path_leads sample_dev [(2, [46]); (2, [46; 46])] 24 8 [97; 46; 116; 120; 116]) with (e := [97; 46; 116; 120; 116]);
    [exact sample_in_volume | exact sample_root_inode | exact Hl | exact Hd | exact sample_root_located |
     exact sample_ends_with | cbn; lia | | reflexivity | reflexivity].
  intros m Hm Hr. apply Hch in Hm. lia.
Qed.

(** The same file, emptied: block 15 is claimed, whose second sector is 31. *)
Lemma first_write_persists_witness :
  exists s1 c1 f de' c2 s2 s3, ext2_write [1; 2; 3] (hole_fs (replicate 15 0) 700) = Ok (3, s1) /\
    h_close (OpenFile (s_fe s1)) (s_c s1) = Ok ((0, FreedFile), c1) /\
    ext2_open 3 path_a 0 0 no_dirent c1 = Ok ((OpenFile f, de'), c2) /\
    fe_inode_number f = 8 /\ i_block (fe_inode f) !! 0%nat = Some 15 /\
    ext2_lseek 700 SEEK_SET (mk_fst f c2) = Ok (700, s2) /\ ext2_read 3 s2 = Ok ((3, [1; 2; 3]), s3).
Proof.
  assert (Hwf : cs_wf (set_i_block (replicate 15 0) sample_file)) by (apply hole_wf; [done | by vm_compute]).
  set (s := hole_fs (replicate 15 0) 700).
  assert (Hlba : cursor_lba s 15 = 31) by (vm_compute; reflexivity).
  assert (Hclaim : claim_lba s 15 = 11) by (vm_compute; reflexivity).
  assert (Htaken : claim_taken s 15 = false) by (vm_compute; reflexivity).
  assert (Hd : ino_desc_lba sample_ctx 8 = 4) by (vm_compute; reflexivity).
  assert (Hb : claimed_block s 1 6 = 15) by (vm_compute; reflexivity).
  pose proof (first_write_persists 3 path_a no_dirent [1; 2; 3] s 1 6 8) as Hw. cbv zeta in Hw. rewrite Hb in Hw.
  apply Hw; clear Hw.
  - split; [by apply sample_file_ok | reflexivity].
  - split; reflexivity.
  - reflexivity.
  - split; [vm_compute; split; congruence | vm_compute; reflexivity | vm_compute; reflexivity | reflexivity].
  - by apply sample_allocatable.
  - exact Htaken.
  - by apply bytes_ok_check.
  - cbn. lia.
  - vm_compute. congruence.
  - vm_compute. reflexivity.
  - split; change (c_ctx (s_c s)) with sample_ctx; change (view s) with sample_dev;
      rewrite ?Hlba, ?sample_ino_lba, ?Hd; [exact sample_located | apply sample_in_volume | ..]; lia.
  - change (c_ctx (s_c s)) with sample_ctx. rewrite Hclaim, Hd. lia.
  - reflexivity.
  - reflexivity.
  - change (c_ctx (s_c s)) with sample_ctx. change (view s) with sample_dev.
    rewrite Hclaim, Hlba, sample_ino_lba. apply sample_path_leads; [done | intros m Hm; lia].
Defined.
