(* ===== verification/DeepWitnesses.v ===== *)
(** * Witness for the creation of a file in a subdirectory of two blocks

    The sample volume with the directory "d" in its root: inode 8, whose blocks
    are 7, full with ".", ".." and "c", and 15, which holds "e" and has room. The
    path "/d/b" is created: inode 10, the second of group 1, whose slot is in
    sector 26, is claimed for it. *)
From S2P Require Import Prelude Layout OnDisk Device BlockPc Context Bitmap Super FileBuf Inode BlockMap Alloc FileIo FileSpec Directory Walk Lookup Append Create Sample Witnesses FileWitnesses CreateWitnesses.

Definition deep_inode : inode :=
  mk_inode 0x41ED 0 2048 50 51 52 0 0 2 4 0 0 (7 :: 15 :: replicate 13 0) 0 0 0 0 (replicate 12 0).
Definition deep_root_dir : list Z :=
  encode (mk_dir_header 2 12 1 2) ++ [46; 0; 0; 0] ++
  encode (mk_dir_header 2 12 2 2) ++ [46; 46; 0; 0] ++ encode (mk_dir_header 8 1000 1 2) ++ [100].
Definition deep_dir_first : list Z :=
  encode (mk_dir_header 8 12 1 2) ++ [46; 0; 0; 0] ++
  encode (mk_dir_header 2 12 2 2) ++ [46; 46; 0; 0] ++ encode (mk_dir_header 9 1000 1 1) ++ [99].
Definition deep_dir_last : list Z := encode (mk_dir_header 9 1024 1 1) ++ [101].
Definition deep_blocks : list (list Z) :=
  [ []; encode sample_sb; encode sample_bg0 ++ encode sample_bg1; [255]; [255; 0];
    replicate 128 0 ++ encode sample_root ++ replicate 640 0 ++ encode deep_inode;
    deep_root_dir; deep_dir_first; [];
    encode sample_sb; encode sample_bg0 ++ encode sample_bg1; [63]; [1]; []; []; deep_dir_last ].
Definition deep_image : list Z := concat (pad 1024 <$> deep_blocks).
Definition deep_dev : pc_state := mk_pc 16384 (Image deep_image) 0.
Definition deep_cst : cst pc_state := mk_cst sample_ctx deep_dev ENONE 0.

Lemma deep_dev_ok : dev_ok deep_dev.
Proof.
  assert (Hl : Z.of_nat (length deep_image) = 16384) by (vm_compute; reflexivity).
  assert (Hb : bytes_ok deep_image) by (apply bytes_ok_check; vm_compute; reflexivity).
  split; [exact Hl|]. split; [exact Hb | done].
Qed.

Lemma deep_fs_ok : fs_ok deep_cst.
Proof. split; [apply sample_ctx_ok | apply deep_dev_ok]. Qed.

Lemma deep_in_volume n : 0 <= n < 32 -> in_volume deep_dev n.
Proof. intros Hn. unfold in_volume. change (block_get_volume_size deep_dev) with 32. lia. Qed.

(** The sectors that are read and written. *)
Lemma deep_lbas :
  ino_lba sample_ctx deep_dev 2 = 10 /\ ino_desc_lba sample_ctx 2 = 4 /\
  ino_lba sample_ctx deep_dev 8 = 11 /\ ino_desc_lba sample_ctx 8 = 4 /\
  ino_lba sample_ctx deep_dev 10 = 26 /\ ino_desc_lba sample_ctx 10 = 4.
Proof. vm_compute. repeat split. Qed.

Definition deep_bl : list Z := [7; 15].

Lemma deep_file_lba p : 0 <= p < 2048 -> file_lba deep_bl sample_ctx p = (if p <? 1024 then 14 else 28) + p / 512.
Proof.
  intros Hp. unfold file_lba, block_lba. change (bsz sample_ctx) with 1024. change (part_start sample_ctx) with 0.
  change (spb sample_ctx) with 2. pose proof (Z.div_mod p 1024 ltac:(lia)) as Hdm. destruct (Z.ltb_spec p 1024).
  - rewrite Z.div_small, Z.mod_small by lia. change (default 0 (deep_bl !! Z.to_nat 0)) with 7. lia.
  - assert (Hq : p / 1024 = 1) by (symmetry; apply (Z.div_unique p 1024 1 (p - 1024)); lia). rewrite Hq in *.
    replace (p mod 1024) with (p - 1024) by lia. change (default 0 (deep_bl !! Z.to_nat 1)) with 15.
    replace (p / 512) with ((p - 1024) / 512 + 2); [lia|]. rewrite <- Z.div_add by lia. f_equal. lia.
Qed.

Lemma deep_file_sector m : file_sector deep_bl sample_ctx m -> 14 <= m < 16 \/ 30 <= m < 32.
Proof.
  intros (p & Hp & ->). change (0 <= p < 2048) in Hp. rewrite deep_file_lba by lia.
  destruct (Z.ltb_spec p 1024); pose proof (Z.div_pos p 512); pose proof (Z.div_lt_upper_bound p 512 2);
    pose proof (Z.div_lt_upper_bound p 512 4); pose proof (Z.div_le_lower_bound p 512 2); lia.
Qed.

Lemma deep_inode_on_disk : inode_on_disk sample_ctx deep_dev 8 = deep_inode.
Proof. vm_compute. reflexivity. Qed.
Lemma deep_root_on_disk : inode_on_disk sample_ctx deep_dev 2 = sample_root.
Proof. vm_compute. reflexivity. Qed.

Lemma deep_located ino : ino = 2 \/ ino = 8 \/ ino = 10 -> inode_located sample_ctx deep_dev ino.
Proof.
  destruct deep_lbas as (H2 & Hd2 & H8 & Hd8 & H10 & Hd10).
  intros [-> |[-> | ->]]; (split; [lia | done | done | by apply (bool_decide_unpack _) | done | done | done | |]);
    rewrite ?H2, ?Hd2, ?H8, ?Hd8, ?H10, ?Hd10; apply deep_in_volume; lia.
Qed.

(** ** The records of the two directories *)
Definition deep_root_data : list Z := file_bytes [6] sample_ctx deep_dev.
Definition deep_data : list Z := file_bytes deep_bl sample_ctx deep_dev.

Lemma deep_lengths : Z.of_nat (length deep_root_data) = 1024 /\ Z.of_nat (length deep_data) = 2048.
Proof. vm_compute. split; reflexivity. Qed.

Lemma deep_headers data d0 i24 t24 :
  (data = deep_root_data /\ d0 = 2 /\ i24 = 8 /\ t24 = 2) \/ (data = deep_data /\ d0 = 8 /\ i24 = 9 /\ t24 = 1) ->
  header_at data 0 = mk_dir_header d0 12 1 2 /\ header_at data 12 = mk_dir_header 2 12 2 2 /\
  header_at data 24 = mk_dir_header i24 1000 1 t24.
Proof. intros [(-> & -> & -> & ->)|(-> & -> & -> & ->)]; vm_compute; repeat split. Qed.

Lemma deep_chain data d0 i24 t24 :
  header_at data 0 = mk_dir_header d0 12 1 2 -> header_at data 12 = mk_dir_header 2 12 2 2 ->
  header_at data 24 = mk_dir_header i24 1000 1 t24 -> 0 < d0 < 100 -> 0 < i24 < 100 -> 1024 <= Z.of_nat (length data) ->
  chain data 0 [entry_at data 0; entry_at data 12] 24 /\ record_at data 24.
Proof.
  intros H0 H12 H24 Hd0 Hi24 Hl. split; [|apply (record_at_concrete _ _ _ _ _ _ H24); first [lia | done]].
  apply chain_record; [apply (record_at_concrete _ _ _ _ _ _ H0); first [lia | done]|]. rewrite H0.
  apply chain_record; [apply (record_at_concrete _ _ _ _ _ _ H12); first [lia | done]|]. rewrite H12. apply chain_end.
Qed.

Lemma deep_entries :
  entry_at deep_root_data 0 = (2, [46]) /\ entry_at deep_root_data 12 = (2, [46; 46]) /\ entry_at deep_root_data 24 = (8, [100]) /\
  entry_at deep_data 0 = (8, [46]) /\ entry_at deep_data 12 = (2, [46; 46]) /\ entry_at deep_data 24 = (9, [99]) /\
  entry_at deep_data 1024 = (9, [101]).
Proof. vm_compute. repeat split. Qed.

Lemma deep_root_ends : ends_with deep_root_data [(2, [46]); (2, [46; 46])] 24 8 [100].
Proof.
  destruct deep_lengths as [Hl _]. destruct deep_entries as (E0 & E12 & E24 & _).
  destruct (deep_headers deep_root_data 2 8 2) as (H0 & H12 & H24); [left; repeat split|].
  destruct (deep_chain deep_root_data 2 8 2 H0 H12 H24) as [Hch Hr]; [lia..|]. rewrite E0, E12 in Hch.
  split; [exact Hch | exact Hr | exact E24 |]. rewrite H24, Hl. reflexivity.
Qed.

Definition deep_records : list (Z * list Z) := [(8, [46]); (2, [46; 46]); (9, [99])].

(** The records of the first block end where the second begins. *)
Lemma deep_first_block : chain deep_data 0 deep_records 1024.
Proof.
  destruct deep_lengths as [_ Hl]. destruct deep_entries as (_ & _ & _ & E0 & E12 & E24 & _).
  destruct (deep_headers deep_data 8 9 1) as (H0 & H12 & H24); [right; repeat split|].
  destruct (deep_chain deep_data 8 9 1 H0 H12 H24) as [Hch Hr]; [lia..|]. rewrite E0, E12 in Hch.
  apply (chain_app _ _ _ _ [(9, [99])] 1024 Hch). rewrite <- E24. apply chain_record; [exact Hr|].
  rewrite H24. apply chain_end.
Qed.

Lemma deep_last_header : header_at deep_data 1024 = mk_dir_header 9 1024 1 1.
Proof. vm_compute. reflexivity. Qed.

Lemma deep_last_record : record_at deep_data 1024.
Proof.
  destruct deep_lengths as [_ Hl]. apply (record_at_concrete _ _ _ _ _ _ deep_last_header); rewrite ?Hl; first [lia | done].
Qed.

(** ** The path "/d" *)
Lemma deep_path_leads fuel (changed : Z -> Prop) :
  (3 <= fuel)%nat -> (forall m, changed m -> m = 2 \/ m = 11 \/ 14 <= m) ->
  path_leads fuel sample_ctx deep_dev [47; 100] 8 changed.
Proof.
  intros Hfuel Hch. destruct deep_lbas as (Hl & Hd & _).
  apply (root_path_leads deep_dev [(2, [46]); (2, [46; 46])] 24 8 [100]) with (e := [100]);
    [exact deep_in_volume | exact deep_root_on_disk | exact Hl | exact Hd | apply deep_located; auto |
     exact deep_root_ends | cbn; lia | | reflexivity | reflexivity].
  intros m Hm Hr. apply Hch in Hm. lia.
Qed.

(** ** The creation of "/d/b" *)
Lemma deep_directory : direct_directory 5 deep_cst [47; 100] 8 deep_bl.
Proof.
  destruct deep_lbas as (_ & _ & H8 & Hd8 & _).
  assert (Hpath : path_leads 5 sample_ctx deep_dev [47; 100] 8 (fun _ => False)) by (apply deep_path_leads; [lia | tauto]).
  split; change (c_ctx deep_cst) with sample_ctx; change (c_dev deep_cst) with deep_dev; rewrite ?deep_inode_on_disk.
  - exact (path_leads_walk _ _ _ _ _ _ deep_dev_ok Hpath).
  - split; [reflexivity | discriminate | cbn; lia | | apply (bool_decide_unpack _); vm_compute; exact I | reflexivity |].
    + intros [|[|k]] b Hb; [injection Hb as <-; split; [reflexivity | lia] .. | by destruct k].
    + intros p Hp. apply deep_in_volume. assert (Hf : file_sector deep_bl sample_ctx (file_lba deep_bl sample_ctx p)) by (by exists p).
      apply deep_file_sector in Hf. lia.
  - split; rewrite ?H8, ?Hd8; [apply deep_located; auto | | | lia]; intros Hf%deep_file_sector; lia.
Qed.

Lemma deep_room : dir_has_room 5 deep_cst [47; 100] 8 deep_bl 10 deep_records [] 1024 [98].
Proof.
  destruct deep_lengths as [_ Hl]. destruct deep_entries as (_ & _ & _ & _ & _ & _ & He). pose proof deep_last_header as Hh.
  split; change (dir_bytes deep_bl deep_cst) with deep_data.
  - exact deep_directory.
  - split; change (dir_bytes deep_bl deep_cst) with deep_data; change (last_block deep_bl deep_cst) with 1024;
      [exact deep_first_block | apply chain_end].
  - split; rewrite ?Hh, ?Hl; [exact deep_last_record | reflexivity | reflexivity | vm_compute; congruence | lia |
      reflexivity | by apply bytes_ok_check | cbn; lia].
  - cbn. lia.
  - rewrite He. reflexivity.
  - split; [by repeat constructor | cbn; lia | reflexivity | reflexivity].
Qed.

Lemma deep_bitmap : inode_bitmap sample_ctx deep_dev 1 = 12.
Proof. vm_compute. reflexivity. Qed.

Lemma deep_inode_free : inode_free deep_cst 1 1.
Proof.
  assert (Hlba : forall g, 0 <= g < 2 -> bg_lba sample_ctx 1 g = 4)
    by (intros g Hg; destruct (group_cases g Hg) as [-> | ->]; vm_compute; reflexivity).
  split; change (c_ctx deep_cst) with sample_ctx; change (c_dev deep_cst) with deep_dev; rewrite ?deep_bitmap.
  - intros g Hg. change (in_volume deep_dev (bg_lba sample_ctx 1 g)). rewrite Hlba by done. apply deep_in_volume. lia.
  - split; [done|]. split; [by vm_compute|]. split.
    + intros g Hg. destruct (group_cases g Hg) as [-> | ->]; by vm_compute.
    + intros g Hg. replace g with 0 by lia. by vm_compute.
  - intros i Hi. destruct (sample_tables 1 ltac:(lia) i Hi) as (b & Hb & Hv). exists b. split; [exact Hb | exact Hv].
  - destruct sample_copies_ok as [Hf Hv]. split; [exact Hf | exact Hv].
  - reflexivity.
  - intros i Hi. change (0 <= i < 1) in Hi. replace i with 0 by lia.
    assert (block_lba sample_ctx 12 0 = 24) as -> by (vm_compute; reflexivity). apply deep_in_volume. lia.
  - change (0 <= 1 < 8). lia.
  - vm_compute. reflexivity.
  - intros k' Hk'. replace k' with 0 by lia. vm_compute. reflexivity.
Qed.

Lemma deep_claim_sector m : claim_sector sample_ctx deep_dev 1 1 m -> m = 2 \/ m = 18 \/ m = 24.
Proof.
  unfold claim_sector. rewrite deep_bitmap. assert (block_lba sample_ctx 12 (1 / 8) = 24) as -> by (vm_compute; reflexivity).
  change (superblock_blocks sample_ctx) with [1; 9]. intros [-> |(b' & Hb' & ->)]; [lia|].
  rewrite !elem_of_cons, elem_of_nil in Hb'. unfold sb_lba. change (spb sample_ctx) with 2. change (part_start sample_ctx) with 0.
  destruct Hb' as [-> |[-> |[]]]; lia.
Qed.

Lemma deep_claim_apart : claim_apart sample_ctx deep_dev 8 deep_bl 1 1 10.
Proof.
  destruct deep_lbas as (_ & _ & H8 & Hd8 & _ & Hd10). intros m Hm Hc%deep_claim_sector.
  unfold dir_sector in Hm. rewrite H8, Hd8, Hd10 in Hm.
  destruct Hm as [[-> |[-> |Hf%deep_file_sector]]| ->]; lia.
Qed.

Lemma deep_written_apart : written_apart sample_ctx deep_dev 8 deep_bl 10.
Proof.
  destruct deep_lbas as (_ & _ & H8 & Hd8 & H10 & Hd10).
  split; rewrite ?H8, ?Hd8, ?H10, ?Hd10; try lia; [apply deep_located; auto | ..]; intros Hf%deep_file_sector; lia.
Qed.

Lemma deep_path : path_leads 5 sample_ctx deep_dev [47; 100] 8
  (fun m => claim_sector sample_ctx deep_dev 1 1 m \/ entry_sector sample_ctx deep_dev 8 deep_bl 10 m).
Proof.
  destruct deep_lbas as (_ & _ & H8 & _ & H10 & _). apply deep_path_leads; [lia|]. unfold entry_sector. rewrite H8, H10.
  intros m [Hc%deep_claim_sector|[-> |[-> |Hf%deep_file_sector]]]; lia.
Qed.

Definition path_d_b : list Z := [47; 100; 47; 98].

Lemma create_file_found_witness :
  exists f de' c' t, ext2_open 5 path_d_b (O_CREAT + O_RDWR) 420 no_dirent deep_cst = Ok ((OpenFile f, de'), c') /\
    open_file (mk_fst f c') /\ fe_inode_number f = 10 /\ fe_cursor f = 0 /\
    fe_inode f = new_inode 420 (u32 (env_time t)) (u32 (env_time (S t))) (u32 (env_time (S (S t)))) /\
    inode_on_disk (c_ctx c') (c_dev c') 10 = fe_inode f /\
    forall de2, length (d_name de2) = 256%nat ->
      exists de3 s, ext2_lookup_path 5 path_d_b de2 (fresh_file c') = Ok ((10, de3), s) /\ c_dev (s_c s) = c_dev c'.
Proof.
  apply (create_file_found 5 [47; 100] [98] (O_CREAT + O_RDWR) 420 no_dirent deep_cst 8 deep_bl 1 1 deep_records [] 1024);
    [exact deep_fs_ok | reflexivity | reflexivity | reflexivity | reflexivity | reflexivity | exact deep_inode_free |
     exact deep_room | exact deep_claim_apart | exact deep_written_apart | exact deep_path].
Defined.
