(* ===== verification/TwinWitnesses.v ===== *)
(** * Witnesses for the file system as a table of byte arrays

    The sample volume with two files in its root directory: "a.txt", inode 8 in
    sector 11, whose block is 7, and "b", inode 9 in sector 26, whose block is 14.
    Their paths go through the sectors 4, 10, 12 and 13. *)
From stdpp Require Import gmap.
From S2P Require Import Prelude Hoare Layout OnDisk Device BlockPc Context Bitmap Super FileBuf Inode BlockMap Alloc FileIo FileSpec Files Directory Walk Lookup DeviceInv FileSystem Volume Append Sample Witnesses FileWitnesses CreateWitnesses.

Definition twin_file : inode :=
  mk_inode 0x81A4 1000 40 60 61 62 0 1000 1 2 0 0 (14 :: replicate 14 0) 0 0 0 0 (replicate 12 0).
Definition twin_dir : list Z :=
  encode (mk_dir_header 2 12 1 2) ++ [46; 0; 0; 0] ++ encode (mk_dir_header 2 12 2 2) ++ [46; 46; 0; 0] ++
  encode (mk_dir_header 8 16 5 1) ++ [97; 46; 116; 120; 116; 0; 0; 0] ++ encode (mk_dir_header 9 984 1 1) ++ [98].
Definition twin_blocks : list (list Z) :=
  [ []; encode sample_sb; encode sample_bg0 ++ encode sample_bg1; [255]; [255; 0];
    replicate 128 0 ++ encode sample_root ++ replicate 640 0 ++ encode sample_file;
    twin_dir; sample_data; [];
    encode sample_sb; encode sample_bg0 ++ encode sample_bg1; [127]; [1]; encode twin_file; replicate 40 5; [] ].
Definition twin_image : list Z := concat (pad 1024 <$> twin_blocks).
Definition twin_dev : pc_state := mk_pc 16384 (Image twin_image) 0.
Definition twin_cst : cst pc_state := mk_cst sample_ctx twin_dev ENONE 0.

Definition info_a : file_info := mk_info path_a 8 [7].
Definition info_b : file_info := mk_info path_b 9 [14].
Definition twin_infos : gmap nat file_info := {[1%nat := info_a; 2%nat := info_b]}.

Lemma twin_cases id fi : twin_infos !! id = Some fi -> (id = 1%nat /\ fi = info_a) \/ (id = 2%nat /\ fi = info_b).
Proof.
  unfold twin_infos. rewrite lookup_insert_Some, lookup_singleton_Some.
  intros [[<- <-]|(_ & <- & <-)]; auto.
Qed.

Lemma twin_dev_ok : dev_ok twin_dev.
Proof.
  assert (Hl : Z.of_nat (length twin_image) = 16384) by (vm_compute; reflexivity).
  assert (Hb : bytes_ok twin_image) by (apply bytes_ok_check; vm_compute; reflexivity).
  split; [exact Hl|]. split; [exact Hb | done].
Qed.

Lemma twin_fs_ok : fs_ok twin_cst.
Proof. split; [apply sample_ctx_ok | apply twin_dev_ok]. Qed.

Lemma twin_in_volume n : 0 <= n < 32 -> in_volume twin_dev n.
Proof. intros Hn. unfold in_volume. change (block_get_volume_size twin_dev) with 32. lia. Qed.

(** ** The sectors *)
Lemma twin_lbas :
  ino_lba sample_ctx twin_dev 2 = 10 /\ ino_desc_lba sample_ctx 2 = 4 /\
  ino_lba sample_ctx twin_dev 8 = 11 /\ ino_desc_lba sample_ctx 8 = 4 /\
  ino_lba sample_ctx twin_dev 9 = 26 /\ ino_desc_lba sample_ctx 9 = 4.
Proof. vm_compute. repeat split. Qed.

Lemma twin_located ino : ino = 2 \/ ino = 8 \/ ino = 9 -> inode_located sample_ctx twin_dev ino.
Proof.
  destruct twin_lbas as (H2 & Hd2 & H8 & Hd8 & H9 & Hd9).
  intros [-> |[-> | ->]]; (split; [lia | done | done | by apply (bool_decide_unpack _) | done | done | done | |]);
    rewrite ?H2, ?Hd2, ?H8, ?Hd8, ?H9, ?Hd9; apply twin_in_volume; lia.
Qed.

Lemma twin_slot_a : slot sample_ctx twin_dev info_a = 11.
Proof. apply twin_lbas. Qed.
Lemma twin_slot_b : slot sample_ctx twin_dev info_b = 26.
Proof. apply twin_lbas. Qed.

Lemma twin_written m : fs_sector sample_ctx twin_dev twin_infos m -> m = 11 \/ 14 <= m < 16 \/ m = 26 \/ 28 <= m < 30.
Proof.
  intros (id & fi & [(-> & ->)|(-> & ->)]%twin_cases & Hm); rewrite ?twin_slot_a, ?twin_slot_b in Hm;
    (destruct Hm as [Hm%block_file_sector| ->]; lia).
Qed.

(** ** The root directory *)
Definition twin_root_data : list Z := file_bytes [6] sample_ctx twin_dev.

Lemma twin_root_length : Z.of_nat (length twin_root_data) = 1024.
Proof. vm_compute. reflexivity. Qed.

Lemma twin_headers :
  header_at twin_root_data 0 = mk_dir_header 2 12 1 2 /\ header_at twin_root_data 12 = mk_dir_header 2 12 2 2 /\
  header_at twin_root_data 24 = mk_dir_header 8 16 5 1 /\ header_at twin_root_data 40 = mk_dir_header 9 984 1 1.
Proof. vm_compute. repeat split. Qed.

Lemma twin_entries :
  entry_at twin_root_data 0 = (2, [46]) /\ entry_at twin_root_data 12 = (2, [46; 46]) /\
  entry_at twin_root_data 24 = (8, [97; 46; 116; 120; 116]) /\ entry_at twin_root_data 40 = (9, [98]).
Proof. vm_compute. repeat split. Qed.

Definition twin_records : list (Z * list Z) := [(2, [46]); (2, [46; 46]); (8, [97; 46; 116; 120; 116])].

Lemma twin_ends : ends_with twin_root_data twin_records 40 9 [98].
Proof.
  destruct twin_headers as (H0 & H12 & H24 & H40). destruct twin_entries as (E0 & E12 & E24 & E40).
  pose proof twin_root_length as Hl.
  split; [| apply (record_at_concrete _ _ _ _ _ _ H40); rewrite ?Hl; first [lia | done] | exact E40 | by rewrite H40, Hl].
  unfold twin_records. rewrite <- E0, <- E12, <- E24.
  apply chain_record; [apply (record_at_concrete _ _ _ _ _ _ H0); rewrite ?Hl; first [lia | done]|]. rewrite H0.
  apply chain_record; [apply (record_at_concrete _ _ _ _ _ _ H12); rewrite ?Hl; first [lia | done]|]. rewrite H12.
  apply chain_record; [apply (record_at_concrete _ _ _ _ _ _ H24); rewrite ?Hl; first [lia | done]|]. rewrite H24. apply chain_end.
Qed.

Lemma twin_root_on_disk : inode_on_disk sample_ctx twin_dev 2 = sample_root.
Proof. vm_compute. reflexivity. Qed.

(** Both paths, on any device on which only the files and their inodes have changed. *)
Lemma twin_path_leads (changed : Z -> Prop) path ino e :
  (forall m, changed m -> 3 <= m < 14 -> m = 11) ->
  path_elements path = [e] -> find_name e (twin_records ++ [(9, [98])]) = Some ino ->
  path_leads 4 sample_ctx twin_dev path ino changed.
Proof.
  intros Hch Hpath Hfind. destruct twin_lbas as (Hl & Hd & _).
  apply (root_path_leads twin_dev twin_records 40 9 [98]) with (e := e);
    [exact twin_in_volume | exact twin_root_on_disk | exact Hl | exact Hd | apply twin_located; auto | exact twin_ends |
     cbn; lia | exact Hch | exact Hpath | exact Hfind].
Qed.

Lemma twin_layout : volume_layout 4 sample_ctx twin_dev twin_infos.
Proof.
  destruct twin_lbas as (_ & _ & _ & Hd8 & _ & Hd9).
  assert (Hoff : ino_off sample_ctx 8 = 384 /\ ino_off sample_ctx 9 = 0) by (vm_compute; split; reflexivity).
  split.
  - exact sample_ctx_ok.
  - reflexivity.
  - exact twin_dev_ok.
  - intros id fi [(_ & ->)|(_ & ->)]%twin_cases; cbn; lia.
  - intros id fi [(_ & ->)|(_ & ->)]%twin_cases; apply NoDup_singleton.
  - intros id fi [|k] b [(_ & ->)|(_ & ->)]%twin_cases Hb; first [injection Hb as <-; lia | by destruct k].
  - intros id fi [(_ & ->)|(_ & ->)]%twin_cases; reflexivity.
  - intros id fi p [(_ & ->)|(_ & ->)]%twin_cases Hp; change (0 <= p < 1024) in Hp; apply twin_in_volume;
      cbn [fi_blocks info_a info_b]; rewrite block_file_lba by done; pose proof (half_sector p Hp); lia.
  - intros i j fi fj Hne [(-> & ->)|(-> & ->)]%twin_cases [(-> & ->)|(-> & ->)]%twin_cases; try done;
      intros x; cbn [fi_blocks info_a info_b]; rewrite !list_elem_of_singleton; lia.
  - intros id fi [(_ & ->)|(_ & ->)]%twin_cases; apply twin_located; auto.
  - intros i j fi fj [(_ & ->)|(_ & ->)]%twin_cases [(_ & ->)|(_ & ->)]%twin_cases;
      rewrite ?twin_slot_a, ?twin_slot_b; intros Hx%block_file_sector; lia.
  - intros i j fi fj [(_ & ->)|(_ & ->)]%twin_cases [(_ & ->)|(_ & ->)]%twin_cases; cbn [fi_ino info_a info_b];
      rewrite ?Hd8, ?Hd9; intros Hx%block_file_sector; lia.
  - intros i j fi fj [(_ & ->)|(_ & ->)]%twin_cases [(_ & ->)|(_ & ->)]%twin_cases;
      rewrite ?twin_slot_a, ?twin_slot_b; cbn [fi_ino info_a info_b]; rewrite ?Hd8, ?Hd9; lia.
  - intros i j fi fj Hne [(-> & ->)|(-> & ->)]%twin_cases [(-> & ->)|(-> & ->)]%twin_cases; try done;
      rewrite ?twin_slot_a, ?twin_slot_b; lia.
  - assert (Hch : forall m, fs_sector sample_ctx twin_dev twin_infos m -> 3 <= m < 14 -> m = 11)
      by (intros m Hm%twin_written Hr; lia).
    intros id fi [(_ & ->)|(_ & ->)]%twin_cases; eapply (twin_path_leads _ _ _ _ Hch); reflexivity.
Qed.

(** ** The stored files *)
Definition stored_a : list Z * Z := (pad 1024 sample_data, 700).
Definition stored_b : list Z * Z := (pad 1024 (replicate 40 5), 40).
Definition twin_spec : fs_spec := mk_fs_spec {[1%nat := stored_a; 2%nat := stored_b]} ∅.
Definition twin_st : open_files pc_state := mk_open_files ∅ twin_cst.

Lemma twin_stored_a : stored_file sample_ctx info_a twin_dev stored_a.
Proof.
  assert (Hi : inode_on_disk sample_ctx twin_dev (fi_ino info_a) = sample_file) by (vm_compute; reflexivity).
  split; rewrite ?Hi; [vm_compute; reflexivity | reflexivity | vm_compute; congruence | | reflexivity].
  intros [|k] b Hb; [exact Hb | by destruct k].
Qed.

Lemma twin_stored_b : stored_file sample_ctx info_b twin_dev stored_b.
Proof.
  assert (Hi : inode_on_disk sample_ctx twin_dev (fi_ino info_b) = twin_file) by (vm_compute; reflexivity).
  split; rewrite ?Hi; [vm_compute; reflexivity | reflexivity | vm_compute; congruence | | reflexivity].
  intros [|k] b Hb; [exact Hb | by destruct k].
Qed.

Lemma twin_represents : represents sample_ctx twin_dev twin_infos twin_spec twin_st.
Proof.
  split; cbn [of_c of_files twin_st].
  - exact twin_fs_ok.
  - exists (sysbuf sample_ctx). reflexivity.
  - split; [exact twin_dev_ok | intros m; reflexivity | intros m _ _; reflexivity].
  - intros id fi [(-> & ->)|(-> & ->)]%twin_cases; [exact twin_stored_a | exact twin_stored_b].
  - intros id Hid. split; [|split; apply lookup_empty].
    unfold twin_infos in Hid. rewrite lookup_insert_None, lookup_singleton_None in Hid. destruct Hid as [Hb Ha].
    cbn [sp_stored twin_spec]. by rewrite lookup_insert_ne, lookup_singleton_ne.
Qed.

(** ** A history: both files open at once, one appended to, both closed and opened again *)
Definition twin_calls : list (nat * fs_op) :=
  [ (1%nat, OpenOp O_RDWR 0 no_dirent); (2%nat, OpenOp (O_WRONLY + O_APPEND) 0 no_dirent);
    (1%nat, FileOp (WriteOp [1; 2; 3])); (2%nat, FileOp (WriteOp [7; 8])); (1%nat, FileOp (WriteOp [4]));
    (2%nat, CloseOp); (1%nat, FileOp (SeekOp 1 SEEK_SET)); (1%nat, FileOp (ReadOp 4));
    (2%nat, OpenOp 0 0 no_dirent); (2%nat, FileOp (SeekOp (-3) SEEK_END)); (2%nat, FileOp (ReadOp 100));
    (2%nat, FileOp (WriteOp [0])); (1%nat, CloseOp); (1%nat, OpenOp 0 0 no_dirent); (1%nat, FileOp (ReadOp 5)) ].
Definition twin_answers : list answer :=
  [ Status 0; Status 0; Status 3; Status 2; Status 1; Status 0; Status 1; Bytes 4 ([2; 3; 4] ++ slice 4 1 sample_data);
    Status 0; Status 39; Bytes 3 [5; 7; 8]; Status (-1); Status 0; Status 0;
    Bytes 5 ([1; 2; 3; 4] ++ slice 4 1 sample_data) ].

Lemma twin_allowed : all_allowed fs_allowed spec_fs twin_calls twin_spec.
Proof. apply (bool_decide_unpack _). vm_compute. exact I. Qed.

Definition fs_answers (r : res (list answer * fs_spec)) : option (list answer) :=
  match r with Ok (rs, _) => Some rs | Fault _ => None end.

Lemma twin_runs : fs_answers (run_ops spec_fs twin_calls twin_spec) = Some twin_answers.
Proof. vm_compute. reflexivity. Qed.

Lemma file_system_refines_witness :
  exists st', run_ops (fs_run 4 twin_infos) twin_calls twin_st = Ok (twin_answers, st') /\
    forall m, in_volume twin_dev m -> ~ fs_sector sample_ctx twin_dev twin_infos m ->
      dev_sector (c_dev (of_c st')) m = dev_sector twin_dev m.
Proof.
  assert (Hmem : forall t, @env_malloc sample_env t = true) by reflexivity.
  pose proof (file_system_refines 4 sample_ctx twin_dev twin_infos twin_spec twin_st twin_calls twin_layout Hmem
    twin_represents twin_allowed) as Hrun. pose proof twin_runs as Hout.
  destruct (run_ops spec_fs twin_calls twin_spec) as [[rs b]|f]; [|discriminate Hout].
  injection Hout as ->. destruct Hrun as (st' & Hrun & _ & Hrest). exists st'. split; [exact Hrun | exact Hrest].
Defined.

(** ** Two sessions: what the first one wrote, the second one reads *)
Lemma twin_ctx : volume_ctx 0 twin_dev = sample_ctx.
Proof. vm_compute. reflexivity. Qed.

Lemma twin_mount_blocks : mount_blocks (mount_sb twin_dev 0) = [1; 9].
Proof. vm_compute. reflexivity. Qed.

Lemma twin_super m : super_sector 0 twin_dev m -> m = 2 \/ m = 18.
Proof.
  intros (b & Hb & ->). rewrite twin_mount_blocks, !elem_of_cons, elem_of_nil in Hb.
  destruct Hb as [-> |[-> |[]]]; [left | right]; vm_compute; reflexivity.
Qed.

Lemma twin_readable : readable twin_dev 0.
Proof. split; [exact (rd_junk _ _ (sample_readable 0 ltac:(lia))) | exact twin_dev_ok | lia | apply twin_in_volume; lia]. Qed.

Lemma twin_mountable : mountable twin_dev 0 32.
Proof.
  split; [exact twin_readable | vm_compute; first [reflexivity | congruence].. |].
  intros b Hb. apply twin_in_volume. assert (Hs : super_sector 0 twin_dev (mounted_sector (mount_sb twin_dev 0) 0 b)) by (by exists b).
  apply twin_super in Hs. lia.
Qed.

Lemma twin_volume : volume 4 0 32 twin_dev twin_infos.
Proof.
  destruct twin_lbas as (_ & _ & _ & Hd8 & _ & Hd9).
  split; unfold written_sector; rewrite ?twin_ctx.
  - exact twin_mountable.
  - exact twin_layout.
  - intros id fi Hfi.
    assert (Hch : forall m, fs_sector sample_ctx twin_dev twin_infos m \/ super_sector 0 twin_dev m -> 3 <= m < 14 -> m = 11)
      by (intros m [Hm%twin_written|Hm%twin_super] Hr; lia).
    destruct (twin_cases id fi Hfi) as [(_ & ->)|(_ & ->)]; eapply (twin_path_leads _ _ _ _ Hch); reflexivity.
  - intros m Hm%twin_super Hf%twin_written. lia.
  - intros m id fi Hm%twin_super [(_ & ->)|(_ & ->)]%twin_cases; cbn [fi_ino info_a info_b]; rewrite ?Hd8, ?Hd9; lia.
  - intros Hf%twin_written. lia.
Qed.

Definition twin_table : gmap nat (list Z * Z) := {[1%nat := stored_a; 2%nat := stored_b]}.

Lemma twin_holds : volume_holds 0 twin_dev twin_infos twin_table twin_cst.
Proof.
  split; rewrite ?twin_ctx; cbn [c_dev twin_cst].
  - exact twin_dev_ok.
  - reflexivity.
  - intros m. reflexivity.
  - intros m _ _. reflexivity.
  - reflexivity.
  - intros id fi [(-> & ->)|(-> & ->)]%twin_cases;
      [exists stored_a; split; [reflexivity | exact twin_stored_a] | exists stored_b; split; [reflexivity | exact twin_stored_b]].
  - intros id Hid. apply (rp_none _ _ _ _ _ twin_represents id Hid).
Qed.

Definition twin_sessions : list (list (nat * fs_op)) :=
  [ [ (1%nat, OpenOp O_RDWR 0 no_dirent); (2%nat, OpenOp (O_WRONLY + O_APPEND) 0 no_dirent);
      (1%nat, FileOp (WriteOp [1; 2; 3])); (2%nat, FileOp (WriteOp [7; 8])); (1%nat, CloseOp); (2%nat, CloseOp) ];
    [];
    [ (2%nat, OpenOp 0 0 no_dirent); (2%nat, FileOp SizeOp); (1%nat, OpenOp 0 0 no_dirent);
      (1%nat, FileOp (ReadOp 4)); (1%nat, CloseOp); (2%nat, CloseOp) ] ].
Definition twin_session_answers : list (list answer) :=
  [ [Status 0; Status 0; Status 0; Status 3; Status 2; Status 0; Status 0; Status 0];
    [Status 0; Status 0];
    [Status 0; Status 0; Status 42; Status 0; Bytes 4 ([1; 2; 3] ++ slice 3 1 sample_data); Status 0; Status 0; Status 0] ].

Lemma twin_sessions_allowed : all_allowed session_allowed spec_session twin_sessions twin_table.
Proof. apply (bool_decide_unpack _). vm_compute. exact I. Qed.

Definition session_answers (r : res (list (list answer) * gmap nat (list Z * Z))) : option (list (list answer)) :=
  match r with Ok (rs, _) => Some rs | Fault _ => None end.

Lemma twin_sessions_run : session_answers (run_ops spec_session twin_sessions twin_table) = Some twin_session_answers.
Proof. vm_compute. reflexivity. Qed.

Lemma volume_keeps_files_witness :
  exists s', run_ops (session_run 4 twin_infos 0 32 0) twin_sessions twin_cst = Ok (twin_session_answers, s').
Proof.
  assert (Hmem : forall t, @env_malloc sample_env t = true) by reflexivity.
  pose proof (volume_keeps_files 4 0 32 0 twin_dev twin_infos twin_table twin_cst twin_sessions twin_volume Hmem
    twin_holds twin_sessions_allowed) as Hrun. pose proof twin_sessions_run as Hout.
  destruct (run_ops spec_session twin_sessions twin_table) as [[rs b]|f]; [|discriminate Hout].
  injection Hout as ->. destruct Hrun as (s' & Hrun & _). exists s'. exact Hrun.
Defined.
