(* ===== verification/SessionWitnesses.v ===== *)
(** * Witnesses for the contract of open files

    A session on the regular file of the sample volume, block 7, which are the
    sectors 14 and 15. *)
From S2P Require Import Prelude Hoare Layout OnDisk Device BlockPc Context Bitmap Super FileBuf Inode BlockMap Alloc FileIo FileSpec Directory Walk Lookup Append Create Sample Witnesses FileWitnesses CreateWitnesses.

Lemma sample_file_lba p : 0 <= p < 1024 -> file_lba [7] sample_ctx p = 14 + p / 512.
Proof.
  intros Hp. unfold file_lba. change (bsz sample_ctx) with 1024.
  rewrite Z.div_small, Z.mod_small by lia. reflexivity.
Qed.

Lemma sample_sector_range m : file_sector [7] sample_ctx m -> 14 <= m < 16.
Proof.
  intros (p & Hp & ->). change (capacity [7] sample_ctx) with 1024 in Hp. rewrite sample_file_lba by lia.
  assert (0 <= p / 512 < 2) by (split; [apply Z.div_pos | apply Z.div_lt_upper_bound]; lia). lia.
Qed.

Lemma sample_laid_out : laid_out [7] sample_fs.
Proof.
  split; change (c_ctx (s_c sample_fs)) with sample_ctx; change (capacity [7] sample_ctx) with 1024.
  - exact sample_open.
  - cbn. lia.
  - intros [|k] b Hb; [|by destruct k]. injection Hb as <-. split; [reflexivity | lia].
  - apply NoDup_singleton.
  - intros p Hp. rewrite sample_view. apply sample_in_volume.
    assert (14 <= file_lba [7] sample_ctx p < 16); [|lia]. apply sample_sector_range. by exists p.
  - lia.
  - change (i_size (fe_inode (s_fe sample_fs))) with 700. lia.
  - change (fe_cursor (s_fe sample_fs)) with 100. lia.
  - intros Hdirty. destruct Hdirty. reflexivity.
Qed.

(** The session: a read, a write, a refused seek, a write past the end, and a look at the size. *)
Definition file_session : list file_op :=
  [ReadOp 4; WriteOp [1; 2; 3]; SeekOp (-5) SEEK_CUR; ReadOp 2; SeekOp (-200) SEEK_SET; SeekOp 10 SEEK_END;
   WriteOp [9; 8]; SizeOp; ReadOp 7; SeekOp 0 7].
Definition file_session_answers : list answer :=
  [Bytes 4 (slice 100 4 sample_data); Status 3; Status 102; Bytes 2 (slice 102 2 sample_data); Status (-1);
   Status 710; Status 2; Status 712; Bytes 0 []; Status (-1)].

Lemma file_session_allowed : all_allowed op_allowed spec_op file_session (abstract [7] sample_fs).
Proof. apply (bool_decide_unpack _). vm_compute. exact I. Qed.

(** What the specification says about a run, without the array. *)
Definition outcome (r : res (list answer * byte_file)) : option (list answer * Z * Z * bool * list Z) :=
  match r with
  | Ok (rs, a) => Some (rs, bf_size a, bf_cursor a, bf_touched a, slice 104 3 (bf_data a) ++ slice 709 3 (bf_data a))
  | Fault _ => None
  end.

Lemma file_session_runs : outcome (run_ops spec_op file_session (abstract [7] sample_fs)) =
  Some (file_session_answers, 712, 712, true, [1; 2; 3; 0; 9; 8]).
Proof. vm_compute. reflexivity. Qed.

Lemma file_refines_bytes_witness :
  exists s', run_ops file_op_run file_session sample_fs = Ok (file_session_answers, s') /\ laid_out [7] s' /\
    bf_size (abstract [7] s') = 712 /\
    forall m, in_volume sample_dev m -> ~ file_sector [7] sample_ctx m ->
      dev_sector (view s') m = dev_sector sample_dev m.
Proof.
  pose proof (file_refines_bytes [7] sample_fs file_session sample_laid_out file_session_allowed) as Hrun.
  pose proof file_session_runs as Hout.
  destruct (run_ops spec_op file_session (abstract [7] sample_fs)) as [[rs a]|f]; [|discriminate Hout].
  destruct Hrun as (s' & Hrun & Hl & Ha & Hf). injection Hout as -> Hsz _ _ _. exists s'.
  split; [exact Hrun|]. split; [exact Hl|]. split; [by rewrite Ha | exact Hf].
Defined.
